(* ===== verification/_CoqProject ===== *)
-Q . S2P
Prelude.v
GoLib.v
Sha256.v
Errors.v
Types.v
Json.v
Bundle.v
Validation.v
Gorm.v
World.v
Collectors.v
Dao.v
DaoFacts.v
Locks.v
Session.v
Migrations.v
MigrationFacts.v
Transactions.v
Services.v
Samples.v
ServiceFacts.v
ServiceWitnesses.v
Concurrency.v
Auth.v
Controllers.v
ControllerFacts.v
ControllerWitnesses.v
Reports.v
SourceClient.v
SourceClientFacts.v
Dispatcher.v
DispatcherFacts.v
Health.v
EventServer.v
EventServerFacts.v
Deletion.v
GrpcServer.v
GrpcMetrics.v
GrpcServerFacts.v
ListQuery.v
GenericList.v
Pager.v
Presenters.v
JsonStruct.v
GoMap.v
Models.v
ModelFacts.v
ModelAccessors.v
SliceFilter.v
Rest.v
RestFacts.v
Configuration.v
Url.v
CliConfig.v
ServerConfig.v
Factory.v
Environment.v
EnvironmentFacts.v
Lifecycle.v
Shutdown.v
CliOutput.v
OpenapiClient.v
ClientRequest.v
Wire.v
WireFacts.v
Middleware.v
MiddlewareFacts.v
Cli.v
CliFacts.v
CliPublishFacts.v
RestListFacts.v
RestWitnesses.v
WatcherStore.v
WorkClient.v
WatcherFacts.v
ServerWitnesses.v
MockClient.v
GrpcWitnesses.v
CliWitnesses.v
MetricsWitnesses.v
