(* ===== verification/Prelude.v ===== *)
(** * Maestro: a verification library

    Maestro keeps the desired state of Kubernetes resources (manifest bundles) for many
    clusters ("consumers") in PostgreSQL, sends it to the agents on those clusters as
    CloudEvents, and takes the status the agents report back. This library models its
    core, in Go under src/pkg and src/cmd/maestro, its client libraries and its command line
    clients, as executable Rocq functions and proves what makes them correct.

    ** How the program works, and which file models what

    - A request (gRPC or REST) reaches the services, which validate it, take an advisory
      lock, read and write the tables through the DAOs and add a row to the events table;
      every such row is announced with pg_notify. A REST request passes the
      middleware (operation id, log, metrics, transaction) and a handler first, and its
      answer a presenter; a gRPC call passes the metrics and the authentication
      interceptors.
    - The spec-event controller of some instance takes the announced event off a work
      queue, under a lock or a predicate, and calls the event server, which publishes the
      resource to its agent through the source client.
    - The agent's status comes back to the event server, which writes it (or deletes the
      resource the agent has removed) and adds a status event; the status-event controller
      of every instance broadcasts it to the subscribers connected to that instance and
      records that it has.
    - The health check keeps the set of ready instances; the dispatcher spreads the
      consumers over them; periodic tasks purge finished events, retire stale delete
      events and announce undelivered resources again.
    - The command line tool reads its settings from flags and environment, changes
      consumers through the generated REST client and resource bundles through gRPC.
    - A client of the gRPC source library lists resources page by page through the
      generated REST client and watches them through a store that hands every event to
      the registered watchers.

    The files, in dependency order, with the sources they translate:

    - [Prelude]: the state monad [M], [result], loops with an error ([for_err],
      [for_each]), the [always] guarantees with their hint database, tactics.
    - [GoLib], [Sha256], [Json]: the part of the Go standard library that is used
      (strings, strconv, fmt, fixed-width integers; crypto/sha256; encoding/json).
    - [Errors]: pkg/errors/errors.go. [Types]: pkg/api (the rows of the six tables and
      their gorm hooks). [Bundle]: pkg/api/resource_bundle.go. [Validation]:
      pkg/services/validation.go and util.go.
    - [Gorm], [World]: the database as the code sees it: a class of statements with their
      documented effect, and the world the operations transform (the tables as finite maps
      from primary key to row, the notifications, the rollback mark, the lock state, what
      was broadcast, a step counter that drives clock, UUIDs and failures).
    - [Collectors]: the Prometheus collectors of all packages, their registration and the
      functions that record a sample.
    - [Dao], [DaoFacts]: pkg/dao, one Module per DAO.
    - [Locks]: pkg/db/advisory_locks.go: [AdvisoryLockStore], [AdvisoryLockFactory], and
      the interface [LockFactory] the services are written against.
    - [Session]: the credentials and the listener loop of pkg/db/db_session/default.go,
      with the connection strings of pkg/config/db.go. [Factory]: the session
      factories of default.go and test.go there, over a process that remembers its once
      flags and the trace of what was opened, and cmd/maestro/migrate/cmd.go. [Migrations],
      [MigrationFacts]: pkg/db/migrations and pkg/db/migrations.go; the module [Ddl] is what
      the statements do to a schema. [Transactions]: pkg/db/transaction,
      pkg/db/transactions.go, context.go and transaction_middleware.go.
    - [Services], [ServiceFacts], [ServiceWitnesses]: pkg/services/event.go,
      status_event.go, consumer.go, resource.go, one Module each.
    - [Concurrency]: the writing calls of resource.go cut into
      stages at their database statements, and the step relation [sys_step] of any number
      of calls on any number of instances that interleave between stages.
    - [Controllers], [ControllerFacts], [ControllerWitnesses]: pkg/controllers
      (framework.go, event_filter.go, status_controller.go, stale_delete_detector.go,
      undelivered_detector.go). [Reports]: the gauges their Run methods set, and the DAO
      queries behind them.
    - [SourceClient], [SourceClientFacts]: pkg/client/cloudevents (codec.go,
      source_client.go). [MockClient]: source_client_mock.go there.
    - [Dispatcher], [DispatcherFacts]: pkg/dispatcher ([HashDispatcher],
      [NoopDispatcher]).
    - [Health]: cmd/maestro/server/healthcheck_server.go.
    - [EventServer], [EventServerFacts]: pkg/event/event.go and
      cmd/maestro/server/event_server.go, grpc_broker.go, controllers.go. [Deletion]: the
      steps of a deletion composed across these components.
    - [ListQuery]: pkg/services/types.go, pkg/db/sql_helpers.go and
      isJSONBSearch of pkg/services/generic.go. [GenericList]: the rest of generic.go and
      pkg/dao/generic.go.
    - [Presenters], [SliceFilter]: pkg/api/presenters; a Go struct seen through reflect is
      a value of [rval]. [Rest]: pkg/handlers and cmd/maestro/server/routes.go, with
      [serve_http] for a request through routes and middleware. [RestFacts],
      [RestListFacts], [RestWitnesses]: their theorems.
    - [JsonStruct], [GoMap]: encoding/json on structs and Go maps. [Models], [ModelFacts],
      [ModelAccessors]: the generated models of pkg/api/openapi (model_*.go), their JSON and
      their accessors. [Configuration]: configuration.go there.
    - [OpenapiClient]: pkg/api/openapi/api_default.go and client.go; [send] connects it to
      [serve_http]. [Wire], [WireFacts]: decode and setBody of client.go and what
      writeJSONResponse writes, as instances of the codecs of [Rest] and [OpenapiClient].
      [Url]: net/url. [ClientRequest]: prepareRequest and
      callAPI of client.go and what the server reads of the request.
    - [Middleware], [MiddlewareFacts]: the server around the handlers:
      pkg/logger/operationid_middleware.go, cmd/maestro/server/logging,
      metrics_middleware.go and the rest of routes.go; [serve_request] is a request through
      all of it.
    - [ServerConfig]: pkg/config, one Module per struct with its defaults and flags, and the
      files read into it. [Environment]: cmd/maestro/environments, servecmd/cmd.go and the
      starting parts of cmd/maestro/server (controllers.go, api_server.go,
      metrics_server.go); [EnvironmentFacts]: their theorems.
      [Lifecycle]: NewGRPCBroker and the two Start methods that may end the process.
      [Shutdown]: the threads of servecmd/cmd.go, of the three HTTP servers and of the gRPC
      server after the start, as a step function over their program counters.
    - [CliConfig], [CliOutput], [Cli]: cmd/maestro/common (clients, output),
      cmd/maestro/consumer and cmd/maestro/resourcebundle; [CliFacts], [CliPublishFacts]:
      the commands against the models of both servers.
    - [Pager]: pager.go of pkg/client/cloudevents/grpcsource.
      [WatcherStore], [WatcherFacts]: watch.go, watcherstore.go and
      util.go there; the goroutines of the store are the step relation [step].
      [WorkClient]: client.go there and the merge patch of util.go.
    - [Auth]: cmd/maestro/server/auth_interceptor.go and pkg/client/grpcauthorizer.
      [GrpcServer], [GrpcServerFacts]: cmd/maestro/server/grpc_server.go; an open
      subscription is the step relation [Subscription.step]. [GrpcMetrics]:
      metrics_interceptor.go.
    - [Samples], [ServerWitnesses], [GrpcWitnesses], [CliWitnesses], [MetricsWitnesses]:
      concrete instances of every interface and a small database, on which each theorem
      with hypotheses is instantiated.

    A method of the source is a definition of the same name in the Module of its
    receiver. It returns [M World A]: it takes the world and gives the answer and the
    world after it. A Go pair (value, error) is a [result]; a lone error is an [option].
    [defer f()] is a call of f on every way out of the body.

    ** What is a parameter

    Code that is not in the repository is a class with its operations, and a second class
    with the documented laws a theorem relies on: gorm ([Gorm], [GormLaws]), PostgreSQL's
    advisory locks ([PgAdvisory], [PgAdvisoryLaws]), the client-go work queue
    ([WorkQueue], [WorkQueueLaws]), the CloudEvents sdk ([CloudEvents], [EventOps],
    [CloudEventSource], [AgentEventServer], [SourceEvents]), the Kubernetes review API
    ([KubeClient]), the TLS files ([TLSFiles]), the consistent-hash ring ([Consistent],
    [ConsistentLaws]), apimachinery's validation ([K8s]), the snowflake library
    ([Snowflake]), the formatting of a time ([TimeFormat]), what database/sql's rollback
    reports ([SqlRollback]), the evaluation of a list query, which promises no order of the
    rows beyond the one asked for ([QueryStore], [QueryStoreLaws]), the search
    parser and its SQL printer ([SearchLib]), the text of a time and of a
    syntax error in JSON ([TimeJSON], [JsonSyntax]), the parser of durations ([Durations]),
    the dialling of gRPC ([GrpcDial]), a time of the clock as text ([ClockFormat]), the
    order in which a Go map is walked ([MapOrder]), the making of a spec event
    ([SpecEvents]), the Prometheus registry ([Prometheus]), gRPC's code for a context error
    ([GrpcStatus]), gorilla's compression ([CompressHandler]), pflag with the flags of klog ([Pflag],
    [PflagLaws]), the file system ([Files]), brokers, kubeconfigs and OpenTelemetry at
    start-up ([Connections]), the work API and label selectors ([WorkLib]), client-go's
    FIFO ([Fifo]), Azure's tokens with the PostgreSQL listener ([SessionLib]), gorm's migrator
    and gormigrate ([Migrator], [MigratorLaws], [Gormigrate], [GormigrateLaws]), a database
    server that opens pools and runs statements ([Server]), the merge-patch library
    ([PatchLib], [PatchLaws]), the sdk's work client ([SourceWorkClient],
    [SourceWorkClientLaws]), the event builder of the mock client ([MockEvents]), the usage
    of the notification queue ([NotificationQueue]) and a collation ([Collation]). In
    [ClientRequest] the multipart boundary, os.Open and http.DetectContentType are arguments. What the environment
    decides is the class [Env]: whether the n-th step fails in the driver, what the clock
    says, which UUID is drawn. Theorems hold for every environment, so for every pattern
    of failures, unless they ask for a step that succeeds.

    ** What the theorems show

    - Resource service: for every world and failure pattern, Create, Update, UpdateStatus
      and MarkAsDeleting do what a decision function computed from the tables says and
      nothing else ([Create_spec], [Update_spec], [UpdateStatus_spec],
      [MarkAsDeleting_spec]); Update finishes when nothing fails ([Update_completes]); a
      consumer in use cannot be deleted ([Consumer_Delete_spec]).
    - Interleaved calls: the stages are the calls of [Services] cut up and nothing else (the
      consistency check [stages_are_calls]); no two
      updates are made from the same version ([no_lost_update]), the version moves only
      by one and never under deletion ([version_steps]); a status may land on a later
      version than it reports on ([status_of_older_version]).
    - REST: one transaction per request, ended whatever happens, and what it does not undo
      ([TransactionMiddleware_spec], [newTransaction_leaks]); the three writing requests
      ([rest_create_spec], [rest_patch_spec], [rest_delete_spec]); no request sequence
      breaks the tables ([rest_keeps_tables_wf]); a list returns a page of the rows its query
      selects, deleted ones included, with their number ([List_returns_page]), an in-memory list never leaves its range
      ([determineListRange_spec]), and a request for selected fields is never answered
      ([list_fields_never_answered]).
    - Configuration: the environments' own flags are accepted in any order
      ([environment_flags_accepted]), reading the files succeeds exactly when each that
      counts is readable and the port a number ([ReadFiles_spec]), a process that starts is
      wired consistently ([server_wiring]), and DB_DEBUG changes nothing
      ([DB_DEBUG_ignored]).
    - Process: a process that leaves after a signal has answered every REST and metrics
      request ([shutdown_graceful]) and can always get there ([shutdown_completes]), while the
      pool may be closed under requests ([pool_closed_under_requests],
      [pool_closed_on_shutdown]) and gRPC calls may be cut off ([grpc_call_cut]); the
      broker's TLS follows its files ([NewGRPCBroker_spec]).
    - Database: the migrations end in a schema that fits the API types, with the keys and
      indexes the DAOs rely on ([migrated_schema], [MigrateTo_version]), all but the last
      can be rolled back ([rollback_restores], [last_rollback_fails]); a process opens one
      pool, panics never show the password ([prod_factory_once], [panic_redacted]), and what
      the test factory leaves open ([test_factory_pools], [initDatabase_hangs]).
    - HTTP server: a request goes through the whole stack unchanged and is recorded once,
      under one of nine paths and the status the client got ([serve_request_spec]).
    - Metrics: registering them cannot fail ([metrics_registered]); the interceptors change
      nothing and count every call once ([metered_Publish_spec], [metered_Subscribe_spec]).
    - Wire: client and server read what the other wrote ([wire_roundtrip]), with two
      exceptions: a list with an unknown member ([unknown_member_in_list]) and an integer of a
      document that no float64 is equal to ([large_number_rounded]); setters, getters
      and the JSON of the models agree ([accessors_spec]), Nullable values read back
      ([nullable_roundtrip], [nullable_list_roundtrip]); the server reads the path and the
      parameters of every request the client prepares ([request_roundtrip], [callAPI_sends]),
      and a form with a file is never sent ([form_file_fails]).
    - Command line: the connections are those the settings ask for ([clients_as_configured]);
      apply, with the document that arrives, delete and consumer update end to end, through
      client, wire and server ([apply_spec], [delete_spec], [consumer_update_spec]); the answer a consumer in use
      gives ([delete_conflict_unreachable]).
    - Client library: listing without a limit, through client, routes, middleware, handler
      and query, ends with as many items as there are resources, each of them a resource, and
      with every one once when the database keeps to one order ([rest_PageList_complete],
      [PageList_complete]); no order is asked for, and without one resources may be listed
      twice or not at all ([unordered_pages_repeat]);
      continue tokens cover the list ([continue_tokens_cover]), some limits are ignored
      ([PageList_limit_ignored]); watchers get what they want and nothing else in every
      interleaving ([watchers_served]), GetWatcher ([GetWatcher_spec],
      [second_watcher_keeps_selector]), the merge patch ([work_patch_spec]), one namespace for
      all handles ([last_namespace_wins]), and what a reader that stops reading does to the
      store ([unread_send_blocks_store]).
    - Sessions: every notification reaches the callback once ([listener_delivers]) and no
      connection uses a token about to expire ([setPassword_fresh]).
    - Locks: mutual exclusion, an invariant over all operation sequences, and lock/unlock
      as a round trip ([lock_mutual_exclusion], [lock_state_invariant],
      [lock_unlock_restores]); what is left open when the lock statement fails
      ([lock_error_leaks_transaction]).
    - Controllers: no event is lost, and one is marked exactly when its handlers and the
      statements succeed ([processNextEvent_no_loss], [handleEvent_reconciles]); the purges and detectors
      touch exactly what they should ([syncEvents_spec], [syncStatusEvents_spec],
      [StaleDeleteDetector_retires_only_stale],
      [UndeliveredDetector_republishes_only_undelivered]); the filter's lock is released
      ([handleEvent_releases_lock]); the gauges tell the age of the oldest open event and the
      last usage read ([reportOldestEvent_spec], [reportNotificationQueueUsage_spec]).
    - Event server: a refinement of the status-update flow to its decision
      ([HandleStatusUpdate_spec]), no resource disappears unannounced
      ([HandleStatusUpdate_announces_delete]), a status event counts as processed only
      after it was broadcast ([broadcastStatusEvent_spec]), the broker filter
      ([PredicateEvent_spec], [predicated_finished_requeued]), delivery to exactly the
      registered clients ([deliver_exactly]), and the composition of controller, event
      server and source client on outdated events ([stale_event_retired]).
    - Deletion: request, delete event, delete request to the agent and its last status, in
      one theorem: when nothing fails the row is gone in the end and announced
      ([deletion_completes]).
    - gRPC service: a call acts only for an authenticated caller the access review allows,
      and never panics ([serve_Publish_guarded]); requests without a version
      ([update_without_version]); a status resync is answered with the resources the source
      lists under another hash than their own ([respondResync_exact]);
      the invariant of an open subscription ([subscription_delivers_in_order]); and two
      behaviours a caller should know of ([delete_ignores_owner],
      [subscription_send_error_lost]).
    - Source client: what is published for an event ([SourceClient_publishes]), the
      resync covers every resource once in bounded batches ([resyncConsumer_covers]), the
      identity of a resource survives the codec ([Encode_Decode_identity]); the mock client
      ([OnDelete_spec], [OnDelete_panics], [OnUpdate_never_newer]).
    - Dispatcher and health check: each live consumer has one owner among the ready
      instances ([check_spec], [check_owner_unique]); instances are marked by their
      heartbeat ([checkInstances_sound], [checkInstances_complete], [pulse_spec]).
    - Data: round trips of JSON and of bundles ([Unmarshal_Marshal], [bundle_roundtrip]),
      bundle validation ([ValidateManifestBundle_accepts]), the order on sequence ids
      ([compareSequenceIDs_strict]), list arguments and search fields
      ([NewListArguments_bounds], [cleanOrderBy_sound]), and the check of a search tree, which
      renames every field or refuses the first that is not allowed ([FieldNameWalk_renames],
      [FieldNameWalk_spec]).

    ** Bounds and fuel

    The JSON parser runs on fuel equal to the length of its input plus one, which bounds
    the nesting ([Unmarshal_Marshal] shows it is enough for every printed value). The two
    batch loops run on the length of the list they cut, each turn taking at least one
    element. FieldNameWalk runs on the size of the search tree, which is enough and after
    which more changes nothing ([FieldNameWalk_terminates]). The pager's loop runs on fuel;
    the number of pages plus one is shown to be enough. Everything else is structural. Versions are 32-bit, list arguments
    64-bit, lock keys 32-bit hashes, with wrap-around written out.

    ** Simplifications, and what is not modelled

    Strings are byte strings and taken to be valid UTF-8. JSON numbers are integers; where the
    code decodes into an interface they are rounded to a float64 ([float64]), and a number
    out of its range is an error. A number is written with all its digits, where Go writes the
    fewest that read back as the same float64.
    reflect.DeepEqual on documents is equality of documents. Log lines other than those of
    the request log, and the samples taken inside services and controllers, are left out,
    and so are timers, TLS handshakes and sockets: a periodic task is one run of its body,
    and [Environment] says which tasks a process starts. In the sequential files an operation is one step of its instance;
    what other instances do between its statements is the subject of [Concurrency]
    (resource calls), of the lock theorems, which speak of arbitrary sequences of operations, and of the step
    relations of a subscription and of the watcher store. The broadcaster's channel is the
    list of what was handed over. The network between REST client and server is reliable,
    and HTTP headers other than the operation id have no effect. In [Shutdown]
    the requests and calls in flight are counts: what they do with a closed pool is not
    followed. Not modelled: CORS
    and spans, the cleaning of paths in the router, the registration of the commands with
    cobra, floating-point numbers (a gauge holds the exact rational), the goroutines that Run
    and Start of controllers and dispatchers begin (their bodies are), and, because they are
    no part of the running system, the mocks of pkg/dao/mocks and of the client packages, the
    example programs, the agent command, which only configures a library, and the generated
    copy of the API document.

    ** Plan

    What is left is the samples taken by services and controllers. *)

From stdpp Require Export base tactics option list gmap sets strings.
From Stdlib Require Export ZArith Lia Ascii.

(** ** Results of fallible Go calls *)

Inductive result (A E : Type) : Type :=
| Ok (a : A)
| Err (e : E).
Arguments Ok {A E} a.
Arguments Err {A E} e.

Definition is_ok {A E} (r : result A E) : bool :=
  match r with Ok _ => true | Err _ => false end.

Definition map_err {A E F} (f : E -> F) (r : result A E) : result A F :=
  match r with Ok a => Ok a | Err e => Err (f e) end.

#[export] Instance result_eq_dec {A E} `{EqDecision A, EqDecision E} : EqDecision (result A E).
Proof. solve_decision. Defined.

(** ** State passing

    Every effectful Go function is a function from the world it runs in to its
    result and the world it leaves. *)

Definition M (S A : Type) : Type := S -> A * S.

Definition ret {S A} (a : A) : M S A := fun s => (a, s).
Definition bind {S A B} (m : M S A) (f : A -> M S B) : M S B :=
  fun s => let '(a, s') := m s in f a s'.
Definition gets {S A} (f : S -> A) : M S A := fun s => (f s, s).
Definition modify {S} (f : S -> S) : M S unit := fun s => (tt, f s).

Declare Scope maestro_scope.
Delimit Scope maestro_scope with maestro.
Open Scope maestro_scope.

Notation "'let!' x := m 'in' k" := (bind m (fun x => k))
  (at level 10, x name, m at level 100, k at level 200) : maestro_scope.
Notation "'let!' ' p := m 'in' k" := (bind m (fun x => match x with p => k end))
  (at level 10, p pattern, m at level 100, k at level 200) : maestro_scope.
Notation "m '>>' k" := (bind m (fun _ => k)) (at level 100, k at level 200, right associativity)
  : maestro_scope.

(** A Go [for range] loop whose body may return early with an error. *)
Fixpoint for_err {S A E} (f : A -> M S (option E)) (l : list A) : M S (option E) :=
  match l with
  | [] => ret None
  | a :: l => let! e := f a in match e with Some e => ret (Some e) | None => for_err f l end
  end.

(** A loop that runs its body on every element. *)
Fixpoint for_each {S A} (f : A -> M S unit) (l : list A) : M S unit :=
  match l with
  | [] => ret tt
  | a :: l => f a >> for_each f l
  end.

Lemma bind_run {S A B} (m : M S A) (f : A -> M S B) s :
  bind m f s = let '(a, s') := m s in f a s'.
Proof. reflexivity. Qed.

Lemma ret_run {S A} (a : A) (s : S) : (ret a : M S A) s = (a, s).
Proof. reflexivity. Qed.

(** ** Automation *)

Create HintDb maestro.
(** operations that [always_auto] looks into *)
Create HintDb ops.
Create Rewrite HintDb maestro.

(** Unfold the monad and reduce the resulting lets. *)
Ltac mrun := cbn [bind ret gets modify fst snd]; cbn beta iota.
Ltac mrun_in H := cbn [bind ret gets modify fst snd] in H; cbn beta iota in H.

(** Case analysis on whatever the goal or a hypothesis is stuck on. *)
Ltac split_match :=
  match goal with
  | |- context [match ?x with _ => _ end] => destruct x eqn:?
  | H : context [match ?x with _ => _ end] |- _ => destruct x eqn:?
  end.
Ltac crush := repeat (simplify_eq/=; try split_match); simplify_eq/=; eauto with maestro.

(** ** Generic lemmas *)

Lemma for_err_None {S A E} (f : A -> M S (option E)) (P : S -> Prop) l s :
  (forall a s, P s -> P (f a s).2) -> P s -> P (for_err f l s).2.
Proof.
  intros Hf. revert s. induction l as [|a l IH]; intros s Hs; simpl; [done|].
  rewrite bind_run. specialize (Hf a s Hs). destruct (f a s) as [[e|] s']; simpl in *; auto.
Qed.

Lemma for_each_inv {S A} (f : A -> M S unit) (P : S -> Prop) l s :
  (forall a s, P s -> P (f a s).2) -> P s -> P (for_each f l s).2.
Proof.
  intros Hf. revert s. induction l as [|a l IH]; intros s Hs; simpl; [done|].
  rewrite bind_run. specialize (Hf a s Hs). destruct (f a s) as [[] s']; simpl in *; auto.
Qed.

(** ** What every run of a computation guarantees

    [always R m]: whatever the state [m] starts in, the state it leaves is related
    to it by the preorder [R]. Invariants, frame conditions and monotonicity are all
    of this form, and compose along the monad. *)

Definition always {S A} (R : relation S) (m : M S A) : Prop := forall s, R s (m s).2.

Section always.
Context {S : Type} (R : relation S) `{!PreOrder R}.

Lemma always_ret {A} (a : A) : always R (ret a).
Proof. intros s. simpl. reflexivity. Qed.
Lemma always_gets {A} (f : S -> A) : always R (gets f).
Proof. intros s. simpl. reflexivity. Qed.
Lemma always_bind {A B} (m : M S A) (f : A -> M S B) :
  always R m -> (forall a, always R (f a)) -> always R (bind m f).
Proof.
  intros Hm Hf s. rewrite bind_run. specialize (Hm s). destruct (m s) as [a s1]. simpl in Hm.
  etrans; [exact Hm|apply Hf].
Qed.
Lemma always_for_err {A E} (f : A -> M S (option E)) l :
  (forall a, always R (f a)) -> always R (for_err f l).
Proof.
  intros Hf. induction l as [|a l IH]; simpl; [apply always_ret|].
  apply always_bind; [apply Hf|]. intros [e|]; [apply always_ret|done].
Qed.
Lemma always_for_each {A} (f : A -> M S unit) l :
  (forall a, always R (f a)) -> always R (for_each f l).
Proof.
  intros Hf. induction l as [|a l IH]; simpl; [apply always_ret|].
  apply always_bind; [apply Hf|done].
Qed.
End always.

(** The preorder of keeping an invariant. *)
Definition keeps {S} (P : S -> Prop) : relation S := fun s s' => P s -> P s'.
#[export] Instance keeps_preorder {S} (P : S -> Prop) : PreOrder (keeps P).
Proof. split; unfold keeps; repeat intro; auto. Qed.

(** The preorder of leaving a component of the state as it is. *)
Definition frames {S A} (f : S -> A) : relation S := fun s s' => f s' = f s.
#[export] Instance frames_preorder {S A} (f : S -> A) : PreOrder (frames f).
Proof. split; unfold frames; repeat intro; congruence. Qed.

Ltac always_step :=
  lazymatch goal with
  | |- forall _, _ => intros ?
  | |- always _ (bind _ _) => apply always_bind; [typeclasses eauto| |]
  | |- always _ (ret _) => apply always_ret; typeclasses eauto
  | |- always _ (gets _) => apply always_gets; typeclasses eauto
  | |- always _ (for_err _ _) => apply always_for_err; [typeclasses eauto|]
  | |- always _ (for_each _ _) => apply always_for_each; [typeclasses eauto|]
  | |- always _ (match ?x with _ => _ end) => destruct x
  | |- always _ (let _ := _ in _) => cbv zeta
  end.
(** Decompose a computation down to the operations the hint database knows. *)
Ltac always_auto := repeat (first [always_step | solve [eauto with maestro] | progress cbv beta | progress autounfold with ops]).

Lemma always_weaken {S A} (R R' : relation S) (m : M S A) :
  (forall s s', R s s' -> R' s s') -> always R m -> always R' m.
Proof. intros Hw Hm s. apply Hw, Hm. Qed.

Lemma always_for_err_Forall {S A E} (R : relation S) `{!PreOrder R} (f : A -> M S (option E)) l :
  Forall (fun a => always R (f a)) l -> always R (for_err f l).
Proof.
  intros Hf. induction Hf as [|a l Ha _ IH]; simpl; [by apply always_ret|].
  apply always_bind; [done..|]. intros [e|]; [by apply always_ret|done].
Qed.
