(* ===== verification/GoLib.v ===== *)
(** * The part of the Go standard library the sources use

    Byte strings ([strings]), number parsing ([strconv]), formatting ([fmt]) and
    fixed-width integer conversion, as executable functions with the lemmas the
    components share. *)

From stdpp Require Export pretty.
From S2P Require Import Prelude.

(** ** Fixed-width integers *)

Module Int.

Open Scope Z_scope.

(** Conversion to a signed [w]-bit integer, two's complement. *)
Definition wrap (w x : Z) : Z := (x + 2 ^ (w - 1)) mod 2 ^ w - 2 ^ (w - 1).
Definition int32 (x : Z) : Z := wrap 32 x.
Definition int64 (x : Z) : Z := wrap 64 x.
Definition uint32 (x : Z) : Z := x mod 2 ^ 32.

Definition min_int64 : Z := - 2 ^ 63.
Definition max_int64 : Z := 2 ^ 63 - 1.
Definition max_uint64 : Z := 2 ^ 64 - 1.

Lemma wrap_range w x : 1 <= w -> - 2 ^ (w - 1) <= wrap w x < 2 ^ (w - 1).
Proof.
  intros Hw. unfold wrap.
  assert (2 ^ w = 2 * 2 ^ (w - 1)) as Hp.
  { replace w with (Z.succ (w - 1)) at 1 by lia. rewrite Z.pow_succ_r by lia. done. }
  assert (0 < 2 ^ w) by (apply Z.pow_pos_nonneg; lia).
  pose proof (Z.mod_pos_bound (x + 2 ^ (w - 1)) (2 ^ w)). lia.
Qed.

Lemma wrap_id w x : 1 <= w -> - 2 ^ (w - 1) <= x < 2 ^ (w - 1) -> wrap w x = x.
Proof.
  intros Hw Hx. unfold wrap.
  assert (2 ^ w = 2 * 2 ^ (w - 1)) as Hp.
  { replace w with (Z.succ (w - 1)) at 1 by lia. rewrite Z.pow_succ_r by lia. done. }
  rewrite Z.mod_small; lia.
Qed.

End Int.

(** ** Package [strings] *)

Module Strings.

Fixpoint Contains (s sub : string) : bool :=
  String.prefix sub s || match s with "" => false | String _ s => Contains s sub end.

Definition HasPrefix (s p : string) : bool := String.prefix p s.

(** [strings.Split] for a one-byte separator. *)
Fixpoint Split (s : string) (sep : ascii) : list string :=
  match s with
  | "" => [""]
  | String c s =>
      if decide (c = sep) then "" :: Split s sep
      else match Split s sep with
           | h :: t => String c h :: t
           | [] => [String c ""]
           end
  end.

Fixpoint Join (l : list string) (sep : string) : string :=
  match l with
  | [] => ""
  | [s] => s
  | s :: l => s +:+ sep +:+ Join l sep
  end.

(** strings.EqualFold, on ASCII *)
Definition fold_ascii (c : ascii) : ascii :=
  let n := nat_of_ascii c in if ((65 <=? n) && (n <=? 90))%nat then ascii_of_nat (n + 32) else c.
Fixpoint EqualFold (s t : string) : bool :=
  match s, t with
  | "", "" => true
  | String c s, String d t => bool_decide (fold_ascii c = fold_ascii d) && EqualFold s t
  | _, _ => false
  end.

Definition space : ascii := " "%char.
Definition comma : ascii := ","%char.
Definition colon : ascii := ":"%char.
Definition dot : ascii := "."%char.
Definition slash : ascii := "/"%char.

Fixpoint TrimLeft (s : string) : string :=
  match s with
  | "" => ""
  | String c s' => if decide (c = space) then TrimLeft s' else s
  end.

Fixpoint TrimRight (s : string) : string :=
  match s with
  | "" => ""
  | String c s => let r := TrimRight s in
      if decide (c = space /\ r = "") then "" else String c r
  end.

(** [strings.Trim(s, " ")] *)
Definition Trim (s : string) : string := TrimRight (TrimLeft s).

(** strings.TrimSpace and strings.ToLower, on ASCII *)
Definition is_space (c : ascii) : bool :=
  let n := nat_of_ascii c in ((9 <=? n) && (n <=? 13))%nat || (n =? 32)%nat.
Fixpoint TrimSpaceLeft (s : string) : string :=
  match s with
  | "" => ""
  | String c s' => if is_space c then TrimSpaceLeft s' else s
  end.
Fixpoint TrimSpaceRight (s : string) : string :=
  match s with
  | "" => ""
  | String c s => let r := TrimSpaceRight s in if is_space c && bool_decide (r = "") then "" else String c r
  end.
Definition TrimSpace (s : string) : string := TrimSpaceRight (TrimSpaceLeft s).
Fixpoint ToLower (s : string) : string := match s with "" => "" | String c s => String (fold_ascii c) (ToLower s) end.

(** strings.SplitN(s, sep, 2): the parts around the first separator, or [None] when there
    is none. *)
Fixpoint SplitN2 (s : string) (sep : ascii) : option (string * string) :=
  match s with
  | "" => None
  | String c s => if decide (c = sep) then Some ("", s)
                  else match SplitN2 s sep with Some (a, b) => Some (String c a, b) | None => None end
  end.

(** [strings.TrimPrefix] *)
Fixpoint TrimPrefix (s prefix : string) : string :=
  match prefix, s with
  | "", _ => s
  | String p prefix', String c s' =>
      if decide (p = c) then if String.prefix prefix' s' then TrimPrefix s' prefix' else s else s
  | String _ _, "" => s
  end.

(** [strings.TrimSuffix] *)
Fixpoint TrimSuffix (s suffix : string) : string :=
  if decide (s = suffix) then ""
  else match s with "" => "" | String c s => String c (TrimSuffix s suffix) end.

Lemma Split_nonempty s sep : Split s sep <> [].
Proof. destruct s as [|c s]; simpl; [done|]. case_decide; [done|]. by destruct (Split s sep). Qed.

(** Joining what [Split] cut gives the string back. *)
Lemma Join_Split s sep : Join (Split s sep) (String sep "") = s.
Proof.
  induction s as [|c s IH]; [done|]. simpl.
  pose proof (Split_nonempty s sep) as Hne.
  case_decide as Hc.
  - subst. destruct (Split s sep) as [|h t]; [done|]. rewrite <-IH. done.
  - destruct (Split s sep) as [|h t]; [done|]. rewrite <-IH. by destruct t.
Qed.

(** A text without the separator is one part, and a separator ends the part before it. *)
Lemma Split_none s sep : ~ In sep (String.list_ascii_of_string s) -> Split s sep = [s].
Proof.
  induction s as [|c s IH]; intros Hn; [done|]. cbn in Hn. cbn [Split].
  rewrite decide_False by (intros ->; apply Hn; by left). by rewrite IH by tauto.
Qed.
Lemma Split_app s sep rest :
  ~ In sep (String.list_ascii_of_string s) -> Split (s +:+ String sep rest) sep = s :: Split rest sep.
Proof.
  induction s as [|c s IH]; intros Hn; cbn in Hn.
  - change ("" +:+ String sep rest) with (String sep rest). cbn [Split]. by rewrite decide_True.
  - change (String c s +:+ String sep rest) with (String c (s +:+ String sep rest)). cbn [Split].
    rewrite decide_False by (intros ->; apply Hn; by left). by rewrite IH by tauto.
Qed.

Lemma append_nil_r s : s +:+ "" = s.
Proof. induction s as [|c s IH]; [done|]. change (String c s +:+ "") with (String c (s +:+ "")). by rewrite IH. Qed.

Lemma Contains_app_l a b sub : Contains b sub -> Contains (a +:+ b) sub.
Proof.
  intros Hb. induction a as [|c a IH]; [done|].
  change (String c a +:+ b) with (String c (a +:+ b)). simpl.
  destruct (String.prefix sub (String c (a +:+ b))); simpl; auto.
Qed.

Lemma TrimLeft_space s : TrimLeft (String space s) = TrimLeft s.
Proof. done. Qed.

End Strings.

(** ** Package [strconv] *)

Module Strconv.

Open Scope Z_scope.

(** [Quote], on text whose bytes outside ASCII belong to printable characters. *)
Definition quote_hex (n : nat) : ascii := ascii_of_nat (if (n <? 10)%nat then 48 + n else 87 + n).
Definition quote_char (c : ascii) : string :=
  let n := nat_of_ascii c in
  let escaped (d : ascii) := String "092"%char (String d "") in
  match n with
  | 34%nat | 92%nat => escaped c
  | 7%nat => escaped "a"%char
  | 8%nat => escaped "b"%char
  | 9%nat => escaped "t"%char
  | 10%nat => escaped "n"%char
  | 11%nat => escaped "v"%char
  | 12%nat => escaped "f"%char
  | 13%nat => escaped "r"%char
  | _ => if (n <? 32)%nat || (n =? 127)%nat then
           String "092"%char (String "x"%char (String (quote_hex (n / 16)) (String (quote_hex (n mod 16)) "")))
         else String c ""
  end.
Fixpoint quote_chars (s : string) : string :=
  match s with "" => "" | String c s => quote_char c +:+ quote_chars s end.
Definition Quote (s : string) : string := String "034"%char (quote_chars s +:+ String "034"%char "").

Inductive NumErr := ErrSyntax | ErrRange.

Definition digit (c : ascii) : option Z :=
  let n := Z.of_nat (nat_of_ascii c) in
  if decide (48 <= n <= 57) then Some (n - 48) else None.

(** The scanning loop of [ParseUint] in base 10: a non-digit is a syntax error,
    passing [max_uint64] is a range error at once. *)
Fixpoint scanUint (s : string) (n : Z) : Z * option NumErr :=
  match s with
  | "" => (n, None)
  | String c s =>
      match digit c with
      | None => (0, Some ErrSyntax)
      | Some d =>
          let n1 := n * 10 + d in
          if decide (Int.max_uint64 < n1) then (Int.max_uint64, Some ErrRange)
          else scanUint s n1
      end
  end.

Definition ParseUint (s : string) : Z * option NumErr :=
  match s with "" => (0, Some ErrSyntax) | _ => scanUint s 0 end.

(** [strconv.ParseInt(s, 10, 0)] with 64-bit [int]; [Atoi] returns the same value. *)
Definition ParseInt (s : string) : Z * option NumErr :=
  let '(neg, s') :=
    match s with
    | String "+"%char s' => (false, s')
    | String "-"%char s' => (true, s')
    | _ => (false, s)
    end in
  match ParseUint s' with
  | (_, Some ErrSyntax) => (0, Some ErrSyntax)
  | (un, err) =>
      if negb neg && bool_decide (2 ^ 63 <= un) then (Int.max_int64, Some ErrRange)
      else if neg && bool_decide (2 ^ 63 < un) then (Int.min_int64, Some ErrRange)
      else (if neg then - un else un, err)
  end.

Definition Atoi : string -> Z * option NumErr := ParseInt.

Lemma digit_nonneg c d : digit c = Some d -> 0 <= d.
Proof. unfold digit. case_decide; intros; simplify_eq; lia. Qed.

Lemma scanUint_range s n v e :
  0 <= n <= Int.max_uint64 -> scanUint s n = (v, e) -> 0 <= v <= Int.max_uint64.
Proof.
  revert n. induction s as [|c s IH]; intros n Hn Hs; simpl in Hs; [by simplify_eq|].
  destruct (digit c) as [d|] eqn:Hd; [|by simplify_eq].
  assert (0 <= d) by by apply digit_nonneg in Hd.
  case_decide; simplify_eq; [done|].
  eapply IH; [|done]. lia.
Qed.

Lemma ParseInt_range s : Int.min_int64 <= (ParseInt s).1 <= Int.max_int64.
Proof.
  unfold ParseInt.
  destruct (match s with String "+" s' => _ | String "-" s' => _ | _ => _ end) as [neg s'].
  destruct (ParseUint s') as [un err] eqn:Hp.
  assert (0 <= un <= Int.max_uint64) as Hun.
  { unfold ParseUint in Hp. destruct s'; [by simplify_eq|]. by eapply scanUint_range. }
  unfold Int.min_int64, Int.max_int64, Int.max_uint64 in *.
  destruct err as [[]|], neg; simpl; repeat case_bool_decide; simpl; lia.
Qed.

Lemma digit_pretty (d : N) : (d < 10)%N -> digit (pretty_N_char d) = Some (Z.of_N d).
Proof.
  intros Hd. assert (d = 0 \/ d = 1 \/ d = 2 \/ d = 3 \/ d = 4 \/ d = 5 \/ d = 6 \/ d = 7 \/ d = 8 \/ d = 9)%N as Hc by lia.
  by repeat (destruct Hc as [->|Hc]; [reflexivity|]); subst.
Qed.

Lemma scan_pretty (x : N) s :
  Z.of_N x <= Int.max_uint64 -> scanUint (pretty_N_go x s) 0 = scanUint s (Z.of_N x).
Proof.
  revert s. induction (N.lt_wf_0 x) as [x _ IH]; intros s Hx.
  destruct (decide (x = 0%N)) as [->|Hnz]; [by rewrite pretty_N_go_0|].
  rewrite pretty_N_go_step by lia. pose proof (N.div_lt x 10 ltac:(lia) ltac:(lia)).
  rewrite IH by lia. cbn [scanUint]. rewrite digit_pretty by (apply N.mod_lt; lia).
  assert (Z.of_N (x `div` 10) * 10 + Z.of_N (x `mod` 10) = Z.of_N x) as ->.
  { pose proof (N.div_mod x 10 ltac:(lia)). lia. }
  by rewrite decide_False by lia.
Qed.

Lemma pretty_head (x : N) s :
  (0 < x)%N -> exists c r, pretty_N_go x s = String c r /\ is_Some (digit c).
Proof.
  revert s. induction (N.lt_wf_0 x) as [x _ IH]; intros s Hx. rewrite pretty_N_go_step by lia.
  destruct (decide (x `div` 10 = 0)%N) as [Hz|Hz].
  - rewrite Hz, pretty_N_go_0. eexists _, _. split; [done|]. rewrite digit_pretty by (apply N.mod_lt; lia). done.
  - apply IH; [apply N.div_lt; lia|by apply N.neq_0_lt_0].
Qed.

(** A printed number has no spaces to trim. *)
Fixpoint digits (s : string) : Prop :=
  match s with "" => True | String c s => is_Some (digit c) /\ digits s end.

Lemma digits_pretty (x : N) s : digits s -> digits (pretty_N_go x s).
Proof.
  revert s. induction (N.lt_wf_0 x) as [x _ IH]; intros s Hs.
  destruct (decide (x = 0%N)) as [->|Hnz]; [by rewrite pretty_N_go_0|].
  rewrite pretty_N_go_step by lia. apply IH; [apply N.div_lt; lia|]. split; [|done].
  rewrite digit_pretty by (apply N.mod_lt; lia). done.
Qed.

Lemma digits_Trim s : digits s -> Strings.Trim s = s.
Proof.
  intros Hs. assert (Strings.TrimLeft s = s) as Hl.
  { destruct s as [|c s]; [done|]. simpl. rewrite decide_False; [done|]. intros ->. by destruct Hs as [[d Hd] _]. }
  unfold Strings.Trim. rewrite Hl. clear Hl. induction s as [|c s IH]; [done|]. destruct Hs as [[d Hd] Hs].
  simpl. rewrite IH by done. rewrite decide_False; [done|]. by intros [-> _].
Qed.

Lemma Trim_pretty z : 0 <= z -> Strings.Trim (pretty z) = pretty z.
Proof.
  intros Hz. apply digits_Trim. destruct z as [|p|p]; [|by apply digits_pretty|lia]. by split.
Qed.

Lemma pretty_not_empty z : 0 <= z -> pretty z <> "".
Proof.
  destruct z as [|p|p]; [done| |lia]. intros _. change (pretty (Z.pos p)) with (pretty_N_go (N.pos p) "").
  by destruct (pretty_head (N.pos p) "" ltac:(lia)) as (c & r & -> & _).
Qed.

(** A printed page number reads back. *)
Lemma Atoi_pretty z : 0 <= z <= Int.max_int64 -> Atoi (pretty z) = (z, None).
Proof.
  intros [Hz Hm]. destruct z as [|p|p]; [reflexivity| |lia].
  change (pretty (Z.pos p)) with (pretty_N_go (N.pos p) "").
  unfold Atoi, ParseInt. destruct (pretty_head (N.pos p) "" ltac:(lia)) as (c & r & Hs & Hd).
  assert (scanUint (String c r) 0 = (Z.pos p, None)) as Hscan.
  { rewrite <-Hs, scan_pretty by (unfold Int.max_int64, Int.max_uint64 in *; lia). done. }
  rewrite Hs. assert (match String c r with String "+" s' => (false, s') | String "-" s' => (true, s')
                      | _ => (false, String c r) end = (false, String c r)) as ->.
  { destruct Hd as [d Hd]. destruct c as [[] [] [] [] [] [] [] []]; first [reflexivity|discriminate Hd]. }
  cbn [ParseUint]. rewrite Hscan. cbn [negb andb]. by rewrite bool_decide_eq_false_2 by (unfold Int.max_int64 in Hm; lia).
Qed.

End Strconv.

(** ** Package [fmt] *)

Module Fmt.

(** The argument types the sources pass to [Sprintf]. *)
Inductive garg :=
| GStr (s : string)
| GInt (z : Z)
| GStrs (l : list string).

Definition show (a : garg) : string :=
  match a with
  | GStr s => s
  | GInt z => pretty z
  | GStrs l => "[" +:+ Strings.Join l " " +:+ "]"
  end.

Definition type_name (a : garg) : string :=
  match a with GStr _ => "string" | GInt _ => "int" | GStrs _ => "[]string" end.

(** An argument no verb consumes, or that its verb does not accept. *)
Definition bad (a : garg) : string := type_name a +:+ "=" +:+ show a.

Definition extra (l : list garg) : string :=
  match l with
  | [] => ""
  | _ => "%!(EXTRA " +:+ Strings.Join (bad <$> l) ", " +:+ ")"
  end.

(** The verbs [%s], [%v] and [%d]; flags and widths do not occur in the sources. *)
Definition verb (c : ascii) (a : garg) : string :=
  match c, a with
  | "v"%char, _ => show a
  | "s"%char, (GStr _ | GStrs _) => show a
  | "d"%char, GInt _ => show a
  | _, _ => "%!" +:+ String c ("(" +:+ bad a +:+ ")")
  end.

Fixpoint Sprintf (f : string) (args : list garg) : string :=
  match f with
  | "" => extra args
  | String "%"%char "" => "%!(NOVERB)" +:+ extra args
  | String "%"%char (String "%"%char f) => String "%" (Sprintf f args)
  | String "%"%char (String c f) =>
      match args with
      | [] => "%!" +:+ String c "(MISSING)" +:+ Sprintf f []
      | a :: args => verb c a +:+ Sprintf f args
      end
  | String c f => String c (Sprintf f args)
  end.

Example Sprintf_plain : Sprintf "%s with %s='%v' not found" [GStr "Resource"; GStr "id"; GStr "x"]
  = "Resource with id='x' not found".
Proof. reflexivity. Qed.

Example Sprintf_extra : Sprintf "timeout" [GStrs []] = "timeout%!(EXTRA []string=[])".
Proof. reflexivity. Qed.

#[global] Arguments Sprintf : simpl never.

End Fmt.
