(* ===== verification/Sha256.v ===== *)
(** * crypto/sha256 and the %x verb on bytes

    The part of the Go standard library the status hashes are made with: Sum256 over
    the bytes of a string, on 32-bit words with their wrap-around written out. *)

From S2P Require Import Prelude.

Open Scope Z_scope.

Module Sha256.

Definition u32 (x : Z) : Z := x mod 2 ^ 32.
Definition add32 (a b : Z) : Z := u32 (a + b).
Definition rotr (x n : Z) : Z := Z.lor (Z.shiftr x n) (u32 (Z.shiftl x (32 - n))).
Definition xor3 (a b c : Z) : Z := Z.lxor (Z.lxor a b) c.
Definition not32 (x : Z) : Z := Z.lxor x (2 ^ 32 - 1).

Definition K : list Z :=
  [1116352408; 1899447441; 3049323471; 3921009573; 961987163; 1508970993; 2453635748; 2870763221;
   3624381080; 310598401; 607225278; 1426881987; 1925078388; 2162078206; 2614888103; 3248222580;
   3835390401; 4022224774; 264347078; 604807628; 770255983; 1249150122; 1555081692; 1996064986;
   2554220882; 2821834349; 2952996808; 3210313671; 3336571891; 3584528711; 113926993; 338241895;
   666307205; 773529912; 1294757372; 1396182291; 1695183700; 1986661051; 2177026350; 2456956037;
   2730485921; 2820302411; 3259730800; 3345764771; 3516065817; 3600352804; 4094571909; 275423344;
   430227734; 506948616; 659060556; 883997877; 958139571; 1322822218; 1537002063; 1747873779;
   1955562222; 2024104815; 2227730452; 2361852424; 2428436474; 2756734187; 3204031479; 3329325298].

Definition H0 : list Z :=
  [1779033703; 3144134277; 1013904242; 2773480762; 1359893119; 2600822924; 528734635; 1541459225].

Definition bytes (s : string) : list Z := (fun c => Z.of_nat (nat_of_ascii c)) <$> String.list_ascii_of_string s.

(** The message followed by 0x80, zeros up to 56 bytes of the last block, and the bit
    length as a big-endian 64-bit word. *)
Definition be (n : nat) (x : Z) : list Z :=
  (fun i => Z.shiftr x (8 * Z.of_nat i) mod 256) <$> reverse (seq 0 n).
Definition pad (msg : list Z) : list Z :=
  let l := length msg in
  msg ++ [128] ++ repeat 0 (Z.to_nat ((55 - Z.of_nat l) mod 64)) ++ be 8 (8 * Z.of_nat l).

Fixpoint words (l : list Z) : list Z :=
  match l with
  | a :: b :: c :: d :: l => (a * 2 ^ 24 + b * 2 ^ 16 + c * 2 ^ 8 + d) :: words l
  | _ => []
  end.

(** The message schedule, last word first. *)
Fixpoint schedule (n : nat) (w : list Z) : list Z :=
  match n with
  | O => w
  | S n =>
      let at_ i := nth (i - 1) w 0 in
      let s0 := xor3 (rotr (at_ 15%nat) 7) (rotr (at_ 15%nat) 18) (Z.shiftr (at_ 15%nat) 3) in
      let s1 := xor3 (rotr (at_ 2%nat) 17) (rotr (at_ 2%nat) 19) (Z.shiftr (at_ 2%nat) 10) in
      schedule n (u32 (at_ 16%nat + s0 + at_ 7%nat + s1) :: w)
  end.

Definition round (h : list Z) (kw : Z * Z) : list Z :=
  match h with
  | [a; b; c; d; e; f; g; hh] =>
      let s1 := xor3 (rotr e 6) (rotr e 11) (rotr e 25) in
      let ch := Z.lxor (Z.land e f) (Z.land (not32 e) g) in
      let t1 := u32 (hh + s1 + ch + kw.1 + kw.2) in
      let s0 := xor3 (rotr a 2) (rotr a 13) (rotr a 22) in
      let maj := xor3 (Z.land a b) (Z.land a c) (Z.land b c) in
      [u32 (t1 + s0 + maj); a; b; c; add32 d t1; e; f; g]
  | _ => h
  end.

Definition block (h w : list Z) : list Z :=
  zip_with add32 h (foldl round h (zip K (reverse (schedule 48 (reverse w))))).

Fixpoint blocks (fuel : nat) (h w : list Z) : list Z :=
  match fuel, w with
  | S fuel, _ :: _ => blocks fuel (block h (take 16 w)) (drop 16 w)
  | _, _ => h
  end.

(** sha256.Sum256([]byte(s)) *)
Definition Sum256 (s : string) : list Z :=
  let w := words (pad (bytes s)) in
  blocks (length w) H0 w ≫= be 4.

(** fmt.Sprintf("%x", bytes) *)
Definition hex_digit (n : Z) : ascii :=
  ascii_of_nat (Z.to_nat (if n <? 10 then 48 + n else 87 + n)).
Definition hex (l : list Z) : string :=
  String.string_of_list_ascii (l ≫= fun b => [hex_digit (b / 16); hex_digit (b mod 16)]).

Example sum_empty :
  hex (Sum256 "") = "e3b0c44298fc1c149afbf4c8996fb92427ae41e4649b934ca495991b7852b855".
Proof. vm_compute. reflexivity. Qed.
Example sum_abc :
  hex (Sum256 "abc") = "ba7816bf8f01cfea414140de5dae2223b00361a396177a9cb410ff61f20015ad".
Proof. vm_compute. reflexivity. Qed.
Example sum_two_blocks :
  hex (Sum256 "abcdbcdecdefdefgefghfghighijhijkijkljklmklmnlmnomnopnopq")
  = "248d6a61d20638b8e5c026930c3e6039a33ce45964ff2167f6ecedd419db06c1".
Proof. vm_compute. reflexivity. Qed.

End Sha256.
