(* ===== verification/Errors.v ===== *)
(** * pkg/errors: the service error catalogue

    The codes with their HTTP status, the constructor [New] every other
    constructor goes through, and the predicates callers branch on. *)

From S2P Require Import Prelude GoLib.
Import Fmt.

Module errors.

Open Scope Z_scope.

Definition ServiceErrorCode := Z.

Definition ErrorInvalidToken : ServiceErrorCode := 1.
Definition ErrorForbidden : ServiceErrorCode := 4.
Definition ErrorConflict : ServiceErrorCode := 6.
Definition ErrorNotFound : ServiceErrorCode := 7.
Definition ErrorValidation : ServiceErrorCode := 8.
Definition ErrorGeneral : ServiceErrorCode := 9.
Definition ErrorNotImplemented : ServiceErrorCode := 10.
Definition ErrorUnauthorized : ServiceErrorCode := 11.
Definition ErrorUnauthenticated : ServiceErrorCode := 15.
Definition ErrorMalformedRequest : ServiceErrorCode := 17.
Definition ErrorBadRequest : ServiceErrorCode := 21.
Definition ErrorFailedToParseSearch : ServiceErrorCode := 23.
Definition ErrorDatabaseAdvisoryLock : ServiceErrorCode := 26.

Record ServiceError := mkServiceError {
  Code : ServiceErrorCode;
  Reason : string;
  HttpCode : Z;
}.

#[export] Instance ServiceError_eq_dec : EqDecision ServiceError.
Proof. solve_decision. Defined.

(** net/http status codes *)
Definition StatusBadRequest : Z := 400.
Definition StatusUnauthorized : Z := 401.
Definition StatusForbidden : Z := 403.
Definition StatusNotFound : Z := 404.
Definition StatusMethodNotAllowed : Z := 405.
Definition StatusConflict : Z := 409.
Definition StatusInternalServerError : Z := 500.

Definition Errors : list ServiceError := [
  mkServiceError ErrorInvalidToken "Invalid token provided" StatusForbidden;
  mkServiceError ErrorForbidden "Forbidden to perform this action" StatusForbidden;
  mkServiceError ErrorConflict "An entity with the specified unique values already exists" StatusConflict;
  mkServiceError ErrorNotFound "Resource not found" StatusNotFound;
  mkServiceError ErrorValidation "General validation failure" StatusBadRequest;
  mkServiceError ErrorGeneral "Unspecified error" StatusInternalServerError;
  mkServiceError ErrorNotImplemented "HTTP Method not implemented for this endpoint" StatusMethodNotAllowed;
  mkServiceError ErrorUnauthorized "Account is unauthorized to perform this action" StatusForbidden;
  mkServiceError ErrorUnauthenticated "Account authentication could not be verified" StatusUnauthorized;
  mkServiceError ErrorMalformedRequest "Unable to read request body" StatusBadRequest;
  mkServiceError ErrorBadRequest "Bad request" StatusBadRequest;
  mkServiceError ErrorFailedToParseSearch "Failed to parse search query" StatusBadRequest;
  mkServiceError ErrorDatabaseAdvisoryLock "Database advisory lock error" StatusInternalServerError
].

Fixpoint find_code (code : ServiceErrorCode) (l : list ServiceError) : option ServiceError :=
  match l with
  | [] => None
  | e :: l => if decide (e.(Code) = code) then Some e else find_code code l
  end.

Definition Find (code : ServiceErrorCode) : option ServiceError := find_code code Errors.

(** The reason may hold verbs, replaced by the values; an empty reason keeps the
    catalogue's default. *)
Definition New (code : ServiceErrorCode) (reason : string) (values : list garg) : ServiceError :=
  let err := match Find code with
             | Some e => e
             | None => mkServiceError ErrorGeneral "Unspecified error" 500
             end in
  if decide (reason = "") then err
  else mkServiceError err.(Code) (Sprintf reason values) err.(HttpCode).

Definition NotFound := New ErrorNotFound.
Definition GeneralError := New ErrorGeneral.
Definition Unauthorized := New ErrorUnauthorized.
Definition Unauthenticated := New ErrorUnauthenticated.
Definition Forbidden := New ErrorForbidden.
Definition NotImplemented := New ErrorNotImplemented.
Definition Conflict := New ErrorConflict.
Definition Validation := New ErrorValidation.
Definition MalformedRequest := New ErrorMalformedRequest.
Definition BadRequest := New ErrorBadRequest.

Definition FailedToParseSearch (reason : string) (values : list garg) : ServiceError :=
  let message := Sprintf "Failed to parse search query: %s" [GStr reason] in
  New ErrorFailedToParseSearch message values.

(** [New(ErrorDatabaseAdvisoryLock, err.Error(), []string{})]: the empty slice is
    itself one variadic value. *)
Definition DatabaseAdvisoryLock (err : string) : ServiceError :=
  New ErrorDatabaseAdvisoryLock err [GStrs []].

Definition CodeStr (code : ServiceErrorCode) : string :=
  Sprintf "%s-%d" [GStr "maestro"; GInt code].
Definition Href (code : ServiceErrorCode) : string :=
  Sprintf "%s%d" [GStr "/api/maestro/v1/errors/"; GInt code].

(** The [error] interface's message. *)
Definition Error (e : ServiceError) : string :=
  Sprintf "%s: %s" [GStr (CodeStr e.(Code)); GStr e.(Reason)].

Definition Is404 (e : ServiceError) : bool := bool_decide (e.(Code) = (NotFound "" []).(Code)).
Definition IsConflict (e : ServiceError) : bool := bool_decide (e.(Code) = (Conflict "" []).(Code)).
Definition IsForbidden (e : ServiceError) : bool := bool_decide (e.(Code) = (Forbidden "" []).(Code)).

Record OpenapiError := mkOpenapiError {
  oe_Kind : string; oe_Id : string; oe_Href : string; oe_Code : string;
  oe_Reason : string; oe_OperationId : string;
}.

Definition AsOpenapiError (e : ServiceError) (operationID : string) : OpenapiError := {|
  oe_Kind := "Error"; oe_Id := pretty e.(Code); oe_Href := Href e.(Code);
  oe_Code := CodeStr e.(Code); oe_Reason := e.(Reason); oe_OperationId := operationID |}.

(** ** Lemmas *)

Lemma find_code_elem code l e : find_code code l = Some e -> e ∈ l /\ e.(Code) = code.
Proof.
  induction l as [|x l IH]; simpl; [done|]. case_decide; intros; simplify_eq.
  - split; [left|done].
  - destruct IH; [done|]. split; [by right|done].
Qed.

Lemma New_Code code reason vs :
  (New code reason vs).(Code) = match Find code with Some _ => code | None => ErrorGeneral end.
Proof.
  unfold New. destruct (Find code) as [e|] eqn:He; case_decide; simpl; try done;
  by apply find_code_elem in He as [_ ?].
Qed.

(** A format without a percent sign is copied, and its values are appended as
    unconsumed. *)
Lemma Sprintf_no_percent f vs :
  Strings.Contains f "%" = false -> Sprintf f vs = f +:+ extra vs.
Proof.
  induction f as [|c f IH]; intros Hf; [done|].
  simpl in Hf. apply orb_false_iff in Hf as [Hc Hf].
  specialize (IH Hf).
  assert (c <> "%"%char) as Hne by (intros ->; by destruct f).
  change (String c f +:+ extra vs) with (String c (f +:+ extra vs)).
  rewrite <-IH. clear IH Hf Hc.
  destruct c as [[] [] [] [] [] [] [] []]; try reflexivity. done.
Qed.

(** ** Properties *)

(** [New] keeps a catalogued code with that code's HTTP status, maps every
    other code to the general error with status 500, and the catalogue holds each
    code once, so [Find] returns the one entry of a code. *)
Theorem New_classifies code reason vs :
  NoDup (Code <$> Errors) /\
  match Find code with
  | Some e => e ∈ Errors /\ (New code reason vs).(Code) = code /\
              (New code reason vs).(HttpCode) = e.(HttpCode)
  | None => (forall e, e ∈ Errors -> e.(Code) <> code) /\
            (New code reason vs).(Code) = ErrorGeneral /\ (New code reason vs).(HttpCode) = 500
  end.
Proof.
  split; [by apply (bool_decide_unpack _)|].
  rewrite New_Code. unfold New.
  destruct (Find code) as [e|] eqn:He; (split; [|by case_decide]).
  - by apply find_code_elem in He as [? _].
  - intros e Hin <-. revert He. unfold Find.
    induction Hin; simpl; case_decide; try done.
Qed.

(** The reason of an advisory-lock error is the driver's message followed by
    [fmt]'s report of an unconsumed argument, whatever the (percent-free) message. *)
Theorem DatabaseAdvisoryLock_reason msg :
  msg <> "" -> Strings.Contains msg "%" = false ->
  DatabaseAdvisoryLock msg =
    mkServiceError ErrorDatabaseAdvisoryLock (msg +:+ "%!(EXTRA []string=[])") 500.
Proof.
  intros Hne Hp. unfold DatabaseAdvisoryLock, New.
  case_decide; [done|]. by rewrite Sprintf_no_percent.
Qed.

Lemma DatabaseAdvisoryLock_reason_witness :
  DatabaseAdvisoryLock "timeout" =
    mkServiceError ErrorDatabaseAdvisoryLock "timeout%!(EXTRA []string=[])" 500.
Proof. apply (DatabaseAdvisoryLock_reason "timeout"); [done|reflexivity]. Defined.

End errors.
