(* ===== verification/Types.v ===== *)
(** * pkg/api: the data model

    JSON values and maps, the rows of the six tables, and the gorm hooks that
    fill a row before it is inserted. *)

From S2P Require Import Prelude GoLib.

Open Scope Z_scope.

(** ** JSON

    [interface{}] values as [encoding/json] decodes them. An object is the
    key-sorted association list of the Go map, so that [reflect.DeepEqual] on maps
    is equality here; [oset] keeps the order. *)

#[local] Set Warnings "-register-all".

Inductive json :=
| JNull
| JBool (b : bool)
| JNum (z : Z)
| JStr (s : string)
| JArr (l : list json)
| JObj (l : list (string * json)).

Fixpoint json_eqb (a b : json) {struct a} : bool :=
  match a, b with
  | JNull, JNull => true
  | JBool x, JBool y => Bool.eqb x y
  | JNum x, JNum y => Z.eqb x y
  | JStr x, JStr y => String.eqb x y
  | JArr x, JArr y =>
      (fix go x y := match x, y with
        | [], [] => true
        | a :: x, b :: y => json_eqb a b && go x y
        | _, _ => false
        end) x y
  | JObj x, JObj y =>
      (fix go x y := match x, y with
        | [], [] => true
        | (k, a) :: x, (k', b) :: y => String.eqb k k' && json_eqb a b && go x y
        | _, _ => false
        end) x y
  | _, _ => false
  end.

(** Induction with the hypotheses for the elements of arrays and objects. *)
Section json_ind.
Variable P : json -> Prop.
Hypothesis Hnull : P JNull.
Hypothesis Hbool : forall b, P (JBool b).
Hypothesis Hnum : forall z, P (JNum z).
Hypothesis Hstr : forall s, P (JStr s).
Hypothesis Harr : forall l, Forall P l -> P (JArr l).
Hypothesis Hobj : forall l, Forall (fun kv => P kv.2) l -> P (JObj l).

Fixpoint json_ind' (j : json) : P j :=
  match j with
  | JNull => Hnull
  | JBool b => Hbool b
  | JNum z => Hnum z
  | JStr s => Hstr s
  | JArr l => Harr l ((fix go l : Forall P l := match l with
      | [] => Forall_nil_2 _
      | a :: l => Forall_cons_2 _ _ _ (json_ind' a) (go l) end) l)
  | JObj l => Hobj l ((fix go l : Forall (fun kv => P kv.2) l := match l with
      | [] => Forall_nil_2 _
      | (k, a) :: l => Forall_cons_2 (fun kv : string * json => P kv.2) (k, a) l (json_ind' a) (go l) end) l)
  end.
End json_ind.

Lemma json_eqb_eq a b : json_eqb a b = true <-> a = b.
Proof.
  split.
  - revert b. induction a as [| | | |l IH|l IH] using json_ind'; intros [] H; simpl in H; try done.
    + f_equal. by apply eqb_prop.
    + f_equal. by apply Z.eqb_eq.
    + f_equal. by apply String.eqb_eq.
    + f_equal. revert l0 H. induction IH as [|x l Hx _ IHl]; intros [|y l0]; try done.
      intros [? ?]%andb_prop. f_equal; auto.
    + f_equal. revert l0 H. induction IH as [|[k x] l Hx _ IHl]; intros [|[k' y] l0]; try done.
      intros [[?%String.eqb_eq ?]%andb_prop ?]%andb_prop. subst. f_equal; auto. f_equal; auto.
  - intros <-. induction a as [| | | |l IH|l IH] using json_ind'; simpl; try done.
    + apply eqb_reflx.
    + apply Z.eqb_refl.
    + apply String.eqb_refl.
    + induction IH as [|x l -> _ IHl]; done.
    + induction IH as [|[k x] l Hx _ IHl]; [done|]. simpl in Hx. by rewrite String.eqb_refl, Hx.
Qed.

#[export] Instance json_eq_dec : EqDecision json.
Proof.
  intros a b. destruct (json_eqb a b) eqn:E.
  - left. by apply json_eqb_eq.
  - right. intros H%json_eqb_eq. congruence.
Defined.

(** [datatypes.JSONMap]: [None] is the nil map (SQL NULL). *)
Definition JSONMap := option (list (string * json)).

Fixpoint oget (k : string) (l : list (string * json)) : option json :=
  match l with
  | [] => None
  | (k', v) :: l => if decide (k = k') then Some v else oget k l
  end.

Fixpoint oset (k : string) (v : json) (l : list (string * json)) : list (string * json) :=
  match l with
  | [] => [(k, v)]
  | (k', v') :: l' =>
      match String.compare k k' with
      | Eq => (k, v) :: l'
      | Lt => (k, v) :: l
      | Gt => (k', v') :: oset k v l'
      end
  end.

Definition jlen (m : JSONMap) : nat := match m with None => 0%nat | Some l => length l end.
Definition jget (k : string) (m : JSONMap) : option json := m ≫= oget k.
(** Assignment [m[k] = v] to a non-nil map. *)
Definition jset (k : string) (v : json) (m : JSONMap) : JSONMap := oset k v <$> m.

Lemma oget_oset k v l : oget k (oset k v l) = Some v.
Proof.
  induction l as [|[k' v'] l IH]; simpl; [by rewrite decide_True|].
  destruct (String.compare k k') eqn:E; simpl; try (by rewrite decide_True).
  rewrite decide_False; [done|]. intros ->.
  pose proof (String.compare_antisym k' k') as Ha. by rewrite E in Ha.
Qed.

Lemma oget_oset_ne k k' v l : k <> k' -> oget k' (oset k v l) = oget k' l.
Proof.
  intros Hne. induction l as [|[k1 v1] l IH]; simpl; [by rewrite decide_False|].
  destruct (String.compare k k1) eqn:E; simpl.
  - apply String.compare_eq_iff in E as <-. by rewrite !(decide_False (P := k' = k)) by done.
  - by rewrite decide_False.
  - by rewrite IH.
Qed.

(** ** Rows

    Times are nanoseconds since the zero [time.Time], so 0 is the zero time. *)

Module api.

Definition Time := Z.
Definition IsZero (t : Time) : bool := t =? 0.

(** [gorm.DeletedAt], an [sql.NullTime]. *)
Record NullTime := mkNullTime { NTime : Time; Valid : bool }.
Definition NullTime_zero : NullTime := mkNullTime 0 false.

Record Meta := mkMeta {
  ID : string;
  CreatedAt : Time;
  UpdatedAt : Time;
  DeletedAt : NullTime;
}.
Definition newMeta (id : string) : Meta := mkMeta id 0 0 NullTime_zero.

Record Resource := mkResource {
  r_Meta :> Meta;
  Version : Z;
  r_Source : string;
  ConsumerName : string;
  Type_ : string;
  Payload : JSONMap;
  Status : JSONMap;
  r_Name : string;
}.

Record Consumer := mkConsumer {
  c_Meta :> Meta;
  c_Name : string;
  Labels : option (list (string * string));
}.

Inductive EventType := CreateEventType | UpdateEventType | DeleteEventType.

Record Event := mkEvent {
  e_Meta :> Meta;
  e_Source : string;
  SourceID : string;
  EventType_ : EventType;
  ReconciledDate : option Time;
}.

Inductive StatusEventType := StatusUpdateEventType | StatusDeleteEventType.

Record StatusEvent := mkStatusEvent {
  s_Meta :> Meta;
  ResourceID : string;
  ResourceSource : string;
  ResourceType : string;
  s_Payload : JSONMap;
  s_Status : JSONMap;
  StatusEventType_ : StatusEventType;
  s_ReconciledDate : option Time;
}.

Record ServerInstance := mkServerInstance {
  i_Meta :> Meta;
  LastHeartbeat : Time;
  Ready : bool;
}.

Record EventInstance := mkEventInstance {
  EventID : string;
  InstanceID : string;
}.

Record PagingMeta := mkPagingMeta { pm_Page : Z; pm_Size : Z; pm_Total : Z }.

#[export] Instance EventType_eq_dec : EqDecision EventType.
Proof. solve_decision. Defined.
#[export] Instance StatusEventType_eq_dec : EqDecision StatusEventType.
Proof. solve_decision. Defined.
#[export] Instance NullTime_eq_dec : EqDecision NullTime.
Proof. solve_decision. Defined.
#[export] Instance Meta_eq_dec : EqDecision Meta.
Proof. solve_decision. Defined.
#[export] Instance Resource_eq_dec : EqDecision Resource.
Proof. solve_decision. Defined.
#[export] Instance Event_eq_dec : EqDecision Event.
Proof. solve_decision. Defined.
#[export] Instance EventInstance_eq_dec : EqDecision EventInstance.
Proof. solve_decision. Defined.
#[export] Instance EventInstance_countable : Countable EventInstance.
Proof.
  refine (inj_countable' (fun e => (e.(EventID), e.(InstanceID)))
            (fun p => mkEventInstance p.1 p.2) _). by intros [].
Defined.
#[export] Instance EventType_countable : Countable EventType.
Proof.
  refine (inj_countable' (fun e => match e with CreateEventType => 0 | UpdateEventType => 1 | DeleteEventType => 2 end)
    (fun n => if n =? 0 then CreateEventType else if n =? 1 then UpdateEventType else DeleteEventType) _).
  by intros [].
Defined.
#[export] Instance StatusEventType_countable : Countable StatusEventType.
Proof.
  refine (inj_countable' (fun e => match e with StatusUpdateEventType => 0 | StatusDeleteEventType => 1 end)
    (fun n => if n =? 0 then StatusUpdateEventType else StatusDeleteEventType) _).
  by intros [].
Defined.

(** Field updates. *)
Definition with_ID (id : string) (m : Meta) : Meta :=
  mkMeta id m.(CreatedAt) m.(UpdatedAt) m.(DeletedAt).
Definition with_DeletedAt (d : NullTime) (m : Meta) : Meta :=
  mkMeta m.(ID) m.(CreatedAt) m.(UpdatedAt) d.
Definition with_UpdatedAt (t : Time) (m : Meta) : Meta :=
  mkMeta m.(ID) m.(CreatedAt) t m.(DeletedAt).
Definition set_r_Meta (m : Meta) (r : Resource) : Resource :=
  mkResource m r.(Version) r.(r_Source) r.(ConsumerName) r.(Type_) r.(Payload) r.(Status) r.(r_Name).
Definition set_VersionPayload (v : Z) (p : JSONMap) (r : Resource) : Resource :=
  mkResource r.(r_Meta) v r.(r_Source) r.(ConsumerName) r.(Type_) p r.(Status) r.(r_Name).
Definition set_Payload (p : JSONMap) (r : Resource) : Resource :=
  mkResource r.(r_Meta) r.(Version) r.(r_Source) r.(ConsumerName) r.(Type_) p r.(Status) r.(r_Name).
Definition set_Status (s : JSONMap) (r : Resource) : Resource :=
  mkResource r.(r_Meta) r.(Version) r.(r_Source) r.(ConsumerName) r.(Type_) r.(Payload) s r.(r_Name).
Definition set_r_Source (s : string) (r : Resource) : Resource :=
  mkResource r.(r_Meta) r.(Version) s r.(ConsumerName) r.(Type_) r.(Payload) r.(Status) r.(r_Name).
Definition set_ReconciledDate (t : option Time) (e : Event) : Event :=
  mkEvent e.(e_Meta) e.(e_Source) e.(SourceID) e.(EventType_) t.
Definition set_Ready (b : bool) (i : ServerInstance) : ServerInstance :=
  mkServerInstance i.(i_Meta) i.(LastHeartbeat) b.
Definition set_LastHeartbeat (t : Time) (i : ServerInstance) : ServerInstance :=
  mkServerInstance i.(i_Meta) t i.(Ready).
Definition set_Labels (l : option (list (string * string))) (c : Consumer) : Consumer :=
  mkConsumer c.(c_Meta) c.(c_Name) l.

(** ** Hooks run before an insert; [newid] is what [NewID] returns. *)

Definition Resource_BeforeCreate (newid : string) (d : Resource) : Resource :=
  let id := if decide (d.(ID) = "") then newid else d.(ID) in
  let name := if decide (d.(r_Name) = "") then id else d.(r_Name) in
  let version := if decide (d.(Version) = 0) then 1 else d.(Version) in
  mkResource (with_ID id d.(r_Meta)) version d.(r_Source) d.(ConsumerName) d.(Type_)
             d.(Payload) d.(Status) name.

Definition Consumer_BeforeCreate (newid : string) (d : Consumer) : Consumer :=
  let name := if decide (d.(c_Name) = "") then newid else d.(c_Name) in
  mkConsumer (with_ID newid d.(c_Meta)) name d.(Labels).

Definition Event_BeforeCreate (newid : string) (d : Event) : Event :=
  mkEvent (with_ID newid d.(e_Meta)) d.(e_Source) d.(SourceID) d.(EventType_) d.(ReconciledDate).

Definition StatusEvent_BeforeCreate (newid : string) (e : StatusEvent) : StatusEvent :=
  mkStatusEvent (with_ID newid e.(s_Meta)) e.(ResourceID) e.(ResourceSource) e.(ResourceType)
                e.(s_Payload) e.(s_Status) e.(StatusEventType_) e.(s_ReconciledDate).

(** [ServerInstance.String], the identifier used as hash-ring member. *)
Definition String_ (i : ServerInstance) : string := i.(ID).

(** [GetDeletionTimestamp] *)
Definition GetDeletionTimestamp (d : Resource) : Time := d.(DeletedAt).(NTime).
Definition GetUID (d : Resource) : string := d.(ID).
Definition GetResourceVersion (d : Resource) : string := pretty d.(Version).
Definition GetGeneration (d : Resource) : Z := d.(Version).

End api.
