(* ===== verification/Json.v ===== *)
(** * encoding/json on [interface{}] values

    [Marshal] (with Go's HTML-safe escaping and sorted keys) and [Unmarshal] as
    executable functions on the documents of [Types.json], and the proof that
    unmarshalling what was marshalled gives the value back. Numbers are integers;
    a literal with a fraction or an exponent and an escaped surrogate are outside the
    model and rejected.

    [Unmarshal] is the parser: the numbers it returns are the literals. A field of an
    integer type takes a literal as it is; where a value goes into an interface{} it becomes
    a float64 ([floats]), which rounds an integer of more than 53 bits and refuses one
    beyond the largest float64. [Marshal] writes the exact decimal digits of every number;
    of a float64 of 2^53 or more Go writes the fewest digits that read back as it. *)

From S2P Require Import Prelude GoLib Types.

Open Scope Z_scope.

Module Json.

(** ** Marshal *)

Definition quote : ascii := "034".
Definition backslash : ascii := "092".

Definition hexdigit (n : nat) : ascii :=
  ascii_of_nat (if (n <? 10)%nat then 48 + n else 87 + n).

Definition escape (c : ascii) : string :=
  let n := nat_of_ascii c in
  let esc x := String backslash (String x "") in
  if decide (c = quote) then esc quote
  else if decide (c = backslash) then esc backslash
  else if decide (n = 8%nat) then esc "b"%char
  else if decide (n = 12%nat) then esc "f"%char
  else if decide (n = 10%nat) then esc "n"%char
  else if decide (n = 13%nat) then esc "r"%char
  else if decide (n = 9%nat) then esc "t"%char
  else if decide ((n < 32)%nat \/ c = "<"%char \/ c = ">"%char \/ c = "&"%char)
       then String backslash (String "u" (String "0" (String "0"
              (String (hexdigit (n / 16)) (String (hexdigit (n mod 16)) "")))))
  else String c "".

Fixpoint escaped (s : string) : string :=
  match s with
  | "" => ""
  | String c s => escape c +:+ escaped s
  end.

Definition print_string (s : string) : string := String quote (escaped s +:+ String quote "").

(** The decimal digits of [n] before [acc]. *)
Fixpoint digits (fuel : nat) (n : Z) (acc : string) : string :=
  let d := String (ascii_of_nat (48 + Z.to_nat (n mod 10))) acc in
  match fuel with
  | O => d
  | S fuel => if n <? 10 then d else digits fuel (n / 10) d
  end.

Definition print_int (z : Z) : string :=
  let n := Z.abs z in
  let s := digits (Z.to_nat (Z.log2 n)) n "" in
  if z <? 0 then String "-" s else s.

Definition print_elements (f : json -> string) : list json -> string :=
  fix go l := match l with
  | [] => "]"
  | [x] => f x +:+ "]"
  | x :: l => f x +:+ String "," (go l)
  end.
Definition print_member (f : json -> string) (kv : string * json) : string :=
  print_string kv.1 +:+ String ":" (f kv.2).
Definition print_members (f : json -> string) : list (string * json) -> string :=
  fix go l := match l with
  | [] => "}"
  | [kv] => print_member f kv +:+ "}"
  | kv :: l => print_member f kv +:+ String "," (go l)
  end.

Fixpoint Marshal (j : json) : string :=
  match j with
  | JNull => "null"
  | JBool true => "true"
  | JBool false => "false"
  | JNum z => print_int z
  | JStr s => print_string s
  | JArr l => String "[" (print_elements Marshal l)
  | JObj l => String "{" (print_members Marshal l)
  end.

(** ** Unmarshal *)

Definition is_ws (c : ascii) : bool :=
  bool_decide (c = " "%char \/ c = "009"%char \/ c = "010"%char \/ c = "013"%char).

Fixpoint skip_ws (s : string) : string :=
  match s with
  | String c r => if is_ws c then skip_ws r else s
  | "" => ""
  end.

Definition hexval (c : ascii) : option Z :=
  let n := Z.of_nat (nat_of_ascii c) in
  if decide (48 <= n <= 57) then Some (n - 48)
  else if decide (97 <= n <= 102) then Some (n - 87)
  else if decide (65 <= n <= 70) then Some (n - 55)
  else None.

Definition byte (n : Z) : ascii := ascii_of_nat (Z.to_nat n).

(** UTF-8 encoding of a code point of the basic plane. *)
Definition utf8 (n : Z) : option string :=
  if n <? 128 then Some (String (byte n) "")
  else if n <? 2048 then Some (String (byte (192 + n / 64)) (String (byte (128 + n mod 64)) ""))
  else if (55296 <=? n) && (n <=? 57343) then None
  else Some (String (byte (224 + n / 4096))
              (String (byte (128 + n / 64 mod 64)) (String (byte (128 + n mod 64)) ""))).

Definition unescape (c : ascii) : option ascii :=
  match c with
  | "034"%char => Some "034"%char
  | "\"%char => Some "\"%char
  | "/"%char => Some "/"%char
  | "b"%char => Some "008"%char
  | "f"%char => Some "012"%char
  | "n"%char => Some "010"%char
  | "r"%char => Some "013"%char
  | "t"%char => Some "009"%char
  | _ => None
  end.

Definition prepend (p : string) (r : option (string * string)) : option (string * string) :=
  match r with Some (x, r) => Some (p +:+ x, r) | None => None end.

(** The body of a string literal, after its opening quote. *)
Fixpoint scan_string (s : string) : option (string * string) :=
  match s with
  | "" => None
  | String c r =>
      if decide (c = quote) then Some ("", r)
      else if decide (c = backslash) then
        match r with
        | String "u" (String a (String b (String c (String d r)))) =>
            match hexval a, hexval b, hexval c, hexval d with
            | Some a, Some b, Some c, Some d =>
                match utf8 (((a * 16 + b) * 16 + c) * 16 + d) with
                | Some u => prepend u (scan_string r)
                | None => None
                end
            | _, _, _, _ => None
            end
        | String c r => match unescape c with
                        | Some c => prepend (String c "") (scan_string r)
                        | None => None
                        end
        | "" => None
        end
      else if (nat_of_ascii c <? 32)%nat then None
      else prepend (String c "") (scan_string r)
  end.

Fixpoint scan_digits (n : Z) (s : string) : Z * string :=
  match s with
  | String c r => match Strconv.digit c with
                  | Some d => scan_digits (n * 10 + d) r
                  | None => (n, s)
                  end
  | "" => (n, s)
  end.

(** The digits of an integer literal; a fraction or exponent is outside the model. *)
Definition scan_int (s : string) : option (Z * string) :=
  match s with
  | String c r =>
      match Strconv.digit c with
      | None => None
      | Some d =>
          let '(n, r) := if decide (d = 0) then (0, r) else scan_digits d r in
          match r with
          | String "." _ | String "e" _ | String "E" _ => None
          | _ => Some (n, r)
          end
      end
  | "" => None
  end.

Fixpoint elements (value : string -> option (json * string)) (fuel : nat) (s : string) :
  option (list json * string) :=
  match fuel with
  | O => None
  | S fuel =>
      match value s with
      | None => None
      | Some (x, r) =>
          match skip_ws r with
          | String "]" r => Some ([x], r)
          | String "," r => match elements value fuel r with
                            | Some (l, r) => Some (x :: l, r)
                            | None => None
                            end
          | _ => None
          end
      end
  end.

Fixpoint members (value : string -> option (json * string)) (fuel : nat) (s : string) :
  option (list (string * json) * string) :=
  match fuel with
  | O => None
  | S fuel =>
      match skip_ws s with
      | String c r =>
          if decide (c = quote) then
            match scan_string r with
            | Some (k, r) =>
                match skip_ws r with
                | String ":" r =>
                    match value r with
                    | Some (x, r) =>
                        match skip_ws r with
                        | String "}" r => Some ([(k, x)], r)
                        | String "," r => match members value fuel r with
                                          | Some (l, r) => Some ((k, x) :: l, r)
                                          | None => None
                                          end
                        | _ => None
                        end
                    | None => None
                    end
                | _ => None
                end
            | None => None
            end
          else None
      | "" => None
      end
  end.

(** Members are assigned in order: the last one of a key wins. *)
Definition build (l : list (string * json)) : list (string * json) :=
  foldl (fun m kv => oset kv.1 kv.2 m) [] l.

Fixpoint value (fuel : nat) (s : string) : option (json * string) :=
  match fuel with
  | O => None
  | S fuel =>
      match skip_ws s with
      | String "n" (String "u" (String "l" (String "l" r))) => Some (JNull, r)
      | String "t" (String "r" (String "u" (String "e" r))) => Some (JBool true, r)
      | String "f" (String "a" (String "l" (String "s" (String "e" r)))) => Some (JBool false, r)
      | String "[" r =>
          match skip_ws r with
          | String "]" r => Some (JArr [], r)
          | _ => match elements (value fuel) fuel r with
                 | Some (l, r) => Some (JArr l, r)
                 | None => None
                 end
          end
      | String "{" r =>
          match skip_ws r with
          | String "}" r => Some (JObj [], r)
          | _ => match members (value fuel) fuel r with
                 | Some (l, r) => Some (JObj (build l), r)
                 | None => None
                 end
          end
      | String "-" r => match scan_int r with Some (n, r) => Some (JNum (- n), r) | None => None end
      | String c r =>
          if decide (c = quote) then
            match scan_string r with Some (x, r) => Some (JStr x, r) | None => None end
          else match scan_int (String c r) with Some (n, r) => Some (JNum n, r) | None => None end
      | "" => None
      end
  end.

(** [json.Unmarshal] into an [interface{}]: one value and nothing after it. *)
Definition Unmarshal (s : string) : option json :=
  match value (S (String.length s)) s with
  | Some (j, r) => if decide (skip_ws r = "") then Some j else None
  | None => None
  end.

(** ** Numbers in an interface{}

    strconv.ParseFloat of an integer literal: the nearest float64, ties to even, or an error
    when that is out of range. *)
Definition float64 (z : Z) : option Z :=
  let a := Z.abs z in
  let e := Z.log2 a - 52 in
  if e <=? 0 then Some z
  else
    let u := 2 ^ e in
    let q := a / u in
    let r := a mod u in
    let q := if (2 * r <? u) || (2 * r =? u) && Z.even q then q else q + 1 in
    if q * u <? 2 ^ 1024 then Some (Z.sgn z * (q * u)) else None.

(** A document as an interface{} holds it; what is out of range is left nil, and the first
    such number is the error. *)
Fixpoint floats (j : json) : json :=
  match j with
  | JNum z => match float64 z with Some z => JNum z | None => JNull end
  | JArr l => JArr (map floats l)
  | JObj l => JObj (map (fun kv => (kv.1, floats kv.2)) l)
  | j => j
  end.
Definition float_members (l : list (string * json)) : list (string * json) := map (fun kv => (kv.1, floats kv.2)) l.

Definition or_else (e e' : option Z) : option Z := match e with Some _ => e | None => e' end.
Fixpoint overflow (j : json) : option Z :=
  match j with
  | JNum z => match float64 z with Some _ => None | None => Some z end
  | JArr l => foldr (fun x e => or_else (overflow x) e) None l
  | JObj l => foldr (fun kv e => or_else (overflow kv.2) e) None l
  | _ => None
  end.

(** [json.Unmarshal] into a [map[string]interface{}]: null makes the map nil. *)
Definition UnmarshalMap (s : string) : option JSONMap :=
  match Unmarshal s with
  | Some (JObj l) => match overflow (JObj l) with None => Some (Some (float_members l)) | Some _ => None end
  | Some JNull => Some None
  | _ => None
  end.

Example float64_ex : float64 (2 ^ 53 + 1) = Some (2 ^ 53) /\ float64 (- (2 ^ 53 + 3)) = Some (- (2 ^ 53 + 4)) /\
  float64 9007199254740991 = Some 9007199254740991 /\ float64 (2 ^ 1024) = None.
Proof. vm_compute. by split_and!. Qed.

Example unmarshal_ex : Unmarshal (Marshal (JObj [("a", JArr [JNum (-120); JBool true; JNull]); ("b", JStr "x<y")]))
  = Some (JObj [("a", JArr [JNum (-120); JBool true; JNull]); ("b", JStr "x<y")]).
Proof. vm_compute. reflexivity. Qed.

(** ** Round trip *)

(** The keys of every object are strictly increasing, as a Go map's are when it is
    marshalled, and every number is in the range of a float64. *)
Fixpoint sorted_keys (l : list (string * json)) : bool :=
  match l with
  | [] => true
  | (k, _) :: l => forallb (fun kv => String.ltb k kv.1) l && sorted_keys l
  end.
Fixpoint json_wf (j : json) : bool :=
  match j with
  | JNum z => bool_decide (is_Some (float64 z))
  | JArr l => forallb json_wf l
  | JObj l => sorted_keys l && forallb (fun kv => json_wf kv.2) l
  | _ => true
  end.

(** Every number is a float64. *)
Fixpoint exact (j : json) : bool :=
  match j with
  | JNum z => bool_decide (float64 z = Some z)
  | JArr l => forallb exact l
  | JObj l => forallb (fun kv => exact kv.2) l
  | _ => true
  end.

Lemma float64_small z : Z.abs z < 2 ^ 53 -> float64 z = Some z.
Proof.
  intros Hz. unfold float64. rewrite (proj2 (Z.leb_le _ _)); [done|].
  destruct (decide (Z.abs z = 0)) as [->|]; [done|].
  pose proof (proj1 (Z.log2_lt_pow2 (Z.abs z) 53 ltac:(lia)) Hz). lia.
Qed.

Lemma float64_int64 z : Z.abs z <= 2 ^ 63 -> is_Some (float64 z).
Proof.
  intros Hz. unfold float64. destruct (Z.leb_spec (Z.log2 (Z.abs z) - 52) 0) as [|He]; [by eexists|].
  set (e := Z.log2 (Z.abs z) - 52) in *. set (q := Z.abs z / 2 ^ e).
  assert (e <= 11).
  { pose proof (Z.log2_le_mono _ _ Hz) as Hl. rewrite Z.log2_pow2 in Hl by lia. lia. }
  assert (0 < 2 ^ e <= 2 ^ 11) as Hu by (split; [apply Z.pow_pos_nonneg; lia|apply Z.pow_le_mono_r; lia]).
  assert (q * 2 ^ e <= Z.abs z) as Hq by (rewrite Z.mul_comm; apply Z.mul_div_le; lia).
  rewrite (proj2 (Z.ltb_lt _ _)); [by eexists|]. apply Z.le_lt_trans with (2 ^ 63 + 2 ^ 11); [|done].
  destruct (_ || _); lia.
Qed.

Lemma floats_exact j : exact j = true -> floats j = j.
Proof.
  induction j as [| |z| |l IH|l IH] using json_ind'; cbn [floats exact]; try done.
  - intros Hz%bool_decide_eq_true. by rewrite Hz.
  - intros Hl. f_equal. induction IH as [|x l Hx _ IHl]; [done|]. cbn in *. apply andb_prop in Hl as [H1 H2].
    by rewrite Hx, IHl.
  - intros Hl. f_equal. induction IH as [|[k x] l Hx _ IHl]; [done|]. cbn in *. apply andb_prop in Hl as [H1 H2].
    by rewrite Hx, IHl.
Qed.
Lemma float_members_exact l : exact (JObj l) = true -> float_members l = l.
Proof. intros Hl%floats_exact. by injection Hl. Qed.

Lemma overflow_wf j : json_wf j = true -> overflow j = None.
Proof.
  induction j as [| |z| |l IH|l IH] using json_ind'; cbn [json_wf overflow]; try done.
  - intros [y ->]%bool_decide_eq_true. done.
  - induction IH as [|x l Hx _ IHl]; [done|]. cbn. intros [H1 H2]%andb_prop. by rewrite Hx, IHl.
  - intros [_ Hl]%andb_prop. induction IH as [|[k x] l Hx _ IHl]; [done|]. cbn in *. apply andb_prop in Hl as [H1 H2].
    by rewrite Hx, IHl.
Qed.

(** Fuel that is enough to read a document back. *)
Fixpoint depth (j : json) : nat :=
  match j with
  | JArr l => S (foldr (fun x n => S (depth x + n)) 0 l)
  | JObj l => S (foldr (fun kv n => S (depth kv.2 + n)) 0 l)
  | _ => 1
  end%nat.

Lemma app_cons c a b : String c a +:+ b = String c (a +:+ b).
Proof. done. Qed.
Lemma app_nil_s (a : string) : a +:+ "" = a.
Proof. induction a as [|x a IH]; [done|]. rewrite app_cons. by rewrite IH. Qed.
Lemma app_assoc_s (a b c : string) : (a +:+ b) +:+ c = a +:+ b +:+ c.
Proof. induction a as [|x a IH]; [done|]. rewrite !app_cons. by rewrite IH. Qed.

Lemma scan_string_escape c t : scan_string (escape c +:+ t) = prepend (String c "") (scan_string t).
Proof. destruct c as [[] [] [] [] [] [] [] []]; reflexivity. Qed.

Lemma scan_string_escaped s rest : scan_string (escaped s +:+ String quote rest) = Some (s, rest).
Proof.
  induction s as [|c s IH]; [done|].
  change (escaped (String c s)) with (escape c +:+ escaped s).
  rewrite app_assoc_s, scan_string_escape, IH. done.
Qed.

(** *** Integers *)

Definition num_end (s : string) : Prop :=
  match s with
  | "" => True
  | String c _ => Strconv.digit c = None /\ c <> "."%char /\ c <> "e"%char /\ c <> "E"%char
  end.

Lemma digit_char d : 0 <= d < 10 -> Strconv.digit (ascii_of_nat (48 + Z.to_nat d)) = Some d.
Proof.
  intros Hd. unfold Strconv.digit. rewrite nat_ascii_embedding by lia.
  rewrite decide_True by lia. f_equal. lia.
Qed.

Lemma scan_digits_char n d s :
  0 <= d < 10 -> scan_digits n (String (ascii_of_nat (48 + Z.to_nat d)) s) = scan_digits (n * 10 + d) s.
Proof. intros Hd. cbn [scan_digits]. by rewrite digit_char. Qed.

Lemma scan_digits_digits f n acc :
  0 <= n < 10 ^ (Z.of_nat f + 1) -> scan_digits 0 (digits f n acc) = scan_digits n acc.
Proof.
  revert n acc. induction f as [|f IH]; intros n acc Hn; cbn [digits].
  - rewrite scan_digits_char by (apply Z.mod_pos_bound; lia). f_equal. rewrite Z.mod_small; lia.
  - assert (0 <= n mod 10 < 10) by (apply Z.mod_pos_bound; lia).
    destruct (Z.ltb_spec n 10).
    + rewrite scan_digits_char by done. f_equal. rewrite Z.mod_small; lia.
    + rewrite IH.
      * rewrite scan_digits_char by done. f_equal. pose proof (Z.div_mod n 10). lia.
      * split; [apply Z.div_pos; lia|]. apply Z.div_lt_upper_bound; [lia|].
        rewrite <-Z.pow_succ_r by lia. replace (Z.succ (Z.of_nat f + 1)) with (Z.of_nat (S f) + 1) by lia. lia.
Qed.

(** The first character printed is a digit, and not zero unless the number is. *)
Lemma digits_head f n acc :
  0 <= n < 10 ^ (Z.of_nat f + 1) ->
  exists d r, 0 <= d < 10 /\ (d = 0 -> n = 0) /\ digits f n acc = String (ascii_of_nat (48 + Z.to_nat d)) r.
Proof.
  revert n acc. induction f as [|f IH]; intros n acc Hn; cbn [digits].
  - exists (n mod 10), acc. split; [apply Z.mod_pos_bound; lia|split; [|done]]. rewrite Z.mod_small; lia.
  - destruct (Z.ltb_spec n 10).
    + exists (n mod 10), acc. split; [apply Z.mod_pos_bound; lia|split; [|done]]. rewrite Z.mod_small; lia.
    + destruct (IH (n / 10) (String (ascii_of_nat (48 + Z.to_nat (n mod 10))) acc)) as (d & r & Hd & Hz & ->).
      * split; [apply Z.div_pos; lia|]. apply Z.div_lt_upper_bound; [lia|].
        rewrite <-Z.pow_succ_r by lia. replace (Z.succ (Z.of_nat f + 1)) with (Z.of_nat (S f) + 1) by lia. lia.
      * exists d, r. split; [done|split; [|done]]. intros Hd0. specialize (Hz Hd0).
        apply Z.div_small_iff in Hz; lia.
Qed.

Lemma digits_app f n acc rest : digits f n acc +:+ rest = digits f n (acc +:+ rest).
Proof. revert n acc. induction f as [|f IH]; intros n acc; cbn [digits]; [done|]. case_match; [done|apply IH]. Qed.

Lemma digits_bound n : 0 <= n -> n < 10 ^ (Z.of_nat (Z.to_nat (Z.log2 n)) + 1).
Proof.
  intros Hn. pose proof (Z.log2_nonneg n). rewrite Z2Nat.id by lia.
  destruct (decide (n = 0)) as [->|]; [done|].
  pose proof (Z.log2_spec n ltac:(lia)) as [_ Hl].
  eapply Z.lt_le_trans; [exact Hl|]. rewrite <-Z.add_1_r. apply Z.pow_le_mono_l. lia.
Qed.

Lemma scan_digits_end n rest : num_end rest -> scan_digits n rest = (n, rest).
Proof. destruct rest as [|c r]; [done|]. intros [Hd _]. cbn [scan_digits]. by rewrite Hd. Qed.

Lemma num_end_match {A} rest (x y : A) : num_end rest ->
  match rest with String "." _ | String "e" _ | String "E" _ => x | _ => y end = y.
Proof.
  destruct rest as [|c r]; [done|]. intros (_ & ? & ? & ?).
  destruct c as [[] [] [] [] [] [] [] []]; first [reflexivity|congruence].
Qed.

Lemma scan_int_digits n rest :
  0 <= n -> num_end rest -> scan_int (digits (Z.to_nat (Z.log2 n)) n rest) = Some (n, rest).
Proof.
  intros Hn Hr. pose proof (digits_bound n Hn) as Hb.
  destruct (digits_head (Z.to_nat (Z.log2 n)) n rest) as (d & r & Hd & Hz & He); [lia|].
  pose proof (scan_digits_digits (Z.to_nat (Z.log2 n)) n rest ltac:(lia)) as Hs.
  rewrite He in *. rewrite scan_digits_char in Hs by done. rewrite (scan_digits_end n rest) in Hs by done.
  unfold scan_int. rewrite digit_char by done. case_decide as Hd0.
  - subst d. specialize (Hz eq_refl). subst n.
    assert (r = rest) as -> by (simpl in He; congruence). by apply num_end_match.
  - change (0 * 10 + d) with d in Hs. rewrite Hs. by apply num_end_match.
Qed.

(** *** Objects *)

Lemma compare_gt k k' : String.ltb k' k = true -> String.compare k k' = Gt.
Proof. unfold String.ltb. rewrite (String.compare_antisym k k'). by destruct (String.compare k' k). Qed.

Lemma oset_last k v l : forallb (fun kv => String.ltb kv.1 k) l = true -> oset k v l = l ++ [(k, v)].
Proof.
  induction l as [|[k' v'] l IH]; simpl; [done|]. intros [Hk Hl]%andb_prop.
  rewrite (compare_gt k k' Hk). by rewrite IH.
Qed.

Lemma build_sorted_go acc l :
  (forall kv kv', kv ∈ acc -> kv' ∈ l -> String.ltb kv.1 kv'.1 = true) -> sorted_keys l = true ->
  foldl (fun m kv => oset kv.1 kv.2 m) acc l = acc ++ l.
Proof.
  revert acc. induction l as [|[k v] l IH]; intros acc Ha Hs; simpl; [by rewrite app_nil_r|].
  simpl in Hs. apply andb_prop in Hs as [Hk Hs]. rewrite oset_last.
  2:{ apply forallb_forall. intros x Hx%list_elem_of_In. apply (Ha x (k, v)); [done|left]. }
  rewrite IH; [by rewrite <-app_assoc| |done].
  intros kv kv' [Hkv|Hkv]%elem_of_app Hkv'.
  - apply Ha; [done|by right].
  - apply list_elem_of_singleton in Hkv as ->. simpl.
    by apply (proj1 (forallb_forall _ _) Hk), list_elem_of_In.
Qed.

Lemma build_sorted l : sorted_keys l = true -> build l = l.
Proof. intros Hs. unfold build. rewrite build_sorted_go; [done| |done]. by intros ? ? ?%elem_of_nil. Qed.

(** *** Values *)

Lemma num_end_comma r : num_end (String "," r).
Proof. by repeat split. Qed.
Lemma num_end_bracket r : num_end (String "]" r).
Proof. by repeat split. Qed.
Lemma num_end_brace r : num_end (String "}" r).
Proof. by repeat split. Qed.

(** A printed value starts with a character that is neither space nor a closing
    bracket. *)
Definition starts_value (c : ascii) : Prop := is_ws c = false /\ c <> "]"%char /\ c <> "}"%char.

Lemma digit_starts d : 0 <= d < 10 -> starts_value (ascii_of_nat (48 + Z.to_nat d)).
Proof.
  intros Hd. assert (exists k, (k < 10)%nat /\ Z.to_nat d = k) as (k & Hk & ->) by (exists (Z.to_nat d); lia).
  do 10 (destruct k as [|k]; [by split_and!|]). lia.
Qed.

Lemma print_int_starts z acc : exists c r, print_int z +:+ acc = String c r /\ starts_value c.
Proof.
  unfold print_int. destruct (z <? 0); [by eexists _, _|].
  rewrite digits_app. pose proof (digits_bound (Z.abs z)).
  destruct (digits_head (Z.to_nat (Z.log2 (Z.abs z))) (Z.abs z) ("" +:+ acc)) as (d & r & Hd & _ & ->); [lia|].
  eexists _, _. split; [done|by apply digit_starts].
Qed.

Lemma Marshal_starts j acc : exists c r, Marshal j +:+ acc = String c r /\ starts_value c.
Proof. destruct j as [|[]|z|s|l|l]; first [apply print_int_starts|by eexists _, _]. Qed.

Lemma skip_ws_starts c r : is_ws c = false -> skip_ws (String c r) = String c r.
Proof. simpl. by intros ->. Qed.

Lemma value_digits n d r rest z :
  0 <= d < 10 -> scan_int (String (ascii_of_nat (48 + Z.to_nat d)) r) = Some (z, rest) ->
  value (S n) (String (ascii_of_nat (48 + Z.to_nat d)) r) = Some (JNum z, rest).
Proof.
  intros Hd. assert (exists k, (k < 10)%nat /\ Z.to_nat d = k) as (k & Hk & ->) by (exists (Z.to_nat d); lia).
  intros Hs. transitivity (match scan_int (String (ascii_of_nat (48 + k)) r) with
                           | Some (n, r) => Some (JNum n, r) | None => None end); [|by rewrite Hs].
  clear Hs. do 10 (destruct k as [|k]; [reflexivity|]). lia.
Qed.

Lemma value_int n z rest : num_end rest -> value (S n) (print_int z +:+ rest) = Some (JNum z, rest).
Proof.
  intros Hr. unfold print_int. destruct (Z.ltb_spec z 0).
  - rewrite app_cons, digits_app. cbn [value skip_ws is_ws].
    change (is_ws "-") with false. cbn iota.
    rewrite scan_int_digits by (done || lia). do 2 f_equal. f_equal. lia.
  - rewrite digits_app. pose proof (digits_bound (Z.abs z)).
    pose proof (scan_int_digits (Z.abs z) rest ltac:(lia) Hr) as Hs.
    destruct (digits_head (Z.to_nat (Z.log2 (Z.abs z))) (Z.abs z) rest) as (d & r & Hd & _ & He); [lia|].
    change ("" +:+ rest) with rest. rewrite He in *. rewrite (value_digits _ _ _ _ _ Hd Hs). do 3 f_equal. lia.
Qed.

Lemma value_str n s rest : value (S n) (print_string s +:+ rest) = Some (JStr s, rest).
Proof.
  unfold print_string. rewrite app_cons, app_assoc_s.
  transitivity (match scan_string (escaped s +:+ String quote rest) with
                | Some (x, r) => Some (JStr x, r) | None => None end); [reflexivity|].
  by rewrite scan_string_escaped.
Qed.

Lemma not_close {A} (f : string -> A) (b : A) c r : starts_value c ->
  match skip_ws (String c r) with String "]" r => f r | _ => b end = b.
Proof.
  intros (Hw & Hb & _). rewrite skip_ws_starts by done.
  destruct c as [[] [] [] [] [] [] [] []]; first [reflexivity|congruence].
Qed.
Lemma not_close_brace {A} (f : string -> A) (b : A) r :
  match skip_ws (String quote r) with String "}" r => f r | _ => b end = b.
Proof. reflexivity. Qed.

Definition reads_back (v : string -> option (json * string)) (x : json) : Prop :=
  forall rest, num_end rest -> v (Marshal x +:+ rest) = Some (x, rest).

Lemma elements_print v x l m rest :
  Forall (reads_back v) (x :: l) -> (length l < m)%nat ->
  elements v m (print_elements Marshal (x :: l) +:+ rest) = Some (x :: l, rest).
Proof.
  revert x m. induction l as [|y l IH]; intros x [|m] Hf Hm; simpl in Hm; try lia;
    apply Forall_cons in Hf as [Hx Hf].
  - cbn [print_elements]. rewrite app_assoc_s. cbn [elements].
    by rewrite Hx by apply num_end_bracket.
  - change (print_elements Marshal (x :: y :: l)) with (Marshal x +:+ String "," (print_elements Marshal (y :: l))).
    rewrite app_assoc_s, app_cons. cbn [elements]. rewrite Hx by apply num_end_comma.
    transitivity (match elements v m (print_elements Marshal (y :: l) +:+ rest) with
                  | Some (l, r) => Some (x :: l, r) | None => None end); [reflexivity|].
    rewrite IH; [done|done|lia].
Qed.

Lemma member_print v k x rest m :
  reads_back v x -> num_end rest ->
  members v (S m) (print_member Marshal (k, x) +:+ rest) =
    match skip_ws rest with
    | String "}" r => Some ([(k, x)], r)
    | String "," r => match members v m r with
                      | Some (l, r) => Some ((k, x) :: l, r)
                      | None => None
                      end
    | _ => None
    end.
Proof.
  intros Hx Hr. unfold print_member, print_string. cbn [fst snd].
  rewrite !app_assoc_s, app_cons, app_assoc_s.
  transitivity (match scan_string (escaped k +:+ String quote (String ":" (Marshal x +:+ rest))) with
    | Some (k, r) =>
        match skip_ws r with
        | String ":" r =>
            match v r with
            | Some (x, r) => match skip_ws r with
                | String "}" r => Some ([(k, x)], r)
                | String "," r => match members v m r with
                                  | Some (l, r) => Some ((k, x) :: l, r)
                                  | None => None
                                  end
                | _ => None
                end
            | None => None
            end
        | _ => None
        end
    | None => None
    end); [reflexivity|].
  rewrite scan_string_escaped. rewrite skip_ws_starts by done. by rewrite Hx.
Qed.

Lemma members_print v kv l m rest :
  Forall (fun kv => reads_back v kv.2) (kv :: l) -> (length l < m)%nat ->
  members v m (print_members Marshal (kv :: l) +:+ rest) = Some (kv :: l, rest).
Proof.
  revert kv m. induction l as [|y l IH]; intros [k x] [|m] Hf Hm; simpl in Hm; try lia;
    apply Forall_cons in Hf as [Hx Hf].
  - cbn [print_members]. rewrite app_assoc_s, member_print by (done || apply num_end_brace). done.
  - change (print_members Marshal ((k, x) :: y :: l))
      with (print_member Marshal (k, x) +:+ String "," (print_members Marshal (y :: l))).
    rewrite app_assoc_s, app_cons, member_print by (done || apply num_end_comma).
    transitivity (match members v m (print_members Marshal (y :: l) +:+ rest) with
                  | Some (l, r) => Some ((k, x) :: l, r) | None => None end); [reflexivity|].
    rewrite IH; [done|done|lia].
Qed.

Lemma depth_elem {A} (f : A -> nat) l x n :
  x ∈ l -> (foldr (fun x n => S (f x + n)) 0 l <= n)%nat -> (f x <= n)%nat.
Proof.
  intros Hx. revert n. induction Hx as [x l|x y l _ IH]; intros n Hn; simpl in Hn; [lia|].
  specialize (IH n). lia.
Qed.
Lemma depth_length {A} (f : A -> nat) l : (length l <= foldr (fun x n => S (f x + n)) 0 l)%nat.
Proof. induction l; simpl; lia. Qed.

Lemma print_elements_starts x l rest :
  exists c r, print_elements Marshal (x :: l) +:+ rest = String c r /\ starts_value c.
Proof. destruct l; simpl; rewrite app_assoc_s; apply Marshal_starts. Qed.

Lemma value_Marshal j : json_wf j = true -> forall n, (depth j <= n)%nat -> reads_back (value n) j.
Proof.
  induction j as [|[]|z|s|l IH|l IH] using json_ind'; intros Hwf [|n] Hn rest Hr; simpl in Hn; try lia;
    try reflexivity; [by apply value_int|by apply value_str| |].
  - destruct l as [|x l]; [reflexivity|]. cbn [Marshal]. rewrite app_cons.
    destruct (print_elements_starts x l rest) as (c & r & Hs & Hc).
    transitivity (match skip_ws (print_elements Marshal (x :: l) +:+ rest) with
      | String "]" r => Some (JArr [], r)
      | _ => match elements (value n) n (print_elements Marshal (x :: l) +:+ rest) with
             | Some (l, r) => Some (JArr l, r) | None => None end
      end); [reflexivity|].
    rewrite Hs at 1. rewrite not_close by done. rewrite elements_print; [done| |].
    + apply Forall_forall. intros y Hy. rewrite Forall_forall in IH. apply IH; [done| |].
      * by apply (proj1 (forallb_forall _ _) Hwf), list_elem_of_In.
      * apply (depth_elem depth _ _ _ Hy). simpl in *. lia.
    + pose proof (depth_length depth (x :: l)) as Hd. simpl in *. lia.
  - destruct l as [|[k x] l]; [reflexivity|]. cbn [Marshal]. rewrite app_cons.
    cbn [json_wf] in Hwf. apply andb_prop in Hwf as [Hk Hwf].
    transitivity (match members (value n) n (print_members Marshal ((k, x) :: l) +:+ rest) with
             | Some (l, r) => Some (JObj (build l), r) | None => None end).
    { assert (exists r, print_members Marshal ((k, x) :: l) +:+ rest = String quote r) as [r Hq]
        by (destruct l; eexists; reflexivity).
      rewrite Hq. reflexivity. }
    rewrite members_print; [by rewrite build_sorted| |].
    + apply Forall_forall. intros y Hy. rewrite Forall_forall in IH. apply IH; [done| |].
      * by eapply (proj1 (forallb_forall _ _) Hwf), list_elem_of_In.
      * apply (depth_elem (fun kv => depth kv.2) _ _ _ Hy). simpl in *. lia.
    + pose proof (depth_length (fun kv => depth kv.2) ((k, x) :: l)) as Hd. simpl in *. lia.
Qed.

Lemma length_app_s a b : String.length (a +:+ b) = (String.length a + String.length b)%nat.
Proof. induction a as [|c a IH]; [done|]. rewrite app_cons. simpl. by rewrite IH. Qed.

Lemma length_print_elements x y l : String.length (print_elements Marshal (x :: y :: l)) =
  S (String.length (Marshal x) + String.length (print_elements Marshal (y :: l))).
Proof.
  change (print_elements Marshal (x :: y :: l)) with (Marshal x +:+ String "," (print_elements Marshal (y :: l))).
  rewrite length_app_s. cbn [String.length]. lia.
Qed.
Lemma length_print_members k x y l :
  (S (String.length (Marshal x) + String.length (print_members Marshal (y :: l)))
   <= String.length (print_members Marshal ((k, x) :: y :: l)))%nat.
Proof.
  change (print_members Marshal ((k, x) :: y :: l))
    with (print_member Marshal (k, x) +:+ String "," (print_members Marshal (y :: l))).
  unfold print_member. cbn [fst snd]. rewrite !length_app_s. cbn [String.length]. lia.
Qed.

Lemma depth_Marshal j : (depth j <= String.length (Marshal j))%nat.
Proof.
  induction j as [|[]|z|s|l IH|l IH] using json_ind'; cbn [depth Marshal String.length]; try (simpl; lia).
  - destruct (print_int_starts z "") as (c & r & He & _).
    rewrite app_nil_s in He. rewrite He. simpl. lia.
  - apply le_n_S. induction l as [|x [|y l] IHl]; [simpl; lia| |]; apply Forall_cons in IH as [Hx IH].
    + cbn. rewrite length_app_s. simpl. lia.
    + specialize (IHl IH). rewrite length_print_elements. cbn [foldr] in *. lia.
  - apply le_n_S. induction l as [|[k x] [|y l] IHl]; [simpl; lia| |]; apply Forall_cons in IH as [Hx IH].
    + cbn. unfold print_member. rewrite !length_app_s. cbn [fst snd String.length] in *. lia.
    + specialize (IHl IH). pose proof (length_print_members k x y l). cbn [foldr fst snd] in *. lia.
Qed.

(** Unmarshalling a marshalled document gives it back. *)
Lemma Unmarshal_Marshal j : json_wf j = true -> Unmarshal (Marshal j) = Some j.
Proof.
  intros Hwf. unfold Unmarshal.
  pose proof (value_Marshal j Hwf (S (String.length (Marshal j)))) as Hv.
  pose proof (depth_Marshal j). specialize (Hv ltac:(lia) "" I). rewrite app_nil_s in Hv. by rewrite Hv.
Qed.

(** And into a map, when its numbers are float64s. *)
Lemma UnmarshalMap_Marshal l :
  json_wf (JObj l) = true -> exact (JObj l) = true -> UnmarshalMap (Marshal (JObj l)) = Some (Some l).
Proof. intros Hw He. unfold UnmarshalMap. by rewrite Unmarshal_Marshal, overflow_wf, float_members_exact. Qed.
End Json.
