(* ===== verification/Bundle.v ===== *)
(** * pkg/api/resource_bundle.go: payloads and statuses as CloudEvents

    A resource stores its manifest bundle and its status as the JSON form of a
    CloudEvent, with the work metadata as an object; the CloudEvents library wants it
    as a string. The conversions between the two and the decoding for the REST API.
    The CloudEvents library, the work API types and gorm's JSONMap are the class
    [CloudEvents]. *)

From S2P Require Import Prelude GoLib Types Json.

Open Scope Z_scope.

(** The extension names of the work agent protocol (sdk-go). *)
Definition ExtensionWorkMeta : string := "metadata".
Definition ExtensionResourceVersion : string := "resourceversion".
Definition ExtensionStatusUpdateSequenceID : string := "sequenceid".

(** [workpayload.ManifestBundle]: the raw manifests, and what [json.Marshal] gives for
    each config and for the delete option. *)
Record ManifestBundle := mkManifestBundle {
  Manifests : list string;
  ManifestConfigs : list (result string string);
  DeleteOption : option (result string string);
}.

Class CloudEvents := {
  CE : Type;
  ext : Type;
  ceUnmarshal : string -> result CE string;
  ceMarshal : CE -> result string string;
  ceExtensions : CE -> string -> option ext;
  ToString : option ext -> result string string;
  ToInteger : option ext -> result Z string;
  DataAsManifestBundle : CE -> result ManifestBundle string;
  (** the fields of a ManifestBundleStatus *)
  DataAsManifestBundleStatus : CE -> result (list (string * json)) string;
  (** datatypes.JSONMap *)
  jsonMapMarshal : JSONMap -> result string string;
  jsonMapUnmarshal : string -> result JSONMap string;
  (** the wording of a json.Unmarshal error, and of %s on a value that is no string *)
  syntax_error : string -> string;
  format_s : json -> string;
}.

(** [fmt.Errorf(f + ": %v", err)] *)
Definition errorf (f err : string) : string := Fmt.Sprintf (f +:+ ": %v") [Fmt.GStr err].

Section Bundle.
Context `{ce : CloudEvents}.

(** ** Conversions *)

Definition JSONMAPToCloudEvent (jsonmap : JSONMap) : result CE string :=
  if (jlen jsonmap =? 0)%nat then Err "failed to convert empty jsonmap to cloudevent"
  else
    let res := match jget ExtensionWorkMeta jsonmap with
               | Some metadata => jset ExtensionWorkMeta (JStr (Json.Marshal metadata)) jsonmap
               | None => jsonmap
               end in
    match jsonMapMarshal res with
    | Err e => Err (errorf "failed to marshal JSONMAP to cloudevent JSON" e)
    | Ok resJSON => map_err (errorf "failed to unmarshal JSONMAP to cloudevent") (ceUnmarshal resJSON)
    end.

Definition sprint_s (j : json) : string :=
  match j with JStr s => s | _ => format_s j end.

Definition CloudEventToJSONMap (evt : CE) : result JSONMap string :=
  match ceMarshal evt with
  | Err e => Err (errorf "failed to marshal cloudevent to JSONMAP" e)
  | Ok evtJSON =>
      match jsonMapUnmarshal evtJSON with
      | Err e => Err (errorf "failed to unmarshal cloudevent JSON to JSONMAP" e)
      | Ok res =>
          match jget ExtensionWorkMeta res with
          | None => Ok res
          | Some metadata =>
              match Json.UnmarshalMap (sprint_s metadata) with
              | None => Err (errorf "failed to unmarshal metadata extension to object"
                               (syntax_error (sprint_s metadata)))
              | Some objectMeta =>
                  Ok (jset ExtensionWorkMeta (match objectMeta with Some l => JObj l | None => JNull end) res)
              end
          end
      end
  end.

(** ** Decoding for the API *)

(** What a marshalled config or delete option reads back as. *)
Definition remarshal (what : string) (m : result string string) : result JSONMap string :=
  match m with
  | Err e => Err (errorf ("failed to marshal " +:+ what) e)
  | Ok bytes => match Json.UnmarshalMap bytes with
                | Some m => Ok m
                | None => Err (errorf ("failed to unmarshal " +:+ what) (syntax_error bytes))
                end
  end.

(** A loop that collects results and stops at the first error. *)
Fixpoint collect {A B} (f : A -> result B string) (l : list A) : result (list B) string :=
  match l with
  | [] => Ok []
  | a :: l => match f a with
              | Err e => Err e
              | Ok b => match collect f l with Ok bs => Ok (b :: bs) | Err e => Err e end
              end
  end.

Record ManifestBundleWrapper := mkManifestBundleWrapper {
  mw_Meta : JSONMap;
  mw_Manifests : list JSONMap;
  mw_ManifestConfigs : list JSONMap;
  mw_DeleteOption : JSONMap;
}.

Definition decode_manifest (raw : string) : result JSONMap string :=
  match Json.UnmarshalMap raw with
  | Some m => Ok m
  | None => Err (errorf "failed to unmarshal manifest raw" (syntax_error raw))
  end.

Definition decode_meta (evt : CE) : result JSONMap string :=
  match ceExtensions evt ExtensionWorkMeta with
  | None => Ok (Some [])
  | Some meta =>
      match ToString (Some meta) with
      | Err e => Err (errorf "failed to get work meta extension" e)
      | Ok metaJson => match Json.UnmarshalMap metaJson with
                       | Some m => Ok m
                       | None => Err (errorf "failed to unmarshal work meta extension" (syntax_error metaJson))
                       end
      end
  end.

(** (nil, nil) on an empty bundle. *)
Definition DecodeManifestBundle (manifestBundle : JSONMap) : result (option ManifestBundleWrapper) string :=
  if (jlen manifestBundle =? 0)%nat then Ok None
  else
    match JSONMAPToCloudEvent manifestBundle with
    | Err e => Err (errorf "failed to convert resource manifest bundle to cloudevent" e)
    | Ok evt =>
    match decode_meta evt with
    | Err e => Err e
    | Ok metaData =>
    match DataAsManifestBundle evt with
    | Err e => Err (errorf "failed to decode cloudevent payload" e)
    | Ok eventPayload =>
    match collect decode_manifest eventPayload.(Manifests) with
    | Err e => Err e
    | Ok manifests =>
    match collect (remarshal "manifest config") eventPayload.(ManifestConfigs) with
    | Err e => Err e
    | Ok manifestConfigs =>
    match (match eventPayload.(DeleteOption) with
           | None => Ok (Some [])
           | Some d => remarshal "delete option" d end) with
    | Err e => Err e
    | Ok deleteOption => Ok (Some (mkManifestBundleWrapper metaData manifests manifestConfigs deleteOption))
    end end end end end end.

Definition DecodeBundleStatus (status : JSONMap) : result JSONMap string :=
  if (jlen status =? 0)%nat then Ok None
  else
    match JSONMAPToCloudEvent status with
    | Err e => Err (errorf "failed to convert resource bundle status to cloudevent" e)
    | Ok evt =>
    match ToInteger (ceExtensions evt ExtensionResourceVersion) with
    | Err e => Err (errorf "failed to get resourceversion extension" e)
    | Ok resourceVersion =>
    match ToString (ceExtensions evt ExtensionStatusUpdateSequenceID) with
    | Err e => Err (errorf "failed to get sequenceid extension" e)
    | Ok sequenceID =>
    match DataAsManifestBundleStatus evt with
    | Err e => Err (errorf "failed to decode cloudevent payload" e)
    | Ok fields =>
        let resourceBundleStatusJSON :=
          Json.Marshal (JObj (oset "ObservedVersion" (JNum resourceVersion)
                               (oset "SequenceID" (JStr sequenceID) fields))) in
        match Json.UnmarshalMap resourceBundleStatusJSON with
        | Some m => Ok m
        | None => Err (errorf "failed to unmarshal resource status" (syntax_error resourceBundleStatusJSON))
        end
    end end end end.

(** ** Lemmas *)

Lemma oset_oset k v v' l : oset k v (oset k v' l) = oset k v l.
Proof.
  assert (String.compare k k = Eq) as Hkk.
  { pose proof (String.compare_antisym k k). by destruct (String.compare k k). }
  induction l as [|[k1 v1] l IH]; simpl; [by rewrite Hkk|].
  destruct (String.compare k k1) eqn:E; simpl; rewrite ?Hkk, ?E; [done|done|by rewrite IH].
Qed.

Lemma oset_id k v l : Json.sorted_keys l = true -> oget k l = Some v -> oset k v l = l.
Proof.
  induction l as [|[k1 v1] l IH]; simpl; [done|]. intros [Hk Hs]%andb_prop.
  case_decide as Hd.
  - subst. intros [= ->]. pose proof (String.compare_antisym k1 k1). by destruct (String.compare k1 k1).
  - intros Hg. rewrite (Json.compare_gt k k1); [by rewrite IH|].
    assert (exists v, (k, v) ∈ l) as [v' Hin].
    { clear -Hg. induction l as [|[k2 v2] l IH]; simpl in *; [done|]. case_decide; [subst; eexists; left|].
      destruct (IH Hg) as [? ?]. eexists. by right. }
    by apply (proj1 (forallb_forall _ _) Hk (k, v')), list_elem_of_In.
Qed.

Lemma collect_Ok {A B} (f : A -> result B string) l bs :
  collect f l = Ok bs <-> Forall2 (fun a b => f a = Ok b) l bs.
Proof.
  revert bs. induction l as [|a l IH]; intros bs; simpl.
  - split; [intros [= <-]; constructor|intros Hf; by inversion Hf].
  - split.
    + destruct (f a) as [b|] eqn:Ha; [|done]. destruct (collect f l) as [bs'|]; [|done].
      intros [= <-]. constructor; [done|]. by apply IH.
    + intros Hf. inversion Hf as [|? b ? bs' Hb Hl]; subst. rewrite Hb.
      by rewrite (proj2 (IH bs') Hl).
Qed.

(** ** Properties *)

(** What re-marshalling an event must give for a document to survive the library:
    the document itself. *)
Definition canonical (m : JSONMap) : Prop :=
  forall s e, jsonMapMarshal m = Ok s -> ceUnmarshal s = Ok e ->
    exists s', ceMarshal e = Ok s' /\ jsonMapUnmarshal s' = Ok m.

(** The document handed to the library: the metadata as a string. *)
Definition stringified (l : list (string * json)) (meta : list (string * json)) : JSONMap :=
  Some (oset ExtensionWorkMeta (JStr (Json.Marshal (JObj meta))) l).

(** A stored bundle whose metadata is an object comes back unchanged from the
    conversion to a CloudEvent and back: the metadata is turned into a string and
    parsed again without loss, as long as its numbers are float64s. *)
Theorem bundle_roundtrip l meta evt :
  Json.json_wf (JObj l) = true ->
  oget ExtensionWorkMeta l = Some (JObj meta) -> Json.exact (JObj meta) = true ->
  canonical (stringified l meta) ->
  JSONMAPToCloudEvent (Some l) = Ok evt ->
  CloudEventToJSONMap evt = Ok (Some l).
Proof.
  intros Hwf Hm Hx Hc. cbn [Json.json_wf] in Hwf. apply andb_prop in Hwf as [Hk Hwf].
  assert (Json.json_wf (JObj meta) = true) as Hmeta.
  { apply (proj1 (forallb_forall _ _) Hwf (ExtensionWorkMeta, JObj meta)). clear -Hm.
    induction l as [|[k v] l IH]; simpl in *; [done|]. case_decide; [left; congruence|right; auto]. }
  unfold JSONMAPToCloudEvent. case_match; [done|]. cbn [jget mbind option_bind]. rewrite Hm. cbn [jset fmap option_fmap option_map].
  change (Some (oset _ _ l)) with (stringified l meta).
  destruct (jsonMapMarshal (stringified l meta)) as [s|] eqn:Hs; [|done].
  destruct (ceUnmarshal s) as [e|] eqn:He; [|done]. simpl. intros [= <-].
  destruct (Hc s e Hs He) as (s' & Hs' & Hu). unfold CloudEventToJSONMap. rewrite Hs', Hu.
  unfold stringified. cbn [jget mbind option_bind]. rewrite oget_oset. cbn [sprint_s].
  rewrite Json.UnmarshalMap_Marshal by done.
  cbn [jset fmap option_fmap option_map]. by rewrite oset_oset, oset_id.
Qed.

End Bundle.

(** ** An instance: events as their JSON documents *)

Module DocumentEvents.

Definition doc (m : JSONMap) : json := match m with Some l => JObj l | None => JNull end.
Definition data_field (k : string) (e : JSONMap) : option json :=
  match jget "data" e with Some (JObj d) => oget k d | _ => None end.
Definition list_field (k : string) (e : JSONMap) : list json :=
  match data_field k e with Some (JArr l) => l | _ => [] end.

(** The members of the document that are no extensions. *)
Definition attributes : list string :=
  ["specversion"; "id"; "source"; "type"; "subject"; "time"; "datacontenttype"; "dataschema"; "data"].

#[export] Instance ce : CloudEvents := {
  CE := JSONMap;
  ext := json;
  ceUnmarshal s := match Json.UnmarshalMap s with Some m => Ok m | None => Err "invalid" end;
  ceMarshal e := Ok (Json.Marshal (doc e));
  ceExtensions e k := if decide (k ∈ attributes) then None else jget k e;
  ToString v := match v with
                | Some (JStr s) => Ok s
                | Some (JNum z) => Ok (pretty z)
                | _ => Err "invalid CloudEvents value" end;
  ToInteger v := match v with Some (JNum z) => Ok z | _ => Err "invalid CloudEvents value" end;
  DataAsManifestBundle e :=
    Ok (mkManifestBundle (Json.Marshal <$> list_field "manifests" e)
          ((fun c => Ok (Json.Marshal c)) <$> list_field "manifestConfigs" e)
          ((fun d => Ok (Json.Marshal d)) <$> data_field "deleteOption" e));
  DataAsManifestBundleStatus e := match jget "data" e with Some (JObj d) => Ok d | _ => Ok [] end;
  jsonMapMarshal m := Ok (Json.Marshal (doc m));
  jsonMapUnmarshal s := match Json.UnmarshalMap s with Some m => Ok m | None => Err "invalid" end;
  syntax_error s := String.append "invalid document " s;
  format_s j := Json.Marshal j;
}.

Lemma canonical_doc l : Json.json_wf (JObj l) = true -> Json.exact (JObj l) = true -> canonical (Some l).
Proof.
  intros Hwf Hx s e. pose proof (Json.UnmarshalMap_Marshal _ Hwf Hx) as Hm.
  cbn [jsonMapMarshal ceUnmarshal ceMarshal jsonMapUnmarshal ce CE].
  cbn [doc Json.Marshal] in *. intros [= <-] He. rewrite Hm in He. injection He as <-.
  eexists. split; [reflexivity|]. cbn [doc Json.Marshal]. by rewrite Hm.
Qed.

(** A bundle with one ConfigMap, as the work agent protocol has it. *)
Definition config_map (name : string) : json :=
  JObj [("apiVersion", JStr "v1"); ("kind", JStr "ConfigMap");
        ("metadata", JObj [("name", JStr name); ("namespace", JStr "default")])].
Definition bundle (names : list string) : list (string * json) :=
  [("data", JObj [("manifests", JArr (config_map <$> names))]);
   ("id", JStr "e1");
   ("metadata", JObj [("creationTimestamp", JNull); ("name", JStr "work <1>")])].

Lemma bundle_roundtrip_witness :
  exists evt, JSONMAPToCloudEvent (Some (bundle ["cm"])) = Ok evt /\
              CloudEventToJSONMap evt = Ok (Some (bundle ["cm"])).
Proof.
  eexists. split; [vm_compute; reflexivity|].
  eapply (bundle_roundtrip (bundle ["cm"]));
    [reflexivity|reflexivity|reflexivity|apply canonical_doc; reflexivity|vm_compute; reflexivity].
Defined.

End DocumentEvents.
