(* ===== verification/Validation.v ===== *)
(** * pkg/services: validation of requests and mapping of errors

    validation.go (names, manifests, manifest bundles) and util.go (DAO errors to
    service errors, comparison of status sequence ids). The Kubernetes validation and
    unstructured helpers are the class [K8s], the snowflake library the class
    [Snowflake]. *)

From S2P Require Import Prelude GoLib Types Errors Json Bundle.
Import Fmt errors.

Open Scope Z_scope.

(** ** k8s.io/apimachinery *)

Inductive FieldError :=
| FieldInvalid (path value msg : string)
| FieldRequired (path msg : string)
| FieldForbidden (path msg : string).

Class K8s := {
  ValidateNamespaceName : string -> list string;
  IsDNS1123Subdomain : string -> list string;
  IsDNS1035Label : string -> list string;
  ValidateAnnotations : list (string * string) -> string -> list FieldError;
  ValidateFinalizers : list string -> string -> list FieldError;
  ValidateLabels : list (string * string) -> string -> list FieldError;
  (** field.ErrorList.ToAggregate().Error() of a non-empty list *)
  aggregate : list FieldError -> string;
  (** unstructured.Unstructured *)
  GetAPIVersion : JSONMap -> string;
  GetKind : JSONMap -> string;
  GetName : JSONMap -> string;
  GetNamespace : JSONMap -> string;
  GetGenerateName : JSONMap -> string;
  GetObjResourceVersion : JSONMap -> string;
  GetDeletionGracePeriodSeconds : JSONMap -> option Z;
  GetAnnotations : JSONMap -> list (string * string);
  GetFinalizers : JSONMap -> list string;
  GetLabels : JSONMap -> list (string * string);
}.

(** github.com/bwmarrin/snowflake: the parts of an id. *)
Class Snowflake := {
  ParseString : string -> result Z string;
  Node : Z -> Z;
  Time_ : Z -> Z;
  Step : Z -> Z;
}.

Section Validation.
Context `{k8s : K8s}.

(** [if len(errs) == 0 { return nil }; return fmt.Errorf("%s", aggregate)] *)
Definition to_error (errs : list FieldError) : option string :=
  match errs with [] => None | _ => Some (Sprintf "%s" [GStr (aggregate errs)]) end.

Definition ValidateResourceName (resource : api.Resource) : option string :=
  to_error (FieldInvalid "resource.name" resource.(api.r_Name) <$> ValidateNamespaceName resource.(api.r_Name)).

Definition ValidateConsumer (consumer : api.Consumer) : option string :=
  to_error (FieldInvalid "consumer.name" consumer.(api.c_Name) <$> ValidateNamespaceName consumer.(api.c_Name)).

Definition validate_version (apiVersion version : string) : list FieldError :=
  if decide (version = "") then [FieldInvalid "apiVersion" apiVersion "version not set"]
  else FieldInvalid "apiVersion" apiVersion <$> IsDNS1035Label version.

Definition validate_group (apiVersion group : string) : list FieldError :=
  if decide (group = "") then [FieldInvalid "apiVersion" apiVersion "group not set"]
  else FieldInvalid "apiVersion" apiVersion <$> IsDNS1123Subdomain group.

Definition validatedAPIVersion (apiVersion : string) : list FieldError :=
  if decide (apiVersion = "") then [FieldRequired "apiVersion" "field not set"]
  else
    match Strings.Split apiVersion Strings.slash with
    | [version] => validate_version apiVersion version
    | [group; version] => validate_group apiVersion group ++ validate_version apiVersion version
    | _ => [FieldInvalid "apiVersion" apiVersion "bad format"]
    end.

Definition validateMetaData (obj : JSONMap) : list FieldError :=
  (if decide (GetGenerateName obj = "") then []
   else [FieldForbidden "metadata.generateName" "field cannot be set"]) ++
  (if decide (GetObjResourceVersion obj = "") then []
   else [FieldForbidden "metadata.resourceVersion" "field cannot be set"]) ++
  (match GetDeletionGracePeriodSeconds obj with
   | None => []
   | Some _ => [FieldForbidden "metadata.deletionGracePeriodSeconds" "field cannot be set"] end) ++
  ValidateAnnotations (GetAnnotations obj) "metadata.annotations" ++
  ValidateFinalizers (GetFinalizers obj) "metadata.finalizers" ++
  ValidateLabels (GetLabels obj) "metadata.labels".

Definition ValidateObject (obj : JSONMap) : option string :=
  to_error (
    validatedAPIVersion (GetAPIVersion obj) ++
    (if decide (GetKind obj = "") then [FieldRequired "kind" "field not set"] else []) ++
    (if decide (GetName obj = "") then [FieldRequired "metadata.name" "field not set"] else []) ++
    (if decide (GetNamespace obj = "") then []
     else FieldInvalid "metadata.namespace" (GetNamespace obj) <$> ValidateNamespaceName (GetNamespace obj)) ++
    validateMetaData obj).

Record manifestInfo := mkManifestInfo { mi_key : string; mi_name : string; mi_namespace : string; mi_gvk : string }.

(** The error result of the Go function is always nil. *)
Definition extractManifestInfo (manifest : JSONMap) : manifestInfo := {|
  mi_key := Sprintf "%s/%s/%s/%s" [GStr (GetAPIVersion manifest); GStr (GetKind manifest);
                                   GStr (GetNamespace manifest); GStr (GetName manifest)];
  mi_name := GetName manifest;
  mi_namespace := GetNamespace manifest;
  mi_gvk := Sprintf "%s.%s" [GStr (GetAPIVersion manifest); GStr (GetKind manifest)];
|}.

(** The loop over the manifests with the set of keys seen so far. *)
Fixpoint validate_manifests (seen : gset string) (l : list JSONMap) : option string :=
  match l with
  | [] => None
  | manifest :: l =>
      match ValidateObject manifest with
      | Some err => Some err
      | None =>
          let info := extractManifestInfo manifest in
          if decide (info.(mi_key) ∈ seen) then
            Some (Sprintf "duplicate manifest for resource %s/%s with resource type %s"
                    [GStr info.(mi_namespace); GStr info.(mi_name); GStr info.(mi_gvk)])
          else validate_manifests ({[info.(mi_key)]} ∪ seen) l
      end
  end.

Context `{ce : CloudEvents}.

Definition ValidateManifestBundle (manifestBundle : JSONMap) : option string :=
  match DecodeManifestBundle manifestBundle with
  | Err e => Some (errorf "failed to decode manifest bundle" e)
  | Ok None => Some "manifest bundle is empty"
  | Ok (Some w) => validate_manifests ∅ w.(mw_Manifests)
  end.

Lemma validate_manifests_None seen l :
  validate_manifests seen l = None <->
  Forall (fun m => ValidateObject m = None) l /\
  NoDup (mi_key ∘ extractManifestInfo <$> l) /\
  Forall (fun m => mi_key (extractManifestInfo m) ∉ seen) l.
Proof.
  revert seen. induction l as [|m l IH]; intros seen; simpl; [by repeat constructor|].
  rewrite !Forall_cons, NoDup_cons.
  destruct (ValidateObject m) as [e|] eqn:Hv; [split; [done|by intros ((? & _) & _)]|].
  case_decide as Hin; [split; [done|by intros (_ & _ & ? & _)]|]. rewrite IH.
  rewrite !Forall_forall, list_elem_of_fmap. clear IH. split.
  - intros (Hall & Hnd & Hfr). split_and!; try done.
    + intros (x & Hx & Hxl). specialize (Hfr x Hxl). simpl in Hx. set_solver.
    + intros x Hx. specialize (Hfr x Hx). set_solver.
  - intros ((_ & Hall) & (Hm & Hnd) & (_ & Hfr)). split_and!; try done.
    intros x Hx [He%elem_of_singleton|He]%elem_of_union; [|by eapply Hfr].
    apply Hm. exists x. split; [done|done].
Qed.

End Validation.

(** ** util.go *)

Definition piiFields : list string := ["username"; "first_name"; "last_name"; "email"; "address"].

(** [notFound] says whether the error is gorm's ErrRecordNotFound. *)
Definition handleGetError (resourceType field : string) (value : garg) (notFound : bool) (err : string) : ServiceError :=
  let value := if decide (field ∈ piiFields) then GStr "<redacted>" else value in
  if notFound then NotFound "%s with %s='%v' not found" [GStr resourceType; GStr field; value]
  else GeneralError "Unable to find %s with %s='%v': %s" [GStr resourceType; GStr field; value; GStr err].

Definition handleCreateError (resourceType err : string) : ServiceError :=
  if Strings.Contains err "violates unique constraint"
  then Conflict "This %s already exists" [GStr resourceType]
  else GeneralError "Unable to create %s: %s" [GStr resourceType; GStr err].

Definition handleUpdateError (resourceType err : string) : ServiceError :=
  if Strings.Contains err "violates unique constraint"
  then Conflict "Changes to %s conflict with existing records" [GStr resourceType]
  else GeneralError "Unable to update %s: %s" [GStr resourceType; GStr err].

Definition handleDeleteError (resourceType err : string) : ServiceError :=
  if Strings.Contains err "violates foreign key constraint"
  then Forbidden "Unable to delete %s: %s" [GStr resourceType; GStr err]
  else GeneralError "Unable to delete %s: %s" [GStr resourceType; GStr err].

Definition compareSequenceIDs `{Snowflake} (sequenceID1 sequenceID2 : string) : result bool ServiceError :=
  if decide (sequenceID1 <> "" /\ sequenceID2 = "") then Ok true
  else
    match ParseString sequenceID1 with
    | Err e => Err (GeneralError "Unable to parse sequence ID: %s" [GStr e])
    | Ok id1 =>
        match ParseString sequenceID2 with
        | Err e => Err (GeneralError "Unable to parse sequence ID: %s" [GStr e])
        | Ok id2 =>
            if decide (Node id1 <> Node id2) then Err (GeneralError "Sequence IDs are not from the same node" [])
            else if decide (Time_ id1 <> Time_ id2) then Ok (Time_ id2 <? Time_ id1)
            else Ok (Step id2 <? Step id1)
        end
    end.

(** ** Properties *)

(** ValidateManifestBundle accepts a payload exactly when it decodes to a
    non-nil bundle each of whose manifests is a valid object and no two of whose
    manifests have the same apiVersion/kind/namespace/name. *)
Theorem ValidateManifestBundle_accepts `{K8s} `{CloudEvents} payload :
  ValidateManifestBundle payload = None <->
  exists b, DecodeManifestBundle payload = Ok (Some b) /\
    Forall (fun m => ValidateObject m = None) b.(mw_Manifests) /\
    NoDup (mi_key ∘ extractManifestInfo <$> b.(mw_Manifests)).
Proof.
  unfold ValidateManifestBundle. destruct (DecodeManifestBundle payload) as [[b|]|e].
  - rewrite validate_manifests_None. split.
    + intros (? & ? & ?). by exists b.
    + intros (b' & [= <-] & ? & ?). split_and!; try done. apply Forall_forall. set_solver.
  - split; [done|by intros (b & ? & _)].
  - split; [done|by intros (b & ? & _)].
Qed.

(** The order compareSequenceIDs decides on ids that both parse. *)
Definition newer `{Snowflake} (a b : string) : Prop :=
  exists i j, ParseString a = Ok i /\ ParseString b = Ok j /\ Node i = Node j /\
              (Time_ j < Time_ i \/ Time_ i = Time_ j /\ Step j < Step i).

Lemma compareSequenceIDs_newer `{Snowflake} a b :
  b <> "" -> compareSequenceIDs a b = Ok true <-> newer a b.
Proof.
  intros Hb. unfold compareSequenceIDs, newer. rewrite decide_False by tauto.
  destruct (ParseString a) as [i|]; [|split; [done|by intros (? & ? & ? & _)]].
  destruct (ParseString b) as [j|]; [|split; [done|by intros (? & ? & _ & ? & _)]].
  split.
  - intros Hc. exists i, j. repeat case_decide; simplify_eq; split_and!; try done; lia.
  - intros (i' & j' & [= <-] & [= <-] & Hn & Ht). rewrite decide_False by tauto.
    case_decide; f_equal; apply Z.ltb_lt; lia.
Qed.

(** On non-empty ids "newer than" is a strict order: no id is newer than itself,
    no two ids are newer than each other, and the relation is transitive; and every
    non-empty id is newer than the empty one. *)
Theorem compareSequenceIDs_strict `{Snowflake} a b c :
  a <> "" -> b <> "" -> c <> "" ->
  compareSequenceIDs a a <> Ok true /\
  (compareSequenceIDs a b = Ok true -> compareSequenceIDs b a <> Ok true) /\
  (compareSequenceIDs a b = Ok true -> compareSequenceIDs b c = Ok true -> compareSequenceIDs a c = Ok true) /\
  compareSequenceIDs a "" = Ok true.
Proof.
  intros Ha Hb Hc. rewrite !compareSequenceIDs_newer by done. split_and!.
  - intros (i & j & ? & ? & ? & ?). assert (i = j) as -> by congruence. lia.
  - intros (i & j & ? & ? & ? & ?) (i' & j' & ? & ? & ? & ?).
    assert (i' = j) as -> by congruence. assert (j' = i) as -> by congruence. lia.
  - intros (i & j & ? & ? & ? & ?) (i' & j' & ? & ? & ? & ?).
    assert (i' = j) as -> by congruence. exists i, j'. split_and!; [done..|congruence|lia].
  - unfold compareSequenceIDs. by rewrite decide_True.
Qed.

(** Snowflake ids with the library's default layout: 10 node bits and 12 step bits. *)
Module DefaultSnowflake.
#[export] Instance snowflake : Snowflake := {
  ParseString s := match Strconv.ParseInt s with (z, None) => Ok z | _ => Err "invalid syntax" end;
  Node z := Z.shiftr (Z.land z (1023 * 4096)) 12;
  Time_ z := Z.shiftr z 22;
  Step z := Z.land z 4095;
}.

Lemma compareSequenceIDs_strict_witness :
  compareSequenceIDs "1834773430033911809" "1834773430033911808" = Ok true /\
  compareSequenceIDs "1834773430033911808" "1834773430033911809" <> Ok true.
Proof.
  split; [vm_compute; reflexivity|].
  apply (compareSequenceIDs_strict "1834773430033911809" "1834773430033911808" "1834773430033911809");
    [discriminate..|vm_compute; reflexivity].
Defined.
End DefaultSnowflake.
