(* ===== verification/Gorm.v ===== *)
(** * The gorm statements the DAOs issue, as an interface

    gorm and PostgreSQL are not part of the sources: the statements are the
    operations of the class [Gorm], on one table at a time, and what the DAOs rely
    on (the documented effect of each statement) is the class [GormLaws]. [Memory]
    is an instance, so every theorem stated over the interface can be run. *)

From S2P Require Import Prelude GoLib Types.
Import api.

Open Scope Z_scope.

(** ** Models: what gorm reads off a Go struct *)

Class Model (Row : Type) := {
  meta : Row -> Meta;
  set_meta : Meta -> Row -> Row;
  (** the BeforeCreate hook, given what NewID returns *)
  before_create : string -> Row -> Row;
  (** apply a function to every JSON column *)
  map_json : (JSONMap -> JSONMap) -> Row -> Row;
  (** the columns with a unique index other than the primary key *)
  unique_cols : Row -> option string;
}.

Class ModelLaws (Row : Type) `{Model Row} : Prop := {
  meta_set_meta m r : meta (set_meta m r) = m;
  meta_map_json f r : meta (map_json f r) = meta r;
  unique_set_meta m r : unique_cols (set_meta m r) = unique_cols r;
  unique_map_json f r : unique_cols (map_json f r) = unique_cols r;
}.

#[export] Instance Resource_model : Model Resource := {
  meta := r_Meta; set_meta := set_r_Meta;
  before_create := Resource_BeforeCreate;
  map_json f r := mkResource r.(r_Meta) r.(Version) r.(r_Source) r.(ConsumerName) r.(Type_)
                    (f r.(Payload)) (f r.(Status)) r.(r_Name);
  unique_cols r := Some r.(r_Name);
}.
#[export] Instance Consumer_model : Model Consumer := {
  meta := c_Meta; set_meta m c := mkConsumer m c.(c_Name) c.(Labels);
  before_create := Consumer_BeforeCreate;
  map_json f c := c;
  unique_cols c := Some c.(c_Name);
}.
#[export] Instance Event_model : Model Event := {
  meta := e_Meta; set_meta m e := mkEvent m e.(e_Source) e.(SourceID) e.(EventType_) e.(ReconciledDate);
  before_create := Event_BeforeCreate;
  map_json f e := e;
  unique_cols _ := None;
}.
#[export] Instance StatusEvent_model : Model StatusEvent := {
  meta := s_Meta;
  set_meta m e := mkStatusEvent m e.(ResourceID) e.(ResourceSource) e.(ResourceType) e.(s_Payload)
                    e.(s_Status) e.(StatusEventType_) e.(s_ReconciledDate);
  before_create := StatusEvent_BeforeCreate;
  map_json f e := mkStatusEvent e.(s_Meta) e.(ResourceID) e.(ResourceSource) e.(ResourceType)
                    (f e.(s_Payload)) (f e.(s_Status)) e.(StatusEventType_) e.(s_ReconciledDate);
  unique_cols _ := None;
}.
#[export] Instance ServerInstance_model : Model ServerInstance := {
  meta := i_Meta; set_meta m i := mkServerInstance m i.(LastHeartbeat) i.(Ready);
  before_create _ i := i;
  map_json f i := i;
  unique_cols _ := None;
}.

#[export] Instance Resource_model_laws : ModelLaws Resource.
Proof. by split. Qed.
#[export] Instance Consumer_model_laws : ModelLaws Consumer.
Proof. by split. Qed.
#[export] Instance Event_model_laws : ModelLaws Event.
Proof. by split. Qed.
#[export] Instance StatusEvent_model_laws : ModelLaws StatusEvent.
Proof. by split. Qed.
#[export] Instance ServerInstance_model_laws : ModelLaws ServerInstance.
Proof. by split. Qed.

Section Rows.
Context {Row : Type} `{Model Row}.

Definition row_id (r : Row) : string := (meta r).(ID).

(** A scoped statement does not see soft-deleted rows. *)
Definition visible (unscoped : bool) (r : Row) : bool := unscoped || negb (meta r).(DeletedAt).(Valid).

Definition hits (unscoped : bool) (p : Row -> bool) (r : Row) : bool := visible unscoped r && p r.

(** Create sets the zero timestamps to the current time. *)
Definition stamp (now : Time) (r : Row) : Row :=
  let m := meta r in
  set_meta (mkMeta m.(ID) (if IsZero m.(CreatedAt) then now else m.(CreatedAt))
                   (if IsZero m.(UpdatedAt) then now else m.(UpdatedAt)) m.(DeletedAt)) r.

(** What a written row reads back as: an invalid [NullTime] is NULL. *)
Definition persist (r : Row) : Row :=
  let m := meta r in
  if m.(DeletedAt).(Valid) then r else set_meta (with_DeletedAt NullTime_zero m) r.

(** Reading a row: NULL JSON columns scan as [n]. *)
Definition load (n : JSONMap) (r : Row) : Row :=
  map_json (fun j => match j with None => n | Some _ => j end) r.

Definition same_unique (r r' : Row) : bool :=
  bool_decide (is_Some (unique_cols r) /\ unique_cols r = unique_cols r').

Definition touched (t : Time) (r : Row) : Row := set_meta (with_UpdatedAt t (meta r)) r.

Definition soft_deleted (now : Time) (r : Row) : Row :=
  set_meta (with_DeletedAt (mkNullTime now true) (meta r)) r.

(** The primary-key condition of the tables. *)
Definition table_wf (t : gmap string Row) : Prop := map_Forall (fun k r => row_id r = k) t.

(** The rows a statement selects. *)
Definition selected (u : bool) (p : Row -> bool) (t : gmap string Row) : list Row :=
  filter (fun r => hits u p r = true) (map_to_list t).*2.

End Rows.

(** ** The statements *)

Class Gorm := {
  (** whether the primary keys of the given models make a WHERE condition *)
  pkCondition : list string -> bool;
  (** what a NULL JSON column scans into *)
  scanNull : JSONMap;
  (** the new updated_at of an Updates statement, from the time and the old one *)
  touch : Time -> Time -> Time;
  gTake : forall {Row} `{Model Row}, bool -> (Row -> bool) -> gmap string Row -> option Row;
  gFind : forall {Row} `{Model Row}, bool -> (Row -> bool) -> gmap string Row -> list Row;
  (** Order("key DESC").First *)
  gFirstDesc : forall {Row} `{Model Row}, bool -> (Row -> bool) -> (Row -> Z) -> gmap string Row -> option Row;
  (** Create; the first argument says whether the referenced rows exist *)
  gCreate : forall {Row} `{Model Row}, bool -> Time -> Row -> gmap string Row ->
            result (Row * gmap string Row) string;
  gUpdates : forall {Row} `{Model Row}, bool -> (Row -> bool) -> (Row -> Row) -> Time ->
             gmap string Row -> gmap string Row * Z;
  gSave : forall {Row} `{Model Row}, Time -> Row -> gmap string Row ->
          result (Row * gmap string Row) string;
  (** Delete; the second argument tells the rows a RESTRICT reference protects *)
  gDelete : forall {Row} `{Model Row}, bool -> (Row -> bool) -> (Row -> bool) -> Time ->
            gmap string Row -> result (gmap string Row) string;
}.

(** The update of one row by an Updates statement. *)
Definition updated_row `{Gorm} {Row} `{Model Row} (f : Row -> Row) (now : Time) (r : Row) : Row :=
  touched (touch now (meta r).(UpdatedAt)) (f r).

Class GormLaws `{Gorm} : Prop := {
  pkCondition_eq ids : pkCondition ids = existsb (fun id => negb (String.eqb id "")) ids;
  scanNull_empty : jlen scanNull = 0%nat;
  gTake_Some {Row} `{Model Row} u p (t : gmap string Row) r :
    gTake u p t = Some r -> exists k r0, t !! k = Some r0 /\ hits u p r0 = true /\ r = load scanNull r0;
  gTake_None {Row} `{Model Row} u p (t : gmap string Row) :
    gTake u p t = None -> forall k r, t !! k = Some r -> hits u p r = false;
  gFind_perm {Row} `{Model Row} u p (t : gmap string Row) :
    gFind u p t ≡ₚ load scanNull <$> selected u p t;
  gFirstDesc_Some {Row} `{Model Row} u p key (t : gmap string Row) r :
    gFirstDesc u p key t = Some r ->
    exists k r0, t !! k = Some r0 /\ hits u p r0 = true /\ r = load scanNull r0 /\
      (forall k' r', t !! k' = Some r' -> hits u p r' = true -> key r' <= key r0);
  gFirstDesc_None {Row} `{Model Row} u p key (t : gmap string Row) :
    gFirstDesc u p key t = None -> forall k r, t !! k = Some r -> hits u p r = false;
  gCreate_fk {Row} `{Model Row} now r (t : gmap string Row) :
    exists msg, gCreate false now r t = Err msg /\
                Strings.Contains msg "violates unique constraint" = false;
  gCreate_dup {Row} `{Model Row} now r (t : gmap string Row) :
    (is_Some (t !! row_id r) \/ exists k r', t !! k = Some r' /\ same_unique r r' = true) ->
    exists msg, gCreate true now r t = Err msg /\ Strings.Contains msg "violates unique constraint" = true;
  gCreate_ok {Row} `{Model Row} now r (t : gmap string Row) :
    t !! row_id r = None -> (forall k r', t !! k = Some r' -> same_unique r r' = false) ->
    gCreate true now r t = Ok (stamp now r, <[row_id r := persist (stamp now r)]> t);
  gUpdates_eq {Row} `{Model Row} u p f now (t : gmap string Row) :
    gUpdates u p f now t =
      ((fun r => if hits u p r then updated_row f now r else r) <$> t,
       Z.of_nat (length (selected u p t)));
  gSave_dup {Row} `{Model Row} now r (t : gmap string Row) k r' :
    t !! k = Some r' -> k <> row_id r -> same_unique r r' = true ->
    exists msg, gSave now r t = Err msg /\ Strings.Contains msg "violates unique constraint" = true;
  gSave_ok {Row} `{Model Row} now r (t : gmap string Row) :
    (forall k r', t !! k = Some r' -> k <> row_id r -> same_unique r r' = false) ->
    gSave now r t = Ok (touched now r, <[row_id r := persist (touched now r)]> t);
  gDelete_restrict {Row} `{Model Row} p prot now (t : gmap string Row) k r :
    t !! k = Some r -> p r = true -> prot r = true ->
    exists msg, gDelete true p prot now t = Err msg /\
                Strings.Contains msg "violates foreign key constraint" = true;
  gDelete_hard {Row} `{Model Row} p prot now (t : gmap string Row) :
    (forall k r, t !! k = Some r -> p r = true -> prot r = false) ->
    gDelete true p prot now t = Ok (filter (fun kr => p kr.2 = false) t);
  gDelete_soft {Row} `{Model Row} p prot now (t : gmap string Row) :
    gDelete false p prot now t =
      Ok ((fun r => if hits false p r then soft_deleted now r else r) <$> t);
}.

(** ** An in-memory instance *)

Module Memory.

Definition find_row {Row} (q : Row -> bool) (t : gmap string Row) : option Row :=
  head (filter (fun r => q r = true) (map_to_list t).*2).

Fixpoint max_by {Row} (key : Row -> Z) (l : list Row) : option Row :=
  match l with
  | [] => None
  | r :: l => match max_by key l with
              | Some r' => if key r' <=? key r then Some r else Some r'
              | None => Some r
              end
  end.

#[export] Instance gorm : Gorm := {
  pkCondition ids := existsb (fun id => negb (String.eqb id "")) ids;
  scanNull := Some [];
  touch now _ := now;
  gTake Row _ u p t := load (Some []) <$> find_row (hits u p) t;
  gFind Row _ u p t := load (Some []) <$> selected u p t;
  gFirstDesc Row _ u p key t := load (Some []) <$> max_by key (selected u p t);
  gCreate Row _ refs now r t :=
    if negb refs then Err "insert or update on table violates foreign key constraint"
    else if bool_decide (is_Some (t !! row_id r)) || existsb (same_unique r) (map_to_list t).*2
    then Err "duplicate key value violates unique constraint"
    else Ok (stamp now r, <[row_id r := persist (stamp now r)]> t);
  gUpdates Row _ u p f now t :=
    ((fun r => if hits u p r then touched now (f r) else r) <$> t,
     Z.of_nat (length (selected u p t)));
  gSave Row _ now r t :=
    if existsb (fun kr => bool_decide (kr.1 <> row_id r) && same_unique r kr.2) (map_to_list t)
    then Err "duplicate key value violates unique constraint"
    else Ok (touched now r, <[row_id r := persist (touched now r)]> t);
  gDelete Row _ u p prot now t :=
    if u then
      if existsb (fun r => p r && prot r) (map_to_list t).*2
      then Err "update or delete on table violates foreign key constraint"
      else Ok (filter (fun kr => p kr.2 = false) t)
    else Ok ((fun r => if hits false p r then soft_deleted now r else r) <$> t);
}.

Lemma rows_elem {Row} (t : gmap string Row) r :
  r ∈ (map_to_list t).*2 <-> exists k, t !! k = Some r.
Proof.
  rewrite list_elem_of_fmap. split.
  - intros [[k r'] [-> Hin]]. exists k. by apply elem_of_map_to_list.
  - intros [k Hk]. exists (k, r). split; [done|]. by apply elem_of_map_to_list.
Qed.

Lemma existsb_false {A} (f : A -> bool) l : existsb f l = false <-> forall x, x ∈ l -> f x = false.
Proof.
  split.
  - intros He x Hx. destruct (f x) eqn:Hf; [|done].
    assert (existsb f l = true) by (apply existsb_exists; exists x; split; [by apply list_elem_of_In|done]).
    congruence.
  - intros Hall. apply not_true_is_false. intros (x & Hx & Hf)%existsb_exists.
    apply list_elem_of_In, Hall in Hx. congruence.
Qed.

Lemma find_row_Some {Row} (q : Row -> bool) (t : gmap string Row) r :
  find_row q t = Some r -> exists k, t !! k = Some r /\ q r = true.
Proof.
  unfold find_row. intros Hh.
  assert (r ∈ filter (fun r => q r = true) (map_to_list t).*2) as Hin
    by (destruct (filter _ _); simplify_eq/=; left).
  apply list_elem_of_filter in Hin as [Hq [k Hk]%rows_elem]. eauto.
Qed.

Lemma find_row_None {Row} (q : Row -> bool) (t : gmap string Row) :
  find_row q t = None -> forall k r, t !! k = Some r -> q r = false.
Proof.
  unfold find_row. intros Hh k r Hk. apply not_true_is_false. intros Hq.
  assert (r ∈ filter (fun r => q r = true) (map_to_list t).*2) as Hin
    by (apply list_elem_of_filter; split; [done|]; apply rows_elem; eauto).
  destruct (filter _ _); [by apply elem_of_nil in Hin|done].
Qed.

Lemma selected_elem {Row} `{Model Row} u p (t : gmap string Row) r :
  r ∈ selected u p t <-> hits u p r = true /\ exists k, t !! k = Some r.
Proof. unfold selected. by rewrite list_elem_of_filter, rows_elem. Qed.

Lemma max_by_None {Row} (key : Row -> Z) l : max_by key l = None -> l = [].
Proof. destruct l as [|r l]; [done|]. simpl. repeat case_match; done. Qed.

Lemma max_by_Some {Row} (key : Row -> Z) l r :
  max_by key l = Some r -> r ∈ l /\ forall r', r' ∈ l -> key r' <= key r.
Proof.
  revert r. induction l as [|x l IH]; intros r; simpl; [done|].
  destruct (max_by key l) as [r'|] eqn:E.
  - destruct (IH _ eq_refl) as [Hin Hmax].
    clear IH. destruct (Z.leb_spec (key r') (key x)); intros ?; simplify_eq.
    + split; [left|]. intros y [->|Hy]%elem_of_cons; [lia|]. specialize (Hmax _ Hy). lia.
    + split; [by right|]. intros y [->|Hy]%elem_of_cons; [lia|]. specialize (Hmax _ Hy). lia.
  - intros; simplify_eq. apply max_by_None in E as ->. split; [left|].
    intros y [->|Hy]%elem_of_cons; [lia|by apply elem_of_nil in Hy].
Qed.

#[export] Instance gorm_laws : GormLaws.
Proof.
  split; simpl.
  - done.
  - done.
  - intros Row ? u p t r. destruct (find_row (hits u p) t) eqn:E; intros; simplify_eq/=.
    apply find_row_Some in E as (k & ? & ?). eauto.
  - intros Row ? u p t. destruct (find_row (hits u p) t) eqn:E; [done|]. intros _. by eapply find_row_None.
  - done.
  - intros Row ? u p key t r. destruct (max_by key _) as [r0|] eqn:E; intros; simplify_eq/=.
    apply max_by_Some in E as [[Hh [k Hk]]%selected_elem Hmax].
    exists k, r0. split_and!; [done..|]. intros k' r' Hk' Hh'. apply Hmax, selected_elem; eauto.
  - intros Row ? u p key t. destruct (max_by key _) as [r0|] eqn:E; [done|]. intros _ k r Hk.
    apply max_by_None in E. apply not_true_is_false. intros Hh.
    assert (r ∈ selected u p t) as Hin by (apply selected_elem; eauto). rewrite E in Hin.
    by apply elem_of_nil in Hin.
  - intros. eexists. split; [done|]. reflexivity.
  - intros Row ? now r t Hd. exists "duplicate key value violates unique constraint". split; [|reflexivity].
    assert (bool_decide (is_Some (t !! row_id r)) || existsb (same_unique r) (map_to_list t).*2 = true) as ->; [|done].
    apply orb_true_iff. destruct Hd as [?|(k & r' & Hk & Hs)].
    + left. by apply bool_decide_eq_true.
    + right. apply existsb_exists. exists r'. split; [|done]. apply list_elem_of_In, rows_elem. eauto.
  - intros Row ? now r t Hn Hu. rewrite bool_decide_eq_false_2 by (rewrite Hn; by intros []).
    rewrite (proj2 (existsb_false _ _)); [done|]. intros x [k Hk]%rows_elem. eauto.
  - done.
  - intros Row ? now r t k r' Hk Hne Hs. exists "duplicate key value violates unique constraint". split; [|reflexivity].
    assert (existsb (fun kr => bool_decide (kr.1 <> row_id r) && same_unique r kr.2) (map_to_list t) = true) as ->; [|done].
    apply existsb_exists. exists (k, r'). split; [by apply list_elem_of_In, elem_of_map_to_list|].
    simpl. rewrite bool_decide_eq_true_2; done.
  - intros Row ? now r t Hu. rewrite (proj2 (existsb_false _ _)); [done|].
    intros [k r'] Hk%elem_of_map_to_list. simpl. case_bool_decide; [|done]. simpl. eauto.
  - intros Row ? p prot now t k r Hk Hp Hr.
    exists "update or delete on table violates foreign key constraint". split; [|reflexivity].
    assert (existsb (fun r => p r && prot r) (map_to_list t).*2 = true) as ->; [|done].
    apply existsb_exists. exists r. split; [apply list_elem_of_In, rows_elem; eauto|]. by rewrite Hp, Hr.
  - intros Row ? p prot now t Hp. rewrite (proj2 (existsb_false _ _)); [done|].
    intros r [k Hk]%rows_elem. destruct (p r) eqn:E; [|done]. simpl. eauto.
  - done.
Qed.

End Memory.
