(* ===== verification/World.v ===== *)
(** * The world a server instance runs in

    The six tables of the schema (pkg/db/migrations), the notifications sent with
    pg_notify, the transaction of the request (pkg/db/context.go) and the advisory
    locks; and the statements of [Gorm] lifted to it. What the environment decides
    (whether a statement fails in the driver, the clock, fresh UUIDs) is the class
    [Env], indexed by the number of steps taken so far. *)

From S2P Require Import Prelude GoLib Types Gorm.
Import api.

Open Scope Z_scope.

(** ** Environment *)

Class Env := {
  fault : nat -> option string;   (** the driver error of the n-th step, if any *)
  clock : nat -> Time;            (** time.Now() at the n-th step *)
  newID : nat -> string;          (** uuid.NewString() at the n-th step *)
}.

Class EnvLaws `{Env} : Prop := {
  clock_pos n : 0 < clock n;
  clock_mono n m : (n <= m)%nat -> clock n <= clock m;
  newID_nonempty n : newID n <> "";
}.

(** Fresh identifiers are never repeated. *)
Class FreshIDs `{Env} : Prop := newID_inj : forall n m, newID n = newID m -> n = m.

(** An environment in which nothing fails, with one nanosecond per step. *)
Module Calm.
#[export] Instance env : Env := {
  fault _ := None;
  clock n := Z.of_nat n + 1;
  newID n := String.append "id-" (pretty n);
}.
#[export] Instance env_laws : EnvLaws.
Proof. split; cbn [clock newID env]; intros; [lia|lia|discriminate]. Qed.
#[export] Instance env_fresh : FreshIDs.
Proof.
  intros n m H. change (String.append "id-" (pretty n) = String.append "id-" (pretty m)) in H.
  apply (inj (String.append "id-")) in H. by apply (inj pretty).
Qed.
End Calm.

(** ** State *)

Record Tables := mkTables {
  resources : gmap string Resource;
  consumers : gmap string Consumer;
  events : gmap string Event;
  status_events : gmap string StatusEvent;
  server_instances : gmap string ServerInstance;
  event_instances : list EventInstance;
}.

(** pkg/db/advisory_locks.go: the lock types and the lock object. *)
Inductive LockType := Migrations | Resources | ResourceStatus | Events | Instances.

#[export] Instance LockType_eq_dec : EqDecision LockType.
Proof. solve_decision. Defined.

Definition LockType_string (t : LockType) : string :=
  match t with
  | Migrations => "migrations"
  | Resources => "resources"
  | ResourceStatus => "resource_status"
  | Events => "events"
  | Instances => "instances"
  end.

Record AdvisoryLock := mkAdvisoryLock {
  g2 : option nat;              (** the open transaction *)
  txid : Z;
  l_uuid : option string;
  l_id : option string;
  lockType : option LockType;
  startTime : Time;
}.

(** PostgreSQL's side of it: which transaction holds a key pair, and which
    transactions are open. *)
Record PgState := mkPgState {
  pgLocks : gmap (Z * Z) nat;
  openTxs : gset nat;
}.

Record LockState := mkLockState {
  lockStore : gmap string AdvisoryLock;   (** AdvisoryLockStore of this instance *)
  pg : PgState;
}.

Record World := mkWorld {
  tables : Tables;
  notified : list (string * string);      (** pg_notify channel and payload, latest first *)
  txn : option bool;                      (** transaction in the context: its rollback flag *)
  locks : LockState;
  tick : nat;                             (** steps taken *)
  broadcasts : list Resource;             (** handed to the broadcaster's channel, latest first *)
}.

Definition empty_tables : Tables := mkTables ∅ ∅ ∅ ∅ ∅ [].
Definition no_locks : LockState := mkLockState ∅ (mkPgState ∅ ∅).
Definition start (t : Tables) : World := mkWorld t [] None no_locks 0 [].

Definition set_tables (t : Tables) (w : World) : World :=
  mkWorld t w.(notified) w.(txn) w.(locks) w.(tick) w.(broadcasts).
Definition set_notified (l : list (string * string)) (w : World) : World :=
  mkWorld w.(tables) l w.(txn) w.(locks) w.(tick) w.(broadcasts).
Definition set_txn (t : option bool) (w : World) : World :=
  mkWorld w.(tables) w.(notified) t w.(locks) w.(tick) w.(broadcasts).
Definition set_locks (l : LockState) (w : World) : World :=
  mkWorld w.(tables) w.(notified) w.(txn) l w.(tick) w.(broadcasts).
Definition bump (w : World) : World :=
  mkWorld w.(tables) w.(notified) w.(txn) w.(locks) (S w.(tick)) w.(broadcasts).

Definition set_broadcasts (l : list Resource) (w : World) : World :=
  mkWorld w.(tables) w.(notified) w.(txn) w.(locks) w.(tick) l.

(** ** Tables by row type *)

Class HasTable (Row : Type) := {
  tget : Tables -> gmap string Row;
  tset : gmap string Row -> Tables -> Tables;
}.

#[export] Instance resources_table : HasTable Resource := {
  tget := resources;
  tset m t := mkTables m t.(consumers) t.(events) t.(status_events) t.(server_instances) t.(event_instances) }.
#[export] Instance consumers_table : HasTable Consumer := {
  tget := consumers;
  tset m t := mkTables t.(resources) m t.(events) t.(status_events) t.(server_instances) t.(event_instances) }.
#[export] Instance events_table : HasTable Event := {
  tget := events;
  tset m t := mkTables t.(resources) t.(consumers) m t.(status_events) t.(server_instances) t.(event_instances) }.
#[export] Instance status_events_table : HasTable StatusEvent := {
  tget := status_events;
  tset m t := mkTables t.(resources) t.(consumers) t.(events) m t.(server_instances) t.(event_instances) }.
#[export] Instance server_instances_table : HasTable ServerInstance := {
  tget := server_instances;
  tset m t := mkTables t.(resources) t.(consumers) t.(events) t.(status_events) m t.(event_instances) }.

Definition set_event_instances (l : list EventInstance) (t : Tables) : Tables :=
  mkTables t.(resources) t.(consumers) t.(events) t.(status_events) t.(server_instances) l.

(** ** Errors of a statement *)

Inductive DBError :=
| ErrRecordNotFound
| ErrMissingWhereClause
| DriverErr (msg : string).

(** The message of the Go error. *)
Definition db_message (e : DBError) : string :=
  match e with
  | ErrRecordNotFound => "record not found"
  | ErrMissingWhereClause => "WHERE conditions required"
  | DriverErr msg => msg
  end.

(** ** Statements *)

Section Statements.
Context `{env : Env} `{gorm : Gorm}.

(** One step of the environment: its number. *)
Definition step : M World nat := fun w => (w.(tick), bump w).

Definition time_now : M World Time := let! n := step in ret (clock n).
Definition new_id : M World string := let! n := step in ret (newID n).

(** Run one statement on the tables, unless the driver fails it. *)
Definition statement {A} (f : Time -> Tables -> result A DBError * Tables) : M World (result A DBError) :=
  let! n := step in
  match fault n with
  | Some e => ret (Err (DriverErr e))
  | None => fun w => let '(r, t) := f (clock n) w.(tables) in (r, set_tables t w)
  end.

Context {Row : Type} `{model : Model Row} `{table : HasTable Row}.

Definition st_take (u : bool) (p : Row -> bool) : M World (result Row DBError) :=
  statement (fun _ t => (match gTake u p (tget t) with
                         | Some r => Ok r | None => Err ErrRecordNotFound end, t)).

Definition st_first_desc (u : bool) (p : Row -> bool) (key : Row -> Z) : M World (result Row DBError) :=
  statement (fun _ t => (match gFirstDesc u p key (tget t) with
                         | Some r => Ok r | None => Err ErrRecordNotFound end, t)).

Definition st_find (u : bool) (p : Row -> bool) : M World (result (list Row) DBError) :=
  statement (fun _ t => (Ok (gFind u p (tget t)), t)).

(** Create: the hook runs first, then the insert. *)
Definition st_create (refs : Tables -> Row -> bool) (r : Row) : M World (result Row DBError) :=
  let! id := new_id in
  let r := before_create id r in
  statement (fun now t => match gCreate (refs t r) now r (tget t) with
                          | Ok (r, m) => (Ok r, tset m t)
                          | Err msg => (Err (DriverErr msg), t)
                          end).

Definition st_updates (u : bool) (p : Row -> bool) (f : Row -> Row) : M World (result Z DBError) :=
  statement (fun now t => let '(m, n) := gUpdates u p f now (tget t) in (Ok n, tset m t)).

Definition st_save (r : Row) : M World (result Row DBError) :=
  statement (fun now t => match gSave now r (tget t) with
                          | Ok (r, m) => (Ok r, tset m t)
                          | Err msg => (Err (DriverErr msg), t)
                          end).

Definition st_delete (u : bool) (p : Row -> bool) (prot : Tables -> Row -> bool) : M World (result unit DBError) :=
  statement (fun now t => match gDelete u p (prot t) now (tget t) with
                          | Ok m => (Ok tt, tset m t)
                          | Err msg => (Err (DriverErr msg), t)
                          end).

(** The condition "id = ?" *)
Definition by_id (id : string) (r : Row) : bool := bool_decide (row_id r = id).
Definition by_ids (ids : list string) (r : Row) : bool := bool_decide (row_id r ∈ ids).

End Statements.

(** MarkForRollback: only a request that carries a transaction is marked. *)
Definition MarkForRollback : M World unit :=
  modify (fun w => set_txn (match w.(txn) with Some _ => Some true | None => None end) w).

(** select pg_notify(channel, payload) *)
Definition pg_notify `{Env} (channel payload : string) : M World (result unit DBError) :=
  let! n := step in
  match fault n with
  | Some e => ret (Err (DriverErr e))
  | None => modify (fun w => set_notified ((channel, payload) :: w.(notified)) w) >> ret (Ok tt)
  end.

(** ** Table lemmas *)

Section TableLemmas.
Context `{laws : GormLaws} {Row : Type} `{mlaws : ModelLaws Row}.
Implicit Types t : gmap string Row.

Lemma hits_by_id t u id k r :
  table_wf t -> t !! k = Some r -> hits u (by_id id) r = visible u r && bool_decide (k = id).
Proof. intros Hwf Hk. unfold hits, by_id. by rewrite (Hwf _ _ Hk). Qed.

Lemma gTake_by_id u id t :
  table_wf t ->
  gTake u (by_id id) t = r ← t !! id; if visible u r then Some (load scanNull r) else None.
Proof.
  intros Hwf. destruct (gTake u (by_id id) t) as [r|] eqn:E.
  - apply gTake_Some in E as (k & r0 & Hk & Hh & ->).
    rewrite (hits_by_id t u id k r0 Hwf Hk) in Hh. apply andb_prop in Hh as [Hv ->%bool_decide_eq_true].
    rewrite Hk. simpl. by rewrite Hv.
  - destruct (t !! id) as [r|] eqn:Hk; [|done]. simpl.
    pose proof (gTake_None _ _ _ E _ _ Hk) as Hh. rewrite (hits_by_id t u id id r Hwf Hk) in Hh.
    rewrite bool_decide_eq_true_2 in Hh by done. rewrite andb_true_r in Hh. by rewrite Hh.
Qed.

Lemma fmap_by_id u id (g : Row -> Row) t :
  table_wf t ->
  (fun r => if hits u (by_id id) r then g r else r) <$> t
  = alter (fun r => if visible u r then g r else r) id t.
Proof.
  intros Hwf. apply map_eq. intros k. rewrite lookup_fmap, lookup_alter.
  case_decide as Hd.
  - subst. destruct (t !! k) as [r|] eqn:Hk; [|done]. simpl.
    rewrite (hits_by_id t u k k r Hwf Hk), bool_decide_eq_true_2 by done. by rewrite andb_true_r.
  - destruct (t !! k) as [r|] eqn:Hk; [|done]. simpl.
    rewrite (hits_by_id t u id k r Hwf Hk), bool_decide_eq_false_2 by done. by rewrite andb_false_r.
Qed.

Lemma filter_by_id id t :
  table_wf t -> filter (fun kr => by_id id kr.2 = false) t = delete id t.
Proof.
  intros Hwf. apply map_eq. intros k. rewrite lookup_delete.
  destruct (t !! k) as [r|] eqn:Hk.
  - case_decide as Hd.
    + subst. apply map_lookup_filter_None. right. intros x Hx. simplify_eq. simpl.
      unfold by_id. rewrite (Hwf _ _ Hk). by rewrite bool_decide_eq_true_2.
    + apply map_lookup_filter_Some. split; [done|]. simpl. unfold by_id. rewrite (Hwf _ _ Hk).
      by apply bool_decide_eq_false.
  - case_decide; apply map_lookup_filter_None; by left.
Qed.

Lemma row_id_load n (r : Row) : row_id (load n r) = row_id r.
Proof. unfold row_id, load. by rewrite meta_map_json. Qed.
Lemma row_id_stamp now (r : Row) : row_id (stamp now r) = row_id r.
Proof. unfold row_id, stamp. by rewrite meta_set_meta. Qed.
Lemma row_id_persist (r : Row) : row_id (persist r) = row_id r.
Proof. unfold row_id, persist. case_match; [done|]. by rewrite meta_set_meta. Qed.
Lemma row_id_touched now (r : Row) : row_id (touched now r) = row_id r.
Proof. unfold row_id, touched. by rewrite meta_set_meta. Qed.
Lemma row_id_soft_deleted now (r : Row) : row_id (soft_deleted now r) = row_id r.
Proof. unfold row_id, soft_deleted. by rewrite meta_set_meta. Qed.

Lemma table_wf_insert t r : table_wf t -> table_wf (<[row_id r := r]> t).
Proof. intros Hwf. by apply map_Forall_insert_2. Qed.
Lemma table_wf_fmap t (g : Row -> Row) :
  (forall r, row_id (g r) = row_id r) -> table_wf t -> table_wf (g <$> t).
Proof.
  intros Hg Hwf k r Hk. rewrite lookup_fmap in Hk. apply fmap_Some in Hk as (r0 & Hk & ->).
  rewrite Hg. by apply Hwf.
Qed.
Lemma table_wf_filter t (P : string * Row -> Prop) `{forall x, Decision (P x)} :
  table_wf t -> table_wf (filter P t).
Proof. intros Hwf k r Hk. apply map_lookup_filter_Some in Hk as [Hk _]. by apply Hwf. Qed.

End TableLemmas.

#[export] Hint Rewrite @row_id_load @row_id_stamp @row_id_persist @row_id_touched
  @row_id_soft_deleted using typeclasses eauto : maestro.
#[export] Hint Resolve table_wf_insert table_wf_filter : maestro.

(** ** Invariant: every row is stored under its primary key *)

Record tables_wf (t : Tables) : Prop := {
  wf_resources : table_wf t.(resources);
  wf_consumers : table_wf t.(consumers);
  wf_events : table_wf t.(events);
  wf_status_events : table_wf t.(status_events);
  wf_instances : table_wf t.(server_instances);
}.
#[export] Hint Resolve wf_resources wf_consumers wf_events wf_status_events wf_instances : maestro.

(** What a lens must satisfy for the invariant to be kept by writing its table. *)
Class TableLaws (Row : Type) `{Model Row} `{HasTable Row} : Prop := {
  tget_wf t : tables_wf t -> table_wf (tget t);
  tset_wf t m : tables_wf t -> table_wf m -> tables_wf (tset m t);
  tget_tset t m : tget (tset m t) = m;
}.
#[export] Instance resources_laws : TableLaws Resource.
Proof. split; [by intros ? []|by intros ?? [] ?|done]. Qed.
#[export] Instance consumers_laws : TableLaws Consumer.
Proof. split; [by intros ? []|by intros ?? [] ?|done]. Qed.
#[export] Instance events_laws : TableLaws Event.
Proof. split; [by intros ? []|by intros ?? [] ?|done]. Qed.
#[export] Instance status_events_laws : TableLaws StatusEvent.
Proof. split; [by intros ? []|by intros ?? [] ?|done]. Qed.
#[export] Instance server_instances_laws : TableLaws ServerInstance.
Proof. split; [by intros ? []|by intros ?? [] ?|done]. Qed.
