(* ===== verification/Collectors.v ===== *)
(** * The Prometheus collectors: their declarations, their registration, their samples

    One module per Go package, a definition per collector (metrics.go of pkg/controllers,
    pkg/event and grpcsource, metrics_collector.go of pkg/db, the ends of
    metrics_middleware.go, metrics_interceptor.go and services/resource.go), the init
    functions that register them, and the functions that record a sample. The registry
    itself is the Prometheus client library: the class [Prometheus], with what its
    documentation says of Register. *)

From Stdlib Require Import QArith.
From S2P Require Import Prelude GoLib World.

Local Close Scope Q_scope.
Open Scope Z_scope.
Delimit Scope Q_scope with Q.

(** ** Collectors and samples *)

Inductive BucketList :=
| DefBuckets
| ExponentialBuckets (start factor : Q) (count : Z)
| Buckets (l : list Q).

Inductive Kind := Counter | Gauge | Histogram (b : BucketList).

(** The options and the variable labels of NewCounterVec and its like; a collector without
    labels is a plain NewCounter or NewGauge. *)
Record Collector := mkCollector {
  kind : Kind;
  Subsystem : string;
  Name : string;
  Help : string;
  variableLabels : list string;
}.

(** prometheus.BuildFQName with the empty namespace every collector of the program has. *)
Definition fqName (c : Collector) : string := c.(Subsystem) +:+ "_" +:+ c.(Name).

Inductive op := Inc | Dec | Observe.

(** WithLabelValues(values...) followed by the operation; the observed durations are left
    out. *)
Record sample := mkSample {
  of_collector : Collector;
  labelValues : list string;
  operation : op;
}.

(** WithLabelValues panics unless there is one value per variable label; only a histogram
    observes, and only a gauge goes down. *)
Definition accepted (s : sample) : bool :=
  (length s.(labelValues) =? length s.(of_collector).(variableLabels))%nat &&
  match s.(of_collector).(kind), s.(operation) with
  | Counter, Inc | Gauge, Inc | Gauge, Dec | Histogram _, Observe => true
  | _, _ => false
  end.

(** With(labels): the labels are looked up by name; [None] is the panic of a missing or a
    surplus label. *)
Definition With (c : Collector) (labels : list (string * string)) (o : op) : option sample :=
  if (length labels =? length c.(variableLabels))%nat then
    match mapM (fun l => snd <$> list_find (fun kv => kv.1 = l) labels) c.(variableLabels) with
    | Some kvs => Some (mkSample c (snd <$> kvs) o)
    | None => None
    end
  else None.

(** ** What the library asks of a collector *)

Definition name_start (c : ascii) : bool :=
  let n := nat_of_ascii c in
  ((65 <=? n) && (n <=? 90) || (97 <=? n) && (n <=? 122) || (n =? 95))%nat.
Definition name_char (c : ascii) : bool :=
  let n := nat_of_ascii c in name_start c || ((48 <=? n) && (n <=? 57))%nat.
Fixpoint all_chars (p : ascii -> bool) (s : string) : bool :=
  match s with "" => true | String c s => p c && all_chars p s end.
Definition valid_name (s : string) : bool :=
  match s with "" => false | String c s => name_start c && all_chars name_char s end.
(** the label names that start with two underscores are reserved *)
Definition valid_label (s : string) : bool := valid_name s && negb (String.prefix "__" s).

Fixpoint increasing (l : list Q) : bool :=
  match l with
  | x :: ((y :: _) as l) => negb (Qle_bool y x) && increasing l
  | _ => true
  end.
Definition valid_buckets (b : BucketList) : bool :=
  match b with
  | DefBuckets => true
  | ExponentialBuckets s f n => negb (Qle_bool s 0) && negb (Qle_bool f 1) && (1 <=? n)
  | Buckets l => increasing l
  end.
Definition valid_collector (c : Collector) : bool :=
  valid_name (fqName c) && forallb valid_label c.(variableLabels) && bool_decide (NoDup c.(variableLabels)) &&
  match c.(kind) with
  | Histogram b => valid_buckets b && negb (bool_decide ("le" ∈ c.(variableLabels)))
  | _ => true
  end.

Class Prometheus := {
  Registry : Type;
  (** the fully qualified names in use *)
  names : Registry -> gset string;
  Register : Collector -> Registry -> result Registry string;
  (** "Register returns an error if the descriptors provided by the Collector are invalid
      or if they are not consistent with descriptors that have been registered already":
      a valid collector under a name of its own is registered. *)
  Register_fresh : forall c r, valid_collector c = true -> fqName c ∉ names r ->
    exists r', Register c r = Ok r' /\ names r' = {[fqName c]} ∪ names r;
}.

(** MustRegister panics where Register returns an error: [None]. *)
Definition MustRegister `{Prometheus} (c : Collector) (r : Registry) : option Registry :=
  match Register c r with Ok r' => Some r' | Err _ => None end.
Fixpoint MustRegister_all `{Prometheus} (l : list Collector) (r : Registry) : option Registry :=
  match l with
  | [] => Some r
  | c :: l => r' ← MustRegister c r; MustRegister_all l r'
  end.

(** ** Declarations *)

Module server.

Definition requestCountMetric : Collector :=
  mkCollector Counter "rest_api_inbound" "request_count"
    "Number of requests served."
    ["method"; "path"; "code"].

Definition requestDurationMetric : Collector :=
  mkCollector (Histogram (Buckets [1#10; 1#1; 10#1; 30#1]%Q)) "rest_api_inbound" "request_duration"
    "Request duration in seconds."
    ["method"; "path"; "code"].

Definition grpcCalledCountMetric : Collector :=
  mkCollector Counter "grpc_server" "called_total"
    "Total number of RPCs called on the server."
    ["type"; "source"].

Definition grpcProcessedCountMetric : Collector :=
  mkCollector Counter "grpc_server" "processed_total"
    "Total number of RPCs processed on the server, regardless of success or failure."
    ["type"; "source"; "code"].

Definition grpcProcessedDurationMetric : Collector :=
  mkCollector (Histogram DefBuckets) "grpc_server" "processed_duration_seconds"
    "Histogram of the duration of RPCs processed on the server."
    ["type"; "source"].

Definition grpcMessageReceivedCountMetric : Collector :=
  mkCollector Counter "grpc_server" "message_received_total"
    "Total number of messages received on the server from agent and client."
    ["type"; "source"].

Definition grpcMessageSentCountMetric : Collector :=
  mkCollector Counter "grpc_server" "message_sent_total"
    "Total number of messages sent by the server to agent and client."
    ["type"; "source"].

End server.

Module controllers.

Definition specEventReconciledTotal : Collector :=
  mkCollector Counter "spec_controller" "event_reconcile_total"
    "Total number of events reconciled by the spec controller"
    ["event_type"; "status"].

Definition specEventReconcileDuration : Collector :=
  mkCollector (Histogram DefBuckets) "spec_controller" "event_reconcile_duration_seconds"
    "Time spent reconciling spec events by the spec controller"
    ["event_type"].

Definition specControllerSyncEventOperationsTotal : Collector :=
  mkCollector Counter "spec_controller" "event_sync_operation_total"
    "Total number of sync operations performed by the spec controller"
    ["status"].

Definition specControllerEventOldestUnreconciledAge : Collector :=
  mkCollector Gauge "spec_controller" "event_oldest_unreconciled_age_seconds"
    "Age of the oldest unreconciled spec event in seconds"
    [].

Definition statusEventReconciledTotal : Collector :=
  mkCollector Counter "status_controller" "event_reconcile_total"
    "Total number of events reconciled by the status controller"
    ["event_type"; "status"].

Definition statusEventReconcileDuration : Collector :=
  mkCollector (Histogram DefBuckets) "status_controller" "event_reconcile_duration_seconds"
    "Time spent reconciling status events by the status controller"
    ["event_type"].

Definition statusControllerSyncEventOperationsTotal : Collector :=
  mkCollector Counter "status_controller" "event_sync_operation_total"
    "Total number of sync operations performed by the status controller"
    ["status"].

Definition notificationQueueUsage : Collector :=
  mkCollector Gauge "postgres" "notification_queue_usage"
    "Current usage of postgres notification queue"
    [].

Definition workqueueDepth : Collector :=
  mkCollector Gauge "workqueue" "depth"
    "Current depth of workqueue"
    ["queue_name"].

Definition workqueueAdds : Collector :=
  mkCollector Counter "workqueue" "adds_total"
    "Total number of adds handled by workqueue"
    ["queue_name"].

Definition workqueueLatency : Collector :=
  mkCollector (Histogram (ExponentialBuckets (1#100000000)%Q (10#1)%Q 10)) "workqueue" "queue_duration_seconds"
    "How long in seconds an item stays in workqueue before being requested."
    ["queue_name"].

Definition workqueueWorkDuration : Collector :=
  mkCollector (Histogram (ExponentialBuckets (1#100000000)%Q (10#1)%Q 10)) "workqueue" "work_duration_seconds"
    "How long in seconds processing an item from workqueue takes."
    ["queue_name"].

Definition workqueueUnfinishedWorkSeconds : Collector :=
  mkCollector Gauge "workqueue" "unfinished_work_seconds"
    "How many seconds of work has done that is in progress and hasn't been observed by work_duration. Large values indicate stuck threads. One can deduce the number of stuck threads by observing the rate at which this increases."
    ["queue_name"].

Definition workqueueLongestRunningProcessor : Collector :=
  mkCollector Gauge "workqueue" "longest_running_processor_seconds"
    "How many seconds has the longest running processor for workqueue been running."
    ["queue_name"].

Definition workqueueRetries : Collector :=
  mkCollector Counter "workqueue" "retries_total"
    "Total number of retries handled by workqueue"
    ["queue_name"].

Definition undeliveredResourcesRepublishedTotal : Collector :=
  mkCollector Counter "spec_controller" "undelivered_resources_republished_total"
    "Total number of resources re-published because they had no status feedback within the threshold"
    [].

Definition staleDeleteEventsReconciledTotal : Collector :=
  mkCollector Counter "spec_controller" "stale_delete_events_reconciled_total"
    "Total number of stuck delete events retired because their resource was soft-deleted with no agent to acknowledge the delete"
    [].

End controllers.

Module services.

Definition resourceProcessedCountMetric : Collector :=
  mkCollector Counter "resource" "processed_total"
    "Number of processed resources."
    ["action"].

Definition resourceFirstStatusLatencyMetric : Collector :=
  mkCollector (Histogram (Buckets [5#1; 30#1; 120#1; 600#1]%Q)) "resource" "first_status_latency_seconds"
    "Time in seconds from resource creation to when the server first receives a status update from the agent. Represents agent responsiveness and network latency."
    ["consumer"; "source"].

Definition statusEventProcessingLatencyMetric : Collector :=
  mkCollector (Histogram (Buckets [1#20; 1#10; 1#2; 1#1; 5#1]%Q)) "resource" "status_event_processing_latency_seconds"
    "Latency in seconds from status event creation to it is processed by a server instance."
    ["consumer"; "source"; "server_instance_id"].

End services.

Module event.

Definition grpcRegisteredSourceClientsGaugeMetric : Collector :=
  mkCollector Gauge "grpc_server" "registered_source_clients"
    "Number of registered source clients on the grpc server."
    ["source"].

End event.

Module grpcsource.

Definition sourceClientRegisteredWatchersGaugeMetric : Collector :=
  mkCollector Gauge "source_client" "registered_watchers"
    "Number of registered watchers for a source client."
    ["source"; "namespace"].

End grpcsource.

Module db.

Definition advisoryLockCountMetric : Collector :=
  mkCollector Counter "advisory_lock" "count"
    "Number of advisory lock requests."
    ["type"; "status"].

Definition advisoryUnlockCountMetric : Collector :=
  mkCollector Counter "advisory_unlock" "count"
    "Number of advisory unlock requests."
    ["type"; "status"].

Definition advisoryLockDurationMetric : Collector :=
  mkCollector (Histogram (Buckets [1#10; 1#5; 1#2; 1#1; 2#1; 10#1]%Q)) "advisory_lock" "duration"
    "Advisory Lock durations in seconds."
    ["type"; "status"].

End db.

(** ** The init functions *)

Definition RegisterAdvisoryLockMetrics : list Collector :=
  [db.advisoryLockCountMetric; db.advisoryUnlockCountMetric; db.advisoryLockDurationMetric].

Definition RegisterResourceMetrics : list Collector :=
  [services.resourceProcessedCountMetric; services.resourceFirstStatusLatencyMetric; services.statusEventProcessingLatencyMetric].
Definition UnregisterResourceMetrics : list Collector :=
  [services.resourceProcessedCountMetric; services.resourceFirstStatusLatencyMetric; services.statusEventProcessingLatencyMetric].
Definition ResetResourceMetrics : list Collector :=
  [services.resourceProcessedCountMetric; services.resourceFirstStatusLatencyMetric; services.statusEventProcessingLatencyMetric].

Definition RegisterGRPCMetrics : list Collector :=
  [server.grpcCalledCountMetric; server.grpcProcessedCountMetric; server.grpcProcessedDurationMetric;
   server.grpcMessageReceivedCountMetric; server.grpcMessageSentCountMetric].
Definition UnregisterGRPCMetrics : list Collector :=
  [server.grpcCalledCountMetric; server.grpcProcessedCountMetric; server.grpcProcessedDurationMetric;
   server.grpcMessageReceivedCountMetric; server.grpcMessageSentCountMetric].
Definition ResetGRPCMetrics : list Collector :=
  [server.grpcCalledCountMetric; server.grpcProcessedCountMetric; server.grpcProcessedDurationMetric;
   server.grpcMessageReceivedCountMetric; server.grpcMessageSentCountMetric].

Definition middleware_init : list Collector := [server.requestCountMetric; server.requestDurationMetric].
Definition ResetMetricCollectors : list Collector := [server.requestCountMetric; server.requestDurationMetric].

Definition event_init : list Collector := [event.grpcRegisteredSourceClientsGaugeMetric].
Definition grpcsource_init : list Collector := [grpcsource.sourceClientRegisteredWatchersGaugeMetric].
Definition undelivered_detector_init : list Collector := [controllers.undeliveredResourcesRepublishedTotal].
Definition stale_delete_detector_init : list Collector := [controllers.staleDeleteEventsReconciledTotal].

Definition workqueueMetrics : list Collector :=
  [controllers.workqueueDepth; controllers.workqueueAdds; controllers.workqueueLatency;
   controllers.workqueueWorkDuration; controllers.workqueueUnfinishedWorkSeconds;
   controllers.workqueueLongestRunningProcessor; controllers.workqueueRetries].
Definition controllers_init : list Collector :=
  [controllers.specEventReconciledTotal; controllers.specEventReconcileDuration;
   controllers.specControllerSyncEventOperationsTotal; controllers.statusEventReconciledTotal;
   controllers.specControllerEventOldestUnreconciledAge; controllers.statusEventReconcileDuration;
   controllers.statusControllerSyncEventOperationsTotal; controllers.notificationQueueUsage] ++ workqueueMetrics.

(** The init functions of the repository; a process runs those of the packages it links,
    one after the other. *)
Definition inits : list (list Collector) :=
  [RegisterAdvisoryLockMetrics; event_init; RegisterResourceMetrics; controllers_init; undelivered_detector_init;
   stale_delete_detector_init; grpcsource_init; middleware_init; RegisterGRPCMetrics].

(** ** The functions that record a sample *)

Definition UpdateAdvisoryLockCountMetric (lockType : LockType) (status : string) : option sample :=
  With db.advisoryLockCountMetric [("type", LockType_string lockType); ("status", status)] Inc.
Definition UpdateAdvisoryUnlockCountMetric (lockType : LockType) (status : string) : option sample :=
  With db.advisoryUnlockCountMetric [("type", LockType_string lockType); ("status", status)] Inc.
Definition UpdateAdvisoryLockDurationMetric (lockType : LockType) (status : string) : option sample :=
  With db.advisoryLockDurationMetric [("type", LockType_string lockType); ("status", status)] Observe.
Definition RecordResourceFirstStatusLatencyMetric (consumerName source : string) : option sample :=
  With services.resourceFirstStatusLatencyMetric [("consumer", consumerName); ("source", source)] Observe.
Definition RecordResourceTimeToStatusProcessed (consumer source serverInstanceID : string) : sample :=
  mkSample services.statusEventProcessingLatencyMetric [consumer; source; serverInstanceID] Observe.

(** prometheusMetricsProvider: the series of a queue, by what the workqueue records. *)
Inductive queue_metric := Depth | Adds | Latency | WorkDuration | UnfinishedWork | LongestRunning | Retries.
Definition prometheusMetricsProvider (m : queue_metric) (name : string) : Collector * list string :=
  match m with
  | Depth => (controllers.workqueueDepth, [name])
  | Adds => (controllers.workqueueAdds, [name])
  | Latency => (controllers.workqueueLatency, [name])
  | WorkDuration => (controllers.workqueueWorkDuration, [name])
  | UnfinishedWork => (controllers.workqueueUnfinishedWorkSeconds, [name])
  | LongestRunning => (controllers.workqueueLongestRunningProcessor, [name])
  | Retries => (controllers.workqueueRetries, [name])
  end.

(** ** Registration succeeds *)

Lemma concat_perm {A} (l k : list (list A)) : l ≡ₚ k -> concat l ≡ₚ concat k.
Proof.
  induction 1 as [|x l k _ IH|x y l|l1 l2 l3 _ IH1 _ IH2]; cbn; [done|by rewrite IH| |by etrans].
  rewrite !(assoc_L (++)). f_equiv. apply Permutation_app_comm.
Qed.

Lemma MustRegister_all_ok `{Prometheus} l r :
  forallb valid_collector l = true -> NoDup (fqName <$> l) -> (forall c, c ∈ l -> fqName c ∉ names r) ->
  exists r', MustRegister_all l r = Some r' /\ names r' = list_to_set (fqName <$> l) ∪ names r.
Proof.
  revert r. induction l as [|c l IH]; intros r Hv Hnd Hfresh; cbn [MustRegister_all].
  - exists r. split; [done|]. set_solver.
  - cbn in Hv. apply andb_prop in Hv as [Hc Hv]. apply NoDup_cons in Hnd as [Hnotin Hnd].
    destruct (Register_fresh c r Hc (Hfresh c ltac:(set_solver))) as (r1 & Hr1 & Hn1).
    unfold MustRegister. rewrite Hr1. cbn.
    destruct (IH r1 Hv Hnd) as (r2 & Hr2 & Hn2).
    { intros d Hd Hin. rewrite Hn1 in Hin. apply elem_of_union in Hin as [Heq%elem_of_singleton|Hin].
      - apply Hnotin. rewrite <-Heq. apply list_elem_of_fmap. eauto.
      - exact (Hfresh d ltac:(set_solver) Hin). }
    exists r2. split; [done|]. rewrite Hn2, Hn1. set_solver.
Qed.

Lemma inits_valid : forallb valid_collector (concat inits) = true.
Proof. vm_compute. reflexivity. Qed.
Lemma inits_distinct : NoDup (fqName <$> concat inits).
Proof. apply (bool_decide_unpack _). vm_compute. exact I. Qed.

(** No process of the repository can fail to start over its metrics. Whichever of the init functions of the
    packages a process links, in whatever order Go runs them (each at most once), every MustRegister succeeds on a
    registry in which none of the program's metric names is taken, and the registry then holds exactly the names it
    had and those of the collectors registered: no two collectors of different packages share a name, and each has
    valid names, distinct labels and increasing buckets. What the two Unregister and the three Reset functions act
    on is what was registered, and the workqueue provider hands out series of registered collectors. *)
Theorem metrics_registered `{Prometheus} (linked rest : list (list Collector)) (r : Registry) :
  linked ++ rest ≡ₚ inits ->
  (forall c, c ∈ concat inits -> fqName c ∉ names r) ->
  (exists r', MustRegister_all (concat linked) r = Some r' /\
     names r' = list_to_set (fqName <$> concat linked) ∪ names r) /\
  (UnregisterResourceMetrics = RegisterResourceMetrics /\ ResetResourceMetrics = RegisterResourceMetrics /\
   UnregisterGRPCMetrics = RegisterGRPCMetrics /\ ResetGRPCMetrics = RegisterGRPCMetrics /\
   ResetMetricCollectors = middleware_init) /\
  (forall m name, let '(c, values) := prometheusMetricsProvider m name in
     c ∈ controllers_init /\ length values = length c.(variableLabels)).
Proof.
  intros Hperm Hfresh.
  assert (Hc : concat linked ++ concat rest ≡ₚ concat inits).
  { rewrite <-concat_app. by apply concat_perm. }
  split; [|split; [done|]].
  - apply MustRegister_all_ok.
    + pose proof inits_valid as Hv. apply forallb_forall. intros c Hin%list_elem_of_In.
      rewrite forallb_forall in Hv. apply Hv, list_elem_of_In. rewrite <-Hc. set_solver.
    + pose proof inits_distinct as Hd. rewrite <-Hc, fmap_app in Hd. by apply NoDup_app in Hd as [? _].
    + intros c Hin. apply Hfresh. rewrite <-Hc. set_solver.
  - intros [] name; (split; [|reflexivity]); unfold controllers_init, workqueueMetrics; set_solver.
Qed.

(** The samples recorded by name always find their labels. *)
Lemma lock_samples t s :
  UpdateAdvisoryLockCountMetric t s = Some (mkSample db.advisoryLockCountMetric [LockType_string t; s] Inc) /\
  UpdateAdvisoryUnlockCountMetric t s = Some (mkSample db.advisoryUnlockCountMetric [LockType_string t; s] Inc) /\
  UpdateAdvisoryLockDurationMetric t s = Some (mkSample db.advisoryLockDurationMetric [LockType_string t; s] Observe).
Proof. done. Qed.
