(* ===== verification/Dao.v ===== *)
(** * pkg/dao: the data access objects

    One module per DAO, one definition per method, each issuing the statements of
    [World]. A failing write marks the request's transaction for rollback. *)

From S2P Require Import Prelude GoLib Types Gorm World.
Import api.

Open Scope Z_scope.

(** [if err := ...; err != nil { db.MarkForRollback(ctx, err); return err }] *)
Definition or_rollback {A} (m : M World (result A DBError)) : M World (result A DBError) :=
  let! r := m in
  match r with
  | Ok a => ret (Ok a)
  | Err e => MarkForRollback >> ret (Err e)
  end.

Section Common.
Context `{env : Env} `{gorm : Gorm} {Row : Type} `{model : Model Row} `{table : HasTable Row}.

(** [Delete(&Model{Meta{ID: id}})]: without a primary key gorm refuses the statement. *)
Definition delete_pk (unscoped : bool) (ids : list string) (prot : Tables -> Row -> bool) :
  M World (result unit DBError) :=
  if pkCondition ids then st_delete unscoped (by_ids ids) prot
  else ret (Err ErrMissingWhereClause).

Definition no_refs (_ : Tables) (_ : Row) : bool := true.
Definition unprotected (_ : Tables) (_ : Row) : bool := false.
End Common.

(** ** pkg/dao/resource.go *)

Module ResourceDao.
Section Ops.
Context `{env : Env} `{gorm : Gorm}.

(** The foreign key consumer_name -> consumers(name) of the migrations. *)
Definition consumer_exists (t : Tables) (name : string) : bool :=
  existsb (fun c : Consumer => bool_decide (c.(c_Name) = name)) (map_to_list t.(consumers)).*2.

Definition Get (id : string) : M World (result Resource DBError) := st_take true (by_id id).

Definition Create (resource : Resource) : M World (result Resource DBError) :=
  or_rollback (st_create (fun t r => consumer_exists t r.(ConsumerName)) resource).

Definition Update (resource : Resource) : M World (result Resource DBError) :=
  let! r := or_rollback (st_updates true (by_id resource.(ID))
              (set_VersionPayload resource.(Version) resource.(Payload))) in
  ret (match r with Ok _ => Ok resource | Err e => Err e end).

Definition UpdateStatus (resource : Resource) : M World (result Resource DBError) :=
  let! r := or_rollback (st_updates true (by_id resource.(ID)) (set_Status resource.(Status))) in
  ret (match r with Ok _ => Ok resource | Err e => Err e end).

Definition Delete (id : string) (unscoped : bool) : M World (result unit DBError) :=
  or_rollback (delete_pk (Row := Resource) unscoped [id] unprotected).

Definition FindByIDs (ids : list string) : M World (result (list Resource) DBError) :=
  st_find true (by_ids ids).

Definition FindBySource (source : string) : M World (result (list Resource) DBError) :=
  st_find true (fun r => bool_decide (r.(r_Source) = source)).

Definition FindByConsumerName (consumerName : string) : M World (result (list Resource) DBError) :=
  st_find true (fun r => bool_decide (r.(ConsumerName) = consumerName)).

Definition All : M World (result (list Resource) DBError) := st_find true (fun _ => true).

(** The three conditions of FindUndelivered: the consumer is live, the resource is
    live, without status and created before the cutoff, and no unreconciled event
    of it is pending. *)
Definition undelivered (t : Tables) (cutoff : Time) (r : Resource) : bool :=
  existsb (fun c : Consumer => bool_decide (c.(c_Name) = r.(ConsumerName)) && negb c.(DeletedAt).(Valid))
          (map_to_list t.(consumers)).*2
  && (negb r.(DeletedAt).(Valid) && bool_decide (r.(Status) = None) && (r.(CreatedAt) <? cutoff))
  && negb (existsb (fun e : Event => bool_decide (e.(SourceID) = r.(ID)) && bool_decide (e.(e_Source) = "Resources")
                             && bool_decide (e.(ReconciledDate) = None))
                   (map_to_list t.(events)).*2).

Definition FindUndelivered (threshold : Z) : M World (result (list Resource) DBError) :=
  let! now := time_now in
  let cutoff := now - threshold in
  statement (fun _ t => (Ok (gFind true (undelivered t cutoff) t.(resources)), t)).

End Ops.
End ResourceDao.

(** ** pkg/dao/event.go *)

Module EventDao.
Section Ops.
Context `{env : Env} `{gorm : Gorm}.

Definition Get (id : string) : M World (result Event DBError) := st_take false (by_id id).

Definition Create (event : Event) : M World (result Event DBError) :=
  let! r := or_rollback (st_create no_refs event) in
  match r with
  | Err e => ret (Err e)
  | Ok event =>
      let! n := pg_notify "events" event.(ID) in
      ret (match n with Ok _ => Ok event | Err e => Err e end)
  end.

Definition Replace (event : Event) : M World (result Event DBError) := or_rollback (st_save event).

Definition Delete (id : string) : M World (result unit DBError) :=
  or_rollback (delete_pk (Row := Event) true [id] unprotected).

Definition DeleteAllReconciledEvents : M World (result unit DBError) :=
  or_rollback (st_delete true (fun e : Event => bool_decide (is_Some e.(ReconciledDate))) unprotected).

Definition FindByIDs (ids : list string) : M World (result (list Event) DBError) :=
  st_find false (by_ids ids).

Definition FindAllUnreconciledEvents : M World (result (list Event) DBError) :=
  st_find false (fun e : Event => bool_decide (e.(ReconciledDate) = None)).

Definition All : M World (result (list Event) DBError) := st_find false (fun _ => true).

Definition StaleDeleteReconcileBatchSize : Z := 10000.

(** source_id IN (soft-deleted resources whose deleted_at is before the cutoff) *)
Definition stale_resource (t : Tables) (cutoff : Time) (id : string) : bool :=
  existsb (fun r : Resource => bool_decide (r.(ID) = id) && r.(DeletedAt).(Valid) && (r.(DeletedAt).(NTime) <? cutoff))
          (map_to_list t.(resources)).*2.

Definition stale_event (t : Tables) (cutoff : Time) (e : Event) : bool :=
  bool_decide (e.(e_Source) = "Resources") && bool_decide (e.(EventType_) = DeleteEventType)
  && bool_decide (e.(ReconciledDate) = None) && (e.(CreatedAt) <? cutoff)
  && stale_resource t cutoff e.(SourceID).

Definition ReconcileStaleDeleteEvents (cutoff : Time) : M World (result Z DBError) :=
  let! now := time_now in
  or_rollback (statement (fun at_ t =>
    let staleEventIDs := row_id <$> take (Z.to_nat StaleDeleteReconcileBatchSize)
                                      (gFind false (stale_event t cutoff) t.(events)) in
    let '(m, n) := gUpdates false
                     (fun e => by_ids staleEventIDs e && bool_decide (e.(ReconciledDate) = None))
                     (set_ReconciledDate (Some now)) at_ t.(events) in
    (Ok n, tset m t))).

(** (nil, nil) when the resource has no delete event. *)
Definition FindLatestDeleteEvent (sourceID : string) : M World (result (option Event) DBError) :=
  let! r := st_first_desc false
              (fun e : Event => bool_decide (e.(e_Source) = "Resources") && bool_decide (e.(SourceID) = sourceID)
                                && bool_decide (e.(EventType_) = DeleteEventType))
              (fun e : Event => e.(CreatedAt)) in
  ret (match r with
       | Err ErrRecordNotFound => Ok None
       | Err e => Err e
       | Ok event => Ok (Some event)
       end).

End Ops.
End EventDao.

(** ** pkg/dao/status_event.go *)

Module StatusEventDao.
Section Ops.
Context `{env : Env} `{gorm : Gorm}.

Definition Get (id : string) : M World (result StatusEvent DBError) := st_take false (by_id id).

Definition Create (statusEvent : StatusEvent) : M World (result StatusEvent DBError) :=
  let! r := or_rollback (st_create no_refs statusEvent) in
  match r with
  | Err e => ret (Err e)
  | Ok statusEvent =>
      let! n := pg_notify "status_events" statusEvent.(ID) in
      ret (match n with Ok _ => Ok statusEvent | Err e => Err e end)
  end.

Definition Replace (statusEvent : StatusEvent) : M World (result StatusEvent DBError) :=
  or_rollback (st_save statusEvent).

(** event_instances.event_id REFERENCES status_events(id) ON DELETE CASCADE: rows
    that lost their status event go with it. *)
Definition cascade (t : Tables) : Tables :=
  set_event_instances (filter (fun ei => is_Some (t.(status_events) !! ei.(EventID))) t.(event_instances)) t.

Definition delete_where (p : StatusEvent -> bool) : M World (result unit DBError) :=
  or_rollback (statement (fun now t =>
    match gDelete true p (fun _ => false) now t.(status_events) with
    | Ok m => (Ok tt, cascade (tset m t))
    | Err msg => (Err (DriverErr msg), t)
    end)).

Definition Delete (id : string) : M World (result unit DBError) :=
  if pkCondition [id] then delete_where (by_id id)
  else MarkForRollback >> ret (Err ErrMissingWhereClause).

Definition FindByIDs (ids : list string) : M World (result (list StatusEvent) DBError) :=
  st_find false (by_ids ids).

Definition DeleteAllReconciledEvents : M World (result unit DBError) :=
  delete_where (fun e => bool_decide (is_Some e.(s_ReconciledDate))).

Definition DeleteAllEvents (eventIDs : list string) : M World (result unit DBError) :=
  match eventIDs with
  | [] => ret (Ok tt)
  | _ => delete_where (by_ids eventIDs)
  end.

Definition FindAllUnreconciledEvents : M World (result (list StatusEvent) DBError) :=
  st_find false (fun e : StatusEvent => bool_decide (e.(s_ReconciledDate) = None)).

Definition All : M World (result (list StatusEvent) DBError) := st_find false (fun _ => true).

End Ops.
End StatusEventDao.

(** ** pkg/dao/consumer.go *)

Module ConsumerDao.
Section Ops.
Context `{env : Env} `{gorm : Gorm}.

(** ON DELETE RESTRICT: a consumer some resource names, soft-deleted or not, stays. *)
Definition referenced (t : Tables) (c : Consumer) : bool :=
  existsb (fun r : Resource => bool_decide (r.(ConsumerName) = c.(c_Name))) (map_to_list t.(resources)).*2.

Definition Get (id : string) : M World (result Consumer DBError) := st_take false (by_id id).

Definition Create (consumer : Consumer) : M World (result Consumer DBError) :=
  or_rollback (st_create no_refs consumer).

Definition Replace (consumer : Consumer) : M World (result Consumer DBError) :=
  or_rollback (st_save consumer).

Definition Delete (id : string) (unscoped : bool) : M World (result unit DBError) :=
  or_rollback (delete_pk unscoped [id] referenced).

Definition FindByIDs (ids : list string) : M World (result (list Consumer) DBError) :=
  st_find false (by_ids ids).

Definition FindByNames (names : list string) : M World (result (list Consumer) DBError) :=
  st_find false (fun c : Consumer => bool_decide (c.(c_Name) ∈ names)).

Definition All : M World (result (list Consumer) DBError) := st_find false (fun _ => true).

End Ops.
End ConsumerDao.

(** ** pkg/dao/instance.go *)

Module InstanceDao.
Section Ops.
Context `{env : Env} `{gorm : Gorm}.

Definition Get (id : string) : M World (result ServerInstance DBError) := st_take false (by_id id).

Definition Create (instance : ServerInstance) : M World (result ServerInstance DBError) :=
  or_rollback (st_create no_refs instance).

Definition Replace (instance : ServerInstance) : M World (result ServerInstance DBError) :=
  or_rollback (st_save instance).

Definition mark (ready : bool) (ids : list string) : M World (result unit DBError) :=
  let! r := or_rollback (st_updates false (by_ids ids) (set_Ready ready)) in
  ret (match r with Ok _ => Ok tt | Err e => Err e end).
Definition MarkReadyByIDs := mark true.
Definition MarkUnreadyByIDs := mark false.

Definition Delete (id : string) : M World (result unit DBError) :=
  or_rollback (delete_pk (Row := ServerInstance) false [id] unprotected).

Definition DeleteByIDs (ids : list string) : M World (result unit DBError) :=
  or_rollback (delete_pk (Row := ServerInstance) false ids unprotected).

Definition FindByIDs (ids : list string) : M World (result (list ServerInstance) DBError) :=
  st_find false (by_ids ids).

Definition FindByUpdatedTime (updatedTime : Time) : M World (result (list ServerInstance) DBError) :=
  st_find false (fun i : ServerInstance => i.(UpdatedAt) <? updatedTime).

Definition All : M World (result (list ServerInstance) DBError) := st_find false (fun _ => true).

Definition FindReadyIDs : M World (result (list string) DBError) :=
  let! r := st_find false (fun i : ServerInstance => i.(Ready)) in
  ret (match r with Ok l => Ok ((fun i : ServerInstance => i.(ID)) <$> l) | Err e => Err e end).

End Ops.
End InstanceDao.

(** ** pkg/dao/event_instance.go *)

Module EventInstanceDao.
Section Ops.
Context `{env : Env} `{gorm : Gorm}.

Definition Get (eventID instanceID : string) : M World (result EventInstance DBError) :=
  statement (fun _ t =>
    (if decide (mkEventInstance eventID instanceID ∈ t.(event_instances))
     then Ok (mkEventInstance eventID instanceID) else Err ErrRecordNotFound, t)).

(** The two foreign keys of the migrations; the message is PostgreSQL's. *)
Definition fk_message : string := "violates foreign key constraint".

Definition Create (eventInstance : EventInstance) : M World (result EventInstance DBError) :=
  or_rollback (statement (fun _ t =>
    if bool_decide (is_Some (t.(status_events) !! eventInstance.(EventID))
                    /\ is_Some (t.(server_instances) !! eventInstance.(InstanceID)))
    then (Ok eventInstance, set_event_instances (eventInstance :: t.(event_instances)) t)
    else (Err (DriverErr fk_message), t))).

Definition FindStatusEvents (ids : list string) : M World (result (list EventInstance) DBError) :=
  statement (fun _ t => (Ok (filter (fun ei => ei.(EventID) ∈ ids) t.(event_instances)), t)).

(** COUNT(DISTINCT instance_id) over the rows of an event whose instance is listed. *)
Definition instances_of (instanceIDs : list string) (rows : list EventInstance) (ev : string) : list string :=
  remove_dups (InstanceID <$> filter (fun ei => ei.(InstanceID) ∈ instanceIDs /\ ei.(EventID) = ev) rows).

Definition associated (instanceIDs : list string) (rows : list EventInstance) : list string :=
  filter (fun ev => length (instances_of instanceIDs rows ev) = length instanceIDs)
         (remove_dups (EventID <$> filter (fun ei => ei.(InstanceID) ∈ instanceIDs) rows)).

Definition GetEventsAssociatedWithInstances (instanceIDs : list string) : M World (result (list string) DBError) :=
  match instanceIDs with
  | [] => ret (Ok [])
  | _ => statement (fun _ t => (Ok (associated instanceIDs t.(event_instances)), t))
  end.

End Ops.
End EventInstanceDao.
