(* ===== verification/DaoFacts.v ===== *)
(** * What the DAO methods do to the tables

    The run of each statement on a table that satisfies the primary-key invariant,
    and the guarantees every method gives: it keeps the invariant, it only ever
    advances the clock, and the reading methods leave the tables alone. *)

From S2P Require Import Prelude GoLib Types Gorm World Dao.
Import api.

Open Scope Z_scope.

(** ** Guarantees, as preorders on worlds *)

Definition wf_tables : World -> Prop := fun w => tables_wf w.(tables).
Definition keeps_wf : relation World := keeps wf_tables.
Definition ticks : relation World := fun w w' => (w.(tick) <= w'.(tick))%nat.
Definition reads : relation World := fun w w' =>
  w'.(tables) = w.(tables) /\ w'.(notified) = w.(notified) /\ w'.(locks) = w.(locks).

#[export] Instance keeps_wf_preorder : PreOrder keeps_wf := keeps_preorder _.
#[export] Instance ticks_preorder : PreOrder ticks.
Proof. split; unfold ticks; repeat intro; lia. Qed.
#[export] Instance reads_preorder : PreOrder reads.
Proof.
  split; [by intros w|]. intros w1 w2 w3 (? & ? & ?) (? & ? & ?). unfold reads. split_and!; congruence.
Qed.

Lemma set_tables_id w : set_tables w.(tables) w = w.
Proof. by destruct w. Qed.

Lemma set_tables_bump w : set_tables w.(tables) (bump w) = bump w.
Proof. by destruct w. Qed.

Section Statements.
Context `{env : Env} `{gl : GormLaws}.

Lemma statement_run {A} (f : Time -> Tables -> result A DBError * Tables) w :
  statement f w =
    match fault w.(tick) with
    | Some e => (Err (DriverErr e), bump w)
    | None => let '(r, t) := f (clock w.(tick)) w.(tables) in (r, set_tables t (bump w))
    end.
Proof. unfold statement. rewrite bind_run. simpl. by destruct (fault _). Qed.

Lemma statement_wf {A} (f : Time -> Tables -> result A DBError * Tables) :
  (forall now t, tables_wf t -> tables_wf (f now t).2) -> always keeps_wf (statement f).
Proof.
  intros Hf w Hw. rewrite statement_run. destruct (fault _); [done|].
  specialize (Hf (clock w.(tick)) _ Hw). by destruct (f _ _).
Qed.
Lemma statement_ticks {A} (f : Time -> Tables -> result A DBError * Tables) :
  always ticks (statement f).
Proof.
  intros w. rewrite statement_run. unfold ticks. destruct (fault _); simpl; [lia|].
  destruct (f _ _). simpl. lia.
Qed.
Lemma statement_reads {A} (f : Time -> Tables -> A) :
  always reads (statement (fun now t => (Ok (f now t), t))).
Proof. intros w. rewrite statement_run. by destruct (fault _). Qed.
Lemma statement_reads' {A} (f : Time -> Tables -> result A DBError) :
  always reads (statement (fun now t => (f now t, t))).
Proof. intros w. rewrite statement_run. by destruct (fault _). Qed.

Lemma time_now_wf : always keeps_wf time_now.
Proof. by intros w ?. Qed.
Lemma time_now_ticks : always ticks time_now.
Proof. intros w. unfold ticks. simpl. lia. Qed.
Lemma time_now_reads : always reads time_now.
Proof. by intros w. Qed.
Lemma new_id_wf : always keeps_wf new_id.
Proof. by intros w ?. Qed.
Lemma new_id_ticks : always ticks new_id.
Proof. intros w. unfold ticks. simpl. lia. Qed.
Lemma pg_notify_wf c p : always keeps_wf (pg_notify c p).
Proof. intros w ?. unfold pg_notify. rewrite bind_run. simpl. by destruct (fault _). Qed.
Lemma pg_notify_ticks c p : always ticks (pg_notify c p).
Proof. intros w. unfold pg_notify, ticks. rewrite bind_run. simpl. destruct (fault _); simpl; lia. Qed.
Lemma pg_notify_run c p w :
  pg_notify c p w =
    match fault w.(tick) with
    | Some e => (Err (DriverErr e), bump w)
    | None => (Ok tt, set_notified ((c, p) :: w.(notified)) (bump w))
    end.
Proof. unfold pg_notify. rewrite bind_run. cbn [step]. by destruct (fault _). Qed.
Lemma MarkForRollback_wf : always keeps_wf MarkForRollback.
Proof. by intros w ?. Qed.
Lemma MarkForRollback_ticks : always ticks MarkForRollback.
Proof. intros w. unfold ticks. simpl. lia. Qed.
Lemma MarkForRollback_reads : always reads MarkForRollback.
Proof. by intros w. Qed.

Lemma or_rollback_always {A} (R : relation World) `{!PreOrder R} (m : M World (result A DBError)) :
  always R MarkForRollback -> always R m -> always R (or_rollback m).
Proof. intros. unfold or_rollback. always_auto. Qed.

(** The world a failed write leaves: only the rollback flag of the request. *)
Lemma or_rollback_run {A} (m : M World (result A DBError)) w :
  or_rollback m w =
    match m w with
    | (Ok a, w') => (Ok a, w')
    | (Err e, w') => (Err e, (MarkForRollback w').2)
    end.
Proof. unfold or_rollback. rewrite bind_run. by destruct (m w) as [[] ?]. Qed.

Context {Row : Type} `{ml : ModelLaws Row} `{!HasTable Row} `{tl : !TableLaws Row}.
Implicit Types t : gmap string Row.

Lemma gCreate_inv refs now r t r' t' :
  gCreate refs now r t = Ok (r', t') ->
  refs = true /\ t !! row_id r = None /\ (forall k x, t !! k = Some x -> same_unique r x = false) /\
  r' = stamp now r /\ t' = <[row_id r := persist (stamp now r)]> t.
Proof.
  intros Hc. destruct refs.
  2:{ destruct (gCreate_fk now r t) as (? & He & _). congruence. }
  assert (t !! row_id r = None) as Hn.
  { destruct (t !! row_id r) eqn:E; [|done].
    destruct (gCreate_dup now r t) as (? & He & _); [left; eauto|congruence]. }
  assert (forall k x, t !! k = Some x -> same_unique r x = false) as Hu.
  { intros k x Hk. destruct (same_unique r x) eqn:E; [|done].
    destruct (gCreate_dup now r t) as (? & He & _); [right; eauto|congruence]. }
  rewrite gCreate_ok in Hc by done. by simplify_eq.
Qed.

Lemma gSave_inv now r t r' t' :
  gSave now r t = Ok (r', t') -> r' = touched now r /\ t' = <[row_id r := persist (touched now r)]> t.
Proof.
  intros Hs. rewrite gSave_ok in Hs; [by simplify_eq|].
  intros k x Hk Hne. destruct (same_unique r x) eqn:E; [|done].
  destruct (gSave_dup now r t k x Hk Hne E) as (? & He & _). congruence.
Qed.

Lemma gDelete_inv u p prot now t t' :
  gDelete u p prot now t = Ok t' ->
  t' = if u then filter (fun kr => p kr.2 = false) t
       else (fun r => if hits false p r then soft_deleted now r else r) <$> t.
Proof.
  destruct u; [|rewrite gDelete_soft; intros; by simplify_eq].
  intros Hd. rewrite gDelete_hard in Hd; [by simplify_eq|].
  intros k r Hk Hp. destruct (prot r) eqn:E; [|done].
  destruct (gDelete_restrict p prot now t k r Hk Hp E) as (? & He & _). congruence.
Qed.

Lemma insert_stamp_wf now r t :
  table_wf t -> table_wf (<[row_id r := persist (stamp now r)]> t).
Proof.
  intros. rewrite <-(row_id_stamp now r), <-row_id_persist. by apply table_wf_insert.
Qed.
Lemma insert_touched_wf now r t :
  table_wf t -> table_wf (<[row_id r := persist (touched now r)]> t).
Proof.
  intros. rewrite <-(row_id_touched now r), <-row_id_persist. by apply table_wf_insert.
Qed.

Lemma gUpdates_wf u p (f : Row -> Row) now t :
  (forall r, row_id (f r) = row_id r) -> table_wf t -> table_wf (gUpdates u p f now t).1.
Proof.
  intros Hf Hwf. rewrite gUpdates_eq. apply table_wf_fmap; [|done].
  intros r. case_match; [|done]. unfold updated_row. by rewrite row_id_touched.
Qed.

Lemma gDelete_wf u p prot now t t' :
  gDelete u p prot now t = Ok t' -> table_wf t -> table_wf t'.
Proof.
  intros ->%gDelete_inv Hwf. destruct u; [by apply table_wf_filter|].
  apply table_wf_fmap; [|done]. intros r. case_match; [apply row_id_soft_deleted|done].
Qed.

(** *** The invariant *)

Lemma st_take_wf u (p : Row -> bool) : always keeps_wf (st_take u p).
Proof. by apply statement_wf. Qed.
Lemma st_first_desc_wf u (p : Row -> bool) key : always keeps_wf (st_first_desc u p key).
Proof. by apply statement_wf. Qed.
Lemma st_find_wf u (p : Row -> bool) : always keeps_wf (st_find u p).
Proof. by apply statement_wf. Qed.
Lemma st_create_wf refs (r : Row) : always keeps_wf (st_create refs r).
Proof.
  unfold st_create. always_step; [apply new_id_wf|]. intros id.
  apply statement_wf. intros now t Ht. destruct (gCreate _ _ _ _) as [[r' m]|] eqn:E; [|done].
  apply gCreate_inv in E as (_ & _ & _ & _ & ->). simpl.
  apply tset_wf; [done|]. by apply insert_stamp_wf, tget_wf.
Qed.
Lemma st_updates_wf u (p : Row -> bool) f :
  (forall r, row_id (f r) = row_id r) -> always keeps_wf (st_updates u p f).
Proof.
  intros Hf. apply statement_wf. intros now t Ht.
  pose proof (gUpdates_wf u p f now (tget t) Hf (tget_wf _ Ht)) as Hm.
  destruct (gUpdates _ _ _ _ _). by apply tset_wf.
Qed.
Lemma st_save_wf (r : Row) : always keeps_wf (st_save r).
Proof.
  apply statement_wf. intros now t Ht. destruct (gSave _ _ _) as [[r' m]|] eqn:E; [|done].
  apply gSave_inv in E as [_ ->]. apply tset_wf; [done|]. by apply insert_touched_wf, tget_wf.
Qed.
Lemma st_delete_wf u (p : Row -> bool) prot : always keeps_wf (st_delete u p prot).
Proof.
  apply statement_wf. intros now t Ht. destruct (gDelete _ _ _ _ _) eqn:E; [|done].
  apply tset_wf; [done|]. by eapply gDelete_wf, tget_wf.
Qed.

(** *** The runs on a row named by its id *)

Lemma st_create_run refs (r : Row) w :
  st_create refs r w =
    let r := before_create (newID w.(tick)) r in
    match fault (S w.(tick)) with
    | Some e => (Err (DriverErr e), bump (bump w))
    | None => match gCreate (refs w.(tables) r) (clock (S w.(tick))) r (tget w.(tables)) with
              | Ok (r, m) => (Ok r, set_tables (tset m w.(tables)) (bump (bump w)))
              | Err msg => (Err (DriverErr msg), bump (bump w))
              end
    end.
Proof.
  unfold st_create, new_id. rewrite bind_run. rewrite bind_run. cbn [step ret]. cbn zeta.
  rewrite statement_run. change (tick (bump w)) with (S w.(tick)).
  change (tables (bump w)) with w.(tables). destruct (fault _); [done|].
  destruct (gCreate _ _ _ _) as [[? ?]|]; [done|]. by rewrite <-(set_tables_bump (bump w)).
Qed.

Lemma st_take_by_id u id w :
  wf_tables w ->
  st_take (Row := Row) u (by_id id) w =
    (match fault w.(tick) with
     | Some e => Err (DriverErr e)
     | None => match (r ← tget w.(tables) !! id; if visible u r then Some r else None) with
               | Some r => Ok (load scanNull r)
               | None => Err ErrRecordNotFound
               end
     end, bump w).
Proof.
  intros Hw. unfold st_take. rewrite statement_run. destruct (fault _); [done|].
  rewrite gTake_by_id by (by apply tget_wf).
  cbn iota. rewrite set_tables_bump.
  destruct (tget _ !! id) as [r|]; [|done]. simpl. by destruct (visible u r).
Qed.

Lemma st_updates_by_id u id f w :
  wf_tables w ->
  exists n, st_updates (Row := Row) u (by_id id) f w =
    match fault w.(tick) with
    | Some e => (Err (DriverErr e), bump w)
    | None => (Ok n, set_tables (tset (alter (fun r => if visible u r then updated_row f (clock w.(tick)) r else r)
                                             id (tget w.(tables))) w.(tables)) (bump w))
    end.
Proof.
  intros Hw. unfold st_updates. rewrite statement_run, gUpdates_eq, fmap_by_id by (by apply tget_wf).
  eexists. by destruct (fault _).
Qed.

End Statements.

#[export] Hint Resolve time_now_wf time_now_ticks time_now_reads new_id_wf new_id_ticks pg_notify_wf
  pg_notify_ticks MarkForRollback_wf MarkForRollback_ticks MarkForRollback_reads
  st_take_wf st_first_desc_wf st_find_wf
  statement_ticks statement_reads statement_reads' : maestro.

(** ** The DAO methods *)

#[export] Hint Unfold or_rollback delete_pk
  ResourceDao.Get ResourceDao.Create ResourceDao.Update ResourceDao.UpdateStatus ResourceDao.Delete
  ResourceDao.FindByIDs ResourceDao.FindBySource ResourceDao.FindByConsumerName ResourceDao.All
  ResourceDao.FindUndelivered
  EventDao.Get EventDao.Create EventDao.Replace EventDao.Delete EventDao.DeleteAllReconciledEvents
  EventDao.FindByIDs EventDao.FindAllUnreconciledEvents EventDao.All
  EventDao.FindLatestDeleteEvent
  StatusEventDao.Get StatusEventDao.Create StatusEventDao.Replace
  StatusEventDao.Delete StatusEventDao.FindByIDs StatusEventDao.DeleteAllReconciledEvents
  StatusEventDao.DeleteAllEvents StatusEventDao.FindAllUnreconciledEvents StatusEventDao.All
  ConsumerDao.Get ConsumerDao.Create ConsumerDao.Replace ConsumerDao.Delete ConsumerDao.FindByIDs
  ConsumerDao.FindByNames ConsumerDao.All
  InstanceDao.Get InstanceDao.Create InstanceDao.Replace InstanceDao.mark InstanceDao.MarkReadyByIDs
  InstanceDao.MarkUnreadyByIDs InstanceDao.Delete InstanceDao.DeleteByIDs InstanceDao.FindByIDs
  InstanceDao.FindByUpdatedTime InstanceDao.All InstanceDao.FindReadyIDs
  EventInstanceDao.Get EventInstanceDao.FindStatusEvents
  EventInstanceDao.GetEventsAssociatedWithInstances : ops.

Section Methods.
Context `{env : Env} `{gl : GormLaws}.

Lemma set_event_instances_wf l t : tables_wf t -> tables_wf (set_event_instances l t).
Proof. by intros []. Qed.
Lemma cascade_wf t : tables_wf t -> tables_wf (StatusEventDao.cascade t).
Proof. apply set_event_instances_wf. Qed.

Lemma status_delete_where_wf p : always keeps_wf (StatusEventDao.delete_where p).
Proof.
  unfold StatusEventDao.delete_where. apply or_rollback_always; [typeclasses eauto|apply MarkForRollback_wf|].
  apply statement_wf. intros now t Ht. destruct (gDelete _ _ _ _ _) eqn:E; [|done].
  apply cascade_wf, tset_wf; [done|]. eapply gDelete_wf; [typeclasses eauto..|exact E|]. by apply wf_status_events.
Qed.

Lemma ReconcileStale_wf cutoff : always keeps_wf (EventDao.ReconcileStaleDeleteEvents cutoff).
Proof.
  unfold EventDao.ReconcileStaleDeleteEvents. always_step; [apply time_now_wf|]. intros now.
  apply or_rollback_always; [typeclasses eauto|apply MarkForRollback_wf|].
  apply statement_wf. intros at_ t Ht.
  match goal with |- tables_wf (let '(_, _) := gUpdates ?u ?p ?f ?n ?m in _).2 =>
    pose proof (gUpdates_wf u p f n m (fun _ => eq_refl) (wf_events _ Ht)) as Hm; destruct (gUpdates u p f n m) end.
  by apply tset_wf.
Qed.

Lemma EventInstance_Create_wf ei : always keeps_wf (EventInstanceDao.Create ei).
Proof.
  unfold EventInstanceDao.Create. apply or_rollback_always; [typeclasses eauto|apply MarkForRollback_wf|].
  apply statement_wf. intros now t Ht. case_match; [|done]. by apply set_event_instances_wf.
Qed.

Lemma statement_read_wf {A} (f : Time -> Tables -> result A DBError) :
  always keeps_wf (statement (fun now t => (f now t, t))).
Proof. by apply statement_wf. Qed.

Lemma st_create_ticks {Row} `{Model Row, HasTable Row} refs (r : Row) : always ticks (st_create refs r).
Proof. unfold st_create. always_auto. Qed.
Lemma st_delete_ticks {Row} `{Model Row, HasTable Row} u (p : Row -> bool) prot :
  always ticks (st_delete u p prot).
Proof. apply statement_ticks. Qed.
Lemma status_delete_where_ticks p : always ticks (StatusEventDao.delete_where p).
Proof. unfold StatusEventDao.delete_where. always_auto. Qed.
Lemma ReconcileStale_ticks cutoff : always ticks (EventDao.ReconcileStaleDeleteEvents cutoff).
Proof. unfold EventDao.ReconcileStaleDeleteEvents. always_auto. Qed.
Lemma EventInstance_Create_ticks ei : always ticks (EventInstanceDao.Create ei).
Proof. unfold EventInstanceDao.Create. always_auto. Qed.
End Methods.

#[export] Hint Resolve status_delete_where_wf ReconcileStale_wf EventInstance_Create_wf statement_read_wf
  st_create_ticks st_delete_ticks status_delete_where_ticks ReconcileStale_ticks
  EventInstance_Create_ticks : maestro.
#[export] Hint Extern 1 (always keeps_wf (st_create _ _)) => apply st_create_wf : maestro.
#[export] Hint Extern 1 (always keeps_wf (st_save _)) => apply st_save_wf : maestro.
#[export] Hint Extern 1 (always keeps_wf (st_delete _ _ _)) => apply st_delete_wf : maestro.
#[export] Hint Extern 1 (always keeps_wf (st_updates _ _ _)) =>
  apply st_updates_wf; intros; reflexivity : maestro.
#[export] Hint Extern 1 (always ticks (st_take _ _)) => apply statement_ticks : maestro.
#[export] Hint Extern 1 (always ticks (st_first_desc _ _ _)) => apply statement_ticks : maestro.
#[export] Hint Extern 1 (always ticks (st_find _ _)) => apply statement_ticks : maestro.
#[export] Hint Extern 1 (always ticks (st_updates _ _ _)) => apply statement_ticks : maestro.
#[export] Hint Extern 1 (always ticks (st_save _)) => apply statement_ticks : maestro.
#[export] Hint Extern 1 (always reads (st_take _ _)) => apply statement_reads' : maestro.
#[export] Hint Extern 1 (always reads (st_first_desc _ _ _)) => apply statement_reads' : maestro.
#[export] Hint Extern 1 (always reads (st_find _ _)) => apply statement_reads' : maestro.

(** ** The runs of the methods the services build on *)

Lemma persist_live {Row} `{ModelLaws Row} (r : Row) :
  set_meta (meta r) r = r -> (meta r).(DeletedAt) = NullTime_zero -> persist r = r.
Proof.
  intros Hs Hd. unfold persist. rewrite Hd. simpl. unfold with_DeletedAt. rewrite <-Hd.
  by destruct (meta r).
Qed.

(** The event [EventDao.Create] inserts for a freshly built one. *)
Definition created_event (id : string) (now : Time) (source sourceID : string) (ty : EventType) : Event :=
  mkEvent (mkMeta id now now NullTime_zero) source sourceID ty None.
(** [&api.Event{Source, SourceID, EventType}] *)
Definition new_event (source sourceID : string) (ty : EventType) : Event :=
  mkEvent (newMeta "") source sourceID ty None.

Definition add_event (e : Event) (t : Tables) : Tables := tset (<[e.(ID) := e]> t.(events)) t.

Section Runs.
Context `{env : Env} `{gl : GormLaws}.

(** The event the next [Create] would insert. *)
Definition next_event (w : World) (source sourceID : string) (ty : EventType) : Event :=
  created_event (newID w.(tick)) (clock (S w.(tick))) source sourceID ty.

(** What an [EventDao.Create] may leave behind: nothing; the event without its
    notification (which failed); or the event and its notification. Only the last
    is a success. *)
Inductive event_created (w : World) (e : Event) : result Event DBError * World -> Prop :=
| EventNotInserted err w' :
    w'.(tables) = w.(tables) -> w'.(notified) = w.(notified) -> w'.(locks) = w.(locks) ->
    ticks w w' -> event_created w e (Err err, w')
| EventNotNotified err w' :
    w.(tables).(events) !! e.(ID) = None ->
    w'.(tables) = add_event e w.(tables) -> w'.(notified) = w.(notified) -> w'.(locks) = w.(locks) ->
    ticks w w' -> event_created w e (Err err, w')
| EventNotified w' :
    w.(tables).(events) !! e.(ID) = None ->
    w'.(tables) = add_event e w.(tables) -> w'.(notified) = ("events", e.(ID)) :: w.(notified) ->
    w'.(locks) = w.(locks) -> ticks w w' -> event_created w e (Ok e, w').

Lemma gCreate_event id now source sid ty (m : gmap string Event) r :
  gCreate true now (before_create id (new_event source sid ty)) m = Ok r ->
  0 < now ->
  m !! id = None /\ r = (created_event id now source sid ty,
                         <[id := created_event id now source sid ty]> m).
Proof.
  intros Hc Hnow. destruct r as [e' m'].
  apply gCreate_inv in Hc as (_ & Hn & _ & -> & ->).
  split; [done|]. done.
Qed.

Lemma EventDao_Create_run `{!EnvLaws} source sid ty w :
  event_created w (next_event w source sid ty) (EventDao.Create (new_event source sid ty) w).
Proof.
  unfold EventDao.Create. rewrite bind_run, or_rollback_run, st_create_run. cbn zeta.
  destruct (fault (S (tick w))) as [err|] eqn:Hf1.
  { apply EventNotInserted; simpl; try done. unfold ticks; simpl; lia. }
  destruct (gCreate _ _ _ _) as [[e' m]|msg] eqn:Hc.
  2:{ apply EventNotInserted; simpl; try done. unfold ticks; simpl; lia. }
  apply gCreate_event in Hc as [Hn [= -> ->]]; [|apply clock_pos].
  rewrite bind_run, pg_notify_run. cbn [tick set_tables bump].
  destruct (fault (S (S (tick w)))) as [err|] eqn:Hf2.
  - apply EventNotNotified; simpl; try done. unfold ticks; simpl; lia.
  - apply EventNotified; simpl; try done. unfold ticks; simpl; lia.
Qed.

(** In an environment without driver faults it succeeds when the id is fresh. *)
Lemma EventDao_Create_ok `{!EnvLaws} source sid ty w :
  (forall n, fault n = None) -> w.(tables).(events) !! newID w.(tick) = None ->
  (EventDao.Create (new_event source sid ty) w).1 = Ok (next_event w source sid ty).
Proof.
  intros Hnf Hn. unfold EventDao.Create. rewrite bind_run, or_rollback_run, st_create_run, Hnf. cbn zeta.
  rewrite gCreate_ok; [|done|].
  2:{ intros k r' _. reflexivity. }
  cbn iota. rewrite bind_run, pg_notify_run. by rewrite Hnf.
Qed.

Lemma ResourceDao_Get_run id w :
  wf_tables w ->
  ResourceDao.Get id w =
    (match fault w.(tick) with
     | Some e => Err (DriverErr e)
     | None => match w.(tables).(resources) !! id with
               | Some r => Ok (load scanNull r)
               | None => Err ErrRecordNotFound
               end
     end, bump w).
Proof.
  intros Hw. unfold ResourceDao.Get. rewrite st_take_by_id by done.
  destruct (fault _); [done|]. simpl. by destruct (_ !! id).
Qed.

Definition update_resource (f : Resource -> Resource) (now : Time) (id : string) (t : Tables) : Tables :=
  tset (alter (updated_row f now) id t.(resources)) t.

Lemma ResourceDao_updates_run id f w :
  wf_tables w ->
  exists n, or_rollback (st_updates true (by_id id) f) w =
    match fault w.(tick) with
    | Some e => (Err (DriverErr e), (MarkForRollback (bump w)).2)
    | None => (Ok n, set_tables (update_resource f (clock w.(tick)) id w.(tables)) (bump w))
    end.
Proof.
  intros Hw. destruct (st_updates_by_id true id f w Hw) as [n Hn]. exists n.
  rewrite or_rollback_run, Hn. by destruct (fault _).
Qed.

Lemma by_ids_one {Row} `{Model Row} id (r : Row) : by_ids [id] r = by_id id r.
Proof. unfold by_ids, by_id. apply bool_decide_ext. set_solver. Qed.

Lemma hits_by_ids {Row} `{Model Row} u id (r : Row) : hits u (by_ids [id]) r = hits u (by_id id) r.
Proof. unfold hits. by rewrite by_ids_one. Qed.

Lemma filter_by_ids_one {Row} `{ModelLaws Row} id (t : gmap string Row) :
  table_wf t -> filter (fun kr => by_ids [id] kr.2 = false) t = delete id t.
Proof.
  intros. rewrite <-filter_by_id by done. apply map_filter_ext. intros k r _. simpl. by rewrite by_ids_one.
Qed.

Lemma fmap_by_ids_one {Row} `{ModelLaws Row} u id (g : Row -> Row) (t : gmap string Row) :
  table_wf t ->
  (fun r => if hits u (by_ids [id]) r then g r else r) <$> t
  = alter (fun r => if visible u r then g r else r) id t.
Proof.
  intros. rewrite <-fmap_by_id by done. apply map_fmap_ext. intros k r _. by rewrite hits_by_ids.
Qed.

Definition soft_delete_resource (now : Time) (id : string) (t : Tables) : Tables :=
  tset (alter (fun r => if visible false r then soft_deleted now r else r) id t.(resources)) t.

Lemma ResourceDao_Delete_run id u w :
  wf_tables w -> id <> "" ->
  ResourceDao.Delete id u w =
    match fault w.(tick) with
    | Some e => (Err (DriverErr e), (MarkForRollback (bump w)).2)
    | None => (Ok tt, set_tables (if u then tset (delete id w.(tables).(resources)) w.(tables)
                                  else soft_delete_resource (clock w.(tick)) id w.(tables)) (bump w))
    end.
Proof.
  intros Hw Hid. unfold ResourceDao.Delete, delete_pk. rewrite pkCondition_eq. simpl.
  rewrite (proj2 (String.eqb_neq id "")) by done. simpl.
  rewrite or_rollback_run. unfold st_delete. rewrite statement_run.
  destruct (fault _); [done|]. destruct u.
  - rewrite gDelete_hard by done. by rewrite filter_by_ids_one by (by apply wf_resources).
  - rewrite gDelete_soft. by rewrite fmap_by_ids_one by (by apply wf_resources).
Qed.

Lemma st_find_run {Row} `{Model Row, HasTable Row} u (p : Row -> bool) w :
  st_find u p w = (match fault w.(tick) with
                   | Some e => Err (DriverErr e)
                   | None => Ok (gFind u p (tget w.(tables))) end, bump w).
Proof.
  unfold st_find. rewrite statement_run. destruct (fault _); [done|]. by rewrite set_tables_bump.
Qed.

Lemma gFind_elem {Row} `{Model Row} u p (t : gmap string Row) r :
  r ∈ gFind u p t <-> exists k r0, t !! k = Some r0 /\ hits u p r0 = true /\ r = load scanNull r0.
Proof.
  rewrite (gFind_perm u p t), list_elem_of_fmap. split.
  - intros (r0 & -> & [Hh [k Hk]]%Memory.selected_elem). eauto 6.
  - intros (k & r0 & Hk & Hh & ->). exists r0. split; [done|]. apply Memory.selected_elem. eauto.
Qed.

(** The instances the health check has marked ready. *)
Definition ready_ids (t : Tables) : gset string :=
  list_to_set (row_id <$> selected false (fun i : ServerInstance => i.(Ready)) t.(server_instances)).

Lemma pkCondition_empty : pkCondition [""] = false.
Proof. by rewrite pkCondition_eq. Qed.

End Runs.
