(* ===== verification/Locks.v ===== *)
(** * pkg/db/advisory_locks.go: advisory locks

    The lock store, the lock object and the factory. What PostgreSQL does for
    begin, pg_advisory_xact_lock, pg_try_advisory_xact_lock and commit is the class
    [PgAdvisory]; [PgAdvisoryLaws] states its documented behaviour. Services see the
    factory only through the interface [LockFactory]. *)

From S2P Require Import Prelude GoLib Types Gorm World Dao DaoFacts.
Import api.

Open Scope Z_scope.

(** ** hash/fnv: FNV-1a on 32 bits *)

Definition fnv_offset32 : Z := 2166136261.
Definition fnv_prime32 : Z := 16777619.

Fixpoint fnv32a (h : Z) (s : string) : Z :=
  match s with
  | EmptyString => h
  | String c s => fnv32a (Int.uint32 (Z.lxor h (Z.of_nat (nat_of_ascii c)) * fnv_prime32)) s
  end.

(** The string hashed to a PostgreSQL integer. *)
Definition hash (s : string) : Z := Int.int32 (fnv32a fnv_offset32 s).

(** ** The interface the services use *)

Class LockFactory := {
  (** the owner id, and an error message *)
  NewAdvisoryLock : string -> LockType -> M World (string * option string);
  NewNonBlockingLock : string -> LockType -> M World (string * bool * option string);
  Unlock : string -> M World unit;
}.

(** Locking is invisible in the tables: it may only take time and locks. *)
Definition only_locks : relation World := fun w w' =>
  w'.(tables) = w.(tables) /\ w'.(notified) = w.(notified) /\ w'.(txn) = w.(txn) /\ ticks w w'.

#[export] Instance only_locks_preorder : PreOrder only_locks.
Proof.
  split; [by intros w; unfold only_locks, ticks; split_and!|].
  intros w1 w2 w3 (? & ? & ? & ?) (? & ? & ? & ?). unfold only_locks.
  split_and!; [congruence..|]. etrans; eauto.
Qed.

Class LockFactoryLaws `{LockFactory} : Prop := {
  NewAdvisoryLock_frame id ty : always only_locks (NewAdvisoryLock id ty);
  NewNonBlockingLock_frame id ty : always only_locks (NewNonBlockingLock id ty);
  Unlock_frame uuid : always only_locks (Unlock uuid);
}.

(** ** PostgreSQL *)

Class PgAdvisory := {
  pgBegin : nat -> PgState -> result nat string * PgState;
  pgTxid : nat -> Z;
  pgLock : nat -> nat -> Z * Z -> PgState -> option string * PgState;
  pgTryLock : nat -> nat -> Z * Z -> PgState -> result bool string * PgState;
  pgCommit : nat -> nat -> PgState -> option string * PgState;
}.

Definition grant (tx : nat) (k : Z * Z) (s : PgState) : PgState :=
  mkPgState (<[k := tx]> s.(pgLocks)) s.(openTxs).
(** Ending a transaction releases what it holds. *)
Definition end_tx (tx : nat) (s : PgState) : PgState :=
  mkPgState (filter (fun kt => ~ (kt.2 = tx)) s.(pgLocks)) (s.(openTxs) ∖ {[tx]}).
Definition free_for (tx : nat) (k : Z * Z) (s : PgState) : Prop :=
  s.(pgLocks) !! k = None \/ s.(pgLocks) !! k = Some tx.
#[export] Instance free_for_dec tx k s : Decision (free_for tx k s).
Proof. unfold free_for. apply _. Defined.

(** The state given to [pgLock] is the one at the moment the wait ends. *)
Class PgAdvisoryLaws `{PgAdvisory} : Prop := {
  pgBegin_Ok n s tx s' : pgBegin n s = (Ok tx, s') ->
    (tx ∉ s.(openTxs)) /\ s' = mkPgState s.(pgLocks) ({[tx]} ∪ s.(openTxs));
  pgBegin_Err n s e s' : pgBegin n s = (Err e, s') -> s' = s;
  pgLock_None n tx k s s' : pgLock n tx k s = (None, s') -> free_for tx k s /\ s' = grant tx k s;
  pgLock_Some n tx k s e s' : pgLock n tx k s = (Some e, s') -> s' = s;
  pgTryLock_true n tx k s s' : pgTryLock n tx k s = (Ok true, s') -> free_for tx k s /\ s' = grant tx k s;
  pgTryLock_false n tx k s s' : pgTryLock n tx k s = (Ok false, s') -> ~ free_for tx k s /\ s' = s;
  pgTryLock_Err n tx k s e s' : pgTryLock n tx k s = (Err e, s') -> s' = s;
  pgCommit_ends n tx s : (pgCommit n tx s).2 = end_tx tx s;
}.

(** ** AdvisoryLockStore *)

Module AdvisoryLockStore.
Definition add (uuid : string) (lock : AdvisoryLock) : M World unit :=
  modify (fun w => set_locks (mkLockState (<[uuid := lock]> w.(locks).(lockStore)) w.(locks).(pg)) w).
Definition delete (uuid : string) : M World unit :=
  modify (fun w => set_locks (mkLockState (base.delete uuid w.(locks).(lockStore)) w.(locks).(pg)) w).
Definition get (uuid : string) : M World (option AdvisoryLock) :=
  gets (fun w => w.(locks).(lockStore) !! uuid).
End AdvisoryLockStore.

(** ** AdvisoryLock *)

Module AdvisoryLockFactory.
Section Ops.
Context `{env : Env} `{pgl : PgAdvisory}.

(** One request to the server on the lock's connection. *)
Definition pg_call {A} (f : nat -> PgState -> A * PgState) : M World A :=
  fun w => let '(a, s) := f w.(tick) w.(locks).(pg) in
           (a, bump (set_locks (mkLockState w.(locks).(lockStore) s) w)).

Definition newAdvisoryLock : M World (result AdvisoryLock string) :=
  let! tx := pg_call pgBegin in
  match tx with
  | Err e => ret (Err e)
  | Ok tx =>
      let! n := step in
      let! now := time_now in
      ret (Ok (mkAdvisoryLock (Some tx) (pgTxid n) None None None now))
  end.

(** The guards shared by lock and nonBlockingLock: the transaction and the key. *)
Definition lock_key (l : AdvisoryLock) : result (nat * (Z * Z)) string :=
  match l.(g2), l.(l_id), l.(lockType) with
  | None, _, _ => Err "AdvisoryLock: transaction is missing"
  | _, None, _ => Err "AdvisoryLock: id is missing"
  | _, _, None => Err "AdvisoryLock: lockType is missing"
  | Some tx, Some id, Some ty => Ok (tx, (hash id, hash (LockType_string ty)))
  end.

Definition lock (l : AdvisoryLock) : M World (option string) :=
  match lock_key l with
  | Err e => ret (Some e)
  | Ok (tx, k) => pg_call (fun n => pgLock n tx k)
  end.

Definition nonBlockingLock (l : AdvisoryLock) : M World (result bool string) :=
  match lock_key l with
  | Err e => ret (Err e)
  | Ok (tx, k) => pg_call (fun n => pgTryLock n tx k)
  end.

Definition unlock (l : AdvisoryLock) : M World (option string) :=
  match l.(g2) with
  | None => ret (Some "AdvisoryLock: transaction is missing")
  | Some tx => pg_call (fun n => pgCommit n tx)
  end.

Definition newLock (id : string) (ty : LockType) : M World (result (string * AdvisoryLock) string) :=
  let! lockOwnerID := new_id in
  let! lock := newAdvisoryLock in
  ret (match lock with
       | Err e => Err e
       | Ok l => Ok (lockOwnerID, mkAdvisoryLock l.(g2) l.(txid) (Some lockOwnerID) (Some id) (Some ty) l.(startTime))
       end).

Definition NewAdvisoryLock_ (id : string) (ty : LockType) : M World (string * option string) :=
  let! l := newLock id ty in
  match l with
  | Err e => ret ("", Some e)
  | Ok (uuid, l) =>
      let! err := lock l in
      match err with
      | Some e =>
          ret (uuid, Some (Fmt.Sprintf "error obtaining the advisory lock for id %s type %s, %v"
                             [Fmt.GStr id; Fmt.GStr (LockType_string ty); Fmt.GStr e]))
      | None => AdvisoryLockStore.add uuid l >> ret (uuid, None)
      end
  end.

Definition NewNonBlockingLock_ (id : string) (ty : LockType) : M World (string * bool * option string) :=
  let! l := newLock id ty in
  match l with
  | Err e => ret ("", false, Some e)
  | Ok (uuid, l) =>
      let! r := nonBlockingLock l in
      match r with
      | Err e =>
          ret (uuid, false, Some (Fmt.Sprintf "error obtaining the non blocking advisory lock for id %s type %s, %v"
                                    [Fmt.GStr id; Fmt.GStr (LockType_string ty); Fmt.GStr e]))
      | Ok acquired => AdvisoryLockStore.add uuid l >> ret (uuid, acquired, None)
      end
  end.

(** A stored lock always has its lock type (see [store_wf]), so reading it never
    dereferences nil; the metrics it labels are not modelled. *)
Definition Unlock_ (uuid : string) : M World unit :=
  if decide (uuid = "") then ret tt
  else
    let! l := AdvisoryLockStore.get uuid in
    match l with
    | None => ret tt
    | Some l => unlock l >> AdvisoryLockStore.delete uuid
    end.

#[export] Instance factory : LockFactory := {
  NewAdvisoryLock := NewAdvisoryLock_;
  NewNonBlockingLock := NewNonBlockingLock_;
  Unlock := Unlock_;
}.

(** ** The factory keeps the promise of the interface *)

Lemma pg_call_frame {A} (f : nat -> PgState -> A * PgState) : always only_locks (pg_call f).
Proof.
  intros w. unfold pg_call. destruct (f _ _). unfold only_locks, ticks. simpl. auto with lia.
Qed.
Lemma step_frame : always only_locks step.
Proof. intros w. unfold only_locks, ticks. simpl. auto with lia. Qed.
Lemma store_frame f :
  (forall w, (f w).(tables) = w.(tables) /\ (f w).(notified) = w.(notified) /\
             (f w).(txn) = w.(txn) /\ (f w).(tick) = w.(tick)) -> always only_locks (modify f).
Proof. intros Hf w. destruct (Hf w) as (? & ? & ? & Ht). unfold only_locks, ticks. simpl. by rewrite Ht. Qed.

#[local] Hint Resolve pg_call_frame step_frame : maestro.
#[local] Hint Unfold newLock newAdvisoryLock lock nonBlockingLock unlock time_now new_id
  AdvisoryLockStore.get : ops.

#[export] Instance factory_laws : LockFactoryLaws.
Proof.
  split; intros; cbn [NewAdvisoryLock NewNonBlockingLock Unlock factory];
    unfold NewAdvisoryLock_, NewNonBlockingLock_, Unlock_; always_auto;
    by apply store_frame.
Qed.

(** ** Invariant of the lock state *)

Definition key (id : string) (ty : LockType) : Z * Z := (hash id, hash (LockType_string ty)).

(** A stored lock is complete: reading its type or transaction is never nil. *)
Definition store_wf (s : LockState) : Prop :=
  forall u l, s.(lockStore) !! u = Some l ->
    exists tx id ty, l.(g2) = Some tx /\ l.(l_uuid) = Some u /\ l.(l_id) = Some id /\
                     l.(lockType) = Some ty /\ tx ∈ s.(pg).(openTxs).

Record lock_wf (s : LockState) : Prop := {
  wf_store : store_wf s;
  wf_holders k tx : s.(pg).(pgLocks) !! k = Some tx -> tx ∈ s.(pg).(openTxs);
  wf_inj u u' l l' : s.(lockStore) !! u = Some l -> s.(lockStore) !! u' = Some l' ->
                     l.(g2) = l'.(g2) -> u = u';
}.

(** The lock of owner [uuid] on (id, ty) is granted. *)
Definition held (uuid id : string) (ty : LockType) (s : LockState) : Prop :=
  exists l tx, s.(lockStore) !! uuid = Some l /\ l.(g2) = Some tx /\
               s.(pg).(pgLocks) !! key id ty = Some tx.

End Ops.

Section Proofs.
Context `{env : Env} `{pgl : PgAdvisoryLaws}.
#[local] Hint Resolve pg_call_frame step_frame : maestro.
#[local] Hint Unfold newLock newAdvisoryLock lock nonBlockingLock unlock time_now new_id
  AdvisoryLockStore.get : ops.

Definition stored (tx : nat) (x : Z) (uuid id : string) (ty : LockType) (now : Time) : AdvisoryLock :=
  mkAdvisoryLock (Some tx) x (Some uuid) (Some id) (Some ty) now.
Definition begun (tx : nat) (s : LockState) : LockState :=
  mkLockState s.(lockStore) (mkPgState s.(pg).(pgLocks) ({[tx]} ∪ s.(pg).(openTxs))).
Definition with_lock (uuid : string) (l : AdvisoryLock) (s : LockState) : LockState :=
  mkLockState (<[uuid := l]> s.(lockStore)) s.(pg).
Definition granted (tx : nat) (k : Z * Z) (s : LockState) : LockState :=
  mkLockState s.(lockStore) (grant tx k s.(pg)).

(** The lock state a call leaves, by its result. *)
Inductive locked (w : World) (id : string) (ty : LockType) : string * bool * option string -> LockState -> Prop :=
| NotBegun e : locked w id ty ("", false, Some e) w.(locks)
| NotLocked tx e : tx ∉ w.(locks).(pg).(openTxs) ->
    locked w id ty (newID w.(tick), false, Some e) (begun tx w.(locks))
| NotAcquired tx x now : tx ∉ w.(locks).(pg).(openTxs) ->
    ~ free_for tx (key id ty) w.(locks).(pg) ->
    locked w id ty (newID w.(tick), false, None)
      (with_lock (newID w.(tick)) (stored tx x (newID w.(tick)) id ty now) (begun tx w.(locks)))
| Acquired tx x now : tx ∉ w.(locks).(pg).(openTxs) ->
    free_for tx (key id ty) w.(locks).(pg) ->
    locked w id ty (newID w.(tick), true, None)
      (with_lock (newID w.(tick)) (stored tx x (newID w.(tick)) id ty now)
         (granted tx (key id ty) (begun tx w.(locks)))).

Lemma newLock_run id ty w :
  (exists e w', newLock id ty w = (Err e, w') /\ w'.(locks) = w.(locks)) \/
  (exists tx x now w', newLock id ty w = (Ok (newID w.(tick), stored tx x (newID w.(tick)) id ty now), w') /\
                       w'.(locks) = begun tx w.(locks) /\ tx ∉ w.(locks).(pg).(openTxs)).
Proof.
  unfold newLock, newAdvisoryLock, new_id, time_now. rewrite bind_run, bind_run. cbn [step ret].
  rewrite bind_run, bind_run. unfold pg_call.
  destruct (pgBegin _ _) as [[tx|e] s] eqn:Hb.
  - apply pgBegin_Ok in Hb as [Hn ->]. right. do 4 eexists. split; [reflexivity|]. done.
  - apply pgBegin_Err in Hb as ->. left. do 2 eexists. split; [reflexivity|]. simpl. by destruct (locks w).
Qed.

Lemma free_for_begun tx k s : free_for tx k (begun tx s).(pg) <-> free_for tx k s.(pg).
Proof. done. Qed.

Lemma NewNonBlockingLock_run id ty w :
  locked w id ty (NewNonBlockingLock_ id ty w).1 (NewNonBlockingLock_ id ty w).2.(locks).
Proof.
  unfold NewNonBlockingLock_. rewrite bind_run.
  destruct (newLock_run id ty w) as [(e & w' & -> & Hl)|(tx & x & now & w' & -> & Hl & Hn)].
  { simpl. rewrite Hl. constructor. }
  rewrite bind_run. unfold nonBlockingLock, pg_call. cbn [lock_key stored g2 l_id lockType]. rewrite Hl.
  destruct (pgTryLock _ _ _ _) as [[[]|e] s] eqn:Ht; simpl.
  - apply pgTryLock_true in Ht as [Hf ->]. by apply Acquired.
  - apply pgTryLock_false in Ht as [Hf ->]. by apply NotAcquired.
  - apply pgTryLock_Err in Ht as ->. by apply NotLocked.
Qed.

(** The blocking call has the same outcomes, short of a refusal. *)
Lemma NewAdvisoryLock_run id ty w :
  let '((uuid, err), w') := NewAdvisoryLock_ id ty w in
  locked w id ty (uuid, bool_decide (err = None), err) w'.(locks).
Proof.
  unfold NewAdvisoryLock_. rewrite bind_run.
  destruct (newLock_run id ty w) as [(e & w' & -> & Hl)|(tx & x & now & w' & -> & Hl & Hn)].
  { simpl. rewrite Hl. constructor. }
  rewrite bind_run. unfold lock, pg_call. cbn [lock_key stored g2 l_id lockType]. rewrite Hl.
  destruct (pgLock _ _ _ _) as [[e|] s] eqn:Ht; simpl.
  - apply pgLock_Some in Ht as ->. by apply NotLocked.
  - apply pgLock_None in Ht as [Hf ->]. by apply Acquired.
Qed.

(** Ending the lock of [uuid]. *)
Definition released (uuid : string) (tx : nat) (s : LockState) : LockState :=
  mkLockState (delete uuid s.(lockStore)) (end_tx tx s.(pg)).

Lemma Unlock_run uuid w :
  (Unlock_ uuid w).2.(locks) =
    if decide (uuid = "") then w.(locks)
    else match w.(locks).(lockStore) !! uuid with
         | None => w.(locks)
         | Some l => match l.(g2) with
                     | Some tx => released uuid tx w.(locks)
                     | None => mkLockState (delete uuid w.(locks).(lockStore)) w.(locks).(pg)
                     end
         end.
Proof.
  unfold Unlock_. case_decide; [done|]. rewrite bind_run. simpl.
  destruct (_ !! uuid) as [l|]; [|done]. rewrite bind_run. unfold unlock, pg_call.
  destruct (g2 l) as [tx|]; [|done].
  pose proof (pgCommit_ends (tick w) tx (pg (locks w))) as He.
  destruct (pgCommit _ _ _) as [e s]. simpl in *. by subst.
Qed.

(** ** The invariant is kept *)

Lemma begun_wf tx s : tx ∉ s.(pg).(openTxs) -> lock_wf s -> lock_wf (begun tx s).
Proof.
  intros Hn [Hs Hh Hi]. split; simpl; [|intros; apply elem_of_union_r; eauto|done].
  intros u l Hu. destruct (Hs u l Hu) as (tx' & id & ty & ? & ? & ? & ? & ?).
  exists tx', id, ty. simpl. set_solver.
Qed.

Lemma granted_wf tx k s : tx ∈ s.(pg).(openTxs) -> lock_wf s -> lock_wf (granted tx k s).
Proof.
  intros Hn [Hs Hh Hi]. split; [exact Hs| |exact Hi].
  intros k' tx'. simpl. rewrite lookup_insert. case_decide; intros; simplify_eq; eauto.
Qed.

(** No stored lock uses a transaction that is not open. *)
Lemma store_open s u l tx : lock_wf s -> s.(lockStore) !! u = Some l -> l.(g2) = Some tx ->
  tx ∈ s.(pg).(openTxs).
Proof. intros [Hs _ _] Hu Hg. destruct (Hs u l Hu) as (? & ? & ? & ? & ? & ? & ? & ?). congruence. Qed.

Lemma with_lock_wf tx x uuid id ty now s :
  tx ∈ s.(pg).(openTxs) -> (forall u l, s.(lockStore) !! u = Some l -> l.(g2) <> Some tx) ->
  lock_wf s -> lock_wf (with_lock uuid (stored tx x uuid id ty now) s).
Proof.
  intros Hn Hnew [Hs Hh Hi]. split; [|exact Hh|].
  - intros u l. simpl. rewrite lookup_insert. case_decide; intros; simplify_eq; eauto.
    by exists tx, id, ty.
  - intros u u' l l'. simpl. rewrite !lookup_insert.
    repeat case_decide; intros; simplify_eq/=; eauto.
    + exfalso. by eapply Hnew.
    + exfalso. by eapply Hnew.
Qed.

Lemma fresh_tx s tx : lock_wf s -> tx ∉ s.(pg).(openTxs) ->
  forall u l, s.(lockStore) !! u = Some l -> l.(g2) <> Some tx.
Proof. intros Hwf Hn u l Hu Hg. by eapply Hn, store_open. Qed.

Lemma locked_wf w id ty r s : locked w id ty r s -> lock_wf w.(locks) -> lock_wf s.
Proof.
  intros [e|tx e Hn|tx x now Hn Hf|tx x now Hn Hf] Hwf; [done|by apply begun_wf| |].
  - apply with_lock_wf; [simpl; set_solver|by apply (fresh_tx w.(locks))|by apply begun_wf].
  - apply with_lock_wf; [simpl; set_solver|by apply (fresh_tx w.(locks))|].
    apply granted_wf; [simpl; set_solver|by apply begun_wf].
Qed.

Lemma released_wf uuid l tx s :
  lock_wf s -> s.(lockStore) !! uuid = Some l -> l.(g2) = Some tx -> lock_wf (released uuid tx s).
Proof.
  intros [Hs Hh Hi] Hu Hg. split; [unfold store_wf|..]; simpl.
  - intros u l' [Hne Hu']%lookup_delete_Some. destruct (Hs _ _ Hu') as (tx' & id & ty & Hg' & ? & ? & ? & ?).
    exists tx', id, ty. split_and!; try done. simpl.
    apply elem_of_difference. split; [done|]. intros ->%elem_of_singleton.
    apply Hne. eapply Hi; [exact Hu|exact Hu'|congruence].
  - intros k tx' [Hk Hne]%map_lookup_filter_Some. simpl in Hne.
    apply elem_of_difference. split; [eauto|]. set_solver.
  - intros u u' l1 l2 [_ ?]%lookup_delete_Some [_ ?]%lookup_delete_Some. eauto.
Qed.

Lemma Unlock_wf uuid w : lock_wf w.(locks) -> lock_wf (Unlock_ uuid w).2.(locks).
Proof.
  intros Hwf. rewrite Unlock_run. case_decide; [done|].
  destruct (_ !! uuid) as [l|] eqn:Hu; [|done].
  destruct (wf_store _ Hwf _ _ Hu) as (tx & id & ty & Hg & _). rewrite Hg. by eapply released_wf.
Qed.

(** ** Sequences of calls *)

Inductive LockOp := OLock (id : string) (ty : LockType) | OTryLock (id : string) (ty : LockType) | OUnlock (uuid : string).

Definition run_op (o : LockOp) (w : World) : World :=
  match o with
  | OLock id ty => (NewAdvisoryLock id ty w).2
  | OTryLock id ty => (NewNonBlockingLock id ty w).2
  | OUnlock uuid => (Unlock uuid w).2
  end.
Definition run_ops (l : list LockOp) (w : World) : World := foldl (fun w o => run_op o w) w l.

Lemma run_op_locked o w :
  match o with
  | OLock id ty | OTryLock id ty => exists r, locked w id ty r (run_op o w).(locks)
  | OUnlock uuid => (run_op o w).(locks) = (Unlock_ uuid w).2.(locks)
  end.
Proof.
  destruct o as [id ty|id ty|u]; simpl; [|eexists; apply NewNonBlockingLock_run|done].
  pose proof (NewAdvisoryLock_run id ty w) as Hr. destruct (NewAdvisoryLock_ id ty w) as [[u e] w'].
  eexists. exact Hr.
Qed.

Lemma run_op_wf o w : lock_wf w.(locks) -> lock_wf (run_op o w).(locks).
Proof.
  intros Hwf. pose proof (run_op_locked o w) as Hr. destruct o.
  1-2: destruct Hr as [r Hr]; by eapply locked_wf.
  rewrite Hr. by apply Unlock_wf.
Qed.

Lemma run_ops_wf l w : lock_wf w.(locks) -> lock_wf (run_ops l w).(locks).
Proof. revert w. induction l as [|o l IH]; intros w Hwf; [done|]. by apply IH, run_op_wf. Qed.

Lemma run_op_ticks o w : (w.(tick) <= (run_op o w).(tick))%nat.
Proof.
  assert (only_locks w (run_op o w)) as (_ & _ & _ & Ht); [|exact Ht].
  destruct o; [apply NewAdvisoryLock_frame|apply NewNonBlockingLock_frame|apply Unlock_frame].
Qed.

(** ** A granted lock stays granted until its owner unlocks it *)

Lemma held_begun uuid id ty tx s : held uuid id ty s -> held uuid id ty (begun tx s).
Proof. done. Qed.

Lemma held_with_lock uuid id ty u l s : u <> uuid -> held uuid id ty s -> held uuid id ty (with_lock u l s).
Proof.
  intros Hne (l0 & tx & Hl & Hg & Hk). exists l0, tx. simpl. by rewrite lookup_insert_ne.
Qed.

Lemma held_granted uuid id ty tx k s :
  free_for tx k s.(pg) -> (forall u l, s.(lockStore) !! u = Some l -> l.(g2) <> Some tx) ->
  held uuid id ty s -> held uuid id ty (granted tx k s).
Proof.
  intros Hf Hnew (l0 & tx0 & Hl & Hg & Hk). exists l0, tx0. split_and!; [done..|]. simpl.
  rewrite lookup_insert. case_decide; [|done]. subst k.
  destruct Hf as [Hf|Hf]; rewrite Hk in Hf; simplify_eq.
  exfalso. by eapply Hnew.
Qed.

Lemma held_locked uuid id ty w id' ty' r s :
  lock_wf w.(locks) -> newID w.(tick) <> uuid -> locked w id' ty' r s ->
  held uuid id ty w.(locks) -> held uuid id ty s.
Proof.
  intros Hwf Hne [e|tx e Hn|tx x now Hn Hf|tx x now Hn Hf] Hh; [done|done| |].
  - by apply held_with_lock.
  - apply held_with_lock; [done|]. apply held_granted; [done|by apply (fresh_tx w.(locks))|done].
Qed.

Lemma held_released uuid id ty u l tx s :
  lock_wf s -> s.(lockStore) !! u = Some l -> l.(g2) = Some tx -> u <> uuid ->
  held uuid id ty s -> held uuid id ty (released u tx s).
Proof.
  intros Hwf Hu Hg Hne (l0 & tx0 & Hl & Hg0 & Hk). exists l0, tx0. split_and!; [|done|].
  - simpl. by rewrite lookup_delete_ne.
  - simpl. apply map_lookup_filter_Some. split; [done|]. simpl. intros ->.
    apply Hne. eapply (wf_inj _ Hwf); [exact Hu|exact Hl|congruence].
Qed.

Lemma held_run_op uuid id ty o w :
  lock_wf w.(locks) -> newID w.(tick) <> uuid -> o <> OUnlock uuid ->
  held uuid id ty w.(locks) -> held uuid id ty (run_op o w).(locks).
Proof.
  intros Hwf Hne Ho Hh. pose proof (run_op_locked o w) as Hr. destruct o as [? ?|? ?|u].
  1-2: destruct Hr as [r Hr]; by eapply held_locked.
  rewrite Hr, Unlock_run. case_decide; [done|].
  destruct (_ !! u) as [l|] eqn:Hu; [|done].
  destruct (wf_store _ Hwf _ _ Hu) as (tx & ? & ? & Hg & _). rewrite Hg.
  eapply held_released; try done. congruence.
Qed.

Lemma held_run_ops uuid id ty l w :
  (forall n, (w.(tick) <= n)%nat -> newID n <> uuid) ->
  lock_wf w.(locks) -> OUnlock uuid ∉ l ->
  held uuid id ty w.(locks) -> held uuid id ty (run_ops l w).(locks).
Proof.
  revert w. induction l as [|o l IH]; intros w Hfr Hwf Ho Hh; [done|].
  apply not_elem_of_cons in Ho as [Ho Hl]. simpl. apply IH; [|by apply run_op_wf|done|].
  - intros n Hn. apply Hfr. pose proof (run_op_ticks o w). lia.
  - apply held_run_op; [done|by apply Hfr|congruence|done].
Qed.

(** A granted lock excludes every other grant of the same key. *)
Lemma held_not_free uuid id ty s tx : lock_wf s -> held uuid id ty s -> tx ∉ s.(pg).(openTxs) ->
  ~ free_for tx (key id ty) s.(pg).
Proof.
  intros Hwf (l & tx0 & Hl & Hg & Hk) Hn [Hf|Hf]; rewrite Hk in Hf; simplify_eq.
  by eapply Hn, wf_holders.
Qed.

Lemma bind_advances {A B} (m : M World A) (f : A -> M World B) w :
  (w.(tick) < (m w).2.(tick))%nat -> (forall a, always only_locks (f a)) ->
  (w.(tick) < (bind m f w).2.(tick))%nat.
Proof.
  intros Hm Hf. rewrite bind_run. destruct (m w) as [a w']. simpl in Hm.
  destruct (Hf a w') as (_ & _ & _ & Ht). unfold ticks in Ht. lia.
Qed.

Lemma NewAdvisoryLock_advances id ty w : (w.(tick) < (NewAdvisoryLock_ id ty w).2.(tick))%nat.
Proof.
  apply bind_advances; [apply bind_advances|]; [simpl; lia|always_auto..]; by apply store_frame.
Qed.

Lemma no_locks_wf : lock_wf no_locks.
Proof.
  split; [intros u l Hl|intros k tx Hl|intros u u' l l' Hl]; simpl in Hl; by rewrite lookup_empty in Hl.
Qed.

Lemma end_granted tx k s :
  lock_wf s -> tx ∉ s.(pg).(openTxs) -> free_for tx k s.(pg) ->
  end_tx tx (granted tx k (begun tx s)).(pg) = s.(pg).
Proof.
  intros Hwf Hn Hf. destruct s as [st [m o]]. unfold end_tx; simpl in *. f_equal; [|clear -Hn; set_solver].
  assert (m !! k = None) as Hk.
  { destruct Hf as [|Hf]; [done|]. exfalso. by eapply Hn, (wf_holders _ Hwf). }
  rewrite map_filter_insert_False by (simpl; tauto). rewrite delete_id by done.
  apply map_filter_id. intros k' tx' Hk'. simpl. intros ->. by eapply Hn, (wf_holders _ Hwf).
Qed.

(** ** Properties *)

(** The hash of any string fits PostgreSQL's integer. *)
Theorem hash_int32 str : - 2 ^ 31 <= hash str < 2 ^ 31.
Proof. unfold hash, Int.int32. apply (Int.wrap_range 32). lia. Qed.

(** C15: after any sequence of NewAdvisoryLock, NewNonBlockingLock and Unlock calls
    that starts without locks, every stored lock still has its transaction, owner,
    id and type (so Unlock never reads a nil field), that transaction is open, no two
    owners share a transaction, and every key is held by an open transaction. *)
Theorem lock_state_invariant l w :
  w.(locks) = no_locks -> lock_wf (run_ops l w).(locks).
Proof. intros Hw. apply run_ops_wf. rewrite Hw. apply no_locks_wf. Qed.

(** C7: mutual exclusion. Once NewAdvisoryLock has granted (id, type) to an owner,
    then whatever calls follow, until that owner is unlocked neither a blocking call
    for the same (id, type) succeeds nor a non-blocking one acquires it. *)
Theorem lock_mutual_exclusion `{!FreshIDs} l1 l2 id ty uuid w w1 :
  w.(locks) = no_locks ->
  NewAdvisoryLock id ty (run_ops l1 w) = ((uuid, None), w1) ->
  OUnlock uuid ∉ l2 ->
  (NewAdvisoryLock id ty (run_ops l2 w1)).1.2 <> None /\
  (NewNonBlockingLock id ty (run_ops l2 w1)).1.1.2 = false.
Proof.
  intros Hw Hl Hno. set (w0 := run_ops l1 w) in *.
  assert (lock_wf w0.(locks)) as Hwf0 by (apply run_ops_wf; rewrite Hw; apply no_locks_wf).
  pose proof (NewAdvisoryLock_run id ty w0) as Hr. simpl in Hl. rewrite Hl in Hr. simpl in Hr.
  assert (lock_wf w1.(locks)) as Hwf1 by (by eapply locked_wf).
  assert (uuid = newID w0.(tick) /\ held uuid id ty w1.(locks)) as [-> Hh].
  { inversion Hr as [| | |tx x now Hn Hf Hu Hs]; subst. split; [done|].
    exists (stored tx x (newID w0.(tick)) id ty now), tx. split_and!; [|done|]; simpl; by rewrite lookup_insert_eq. }
  assert (w0.(tick) < w1.(tick))%nat as Hlt.
  { pose proof (NewAdvisoryLock_advances id ty w0) as Hq. by rewrite Hl in Hq. }
  assert (held (newID w0.(tick)) id ty (run_ops l2 w1).(locks)) as Hh2.
  { apply held_run_ops; try done. intros n Hn He%newID_inj. lia. }
  set (w2 := run_ops l2 w1) in *.
  assert (lock_wf w2.(locks)) as Hwf2 by (by apply run_ops_wf).
  split.
  - pose proof (NewAdvisoryLock_run id ty w2) as Hr2. simpl. destruct (NewAdvisoryLock_ id ty w2) as [[u e] w3].
    simpl. intros ->. inversion Hr2. by eapply held_not_free.
  - pose proof (NewNonBlockingLock_run id ty w2) as Hr2. simpl. inversion Hr2 as [| | |tx x now Hn Hf Hu Hs]; try done.
    exfalso. by eapply held_not_free.
Qed.

(** Unlock by the owner puts the lock state back exactly as it was before the
    lock was taken: the store entry, the transaction and the grant are gone. *)
Theorem lock_unlock_restores id ty uuid w w1 :
  lock_wf w.(locks) -> (forall n, newID n <> "") ->
  w.(locks).(lockStore) !! newID w.(tick) = None ->
  NewAdvisoryLock id ty w = ((uuid, None), w1) ->
  (Unlock uuid w1).2.(locks) = w.(locks).
Proof.
  intros Hwf Hne Hfr Hl. pose proof (NewAdvisoryLock_run id ty w) as Hr. simpl in Hl. rewrite Hl in Hr. simpl in Hr.
  inversion Hr as [| | |tx x now Hn Hf Hu Hs]. subst uuid. simpl.
  rewrite Unlock_run, <-Hs. rewrite decide_False by done. simpl. rewrite lookup_insert_eq. simpl.
  pose proof (end_granted tx (key id ty) w.(locks) Hwf Hn Hf) as He. simpl in He.
  unfold released. simpl. rewrite He, delete_insert_id by done. by destruct (locks w).
Qed.

(** When obtaining the lock fails after its transaction was begun, the owner id
    returned with the error cannot end that transaction: Unlock finds no lock for it
    and the transaction stays open. *)
Theorem lock_error_leaks_transaction id ty uuid e w w1 :
  NewAdvisoryLock id ty w = ((uuid, Some e), w1) -> uuid <> "" ->
  w.(locks).(lockStore) !! newID w.(tick) = None ->
  exists tx, (tx ∉ w.(locks).(pg).(openTxs)) /\ (tx ∈ (Unlock uuid w1).2.(locks).(pg).(openTxs)) /\
             (Unlock uuid w1).2.(locks) = w1.(locks).
Proof.
  intros Hl Hne Hfr. pose proof (NewAdvisoryLock_run id ty w) as Hr. simpl in Hl. rewrite Hl in Hr.
  simpl in Hr. inversion Hr as [|tx e' Hn Hu Hs| |]; [done|]. subst uuid. exists tx. simpl.
  rewrite Unlock_run, <-Hs. rewrite decide_False by done. simpl. rewrite Hfr. simpl.
  split_and!; [done|set_solver|done].
Qed.

End Proofs.
End AdvisoryLockFactory.

(** ** An instance: PostgreSQL as a lock table *)

Module MemoryPg.
#[export] Instance pgl : PgAdvisory := {
  pgBegin _ s := let tx := fresh s.(openTxs) in (Ok tx, mkPgState s.(pgLocks) ({[tx]} ∪ s.(openTxs)));
  pgTxid n := Z.of_nat n;
  pgLock _ tx k s := if decide (free_for tx k s) then (None, grant tx k s)
                     else (Some "canceling statement due to lock timeout", s);
  pgTryLock _ tx k s := if decide (free_for tx k s) then (Ok true, grant tx k s) else (Ok false, s);
  pgCommit _ tx s := (None, end_tx tx s);
}.
#[export] Instance pg_laws : PgAdvisoryLaws.
Proof.
  split; simpl; intros; repeat case_decide; simplify_eq; try done.
  split; [apply is_fresh|done].
Qed.
End MemoryPg.

Module LockWitnesses.
Import AdvisoryLockFactory Calm MemoryPg.

Definition w0 : World := start empty_tables.

(** FNV-1a test vectors: the offset basis, and "a". *)
Example hash_empty : hash "" = -2128831035.
Proof. reflexivity. Qed.
Example hash_a : hash "a" = -468965076.
Proof. reflexivity. Qed.

Lemma lock_state_invariant_witness :
  lock_wf (run_ops [OLock "r" Resources; OTryLock "r" Resources; OUnlock "id-0"] w0).(locks).
Proof. apply (lock_state_invariant (env := Calm.env)). reflexivity. Defined.

Lemma lock_mutual_exclusion_witness :
  exists uuid w1, NewAdvisoryLock "r" Resources (run_ops [] w0) = ((uuid, None), w1) /\
    (NewAdvisoryLock "r" Resources (run_ops [OTryLock "s" Events] w1)).1.2 <> None /\
    (NewNonBlockingLock "r" Resources (run_ops [OTryLock "s" Events] w1)).1.1.2 = false.
Proof.
  eexists _, _. split; [vm_compute; reflexivity|].
  eapply (lock_mutual_exclusion (env := Calm.env) [] [OTryLock "s" Events] "r" Resources _ w0);
    [reflexivity|vm_compute; reflexivity|].
  intros [?|[]%elem_of_nil]%elem_of_cons. discriminate.
Defined.

Lemma lock_unlock_restores_witness :
  exists uuid w1, NewAdvisoryLock "r" Resources w0 = ((uuid, None), w1) /\
    (Unlock uuid w1).2.(locks) = w0.(locks).
Proof.
  eexists _, _. split; [vm_compute; reflexivity|].
  eapply (lock_unlock_restores (env := Calm.env) "r" Resources);
    [apply no_locks_wf|discriminate|reflexivity|vm_compute; reflexivity].
Defined.

(** Two owners on one key: the second call fails and its transaction stays open. *)
Definition w1 : World := (NewAdvisoryLock "r" Resources w0).2.
Lemma lock_error_leaks_transaction_witness :
  exists uuid e w2, NewAdvisoryLock "r" Resources w1 = ((uuid, Some e), w2) /\
    exists tx, (tx ∉ w1.(locks).(pg).(openTxs)) /\ (tx ∈ (Unlock uuid w2).2.(locks).(pg).(openTxs)) /\
             (Unlock uuid w2).2.(locks) = w2.(locks).
Proof.
  eexists _, _, _. split; [vm_compute; reflexivity|].
  eapply (lock_error_leaks_transaction (env := Calm.env) "r" Resources);
    [vm_compute; reflexivity|discriminate|reflexivity].
Defined.
End LockWitnesses.
