(* ===== verification/Session.v ===== *)
(** * pkg/db/db_session/default.go: database sessions

    The password of a new connection (setPassword), and the notification listener: newListener
    and waitForNotification, a loop over what the channels deliver. lib/pq's listener and the
    Azure token service are the class [SessionLib]; the connection string is pkg/config/db.go. *)

From S2P Require Import Prelude GoLib Types.
Import api Fmt.

Open Scope Z_scope.

(** ** Configuration *)

Record AccessToken := mkAccessToken { Token : string; ExpiresOn : Time }.

Record DatabaseConfig := mkDatabaseConfig {
  Host : string;
  Port : Z;
  Username : string;
  Password : string;
  DBName : string;
  SSLMode : string;
  RootCertFile : string;
  AuthMethod : string;
  TokenRequestScope : string;
  (** the cached access token *)
  CachedToken : option AccessToken;
}.

Definition set_Token (t : AccessToken) (c : DatabaseConfig) : DatabaseConfig :=
  mkDatabaseConfig c.(Host) c.(Port) c.(Username) c.(Password) c.(DBName) c.(SSLMode) c.(RootCertFile) c.(AuthMethod)
    c.(TokenRequestScope) (Some t).

Definition AuthMethodPassword : string := "password".
Definition AuthMethodMicrosoftEntra : string := "az-entra".
(** 60 seconds, in nanoseconds *)
Definition MinTokenLifeThreshold : Z := 60 * 1000000000.

Definition ConnectionStringWithName (c : DatabaseConfig) (name : string) (withSSL : bool) : string :=
  if withSSL then
    Sprintf "host=%s port=%d user=%s dbname=%s sslmode=%s sslrootcert='%s'"
      [GStr c.(Host); GInt c.(Port); GStr c.(Username); GStr name; GStr c.(SSLMode); GStr c.(RootCertFile)]
  else
    Sprintf "host=%s port=%d user=%s dbname=%s sslmode=disable"
      [GStr c.(Host); GInt c.(Port); GStr c.(Username); GStr name].
Definition ConnectionString (c : DatabaseConfig) (withSSL : bool) : string := ConnectionStringWithName c c.(DBName) withSSL.

Class SessionLib := {
  (** a token for the scope, at a time *)
  getAccessToken : Time -> string -> result AccessToken string;
  (** pq.NewListener and Listen: the error of Listen, by connection string and channel *)
  listenError : string -> string -> option string;
}.

(** A token that is handed out is good for more than the threshold. *)
Class SessionLibLaws `{SessionLib} : Prop := {
  getAccessToken_fresh now scope t : getAccessToken now scope = Ok t -> MinTokenLifeThreshold <= t.(ExpiresOn) - now;
}.

Section Session.
Context `{lib : SessionLib}.

(** time.Until(ExpiresOn) in nanoseconds; Seconds() < 60 is the same comparison. *)
Definition isExpired (now : Time) (t : option AccessToken) : bool :=
  match t with
  | None => true
  | Some t => t.(ExpiresOn) - now <? MinTokenLifeThreshold
  end.

(** The hook before each connection: the password it sets, if any, and the configuration. *)
Definition setPassword (now : Time) (c : DatabaseConfig) : result (option string) string * DatabaseConfig :=
  if decide (c.(AuthMethod) = AuthMethodPassword) then (Ok (Some c.(Password)), c)
  else if decide (c.(AuthMethod) = AuthMethodMicrosoftEntra) then
    if isExpired now c.(CachedToken) then
      match getAccessToken now c.(TokenRequestScope) with
      | Err err => (Err err, c)
      | Ok t => (Ok (Some t.(Token)), set_Token t c)
      end
    else (Ok (Token <$> c.(CachedToken)), c)
  else (Ok None, c).

(** ** The listener *)

(** The connection string of a listener, or the panic of newListener. *)
Definition newListener (now : Time) (c : DatabaseConfig) (channel : string) : option string :=
  let connstr := ConnectionString c true in
  let with_password p := connstr +:+ Sprintf " password='%s'" [GStr p] in
  let listen s := match listenError s channel with Some _ => None | None => Some s end in
  if decide (c.(AuthMethod) = AuthMethodPassword) then listen (with_password c.(Password))
  else if decide (c.(AuthMethod) = AuthMethodMicrosoftEntra) then
    match getAccessToken now c.(TokenRequestScope) with
    | Err _ => None
    | Ok t => listen (with_password t.(Token))
    end
  else listen connstr.

(** What the select delivers, at a time: the context is done, a notification with its
    payload, the nil one of a lost connection, or ten seconds without either and the
    result of the ping. *)
Inductive input :=
| Cancelled
| Notified (extra : string)
| ConnectionLost
| Quiet (ping : option string).

(** The listeners made and closed so far, and the payloads the callback got; [listening] is
    false when the loop has returned, [panicked] when a new listener failed. *)
Record loop := mkLoop {
  made : nat;
  closed : list nat;
  called : list string;
  listening : bool;
  panicked : bool;
}.

(** l.Close(); l = newListener(...): listeners are numbered in the order they are made. *)
Definition recreate (now : Time) (c : DatabaseConfig) (channel : string) (l : loop) : loop :=
  match newListener now c channel with
  | Some _ => mkLoop (S l.(made)) (l.(made) :: l.(closed)) l.(called) true false
  | None => mkLoop l.(made) (l.(made) :: l.(closed)) l.(called) false true
  end.

(** One round of waitForNotification. *)
Definition wait_step (c : DatabaseConfig) (channel : string) (i : Time * input) (l : loop) : loop :=
  let '(now, i) := i in
  if l.(listening) then
    match i with
    | Cancelled => mkLoop l.(made) l.(closed) l.(called) false false
    | Notified extra => mkLoop l.(made) l.(closed) (l.(called) ++ [extra]) true false
    | ConnectionLost => recreate now c channel l
    | Quiet None => l
    | Quiet (Some _) => recreate now c channel l
    end
  else l.

Definition waitForNotification (c : DatabaseConfig) (channel : string) (is_ : list (Time * input)) (l : loop) : loop :=
  foldl (fun l i => wait_step c channel i l) l is_.

(** NewListener: the first listener, and the loop on it. *)
Definition NewListener (now : Time) (c : DatabaseConfig) (channel : string) (is_ : list (Time * input)) : option loop :=
  match newListener now c channel with
  | None => None
  | Some _ => Some (waitForNotification c channel is_ (mkLoop 1 [] [] true false))
  end.

(** ** What is guaranteed *)

(** The payloads delivered before the context was done. *)
Fixpoint payloads (is_ : list (Time * input)) : list string :=
  match is_ with
  | [] => []
  | (_, Cancelled) :: _ => []
  | (_, Notified extra) :: is_ => extra :: payloads is_
  | _ :: is_ => payloads is_
  end.

(** The closed listeners are all but the last one made; after a panic, all of them. *)
Definition loop_ok (l : loop) : Prop :=
  (1 <= l.(made))%nat /\ l.(panicked) = false /\ l.(closed) = reverse (seq 1 (l.(made) - 1)).

Lemma recreate_ok now c channel l : loop_ok l -> (recreate now c channel l).(panicked) = false -> loop_ok (recreate now c channel l).
Proof.
  intros (Hm & _ & Hc). unfold recreate. destruct (newListener _ _ _); [|done]. intros _. split_and!; cbn [made panicked closed]; [lia|done|].
  replace (S (made l) - 1)%nat with (S (made l - 1)) by lia. rewrite Hc, seq_S, reverse_snoc. f_equal. lia.
Qed.

Lemma recreate_called now c channel l : (recreate now c channel l).(called) = l.(called).
Proof. unfold recreate. by destruct (newListener _ _ _). Qed.

Lemma wait_stopped c channel is_ l : l.(listening) = false -> waitForNotification c channel is_ l = l.
Proof.
  intros Hl. induction is_ as [|[now i] is_ IH]; [done|]. cbn [waitForNotification foldl]. unfold wait_step at 2. by rewrite Hl.
Qed.

Lemma recreate_stops now c channel l :
  (recreate now c channel l).(listening) = negb (recreate now c channel l).(panicked).
Proof. unfold recreate. by destruct (newListener _ _ _). Qed.

Lemma wait_run c channel is_ l :
  l.(listening) = true -> loop_ok l -> (waitForNotification c channel is_ l).(panicked) = false ->
  (waitForNotification c channel is_ l).(called) = l.(called) ++ payloads is_ /\ loop_ok (waitForNotification c channel is_ l).
Proof.
  revert l. induction is_ as [|[now i] is_ IH]; intros l Hl Hok Hp; [by rewrite app_nil_r|].
  change (waitForNotification c channel ((now, i) :: is_) l) with (waitForNotification c channel is_ (wait_step c channel (now, i) l)) in *.
  unfold wait_step in *. rewrite Hl in *.
  assert (forall r, (waitForNotification c channel is_ (recreate now c channel r)).(panicked) = false ->
            (recreate now c channel r).(panicked) = false) as Hpr.
  { intros r Hr. destruct (panicked (recreate now c channel r)) eqn:E; [|done].
    rewrite wait_stopped in Hr by (rewrite recreate_stops, E; done). congruence. }
  destruct i as [|extra| |[e|]].
  - rewrite wait_stopped by done. simpl. rewrite app_nil_r. split; [done|]. destruct Hok as (? & _ & ?). by split_and!.
  - destruct (IH (mkLoop (made l) (closed l) (called l ++ [extra]) true false)) as [Hc Hk]; [done|by destruct Hok as (? & _ & ?); split_and!|done|].
    split; [|done]. rewrite Hc. simpl. by rewrite <-app_assoc.
  - destruct (IH (recreate now c channel l)) as [Hc Hk]; [rewrite recreate_stops; by rewrite Hpr|by apply recreate_ok, Hpr|done|].
    rewrite Hc, recreate_called. done.
  - destruct (IH (recreate now c channel l)) as [Hc Hk]; [rewrite recreate_stops; by rewrite Hpr|by apply recreate_ok, Hpr|done|].
    rewrite Hc, recreate_called. done.
  - by apply IH.
Qed.

(** The callback is called with every notification delivered until the context is done,
    once each and in order, across lost connections and failed pings; and of the listeners
    made on the way all but the current one have been closed, once each. The current one is
    not closed when the loop returns. *)
Theorem listener_delivers now c channel is_ l :
  NewListener now c channel is_ = Some l -> l.(panicked) = false ->
  l.(called) = payloads is_ /\ l.(closed) = reverse (seq 1 (l.(made) - 1)).
Proof.
  unfold NewListener. destruct (newListener now c channel); [|done]. intros [= <-] Hp.
  destruct (wait_run c channel is_ (mkLoop 1 [] [] true false)) as [Hc (_ & _ & Hk)]; [done|by split|done|]. done.
Qed.

(** A connection authenticated with Microsoft Entra never uses a token with less than the
    threshold left: a cached token is used as long as it has more, otherwise a new one is
    fetched and cached. *)
Theorem setPassword_fresh `{!SessionLibLaws} now c p c' :
  c.(AuthMethod) = AuthMethodMicrosoftEntra -> setPassword now c = (Ok p, c') ->
  exists t, c'.(CachedToken) = Some t /\ p = Some t.(Token) /\ MinTokenLifeThreshold <= t.(ExpiresOn) - now.
Proof.
  intros Ha. unfold setPassword. rewrite Ha. rewrite decide_False by done. rewrite decide_True by done.
  unfold isExpired. destruct (CachedToken c) as [t|] eqn:Ht.
  - destruct (Z.ltb_spec (ExpiresOn t - now) MinTokenLifeThreshold).
    + destruct (getAccessToken _ _) as [t'|] eqn:Hg; [|done]. intros [= <- <-]. exists t'. split_and!; [done|done|].
      by eapply getAccessToken_fresh.
    + intros [= <- <-]. exists t. by rewrite Ht.
  - destruct (getAccessToken _ _) as [t'|] eqn:Hg; [|done]. intros [= <- <-]. exists t'. split_and!; [done|done|].
    by eapply getAccessToken_fresh.
Qed.
End Session.

(** ** A concrete session *)

Module SampleSession.
#[export] Instance lib : SessionLib := {
  getAccessToken now scope := Ok (mkAccessToken "token" (now + 2 * MinTokenLifeThreshold));
  listenError s channel := None;
}.
#[export] Instance lib_laws : SessionLibLaws.
Proof. split. intros now scope t [= <-]. unfold MinTokenLifeThreshold. simpl. lia. Qed.

Definition config : DatabaseConfig := mkDatabaseConfig "db" 5432 "maestro" "secret" "maestro" "disable" "" "password" "" None.
Definition entra : DatabaseConfig := mkDatabaseConfig "db" 5432 "maestro" "" "maestro" "disable" "" "az-entra" "scope" None.

Lemma listener_delivers_witness :
  exists l, NewListener 0 config "events" [(1, Notified "a"); (2, ConnectionLost); (3, Notified "b"); (4, Cancelled)] = Some l /\
    l.(called) = ["a"; "b"] /\ l.(closed) = [1%nat].
Proof.
  eexists. split; [vm_compute; reflexivity|].
  apply (listener_delivers 0 config "events" [(1, Notified "a"); (2, ConnectionLost); (3, Notified "b"); (4, Cancelled)]);
    reflexivity.
Defined.

Lemma setPassword_fresh_witness :
  exists t, (setPassword 5 entra).2.(CachedToken) = Some t /\ Some "token" = Some t.(Token) /\
    MinTokenLifeThreshold <= t.(ExpiresOn) - 5.
Proof. apply (setPassword_fresh 5 entra (Some "token") (setPassword 5 entra).2); reflexivity. Defined.
End SampleSession.
