(* ===== verification/Migrations.v ===== *)
(** * pkg/db/migrations: the schema and how a database gets it

    The ten migrations, CreateFK, and Migrate and MigrateTo of pkg/db/migrations.go. A struct
    of a migration is the list of its fields under their column names. gorm's migrator and
    PostgreSQL's DDL are the class [Migrator], with the documented effect of a statement that
    succeeds in [MigratorLaws]; gormigrate, which decides which migrations run, is the class
    [Gormigrate]. *)

From S2P Require Import Prelude GoLib.
Import Fmt.

(** ** Structs of migrations, and schemas *)

Inductive GoType := GoString | GoTime | GoTimePtr | GoDeletedAt | GoInt | GoInt32 | GoBool | GoJSON.
(** The gorm tags index, uniqueIndex and index:name. *)
Inductive IndexTag := TagIndex | TagUniqueIndex | TagNamedIndex (name : string).
Record Field := mkField {
  column : string;
  go_type : GoType;
  primary_key : bool;
  not_null : bool;
  index_tag : option IndexTag;
  default_value : option string;
}.
Definition plain (c : string) (t : GoType) : Field := mkField c t false false None None.
Definition indexed (c : string) (t : GoType) : Field := mkField c t false false (Some TagIndex) None.
Definition unique (c : string) (t : GoType) : Field := mkField c t false false (Some TagUniqueIndex) None.
Record Struct := mkStruct { table_name : string; fields : list Field }.

Record Column := mkColumn { col_type : GoType; col_primary : bool; col_not_null : bool; col_default : option string }.
Record Index := mkIndex { idx_unique : bool; idx_columns : list string }.
Record ForeignKey := mkForeignKey { fk_column : string; fk_table : string; fk_ref : string; fk_action : string }.
Record Table := mkTable {
  columns : gmap string Column;
  indexes : gmap string Index;
  constraints : gmap string ForeignKey;
}.
(** The tables of the service; the one gormigrate keeps its ids in is not among them. *)
Abbreviation Schema := (gmap string Table).
Definition no_table : Table := mkTable ∅ ∅ ∅.

#[export] Instance GoType_eq_dec : EqDecision GoType.
Proof. solve_decision. Defined.
#[export] Instance IndexTag_eq_dec : EqDecision IndexTag.
Proof. solve_decision. Defined.
#[export] Instance Column_eq_dec : EqDecision Column.
Proof. solve_decision. Defined.
#[export] Instance Index_eq_dec : EqDecision Index.
Proof. solve_decision. Defined.
#[export] Instance ForeignKey_eq_dec : EqDecision ForeignKey.
Proof. solve_decision. Defined.
#[export] Instance Table_eq_dec : EqDecision Table.
Proof. solve_decision. Defined.

(** *** What DDL does to a schema, by the documentation of gorm and PostgreSQL *)

Module Ddl.

Definition declared (f : Field) : Column := mkColumn f.(go_type) f.(primary_key) f.(not_null) f.(default_value).

(** AutoMigrate creates the table, missing columns and missing indexes, and deletes nothing. *)
Definition add_column (t : gmap string Column) (f : Field) : gmap string Column :=
  match t !! f.(column) with Some _ => t | None => <[f.(column) := declared f]> t end.
Definition index_name (table : string) (f : Field) : option string :=
  match f.(index_tag) with
  | None => None
  | Some (TagNamedIndex n) => Some n
  | Some _ => Some ("idx_" +:+ table +:+ "_" +:+ f.(column))
  end.
(** The indexes a struct declares: fields with the same name make one index. *)
Definition declare_index (table : string) (m : gmap string Index) (f : Field) : gmap string Index :=
  match index_name table f with
  | None => m
  | Some n =>
      let columns := match m !! n with Some i => i.(idx_columns) | None => [] end in
      <[n := mkIndex (bool_decide (f.(index_tag) = Some TagUniqueIndex)) (columns ++ [f.(column)])]> m
  end.
Definition declared_indexes (s : Struct) : gmap string Index := foldl (declare_index s.(table_name)) ∅ s.(fields).
Definition auto_migrate (s : Struct) (d : Schema) : Schema :=
  let t := default no_table (d !! s.(table_name)) in
  <[s.(table_name) := mkTable (foldl add_column t.(columns) s.(fields)) (t.(indexes) ∪ declared_indexes s) t.(constraints)]> d.
(** A column that exists has the type the struct gives it. *)
Definition agrees (t : Table) (f : Field) : bool :=
  match t.(columns) !! f.(column) with Some c => bool_decide (c.(col_type) = f.(go_type)) | None => true end.
Definition compatible (s : Struct) (d : Schema) : bool := forallb (agrees (default no_table (d !! s.(table_name)))) s.(fields).

(** DROP TABLE ... CASCADE also drops the constraints that refer to the table. *)
Definition drop_table (n : string) (d : Schema) : Schema :=
  (fun t => mkTable t.(columns) t.(indexes) (filter (fun kv => kv.2.(fk_table) <> n) t.(constraints))) <$> delete n d.
Definition on_table (f : Table -> Table) (n : string) (d : Schema) : Schema := alter f n d.
(** DROP COLUMN drops the indexes and the constraints of the table that involve the column. *)
Definition drop_column (n c : string) (d : Schema) : Schema :=
  on_table (fun t => mkTable (delete c t.(columns)) (filter (fun kv => c ∉ kv.2.(idx_columns)) t.(indexes))
                       (filter (fun kv => kv.2.(fk_column) <> c) t.(constraints))) n d.
Definition drop_index (n i : string) (d : Schema) : Schema :=
  on_table (fun t => mkTable t.(columns) (delete i t.(indexes)) t.(constraints)) n d.
Definition drop_constraint (n k : string) (d : Schema) : Schema :=
  on_table (fun t => mkTable t.(columns) t.(indexes) (delete k t.(constraints))) n d.
Definition add_foreign_key (n k : string) (fk : ForeignKey) (d : Schema) : Schema :=
  on_table (fun t => mkTable t.(columns) t.(indexes) (<[k := fk]> t.(constraints))) n d.
Definition has_constraint (n k : string) (d : Schema) : bool :=
  match d !! n with Some t => bool_decide (is_Some (t.(constraints) !! k)) | None => false end.

End Ddl.

(** ** The statements of migration_structs.go *)

Inductive Statement :=
| DropConstraintIfExists (table name : string)
| AddForeignKey (table name field ref_table ref_column action : string).
Definition sql (s : Statement) : string :=
  match s with
  | DropConstraintIfExists t n => Sprintf "ALTER TABLE %s DROP CONSTRAINT IF EXISTS %s;" [GStr t; GStr n]
  | AddForeignKey t n f d c a =>
      Sprintf "ALTER TABLE %s ADD CONSTRAINT %s FOREIGN KEY (%s) REFERENCES %s %s;"
        [GStr t; GStr n; GStr f; GStr (d +:+ "(" +:+ c +:+ ")"); GStr a]
  end.

Class Migrator := {
  DB : Type;
  schema : DB -> Schema;
  (** the ids in the table of gormigrate *)
  recorded : DB -> list string;
  AutoMigrate : Struct -> DB -> DB * option string;
  DropTable : Struct -> DB -> DB * option string;
  DropColumn : Struct -> string -> DB -> DB * option string;
  DropIndex : Struct -> string -> DB -> DB * option string;
  DropConstraint : Struct -> string -> DB -> DB * option string;
  Exec : Statement -> DB -> DB * option string;
}.

(** The effect of a call that reports no error, and what fails. *)
Class MigratorLaws `{Migrator} : Prop := {
  AutoMigrate_ok s db db' : AutoMigrate s db = (db', None) -> Ddl.compatible s (schema db) = true ->
    schema db' = Ddl.auto_migrate s (schema db) /\ recorded db' = recorded db;
  DropTable_ok s db db' : DropTable s db = (db', None) ->
    schema db' = Ddl.drop_table s.(table_name) (schema db) /\ recorded db' = recorded db;
  DropColumn_ok s c db db' : DropColumn s c db = (db', None) ->
    schema db' = Ddl.drop_column s.(table_name) c (schema db) /\ recorded db' = recorded db;
  DropIndex_ok s i db db' : DropIndex s i db = (db', None) ->
    schema db' = Ddl.drop_index s.(table_name) i (schema db) /\ recorded db' = recorded db;
  DropConstraint_ok s k db db' : DropConstraint s k db = (db', None) ->
    schema db' = Ddl.drop_constraint s.(table_name) k (schema db) /\ recorded db' = recorded db;
  (** ERROR: constraint ... does not exist *)
  DropConstraint_missing s k db : Ddl.has_constraint s.(table_name) k (schema db) = false ->
    is_Some (DropConstraint s k db).2;
  Exec_drop t k db db' e : Exec (DropConstraintIfExists t k) db = (db', e) ->
    schema db' = match e with Some _ => schema db | None => Ddl.drop_constraint t k (schema db) end /\ recorded db' = recorded db;
  Exec_add t k f d c a db db' : Exec (AddForeignKey t k f d c a) db = (db', None) ->
    schema db' = Ddl.add_foreign_key t k (mkForeignKey f d c a) (schema db) /\ recorded db' = recorded db;
}.

Section Migrations.
Context `{mg : Migrator}.

(** One call after another, up to the first error. *)
Definition and_then (r : DB * option string) (next : DB -> DB * option string) : DB * option string :=
  match r with (db, None) => next db | (db, Some err) => (db, Some err) end.

Record fkMigration := mkFk { fk_Model : string; Dest : string; fk_Field : string; Reference : string * string; Constraint : string }.
Definition fkName (model dest : string) : string := Sprintf "fk_%s_%s" [GStr model; GStr dest].

(** The error of the first statement is not looked at. *)
Fixpoint CreateFK (fks : list fkMigration) (g2 : DB) : DB * option string :=
  match fks with
  | [] => (g2, None)
  | fk :: fks =>
      let name := fkName fk.(fk_Model) fk.(Dest) in
      let '(g2, _) := Exec (DropConstraintIfExists fk.(fk_Model) name) g2 in
      and_then (Exec (AddForeignKey fk.(fk_Model) name fk.(fk_Field) fk.(Reference).1 fk.(Reference).2 fk.(Constraint)) g2)
        (CreateFK fks)
  end.

Record Migration := mkMigration {
  ID_ : string;
  Migrate_ : DB -> DB * option string;
  Rollback_ : DB -> DB * option string;
}.

(** Model, which the structs embed. *)
Definition Model : list Field :=
  [mkField "id" GoString true false None None; plain "created_at" GoTime; plain "updated_at" GoTime; indexed "deleted_at" GoDeletedAt].

Definition Dinosaur : Struct := mkStruct "dinosaurs" (Model ++ [indexed "species" GoString]).
Definition addDinosaurs : Migration := mkMigration "201911212019" (AutoMigrate Dinosaur) (DropTable Dinosaur).

Definition Event_ : Struct :=
  mkStruct "events" (Model ++ [indexed "source" GoString; indexed "source_id" GoString; plain "event_type" GoString;
                               indexed "reconciled_date" GoTimePtr]).
Definition addEvents : Migration := mkMigration "202309020925" (AutoMigrate Event_) (DropTable Event_).

Definition Resource_ : Struct :=
  mkStruct "resources" ([unique "name" GoString] ++ Model ++
    [indexed "source" GoString; indexed "consumer_name" GoString; mkField "version" GoInt false true None None;
     indexed "type" GoString; plain "payload" GoJSON; plain "status" GoJSON]).
Definition addResources : Migration := mkMigration "202311151850" (AutoMigrate Resource_) (DropTable Resource_).

Definition Consumer_ : Struct :=
  mkStruct "consumers" (Model ++ [mkField "name" GoString false true (Some TagUniqueIndex) None; plain "labels" GoJSON]).
Definition addConsumers : Migration :=
  mkMigration "202311151856"
    (fun tx => and_then (AutoMigrate Consumer_ tx)
       (CreateFK [mkFk "resources" "consumers" "consumer_name" ("consumers", "name") "ON DELETE RESTRICT ON UPDATE RESTRICT"]))
    (DropTable Consumer_).

Definition dropDinosaurs : Migration := mkMigration "202311151859" (DropTable Dinosaur) (AutoMigrate Dinosaur).

Definition ServerInstance_ : Struct := mkStruct "server_instances" Model.
Definition addServerInstances : Migration :=
  mkMigration "202401151014" (AutoMigrate ServerInstance_) (DropTable ServerInstance_).

Definition StatusEvent_ : Struct :=
  mkStruct "status_events" (Model ++
    [indexed "resource_id" GoString; plain "resource_source" GoString; plain "resource_type" GoString; plain "payload" GoJSON;
     plain "status" GoJSON; plain "status_event_type" GoString; indexed "reconciled_date" GoTimePtr]).
Definition addStatusEvents : Migration := mkMigration "202406241426" (AutoMigrate StatusEvent_) (DropTable StatusEvent_).

Definition EventInstance_ : Struct :=
  mkStruct "event_instances" [indexed "event_id" GoString; indexed "instance_id" GoString].
Definition addEventInstances : Migration := mkMigration "202406241506" (AutoMigrate EventInstance_) (DropTable EventInstance_).

Definition ServerInstance_heartbeat : Struct :=
  mkStruct "server_instances" [plain "last_heartbeat" GoTime; mkField "ready" GoBool false false None (Some "false")].
Definition addLastHeartBeatAndReadyColumnInServerInstancesTable : Migration :=
  mkMigration "202412171429" (AutoMigrate ServerInstance_heartbeat)
    (fun tx => and_then (DropColumn ServerInstance_heartbeat "ready" tx) (DropColumn ServerInstance_heartbeat "last_heartbeat")).

Definition EventInstance_altered : Struct :=
  mkStruct "event_instances"
    [mkField "event_id" GoString false false (Some (TagNamedIndex "idx_status_event_instance")) None;
     mkField "instance_id" GoString false false (Some (TagNamedIndex "idx_status_event_instance")) None;
     indexed "spec_event_id" GoString].
Definition alterEventInstances : Migration :=
  mkMigration "202412181141"
    (fun tx => and_then (AutoMigrate EventInstance_altered tx)
       (CreateFK [mkFk "event_instances" "server_instances" "instance_id" ("server_instances", "id") "ON DELETE CASCADE";
                  mkFk "event_instances" "status_events" "event_id" ("status_events", "id") "ON DELETE CASCADE";
                  mkFk "event_instances" "events" "spec_event_id" ("events", "id") "ON DELETE CASCADE"]))
    (fun tx => and_then (DropColumn EventInstance_altered "spec_event_id" tx) (fun tx =>
               and_then (DropIndex EventInstance_altered "idx_status_event_instance" tx) (fun tx =>
               and_then (DropConstraint EventInstance_altered (fkName "event_instances" "server_instances") tx) (fun tx =>
               and_then (DropConstraint EventInstance_altered (fkName "event_instances" "status_events") tx)
               (DropConstraint EventInstance_altered (fkName "event_instances" "events")))))).

Definition MigrationList : list Migration :=
  [addDinosaurs; addEvents; addResources; addConsumers; dropDinosaurs; addServerInstances; addStatusEvents; addEventInstances;
   addLastHeartBeatAndReadyColumnInServerInstancesTable; alterEventInstances].

Definition CleanUpDirtyData (db : DB) : DB * option string := (db, None).

(** ** gormigrate *)

(** The migrations that have not run are run in the order of the list, and recorded. *)
Inductive runs : list Migration -> DB -> DB -> Prop :=
| runs_nil db : runs [] db db
| runs_skip m ms db db' : m.(ID_) ∈ recorded db -> runs ms db db' -> runs (m :: ms) db db'
| runs_do m ms db db1 db2 db' :
    m.(ID_) ∉ recorded db -> m.(Migrate_) db = (db1, None) ->
    schema db2 = schema db1 -> recorded db2 = recorded db1 ++ [m.(ID_)] -> runs ms db2 db' -> runs (m :: ms) db db'.

End Migrations.

Class Gormigrate `{Migrator} := {
  gm_Migrate : list Migration -> DB -> DB * option string;
  gm_MigrateTo : string -> list Migration -> DB -> DB * option string;
}.
(** The part of a list up to and including an id. *)
Fixpoint up_to `{Migrator} (id : string) (ms : list Migration) : list Migration :=
  match ms with [] => [] | m :: ms => m :: (if decide (m.(ID_) = id) then [] else up_to id ms) end.
(** The table of ids is made first where it is missing, which is [db0]. *)
Class GormigrateLaws `{Gormigrate} : Prop := {
  gm_Migrate_ok ms db db' : gm_Migrate ms db = (db', None) ->
    exists db0, schema db0 = schema db /\ recorded db0 = recorded db /\ runs ms db0 db';
  gm_MigrateTo_ok id ms db db' : gm_MigrateTo id ms db = (db', None) ->
    exists db0, schema db0 = schema db /\ recorded db0 = recorded db /\ runs (up_to id ms) db0 db';
}.

(** ** pkg/db/migrations.go *)

Section Run.
Context `{gmg : Gormigrate}.
Definition Migrate (g2 : DB) : DB * option string :=
  and_then (CleanUpDirtyData g2) (gm_Migrate MigrationList).
(** [None]: the process ends. *)
Definition MigrateTo (migrationID : string) (g2 : DB) : option DB :=
  match gm_MigrateTo migrationID MigrationList g2 with (db, None) => Some db | (_, Some _) => None end.
End Run.
