(* ===== verification/MigrationFacts.v ===== *)
(** * What the migrations promise

    A reference instance of [Migrator] that executes DDL on the schema itself; every other
    instance that satisfies the laws is simulated by it, so that what a migration leaves can
    be computed. *)

From Stdlib Require Import Sorted.
From S2P Require Import Prelude GoLib Migrations.

(** ** The reference *)

Definition ddl (r : Schema) (db : Schema * list string) : (Schema * list string) * option string := ((r, db.2), None).

#[export] Instance reference : Migrator := {|
  DB := Schema * list string;
  schema := fst;
  recorded := snd;
  AutoMigrate s db := if Ddl.compatible s db.1 then ddl (Ddl.auto_migrate s db.1) db else (db, Some "column cannot be cast");
  DropTable s db := ddl (Ddl.drop_table s.(table_name) db.1) db;
  DropColumn s c db := ddl (Ddl.drop_column s.(table_name) c db.1) db;
  DropIndex s i db := ddl (Ddl.drop_index s.(table_name) i db.1) db;
  DropConstraint s k db :=
    if Ddl.has_constraint s.(table_name) k db.1 then ddl (Ddl.drop_constraint s.(table_name) k db.1) db
    else (db, Some "constraint does not exist");
  Exec st db :=
    match st with
    | DropConstraintIfExists t k => ddl (Ddl.drop_constraint t k db.1) db
    | AddForeignKey t k f d c a => ddl (Ddl.add_foreign_key t k (mkForeignKey f d c a) db.1) db
    end;
|}.

#[export] Instance reference_laws : MigratorLaws (H := reference).
Proof.
  split; cbn; unfold ddl; intros.
  - destruct (Ddl.compatible _ _); [|done]. by simplify_eq.
  - by simplify_eq.
  - by simplify_eq.
  - by simplify_eq.
  - destruct (Ddl.has_constraint _ _ _); by simplify_eq.
  - rewrite H. cbn. eauto.
  - by simplify_eq.
  - by simplify_eq.
Qed.

(** One migration of the reference, recorded. *)
Definition migrate_one (db : Schema * list string) (m : Migration (mg := reference)) : Schema * list string :=
  let db' := (m.(Migrate_) db).1 in (db'.1, db'.2 ++ [m.(ID_)]).
(** The schema of version n of the service: after the first n migrations. *)
Definition version (n : nat) : Schema * list string := foldl migrate_one (∅, []) (take n MigrationList).

(** ** Simulation *)

Section Simulation.
Context `{ml : MigratorLaws}.

Definition abs (db : DB) : Schema * list string := (schema db, recorded db).

Definition simulates (f : DB -> DB * option string) (g : Schema * list string -> (Schema * list string) * option string) : Prop :=
  forall db db' s', f db = (db', None) -> g (abs db) = (s', None) -> abs db' = s'.

Lemma sim_and_then f f' g g' :
  simulates f g -> simulates f' g' -> simulates (fun db => and_then (f db) f') (fun s => and_then (mg := reference) (g s) g').
Proof.
  intros Hf Hg db db' s'. unfold and_then. destruct (f db) as [db1 [?|]] eqn:E; [done|].
  destruct (g (abs db)) as [s1 [?|]] eqn:E'; [done|]. specialize (Hf _ _ _ E E'). subst s1. apply Hg.
Qed.

Ltac by_law law := intros db db' s' Hf Hg; apply law in Hf as [Hs Hr]; cbn in Hg; unfold ddl in Hg; simplify_eq;
  unfold abs; by rewrite Hs, Hr.

Lemma sim_AutoMigrate s : simulates (AutoMigrate s) (AutoMigrate (Migrator := reference) s).
Proof.
  intros db db' s' Hf Hg. cbn in Hg. destruct (Ddl.compatible s (schema db)) eqn:Hc; [|done].
  apply AutoMigrate_ok in Hf as [Hs Hr]; [|exact Hc]. unfold ddl in Hg. simplify_eq. unfold abs. by rewrite Hs, Hr.
Qed.
Lemma sim_DropTable s : simulates (DropTable s) (DropTable (Migrator := reference) s).
Proof. by_law DropTable_ok. Qed.
Lemma sim_DropColumn s c : simulates (DropColumn s c) (DropColumn (Migrator := reference) s c).
Proof. by_law DropColumn_ok. Qed.
Lemma sim_DropIndex s c : simulates (DropIndex s c) (DropIndex (Migrator := reference) s c).
Proof. by_law DropIndex_ok. Qed.
Lemma sim_DropConstraint s k : simulates (DropConstraint s k) (DropConstraint (Migrator := reference) s k).
Proof.
  intros db db' s' Hf Hg. cbn in Hg. destruct (Ddl.has_constraint _ _ _); [|done].
  apply DropConstraint_ok in Hf as [Hs Hr]. unfold ddl in Hg. simplify_eq. unfold abs. by rewrite Hs, Hr.
Qed.

(** Adding a constraint again replaces it, so whether the old one could be dropped does not
    matter. *)
Lemma add_after_drop t k fk d : Ddl.add_foreign_key t k fk (Ddl.drop_constraint t k d) = Ddl.add_foreign_key t k fk d.
Proof.
  unfold Ddl.add_foreign_key, Ddl.drop_constraint, Ddl.on_table. apply map_eq. intros i.
  destruct (decide (i = t)) as [->|]; [|by rewrite !lookup_alter_ne].
  rewrite !lookup_alter_eq. destruct (d !! t); [|done]. cbn. by rewrite insert_delete_eq.
Qed.

Lemma sim_CreateFK fks : simulates (CreateFK fks) (CreateFK (mg := reference) fks).
Proof.
  induction fks as [|fk fks IH]; intros db db' s'; cbn [CreateFK].
  { intros [= <-] [= <-]. done. }
  destruct (Exec (DropConstraintIfExists _ _) db) as [db1 e] eqn:E1. apply Exec_drop in E1 as [Hs1 Hr1].
  unfold and_then at 1. destruct (Exec (AddForeignKey _ _ _ _ _ _) db1) as [db2 [?|]] eqn:E2; [done|].
  apply Exec_add in E2 as [Hs2 Hr2]. cbn. unfold ddl. cbn. intros Hf Hg. eapply IH; [exact Hf|].
  rewrite <- Hg. f_equal. unfold abs. rewrite Hs2, Hr2, Hr1. f_equal. rewrite add_after_drop, Hs1.
  destruct e; [done|by rewrite add_after_drop].
Qed.

Definition sim_migration (m : Migration) (m' : Migration (mg := reference)) : Prop :=
  m.(ID_) = m'.(ID_) /\ simulates m.(Migrate_) m'.(Migrate_) /\ simulates m.(Rollback_) m'.(Rollback_).

Ltac simulate :=
  repeat first [apply sim_AutoMigrate|apply sim_DropTable|apply sim_DropColumn|apply sim_DropIndex|apply sim_DropConstraint
               |apply sim_CreateFK|apply sim_and_then].

Lemma sim_MigrationList : Forall2 sim_migration MigrationList (MigrationList (mg := reference)).
Proof.
  repeat (apply Forall2_cons; split); try apply Forall2_nil; try done; (split; [done|split]);
  lazy beta iota zeta delta [Migrate_ Rollback_ addDinosaurs addEvents addResources addConsumers dropDinosaurs addServerInstances
    addStatusEvents addEventInstances addLastHeartBeatAndReadyColumnInServerInstancesTable alterEventInstances]; simulate.
Qed.

End Simulation.

(** ** Versions *)

(** The reference runs every migration without an error. *)
Lemma migrate_one_ok n m :
  MigrationList (mg := reference) !! n = Some m -> m.(Migrate_) (version n) = ((m.(Migrate_) (version n)).1, None).
Proof.
  intros Hm. rewrite (surjective_pairing (m.(Migrate_) (version n))) at 1. f_equal.
  do 10 (destruct n as [|n]; [cbn in Hm; injection Hm as <-; vm_compute; reflexivity|]). done.
Qed.

Lemma version_S n m :
  MigrationList (mg := reference) !! n = Some m -> version (S n) = migrate_one (version n) m.
Proof. intros Hm. unfold version. by rewrite (take_S_r _ _ _ Hm), foldl_app. Qed.

Lemma version_recorded n : (version n).2 = ID_ <$> take n (MigrationList (mg := reference)).
Proof.
  assert (Hall : forall k, (k <= 10)%nat -> (version k).2 = ID_ <$> take k (MigrationList (mg := reference))).
  { intros k Hk. do 11 (destruct k as [|k]; [vm_compute; reflexivity|]). lia. }
  destruct (decide (n <= 10)%nat) as [Hn|Hn]; [by apply Hall|].
  unfold version. rewrite (take_ge _ n) by (cbn; lia). change (version 10).2 with (foldl migrate_one (∅, []) (take 10 MigrationList)).2.
  specialize (Hall 10%nat ltac:(lia)). unfold version in Hall. rewrite (take_ge _ 10) in Hall by (cbn; lia). exact Hall.
Qed.

Lemma ids_ascending : StronglySorted (fun a b => String.ltb a b = true) (ID_ <$> MigrationList (mg := reference)).
Proof. repeat constructor. Qed.
Lemma ids_distinct : NoDup (ID_ <$> MigrationList (mg := reference)).
Proof. apply (bool_decide_unpack _). vm_compute. exact I. Qed.

(** ** What the service needs *)

(** The columns of the rows of pkg/api, by the fields of the structs. *)
Definition Meta_columns : list (string * GoType) :=
  [("id", GoString); ("created_at", GoTime); ("updated_at", GoTime); ("deleted_at", GoDeletedAt)].
Definition Resource_columns : list (string * GoType) :=
  Meta_columns ++ [("version", GoInt32); ("source", GoString); ("consumer_name", GoString); ("type", GoString);
                   ("payload", GoJSON); ("status", GoJSON); ("name", GoString)].
Definition Event_columns : list (string * GoType) :=
  Meta_columns ++ [("source", GoString); ("source_id", GoString); ("event_type", GoString); ("reconciled_date", GoTimePtr)].
Definition StatusEvent_columns : list (string * GoType) :=
  Meta_columns ++ [("resource_id", GoString); ("resource_source", GoString); ("resource_type", GoString); ("payload", GoJSON);
                   ("status", GoJSON); ("status_event_type", GoString); ("reconciled_date", GoTimePtr)].
Definition Consumer_columns : list (string * GoType) := Meta_columns ++ [("name", GoString); ("labels", GoJSON)].
Definition ServerInstance_columns : list (string * GoType) := Meta_columns ++ [("last_heartbeat", GoTime); ("ready", GoBool)].
Definition EventInstance_columns : list (string * GoType) := [("event_id", GoString); ("instance_id", GoString)].
Definition api_tables : list (string * list (string * GoType)) :=
  [("resources", Resource_columns); ("events", Event_columns); ("status_events", StatusEvent_columns);
   ("consumers", Consumer_columns); ("server_instances", ServerInstance_columns); ("event_instances", EventInstance_columns)].

(** A column made for a field of one type keeps every value of a field of another: the same
    type, or an int column (bigint) for an int32 field. *)
Definition holds (column field : GoType) : bool :=
  bool_decide (column = field) || match column, field with GoInt, GoInt32 => true | _, _ => false end.
Definition has_column (t : Table) (c : string * GoType) : bool :=
  match t.(columns) !! c.1 with Some col => holds col.(col_type) c.2 | None => false end.
(** The tables are those of the rows, with every column they need and no required one they
    do not fill. *)
Definition fits (d : Schema) : bool :=
  bool_decide (dom d = list_to_set api_tables.*1) &&
  forallb (fun tc => match d !! tc.1 with
                     | Some t => forallb (has_column t) tc.2 &&
                                 bool_decide (map_Forall (fun c col => col.(col_not_null) = true -> c ∈ tc.2.*1) t.(columns))
                     | None => false
                     end) api_tables.

(** A constraint and an index of a table. *)
Definition fk_on (d : Schema) (table name : string) : option ForeignKey := t ← d !! table; t.(constraints) !! name.
Definition index_on (d : Schema) (table name : string) : option Index := t ← d !! table; t.(indexes) !! name.

Section Versions.
Context `{ml : MigratorLaws} `{!Gormigrate} `{!GormigrateLaws}.

(** A database that the first n migrations have brought about. *)
Definition at_version (n : nat) (db : DB) : Prop := schema db = (version n).1 /\ recorded db = (version n).2.

Lemma at_version_abs n db : at_version n db <-> abs db = version n.
Proof. unfold at_version, abs. destruct (version n) as [a b]. cbn. split; [by intros [-> ->]|by intros [= -> ->]]. Qed.

Lemma MigrationList_lookup n m :
  MigrationList !! n = Some m -> exists m', MigrationList (mg := reference) !! n = Some m' /\ sim_migration m m'.
Proof. intros Hm. by eapply Forall2_lookup_l in Hm; [|apply sim_MigrationList]. Qed.

Lemma ids_agree : ID_ <$> MigrationList = ID_ <$> MigrationList (mg := reference).
Proof. done. Qed.

Lemma recorded_iff k n db m :
  at_version k db -> MigrationList !! n = Some m -> (m.(ID_) ∈ recorded db <-> (n < k)%nat).
Proof.
  intros [_ ->] Hm. rewrite version_recorded, fmap_take.
  assert (Hid : (ID_ <$> MigrationList (mg := reference)) !! n = Some m.(ID_)).
  { rewrite <- ids_agree, list_lookup_fmap, Hm. done. }
  split.
  - intros (j & Hj)%list_elem_of_lookup. apply lookup_take_Some in Hj as [Hj Hlt].
    by rewrite (NoDup_lookup _ _ _ _ ids_distinct Hid Hj).
  - intros Hlt. apply list_elem_of_lookup. exists n. by rewrite lookup_take_lt.
Qed.

Lemma migrate_step n db db1 db2 m :
  at_version n db -> MigrationList !! n = Some m -> m.(Migrate_) db = (db1, None) ->
  schema db2 = schema db1 -> recorded db2 = recorded db1 ++ [m.(ID_)] -> at_version (S n) db2.
Proof.
  intros Hv Hm Hrun Hs Hr. destruct (MigrationList_lookup _ _ Hm) as (m' & Hm' & Hid & Hsim & _).
  apply at_version_abs in Hv. pose proof (migrate_one_ok _ _ Hm') as Hok. rewrite <- Hv in Hok.
  specialize (Hsim _ _ _ Hrun Hok). apply at_version_abs. rewrite (version_S _ _ Hm'). unfold migrate_one. rewrite <- Hv, <- Hsim.
  unfold abs. cbn. by rewrite Hs, Hr, Hid.
Qed.

(** Running the migrations from j up to n on a database at a version of at least j. *)
Lemma runs_version n j k db db' :
  (j <= k)%nat -> (n <= length MigrationList)%nat -> at_version k db -> runs (drop j (take n MigrationList)) db db' ->
  at_version (k `max` n) db'.
Proof.
  intros Hjk Hn Hv Hruns. remember (drop j (take n MigrationList)) as l eqn:El.
  revert j k Hjk Hv El. induction Hruns as [db|m ms db db' Hin _ IH|m ms db db1 db2 db' Hni Hrun Hs Hr _ IH]; intros j k Hjk Hv El.
  - assert (n <= j)%nat. { apply (f_equal length) in El. rewrite length_drop, length_take in El. cbn in El, Hn. lia. }
    by rewrite Nat.max_l by lia.
  - assert (Hm : take n MigrationList !! j = Some m) by (by rewrite <- (Nat.add_0_r j), <- lookup_drop, <- El).
    apply lookup_take_Some in Hm as [Hm Hlt]. apply (recorded_iff k j db m Hv Hm) in Hin.
    apply (IH (S j)); [lia|done|]. rewrite <- Nat.add_1_r, <- drop_drop, <- El. done.
  - assert (Hm : take n MigrationList !! j = Some m) by (by rewrite <- (Nat.add_0_r j), <- lookup_drop, <- El).
    apply lookup_take_Some in Hm as [Hm Hlt].
    assert (~ (j < k)%nat) by (by intros ?%(recorded_iff k j db m Hv Hm)). assert (j = k) as <- by lia.
    replace (j `max` n)%nat with (S j `max` n)%nat by lia.
    apply (IH (S j)); [lia|by eapply migrate_step|]. rewrite <- Nat.add_1_r, <- drop_drop, <- El. done.
Qed.
End Versions.

(** ** Theorems *)

Section Theorems.
Context `{ml : MigratorLaws} `{!Gormigrate} `{!GormigrateLaws}.

Lemma Migrate_version k db db' : at_version k db -> Migrate db = (db', None) -> at_version (k `max` 10) db'.
Proof.
  intros Hv Hm. unfold Migrate, CleanUpDirtyData, and_then in Hm. apply gm_Migrate_ok in Hm as (db0 & Hs & Hr & Hruns).
  apply (runs_version 10 0 k db0); [lia|done|by destruct Hv as [Hv1 Hv2]; split; congruence|exact Hruns].
Qed.

Lemma version_10_fits : fits (version 10).1 = true.
Proof. vm_compute. reflexivity. Qed.

(** C25: Migrating brings every database of an earlier version of the service to the same schema. Whatever gorm, PostgreSQL and
    gormigrate do within their documentation, if a database is at any of the eleven versions (an empty one is at the
    first) and Migrate reports no error, then all ten migrations are recorded, the tables are exactly the six the rows
    of the service live in, each with a column for every field that holds its values and no required column no field
    fills, names of consumers and resources are unique, a consumer that resources name cannot be deleted or renamed,
    and the record that an instance has handled an event goes with the event and with the instance; migrating again
    leaves the schema alone. *)
Theorem migrated_schema k db db' :
  (k <= 10)%nat -> at_version k db -> Migrate db = (db', None) ->
  let d := schema db' in
  recorded db' = ID_ <$> MigrationList /\ StronglySorted (fun a b => String.ltb a b = true) (recorded db') /\
  d = (version 10).1 /\ fits d = true /\
  index_on d "consumers" "idx_consumers_name" = Some (mkIndex true ["name"]) /\
  index_on d "resources" "idx_resources_name" = Some (mkIndex true ["name"]) /\
  fk_on d "resources" "fk_resources_consumers" =
    Some (mkForeignKey "consumer_name" "consumers" "name" "ON DELETE RESTRICT ON UPDATE RESTRICT") /\
  fk_on d "event_instances" "fk_event_instances_server_instances" =
    Some (mkForeignKey "instance_id" "server_instances" "id" "ON DELETE CASCADE") /\
  fk_on d "event_instances" "fk_event_instances_status_events" =
    Some (mkForeignKey "event_id" "status_events" "id" "ON DELETE CASCADE") /\
  (forall db'', Migrate db' = (db'', None) -> schema db'' = d).
Proof.
  intros Hk Hv Hm. pose proof (Migrate_version _ _ _ Hv Hm) as Hv'. rewrite Nat.max_r in Hv' by done.
  cbv zeta. assert (Hs : schema db' = (version 10).1) by apply Hv'. assert (Hr : recorded db' = ID_ <$> MigrationList).
  { destruct Hv' as [_ ->]. rewrite version_recorded. done. }
  rewrite Hr, Hs. split; [done|]. split; [apply ids_ascending|]. split; [reflexivity|]. split; [apply version_10_fits|].
  split_and!; try (vm_compute; reflexivity).
  - intros db'' Hm'. destruct (Migrate_version _ _ _ Hv' Hm') as [-> _]. done.
Qed.

(** MigrateTo stops at the migration it is given, and never goes back. *)
Theorem MigrateTo_version i m k db db' :
  MigrationList !! i = Some m -> at_version k db -> MigrateTo m.(ID_) db = Some db' -> at_version (k `max` S i) db'.
Proof.
  intros Hi Hv Hm. unfold MigrateTo in Hm. destruct (gm_MigrateTo _ _ _) as [db1 [?|]] eqn:E; [done|]. injection Hm as ->.
  apply gm_MigrateTo_ok in E as (db0 & Hs & Hr & Hruns).
  assert (Hup : up_to m.(ID_) MigrationList = take (S i) MigrationList).
  { do 10 (destruct i as [|i]; [cbn in Hi; injection Hi as <-; reflexivity|]). done. }
  rewrite Hup in Hruns. apply lookup_lt_Some in Hi.
  apply (runs_version (S i) 0 k db0); [lia|cbn in *; lia|by destruct Hv as [Hv1 Hv2]; split; congruence|exact Hruns].
Qed.

(** The rollback of a migration gives back the schema before it, for all but the last. *)
Theorem rollback_restores i m db db1 db2 :
  (i < 9)%nat -> MigrationList !! i = Some m -> at_version i db ->
  m.(Migrate_) db = (db1, None) -> m.(Rollback_) db1 = (db2, None) -> schema db2 = schema db.
Proof.
  intros Hi Hm Hv Hrun Hback. destruct (MigrationList_lookup _ _ Hm) as (m' & Hm' & _ & Hsim & Hsim').
  apply at_version_abs in Hv. pose proof (migrate_one_ok _ _ Hm') as Hok. rewrite <- Hv in Hok.
  specialize (Hsim _ _ _ Hrun Hok). rewrite Hv in Hsim.
  assert (Hb : m'.(Rollback_) (m'.(Migrate_) (version i)).1 = (version i, None)).
  { clear -Hm' Hi. apply (bool_decide_unpack _).
    do 9 (destruct i as [|i]; [cbn in Hm'; injection Hm' as <-; vm_compute; exact I|]). lia. }
  rewrite <- Hsim in Hb. specialize (Hsim' _ _ _ Hback Hb). unfold abs in *. congruence.
Qed.

(** The rollback of the last migration always fails: dropping the column drops the constraint
    on it, which the last statement then does not find. *)
Theorem last_rollback_fails db : at_version 10 db -> is_Some (alterEventInstances.(Rollback_) db).2.
Proof.
  intros [Hv _]. cbn [Rollback_ alterEventInstances]. unfold and_then.
  destruct (DropColumn _ _ db) as [db1 [?|]] eqn:E1; [by eexists|].
  destruct (DropIndex _ _ db1) as [db2 [?|]] eqn:E2; [by eexists|].
  destruct (DropConstraint _ _ db2) as [db3 [?|]] eqn:E3; [by eexists|].
  destruct (DropConstraint _ _ db3) as [db4 [?|]] eqn:E4; [by eexists|].
  apply DropConstraint_missing. apply DropColumn_ok in E1 as [E1 _]. apply DropIndex_ok in E2 as [E2 _].
  apply DropConstraint_ok in E3 as [E3 _]. apply DropConstraint_ok in E4 as [E4 _].
  rewrite E4, E3, E2, E1, Hv. vm_compute. reflexivity.
Qed.
End Theorems.

(** ** The reference with a gormigrate of its own *)

Fixpoint run_list (ms : list (Migration (mg := reference))) (db : Schema * list string) : (Schema * list string) * option string :=
  match ms with
  | [] => (db, None)
  | m :: ms =>
      if decide (m.(ID_) ∈ db.2) then run_list ms db
      else match m.(Migrate_) db with
           | (db, None) => run_list ms (db.1, db.2 ++ [m.(ID_)])
           | (db, Some err) => (db, Some err)
           end
  end.
Lemma run_list_runs ms db db' : run_list ms db = (db', None) -> runs (mg := reference) ms db db'.
Proof.
  revert db. induction ms as [|m ms IH]; intros db; cbn [run_list]; [intros [= <-]; constructor|].
  case_decide as Hin; [intros H; apply runs_skip; auto|].
  destruct (m.(Migrate_) db) as [db1 [?|]] eqn:E; [done|]. intros H.
  eapply (runs_do (mg := reference) m ms db db1); [done|done| | |by apply IH]; done.
Qed.

#[export] Instance reference_gormigrate : Gormigrate (H := reference) := {|
  gm_Migrate := run_list;
  gm_MigrateTo id ms db :=
    if decide (id ∈ ID_ <$> ms) then run_list (up_to (H := reference) id ms) db else (db, Some "gormigrate: Tried to migrate to an ID that doesn't exist");
|}.
#[export] Instance reference_gormigrate_laws : GormigrateLaws (H := reference).
Proof.
  split; cbn; intros.
  - eexists. split_and!; [done..|]. by apply run_list_runs.
  - case_decide; [|done]. eexists. split_and!; [done..|]. by apply run_list_runs.
Qed.

Lemma at_version_reference n : at_version (H := reference) n (version n).
Proof. by split. Qed.
Lemma Migrate_reference n : (n <= 10)%nat -> (Migrate (H := reference) (version n)).2 = None.
Proof. intros Hn. do 11 (destruct n as [|n]; [vm_compute; reflexivity|]). lia. Qed.

(** A database of the version before instances had a heartbeat. *)
Lemma migrated_schema_witness :
  exists db, Migrate (H := reference) (version 8) = (db, None) /\ fits (schema db) = true.
Proof.
  exists (Migrate (H := reference) (version 8)).1.
  assert (E : Migrate (H := reference) (version 8) = ((Migrate (H := reference) (version 8)).1, None)).
  { pose proof (Migrate_reference 8 ltac:(lia)) as He. generalize dependent (Migrate (H := reference) (version 8)).
    intros [db e] He. cbn in He. by rewrite He. }
  split; [exact E|]. pose proof (at_version_reference 8) as Hv.
  generalize dependent (version 8). intros db E Hv. revert E. generalize (Migrate (H := reference) db).1. intros db' E.
  destruct (migrated_schema (H := reference) 8 db db' ltac:(lia) Hv E) as (_ & _ & _ & Hf & _). exact Hf.
Defined.
