(* ===== verification/Transactions.v ===== *)
(** * pkg/db: the transaction of a request

    transaction/transaction.go, transactions.go, context.go and transaction_middleware.go.
    The context of a request holds a pointer to its [Transaction]; what the handlers may
    change of it is the rollback flag, [txn] of the world. The sessions of the DAOs
    (db_session/default.go, New) are made from the shared connection pool and never look at
    the context's transaction, so their statements are not part of it: they are the
    statements of World.v, which take effect at once. What database/sql does for Begin and
    Commit is that of Locks.v; Rollback is the class [SqlRollback]. The connection is given:
    newTransaction's nil connection only occurs in unit tests. *)

From S2P Require Import Prelude GoLib Errors Types Gorm World Dao DaoFacts Locks.
Import api errors.

Open Scope Z_scope.

Class SqlRollback := pgRollback : nat -> nat -> PgState -> option string * PgState.
(** Whatever it reports, the transaction is over. *)
Class SqlRollbackLaws `{SqlRollback} : Prop := pgRollback_ends n tx s : (pgRollback n tx s).2 = end_tx tx s.

(** ** transaction.go *)

Record Transaction := mkTransaction {
  rollbackFlag : bool;
  tx : option nat;
  tx_id : Z;
}.

Definition defaultRollbackPolicy : bool := false.

(** The flag handed over is not used. *)
Definition Build (tx : nat) (id : Z) (_ : bool) : Transaction := mkTransaction defaultRollbackPolicy (Some tx) id.

Definition MarkedForRollback (t : Transaction) : bool := t.(rollbackFlag).
Definition SetRollbackFlag (flag : bool) (t : Transaction) : Transaction := mkTransaction flag t.(tx) t.(tx_id).

Section Ops.
Context `{env : Env} `{pgl : PgAdvisory} `{rb : SqlRollback}.
Import AdvisoryLockFactory.

(** Both end the same way: the sql transaction is forgotten whatever the driver says. *)
Definition Commit (t : Transaction) : M World (option string * Transaction) :=
  match t.(tx) with
  | None => ret (Some "db: transaction hasn't been started yet", t)
  | Some tx =>
      let! err := pg_call (fun n => pgCommit n tx) in
      ret (err, mkTransaction t.(rollbackFlag) None t.(tx_id))
  end.

Definition Rollback (t : Transaction) : M World (option string * Transaction) :=
  match t.(tx) with
  | None => ret (Some "db: transaction hasn't been started yet", t)
  | Some tx =>
      let! err := pg_call (fun n => pgRollback n tx) in
      ret (err, mkTransaction t.(rollbackFlag) None t.(tx_id))
  end.

(** ** transactions.go *)

(** The second step is select txid_current(). *)
Definition newTransaction : M World (result Transaction string) :=
  let! tx := pg_call pgBegin in
  match tx with
  | Err err => ret (Err err)
  | Ok tx =>
      let! n := step in
      match fault n with
      | Some err => ret (Err err)
      | None => ret (Ok (Build tx (pgTxid n) defaultRollbackPolicy))
      end
  end.

(** ** context.go *)

Definition NewContext : M World (result Transaction string) :=
  let! t := newTransaction in
  match t with
  | Err err => ret (Err err)
  | Ok t => modify (set_txn (Some t.(rollbackFlag))) >> ret (Ok t)
  end.

(** [t] is the transaction as it was built; its flag now is the context's. *)
Definition Resolve (t : Transaction) : M World unit :=
  let! flag := gets txn in
  match flag with
  | None => ret tt
  | Some flag =>
      let t := SetRollbackFlag flag t in
      (if MarkedForRollback t then Rollback t else Commit t) >> modify (set_txn None)
  end.

(** ** transaction_middleware.go *)

(** The deferred Resolve runs however the handler ends. [refuse] writes the answer to an
    error. *)
Definition TransactionMiddleware {A} (refuse : ServiceError -> A) (next : M World A) : M World A :=
  let! t := NewContext in
  match t with
  | Err _ => ret (refuse (GeneralError "" []))
  | Ok t =>
      let! answer := next in
      Resolve t >> ret answer
  end.

(** ** What a request leaves behind *)

Context `{pgl_laws : !PgAdvisoryLaws} `{rb_laws : !SqlRollbackLaws}.

Definition begin_tx (tx : nat) (w : World) : World :=
  set_locks (mkLockState w.(locks).(lockStore) (mkPgState w.(locks).(pg).(pgLocks) ({[tx]} ∪ w.(locks).(pg).(openTxs)))) w.

Definition end_of (tx : nat) (w : World) : World :=
  set_locks (mkLockState w.(locks).(lockStore) (end_tx tx w.(locks).(pg))) w.

(** The three ways newTransaction ends. *)
Lemma newTransaction_run w :
  let '(r, w') := newTransaction w in
  match r with
  | Ok t => exists x, t.(tx) = Some x /\ t.(rollbackFlag) = false /\
              (x ∉ w.(locks).(pg).(openTxs)) /\ w' = bump (bump (begin_tx x w))
  | Err _ => w' = bump w \/ exists x, (x ∉ w.(locks).(pg).(openTxs)) /\ w' = bump (bump (begin_tx x w))
  end.
Proof.
  unfold newTransaction, bind, pg_call, step.
  destruct (pgBegin (tick w) (pg (locks w))) as [[x|e] s] eqn:E.
  - apply pgBegin_Ok in E as [Hfresh ->]. cbn. destruct (fault (S (tick w))); cbn; eauto 10.
  - apply pgBegin_Err in E as ->. left. destruct w as [? ? ? [] ? ?]. done.
Qed.

Lemma Resolve_run t w x :
  t.(tx) = Some x -> w.(txn) <> None ->
  (Resolve t w).2 = set_txn None (bump (end_of x w)).
Proof.
  intros Htx Hw. unfold Resolve, bind, gets. destruct (txn w) as [flag|] eqn:E; [|done].
  unfold MarkedForRollback, SetRollbackFlag, Rollback, Commit. cbn [tx rollbackFlag].
  rewrite Htx. unfold bind, pg_call, modify, ret.
  destruct flag.
  - pose proof (pgRollback_ends (tick w) x (pg (locks w))) as Hr.
    destruct (pgRollback _ _ _) as [err s]. simpl in Hr. by subst.
  - pose proof (pgCommit_ends (tick w) x (pg (locks w))) as Hr.
    destruct (pgCommit _ _ _) as [err s]. simpl in Hr. by subst.
Qed.

End Ops.
