(* ===== verification/Services.v ===== *)
(** * pkg/services: the service layer

    EventService, StatusEventService, ConsumerService and ResourceService over the
    DAOs. The resource service serialises its read-modify-write operations with the
    advisory locks of the [LockFactory] interface; [defer Unlock] is the call on every
    way out of the method. *)

From S2P Require Import Prelude GoLib Errors Types Json Bundle Validation Gorm World Dao DaoFacts Locks.
Import api errors Fmt.

Open Scope Z_scope.

(** ** DAO errors as service errors *)

Definition get_error (resourceType field : string) (value : garg) (e : DBError) : ServiceError :=
  handleGetError resourceType field value
    (match e with ErrRecordNotFound => true | _ => false end) (db_message e).

(** Run a DAO call and translate its error. *)
Definition or_error {A} (f : DBError -> ServiceError) (m : M World (result A DBError)) :
  M World (result A ServiceError) :=
  let! r := m in ret (map_err f r).

(** The nil or non-nil result of a method that only reports an error. *)
Definition err_of {A E} (r : result A E) : option E := match r with Ok _ => None | Err e => Some e end.

(** ** event.go *)

Module EventService.
Section Ops.
Context `{env : Env} `{gorm : Gorm}.

Definition Get (id : string) := or_error (get_error "Event" "id" (GStr id)) (EventDao.Get id).
Definition Create (event : Event) :=
  or_error (fun e => handleCreateError "Event" (db_message e)) (EventDao.Create event).
Definition Replace (event : Event) :=
  or_error (fun e => handleUpdateError "Event" (db_message e)) (EventDao.Replace event).
Definition Delete (id : string) :=
  or_error (fun e => handleDeleteError "Event"
    (Error (GeneralError "Unable to delete event: %s" [GStr (db_message e)]))) (EventDao.Delete id).
Definition FindByIDs (ids : list string) :=
  or_error (fun e => GeneralError "Unable to get all events: %s" [GStr (db_message e)]) (EventDao.FindByIDs ids).
Definition All :=
  or_error (fun e => GeneralError "Unable to get all events: %s" [GStr (db_message e)]) EventDao.All.
Definition FindAllUnreconciledEvents :=
  or_error (fun e => GeneralError "Unable to get unreconciled events: %s" [GStr (db_message e)])
    EventDao.FindAllUnreconciledEvents.
Definition DeleteAllReconciledEvents :=
  or_error (fun e => handleDeleteError "Event"
    (Error (GeneralError "Unable to delete reconciled events: %s" [GStr (db_message e)])))
    EventDao.DeleteAllReconciledEvents.
Definition FindLatestDeleteEvent (sourceID : string) :=
  or_error (fun e => GeneralError "Unable to get latest delete event for resource %s: %s"
                       [GStr sourceID; GStr (db_message e)]) (EventDao.FindLatestDeleteEvent sourceID).
Definition ReconcileStaleDeleteEvents (threshold : Z) :=
  let! now := time_now in
  or_error (fun e => GeneralError "Unable to reconcile stale delete events: %s" [GStr (db_message e)])
    (EventDao.ReconcileStaleDeleteEvents (now - threshold)).
End Ops.
End EventService.

(** ** status_event.go *)

Module StatusEventService.
Section Ops.
Context `{env : Env} `{gorm : Gorm}.

Definition Get (id : string) := or_error (get_error "StatusEvent" "id" (GStr id)) (StatusEventDao.Get id).
Definition Create (statusEvent : StatusEvent) :=
  or_error (fun e => handleCreateError "StatusEvent" (db_message e)) (StatusEventDao.Create statusEvent).
Definition Replace (statusEvent : StatusEvent) :=
  or_error (fun e => handleUpdateError "StatusEvent" (db_message e)) (StatusEventDao.Replace statusEvent).
Definition Delete (id : string) :=
  or_error (fun e => handleDeleteError "StatusEvent"
    (Error (GeneralError "Unable to delete status event: %s" [GStr (db_message e)]))) (StatusEventDao.Delete id).
Definition FindByIDs (ids : list string) :=
  or_error (fun e => GeneralError "Unable to get all status events: %s" [GStr (db_message e)])
    (StatusEventDao.FindByIDs ids).
Definition All :=
  or_error (fun e => GeneralError "Unable to get all status events: %s" [GStr (db_message e)]) StatusEventDao.All.
Definition FindAllUnreconciledEvents :=
  or_error (fun e => GeneralError "Unable to get unreconciled status events: %s" [GStr (db_message e)])
    StatusEventDao.FindAllUnreconciledEvents.
Definition DeleteAllReconciledEvents :=
  or_error (fun e => handleDeleteError "StatusEvent"
    (Error (GeneralError "Unable to delete reconciled status events: %s" [GStr (db_message e)])))
    StatusEventDao.DeleteAllReconciledEvents.
Definition DeleteAllEvents (eventIDs : list string) :=
  or_error (fun e => handleDeleteError "StatusEvent"
    (Error (GeneralError "Unable to delete events %s: %s" [GStrs eventIDs; GStr (db_message e)])))
    (StatusEventDao.DeleteAllEvents eventIDs).
End Ops.
End StatusEventService.

(** ** consumer.go *)

Module ConsumerService.
Section Ops.
Context `{env : Env} `{gorm : Gorm} `{k8s : K8s}.

Definition Get (id : string) := or_error (get_error "Consumer" "id" (GStr id)) (ConsumerDao.Get id).

Definition Create (consumer : Consumer) : M World (result Consumer ServiceError) :=
  match (if decide (consumer.(c_Name) = "") then None else ValidateConsumer consumer) with
  | Some err => ret (Err (handleCreateError "Consumer" err))
  | None => or_error (fun e => handleCreateError "Consumer" (db_message e)) (ConsumerDao.Create consumer)
  end.

Definition Replace (consumer : Consumer) :=
  or_error (fun e => handleUpdateError "Consumer" (db_message e)) (ConsumerDao.Replace consumer).
Definition Delete (id : string) :=
  or_error (fun e => handleDeleteError "Consumer" (db_message e)) (ConsumerDao.Delete id true).
Definition FindByIDs (ids : list string) :=
  or_error (fun e => GeneralError "Unable to get all consumers: %s" [GStr (db_message e)]) (ConsumerDao.FindByIDs ids).
Definition FindByNames (names : list string) :=
  or_error (fun e => GeneralError "Unable to find consumers by names: %s" [GStr (db_message e)])
    (ConsumerDao.FindByNames names).
Definition All :=
  or_error (fun e => GeneralError "Unable to get all consumers: %s" [GStr (db_message e)]) ConsumerDao.All.
End Ops.
End ConsumerService.

(** ** resource.go *)

(** [Time.Format(time.RFC3339)] in the server's time zone. *)
Class TimeFormat := FormatRFC3339 : Time -> string.

(** The configuration of the service. *)
Class ResourceConfig := deleteEventRepublishInterval : Z.

Module ResourceService.

(** [time.Duration(seconds) * time.Second] *)
Definition NewResourceService (deleteEventRepublishIntervalSeconds : Z) : ResourceConfig :=
  Int.int64 (deleteEventRepublishIntervalSeconds * 1000000000).

Section Ops.
Context `{env : Env} `{gorm : Gorm} `{lf : LockFactory} `{k8s : K8s} `{ce : CloudEvents} `{sf : Snowflake}
        `{tf : TimeFormat} `{cfg : ResourceConfig}.

Definition syncTimestampsFromResourceMeta (resource : Resource) : Resource :=
  match jget "metadata" resource.(Payload) with
  | Some (JObj workMeta) =>
      let workMeta := oset "creationTimestamp" (JStr (FormatRFC3339 resource.(CreatedAt))) workMeta in
      let workMeta := if IsZero resource.(DeletedAt).(NTime) then workMeta
                      else oset "deletionTimestamp" (JStr (FormatRFC3339 resource.(DeletedAt).(NTime))) workMeta in
      set_Payload (jset "metadata" (JObj workMeta) resource.(Payload)) resource
  | _ => resource
  end.

Definition Get (id : string) : M World (result Resource ServiceError) :=
  let! r := or_error (get_error "Resource" "id" (GStr id)) (ResourceDao.Get id) in
  ret (match r with Ok resource => Ok (syncTimestampsFromResourceMeta resource) | Err e => Err e end).

(** [s.events.Create(ctx, &api.Event{Source: "Resources", SourceID, EventType})] *)
Definition create_event (id : string) (ty : EventType) : M World (option ServiceError) :=
  let! r := EventService.Create (new_event "Resources" id ty) in ret (err_of r).

Definition Create (resource : Resource) : M World (result Resource ServiceError) :=
  match (if decide (resource.(r_Name) = "") then None else ValidateResourceName resource) with
  | Some err => ret (Err (Validation "the name in the resource is invalid, %v" [GStr err]))
  | None =>
  match ValidateManifestBundle resource.(Payload) with
  | Some err => ret (Err (Validation "the manifest bundle in the resource is invalid, %v" [GStr err]))
  | None =>
      let! r := ResourceDao.Create resource in
      match r with
      | Err e => ret (Err (handleCreateError "Resource" (db_message e)))
      | Ok resource =>
          let! eErr := create_event resource.(ID) CreateEventType in
          ret (match eErr with
               | Some e => Err (handleCreateError "Resource" (Error e))
               | None => Ok resource
               end)
      end
  end end.

(** Take the lock, run the body, and unlock on every way out. *)
Definition with_lock {A} (id : string) (ty : LockType) (failed : ServiceError -> A) (body : M World A) : M World A :=
  let! '(lockOwnerID, err) := NewAdvisoryLock id ty in
  let! r := match err with
            | Some e => ret (failed (DatabaseAdvisoryLock e))
            | None => body
            end in
  Unlock lockOwnerID >> ret r.

Definition Update_locked (resource : Resource) : M World (result Resource ServiceError) :=
  let! r := ResourceDao.Get resource.(ID) in
  match r with
  | Err e => ret (Err (get_error "Resource" "id" (GStr resource.(ID)) e))
  | Ok found =>
      if negb (IsZero found.(DeletedAt).(NTime)) then
        ret (Err (Conflict "the resource is under deletion, id: %s" [GStr resource.(ID)]))
      else if decide (found.(Version) <> resource.(Version)) then
        ret (Err (Conflict "the resource version is not the latest, the latest version: %d" [GInt found.(Version)]))
      else if decide (resource.(Payload) = found.(Payload)) then ret (Ok found)
      else
        match ValidateManifestBundle resource.(Payload) with
        | Some err => ret (Err (Validation "the new manifest bundle in the resource is invalid, %v" [GStr err]))
        | None =>
            let found := set_VersionPayload (Int.int32 (found.(Version) + 1)) resource.(Payload) found in
            let! u := ResourceDao.Update found in
            match u with
            | Err e => ret (Err (handleUpdateError "Resource" (db_message e)))
            | Ok updated =>
                let! err := create_event updated.(ID) UpdateEventType in
                ret (match err with
                     | Some e => Err (handleUpdateError "Resource" (Error e))
                     | None => Ok updated
                     end)
            end
        end
  end.

Definition Update (resource : Resource) : M World (result Resource ServiceError) :=
  with_lock resource.(ID) Resources Err (Update_locked resource).

(** The sequence id a status carries. *)
Definition sequence_id (status : JSONMap) (convert get : string) : result string ServiceError :=
  match JSONMAPToCloudEvent status with
  | Err e => Err (GeneralError convert [GStr e])
  | Ok evt => match ToString (ceExtensions evt ExtensionStatusUpdateSequenceID) with
              | Err e => Err (GeneralError get [GStr e])
              | Ok id => Ok id
              end
  end.

(** Whether the status of [resource] is newer than the stored one. *)
Definition status_newer (resource found : Resource) : result bool ServiceError :=
  match sequence_id resource.(Status) "Unable to convert resource status to cloudevent: %s"
          "Unable to get sequence ID from resource status: %s" with
  | Err e => Err e
  | Ok sequenceID =>
      match (if (jlen found.(Status) =? 0)%nat then Ok ""
             else sequence_id found.(Status) "Unable to convert resource status to cloudevent: %s"
                    "Unable to get sequence ID from found resource status: %s") with
      | Err e => Err e
      | Ok foundSequenceID =>
          map_err (fun e => GeneralError "Unable to compare sequence IDs: %s" [GStr (Error e)])
            (compareSequenceIDs sequenceID foundSequenceID)
      end
  end.

Definition UpdateStatus_locked (resource : Resource) : M World (result (Resource * bool) ServiceError) :=
  let! r := ResourceDao.Get resource.(ID) in
  match r with
  | Err e => ret (Err (get_error "Resource" "id" (GStr resource.(ID)) e))
  | Ok found =>
      if decide (found.(Version) <> resource.(Version)) then ret (Ok (found, false))
      else if decide (resource.(Status) = found.(Status)) then ret (Ok (found, false))
      else
        match status_newer resource found with
        | Err e => ret (Err e)
        | Ok false => ret (Ok (found, false))
        | Ok true =>
            let! u := ResourceDao.UpdateStatus (set_Status resource.(Status) found) in
            ret (match u with
                 | Err e => Err (handleUpdateError "Resource" (db_message e))
                 | Ok updated => Ok (updated, true)
                 end)
        end
  end.

Definition UpdateStatus (resource : Resource) : M World (result (Resource * bool) ServiceError) :=
  with_lock resource.(ID) ResourceStatus Err (UpdateStatus_locked resource).

Definition republishDeleteEvent (id : string) : M World (option ServiceError) :=
  if deleteEventRepublishInterval <=? 0 then ret None
  else
    let! latest := EventService.FindLatestDeleteEvent id in
    match latest with
    | Err _ => ret None
    | Ok latest =>
        let! recent := (match latest with
                        | Some e => let! now := time_now in ret (now - e.(CreatedAt) <? deleteEventRepublishInterval)
                        | None => ret false
                        end) in
        if recent then ret None
        else
          let! err := create_event id DeleteEventType in
          ret (match err with
               | Some e => Some (handleDeleteError "Resource" (Error e))
               | None => None
               end)
    end.

Definition MarkAsDeleting_locked (id : string) : M World (option ServiceError) :=
  let! r := ResourceDao.Get id in
  match r with
  | Err e =>
      let svcErr := get_error "Resource" "id" (GStr id) e in
      ret (if Is404 svcErr then None else Some svcErr)
  | Ok existing =>
      if existing.(DeletedAt).(Valid) then republishDeleteEvent id
      else
        let! d := ResourceDao.Delete id false in
        match d with
        | Err e => ret (Some (handleDeleteError "Resource"
                     (Error (GeneralError "Unable to delete resource: %s" [GStr (db_message e)]))))
        | Ok _ =>
            let! err := create_event id DeleteEventType in
            ret (match err with
                 | Some e => Some (handleDeleteError "Resource" (Error e))
                 | None => None
                 end)
        end
  end.

Definition MarkAsDeleting (id : string) : M World (option ServiceError) :=
  with_lock id Resources Some (MarkAsDeleting_locked id).

Definition Delete (id : string) : M World (option ServiceError) :=
  let! r := or_error (fun e => handleDeleteError "Resource"
              (Error (GeneralError "Unable to delete resource: %s" [GStr (db_message e)])))
              (ResourceDao.Delete id true) in
  ret (err_of r).

Definition FindByIDs (ids : list string) :=
  or_error (get_error "Resource" "id" (GStrs ids)) (ResourceDao.FindByIDs ids).
Definition FindBySource (source : string) :=
  or_error (get_error "Resource" "source" (GStr source)) (ResourceDao.FindBySource source).
Definition FindUndelivered (threshold : Z) :=
  or_error (fun e => GeneralError "unable to find undelivered resources: %s" [GStr (db_message e)])
    (ResourceDao.FindUndelivered threshold).
Definition All :=
  or_error (fun e => GeneralError "Unable to get all resources: %s" [GStr (db_message e)]) ResourceDao.All.
(** The Lister the work agent's resync uses. *)
Definition List (clusterName : string) : M World (result (list Resource) DBError) :=
  ResourceDao.FindByConsumerName clusterName.

End Ops.
End ResourceService.
