(* ===== verification/Samples.v ===== *)
(** * A concrete deployment

    Concrete instances of every interface and a small database, on which the theorems
    are instantiated: an environment without failures, the in-memory tables and lock
    server, events as their JSON documents, default snowflake ids and a name check. *)

From S2P Require Import Prelude GoLib Errors Types Json Bundle Validation Gorm World Dao DaoFacts Locks Services.
Import api.
Export Calm Memory MemoryPg DocumentEvents DefaultSnowflake AdvisoryLockFactory.

Open Scope Z_scope.

Module K8sSample.
Definition str_at (k : string) (m : JSONMap) : string :=
  match jget k m with Some (JStr s) => s | _ => "" end.
Definition meta_of (m : JSONMap) : JSONMap :=
  match jget "metadata" m with Some (JObj l) => Some l | _ => Some [] end.
Definition name_errors (s : string) : list string :=
  if decide (s = "") then ["must be non-empty"]
  else if Strings.Contains s " " then ["must be a lower case RFC 1123 label"] else [].

#[export] Instance k8s : K8s := {
  ValidateNamespaceName := name_errors;
  IsDNS1123Subdomain := name_errors;
  IsDNS1035Label := name_errors;
  ValidateAnnotations _ _ := [];
  ValidateFinalizers _ _ := [];
  ValidateLabels _ _ := [];
  aggregate l := pretty (length l);
  GetAPIVersion := str_at "apiVersion";
  GetKind := str_at "kind";
  GetName m := str_at "name" (meta_of m);
  GetNamespace m := str_at "namespace" (meta_of m);
  GetGenerateName m := str_at "generateName" (meta_of m);
  GetObjResourceVersion m := str_at "resourceVersion" (meta_of m);
  GetDeletionGracePeriodSeconds _ := None;
  GetAnnotations _ := [];
  GetFinalizers _ := [];
  GetLabels _ := [];
}.
End K8sSample.
Export K8sSample.

#[export] Instance sample_format : TimeFormat := fun t => pretty t.
(** Delete events may be republished every ten nanoseconds. *)
Definition sample_config : ResourceConfig := 10.
#[export] Existing Instance sample_config.

(** ** Rows *)

Definition live (id : string) (t : Time) : Meta := mkMeta id t t NullTime_zero.
Definition sample_consumer : Consumer := mkConsumer (live "c1" 1) "cluster1" None.
Definition sample_payload (names : list string) : JSONMap := Some (bundle names).
Definition sample_resource : Resource :=
  mkResource (live "r1" 1) 1 "source1" "cluster1" "" (sample_payload ["a"]) None "r1".
Definition deleting_resource : Resource :=
  mkResource (mkMeta "r2" 1 1 (mkNullTime 2 true)) 1 "source1" "cluster1" "" (sample_payload ["a"]) None "r2".
Definition old_delete_event : Event := created_event "e1" 1 "Resources" "r2" DeleteEventType.

Definition sample_tables : Tables :=
  mkTables {["r1" := sample_resource; "r2" := deleting_resource]} {["c1" := sample_consumer]}
           {["e1" := old_delete_event]} ∅ ∅ [].
Definition sample_world : World := set_locks no_locks (mkWorld sample_tables [] (Some false) no_locks 20 []).

Lemma table_wf_singleton {Row} `{Model Row} k (r : Row) : row_id r = k -> table_wf {[k := r]}.
Proof. intros Hr. by apply map_Forall_singleton. Qed.
Lemma table_wf_empty {Row} `{Model Row} : table_wf (∅ : gmap string Row).
Proof. apply map_Forall_empty. Qed.

Lemma sample_tables_wf : tables_wf sample_tables.
Proof.
  split; simpl; try first [apply table_wf_empty|by apply table_wf_singleton].
  apply map_Forall_insert_2; [done|]. by apply map_Forall_singleton.
Qed.

(** A request that changes the payload of r1, and a status of it. *)
Definition update_request : Resource := set_Payload (sample_payload ["a"; "b"]) sample_resource.
Definition sample_status (seq : string) : JSONMap :=
  Some [("id", JStr "s1"); ("resourceversion", JNum 1); ("sequenceid", JStr seq)].
Definition status_request (seq : string) : Resource := set_Status (sample_status seq) sample_resource.
Definition create_request : Resource :=
  mkResource (newMeta "") 0 "source1" "cluster1" "" (sample_payload ["a"]) None "".
