(* ===== verification/ServiceFacts.v ===== *)
(** * What the services guarantee

    Specifications of the resource service: what each operation decides from the
    tables, and that the code carries the decision out, whatever the driver, the lock
    and the notification do. *)

From S2P Require Import Prelude GoLib Errors Types Json Bundle Validation Gorm World Dao DaoFacts Locks Services.
Import api errors Fmt.

Open Scope Z_scope.

Lemma only_locks_wf w w' : only_locks w w' -> keeps_wf w w'.
Proof. intros (Ht & _) Hw. unfold wf_tables. by rewrite Ht. Qed.
Lemma only_locks_ticks w w' : only_locks w w' -> ticks w w'.
Proof. by intros (_ & _ & _ & ?). Qed.

Section LockHints.
Context `{ll : LockFactoryLaws}.
Lemma NewAdvisoryLock_wf id ty : always keeps_wf (NewAdvisoryLock id ty).
Proof. eapply always_weaken; [apply only_locks_wf|apply NewAdvisoryLock_frame]. Qed.
Lemma NewNonBlockingLock_wf id ty : always keeps_wf (NewNonBlockingLock id ty).
Proof. eapply always_weaken; [apply only_locks_wf|apply NewNonBlockingLock_frame]. Qed.
Lemma Unlock_keeps_wf uuid : always keeps_wf (Unlock uuid).
Proof. eapply always_weaken; [apply only_locks_wf|apply Unlock_frame]. Qed.
Lemma NewAdvisoryLock_ticks id ty : always ticks (NewAdvisoryLock id ty).
Proof. eapply always_weaken; [apply only_locks_ticks|apply NewAdvisoryLock_frame]. Qed.
Lemma NewNonBlockingLock_ticks id ty : always ticks (NewNonBlockingLock id ty).
Proof. eapply always_weaken; [apply only_locks_ticks|apply NewNonBlockingLock_frame]. Qed.
Lemma Unlock_ticks uuid : always ticks (Unlock uuid).
Proof. eapply always_weaken; [apply only_locks_ticks|apply Unlock_frame]. Qed.
End LockHints.
#[export] Hint Resolve NewAdvisoryLock_wf NewNonBlockingLock_wf Unlock_keeps_wf NewAdvisoryLock_ticks
  NewNonBlockingLock_ticks Unlock_ticks : maestro.

#[export] Hint Unfold or_error
  EventService.Get EventService.Create EventService.Replace EventService.Delete EventService.FindByIDs
  EventService.All EventService.FindAllUnreconciledEvents EventService.DeleteAllReconciledEvents
  EventService.FindLatestDeleteEvent EventService.ReconcileStaleDeleteEvents
  StatusEventService.Get StatusEventService.Create StatusEventService.Replace StatusEventService.Delete
  StatusEventService.FindByIDs StatusEventService.All StatusEventService.FindAllUnreconciledEvents
  StatusEventService.DeleteAllReconciledEvents StatusEventService.DeleteAllEvents
  ConsumerService.Get ConsumerService.Create ConsumerService.Replace ConsumerService.Delete
  ConsumerService.FindByIDs ConsumerService.FindByNames ConsumerService.All
  ResourceService.Get ResourceService.Create ResourceService.create_event ResourceService.with_lock
  ResourceService.Update ResourceService.Update_locked ResourceService.UpdateStatus
  ResourceService.UpdateStatus_locked ResourceService.republishDeleteEvent ResourceService.MarkAsDeleting
  ResourceService.MarkAsDeleting_locked ResourceService.Delete ResourceService.FindByIDs
  ResourceService.FindBySource ResourceService.FindUndelivered ResourceService.All ResourceService.List : ops.

(** ** Outcomes *)

Definition same_data (w w' : World) : Prop :=
  w'.(tables) = w.(tables) /\ w'.(notified) = w.(notified).

#[export] Instance same_data_preorder : PreOrder same_data.
Proof.
  split; [done|]. intros w1 w2 w3 [? ?] [? ?]. split; congruence.
Qed.

Lemma only_locks_same w w' : only_locks w w' -> same_data w w'.
Proof. by intros (? & ? & _). Qed.
Lemma bump_same w : same_data w (bump w).
Proof. done. Qed.
Lemma rollback_same w : same_data w (MarkForRollback w).2.
Proof. done. Qed.
#[export] Hint Resolve only_locks_same bump_same rollback_same : maestro.

(** A freshly created, unreconciled event of the resource. *)
Definition fresh_event (w : World) (sid : string) (ty : EventType) (e : Event) : Prop :=
  w.(tables).(events) !! e.(ID) = None /\ exists now, e = created_event e.(ID) now "Resources" sid ty.

(** What recording an event (of which [P] holds) leaves, and whether it was reported as
    done: nothing; the event but no notification; the event and its notification. *)
Inductive recorded (P : Event -> Prop) (w : World) (sid : string) (ty : EventType) (w' : World) : bool -> Prop :=
| NotRecorded : same_data w w' -> recorded P w sid ty w' false
| RecordedSilently e : fresh_event w sid ty e -> P e -> w'.(tables) = add_event e w.(tables) ->
    w'.(notified) = w.(notified) -> recorded P w sid ty w' false
| Recorded e : fresh_event w sid ty e -> P e -> w'.(tables) = add_event e w.(tables) ->
    w'.(notified) = ("events", e.(ID)) :: w.(notified) -> recorded P w sid ty w' true.
Definition any_event (_ : Event) : Prop := True.

(** A row write [t1] followed by its event: nothing happened, or the tables were
    written and the event recorded as above. *)
Inductive wrote (w : World) (t1 : Tables) (sid : string) (ty : EventType) (w' : World) (ok : bool) : Prop :=
| WroteNothing : same_data w w' -> ok = false -> wrote w t1 sid ty w' ok
| WroteRow w1 : w1.(tables) = t1 -> w1.(notified) = w.(notified) -> recorded any_event w1 sid ty w' ok ->
    wrote w t1 sid ty w' ok.

Lemma recorded_same (P Q : Event -> Prop) w0 w w' w'' sid ty ok :
  (forall e, P e -> Q e) ->
  same_data w0 w -> same_data w' w'' -> recorded P w sid ty w' ok -> recorded Q w0 sid ty w'' ok.
Proof.
  intros HPQ [Ht Hn] [Ht' Hn'] Hr. destruct Hr as [[? ?]|e [Hf Hc] HP ? ?|e [Hf Hc] HP ? ?].
  - apply NotRecorded. split; congruence.
  - apply (RecordedSilently _ _ _ _ _ e); [split; [by rewrite <-Ht|done]|auto|congruence..].
  - apply (Recorded _ _ _ _ _ e); [split; [by rewrite <-Ht|done]|auto|congruence..].
Qed.

Lemma wrote_same w0 w w' w'' t1 sid ty ok :
  same_data w0 w -> same_data w' w'' -> wrote w t1 sid ty w' ok -> wrote w0 t1 sid ty w'' ok.
Proof.
  intros Hs Hs' [Hn ->|w1 Ht Hn Hr].
  - apply WroteNothing; [|done]. etrans; [done|]. by etrans.
  - destruct Hs as [_ Hn0]. eapply WroteRow; [exact Ht|congruence|]. by apply (recorded_same any_event any_event w1 w1 w').
Qed.

Section Specs.
Context `{env : Env} `{el : !EnvLaws} `{gl : GormLaws} `{ll : LockFactoryLaws} `{k8s : K8s} `{ce : CloudEvents}
        `{sf : Snowflake} `{tf : TimeFormat} `{cfg : ResourceConfig}.

(** To prove something of a locked operation, prove it of the lock failing and of the
    body run after the lock was taken. *)
Lemma with_lock_cases {A} (P : A -> World -> Prop) id ty failed (body : M World A) w :
  (forall e w', same_data w w' -> P (failed (DatabaseAdvisoryLock e)) w') ->
  (forall w1 w', same_data w w1 -> ticks w w1 -> same_data (body w1).2 w' -> P (body w1).1 w') ->
  P (ResourceService.with_lock id ty failed body w).1 (ResourceService.with_lock id ty failed body w).2.
Proof.
  intros Hf Hb. unfold ResourceService.with_lock. rewrite bind_run.
  pose proof (NewAdvisoryLock_frame id ty w) as Hl.
  destruct (NewAdvisoryLock id ty w) as [[uuid err] w1]. simpl in Hl.
  rewrite bind_run. destruct err as [e|]; simpl.
  - rewrite bind_run. pose proof (Unlock_frame uuid w1) as Hu. destruct (Unlock uuid w1) as [[] w']. simpl in *.
    apply Hf. transitivity w1; eauto with maestro.
  - destruct (body w1) as [a w2] eqn:E. rewrite bind_run.
    pose proof (Unlock_frame uuid w2) as Hu. destruct (Unlock uuid w2) as [[] w']. simpl in *.
    change a with (a, w2).1. rewrite <-E. apply Hb; [eauto with maestro|by destruct Hl as (_&_&_&?)|].
    rewrite E. eauto with maestro.
Qed.

(** When the lock is granted the body runs. *)
Lemma with_lock_granted {A} id ty failed (body : M World A) w :
  (NewAdvisoryLock id ty w).1.2 = None ->
  exists w1, same_data w w1 /\ ticks w w1 /\
    (ResourceService.with_lock id ty failed body w).1 = (body w1).1.
Proof.
  intros Hg. unfold ResourceService.with_lock. rewrite bind_run.
  pose proof (NewAdvisoryLock_frame id ty w) as Hl.
  destruct (NewAdvisoryLock id ty w) as [[uuid err] w1]. simpl in *. subst err.
  exists w1. rewrite bind_run. destruct (body w1) as [a w2]. rewrite bind_run.
  destruct (Unlock uuid w2) as [[] w']. split_and!; [eauto with maestro|by destruct Hl as (_&_&_&?)|done].
Qed.

Lemma create_event_recorded id ty w :
  recorded (fun e => e.(CreatedAt) = clock (S w.(tick))) w id ty (ResourceService.create_event id ty w).2
    (bool_decide ((ResourceService.create_event id ty w).1 = None)).
Proof.
  unfold ResourceService.create_event, EventService.Create, or_error. rewrite !bind_run.
  pose proof (EventDao_Create_run "Resources" id ty w) as Hc.
  assert (forall e, e = next_event w "Resources" id ty -> w.(tables).(events) !! e.(ID) = None ->
                    fresh_event w id ty e) as Hfresh.
  { intros e -> Hn. split; [done|]. eexists. reflexivity. }
  inversion Hc as [err w' Ht Hn _ _ Heq|err w' Hf Ht Hn _ _ Heq|w' Hf Ht Hn _ _ Heq]; simpl.
  - by apply NotRecorded.
  - by eapply RecordedSilently; eauto.
  - by eapply Recorded; eauto.
Qed.

Lemma create_event_ok id ty w :
  (forall n, fault n = None) -> w.(tables).(events) !! newID w.(tick) = None ->
  (ResourceService.create_event id ty w).1 = None.
Proof.
  intros Hnf Hn. unfold ResourceService.create_event, EventService.Create, or_error. rewrite !bind_run.
  pose proof (EventDao_Create_ok "Resources" id ty w Hnf Hn) as Ho.
  destruct (EventDao.Create _ w) as [r w']. simpl in *. by subst r.
Qed.

(** ** Update *)

(** What an operation decides from the tables. *)
Inductive Verdict :=
| Refuse (e : ServiceError)     (** an error, nothing written *)
| Keep (r : Resource)           (** nothing to do *)
| Change (r : Resource).        (** the resource to write *)

Definition not_found (id : string) : ServiceError :=
  NotFound "%s with %s='%v' not found" [GStr "Resource"; GStr "id"; GStr id].

Definition Update_decision (t : Tables) (req : Resource) : Verdict :=
  match t.(resources) !! req.(ID) with
  | None => Refuse (not_found req.(ID))
  | Some row =>
      let found : Resource := load scanNull (row : Resource) in
      if negb (IsZero found.(DeletedAt).(NTime)) then
        Refuse (Conflict "the resource is under deletion, id: %s" [GStr req.(ID)])
      else if decide (found.(Version) <> req.(Version)) then
        Refuse (Conflict "the resource version is not the latest, the latest version: %d" [GInt found.(Version)])
      else if decide (req.(Payload) = found.(Payload)) then Keep found
      else match ValidateManifestBundle req.(Payload) with
           | Some err => Refuse (Validation "the new manifest bundle in the resource is invalid, %v" [GStr err])
           | None => Change (set_VersionPayload (Int.int32 (found.(Version) + 1)) req.(Payload) found)
           end
  end.

(** The decision carried out, with result [res] and world [w']. *)
Definition update_done (req : Resource) (w : World) (res : result Resource ServiceError) (w' : World) : Prop :=
  match Update_decision w.(tables) req with
  | Refuse e => same_data w w' /\ is_ok res = false
  | Keep r => same_data w w' /\ (forall r', res = Ok r' -> r' = r)
  | Change r => (forall r', res = Ok r' -> r' = r) /\
      exists now, wrote w (update_resource (set_VersionPayload r.(Version) r.(Payload)) now req.(ID) w.(tables))
                    req.(ID) UpdateEventType w' (is_ok res)
  end.

Lemma Update_locked_spec req w :
  wf_tables w ->
  update_done req w (ResourceService.Update_locked req w).1 (ResourceService.Update_locked req w).2.
Proof.
  intros Hw. unfold update_done, ResourceService.Update_locked. rewrite bind_run, ResourceDao_Get_run by done.
  unfold Update_decision. destruct (fault w.(tick)) as [e|].
  { simpl. destruct (_ !! req.(ID)) as [row|]; [|done].
    repeat case_match; (split; [done|]); first [done|exists 0; by apply WroteNothing]. }
  destruct (w.(tables).(resources) !! req.(ID)) as [row|] eqn:Hrow; [|done].
  cbn zeta. destruct (negb _); [done|]. case_decide; [done|]. case_decide as Hp.
  { split; [done|]. by intros r' [= <-]. }
  destruct (ValidateManifestBundle _); [done|]. set (r := set_VersionPayload _ _ _).
  assert (r.(ID) = req.(ID)) as Hid.
  { pose proof (wf_resources _ Hw _ _ Hrow) as Hk. exact Hk. }
  unfold ResourceDao.Update. rewrite !bind_run.
  destruct (ResourceDao_updates_run r.(ID) (set_VersionPayload r.(Version) r.(Payload)) (bump w)) as [n Hu]; [done|].
  rewrite Hu. destruct (fault (tick (bump w))) as [e|].
  { simpl. split; [done|]. exists 0. by apply WroteNothing. }
  cbn [ret]. rewrite bind_run. set (w1 := set_tables _ _).
  pose proof (create_event_recorded r.(ID) UpdateEventType w1) as Hr.
  destruct (ResourceService.create_event _ _ w1) as [err w2]. simpl in Hr |- *.
  split; [by destruct err; intros ? [= <-]|]. exists (clock (S w.(tick))).
  eapply (WroteRow _ _ _ _ _ _ w1); [by rewrite <-Hid|done|]. rewrite <-Hid.
  eapply (recorded_same _ any_event w1 w1 w2 w2); [done..|]. by destruct err.
Qed.

Lemma Update_done req w :
  wf_tables w ->
  update_done req w (ResourceService.Update req w).1 (ResourceService.Update req w).2.
Proof.
  intros Hw. apply (with_lock_cases (update_done req w)); unfold update_done.
  - intros e w' Hs. destruct (Update_decision _ _); (split; [done|]); [done|done|].
    exists 0. by apply WroteNothing.
  - intros w1 w' Hs _ Hs'. assert (wf_tables w1) as Hw1 by (unfold wf_tables; by rewrite (proj1 Hs)).
    pose proof (Update_locked_spec req w1 Hw1) as Hu. unfold update_done in Hu. rewrite (proj1 Hs) in Hu.
    destruct (Update_decision _ _); destruct Hu as [Hu1 Hu2].
    + split; [|done]. transitivity w1; [done|]. by etrans.
    + split; [|done]. transitivity w1; [done|]. by etrans.
    + destruct Hu2 as [now Hwr]. split; [done|]. exists now. by eapply wrote_same.
Qed.

(** C1: Update carries out the decision made from the stored row, whatever fails. A
    refused request (missing, under deletion, stale version, invalid bundle) and one
    whose payload is the stored one write nothing; otherwise the row is rewritten with
    the version one higher and the new payload and one Update event is recorded, and
    success is only reported when row, event and notification are all there. *)
Theorem Update_spec req w :
  tables_wf w.(tables) ->
  update_done req w (ResourceService.Update req w).1 (ResourceService.Update req w).2.
Proof. apply Update_done. Qed.

(** Nothing fails from here on: no driver fault, the lock is granted, and generated
    event ids are unused. *)
Record calm (w : World) (id : string) (ty : LockType) : Prop := {
  calm_faults n : fault n = None;
  calm_lock : (NewAdvisoryLock id ty w).1.2 = None;
  calm_ids n : w.(tables).(events) !! newID n = None;
}.

(** When nothing fails, Update returns exactly what was decided: the error of a
    refusal, the stored resource when nothing changed, the rewritten one otherwise. *)
Theorem Update_completes (req : Resource) w :
  tables_wf w.(tables) -> calm w req.(ID) Resources ->
  (ResourceService.Update req w).1 =
    match Update_decision w.(tables) req with Refuse e => Err e | Keep r => Ok r | Change r => Ok r end.
Proof.
  intros Hw [Hnf Hl Hids].
  destruct (with_lock_granted req.(ID) Resources Err (ResourceService.Update_locked req) w Hl)
    as (w1 & [Hs _] & _ & Hr).
  unfold ResourceService.Update. rewrite Hr. clear Hr Hl.
  assert (wf_tables w1) as Hw1 by (unfold wf_tables; by rewrite Hs).
  unfold ResourceService.Update_locked. rewrite bind_run, ResourceDao_Get_run, Hnf by done. unfold Update_decision.
  rewrite Hs. destruct (_ !! req.(ID)) as [row|]; [|done]. cbn zeta.
  destruct (negb _); [done|]. case_decide; [done|]. case_decide; [done|].
  destruct (ValidateManifestBundle _); [done|]. set (r := set_VersionPayload _ _ _).
  unfold ResourceDao.Update. rewrite !bind_run.
  destruct (ResourceDao_updates_run r.(ID) (set_VersionPayload r.(Version) r.(Payload)) (bump w1)) as [n Hu]; [done|].
  rewrite Hu, Hnf. cbn [ret]. rewrite bind_run. set (w2 := set_tables _ _).
  pose proof (create_event_ok r.(ID) UpdateEventType w2 Hnf) as Hr.
  destruct (ResourceService.create_event _ _ w2) as [err w3]. simpl in Hr |- *. rewrite Hr; [done|].
  rewrite Hs. apply Hids.
Qed.

(** ** UpdateStatus *)

Definition UpdateStatus_decision (t : Tables) (req : Resource) : Verdict :=
  match t.(resources) !! req.(ID) with
  | None => Refuse (not_found req.(ID))
  | Some row =>
      let found : Resource := load scanNull (row : Resource) in
      if decide (found.(Version) <> req.(Version)) then Keep found
      else if decide (req.(Status) = found.(Status)) then Keep found
      else match ResourceService.status_newer req found with
           | Err e => Refuse e
           | Ok false => Keep found
           | Ok true => Change (set_Status req.(Status) found)
           end
  end.

(** The decision carried out: only the status column is ever written. *)
Definition status_done (req : Resource) (w : World) (res : result (Resource * bool) ServiceError) (w' : World) : Prop :=
  w'.(notified) = w.(notified) /\
  match UpdateStatus_decision w.(tables) req with
  | Refuse e => w'.(tables) = w.(tables) /\ is_ok res = false
  | Keep r => w'.(tables) = w.(tables) /\ (forall x, res = Ok x -> x = (r, false))
  | Change r => match res with
                | Ok x => x = (r, true) /\
                    exists now, w'.(tables) = update_resource (set_Status r.(Status)) now req.(ID) w.(tables)
                | Err _ => w'.(tables) = w.(tables)
                end
  end.

Lemma UpdateStatus_locked_spec req w :
  wf_tables w ->
  status_done req w (ResourceService.UpdateStatus_locked req w).1 (ResourceService.UpdateStatus_locked req w).2.
Proof.
  intros Hw. unfold status_done, ResourceService.UpdateStatus_locked.
  rewrite bind_run, ResourceDao_Get_run by done. unfold UpdateStatus_decision. destruct (fault w.(tick)) as [e|].
  { simpl. split; [done|]. destruct (_ !! req.(ID)) as [row|]; [|done]. by repeat case_match. }
  destruct (w.(tables).(resources) !! req.(ID)) as [row|] eqn:Hrow; [|done].
  cbn zeta. case_decide; [split_and!; [done..|by intros x [= <-]]|].
  case_decide; [split_and!; [done..|by intros x [= <-]]|].
  destruct (ResourceService.status_newer _ _) as [[]|]; [|split_and!; [done..|by intros x [= <-]]|done].
  set (r := set_Status _ _).
  assert (r.(ID) = req.(ID)) as Hid by exact (wf_resources _ Hw _ _ Hrow).
  unfold ResourceDao.UpdateStatus. rewrite !bind_run.
  destruct (ResourceDao_updates_run r.(ID) (set_Status r.(Status)) (bump w)) as [n Hu]; [done|].
  rewrite Hu. destruct (fault (tick (bump w))) as [e|]; [done|]. simpl.
  split_and!; [done..|]. exists (clock (S w.(tick))). by rewrite <-Hid.
Qed.

Lemma UpdateStatus_done req w :
  wf_tables w ->
  status_done req w (ResourceService.UpdateStatus req w).1 (ResourceService.UpdateStatus req w).2.
Proof.
  intros Hw. apply (with_lock_cases (status_done req w)); unfold status_done.
  - intros e w' [Ht Hn]. split; [done|]. by destruct (UpdateStatus_decision _ _).
  - intros w1 w' [Ht Hn] _ [Ht' Hn']. assert (wf_tables w1) as Hw1 by (unfold wf_tables; by rewrite Ht).
    destruct (UpdateStatus_locked_spec req w1 Hw1) as [Hn1 Hu]. rewrite Ht in Hu.
    split; [congruence|]. rewrite Ht'. destruct (UpdateStatus_decision _ _); done.
Qed.

(** C2: UpdateStatus never writes anything but the status column of the one row,
    records no event, and does so only for a request that names the stored version and
    carries a strictly newer sequence id than the stored status; a stale version, an
    equal status or an older sequence id reports false and writes nothing. *)
Theorem UpdateStatus_spec req w :
  tables_wf w.(tables) ->
  status_done req w (ResourceService.UpdateStatus req w).1 (ResourceService.UpdateStatus req w).2.
Proof. apply UpdateStatus_done. Qed.

(** ** MarkAsDeleting *)

(** The delete events of a resource that a scoped query sees. *)
Definition delete_event_of (sid : string) (e : Event) : bool :=
  hits false (fun e : Event => bool_decide (e.(e_Source) = "Resources") && bool_decide (e.(SourceID) = sid)
                        && bool_decide (e.(EventType_) = DeleteEventType)) e.

Lemma FindLatestDeleteEvent_run sid w :
  exists r, EventService.FindLatestDeleteEvent sid w = (r, bump w) /\
    match r with
    | Ok (Some e) => forall k e', w.(tables).(events) !! k = Some e' -> delete_event_of sid e' = true ->
                                  e'.(CreatedAt) <= e.(CreatedAt)
    | Ok None => forall k e', w.(tables).(events) !! k = Some e' -> delete_event_of sid e' = false
    | Err _ => True
    end.
Proof.
  unfold EventService.FindLatestDeleteEvent, EventDao.FindLatestDeleteEvent, or_error, st_first_desc.
  rewrite !bind_run, statement_run. destruct (fault _) as [e|]; [by eexists|].
  cbn iota. rewrite set_tables_bump.
  destruct (gFirstDesc _ _ _ _) as [e|] eqn:E.
  - eexists. split; [reflexivity|]. simpl.
    apply gFirstDesc_Some in E as (k0 & e0 & _ & _ & -> & Hmax). exact Hmax.
  - eexists. split; [reflexivity|]. simpl. intros k e' Hk. by eapply gFirstDesc_None.
Qed.

(** A republished delete event comes at least the interval after every other one. *)
Definition spaced (t : Tables) (sid : string) (e : Event) : Prop :=
  0 < deleteEventRepublishInterval /\
  forall k e', t.(events) !! k = Some e' -> delete_event_of sid e' = true ->
               e'.(CreatedAt) + deleteEventRepublishInterval <= e.(CreatedAt).

Definition republished (id : string) (w : World) (res : option ServiceError) (w' : World) : Prop :=
  same_data w w' /\ res = None \/
  recorded (spaced w.(tables) id) w id DeleteEventType w' (bool_decide (res = None)).

Lemma republish_spec id w :
  republished id w (ResourceService.republishDeleteEvent id w).1 (ResourceService.republishDeleteEvent id w).2.
Proof.
  unfold ResourceService.republishDeleteEvent. destruct (Z.leb_spec deleteEventRepublishInterval 0) as [|Hpos]; [by left|].
  rewrite bind_run. destruct (FindLatestDeleteEvent_run id w) as (r & -> & Hr).
  destruct r as [[e|]|e]; [| |by left]; rewrite bind_run.
  - cbn [time_now bind step ret]. destruct (Z.ltb_spec (clock (tick (bump w)) - e.(CreatedAt)) deleteEventRepublishInterval)
      as [|Hold]; [by left|]. right. rewrite bind_run.
    pose proof (create_event_recorded id DeleteEventType (bump (bump w))) as Hc.
    destruct (ResourceService.create_event _ _ _) as [err w2]. simpl in *.
    eapply (recorded_same _ _ w (bump (bump w)) w2 w2); [|done|done|destruct err; exact Hc].
    intros ev Hev. split; [done|]. intros k e' Hk He. specialize (Hr k e' Hk He). cbn beta in Hev.
    pose proof (clock_mono (S w.(tick)) (S (tick (bump (bump w))))) as Hm. simpl in Hm, Hev. lia.
  - cbn [ret]. right. rewrite bind_run.
    pose proof (create_event_recorded id DeleteEventType (bump w)) as Hc.
    destruct (ResourceService.create_event _ _ _) as [err w2]. simpl in *.
    eapply (recorded_same _ _ w (bump w) w2 w2); [|done|done|destruct err; exact Hc].
    intros ev Hev. split; [done|]. intros k e' Hk He. specialize (Hr k e' Hk). congruence.
Qed.

Definition deleting_done (id : string) (w : World) (res : option ServiceError) (w' : World) : Prop :=
  match w.(tables).(resources) !! id with
  | None => same_data w w'
  | Some row =>
      if (row : Resource).(DeletedAt).(Valid) then
        same_data w w' \/
        recorded (spaced w.(tables) id) w id DeleteEventType w' (bool_decide (res = None))
      else exists now, wrote w (soft_delete_resource now id w.(tables)) id DeleteEventType w' (bool_decide (res = None))
  end.

Lemma deleting_done_same id res w0 w w' w'' :
  same_data w0 w -> same_data w' w'' -> deleting_done id w res w' -> deleting_done id w0 res w''.
Proof.
  intros Hs Hs' Hd. unfold deleting_done in *. rewrite <-(proj1 Hs).
  destruct (_ !! id) as [row|]; [|transitivity w; [done|]; by etrans].
  destruct (Valid _).
  - destruct Hd as [Hd|Hr]; [left; transitivity w; [done|]; by etrans|right].
    eapply (recorded_same _ _ w0 w w' w''); [|done|done|exact Hr]. intros e. unfold spaced. by rewrite (proj1 Hs).
  - destruct Hd as [now Hd]. exists now. by eapply wrote_same.
Qed.

Lemma MarkAsDeleting_locked_spec id w :
  wf_tables w -> id <> "" ->
  deleting_done id w (ResourceService.MarkAsDeleting_locked id w).1 (ResourceService.MarkAsDeleting_locked id w).2.
Proof.
  intros Hw Hid. unfold deleting_done, ResourceService.MarkAsDeleting_locked.
  rewrite bind_run, ResourceDao_Get_run by done. destruct (fault w.(tick)) as [e|].
  { simpl. destruct (_ !! id) as [row|]; [|done]. destruct (Valid _); [by left|].
    exists 0. by apply WroteNothing. }
  destruct (w.(tables).(resources) !! id) as [row|] eqn:Hrow; [|done].
  change (DeletedAt (load scanNull row)) with row.(DeletedAt).
  destruct (Valid (DeletedAt row)) eqn:Hv.
  - destruct (republish_spec id (bump w)) as [[? ?]|Hr]; [by left|].
    right. eapply (recorded_same _ _ w (bump w)); [| |reflexivity|exact Hr]; [by intros e He|done].
  - rewrite bind_run, ResourceDao_Delete_run by done. destruct (fault (tick (bump w))) as [e|].
    { simpl. exists 0. by apply WroteNothing. }
    rewrite bind_run. set (w1 := set_tables _ _).
    pose proof (create_event_recorded id DeleteEventType w1) as Hr.
    destruct (ResourceService.create_event _ _ w1) as [err w2]. simpl in Hr |- *.
    exists (clock (S w.(tick))). eapply (WroteRow _ _ _ _ _ _ w1); [done|done|].
    eapply (recorded_same _ any_event w1 w1 w2 w2); [done..|]. by destruct err.
Qed.

Lemma MarkAsDeleting_done id w :
  wf_tables w -> id <> "" ->
  deleting_done id w (ResourceService.MarkAsDeleting id w).1 (ResourceService.MarkAsDeleting id w).2.
Proof.
  intros Hw Hid. apply (with_lock_cases (deleting_done id w)).
  - intros e w' Hs. unfold deleting_done. destruct (_ !! id) as [row|]; [|done]. destruct (Valid _); [by left|].
    exists 0. by apply WroteNothing.
  - intros w1 w' Hs _ Hs'. assert (wf_tables w1) as Hw1 by (unfold wf_tables; by rewrite (proj1 Hs)).
    eapply deleting_done_same; [done..|]. by apply MarkAsDeleting_locked_spec.
Qed.

(** C3: MarkAsDeleting is idempotent and throttled. A resource that is gone is left
    gone; a live one is soft-deleted and one Delete event recorded, success being
    reported only when both and the notification are there; one already being deleted
    is not touched, and a further Delete event is recorded only when republishing is
    enabled and every earlier Delete event of it is at least the interval old. *)
Theorem MarkAsDeleting_spec id w :
  tables_wf w.(tables) -> id <> "" ->
  deleting_done id w (ResourceService.MarkAsDeleting id w).1 (ResourceService.MarkAsDeleting id w).2.
Proof. apply MarkAsDeleting_done. Qed.

(** ** Create *)

Definition Create_refusal (req : Resource) : option ServiceError :=
  match (if decide (req.(r_Name) = "") then None else ValidateResourceName req) with
  | Some err => Some (Validation "the name in the resource is invalid, %v" [GStr err])
  | None => match ValidateManifestBundle req.(Payload) with
            | Some err => Some (Validation "the manifest bundle in the resource is invalid, %v" [GStr err])
            | None => None
            end
  end.

(** The row a create request becomes: a generated id if it has none, the id as name if
    it has none, version 1 if it has none, and the insertion time. *)
Definition created_row (w : World) (req : Resource) : Resource :=
  stamp (clock (S w.(tick))) (before_create (newID w.(tick)) req).

(** The conditions PostgreSQL checks on the insert. *)
Definition insertable (t : Tables) (row : Resource) : Prop :=
  t.(resources) !! row.(ID) = None /\
  ResourceDao.consumer_exists t row.(ConsumerName) = true /\
  forall k r, t.(resources) !! k = Some r -> r.(r_Name) <> row.(r_Name).

Lemma created_row_fields w req :
  (created_row w req).(ID) = (if decide (req.(ID) = "") then newID w.(tick) else req.(ID)) /\
  (created_row w req).(Version) <> 0 /\
  (req.(r_Name) = "" -> (created_row w req).(r_Name) = (created_row w req).(ID)) /\
  (created_row w req).(Payload) = req.(Payload) /\
  (created_row w req).(ConsumerName) = req.(ConsumerName).
Proof. simpl. split_and!; try done; intros; repeat case_decide; done. Qed.

(** C40: an invalid create request is answered with a validation error without any
    effect; a valid one inserts the completed row (non-zero version, a name, unused id
    and name, an existing consumer) and records one Create event, and success returns
    that row and is only reported when row, event and notification are there. *)
Theorem Create_spec req w :
  let res := (ResourceService.Create req w).1 in
  let w' := (ResourceService.Create req w).2 in
  match Create_refusal req with
  | Some e => res = Err e /\ w' = w
  | None =>
      let row := created_row w req in
      (forall r, res = Ok r -> r = row /\ insertable w.(tables) row) /\
      wrote w (tset (<[row.(ID) := persist row]> w.(tables).(resources)) w.(tables)) row.(ID)
        CreateEventType w' (is_ok res)
  end.
Proof.
  cbn zeta. unfold ResourceService.Create, Create_refusal.
  destruct (if decide (req.(r_Name) = "") then _ else _); [done|].
  destruct (ValidateManifestBundle _); [done|].
  unfold ResourceDao.Create. rewrite bind_run, or_rollback_run, st_create_run. cbn zeta.
  destruct (fault (S w.(tick))) as [e|]; [split; [done|by apply WroteNothing]|].
  destruct (gCreate _ _ _ _) as [[r m]|msg] eqn:Hc; [|split; [done|by apply WroteNothing]].
  apply gCreate_inv in Hc as (Hrefs & Hn & Hu & -> & ->).
  assert (insertable w.(tables) (created_row w req)) as Hins.
  { split_and!; [exact Hn|exact Hrefs|]. intros k r Hk He. specialize (Hu k r Hk).
    unfold same_unique in Hu. apply bool_decide_eq_false in Hu. apply Hu. split; [by eexists|]. simpl. by rewrite He. }
  rewrite bind_run. set (w1 := set_tables _ _).
  pose proof (create_event_recorded (created_row w req).(ID) CreateEventType w1) as Hr.
  unfold created_row in *. destruct (ResourceService.create_event _ _ w1) as [err w2] eqn:Hce. simpl in Hr, Hce |- *.
  split; [by destruct err; intros ? [= <-]|].
  eapply (WroteRow _ _ _ _ _ _ w1); [done|done|].
  eapply (recorded_same _ any_event w1 w1 w2 w2); [done..|]. by destruct err.
Qed.

(** ** Consumers *)

(** Deleting a consumer that some resource names, even a soft-deleted one, changes
    nothing and is answered with Forbidden unless the driver itself failed; when no
    resource names it, success removes exactly that consumer. *)
Theorem Consumer_Delete_spec id c w :
  tables_wf w.(tables) -> id <> "" -> w.(tables).(consumers) !! id = Some c ->
  let res := (ConsumerService.Delete id w).1 in
  let w' := (ConsumerService.Delete id w).2 in
  if ConsumerDao.referenced w.(tables) c then
    same_data w w' /\ exists e, res = Err e /\ (fault w.(tick) = None -> IsForbidden e = true)
  else
    same_data w w' /\ is_ok res = false \/
    w'.(tables) = tset (delete id w.(tables).(consumers)) w.(tables) /\ res = Ok tt.
Proof.
  intros Hw Hid Hc. cbn zeta. unfold ConsumerService.Delete, ConsumerDao.Delete, or_error, delete_pk.
  rewrite pkCondition_eq. simpl existsb. rewrite (proj2 (String.eqb_neq id "")) by done. simpl orb. cbn iota.
  rewrite bind_run, or_rollback_run. unfold st_delete. rewrite statement_run.
  destruct (fault w.(tick)) as [e|] eqn:Hf.
  { simpl. destruct (ConsumerDao.referenced _ _); [|by left]. split; [done|]. eexists. by split. }
  assert (row_id c = id) as Hrid by exact (wf_consumers _ Hw _ _ Hc).
  destruct (ConsumerDao.referenced w.(tables) c) eqn:Hr.
  - destruct (gDelete_restrict (by_ids [id]) (ConsumerDao.referenced w.(tables)) (clock w.(tick)) (tget w.(tables)) id c)
      as (msg & -> & Hmsg); [done|rewrite by_ids_one; unfold by_id; by rewrite Hrid, bool_decide_eq_true_2|done|].
    simpl. split; [by destruct w|]. eexists. split; [done|]. intros _. unfold handleDeleteError.
    cbn [db_message]. by rewrite Hmsg.
  - rewrite gDelete_hard.
    + right. rewrite filter_by_ids_one by (by apply wf_consumers). done.
    + intros k c' Hk Hp. rewrite by_ids_one in Hp. unfold by_id in Hp. apply bool_decide_eq_true in Hp.
      pose proof (wf_consumers _ Hw _ _ Hk) as Hk'. simpl in Hk'. rewrite Hp in Hk'. subst k.
      change (tget w.(tables)) with w.(tables).(consumers) in Hk. congruence.
Qed.

End Specs.
