(* ===== verification/ServiceWitnesses.v ===== *)
(** * The service theorems on a concrete deployment *)

From S2P Require Import Prelude GoLib Errors Types Json Bundle Validation Gorm World Dao DaoFacts Locks Services Samples ServiceFacts.
Import api.

Open Scope Z_scope.

Lemma sample_ids n : sample_world.(tables).(events) !! newID n = None.
Proof. apply lookup_singleton_None. discriminate. Qed.

Lemma Update_spec_witness :
  (exists r, Update_decision sample_world.(tables) update_request = Change r) /\
  update_done update_request sample_world (ResourceService.Update update_request sample_world).1
    (ResourceService.Update update_request sample_world).2.
Proof. split; [eexists; vm_compute; reflexivity|]. apply Update_spec. apply sample_tables_wf. Defined.

Lemma Update_completes_witness :
  exists r, (ResourceService.Update update_request sample_world).1 = Ok r /\ r.(Version) = 2.
Proof.
  eexists. split; [|shelve].
  rewrite (Update_completes update_request sample_world); [vm_compute; reflexivity|apply sample_tables_wf|].
  split; [done|vm_compute; reflexivity|apply sample_ids].
  Unshelve. reflexivity.
Defined.

Lemma UpdateStatus_spec_witness :
  status_done (status_request "5") sample_world (ResourceService.UpdateStatus (status_request "5") sample_world).1
    (ResourceService.UpdateStatus (status_request "5") sample_world).2 /\
  exists r, (ResourceService.UpdateStatus (status_request "5") sample_world).1 = Ok (r, true).
Proof.
  split; [apply UpdateStatus_spec; apply sample_tables_wf|]. eexists. vm_compute. reflexivity.
Defined.

Lemma MarkAsDeleting_spec_witness :
  deleting_done "r1" sample_world (ResourceService.MarkAsDeleting "r1" sample_world).1
    (ResourceService.MarkAsDeleting "r1" sample_world).2.
Proof. apply MarkAsDeleting_spec; [apply sample_tables_wf|discriminate]. Defined.

Lemma Consumer_Delete_spec_witness :
  ConsumerDao.referenced sample_world.(tables) sample_consumer = true /\
  same_data sample_world (ConsumerService.Delete "c1" sample_world).2.
Proof.
  split; [vm_compute; reflexivity|].
  apply (Consumer_Delete_spec "c1" sample_consumer sample_world); [apply sample_tables_wf|discriminate|reflexivity].
Defined.

Lemma Create_spec_witness :
  Create_refusal create_request = None /\
  is_ok (ResourceService.Create create_request sample_world).1 = true /\
  wrote sample_world
    (tset (<[(created_row sample_world create_request).(ID) := persist (created_row sample_world create_request)]>
             sample_world.(tables).(resources)) sample_world.(tables))
    (created_row sample_world create_request).(ID) CreateEventType
    (ResourceService.Create create_request sample_world).2 (is_ok (ResourceService.Create create_request sample_world).1).
Proof.
  assert (Create_refusal create_request = None) as Hr by (vm_compute; reflexivity).
  split; [exact Hr|]. split; [vm_compute; reflexivity|].
  pose proof (Create_spec create_request sample_world) as H. cbv zeta in H. rewrite Hr in H. apply H.
Defined.
