(* ===== verification/Concurrency.v ===== *)
(** * Concurrent service calls

    Several server instances call Update, UpdateStatus and MarkAsDeleting at the same time.
    Between two statements of one call the others go on, so each call is cut into its stages
    (one statement, or the insertion of an event, each); running the stages of a call one
    after the other is the call of Services.v. What the calls share is the world and the
    advisory locks: a key is held by at most one call (Locks.v), from before its first stage
    until after its last one. *)

From S2P Require Import Prelude GoLib Errors Types Json Bundle Validation Gorm World Dao DaoFacts Locks Services ServiceFacts.
Import api errors Fmt.

Open Scope Z_scope.

(** ** Stages *)

Inductive update_pc :=
| UStart
| UWrite (found : Resource)       (** the row to write *)
| UEvent (updated : Resource)     (** the event to record *)
| UEnd (res : result Resource ServiceError).

Inductive status_pc := SStart | SWrite (found : Resource) | SEnd (res : result (Resource * bool) ServiceError).

Inductive mark_pc := MStart | MRepublish | MDelete | MEvent | MEnd (res : option ServiceError).

Section Stages.
Context `{env : Env} `{gorm : Gorm} `{lf : LockFactory} `{k8s : K8s} `{ce : CloudEvents} `{sf : Snowflake}
        `{tf : TimeFormat} `{cfg : ResourceConfig}.

Definition Update_stage (resource : Resource) (pc : update_pc) : M World update_pc :=
  match pc with
  | UStart =>
      let! r := ResourceDao.Get resource.(ID) in
      ret (match r with
           | Err e => UEnd (Err (get_error "Resource" "id" (GStr resource.(ID)) e))
           | Ok found =>
               if negb (IsZero found.(DeletedAt).(NTime)) then
                 UEnd (Err (Conflict "the resource is under deletion, id: %s" [GStr resource.(ID)]))
               else if decide (found.(Version) <> resource.(Version)) then
                 UEnd (Err (Conflict "the resource version is not the latest, the latest version: %d" [GInt found.(Version)]))
               else if decide (resource.(Payload) = found.(Payload)) then UEnd (Ok found)
               else match ValidateManifestBundle resource.(Payload) with
                    | Some err => UEnd (Err (Validation "the new manifest bundle in the resource is invalid, %v" [GStr err]))
                    | None => UWrite (set_VersionPayload (Int.int32 (found.(Version) + 1)) resource.(Payload) found)
                    end
           end)
  | UWrite found =>
      let! u := ResourceDao.Update found in
      ret (match u with
           | Err e => UEnd (Err (handleUpdateError "Resource" (db_message e)))
           | Ok updated => UEvent updated
           end)
  | UEvent updated =>
      let! err := ResourceService.create_event updated.(ID) UpdateEventType in
      ret (UEnd (match err with
                 | Some e => Err (handleUpdateError "Resource" (Error e))
                 | None => Ok updated
                 end))
  | UEnd res => ret (UEnd res)
  end.

Definition UpdateStatus_stage (resource : Resource) (pc : status_pc) : M World status_pc :=
  match pc with
  | SStart =>
      let! r := ResourceDao.Get resource.(ID) in
      ret (match r with
           | Err e => SEnd (Err (get_error "Resource" "id" (GStr resource.(ID)) e))
           | Ok found =>
               if decide (found.(Version) <> resource.(Version)) then SEnd (Ok (found, false))
               else if decide (resource.(Status) = found.(Status)) then SEnd (Ok (found, false))
               else match ResourceService.status_newer resource found with
                    | Err e => SEnd (Err e)
                    | Ok false => SEnd (Ok (found, false))
                    | Ok true => SWrite (set_Status resource.(Status) found)
                    end
           end)
  | SWrite found =>
      let! u := ResourceDao.UpdateStatus found in
      ret (SEnd (match u with
                 | Err e => Err (handleUpdateError "Resource" (db_message e))
                 | Ok updated => Ok (updated, true)
                 end))
  | SEnd res => ret (SEnd res)
  end.

Definition MarkAsDeleting_stage (id : string) (pc : mark_pc) : M World mark_pc :=
  match pc with
  | MStart =>
      let! r := ResourceDao.Get id in
      ret (match r with
           | Err e => let svcErr := get_error "Resource" "id" (GStr id) e in
                      MEnd (if Is404 svcErr then None else Some svcErr)
           | Ok existing => if existing.(DeletedAt).(Valid) then MRepublish else MDelete
           end)
  | MRepublish => let! res := ResourceService.republishDeleteEvent id in ret (MEnd res)
  | MDelete =>
      let! d := ResourceDao.Delete id false in
      ret (match d with
           | Err e => MEnd (Some (handleDeleteError "Resource"
                        (Error (GeneralError "Unable to delete resource: %s" [GStr (db_message e)]))))
           | Ok _ => MEvent
           end)
  | MEvent =>
      let! err := ResourceService.create_event id DeleteEventType in
      ret (MEnd (match err with
                 | Some e => Some (handleDeleteError "Resource" (Error e))
                 | None => None
                 end))
  | MEnd res => ret (MEnd res)
  end.

(** Cutting the calls into stages changes nothing: the stages of Update, UpdateStatus and
    MarkAsDeleting, run one after the other, give the result and the world of the call. *)
Theorem stages_are_calls w :
  (forall req,
     (let! p := Update_stage req UStart in let! p := Update_stage req p in Update_stage req p) w =
     (let! r := ResourceService.Update_locked req in ret (UEnd r)) w) /\
  (forall req,
     (let! p := UpdateStatus_stage req SStart in UpdateStatus_stage req p) w =
     (let! r := ResourceService.UpdateStatus_locked req in ret (SEnd r)) w) /\
  (forall id,
     (let! p := MarkAsDeleting_stage id MStart in let! p := MarkAsDeleting_stage id p in MarkAsDeleting_stage id p) w =
     (let! r := ResourceService.MarkAsDeleting_locked id in ret (MEnd r)) w).
Proof.
  split_and!; [intros req|intros req|intros id];
    unfold Update_stage, UpdateStatus_stage, MarkAsDeleting_stage, ResourceService.Update_locked,
      ResourceService.UpdateStatus_locked, ResourceService.MarkAsDeleting_locked; rewrite !bind_run.
  - destruct (ResourceDao.Get _ w) as [[found|e] w1]; cbn [ret]; [|done].
    destruct (negb _); [done|]. case_decide; [done|]. case_decide; [done|].
    destruct (ValidateManifestBundle _); [done|]. cbv zeta. rewrite !bind_run.
    destruct (ResourceDao.Update _ w1) as [[updated|e] w2]; cbn [ret]; [|done]. rewrite !bind_run.
    by destruct (ResourceService.create_event _ _ w2).
  - destruct (ResourceDao.Get _ w) as [[found|e] w1]; cbn [ret]; [|done].
    case_decide; [done|]. case_decide; [done|]. destruct (ResourceService.status_newer _ _) as [[]|]; [|done..].
    rewrite !bind_run. by destruct (ResourceDao.UpdateStatus _ w1) as [[] ?].
  - destruct (ResourceDao.Get _ w) as [[found|e] w1]; cbn [ret]; [|done].
    destruct (Valid _).
    + rewrite !bind_run. by destruct (ResourceService.republishDeleteEvent id w1).
    + rewrite !bind_run. destruct (ResourceDao.Delete _ _ w1) as [[[]|e] w2]; cbn [ret]; [|done]. rewrite !bind_run.
      by destruct (ResourceService.create_event _ _ w2).
Qed.
End Stages.

(** ** The system *)

Definition LockType_code (t : LockType) : nat :=
  match t with Migrations => 0 | Resources => 1 | ResourceStatus => 2 | Events => 3 | Instances => 4 end%nat.
Definition LockType_decode (n : nat) : LockType := nth n [Migrations; Resources; ResourceStatus; Events] Instances.
#[export] Instance LockType_countable : Countable LockType.
Proof. refine (inj_countable' LockType_code LockType_decode _). by intros []. Defined.

Inductive call :=
| CallUpdate (req : Resource) (pc : update_pc)
| CallStatus (req : Resource) (pc : status_pc)
| CallMark (id : string) (pc : mark_pc).

(** The lock a call takes. *)
Definition key (c : call) : string * LockType :=
  match c with
  | CallUpdate req _ => (req.(ID), Resources)
  | CallStatus req _ => (req.(ID), ResourceStatus)
  | CallMark id _ => (id, Resources)
  end.

Definition begins (c : call) : bool :=
  match c with
  | CallUpdate _ UStart | CallStatus _ SStart | CallMark _ MStart => true
  | _ => false
  end.
Definition ended (c : call) : bool :=
  match c with
  | CallUpdate _ (UEnd _) | CallStatus _ (SEnd _) | CallMark _ (MEnd _) => true
  | _ => false
  end.

(** [t_wrote]: an Update that has written its new version. *)
Record thread := mkThread { t_call : call; t_running : bool; t_wrote : bool }.
Record system := mkSystem {
  sys_world : World;
  held : gmap (string * LockType) nat;
  threads : gmap nat thread;
}.

Section System.
Context `{env : Env} `{gl : GormLaws} `{ll : LockFactoryLaws} `{k8s : K8s} `{ce : CloudEvents} `{sf : Snowflake}
        `{tf : TimeFormat} `{cfg : ResourceConfig} `{el : !EnvLaws}.

(** The next stage of a call, and whether it wrote a version. *)
Definition run_stage (c : call) : M World (call * bool) :=
  match c with
  | CallUpdate req pc =>
      let! pc' := Update_stage req pc in
      ret (CallUpdate req pc', match pc, pc' with UWrite _, UEvent _ => true | _, _ => false end)
  | CallStatus req pc => let! pc' := UpdateStatus_stage req pc in ret (CallStatus req pc', false)
  | CallMark id pc => let! pc' := MarkAsDeleting_stage id pc in ret (CallMark id pc', false)
  end.

(** A call takes its lock, runs a stage, or gives the lock back; the row of a deleted
    resource goes, which takes no lock; and anything else happens to the other tables. *)
Inductive sys_step : system -> system -> Prop :=
| SysAcquire k t s :
    s.(threads) !! k = Some t -> t.(t_running) = false -> begins t.(t_call) = true ->
    s.(held) !! key t.(t_call) = None ->
    sys_step s (mkSystem s.(sys_world) (<[key t.(t_call) := k]> s.(held))
                  (<[k := mkThread t.(t_call) true t.(t_wrote)]> s.(threads)))
| SysRun k t c wrote w s :
    s.(threads) !! k = Some t -> t.(t_running) = true -> ended t.(t_call) = false ->
    run_stage t.(t_call) s.(sys_world) = ((c, wrote), w) ->
    sys_step s (mkSystem w s.(held) (<[k := mkThread c true (t.(t_wrote) || wrote)]> s.(threads)))
| SysRelease k t s :
    s.(threads) !! k = Some t -> t.(t_running) = true -> ended t.(t_call) = true ->
    sys_step s (mkSystem s.(sys_world) (delete (key t.(t_call)) s.(held))
                  (<[k := mkThread t.(t_call) false t.(t_wrote)]> s.(threads)))
| SysPurge id s :
    let t := s.(sys_world).(tables) in
    sys_step s (mkSystem (set_tables (tset (delete id t.(resources)) t) s.(sys_world)) s.(held) s.(threads))
| SysOther w s :
    tables_wf w.(tables) -> w.(tables).(resources) = s.(sys_world).(tables).(resources) ->
    sys_step s (mkSystem w s.(held) s.(threads)).

Definition sys_steps : relation system := rtc sys_step.

(** The requests: a resource has an id, and a version is a positive 32-bit integer with one
    more to come. *)
Definition request_ok (c : call) : Prop :=
  match c with
  | CallUpdate req _ => 0 <= req.(Version) < 2 ^ 31 - 1
  | CallStatus _ _ => True
  | CallMark id _ => id <> ""
  end.

Definition initial (s : system) : Prop :=
  tables_wf s.(sys_world).(tables) /\ s.(held) = ∅ /\
  forall k t, s.(threads) !! k = Some t ->
    t.(t_running) = false /\ t.(t_wrote) = false /\ begins t.(t_call) = true /\ request_ok t.(t_call).

(** ** What a stage does to the rows *)

Definition rows (w : World) : gmap string Resource := w.(tables).(resources).

(** A row as far as the locks protect it. *)
Definition same_version (r r' : Resource) : Prop := r'.(Version) = r.(Version) /\ r'.(DeletedAt) = r.(DeletedAt).

(** Every row there was, and how it changed. *)
Definition rows_from (P : string -> Resource -> Resource -> Prop) (w w' : World) : Prop :=
  forall id r', rows w' !! id = Some r' -> exists r, rows w !! id = Some r /\ P id r r'.

Lemma rows_same P w w' : (forall id r, P id r r) -> rows w' = rows w -> rows_from P w w'.
Proof. intros HP He id r' Hr. rewrite He in Hr. by exists r'. Qed.

Lemma rows_alter (P : string -> Resource -> Resource -> Prop) f id w w' :
  (forall j r, P j r r) -> (forall r, P id r (f r)) -> rows w' = alter f id (rows w) -> rows_from P w w'.
Proof.
  intros HP Hf He j r' Hr. rewrite He in Hr. destruct (decide (j = id)) as [->|Hne].
  - rewrite lookup_alter_eq in Hr. apply fmap_Some in Hr as (r & Hr & ->). by exists r.
  - rewrite lookup_alter_ne in Hr by done. by exists r'.
Qed.

Lemma create_event_rows id ty w : rows (ResourceService.create_event id ty w).2 = rows w.
Proof.
  unfold rows. destruct (create_event_recorded id ty w) as [[-> _]|e _ _ -> _|e _ _ -> _]; done.
Qed.

Lemma republish_rows id w : rows (ResourceService.republishDeleteEvent id w).2 = rows w.
Proof.
  unfold rows. destruct (republish_spec id w) as [[[-> _] _]|[[-> _]|e _ _ -> _|e _ _ -> _]]; done.
Qed.

(** A stage changes a row's version or deletion only under the Resources lock of the row:
    Update writes the version it decided on, MarkAsDeleting the deletion time. *)
Definition changes (c : call) (wrote : bool) (id : string) (r r' : Resource) : Prop :=
  same_version r r' \/
  (key c = (id, Resources) /\
     (r'.(Version) = r.(Version) /\ wrote = false \/
      exists req found, c = CallUpdate req (UWrite found) /\ wrote = true /\
        r'.(Version) = found.(Version) /\ r'.(DeletedAt) = r.(DeletedAt))).

Lemma changes_refl c wrote id r : changes c wrote id r r.
Proof. by left. Qed.

#[local] Hint Unfold ResourceDao.Get ResourceDao.Update ResourceDao.UpdateStatus ResourceDao.Delete
  Update_stage UpdateStatus_stage MarkAsDeleting_stage run_stage : ops.

Lemma run_stage_wf c : always keeps_wf (run_stage c).
Proof. destruct c as [req []|req []|id []]; cbn [run_stage Update_stage UpdateStatus_stage MarkAsDeleting_stage]; always_auto. Qed.

Lemma updates_rows f id w :
  wf_tables w -> (forall r, same_version r (f r)) ->
  let m := or_rollback (st_updates true (by_id id) f) in
  rows_from (fun _ => same_version) w (m w).2.
Proof.
  intros Hw Hf. cbv zeta. destruct (ResourceDao_updates_run id f w Hw) as [n ->].
  destruct (fault _); [by apply rows_same|]. eapply (rows_alter _ (updated_row f (clock (tick w))) id); [done| |reflexivity].
  intros r. destruct (Hf r) as [Hv Hd]. by split.
Qed.

Lemma rows_weaken (P Q : string -> Resource -> Resource -> Prop) w w' :
  (forall id r r', P id r r' -> Q id r r') -> rows_from P w w' -> rows_from Q w w'.
Proof. intros HPQ Hr id r' Hr'. destruct (Hr id r' Hr') as (r & ? & ?). eauto. Qed.

Lemma rows_from_with (P Q : string -> Resource -> Resource -> Prop) w w' :
  (forall id r r', rows w !! id = Some r -> P id r r' -> Q id r r') -> rows_from P w w' -> rows_from Q w w'.
Proof. intros HPQ Hr id r' Hr'. destruct (Hr id r' Hr') as (r & ? & ?). eauto. Qed.

(** The write of Update. *)
Lemma write_rows (req found : Resource) w :
  wf_tables w -> found.(ID) = req.(ID) ->
  match Update_stage req (UWrite found) w with
  | (UEvent _, w') => rows w' = alter (updated_row (set_VersionPayload found.(Version) found.(Payload)) (clock (tick w))) req.(ID) (rows w)
  | (UEnd _, w') => rows w' = rows w
  | _ => False
  end.
Proof.
  intros Hw Hid. unfold Update_stage, ResourceDao.Update. rewrite !bind_run.
  destruct (ResourceDao_updates_run found.(ID) (set_VersionPayload found.(Version) found.(Payload)) w Hw) as [n Hu].
  rewrite Hu. destruct (fault _); [done|]. cbn. by rewrite Hid.
Qed.

Lemma run_stage_rows c w c' wrote w' :
  wf_tables w -> request_ok c ->
  (forall req found : Resource, c = CallUpdate req (UWrite found) -> found.(ID) = req.(ID)) ->
  run_stage c w = ((c', wrote), w') -> key c' = key c /\ rows_from (changes c wrote) w w'.
Proof.
  intros Hw Hok Hid. destruct c as [req pc|req pc|id pc]; cbn [run_stage]; rewrite bind_run.
  - destruct pc as [|found|updated|res]; cbn [Update_stage]; rewrite ?bind_run.
    + rewrite ResourceDao_Get_run by done. intros [= <- <- <-]. split; [done|]. apply rows_same; [apply changes_refl|done].
    + pose proof (write_rows req found w Hw (Hid _ _ eq_refl)) as Hr. cbn [Update_stage] in Hr. rewrite bind_run in Hr.
      destruct (ResourceDao.Update found w) as [u w1]. cbn [ret] in *. intros [= <- <- <-]. split; [done|].
      destruct u; [|apply rows_same; [apply changes_refl|done]].
      eapply rows_alter; [apply changes_refl| |exact Hr]. intros r. right. split; [done|]. right. by exists req, found.
    + pose proof (create_event_rows updated.(ID) UpdateEventType w) as Hr.
      destruct (ResourceService.create_event _ _ w) as [e w1]. cbn in *. intros [= <- <- <-]. split; [done|].
      apply rows_same; [apply changes_refl|done].
    + intros [= <- <- <-]. split; [done|]. apply rows_same; [apply changes_refl|done].
  - destruct pc as [|found|res]; cbn [UpdateStatus_stage]; rewrite ?bind_run.
    + rewrite ResourceDao_Get_run by done. intros [= <- <- <-]. split; [done|]. apply rows_same; [apply changes_refl|done].
    + unfold ResourceDao.UpdateStatus. rewrite !bind_run.
      pose proof (updates_rows (set_Status found.(Status)) found.(ID) w Hw ltac:(done)) as Hr. cbv zeta in Hr.
      destruct (or_rollback _ w) as [u w1]. cbn in *. intros [= <- <- <-]. split; [done|].
      eapply rows_weaken; [|exact Hr]. intros. by left.
    + intros [= <- <- <-]. split; [done|]. apply rows_same; [apply changes_refl|done].
  - destruct pc as [| | | |res]; cbn [MarkAsDeleting_stage]; rewrite ?bind_run.
    + rewrite ResourceDao_Get_run by done. intros [= <- <- <-]. split; [done|]. apply rows_same; [apply changes_refl|done].
    + pose proof (republish_rows id w) as Hr. destruct (ResourceService.republishDeleteEvent id w) as [e w1].
      cbn in *. intros [= <- <- <-]. split; [done|]. apply rows_same; [apply changes_refl|done].
    + rewrite ResourceDao_Delete_run by done. destruct (fault _); intros [= <- <- <-]; (split; [done|]).
      { apply rows_same; [apply changes_refl|done]. }
      eapply rows_alter; [apply changes_refl| |reflexivity]. intros r. right. split; [done|]. left. by case_match.
    + pose proof (create_event_rows id DeleteEventType w) as Hr.
      destruct (ResourceService.create_event _ _ w) as [e w1]. cbn in *. intros [= <- <- <-]. split; [done|].
      apply rows_same; [apply changes_refl|done].
    + intros [= <- <- <-]. split; [done|]. apply rows_same; [apply changes_refl|done].
Qed.

(** ** The invariant *)

(** An Update about to write still sees the version it checked, on a row that is not being
    deleted; one that has written sees a newer version. *)
Definition update_ok (rs : gmap string Resource) (req : Resource) (pc : update_pc) (wrote : bool) : Prop :=
  (forall found : Resource, pc = UWrite found -> found.(ID) = req.(ID) /\ found.(Version) = req.(Version) + 1 /\
     forall r : Resource, rs !! req.(ID) = Some r -> r.(Version) = req.(Version) /\ IsZero r.(DeletedAt).(NTime) = true) /\
  (wrote = true -> (forall found, pc <> UWrite found) /\ pc <> UStart /\
     forall r : Resource, rs !! req.(ID) = Some r -> req.(Version) < r.(Version)).

Definition call_ok (rs : gmap string Resource) (c : call) (wrote : bool) : Prop :=
  match c with CallUpdate req pc => update_ok rs req pc wrote | _ => True end.

Definition thread_ok (s : system) (k : nat) (t : thread) : Prop :=
  request_ok t.(t_call) /\ (t.(t_running) = true -> s.(held) !! key t.(t_call) = Some k) /\
  (t.(t_running) = false -> begins t.(t_call) || ended t.(t_call) = true) /\
  call_ok (rows s.(sys_world)) t.(t_call) t.(t_wrote).

Definition sys_inv (s : system) : Prop :=
  wf_tables s.(sys_world) /\ forall k t, s.(threads) !! k = Some t -> thread_ok s k t.

Lemma initial_inv s : initial s -> sys_inv s.
Proof.
  intros (Hw & _ & Ht). split; [done|]. intros k t Hk. destruct (Ht k t Hk) as (Hr & Hwr & Hb & Hok).
  split_and!; [done|congruence|by rewrite Hb|]. rewrite Hwr.
  by destruct (t_call t) as [req []| |].
Qed.

(** What the others do is no matter to a thread: rows at worst get newer, and those whose
    lock it holds stay. *)
Definition rows_kept (j : nat) (s : system) (w' : World) : Prop :=
  rows_from (fun id r r' => r.(Version) <= r'.(Version) /\
               (s.(held) !! (id, Resources) = Some j -> same_version r r')) s.(sys_world) w'.

Lemma thread_ok_frame s s' j t :
  rows_kept j s s'.(sys_world) -> (t.(t_running) = true -> s'.(held) !! key t.(t_call) = s.(held) !! key t.(t_call)) ->
  thread_ok s j t -> thread_ok s' j t.
Proof.
  intros Hr Hh (Hok & Hheld & Hb & Hc). split_and!; [done|by intros Hrun; rewrite Hh, Hheld|done|].
  destruct (t_call t) as [req pc| |] eqn:Hcall; [|done..]. destruct Hc as [Hc1 Hc2]. split.
  - intros found ->. destruct (Hc1 found eq_refl) as (Hid & Hv & Hrow). split_and!; [done|done|]. intros r' Hr'.
    destruct (Hr _ _ Hr') as (r & Hrr & _ & Hs). destruct (t_running t) eqn:Hrun; [|by specialize (Hb eq_refl)].
    destruct (Hs (Hheld eq_refl)) as [-> ->]. by apply Hrow.
  - intros Hw. destruct (Hc2 Hw) as (? & ? & Hrow). split_and!; [done|done|]. intros r' Hr'.
    destruct (Hr _ _ Hr') as (r & Hrr & Hle & _). specialize (Hrow r Hrr). lia.
Qed.

Lemma rows_kept_refl j s w' : rows w' = rows s.(sys_world) -> rows_kept j s w'.
Proof. intros He. apply rows_same; [|done]. intros. split; [lia|done]. Qed.

(** A stage of another call. *)
Lemma rows_kept_stage j k s t c' wrote w' :
  s.(threads) !! k = Some t -> j <> k -> sys_inv s -> t.(t_running) = true ->
  run_stage t.(t_call) s.(sys_world) = ((c', wrote), w') -> rows_kept j s w'.
Proof.
  intros Hk Hne [Hw Ht] Hrun Hst. destruct (Ht k t Hk) as (Hok & Hheld & _ & Hc).
  destruct (run_stage_rows _ _ _ _ _ Hw Hok ltac:(intros req found He; rewrite He in Hc; by apply Hc) Hst) as [_ Hrows].
  eapply rows_from_with; [|exact Hrows]. intros id r r' Hr Hch. destruct Hch as [[Hv Hd]|[Hkey Hch]].
  - split; [lia|done].
  - rewrite Hkey in Hheld. split; [|rewrite Hheld by done; congruence].
    destruct Hch as [[Hv _]|(req & found & He & _ & Hv & _)]; [lia|]. rewrite He in Hc, Hkey.
    destruct Hc as [Hc _]. destruct (Hc found eq_refl) as (_ & Hfv & Hrow). injection Hkey as <-.
    destruct (Hrow r Hr) as [Hrv _]. lia.
Qed.

(** An Update's own stage. *)
Lemma own_update req pc wrote0 w pc' w' :
  wf_tables w -> 0 <= req.(Version) < 2 ^ 31 - 1 -> update_ok (rows w) req pc wrote0 -> ended (CallUpdate req pc) = false ->
  Update_stage req pc w = (pc', w') ->
  update_ok (rows w') req pc' (wrote0 || match pc, pc' with UWrite _, UEvent _ => true | _, _ => false end).
Proof.
  intros Hw Hv [Hc1 Hc2] He. destruct pc as [|found|updated|res]; [| | |done].
  - assert (wrote0 = false) as -> by (destruct wrote0; [|done]; by destruct (Hc2 eq_refl) as (_ & ? & _)).
    cbn [Update_stage orb]. rewrite bind_run, ResourceDao_Get_run by done. intros [= <- <-]. split; [|done].
    destruct (fault _); [done|]. unfold rows in *. change (resources (tables (bump w))) with (resources (tables w)).
    destruct (resources (tables w) !! req.(ID)) as [row|] eqn:Hrow; [|done].
    intros found Hf. destruct (negb _) eqn:Hdel; [done|]. case_decide as Hver; [done|]. case_decide; [done|].
    destruct (ValidateManifestBundle _); [done|]. injection Hf as <-. apply negb_false_iff in Hdel.
    simpl in Hver. split_and!.
    + exact (wf_resources _ Hw _ _ Hrow).
    + simpl. rewrite Hver. apply Int.wrap_id; lia.
    + intros r [= <-]. by split.
  - assert (wrote0 = false) as -> by (destruct wrote0; [|done]; by destruct (Hc2 eq_refl) as (Hx & _); destruct (Hx found)).
    destruct (Hc1 found eq_refl) as (Hid & Hfv & Hrow). pose proof (write_rows req found w Hw Hid) as Hr.
    destruct (Update_stage req (UWrite found) w) as [p w1]. intros [= <- <-]. cbn [orb].
    destruct p as [|f|u|r]; [done|done| |]; (split; [done|]); [|done]. intros _. split_and!; [done|done|].
    intros r'. rewrite Hr, lookup_alter_eq. intros (r & Hrr & ->)%fmap_Some. change (req.(Version) < found.(Version)). lia.
  - cbn [Update_stage]. rewrite bind_run. pose proof (create_event_rows updated.(ID) UpdateEventType w) as Hr.
    destruct (ResourceService.create_event _ _ w) as [e w1]. cbn in Hr |- *. intros [= <- <-]. rewrite orb_false_r, Hr.
    split; [done|]. intros Hwr. destruct (Hc2 Hwr) as (_ & _ & ?). done.
Qed.

Lemma own_stage s k t c' wrote w' :
  sys_inv s -> s.(threads) !! k = Some t -> t.(t_running) = true -> ended t.(t_call) = false ->
  run_stage t.(t_call) s.(sys_world) = ((c', wrote), w') ->
  wf_tables w' /\ request_ok c' /\ key c' = key t.(t_call) /\ call_ok (rows w') c' (t.(t_wrote) || wrote).
Proof.
  intros [Hw Ht] Hk Hrun He Hst. destruct (Ht k t Hk) as (Hok & _ & _ & Hc).
  pose proof (run_stage_wf t.(t_call) s.(sys_world) Hw) as Hw'. rewrite Hst in Hw'. split; [exact Hw'|].
  destruct (t_call t) as [req pc|req pc|id pc]; cbn [run_stage] in Hst; rewrite bind_run in Hst.
  - destruct (Update_stage req pc _) as [pc' w1] eqn:Hu. injection Hst as <- <- <-. split_and!; [done|done|].
    exact (own_update req pc _ _ pc' w1 Hw Hok Hc He Hu).
  - destruct (UpdateStatus_stage req pc _) as [pc' w1]. by injection Hst as <- <- <-.
  - destruct (MarkAsDeleting_stage id pc _) as [pc' w1]. by injection Hst as <- <- <-.
Qed.

Lemma sys_step_inv s s' : sys_step s s' -> sys_inv s -> sys_inv s'.
Proof.
  intros Hst Hinv. pose proof Hinv as [Hw Ht]. destruct Hst as [k t s Hk Hrun Hb Hheld|k t c wrote w s Hk Hrun He Hst
    |k t s Hk Hrun He|id s t|w s Hww Hrs].
  - split; [done|]. intros j u Hj. cbn in Hj. destruct (Ht k t Hk) as (Hok & _ & _ & Hc).
    destruct (decide (j = k)) as [->|Hne].
    + rewrite lookup_insert_eq in Hj. injection Hj as <-. split_and!; [done|cbn; intros _; by rewrite lookup_insert_eq|done|done].
    + rewrite lookup_insert_ne in Hj by done. apply (thread_ok_frame s); [by apply rows_kept_refl| |by apply Ht].
      intros Hu. cbn. rewrite lookup_insert_ne; [done|]. intros Hkey. destruct (Ht j u Hj) as (_ & Hh & _).
      rewrite Hkey in Hheld. rewrite Hh in Hheld; done.
  - destruct (own_stage s k t c wrote w Hinv Hk Hrun He Hst) as (Hw' & Hok & Hkey & Hc). split; [done|].
    intros j u Hj. cbn in Hj. destruct (decide (j = k)) as [->|Hne].
    + rewrite lookup_insert_eq in Hj. injection Hj as <-. split_and!; [done| |done|done]. cbn. intros _. rewrite Hkey.
      destruct (Ht k t Hk) as (_ & Hh & _). by apply Hh.
    + rewrite lookup_insert_ne in Hj by done. apply (thread_ok_frame s); [|done|by apply Ht].
      exact (rows_kept_stage j k s t c wrote w Hk Hne Hinv Hrun Hst).
  - split; [done|]. intros j u Hj. cbn in Hj. destruct (Ht k t Hk) as (Hok & Hh & _ & Hc).
    destruct (decide (j = k)) as [->|Hne].
    + rewrite lookup_insert_eq in Hj. injection Hj as <-. split_and!; [done|done|cbn; by rewrite He, orb_true_r|done].
    + rewrite lookup_insert_ne in Hj by done. apply (thread_ok_frame s); [by apply rows_kept_refl| |by apply Ht].
      intros Hu. cbn. rewrite lookup_delete_ne; [done|]. intros Hkey. destruct (Ht j u Hj) as (_ & Hh' & _).
      specialize (Hh Hrun). specialize (Hh' Hu). rewrite Hkey in Hh. congruence.
  - split.
    + unfold wf_tables. cbn [sys_world set_tables tables]. apply (tset_wf (Row := Resource)); [done|]. intros i r Hi. apply lookup_delete_Some in Hi as [_ Hi].
      by apply (wf_resources _ Hw).
    + intros j u Hj. apply (thread_ok_frame s); [|done|by apply Ht]. intros i r' Hr.
      cbn in Hr. apply lookup_delete_Some in Hr as [_ Hr]. exists r'. split; [done|]. split; [lia|done].
  - split; [done|]. intros j u Hj. apply (thread_ok_frame s); [by apply rows_kept_refl|done|by apply Ht].
Qed.

Lemma sys_steps_inv s s' : sys_steps s s' -> sys_inv s -> sys_inv s'.
Proof. induction 1; eauto using sys_step_inv. Qed.

(** The Updates that wrote a resource that is still there wrote from different versions. *)
Definition distinct_writers (s : system) : Prop :=
  forall j k (req1 req2 : Resource) pc1 pc2 run1 run2,
    j <> k ->
    s.(threads) !! j = Some (mkThread (CallUpdate req1 pc1) run1 true) ->
    s.(threads) !! k = Some (mkThread (CallUpdate req2 pc2) run2 true) ->
    req1.(ID) = req2.(ID) -> is_Some (rows s.(sys_world) !! req1.(ID)) -> req1.(Version) <> req2.(Version).

(** Threads and rows stay as far as [distinct_writers] looks. *)
Lemma distinct_frame s s' :
  (forall k req pc run, s'.(threads) !! k = Some (mkThread (CallUpdate req pc) run true) ->
     exists pc' run', s.(threads) !! k = Some (mkThread (CallUpdate req pc') run' true)) ->
  (forall id, is_Some (rows s'.(sys_world) !! id) -> is_Some (rows s.(sys_world) !! id)) ->
  distinct_writers s -> distinct_writers s'.
Proof.
  intros Ht Hr Hd j k req1 req2 pc1 pc2 run1 run2 Hne (p1 & r1 & H1)%Ht (p2 & r2 & H2)%Ht Hid Hrow%Hr.
  by eapply Hd.
Qed.

Lemma insert_same_call k t run s u :
  s.(threads) !! k = Some t ->
  forall j req pc r, <[k := mkThread t.(t_call) run t.(t_wrote)]> s.(threads) !! j = Some u ->
  u = mkThread (CallUpdate req pc) r true -> exists pc' run', s.(threads) !! j = Some (mkThread (CallUpdate req pc') run' true).
Proof.
  intros Hk j req pc r Hj ->. destruct (decide (j = k)) as [->|Hne].
  - rewrite lookup_insert_eq in Hj. destruct t as [c r0 w0]. cbn in Hj. injection Hj as -> <- ->. eauto.
  - rewrite lookup_insert_ne in Hj by done. eauto.
Qed.

Lemma stage_update c w req pc wrote w' :
  run_stage c w = ((CallUpdate req pc, wrote), w') ->
  exists pc0, c = CallUpdate req pc0 /\ (wrote = true -> exists found, pc0 = UWrite found).
Proof.
  destruct c as [r p|r p|i p]; cbn [run_stage]; rewrite bind_run.
  - destruct (Update_stage r p w) as [p' w1]. intros [= -> -> <- _]. exists p. split; [done|]. destruct p; [done| |done..]. eauto.
  - by destruct (UpdateStatus_stage r p w).
  - by destruct (MarkAsDeleting_stage i p w).
Qed.

Lemma rows_kept_exist s k t c wrote w id :
  sys_inv s -> s.(threads) !! k = Some t -> run_stage t.(t_call) s.(sys_world) = ((c, wrote), w) ->
  is_Some (rows w !! id) -> is_Some (rows s.(sys_world) !! id).
Proof.
  intros [Hw Ht] Hk Hst [r' Hr']. destruct (Ht k t Hk) as (Hok & _ & _ & Hc).
  destruct (run_stage_rows _ _ _ _ _ Hw Hok ltac:(intros req found He; rewrite He in Hc; by apply Hc) Hst) as [_ Hrows].
  destruct (Hrows id r' Hr') as (r & Hr & _). by exists r.
Qed.

(** An Update that writes now does so from a version newer than that of any earlier writer. *)
Lemma writers_apart s j k req1 req2 pc1 run1 found run2 :
  sys_inv s -> s.(threads) !! j = Some (mkThread (CallUpdate req1 pc1) run1 true) ->
  s.(threads) !! k = Some (mkThread (CallUpdate req2 (UWrite found)) run2 false) ->
  req1.(ID) = req2.(ID) -> is_Some (rows s.(sys_world) !! req1.(ID)) -> req1.(Version) < req2.(Version).
Proof.
  intros [_ Ht] Hj Hk Hid [r Hr]. destruct (Ht j _ Hj) as (_ & _ & _ & _ & H1). destruct (Ht k _ Hk) as (_ & _ & _ & H2 & _).
  destruct (H1 eq_refl) as (_ & _ & Hlt). destruct (H2 found eq_refl) as (_ & _ & Heq).
  specialize (Hlt r Hr). rewrite Hid in Hr. destruct (Heq r Hr) as [<- _]. done.
Qed.

Lemma sys_step_distinct s s' : sys_step s s' -> sys_inv s -> distinct_writers s -> distinct_writers s'.
Proof.
  intros Hst Hinv Hd. destruct Hst as [k t s Hk Hrun Hb Hheld|k t c wrote w s Hk Hrun He Hst|k t s Hk Hrun He|id s t|w s Hww Hrs].
  1, 3: apply (distinct_frame s); [|done|done]; intros j req pc r Hj; by eapply insert_same_call.
  - pose proof (rows_kept_exist s k t c wrote w) as Hex.
    assert (forall j req pc run, <[k := mkThread c true (t_wrote t || wrote)]> s.(threads) !! j =
              Some (mkThread (CallUpdate req pc) run true) ->
            (exists pc' run', s.(threads) !! j = Some (mkThread (CallUpdate req pc') run' true)) \/
            j = k /\ exists found, t = mkThread (CallUpdate req (UWrite found)) true false) as Hold.
    { intros j req pc run Hj. destruct (decide (j = k)) as [->|Hne].
      - rewrite lookup_insert_eq in Hj. injection Hj as -> _ Hw.
        destruct (stage_update _ _ _ _ _ _ Hst) as (pc0 & Hc & Hwr). destruct t as [c0 r0 []]; cbn in *; subst; [left; eauto|].
        right. split; [done|]. destruct (Hwr eq_refl) as [found ->]. eauto.
      - rewrite lookup_insert_ne in Hj by done. left. eauto. }
    intros j1 j2 req1 req2 pc1 pc2 run1 run2 Hne H1 H2 Hid Hrow. cbn in H1, H2, Hrow.
    apply Hex in Hrow; [|done..].
    destruct (Hold _ _ _ _ H1) as [(p1 & r1 & H1')|[-> [f1 Hf1]]], (Hold _ _ _ _ H2) as [(p2 & r2 & H2')|[-> [f2 Hf2]]];
      [by eapply Hd|subst t|subst t|done].
    + pose proof (writers_apart s j1 k req1 req2 p1 r1 f2 true Hinv H1' Hk Hid Hrow). lia.
    + rewrite Hid in Hrow. pose proof (writers_apart s j2 k req2 req1 p2 r2 f1 true Hinv H2' Hk (eq_sym Hid) Hrow). lia.
  - apply (distinct_frame s); [by eauto| |done]. intros i [r Hr]. cbn in Hr. apply lookup_delete_Some in Hr as [_ Hr]. by exists r.
  - apply (distinct_frame s); [by eauto| |done]. intros i. cbn. unfold rows. by rewrite Hrs.
Qed.

Lemma sys_steps_distinct s s' : sys_steps s s' -> sys_inv s -> distinct_writers s -> distinct_writers s'.
Proof. induction 1; eauto using sys_step_distinct, sys_step_inv. Qed.

(** C8: No update is lost. However Update, UpdateStatus and MarkAsDeleting calls on several
    instances interleave, with statements failing and rows being purged on the way: two
    Update calls that both wrote a resource that is still there were not made from the same
    version. *)
Theorem no_lost_update s0 s j k (req1 req2 : Resource) pc1 pc2 run1 run2 :
  initial s0 -> sys_steps s0 s -> j <> k ->
  s.(threads) !! j = Some (mkThread (CallUpdate req1 pc1) run1 true) ->
  s.(threads) !! k = Some (mkThread (CallUpdate req2 pc2) run2 true) ->
  req1.(ID) = req2.(ID) -> is_Some (s.(sys_world).(tables).(resources) !! req1.(ID)) ->
  req1.(Version) <> req2.(Version).
Proof.
  intros Hi Hs. apply (sys_steps_distinct s0 s Hs (initial_inv s0 Hi)).
  intros j1 j2 r1 r2 p1 p2 u1 u2 _ H1. destruct Hi as (_ & _ & Ht). by destruct (Ht _ _ H1) as (_ & ? & _).
Qed.

(** C9: In every interleaving, a step that changes the version of a resource raises it by
    exactly one, is the write of an Update made from the old version, and happens only while
    the resource is not being deleted: marking and updating exclude each other. *)
Theorem version_steps s0 s s' id (r r' : Resource) :
  initial s0 -> sys_steps s0 s -> sys_step s s' ->
  s.(sys_world).(tables).(resources) !! id = Some r -> s'.(sys_world).(tables).(resources) !! id = Some r' ->
  r'.(Version) = r.(Version) \/
  (r'.(Version) = r.(Version) + 1 /\ IsZero r.(DeletedAt).(NTime) = true /\
   exists k (req found : Resource), s.(threads) !! k = Some (mkThread (CallUpdate req (UWrite found)) true false) /\
     req.(ID) = id /\ req.(Version) = r.(Version)).
Proof.
  intros Hi Hs Hst Hr Hr'. pose proof (sys_steps_inv s0 s Hs (initial_inv s0 Hi)) as [Hw Ht].
  destruct Hst as [k t s Hk Hrun Hb Hheld|k t c wrote w s Hk Hrun He Hst|k t s Hk Hrun He|i s t|w s Hww Hrs];
    cbn in Hr'; [left; congruence| |left; congruence| |left; congruence].
  - destruct (Ht k t Hk) as (Hok & _ & _ & Hc).
    destruct (run_stage_rows _ _ _ _ _ Hw Hok ltac:(intros req found Hx; rewrite Hx in Hc; by apply Hc) Hst) as [_ Hrows].
    destruct (Hrows id r' Hr') as (r0 & Hr0 & Hch). unfold rows in Hr0. rewrite Hr in Hr0. injection Hr0 as <-.
    destruct Hch as [[Hv _]|[Hkey [[Hv _]|(req & found & Hx & -> & Hv & _)]]]; [by left|by left|]. right.
    destruct t as [c0 run0 wrote0]. cbn in Hx, Hkey, Hrun, Hc. subst c0 run0. injection Hkey as <-. destruct Hc as [Hc1 Hc2].
    destruct (Hc1 found eq_refl) as (_ & Hfv & Hrow). destruct (Hrow r Hr) as [Hrv Hz].
    split_and!; [lia|done|]. exists k, req, found. split_and!; [|done|done].
    destruct wrote0; [|done]. destruct (Hc2 eq_refl) as (Hno & _). by destruct (Hno found).
  - apply lookup_delete_Some in Hr' as [_ Hr']. left. unfold t in Hr'. congruence.
Qed.

(** ** Running a schedule *)

(** The thread with the number takes its lock, runs a stage or gives the lock back,
    whichever it can. *)
Definition advance (k : nat) (s : system) : option system :=
  t ← s.(threads) !! k;
  if t.(t_running) then
    if ended t.(t_call) then
      Some (mkSystem s.(sys_world) (delete (key t.(t_call)) s.(held)) (<[k := mkThread t.(t_call) false t.(t_wrote)]> s.(threads)))
    else
      let '((c, wrote), w) := run_stage t.(t_call) s.(sys_world) in
      Some (mkSystem w s.(held) (<[k := mkThread c true (t.(t_wrote) || wrote)]> s.(threads)))
  else if begins t.(t_call) then
    match s.(held) !! key t.(t_call) with
    | Some _ => None
    | None => Some (mkSystem s.(sys_world) (<[key t.(t_call) := k]> s.(held)) (<[k := mkThread t.(t_call) true t.(t_wrote)]> s.(threads)))
    end
  else None.

Fixpoint schedule (ks : list nat) (s : system) : option system :=
  match ks with
  | [] => Some s
  | k :: ks => s' ← advance k s; schedule ks s'
  end.

Lemma advance_step k s s' : advance k s = Some s' -> sys_step s s'.
Proof.
  unfold advance. intros Ha. apply bind_Some in Ha as (t & Hk & Ha). destruct (t_running t) eqn:Hr.
  - destruct (ended (t_call t)) eqn:He; [injection Ha as <-; by econstructor|].
    destruct (run_stage _ _) as [[c wrote] w] eqn:Hst. injection Ha as <-. by econstructor.
  - destruct (begins (t_call t)) eqn:Hb; [|done]. destruct (held s !! _) eqn:Hh; [done|]. injection Ha as <-. by econstructor.
Qed.

Lemma schedule_steps ks s s' : schedule ks s = Some s' -> sys_steps s s'.
Proof.
  revert s. induction ks as [|k ks IH]; intros s Hs; cbn in Hs; [injection Hs as <-; apply rtc_refl|].
  apply bind_Some in Hs as (s1 & Ha & Hs). eapply rtc_l; [by eapply advance_step|by apply IH].
Qed.
End System.

(** * Concurrent calls on a concrete deployment *)

From S2P Require Import Samples.
Import api.

Open Scope Z_scope.

(** Two updates of r1 from versions 1 and 2, and a status for version 1. *)
Definition second_request : Resource :=
  set_VersionPayload 2 (sample_payload ["c"]) sample_resource.
Definition calls : gmap nat thread :=
  {[0%nat := mkThread (CallUpdate update_request UStart) false false;
    1%nat := mkThread (CallUpdate second_request UStart) false false;
    2%nat := mkThread (CallStatus (status_request "5") SStart) false false]}.
Definition idle : system := mkSystem sample_world ∅ calls.

Lemma idle_initial : initial idle.
Proof.
  split_and!; [apply sample_tables_wf|done|]. intros k t Hk. unfold idle, calls in Hk. cbn [threads] in Hk.
  apply lookup_insert_Some in Hk as [[<- <-]|[_ Hk]]; [split_and!; cbn; lia || done|].
  apply lookup_insert_Some in Hk as [[<- <-]|[_ Hk]]; [split_and!; cbn; lia || done|].
  apply lookup_singleton_Some in Hk as [<- <-]. done.
Qed.

Definition run_of (ks : list nat) : system := default idle (schedule ks idle).

(** Both updates run, one after the other. *)
Lemma no_lost_update_witness :
  exists pc1 pc2 run1 run2,
    (run_of [0; 0; 0; 0; 0; 1; 1; 1]%nat).(threads) !! 0%nat = Some (mkThread (CallUpdate update_request pc1) run1 true) /\
    (run_of [0; 0; 0; 0; 0; 1; 1; 1]%nat).(threads) !! 1%nat = Some (mkThread (CallUpdate second_request pc2) run2 true) /\
    update_request.(Version) <> second_request.(Version).
Proof.
  eexists _, _, _, _. split; [vm_compute; reflexivity|]. split; [vm_compute; reflexivity|].
  eapply (no_lost_update idle (run_of [0; 0; 0; 0; 0; 1; 1; 1]%nat) 0 1);
    [exact idle_initial|apply (schedule_steps [0; 0; 0; 0; 0; 1; 1; 1]%nat); vm_compute; reflexivity|done|
     vm_compute; reflexivity|vm_compute; reflexivity|reflexivity|].
  eexists. vm_compute. reflexivity.
Defined.

(** The write of the first update. *)
Definition before_write : system := run_of [0; 0]%nat.
Definition after_write : system := run_of [0; 0; 0]%nat.
Definition row_of (s : system) : Resource := default sample_resource (s.(sys_world).(tables).(resources) !! "r1").

Lemma version_steps_witness :
  (row_of before_write).(Version) = 1 /\ (row_of after_write).(Version) = 2 /\
  ((row_of after_write).(Version) = (row_of before_write).(Version) \/
   ((row_of after_write).(Version) = (row_of before_write).(Version) + 1 /\
    IsZero (row_of before_write).(DeletedAt).(NTime) = true /\
    exists k (req found : Resource),
      before_write.(threads) !! k = Some (mkThread (CallUpdate req (UWrite found)) true false) /\
      req.(ID) = "r1" /\ req.(Version) = (row_of before_write).(Version))).
Proof.
  split; [vm_compute; reflexivity|]. split; [vm_compute; reflexivity|].
  eapply (version_steps idle before_write after_write "r1");
    [exact idle_initial|apply (schedule_steps [0; 0]%nat); vm_compute; reflexivity|
     apply (advance_step 0); vm_compute; reflexivity|vm_compute; reflexivity|vm_compute; reflexivity].
Defined.

(** A status can land on a version it is not about. UpdateStatus compares the version
    under a lock that Update does not take: when the resource is updated between the
    comparison and the write, the status reported for version 1 is stored with version 2,
    and the call reports success. *)
Theorem status_of_older_version :
  exists s r, sys_steps idle s /\
    s.(threads) !! 2%nat = Some (mkThread (CallStatus (status_request "5") (SEnd (Ok (r, true)))) true false) /\
    (status_request "5").(Version) = 1 /\ (row_of s).(Version) = 2 /\ (row_of s).(Status) = sample_status "5".
Proof.
  eexists (run_of [2; 2; 0; 0; 0; 2]%nat), _. split; [apply (schedule_steps [2; 2; 0; 0; 0; 2]%nat); vm_compute; reflexivity|].
  split; [vm_compute; reflexivity|]. vm_compute. done.
Qed.
