(* ===== verification/Auth.v ===== *)
(** * Who may call the gRPC service

    cmd/maestro/server/auth_interceptor.go (the identity of a caller, from a token or a
    client certificate) and pkg/client/grpcauthorizer (what an identity may do). The
    review API of Kubernetes is the class [KubeClient]; the server is written against the
    interface [GRPCAuthorizer]. *)

From S2P Require Import Prelude GoLib Types Gorm World DaoFacts ServiceFacts.
Import Fmt.

Open Scope Z_scope.

(** ** The request context, as far as it is read *)

Record Certificate := mkCertificate {
  CommonName : string;
  Organization : list string;
}.

(** [peer.Peer.AuthInfo] *)
Inductive AuthInfo :=
| TLSInfo (VerifiedChains : list (list (option Certificate)))
| OtherAuthInfo.

Record Context := mkContext {
  peer : option AuthInfo;
  metadata : option (gmap string (list string));
  (** the values under contextUserKey and contextGroupsKey *)
  identity : option (string * list string);
}.

Definition newContextWithIdentity (ctx : Context) (user : string) (groups : list string) : Context :=
  mkContext ctx.(peer) ctx.(metadata) (Some (user, groups)).

(** ** Errors and outcomes of a call *)

Inductive Code := InvalidArgument | Unauthenticated.
(** [status.Error(code, msg)], or any other error with its text. *)
Inductive grpcError :=
| StatusError (code : Code) (msg : string)
| PlainError (msg : string).

(** A call returns (with an error or without) or panics. *)
Inductive rpc :=
| Returns (err : option grpcError)
| Panics.

(** ** grpcauthorizer *)

Class GRPCAuthorizer := {
  TokenReview : string -> M World (result (string * list string) string);
  (** action, resource type, resource, user, groups *)
  AccessReview : string -> string -> string -> string -> list string -> M World (result bool string);
}.

(** The reviews are calls to another system: they leave what this one keeps alone. *)
Definition keeps_data : relation World := fun w w' =>
  same_data w w' /\ w'.(broadcasts) = w.(broadcasts).
#[export] Instance keeps_data_preorder : PreOrder keeps_data.
Proof.
  split; [done|]. intros w1 w2 w3 [Hs Hb] [Hs' Hb']. split; [by etrans|congruence].
Qed.
Class GRPCAuthorizerLaws `{GRPCAuthorizer} : Prop := {
  TokenReview_frame token : always keeps_data (TokenReview token);
  AccessReview_frame a t r u g : always keeps_data (AccessReview a t r u g);
}.

(** authenticationv1 and authorizationv1: the user of an authenticated token, and whether
    a verb on a path is allowed. What the API answers at a step. *)
Record SubjectAccessReviewSpec := mkSubjectAccessReviewSpec {
  Path : string;
  Verb : string;
  User : string;
  Groups : list string;
}.
Class KubeClient := {
  TokenReviews_Create : nat -> string -> result (option (string * list string)) string;
  SubjectAccessReviews_Create : nat -> SubjectAccessReviewSpec -> result bool string;
}.

Module KubeGRPCAuthorizer.
Section Ops.
Context `{kube : KubeClient}.

Definition TokenReview (token : string) : M World (result (string * list string) string) :=
  let! n := step in
  ret (match TokenReviews_Create n token with
       | Err e => Err e
       | Ok (Some (user, groups)) => Ok (user, groups)
       | Ok None => Err "token not authenticated"
       end).

Definition AccessReview (action resourceType resource user : string) (groups : list string) :
  M World (result bool string) :=
  if decide (user <> "" /\ length groups = 0%nat) then ret (Err "groups must be set when user is specified")
  else if decide (action <> "pub" /\ action <> "sub") then
    ret (Err (Sprintf "unsupported action: %s" [GStr action]))
  else if decide (resource = "") then ret (Err "resource cannot be empty")
  else if decide (resourceType = "source") then
    let! n := step in
    ret (SubjectAccessReviews_Create n
           (mkSubjectAccessReviewSpec (Sprintf "/sources/%s" [GStr resource]) action user groups))
  else ret (Err (Sprintf "unsupported resource type: %s" [GStr resourceType])).

Definition NewKubeGRPCAuthorizer : GRPCAuthorizer :=
  {| Auth.TokenReview := TokenReview; Auth.AccessReview := AccessReview |}.
End Ops.
End KubeGRPCAuthorizer.
#[export] Instance kube_authorizer `{KubeClient} : GRPCAuthorizer := KubeGRPCAuthorizer.NewKubeGRPCAuthorizer.

Module MockGRPCAuthorizer.
Definition TokenReview (token : string) : M World (result (string * list string) string) := ret (Ok ("", [])).
Definition AccessReview (action resourceType resource user : string) (groups : list string) :
  M World (result bool string) := ret (Ok true).
Definition NewMockGRPCAuthorizer : GRPCAuthorizer := {| Auth.TokenReview := TokenReview; Auth.AccessReview := AccessReview |}.
End MockGRPCAuthorizer.

(** ** auth_interceptor.go *)

Definition identityFromCertificate (ctx : Context) : result (string * list string) grpcError :=
  match ctx.(peer) with
  | None => Err (StatusError Unauthenticated "no peer found")
  | Some OtherAuthInfo => Err (StatusError Unauthenticated "unexpected peer transport credentials")
  | Some (TLSInfo VerifiedChains) =>
      match VerifiedChains with
      | (Some cert :: _) :: _ =>
          if decide (cert.(CommonName) = "") then
            Err (StatusError Unauthenticated "could not find user in peer certificate")
          else if decide (length cert.(Organization) = 0%nat) then
            Err (StatusError Unauthenticated "could not find group in peer certificate")
          else Ok (cert.(CommonName), cert.(Organization))
      | _ => Err (StatusError Unauthenticated "could not verify peer certificate")
      end
  end.

Section Interceptors.
Context `{authorizer : GRPCAuthorizer}.

Definition identityFromToken (ctx : Context) : M World (result (string * list string) grpcError) :=
  match ctx.(metadata) with
  | None => ret (Err (StatusError InvalidArgument "missing metadata"))
  | Some md =>
      match md !! "authorization" with
      | Some (authorization :: _) =>
          let token := Strings.TrimPrefix authorization "Bearer " in
          let! r := TokenReview token in
          ret (map_err PlainError r)
      | _ => ret (Err (StatusError Unauthenticated "invalid token"))
      end
  end.

(** The identity an authentication type gives, [unsupported] for any other type. *)
Definition identify (unsupported authNType : string) (ctx : Context) : M World (result (string * list string) grpcError) :=
  if decide (authNType = "token") then identityFromToken ctx
  else if decide (authNType = "mtls") then ret (identityFromCertificate ctx)
  else if decide (authNType = "mock") then ret (Ok ("mock", ["mock-group"]))
  else ret (Err (PlainError (Sprintf unsupported [GStr authNType]))).

Definition intercept (unsupported authNType : string) (ctx : Context) (handler : Context -> M World rpc) : M World rpc :=
  let! r := identify unsupported authNType ctx in
  match r with
  | Err e => ret (Returns (Some e))
  | Ok (user, groups) => handler (newContextWithIdentity ctx user groups)
  end.

Definition newAuthUnaryInterceptor : string -> Context -> (Context -> M World rpc) -> M World rpc :=
  intercept "unsupported authentication type %s".
(** The wrapped stream differs from the given one in its context only. *)
Definition newAuthStreamInterceptor : string -> Context -> (Context -> M World rpc) -> M World rpc :=
  intercept "unsupported authentication Type %s".

End Interceptors.

(** ** What the kube authorizer needs to allow a call *)

Section Kube.
Context `{kube : KubeClient}.

#[export] Instance kube_laws : GRPCAuthorizerLaws.
Proof.
  split.
  - intros token w. done.
  - intros a t r u g w. cbn [AccessReview kube_authorizer KubeGRPCAuthorizer.NewKubeGRPCAuthorizer].
    unfold KubeGRPCAuthorizer.AccessReview. by repeat case_decide.
Qed.

(** An allowed review was asked of the API for exactly this action, source and caller. *)
Lemma AccessReview_allowed action resource user groups w :
  (AccessReview action "source" resource user groups w).1 = Ok true ->
  (action = "pub" \/ action = "sub") /\ resource <> "" /\ (user <> "" -> groups <> []) /\
  SubjectAccessReviews_Create w.(tick)
    (mkSubjectAccessReviewSpec ("/sources/" +:+ resource) action user groups) = Ok true.
Proof.
  cbn [AccessReview kube_authorizer KubeGRPCAuthorizer.NewKubeGRPCAuthorizer]. unfold KubeGRPCAuthorizer.AccessReview.
  case_decide as Hg; [done|]. case_decide as Ha; [done|]. case_decide as Hr; [done|].
  rewrite decide_True by done. cbn [step bind ret fst]. intros Hs. split_and!.
  - destruct (decide (action = "pub")); [by left|right]. destruct (decide (action = "sub")); [done|]. tauto.
  - done.
  - intros Hu ->. by apply Hg.
  - rewrite <-Hs. do 2 f_equal. change ("/sources/" +:+ resource = "/sources/" +:+ (resource +:+ "")).
    by rewrite Strings.append_nil_r.
Qed.

End Kube.
