(* ===== verification/Controllers.v ===== *)
(** * pkg/controllers: the event controllers

    The spec-event controller (framework.go) with its filters (event_filter.go), the
    status-event controller and the two detectors. The rate-limited work queue of
    client-go is the class [WorkQueue]; the handlers a controller calls are functions
    of the world given at registration. *)

From S2P Require Import Prelude GoLib Errors Types Json Bundle Validation Gorm World Dao DaoFacts Locks Services.
Import api errors Fmt.

Open Scope Z_scope.

(** ** k8s.io/client-go/util/workqueue *)

Class WorkQueue := {
  Queue : Type;
  qAdd : string -> Queue -> Queue;
  (** None: the queue is shut down *)
  qGet : Queue -> option string * Queue;
  qDone : string -> Queue -> Queue;
  qAddRateLimited : string -> Queue -> Queue;
  qForget : string -> Queue -> Queue;
  (** the keys that some later Get returns *)
  pending : Queue -> gset string;
}.

Class WorkQueueLaws `{WorkQueue} : Prop := {
  pending_Add k q : pending (qAdd k q) = {[k]} ∪ pending q;
  pending_Get_Some k q q' : qGet q = (Some k, q') -> k ∈ pending q /\ pending q' = pending q ∖ {[k]};
  pending_Get_None q q' : qGet q = (None, q') -> pending q' = pending q;
  pending_Done k q : pending (qDone k q) = pending q;
  pending_AddRateLimited k q : pending (qAddRateLimited k q) = {[k]} ∪ pending q;
  pending_Forget k q : pending (qForget k q) = pending q;
}.

Section Controllers.
Context `{env : Env} `{gorm : Gorm} `{lf : LockFactory} `{wq : WorkQueue}.

(** What a controller of this instance works on: the world, the owner ids its lock
    filter remembers, and its queue. *)
Record CState := mkCState {
  world : World;
  filterLocks : gmap string string;
  eventsQueue : Queue;
}.

Definition onWorld {A} (m : M World A) : M CState A :=
  fun s => let '(a, w) := m s.(world) in (a, mkCState w s.(filterLocks) s.(eventsQueue)).
Definition onQueue (f : Queue -> Queue) : M CState unit :=
  modify (fun s => mkCState s.(world) s.(filterLocks) (f s.(eventsQueue))).

(** ** event_filter.go *)

Record EventFilter := mkEventFilter {
  Filter : string -> M CState (result bool string);
  DeferredAction : string -> M CState unit;
}.

Definition LockBasedEventFilter_Filter (id : string) : M CState (result bool string) :=
  let! '(lockOwnerID, acquired, err) := onWorld (NewNonBlockingLock id Events) in
  modify (fun s => mkCState s.(world) (<[id := lockOwnerID]> s.(filterLocks)) s.(eventsQueue)) >>
  ret (match err with
       | Some e => Err (Sprintf "error obtaining the event lock: %v" [GStr e])
       | None => Ok acquired
       end).

Definition LockBasedEventFilter_DeferredAction (id : string) : M CState unit :=
  let! owner := gets (fun s => s.(filterLocks) !! id) in
  match owner with
  | Some ownerID =>
      onWorld (Unlock ownerID) >>
      modify (fun s => mkCState s.(world) (delete id s.(filterLocks)) s.(eventsQueue))
  | None => ret tt
  end.

Definition NewLockBasedEventFilter : EventFilter :=
  mkEventFilter LockBasedEventFilter_Filter LockBasedEventFilter_DeferredAction.

Definition NewPredicatedEventFilter (predicate : string -> M World (result bool string)) : EventFilter :=
  mkEventFilter (fun id => onWorld (predicate id)) (fun _ => ret tt).

(** ** framework.go *)

(** A handler takes the id of the event's source. *)
Definition ControllerHandlerFunc := string -> M World (option string).
Definition Handlers := gmap string (gmap EventType (list ControllerHandlerFunc)).

Record ControllerConfig := mkControllerConfig {
  cc_Source : string;
  cc_Handlers : gmap EventType (list ControllerHandlerFunc);
}.

Definition add (source : string) (ev : EventType) (fns : list ControllerHandlerFunc) (km : Handlers) : Handlers :=
  let km := match km !! source with Some _ => km | None => <[source := ∅]> km end in
  let per := default ∅ (km !! source) in
  let per := match per !! ev with Some _ => per | None => <[ev := []]> per end in
  <[source := <[ev := default [] (per !! ev) ++ fns]> per]> km.

Definition Add (config : ControllerConfig) (km : Handlers) : Handlers :=
  foldr (fun '(ev, fns) km => add config.(cc_Source) ev fns km) km (map_to_list config.(cc_Handlers)).

Definition AddEvent (id : string) : M CState unit := onQueue (qAdd id).

Definition EventType_string (t : EventType) : string :=
  match t with CreateEventType => "Create" | UpdateEventType => "Update" | DeleteEventType => "Delete" end.

(** The body of handleEvent after the filter let the event through. *)
Definition handle_filtered (km : Handlers) (id : string) : M World (result bool string) :=
  let! r := EventService.Get id in
  match r with
  | Err svcErr =>
      if Is404 svcErr then ret (Ok true)
      else ret (Err (Sprintf "error getting event with id (%s): %s" [GStr id; GStr (Error svcErr)]))
  | Ok event =>
      match event.(ReconciledDate) with
      | Some _ => ret (Ok true)
      | None =>
          match km !! event.(e_Source) with
          | None => ret (Ok true)
          | Some source =>
              match source !! event.(EventType_) with
              | None => ret (Ok true)
              | Some handlerFns =>
                  let! err := for_err (fun fn : ControllerHandlerFunc => fn event.(SourceID)) handlerFns in
                  match err with
                  | Some e => ret (Err (Sprintf "error handing event %s-%s (%s): %s"
                      [GStr event.(e_Source); GStr (EventType_string event.(EventType_)); GStr id; GStr e]))
                  | None =>
                      let! now := time_now in
                      let! u := EventService.Replace (set_ReconciledDate (Some now) event) in
                      ret (match u with
                           | Err svcErr => Err (Sprintf "error updating event with id (%s): %s"
                                                  [GStr id; GStr (Error svcErr)])
                           | Ok _ => Ok true
                           end)
                  end
              end
          end
      end
  end.

(** (reconciled, err); DeferredAction runs on every way out. *)
Definition handleEvent (km : Handlers) (filter : EventFilter) (id : string) : M CState (result bool string) :=
  let! f := filter.(Filter) id in
  let! r := match f with
            | Err e => ret (Err (Sprintf "error filtering event with id (%s): %s" [GStr id; GStr e]))
            | Ok false => ret (Ok false)
            | Ok true => onWorld (handle_filtered km id)
            end in
  filter.(DeferredAction) id >> ret r.

(** False when the queue is shut down. *)
Definition processNextEvent (km : Handlers) (filter : EventFilter) : M CState bool :=
  let! key := (fun s => let '(k, q) := qGet s.(eventsQueue) in (k, mkCState s.(world) s.(filterLocks) q)) in
  match key with
  | None => ret false
  | Some key =>
      let! r := handleEvent km filter key in
      (match r with
       | Ok true => onQueue (qForget key)
       | _ => onQueue (qAddRateLimited key)
       end) >>
      onQueue (qDone key) >> ret true
  end.

Definition syncEvents : M CState unit :=
  let! d := onWorld EventService.DeleteAllReconciledEvents in
  match d with
  | Err _ => ret tt
  | Ok _ =>
      let! r := onWorld EventService.FindAllUnreconciledEvents in
      match r with
      | Err _ => ret tt
      | Ok unreconciledEvents => for_each (fun e : Event => onQueue (qAdd e.(ID))) unreconciledEvents
      end
  end.

(** ** status_controller.go *)

Definition StatusHandlerFunc := string -> string -> M World (option string).
Definition StatusHandlers := gmap StatusEventType (list StatusHandlerFunc).

Definition StatusEventType_string (t : StatusEventType) : string :=
  match t with StatusUpdateEventType => "StatusUpdate" | StatusDeleteEventType => "StatusDelete" end.

Definition AddStatusEvent (id : string) : M CState unit := onQueue (qAdd id).

Definition status_add (ev : StatusEventType) (fns : list StatusHandlerFunc) (sc : StatusHandlers) : StatusHandlers :=
  let sc := match sc !! ev with Some _ => sc | None => <[ev := []]> sc end in
  <[ev := default [] (sc !! ev) ++ fns]> sc.
Definition status_Add (handlers sc : StatusHandlers) : StatusHandlers :=
  foldr (fun '(ev, fns) sc => status_add ev fns sc) sc (map_to_list handlers).

Definition handleStatusEvent (sc : StatusHandlers) (id : string) : M World (option string) :=
  let! r := StatusEventService.Get id in
  match r with
  | Err svcErr =>
      if Is404 svcErr then ret None
      else ret (Some (Sprintf "error getting status event with id(%s): %s" [GStr id; GStr (Error svcErr)]))
  | Ok statusEvent =>
      match statusEvent.(s_ReconciledDate) with
      | Some _ => ret None
      | None =>
          match sc !! statusEvent.(StatusEventType_) with
          | None => ret None
          | Some handlerFns =>
              let! err := for_err (fun fn : StatusHandlerFunc => fn id statusEvent.(ResourceID)) handlerFns in
              ret (match err with
                   | Some e => Some (Sprintf "error handling status event %s, %s, %s: %s"
                       [GStr (StatusEventType_string statusEvent.(StatusEventType_)); GStr id;
                        GStr statusEvent.(ResourceID); GStr e])
                   | None => None
                   end)
          end
      end
  end.

Definition status_processNextEvent (sc : StatusHandlers) : M CState bool :=
  let! key := (fun s => let '(k, q) := qGet s.(eventsQueue) in (k, mkCState s.(world) s.(filterLocks) q)) in
  match key with
  | None => ret false
  | Some key =>
      let! err := onWorld (handleStatusEvent sc key) in
      (match err with
       | None => onQueue (qForget key)
       | Some _ => onQueue (qAddRateLimited key)
       end) >>
      onQueue (qDone key) >> ret true
  end.

(** [for i := 0; i < len(ids); i += batchSize]; the fuel bounds the iterations. *)
Fixpoint batch_loop {A} (fuel : nat) (ids : list A) (batchSize i : nat) : list (list A) :=
  match fuel with
  | O => []
  | S fuel =>
      if (i <? length ids)%nat then
        let end_ := if (length ids <? i + batchSize)%nat then length ids else (i + batchSize)%nat in
        take (end_ - i) (drop i ids) :: batch_loop fuel ids batchSize (i + batchSize)
      else []
  end.

Definition batchStatusEventIDs (statusEventIDs : list string) (batchSize : nat) : list (list string) :=
  batch_loop (length statusEventIDs) statusEventIDs batchSize 0.

Definition syncStatusEvents : M World unit :=
  let! r := InstanceDao.FindReadyIDs in
  match r with
  | Err _ => ret tt
  | Ok readyInstanceIDs =>
      let! r := EventInstanceDao.GetEventsAssociatedWithInstances readyInstanceIDs in
      match r with
      | Err _ => ret tt
      | Ok statusEventIDs =>
          for_err (fun batch => let! d := StatusEventService.DeleteAllEvents batch in ret (err_of d))
            (batchStatusEventIDs statusEventIDs 500) >>
          ret tt
      end
  end.

(** ** stale_delete_detector.go and undelivered_detector.go *)

(** The singleton guard of both: skip unless the non-blocking lock is acquired, and
    unlock on every way out. *)
Definition singleton (name : string) (body : M World unit) : M World unit :=
  let! '(lockOwnerID, acquired, err) := NewNonBlockingLock name Instances in
  (match err with
   | Some _ => ret tt
   | None => if acquired then body else ret tt
   end) >>
  Unlock lockOwnerID.

(** [time.Duration(thresholdSeconds) * time.Second] *)
Definition threshold_of (thresholdSeconds : Z) : Z := Int.int64 (thresholdSeconds * 1000000000).

Definition StaleDeleteDetector_Run (threshold : Z) : M World unit :=
  singleton "maestro-stale-delete-check" (EventService.ReconcileStaleDeleteEvents threshold >> ret tt).

Definition republish_type (r : Resource) : EventType :=
  if 1 <? r.(Version) then UpdateEventType else CreateEventType.

Definition UndeliveredDetector_Run (threshold : Z) : M World unit :=
  singleton "maestro-undelivered-check"
    (let! r := ResourceService.FindUndelivered threshold in
     match r with
     | Err _ => ret tt
     | Ok resources =>
         for_each (fun resource : Resource =>
           EventService.Create (new_event "Resources" resource.(ID) (republish_type resource)) >> ret tt) resources
     end).

End Controllers.

(** ** An instance: the queue as its set of pending keys *)

Module SetQueue.
#[export] Instance wq : WorkQueue := {
  Queue := gset string;
  qAdd k q := {[k]} ∪ q;
  qGet q := match elements q with [] => (None, q) | k :: _ => (Some k, q ∖ {[k]}) end;
  qDone _ q := q;
  qAddRateLimited k q := {[k]} ∪ q;
  qForget _ q := q;
  pending q := q;
}.
#[export] Instance wq_laws : WorkQueueLaws.
Proof.
  split; simpl; try done.
  - intros k q q'. destruct (elements q) as [|x l] eqn:E; [done|]. intros [= -> <-]. split; [|done].
    apply elem_of_elements. rewrite E. left.
  - intros q q'. destruct (elements q); [|done]. by intros [= <-].
Qed.
End SetQueue.
