(* ===== verification/ControllerFacts.v ===== *)
(** * What the controllers guarantee

    An event leaves the queue only when it was handled; it is marked reconciled only
    after every handler succeeded; the periodic purges remove exactly what is finished;
    and the detectors touch only what they are meant to. *)

From S2P Require Import Prelude GoLib Errors Types Json Bundle Validation Gorm World Dao DaoFacts Locks Services ServiceFacts Controllers.
Import api errors Fmt.

Open Scope Z_scope.

Lemma onWorld_run `{WorkQueue} {A} (m : M World A) s :
  onWorld m s = ((m s.(world)).1, mkCState (m s.(world)).2 s.(filterLocks) s.(eventsQueue)).
Proof. unfold onWorld. by destruct (m _). Qed.

(** ** The queue *)

Section Queue.
Context `{env : Env} `{gorm : Gorm} `{ql : WorkQueueLaws}.

Definition keeps_queue : relation CState := frames eventsQueue.
#[local] Instance keeps_queue_preorder : PreOrder keeps_queue := frames_preorder _.

Lemma onWorld_keeps_queue {A} (m : M World A) : always keeps_queue (onWorld m).
Proof. intros s. by rewrite onWorld_run. Qed.

Lemma handleEvent_keeps_queue km f id :
  always keeps_queue (Filter f id) -> always keeps_queue (DeferredAction f id) ->
  always keeps_queue (handleEvent km f id).
Proof.
  intros Hf Hd. unfold handleEvent. always_step; [done|]. intros [[]|e]; always_auto; apply onWorld_keeps_queue.
Qed.

Lemma predicated_keeps_queue p id :
  always keeps_queue (Filter (NewPredicatedEventFilter p) id) /\
  always keeps_queue (DeferredAction (NewPredicatedEventFilter p) id).
Proof. split; [apply onWorld_keeps_queue|by intros s]. Qed.

Lemma lockbased_keeps_queue `{LockFactory} id :
  always keeps_queue (Filter NewLockBasedEventFilter id) /\
  always keeps_queue (DeferredAction NewLockBasedEventFilter id).
Proof.
  split; simpl.
  - unfold LockBasedEventFilter_Filter. always_step; [apply onWorld_keeps_queue|].
    intros [[u a] e]. always_step; [by intros s|]. intros _. always_auto.
  - unfold LockBasedEventFilter_DeferredAction. always_step; [always_auto|].
    intros [o|]; [|always_auto]. always_step; [apply onWorld_keeps_queue|]. intros _. by intros s.
Qed.

Lemma processNextEvent_run km f s :
  (forall id, always keeps_queue (Filter f id) /\ always keeps_queue (DeferredAction f id)) ->
  let s' := (processNextEvent km f s).2 in
  match (qGet s.(eventsQueue)).1 with
  | None => (processNextEvent km f s).1 = false /\ pending s'.(eventsQueue) = pending s.(eventsQueue)
  | Some key =>
      let s1 := mkCState s.(world) s.(filterLocks) (qGet s.(eventsQueue)).2 in
      (processNextEvent km f s).1 = true /\ s'.(world) = (handleEvent km f key s1).2.(world) /\
      pending s'.(eventsQueue) =
        (match (handleEvent km f key s1).1 with
         | Ok true => pending s.(eventsQueue) ∖ {[key]}
         | _ => pending s.(eventsQueue)
         end)
  end.
Proof.
  intros Hf. cbn zeta. unfold processNextEvent. rewrite !bind_run.
  destruct (qGet s.(eventsQueue)) as [[key|] q] eqn:Hg; simpl.
  2:{ split; [done|]. by apply (pending_Get_None _ _ Hg). }
  apply pending_Get_Some in Hg as [Hin Hp].
  set (s1 := mkCState s.(world) s.(filterLocks) q).
  rewrite !bind_run. destruct (Hf key) as [Hf1 Hf2].
  pose proof (handleEvent_keeps_queue km f key Hf1 Hf2 s1) as Hq. unfold keeps_queue, frames in Hq. simpl in Hq.
  destruct (handleEvent km f key s1) as [r s2]. simpl in *. rewrite bind_run.
  assert (pending (qAddRateLimited key (eventsQueue s2)) = pending s.(eventsQueue)) as Hback.
  { rewrite pending_AddRateLimited, Hq, Hp. symmetry. apply union_difference_L, singleton_subseteq_l. done. }
  destruct r as [[]|e]; simpl; split_and!; try done; rewrite pending_Done; try done.
  by rewrite pending_Forget, Hq.
Qed.

End Queue.

(** ** Handling an event *)

Section Handling.
Context `{env : Env} `{gl : GormLaws}.

Definition events_of (w : World) : gmap string Event := w.(tables).(events).
(** A handler that works on other tables than the events. *)
Definition leaves_events {A} (m : M World A) : Prop := always (frames events_of) m /\ always keeps_wf m.

Lemma EventService_Get_run id w :
  wf_tables w ->
  EventService.Get id w =
    (match fault w.(tick) with
     | Some e => Err (get_error "Event" "id" (GStr id) (DriverErr e))
     | None => match (r ← events_of w !! id; if visible false r then Some r else None) with
               | Some r => Ok r
               | None => Err (get_error "Event" "id" (GStr id) ErrRecordNotFound)
               end
     end, bump w).
Proof.
  intros Hw. unfold EventService.Get, EventDao.Get, or_error. rewrite bind_run, st_take_by_id by done.
  unfold events_of. simpl. destruct (fault _); [done|].
  destruct (events (tables w) !! id) as [e|]; [|done]. unfold visible. simpl. by destruct (Valid _).
Qed.

Lemma EventService_Replace_run e w :
  EventService.Replace e w =
    match fault w.(tick) with
    | Some msg => (Err (handleUpdateError "Event" msg), (MarkForRollback (bump w)).2)
    | None => (Ok (touched (clock w.(tick)) e),
               set_tables (tset (<[row_id e := persist (touched (clock w.(tick)) e)]> w.(tables).(events)) w.(tables)) (bump w))
    end.
Proof.
  unfold EventService.Replace, EventDao.Replace, or_error. rewrite bind_run, or_rollback_run. unfold st_save.
  rewrite statement_run. destruct (fault _); [done|].
  rewrite gSave_ok by done. done.
Qed.

(** The event handed to the handlers, with the handlers found for it. *)
Definition handled_by (km : Handlers) (w : World) (id : string) (e : Event) (fns : list ControllerHandlerFunc) : Prop :=
  events_of w !! id = Some e /\ visible false e = true /\ e.(ReconciledDate) = None /\
  exists per, km !! e.(e_Source) = Some per /\ per !! e.(EventType_) = Some fns.

Definition reconciled_as (now at_ : Time) (e : Event) : Event :=
  persist (touched at_ (set_ReconciledDate (Some now) e)).

Definition run_handlers (fns : list ControllerHandlerFunc) (sid : string) : M World (option string) :=
  for_err (fun fn : ControllerHandlerFunc => fn sid) fns.

(** What handling may do to the events table. *)
Inductive handled (km : Handlers) (id : string) (w : World) (w' : World) : result bool string -> Prop :=
| HandledSkip : (forall e fns, ~ handled_by km w id e fns) -> events_of w' = events_of w ->
    handled km id w w' (Ok true)
| HandledError msg : events_of w' = events_of w -> handled km id w w' (Err msg)
| HandledDone e fns w1 now at_ : handled_by km w id e fns ->
    run_handlers fns e.(SourceID) (bump w) = (None, w1) ->
    events_of w' = <[id := reconciled_as now at_ e]> (events_of w) ->
    handled km id w w' (Ok true).

Lemma run_handlers_frame fns sid :
  Forall (fun fn : ControllerHandlerFunc => leaves_events (fn sid)) fns -> leaves_events (run_handlers fns sid).
Proof.
  intros Hf. split; (apply always_for_err_Forall; [typeclasses eauto|]);
    (eapply Forall_impl; [exact Hf|]); by intros fn [? ?].
Qed.

Lemma handle_filtered_spec km id w :
  wf_tables w ->
  (forall e fns, handled_by km w id e fns ->
     Forall (fun fn : ControllerHandlerFunc => leaves_events (fn e.(SourceID))) fns) ->
  handled km id w (handle_filtered km id w).2 (handle_filtered km id w).1.
Proof.
  intros Hw Hfr. unfold handle_filtered. rewrite bind_run, EventService_Get_run by done.
  destruct (fault w.(tick)) as [msg|]; [by apply HandledError|].
  destruct (events_of w !! id) as [e|] eqn:He; cbn [mbind option_bind].
  2:{ apply HandledSkip; [|done]. intros e fns (Hk & _). congruence. }
  destruct (visible false e) eqn:Hv; cbn iota.
  2:{ apply HandledSkip; [|done]. intros e' fns (Hk & Hv' & _). congruence. }
  destruct (ReconciledDate e) eqn:Hrd.
  { apply HandledSkip; [|done]. intros e' fns (Hk & _ & Hr & _). congruence. }
  destruct (km !! e.(e_Source)) as [per|] eqn:Hs.
  2:{ apply HandledSkip; [|done]. intros e' fns (Hk & _ & _ & p & Hp & _). congruence. }
  destruct (per !! e.(EventType_)) as [fns|] eqn:Ht.
  2:{ apply HandledSkip; [|done]. intros e' fns (Hk & _ & _ & p & Hp & Hq). congruence. }
  assert (handled_by km w id e fns) as Hby by (split_and!; eauto).
  destruct (run_handlers_frame fns e.(SourceID) (Hfr e fns Hby)) as [Hev Hwf].
  rewrite bind_run. change (for_err _ fns) with (run_handlers fns e.(SourceID)).
  specialize (Hev (bump w)). specialize (Hwf (bump w) Hw).
  destruct (run_handlers fns e.(SourceID) (bump w)) as [err w1] eqn:Hrun. simpl in Hev, Hwf.
  destruct err as [m|]; [by apply HandledError|].
  rewrite bind_run. cbn [time_now bind step ret]. rewrite bind_run, EventService_Replace_run.
  destruct (fault (tick (bump w1))) as [msg|]; [by apply HandledError|].
  assert (row_id e = id) as Hid by exact (wf_events _ Hw _ _ He).
  eapply HandledDone; [exact Hby|exact Hrun|].
  cbn [events_of]. unfold events_of. simpl. unfold frames, events_of in Hev. rewrite Hev. simpl in Hid. by subst id.
Qed.

(** When handling an event with handlers succeeds: the event could be read, every handler
    succeeded, and the mark could be written. *)
Lemma handle_filtered_ok km id w e fns :
  wf_tables w -> handled_by km w id e fns ->
  is_ok (handle_filtered km id w).1 = true <->
    let '(err, w1) := run_handlers fns e.(SourceID) (bump w) in
    fault w.(tick) = None /\ err = None /\ fault (S w1.(tick)) = None.
Proof.
  intros Hw (He & Hv & Hr & per & Hs & Ht). unfold handle_filtered. rewrite bind_run, EventService_Get_run by done.
  destruct (fault w.(tick)) as [msg|].
  { destruct (run_handlers _ _ _). split; [done|by intros [? _]]. }
  rewrite He. cbn [mbind option_bind]. rewrite Hv. cbn iota. rewrite Hr, Hs, Ht.
  rewrite bind_run. change (for_err _ fns) with (run_handlers fns e.(SourceID)).
  destruct (run_handlers fns e.(SourceID) (bump w)) as [[m|] w1]; [split; [done|by intros (_ & ? & _)]|].
  rewrite bind_run. cbn [time_now bind step ret]. rewrite bind_run, EventService_Replace_run. cbn [tick bump].
  destruct (fault (S (tick w1))) as [msg|]; [split; [done|by intros (_ & _ & ?)]|done].
Qed.

Lemma handle_filtered_nothing km id w :
  wf_tables w -> (forall e fns, ~ handled_by km w id e fns) -> fault w.(tick) = None -> (handle_filtered km id w).1 = Ok true.
Proof.
  intros Hw Hno Hf. pose proof (handle_filtered_spec km id w Hw) as Hh.
  assert (is_ok (handle_filtered km id w).1 = true) as Hok.
  { unfold handle_filtered. rewrite bind_run, EventService_Get_run, Hf by done.
    destruct (events_of w !! id) as [e|] eqn:He; [|done]. cbn [mbind option_bind]. destruct (visible false e) eqn:Hv; [|done].
    cbn iota. destruct (ReconciledDate e) eqn:Hr; [done|]. destruct (km !! e.(e_Source)) as [per|] eqn:Hs; [|done].
    destruct (per !! e.(EventType_)) as [fns|] eqn:Ht; [|done]. destruct (Hno e fns). by split_and!; eauto. }
  destruct Hh as [_ _|msg _|e fns w1 now at_ Hby]; [by intros e fns ?%Hno|done|done|done].
Qed.

(** C14: an event is marked reconciled exactly when it was live, unreconciled and had
    handlers, it could be read, every handler, run in order, succeeded, and the mark could be
    written; and success is reported exactly then. A failing handler or driver leaves the
    events table as it was and reports the error (so the key is retried). An event without
    work to do (gone, already reconciled, or without handlers) is reported handled and left
    as it is, unless it could not be read. No other event is ever touched. *)
Theorem handleEvent_reconciles km id w :
  tables_wf w.(tables) ->
  (forall e fns, handled_by km w id e fns ->
     Forall (fun fn : ControllerHandlerFunc => leaves_events (fn e.(SourceID))) fns) ->
  let res := (handle_filtered km id w).1 in
  let w' := (handle_filtered km id w).2 in
  (forall id', id' <> id -> events_of w' !! id' = events_of w !! id') /\
  (is_ok res = false -> events_of w' = events_of w) /\
  (forall e fns, handled_by km w id e fns ->
     let '(err, w1) := run_handlers fns e.(SourceID) (bump w) in
     (is_ok res = true <-> fault w.(tick) = None /\ err = None /\ fault (S w1.(tick)) = None) /\
     (is_ok res = true <-> exists now at_, events_of w' !! id = Some (reconciled_as now at_ e))) /\
  ((forall e fns, ~ handled_by km w id e fns) ->
     events_of w' = events_of w /\ (fault w.(tick) = None -> res = Ok true)).
Proof.
  intros Hw Hfr. cbn zeta. pose proof (handle_filtered_spec km id w Hw Hfr) as Hh.
  pose proof (handle_filtered_nothing km id w Hw) as Hnothing.
  assert (forall e fns, handled_by km w id e fns ->
     (is_ok (handle_filtered km id w).1 = true <->
        exists now at_, events_of (handle_filtered km id w).2 !! id = Some (reconciled_as now at_ e)) ->
     let '(err, w1) := run_handlers fns e.(SourceID) (bump w) in
     (is_ok (handle_filtered km id w).1 = true <-> fault w.(tick) = None /\ err = None /\ fault (S w1.(tick)) = None) /\
     (is_ok (handle_filtered km id w).1 = true <->
        exists now at_, events_of (handle_filtered km id w).2 !! id = Some (reconciled_as now at_ e))) as Hboth.
  { intros e fns Hby Hmark. pose proof (handle_filtered_ok km id w e fns Hw Hby) as Hok.
    destruct (run_handlers fns e.(SourceID) (bump w)). by split. }
  destruct Hh as [Hno He|msg He|e fns w1 now at_ Hby Hrun He].
  - rewrite He. split_and!; [done..| |]; [intros e fns Hby; by destruct (Hno e fns)|by intros; split; auto].
  - rewrite He in *. split_and!; [done..| |]; [|by intros; split; auto]. intros e fns Hby. apply Hboth; [done|].
    destruct Hby as (Hk & _ & Hr & _). split; [done|].
    intros (now & at_ & Hsome). exfalso. rewrite Hk in Hsome. injection Hsome as Hsome.
    rewrite Hsome in Hr. unfold reconciled_as, persist in Hr. simpl in Hr. by destruct (Valid _).
  - split_and!; [intros; by rewrite He, lookup_insert_ne|done| |].
    + intros e' fns' Hby'. apply Hboth; [done|]. split; [|done]. intros _. exists now, at_. rewrite He, lookup_insert_eq.
      destruct Hby as (Hk & _), Hby' as (Hk' & _). congruence.
    + intros Hno. by destruct (Hno e fns).
Qed.
End Handling.

(** ** Batches *)

Lemma batch_loop_concat {A} fuel (ids : list A) n i :
  (0 < n)%nat -> (length ids <= i + fuel)%nat -> concat (batch_loop fuel ids n i) = drop i ids.
Proof.
  intros Hn. revert i. induction fuel as [|fuel IH]; intros i Hf; cbn [batch_loop].
  - symmetry. apply drop_ge. lia.
  - destruct (Nat.ltb_spec i (length ids)); [|symmetry; by apply drop_ge].
    cbn [concat]. rewrite IH by lia. destruct (Nat.ltb_spec (length ids) (i + n)).
    + rewrite (drop_ge ids (i + n)) by lia. rewrite app_nil_r. apply take_ge. rewrite length_drop. lia.
    + replace (i + n - i)%nat with n by lia. rewrite <-drop_drop. apply take_drop.
Qed.

Lemma batch_loop_sizes {A} fuel (ids : list A) n i :
  (0 < n)%nat -> Forall (fun b => b <> [] /\ (length b <= n)%nat) (batch_loop fuel ids n i).
Proof.
  intros Hn. revert i. induction fuel as [|fuel IH]; intros i; cbn [batch_loop]; [constructor|].
  destruct (Nat.ltb_spec i (length ids)); [|constructor]. constructor; [|apply IH].
  cbn zeta. set (k := ((if (length ids <? i + n)%nat then length ids else (i + n)%nat) - i)%nat).
  assert (0 < k <= n)%nat as Hk by (unfold k; destruct (Nat.ltb_spec (length ids) (i + n)); lia).
  split; [|rewrite length_take; lia]. intros He. apply (f_equal length) in He.
  rewrite length_take, length_drop in He. simpl in He. lia.
Qed.

(** Batching terminates for any positive size and cuts the list without loss,
    duplication or reordering into non-empty batches of at most that size. *)
Theorem batchStatusEventIDs_partition ids n :
  (0 < n)%nat ->
  concat (batchStatusEventIDs ids n) = ids /\
  Forall (fun b => b <> [] /\ (length b <= n)%nat) (batchStatusEventIDs ids n).
Proof.
  intros Hn. split; [|by apply batch_loop_sizes].
  unfold batchStatusEventIDs. by rewrite batch_loop_concat.
Qed.

Lemma batchStatusEventIDs_partition_witness :
  concat (batchStatusEventIDs ["a"; "b"; "c"; "d"; "e"] 2) = ["a"; "b"; "c"; "d"; "e"].
Proof. apply (batchStatusEventIDs_partition ["a"; "b"; "c"; "d"; "e"] 2). lia. Defined.

(** ** Purges *)

Section Purge.
Context `{env : Env} `{gl : GormLaws}.

Definition status_events_of (w : World) : gmap string StatusEvent := w.(tables).(status_events).

Lemma EventService_DeleteAllReconciled_run w :
  EventService.DeleteAllReconciledEvents w =
    match fault w.(tick) with
    | Some e => (Err (handleDeleteError "Event"
                  (Error (GeneralError "Unable to delete reconciled events: %s" [GStr e]))), (MarkForRollback (bump w)).2)
    | None => (Ok tt, set_tables (tset (filter (fun ke => bool_decide (is_Some ke.2.(ReconciledDate)) = false)
                                               w.(tables).(events)) w.(tables)) (bump w))
    end.
Proof.
  unfold EventService.DeleteAllReconciledEvents, EventDao.DeleteAllReconciledEvents, or_error.
  rewrite bind_run, or_rollback_run. unfold st_delete. rewrite statement_run. destruct (fault _); [done|].
  by rewrite gDelete_hard.
Qed.

Context `{ql : WorkQueueLaws}.

Lemma for_each_qAdd (l : list Event) s :
  (for_each (fun e : Event => onQueue (qAdd e.(ID))) l s).2.(world) = s.(world) /\
  pending (for_each (fun e : Event => onQueue (qAdd e.(ID))) l s).2.(eventsQueue)
    = list_to_set ((fun e : Event => e.(ID)) <$> l) ∪ pending s.(eventsQueue).
Proof.
  revert s. induction l as [|e l IH]; intros s; simpl; [split; [done|set_solver]|].
  rewrite bind_run. simpl. destruct (IH (mkCState s.(world) s.(filterLocks) (qAdd e.(ID) s.(eventsQueue)))) as [-> ->].
  split; [done|]. simpl. rewrite pending_Add. set_solver.
Qed.

Lemma lookup_unreconciled (m : gmap string Event) id e :
  filter (fun ke : string * Event => bool_decide (is_Some ke.2.(ReconciledDate)) = false) m !! id = Some e <->
  m !! id = Some e /\ e.(ReconciledDate) = None.
Proof.
  rewrite map_lookup_filter_Some. simpl. rewrite bool_decide_eq_false, eq_None_not_Some. done.
Qed.

Definition world_events (s : CState) : gmap string Event := events_of s.(world).

(** The periodic sync never drops unfinished work: it deletes reconciled events
    only and adds nothing, and keys already pending stay pending; when the driver does
    not fail, no reconciled event is left and every live unreconciled one is pending. *)
Theorem syncEvents_spec s :
  tables_wf s.(world).(tables) ->
  let s' := (syncEvents s).2 in
  (forall id e, world_events s !! id = Some e -> e.(ReconciledDate) = None -> world_events s' !! id = Some e) /\
  (forall id e, world_events s' !! id = Some e -> world_events s !! id = Some e) /\
  pending s.(eventsQueue) ⊆ pending s'.(eventsQueue) /\
  ((forall n, fault n = None) -> forall id e, world_events s' !! id = Some e ->
     e.(ReconciledDate) = None /\ (visible false e = true -> id ∈ pending s'.(eventsQueue))).
Proof.
  intros Hw. cbn zeta. unfold syncEvents, world_events. rewrite bind_run, onWorld_run, EventService_DeleteAllReconciled_run.
  destruct (fault (tick (world s))) as [e|] eqn:Hf.
  { simpl. split_and!; try done. intros Hnf. by rewrite Hnf in Hf. }
  cbn [fst snd]. rewrite bind_run, onWorld_run. unfold EventService.FindAllUnreconciledEvents,
    EventDao.FindAllUnreconciledEvents, or_error. rewrite bind_run, st_find_run. cbn [fst snd ret map_err].
  set (w1 := set_tables _ _). set (m := events_of (world s)).
  assert (events_of w1 = filter (fun ke : string * Event => bool_decide (is_Some ke.2.(ReconciledDate)) = false) m) as Hm by done.
  assert (forall id e, m !! id = Some e -> ReconciledDate e = None -> events_of w1 !! id = Some e) as Hkeep.
  { intros id e He Hr. rewrite Hm. by apply lookup_unreconciled. }
  assert (forall id e, events_of w1 !! id = Some e -> m !! id = Some e /\ ReconciledDate e = None) as Hsub.
  { intros id e He. rewrite Hm in He. by apply lookup_unreconciled in He. }
  cbn [tick world]. destruct (fault (tick w1)) as [e|] eqn:Hf1; simpl.
  { split_and!; [exact Hkeep|intros id e0 He0; by apply Hsub|done|]. intros Hnf. by rewrite Hnf in Hf1. }
  set (l := gFind _ _ _). set (s1 := mkCState (bump w1) _ _).
  destruct (for_each_qAdd l s1) as [-> ->].
  split_and!; [exact Hkeep|intros id e0 He0; by apply Hsub|set_solver|].
  intros _ id e He. destruct (Hsub id e He) as [He0 Hr]. split; [done|]. intros Hv.
  apply elem_of_union_l, elem_of_list_to_set, list_elem_of_fmap. exists e. split.
  { symmetry. exact (wf_events _ Hw _ _ He0). }
  apply gFind_elem. exists id, e. split_and!; [exact He| |done].
  apply andb_true_intro. split; [exact Hv|by apply bool_decide_eq_true_2].
Qed.
End Purge.

(** ** Status events *)

Section StatusPurge.
Context `{env : Env} `{gl : GormLaws}.
Import EventInstanceDao.

Lemma row_ids_NoDup {Row} `{Model Row} (t : gmap string Row) :
  table_wf t -> NoDup (row_id <$> (map_to_list t).*2).
Proof.
  intros Hwf. rewrite <-list_fmap_compose.
  rewrite (list_fmap_ext _ fst); [apply NoDup_fst_map_to_list|].
  intros i [k r] Hi. simpl. apply Hwf, elem_of_map_to_list. by eapply list_elem_of_lookup_2.
Qed.

Lemma NoDup_filter_fmap {A B} (f : A -> B) (P : A -> Prop) `{forall x, Decision (P x)} l :
  NoDup (f <$> l) -> NoDup (f <$> filter P l).
Proof.
  induction l as [|x l IH]; [done|]. rewrite fmap_cons, NoDup_cons. intros [Hx Hl].
  rewrite filter_cons. case_decide; [|auto]. rewrite fmap_cons, NoDup_cons. split; [|auto].
  intros (y & Hy & [_ Hin]%list_elem_of_filter)%list_elem_of_fmap. apply Hx, list_elem_of_fmap. eauto.
Qed.

Lemma FindReadyIDs_run w :
  wf_tables w ->
  exists l, InstanceDao.FindReadyIDs w =
    (match fault w.(tick) with Some e => Err (DriverErr e) | None => Ok l end, bump w) /\
    NoDup l /\ (forall i, i ∈ l <-> i ∈ ready_ids w.(tables)).
Proof.
  intros Hw. unfold InstanceDao.FindReadyIDs. rewrite bind_run, st_find_run. cbn [ret].
  set (t := tget _). set (l := gFind _ _ t).
  assert ((fun i : ServerInstance => i.(ID)) <$> l
          ≡ₚ row_id <$> selected false (fun i : ServerInstance => i.(Ready)) t) as Hp.
  { unfold l. rewrite (gFind_perm _ _ t). by rewrite <-list_fmap_compose. }
  exists ((fun i : ServerInstance => i.(ID)) <$> l). split_and!.
  - by destruct (fault _).
  - rewrite Hp. apply NoDup_filter_fmap, row_ids_NoDup. by apply wf_instances.
  - intros i. unfold ready_ids. rewrite elem_of_list_to_set. by rewrite Hp.
Qed.

(** An event is associated with a duplicate-free list of instances when it has a row
    for each of them. *)
Lemma associated_spec ids rows ev :
  NoDup ids -> ids <> [] ->
  ev ∈ associated ids rows <-> forall i, i ∈ ids -> mkEventInstance ev i ∈ rows.
Proof.
  intros Hnd Hne. unfold associated. rewrite list_elem_of_filter.
  assert (forall i, i ∈ instances_of ids rows ev <-> i ∈ ids /\ mkEventInstance ev i ∈ rows) as Hin.
  { intros i. unfold instances_of. rewrite elem_of_remove_dups, list_elem_of_fmap. split.
    - intros ([ev' i'] & -> & [[Hi He] Hr]%list_elem_of_filter). simpl in *. by subst.
    - intros [Hi Hr]. exists (mkEventInstance ev i). split; [done|]. by apply list_elem_of_filter. }
  assert (NoDup (instances_of ids rows ev)) as Hnd' by apply NoDup_remove_dups.
  split.
  - intros [Hlen _] i Hi.
    assert (instances_of ids rows ev ≡ₚ ids) as Hp.
    { apply submseteq_length_Permutation; [|by rewrite Hlen].
      apply NoDup_submseteq; [done|]. by intros x [Hx _]%Hin. }
    by apply Hin; rewrite Hp.
  - intros Hall.
    assert (instances_of ids rows ev ≡ₚ ids) as Hp.
    { apply NoDup_Permutation; [done..|]. intros i. rewrite Hin. naive_solver. }
    split; [by rewrite Hp|]. apply elem_of_remove_dups, list_elem_of_fmap.
    destruct ids as [|i ids]; [done|]. exists (mkEventInstance ev i).
    split; [done|]. apply list_elem_of_filter. split; [left|]. apply Hall. left.
Qed.

Lemma DeleteAllEvents_run ids w :
  ids <> [] ->
  let '(r, w') := StatusEventService.DeleteAllEvents ids w in
  match fault w.(tick) with
  | Some _ => is_ok r = false /\ w'.(tables) = w.(tables)
  | None => r = Ok tt /\
      status_events_of w' = filter (fun ke => by_ids ids ke.2 = false) (status_events_of w)
  end.
Proof.
  intros Hne. unfold StatusEventService.DeleteAllEvents, StatusEventDao.DeleteAllEvents, or_error.
  destruct ids as [|i ids]; [done|]. rewrite bind_run. unfold StatusEventDao.delete_where.
  rewrite or_rollback_run, statement_run. destruct (fault _); [done|]. by rewrite gDelete_hard.
Qed.

Lemma filter_by_ids ids (t : gmap string StatusEvent) id :
  table_wf t -> filter (fun ke => by_ids ids ke.2 = false) t !! id = if decide (id ∈ ids) then None else t !! id.
Proof.
  intros Hwf. destruct (t !! id) as [e|] eqn:He.
  - case_decide as Hin.
    + apply map_lookup_filter_None. right. intros e' He'. simplify_eq. simpl. unfold by_ids.
      rewrite (Hwf _ _ He). by rewrite bool_decide_eq_true_2.
    + apply map_lookup_filter_Some. split; [done|]. simpl. unfold by_ids. rewrite (Hwf _ _ He).
      by apply bool_decide_eq_false.
  - case_decide; apply map_lookup_filter_None; by left.
Qed.

Definition delete_batch (batch : list string) : M World (option ServiceError) :=
  let! d := StatusEventService.DeleteAllEvents batch in ret (err_of d).

Lemma delete_batches_run bs w :
  wf_tables w -> Forall (fun b => b <> []) bs ->
  let w' := (for_err delete_batch bs w).2 in
  (forall id, status_events_of w' !! id = status_events_of w !! id \/
              id ∈ concat bs /\ status_events_of w' !! id = None) /\
  ((forall n, fault n = None) -> forall id, id ∈ concat bs -> status_events_of w' !! id = None).
Proof.
  intros Hw Hne. cbn zeta. revert w Hw. induction Hne as [|b bs Hb _ IH]; intros w Hw.
  { simpl. split; [by left|]. by intros _ id ?%elem_of_nil. }
  cbn [for_err]. rewrite bind_run.
  pose proof (DeleteAllEvents_run b w Hb) as Hd.
  assert (always keeps_wf (StatusEventService.DeleteAllEvents b)) as Hk by always_auto.
  specialize (Hk w Hw). destruct (StatusEventService.DeleteAllEvents b w) as [r w1] eqn:Hrun. simpl in Hk.
  assert (delete_batch b w = (err_of r, w1)) as -> by (unfold delete_batch; by rewrite bind_run, Hrun).
  destruct (fault w.(tick)) as [e|] eqn:Hf.
  { destruct Hd as [Hr Ht]. destruct r; [done|]. simpl. unfold status_events_of. rewrite Ht.
    split; [by left|]. intros Hnf. by rewrite Hnf in Hf. }
  destruct Hd as [-> Hs]. cbn [ret err_of]. destruct (IH w1 Hk) as [IH1 IH2].
  assert (forall id, status_events_of w1 !! id = if decide (id ∈ b) then None else status_events_of w !! id) as Hl.
  { intros id. rewrite Hs. apply filter_by_ids. by apply wf_status_events. }
  cbn [concat]. split.
  - intros id. destruct (IH1 id) as [He|[Hin He]]; rewrite He.
    + rewrite Hl. case_decide; [right|by left]. split; [|done]. apply elem_of_app. by left.
    + right. split; [|done]. apply elem_of_app. by right.
  - intros Hnf id [Hin|Hin]%elem_of_app; [|by apply IH2].
    destruct (IH1 id) as [He|[_ He]]; rewrite He; [|done]. rewrite Hl. by rewrite decide_True.
Qed.

Definition dispatched_to_all (t : Tables) (ev : string) : Prop :=
  ready_ids t <> ∅ /\ forall i, i ∈ ready_ids t -> mkEventInstance ev i ∈ t.(event_instances).

(** C34: The status purge deletes only status events that were dispatched to every
    ready instance (and nothing when no instance is ready), and when the driver does
    not fail it deletes all of those. *)
Theorem syncStatusEvents_spec w :
  tables_wf w.(tables) ->
  let w' := (syncStatusEvents w).2 in
  (forall ev, status_events_of w' !! ev = status_events_of w !! ev \/
              dispatched_to_all w.(tables) ev /\ status_events_of w' !! ev = None) /\
  ((forall n, fault n = None) -> forall ev, dispatched_to_all w.(tables) ev -> status_events_of w' !! ev = None).
Proof.
  intros Hw. cbn zeta. unfold syncStatusEvents. rewrite bind_run.
  destruct (FindReadyIDs_run w Hw) as (l & -> & Hnd & Hl).
  destruct (fault w.(tick)) as [e|] eqn:Hf.
  { simpl. split; [by left|]. intros Hnf. by rewrite Hnf in Hf. }
  rewrite bind_run. unfold GetEventsAssociatedWithInstances. destruct l as [|i l].
  { simpl. split; [by left|]. intros _ ev [Hne _]. exfalso. apply Hne, set_eq. intros i. rewrite <-Hl. set_solver. }
  rewrite statement_run. cbn [tick bump]. destruct (fault (S (tick w))) as [e|] eqn:Hf1.
  { simpl. split; [by left|]. intros Hnf. by rewrite Hnf in Hf1. }
  cbn iota. rewrite set_tables_bump, bind_run.
  change (for_err _ ?bs) with (for_err delete_batch bs). set (evs := associated _ _).
  assert (forall ev, ev ∈ concat (batchStatusEventIDs evs 500) <-> dispatched_to_all w.(tables) ev) as Hev.
  { intros ev. unfold batchStatusEventIDs. rewrite batch_loop_concat by lia. rewrite drop_0.
    unfold evs. rewrite associated_spec by done. unfold dispatched_to_all. split.
    - intros Ha. split; [|intros j Hj; by apply Ha, Hl]. intros He.
      assert (i ∈ ready_ids w.(tables)) as Hi by (apply Hl; left). rewrite He in Hi. by apply elem_of_empty in Hi.
    - intros [_ Ha] j Hj. by apply Ha, Hl. }
  assert (Forall (fun b => b <> []) (batchStatusEventIDs evs 500)) as Hne.
  { eapply Forall_impl; [apply (batch_loop_sizes (length evs) evs 500 0); lia|]. by intros b [? _]. }
  assert (wf_tables (bump (bump w))) as Hw2 by done.
  destruct (delete_batches_run _ _ Hw2 Hne) as [H1 H2].
  destruct (for_err delete_batch _ _) as [r w2]. simpl in *. split.
  - intros ev. destruct (H1 ev) as [?|[Hin ?]]; [by left|right]. split; [by apply Hev|done].
  - intros Hnf ev Hd. apply H2; [done|]. by apply Hev.
Qed.

End StatusPurge.

(** ** Detectors *)

Section Detectors.
Context `{env : Env} `{el : !EnvLaws} `{gl : GormLaws} `{ll : LockFactoryLaws}.

(** The stale delete events of the class documentation: unreconciled delete events
    created before the cutoff whose resource was soft-deleted before it. *)
Definition stale (t : Tables) (cutoff : Time) (e : Event) : Prop :=
  e.(e_Source) = "Resources" /\ e.(EventType_) = DeleteEventType /\ e.(ReconciledDate) = None /\
  e.(CreatedAt) < cutoff /\
  exists (k : string) (r : Resource), t.(resources) !! k = Some r /\ r.(ID) = e.(SourceID) /\ r.(DeletedAt).(Valid) = true /\
              r.(DeletedAt).(NTime) < cutoff.

Lemma stale_event_stale t cutoff e : EventDao.stale_event t cutoff e = true <-> stale t cutoff e.
Proof.
  unfold EventDao.stale_event, stale, EventDao.stale_resource.
  rewrite !andb_true_iff, !bool_decide_eq_true, Z.ltb_lt, existsb_exists. split.
  - intros ((((? & ?) & ?) & ?) & (r & Hr%list_elem_of_In & ((Hid & Hv)%andb_prop & Ht)%andb_prop)).
    apply Memory.rows_elem in Hr as [k Hk]. apply bool_decide_eq_true in Hid. apply Z.ltb_lt in Ht.
    split_and!; try done. eauto 8.
  - intros (? & ? & ? & ? & k & r & Hk & Hid & Hv & Ht). split_and!; try done.
    exists r. split; [apply list_elem_of_In, Memory.rows_elem; eauto|].
    rewrite !andb_true_iff, bool_decide_eq_true, Z.ltb_lt. done.
Qed.

(** What retiring stale events may do to one event. *)
Definition retired (now at_ : Time) (e : Event) : Event := updated_row (set_ReconciledDate (Some now)) at_ e.

Definition retires (cutoff : Time) (w w' : World) : Prop :=
  exists ids : list string, Z.of_nat (length ids) <= 10000 /\
    (exists m : gmap string Event, w'.(tables) = tset m w.(tables)) /\ w'.(notified) = w.(notified) /\
    forall id, events_of w' !! id = events_of w !! id \/
      id ∈ ids /\ exists e now at_, events_of w !! id = Some e /\ stale w.(tables) cutoff e /\
        events_of w' !! id = Some (retired now at_ e).

Lemma retires_nothing cutoff w w' : same_data w w' -> retires cutoff w w'.
Proof.
  intros [Ht Hn]. exists []. split_and!; [simpl; lia| |done|].
  - exists w.(tables).(events). rewrite Ht. by destruct (tables w).
  - intros id. left. unfold events_of. by rewrite Ht.
Qed.

Lemma ReconcileStale_run cutoff w :
  wf_tables w -> retires cutoff w (EventDao.ReconcileStaleDeleteEvents cutoff w).2.
Proof.
  intros Hw. unfold EventDao.ReconcileStaleDeleteEvents. rewrite bind_run. cbn [time_now bind step ret].
  rewrite or_rollback_run, statement_run. cbn [tick bump].
  destruct (fault _); [by apply retires_nothing|].
  change (tables (bump w)) with w.(tables). rewrite gUpdates_eq. set (ids := row_id <$> _). cbn [snd].
  exists ids. split_and!; [|by eexists|done|].
  { unfold ids. rewrite length_fmap, length_take. unfold EventDao.StaleDeleteReconcileBatchSize. lia. }
  intros id. unfold events_of. simpl. rewrite lookup_fmap.
  destruct (events (tables w) !! id) as [e|] eqn:He; [|by left]. simpl.
  destruct (hits _ _ e) eqn:Hh; [|by left]. right.
  apply andb_prop in Hh as [_ [Hin%bool_decide_eq_true _]%andb_prop].
  pose proof (wf_events _ Hw _ _ He) as Hk2. rewrite Hk2 in Hin. split; [done|].
  exists e, (clock w.(tick)), (clock (S w.(tick))). split_and!; [done| |done].
  unfold ids in Hin. apply list_elem_of_fmap in Hin as (e0 & Hid & Hin).
  assert (e0 ∈ gFind false (EventDao.stale_event w.(tables) cutoff) w.(tables).(events)) as Hf.
  { apply list_elem_of_lookup in Hin as [n Hn]. apply lookup_take_Some in Hn as [Hn _].
    by eapply list_elem_of_lookup_2. }
  apply gFind_elem in Hf as (k & e1 & Hk & [_ Hst]%andb_prop & ->).
  assert (e1 = e) as ->; [|by apply stale_event_stale].
  pose proof (wf_events _ Hw _ _ Hk) as Hk1. simpl in Hid, Hk1, Hk2.
  assert (k = id) as -> by congruence. congruence.
Qed.

Lemma singleton_cases (P : World -> Prop) name body w :
  (forall w', same_data w w' -> P w') ->
  (forall w1 w', same_data w w1 -> ticks w w1 -> same_data (body w1).2 w' -> ticks (body w1).2 w' -> P w') ->
  P (singleton name body w).2.
Proof.
  intros Hs Hb. unfold singleton. rewrite bind_run.
  pose proof (NewNonBlockingLock_frame name Instances w) as Hl.
  destruct (NewNonBlockingLock name Instances w) as [[[uuid acq] err] w1]. simpl in Hl. rewrite bind_run.
  assert (forall w2, same_data w2 (Unlock uuid w2).2) as Hu.
  { intros w2. apply only_locks_same, Unlock_frame. }
  destruct err as [e|]; [|destruct acq]; simpl.
  - apply Hs. transitivity w1; [eauto with maestro|apply Hu].
  - specialize (Hb w1 (Unlock uuid (body w1).2).2).
    destruct (body w1) as [[] w2]. simpl in *. apply Hb; [eauto with maestro|by destruct Hl as (_&_&_&?)|apply Hu|apply Unlock_ticks].
  - apply Hs. transitivity w1; [eauto with maestro|apply Hu].
Qed.

(** The stale-delete detector retires at most 10000 events per run, and only
    unreconciled delete events older than the threshold whose resource has been
    soft-deleted for longer than the threshold; it sets their reconciled date, changes
    no other event, no other table, and notifies nobody. *)
Theorem StaleDeleteDetector_retires_only_stale threshold w :
  tables_wf w.(tables) ->
  exists n, (w.(tick) <= n)%nat /\ retires (clock n - threshold) w (StaleDeleteDetector_Run threshold w).2.
Proof.
  intros Hw. unfold StaleDeleteDetector_Run.
  apply (singleton_cases (fun w' => exists n, (w.(tick) <= n)%nat /\ retires (clock n - threshold) w w')).
  - intros w' Hs. exists w.(tick). split; [lia|]. by apply retires_nothing.
  - intros w1 w' [Ht Hn] Htk [Ht' Hn'] _. exists w1.(tick). split; [exact Htk|].
    unfold EventService.ReconcileStaleDeleteEvents, or_error in Ht', Hn'. rewrite !bind_run in Ht', Hn'.
    cbn [time_now bind step ret] in Ht', Hn'. rewrite bind_run in Ht', Hn'.
    assert (wf_tables (bump w1)) as Hw1 by (unfold wf_tables; simpl; by rewrite Ht).
    pose proof (ReconcileStale_run (clock w1.(tick) - threshold) (bump w1) Hw1) as (ids & Hlen & Hm & Hno & Hev).
    destruct (EventDao.ReconcileStaleDeleteEvents _ (bump w1)) as [r w2]. simpl in *.
    exists ids. split_and!; [done| |congruence|].
    + destruct Hm as [m Hm]. exists m. by rewrite Ht', Hm, Ht.
    + intros id. specialize (Hev id). unfold events_of in *. rewrite Ht'. simpl in Hev. by rewrite Ht in Hev.
Qed.

(** ** Undelivered resources *)

(** [w'] has the events of [w], plus unreconciled ones for the resources of [l]. *)
Definition republishes (l : list Resource) (w w' : World) : Prop :=
  (exists m : gmap string Event, w'.(tables) = tset m w.(tables)) /\
  (forall id e, events_of w !! id = Some e -> events_of w' !! id = Some e) /\
  forall id e, events_of w' !! id = Some e -> events_of w !! id = Some e \/
    exists (r : Resource) now, r ∈ l /\ e = created_event id now "Resources" r.(ID) (republish_type r).

Lemma republishes_refl l w w' : w'.(tables) = w.(tables) -> republishes l w w'.
Proof.
  intros Ht. unfold republishes, events_of. rewrite Ht. split_and!; [|done|by left].
  exists w.(tables).(events). by destruct (tables w).
Qed.

Lemma republishes_step l (r : Resource) w w1 ok sid ty :
  r ∈ l -> sid = r.(ID) -> ty = republish_type r -> forall w2,
  republishes l w w1 -> recorded any_event w1 sid ty w2 ok -> republishes l w w2.
Proof.
  intros Hr -> -> w2 ([m Hm] & Hold & Hnew) Hrec.
  assert (forall e, fresh_event w1 r.(ID) (republish_type r) e -> w2.(tables) = add_event e w1.(tables) ->
                    republishes l w w2) as Hadd.
  { intros e [Hn [now He]] Ht. unfold republishes, events_of in *. rewrite Ht. simpl. split_and!.
    - exists (<[e.(ID) := e]> w1.(tables).(events)). unfold add_event. rewrite Hm. done.
    - intros id e0 He0. rewrite lookup_insert_ne; [auto|]. intros <-. rewrite (Hold _ _ He0) in Hn. done.
    - intros id e0. rewrite lookup_insert. case_decide as Hid; [|apply Hnew].
      intros [= <-]. right. exists r, now. rewrite <-Hid. done. }
  destruct Hrec as [[Ht _]|e Hf _ Ht _|e Hf _ Ht _]; [|by eapply Hadd..].
  unfold republishes, events_of in *. rewrite Ht. split_and!; [by exists m|done|done].
Qed.

Lemma EventService_Create_recorded id ty w :
  exists ok, recorded any_event w id ty (EventService.Create (new_event "Resources" id ty) w).2 ok.
Proof.
  pose proof (create_event_recorded id ty w) as Hc. unfold ResourceService.create_event in *.
  rewrite bind_run in Hc. destruct (EventService.Create _ w) as [r w']. simpl in Hc |- *.
  eexists. eapply (recorded_same _ any_event w w w' w'); [done..|exact Hc].
Qed.

Lemma republish_all l0 l w w1 :
  (forall r, r ∈ l -> r ∈ l0) -> republishes l0 w w1 ->
  republishes l0 w (for_each (fun resource : Resource =>
    EventService.Create (new_event "Resources" resource.(ID) (republish_type resource)) >> ret tt) l w1).2.
Proof.
  revert w1. induction l as [|r l IH]; intros w1 Hin Hr; [done|]. cbn [for_each]. rewrite !bind_run.
  destruct (EventService_Create_recorded r.(ID) (republish_type r) w1) as [ok Hc].
  destruct (EventService.Create _ w1) as [res w2]. cbn [ret]. simpl in Hc. apply IH.
  - intros x Hx. apply Hin. by right.
  - eapply republishes_step; [apply Hin; left|done|done|exact Hr|exact Hc].
Qed.

(** The undelivered detector changes no existing event and no other table; each
    event it adds is an unreconciled Create (version 1) or Update event for a resource
    that, at the check, was live, had no status, was created before the threshold, had
    a live consumer and no unreconciled event pending. *)
Theorem UndeliveredDetector_republishes_only_undelivered threshold w :
  tables_wf w.(tables) ->
  exists n l, (w.(tick) <= n)%nat /\ republishes l w (UndeliveredDetector_Run threshold w).2 /\
    forall r, r ∈ l -> exists k row, w.(tables).(resources) !! k = Some row /\ r = load scanNull row /\
                         ResourceDao.undelivered w.(tables) (clock n - threshold) row = true.
Proof.
  intros Hw. unfold UndeliveredDetector_Run.
  apply (singleton_cases (fun w' => exists n l, (w.(tick) <= n)%nat /\ republishes l w w' /\
    forall r, r ∈ l -> exists k row, w.(tables).(resources) !! k = Some row /\ r = load scanNull row /\
                         ResourceDao.undelivered w.(tables) (clock n - threshold) row = true)).
  - intros w' [Ht _]. exists w.(tick), []. split_and!; [lia|by apply republishes_refl|by intros r ?%elem_of_nil].
  - intros w1 w' [Ht Hn] Htk [Ht' Hn'] _. rewrite bind_run in Ht'.
    unfold ResourceService.FindUndelivered, ResourceDao.FindUndelivered, or_error in Ht'.
    rewrite !bind_run in Ht'. cbn [time_now bind step ret] in Ht'. rewrite statement_run in Ht'.
    destruct (fault (tick (bump w1))) as [e|]; simpl in Ht'.
    { exists w.(tick), []. split_and!; [lia|apply republishes_refl; congruence|by intros r ?%elem_of_nil]. }
    exists w1.(tick). set (l := gFind _ _ _) in Ht'. exists l. split_and!; [exact Htk| |].
    + match type of Ht' with w'.(tables) = (for_each _ _ ?w2).2.(tables) =>
        pose proof (republish_all l l w w2 (fun r Hr => Hr)) as Hall end.
      specialize (Hall ltac:(apply republishes_refl; simpl; congruence)).
      unfold republishes, events_of in *. by rewrite Ht'.
    + intros r Hr. unfold l in Hr. apply gFind_elem in Hr as (k & row & Hk & [_ Hu]%andb_prop & ->).
      simpl in Hk, Hu. rewrite Ht in Hk, Hu. eauto.
Qed.

End Detectors.

(** ** The lock of the event *)

Section FilterLock.
Context `{env : Env} `{gorm : Gorm} `{pl : PgAdvisoryLaws} `{wq : WorkQueue}.
Import AdvisoryLockFactory.

Lemma end_begun tx s : lock_wf s -> tx ∉ s.(pg).(openTxs) -> end_tx tx (begun tx s).(pg) = s.(pg).
Proof.
  intros Hwf Hn. destruct s as [st [m o]]. unfold end_tx; simpl in *. f_equal; [|clear -Hn; set_solver].
  apply map_filter_id. intros k' tx' Hk'. simpl. intros ->. by eapply Hn, (wf_holders _ Hwf).
Qed.

(** Handlers that release every lock they take. *)
Definition handlers_keep_locks (km : Handlers) : Prop :=
  forall source per ev fns sid, km !! source = Some per -> per !! ev = Some fns ->
    Forall (fun fn : ControllerHandlerFunc => always (frames locks) (fn sid)) fns.

Lemma statement_locks {A} (f : Time -> Tables -> result A DBError * Tables) : always (frames locks) (statement f).
Proof. intros w. rewrite statement_run. destruct (fault _); [done|]. by destruct (f _ _). Qed.
Lemma time_now_locks : always (frames locks) time_now.
Proof. by intros w. Qed.
Lemma MarkForRollback_locks : always (frames locks) MarkForRollback.
Proof. by intros w. Qed.
#[local] Hint Resolve statement_locks time_now_locks MarkForRollback_locks : maestro.
#[local] Hint Unfold st_take st_save : ops.

Lemma handle_filtered_locks km id : handlers_keep_locks km -> always (frames locks) (handle_filtered km id).
Proof.
  intros Hk. unfold handle_filtered. always_step; [always_auto|]. intros [e|err]; [|always_auto].
  destruct (ReconciledDate e); [always_auto|]. destruct (km !! _) as [per|] eqn:Hp; [|always_auto].
  destruct (per !! _) as [fns|] eqn:Hf; [|always_auto].
  always_step; [apply always_for_err_Forall; [typeclasses eauto|by eapply Hk]|]. always_auto.
Qed.

(** Unlocking what a non-blocking call without error returned restores the locks. *)
Lemma NewNonBlockingLock_Unlock id ty w w2 :
  lock_wf w.(locks) -> newID w.(tick) <> "" -> w.(locks).(lockStore) !! newID w.(tick) = None ->
  (NewNonBlockingLock id ty w).1.2 = None ->
  w2.(locks) = (NewNonBlockingLock id ty w).2.(locks) ->
  (Unlock (NewNonBlockingLock id ty w).1.1.1 w2).2.(locks) = w.(locks).
Proof.
  intros Hwf Hne Hfr Herr Hw2. simpl in *.
  pose proof (NewNonBlockingLock_run id ty w) as Hr. rewrite Unlock_run, Hw2.
  destruct (NewNonBlockingLock_ id ty w) as [[[uuid acq] err] w1]. simpl in *. subst err.
  inversion Hr as [|tx' e' Hn' Heq Hs'|tx x now Hn Hf Hu Hs|tx x now Hn Hf Hu Hs]; subst uuid acq;
    rewrite decide_False by done; rewrite <-?Hs; simpl; rewrite lookup_insert_eq; simpl;
    unfold released; simpl; rewrite delete_insert_id by done.
  - pose proof (end_begun tx w.(locks) Hwf Hn) as He. simpl in He. rewrite He. by destruct (locks w).
  - pose proof (end_granted tx (key id ty) w.(locks) Hwf Hn Hf) as He. simpl in He. rewrite He. by destruct (locks w).
Qed.

(** With the lock-based filter, handling an event leaves no lock behind: whether
    the event was processed, skipped because another worker holds it, or failed, the
    advisory locks and the filter's own table are as before, provided taking the lock
    itself did not fail. *)
Theorem handleEvent_releases_lock km id s :
  lock_wf s.(world).(locks) -> newID s.(world).(tick) <> "" ->
  s.(world).(locks).(lockStore) !! newID s.(world).(tick) = None ->
  s.(filterLocks) !! id = None ->
  (NewNonBlockingLock id Events s.(world)).1.2 = None ->
  handlers_keep_locks km ->
  let s' := (handleEvent km NewLockBasedEventFilter id s).2 in
  s'.(world).(locks) = s.(world).(locks) /\ s'.(filterLocks) = s.(filterLocks).
Proof.
  intros Hwf Hne Hfr Hfl Herr Hh%(handle_filtered_locks _ id). cbn zeta. unfold handleEvent. rewrite bind_run.
  cbn [Filter NewLockBasedEventFilter]. unfold LockBasedEventFilter_Filter. rewrite bind_run, onWorld_run.
  pose proof (NewNonBlockingLock_Unlock id Events s.(world)) as Hu.
  destruct (NewNonBlockingLock id Events s.(world)) as [[[uuid acq] err] w1]. cbn [fst snd] in *. subst err.
  rewrite bind_run. cbn [modify ret]. set (s1 := mkCState _ _ _).
  match goal with |- context [bind ?m ?k s1] => assert (exists r w2, m s1 =
      (r, mkCState w2 (<[id := uuid]> s.(filterLocks)) s.(eventsQueue)) /\ w2.(locks) = w1.(locks)) as (r & w2 & Hm & Hl) end.
  { destruct acq; [|by eexists _, _]. rewrite onWorld_run. specialize (Hh w1). unfold frames in Hh.
    eexists _, _. split; [reflexivity|]. exact Hh. }
  rewrite bind_run, Hm, bind_run. cbn [DeferredAction NewLockBasedEventFilter].
  unfold LockBasedEventFilter_DeferredAction. rewrite bind_run. cbn [gets filterLocks].
  rewrite lookup_insert_eq. rewrite bind_run, onWorld_run. cbn [modify ret fst snd filterLocks world].
  split; [by apply Hu|]. by rewrite delete_insert_id.
Qed.
End FilterLock.
