(* ===== verification/ControllerWitnesses.v ===== *)
(** * The controller theorems on a concrete deployment *)

From S2P Require Import Prelude GoLib Errors Types Json Bundle Validation Gorm World Dao DaoFacts Locks Services Samples ServiceFacts Controllers ControllerFacts.
Import api SetQueue.

Open Scope Z_scope.

(** One pending event, one reconciled, one live instance that got the status event. *)
Definition pending_event : Event := created_event "e2" 2 "Resources" "r1" CreateEventType.
Definition finished_event : Event := set_ReconciledDate (Some 5) (created_event "e3" 3 "Resources" "r1" UpdateEventType).
Definition ready_instance : ServerInstance := mkServerInstance (live "i1" 1) 1 true.
Definition sample_status_event : StatusEvent :=
  mkStatusEvent (live "s1" 1) "r1" "source1" "" None None StatusUpdateEventType None.

Definition controller_tables : Tables :=
  mkTables {["r1" := sample_resource; "r2" := deleting_resource]} {["c1" := sample_consumer]}
           {["e1" := old_delete_event; "e2" := pending_event; "e3" := finished_event]}
           {["s1" := sample_status_event]} {["i1" := ready_instance]} [mkEventInstance "s1" "i1"].
Definition controller_world : World := mkWorld controller_tables [] None no_locks 100 [].
Definition controller_state : CState := mkCState controller_world ∅ {["e2"]}.

Lemma controller_tables_wf : tables_wf controller_tables.
Proof.
  split; simpl; repeat (apply map_Forall_insert_2; [done|]); apply map_Forall_empty.
Qed.

(** A handler that always succeeds, registered for create events of resources. *)
Definition noop_handler : ControllerHandlerFunc := fun _ => ret None.
Definition sample_handlers : Handlers := Add (mkControllerConfig "Resources" {[CreateEventType := [noop_handler]]}) ∅.

Lemma sample_handlers_eq : sample_handlers = {["Resources" := {[CreateEventType := [noop_handler]]}]}.
Proof. vm_compute. reflexivity. Qed.


Lemma sample_handled e fns :
  handled_by sample_handlers controller_world "e2" e fns -> e = pending_event /\ fns = [noop_handler].
Proof.
  intros (He & _ & _ & per & Hp & Hf). rewrite sample_handlers_eq in Hp.
  apply lookup_singleton_Some in Hp as [_ <-]. apply lookup_singleton_Some in Hf as [_ <-].
  split; [|done]. vm_compute in He. by injection He as <-.
Qed.

Lemma handleEvent_reconciles_witness :
  exists now at_, events_of (handle_filtered sample_handlers "e2" controller_world).2 !! "e2"
                  = Some (reconciled_as now at_ pending_event).
Proof.
  destruct (handleEvent_reconciles sample_handlers "e2" controller_world) as (_ & _ & Hr & _).
  - apply controller_tables_wf.
  - intros e fns [-> ->]%sample_handled. apply Forall_singleton. split; by intros s.
  - assert (handled_by sample_handlers controller_world "e2" pending_event [noop_handler]) as Hby.
    { split_and!; [vm_compute; reflexivity..|]. eexists. by split; vm_compute. }
    specialize (Hr pending_event [noop_handler] Hby).
    destruct (run_handlers [noop_handler] pending_event.(SourceID) (bump controller_world)) as [err w1] eqn:E.
    injection E as <- <-. destruct Hr as [Hok Hmark]. apply Hmark, Hok. by split_and!.
Defined.

Lemma syncEvents_spec_witness :
  "e1" ∈ pending (syncEvents controller_state).2.(eventsQueue).
Proof.
  destruct (syncEvents_spec controller_state controller_tables_wf) as (Hkeep & _ & _ & Hq).
  apply (Hq (fun n => eq_refl) "e1" old_delete_event); [|reflexivity].
  apply Hkeep; [vm_compute; reflexivity|reflexivity].
Defined.

Lemma syncStatusEvents_spec_witness :
  status_events_of (syncStatusEvents controller_world).2 !! "s1" = None.
Proof.
  apply (syncStatusEvents_spec controller_world controller_tables_wf); [done|]. split.
  - intros He. assert ("i1" ∈ ready_ids controller_world.(tables)) as Hi by (vm_compute; by repeat constructor).
    rewrite He in Hi. by apply elem_of_empty in Hi.
  - intros i Hi. unfold ready_ids in Hi. rewrite elem_of_list_to_set in Hi.
    apply list_elem_of_In in Hi. vm_compute in Hi. destruct Hi as [<-|[]]. left.
Defined.

Lemma StaleDeleteDetector_retires_only_stale_witness :
  exists n, (100 <= n)%nat /\ retires (clock n - 10) controller_world (StaleDeleteDetector_Run 10 controller_world).2.
Proof. apply (StaleDeleteDetector_retires_only_stale 10 controller_world controller_tables_wf). Defined.

Lemma UndeliveredDetector_republishes_only_undelivered_witness :
  exists n l, (100 <= n)%nat /\ republishes l controller_world (UndeliveredDetector_Run 10 controller_world).2 /\
    forall r, r ∈ l -> exists k row, controller_world.(tables).(resources) !! k = Some row /\ r = load scanNull row /\
                         ResourceDao.undelivered controller_world.(tables) (clock n - 10) row = true.
Proof. apply (UndeliveredDetector_republishes_only_undelivered 10 controller_world controller_tables_wf). Defined.

Lemma handleEvent_releases_lock_witness :
  (handleEvent sample_handlers NewLockBasedEventFilter "e1" controller_state).2.(world).(locks) = no_locks.
Proof.
  apply (handleEvent_releases_lock sample_handlers "e1" controller_state);
    [apply no_locks_wf|discriminate|reflexivity|reflexivity|vm_compute; reflexivity|].
  intros source per ev fns sid Hp Hf. rewrite sample_handlers_eq in Hp.
  apply lookup_singleton_Some in Hp as [_ <-]. apply lookup_singleton_Some in Hf as [_ <-].
  apply Forall_singleton. by intros w.
Defined.
