(* ===== verification/Reports.v ===== *)
(** * The reports of the controllers, and the last queries of the DAOs

    The gauges that Run of framework.go and status_controller.go set periodically:
    reportOldestEvent and reportNotificationQueueUsage with their services and DAOs. A
    gauge holds an exact rational or NaN; the rounding of float64 is left out. The usage of
    the notification queue is the database's own number, the class [NotificationQueue].
    FirstByConsumerName of pkg/dao/resource.go is here too; the collation that orders
    primary keys is an argument. *)

From Stdlib Require Import QArith.
From S2P Require Import Prelude GoLib Errors Types Json Bundle Validation Gorm World Collectors Dao DaoFacts Locks Services Controllers Samples.
Import api errors Fmt.

Local Close Scope Q_scope.
Open Scope Z_scope.
Delimit Scope Q_scope with Q.

(** ** Queries *)

Section Queries.
Context `{env : Env} `{gorm : Gorm}.

(** MIN of a column: NULL over no rows *)
Definition Min (l : list Time) : option Time :=
  match l with [] => None | t :: l => Some (foldr Z.min t l) end.

(** EXTRACT(EPOCH FROM d) of an interval in nanoseconds *)
Definition seconds (d : Z) : Q := d # 1000000000.

Definition unreconciled (e : Event) : bool := bool_decide (e.(ReconciledDate) = None).

(** A raw statement is not scoped to the live rows. *)
Definition FindAgeOfOldestUnreconciledEvent : M World (result (option Q) DBError) :=
  statement (fun now t =>
    (Ok ((fun oldest => seconds (now - oldest)) <$> Min ((fun e : Event => e.(CreatedAt)) <$> gFind true unreconciled t.(events))), t)).

Class NotificationQueue := pg_notification_queue_usage : Tables -> option Q.
Definition GetNotificationQueueUsage `{NotificationQueue} : M World (result (option Q) DBError) :=
  statement (fun _ t => (Ok (pg_notification_queue_usage t), t)).

Section First.
(** the order of the primary key's collation *)
Variable collates : string -> string -> bool.
Fixpoint First_of (l : list Resource) : option Resource :=
  match l with
  | [] => None
  | r :: l => match First_of l with
              | Some r' => if collates (row_id r') (row_id r) then Some r' else Some r
              | None => Some r
              end
  end.
Definition FirstByConsumerName (consumerName : string) (unscoped : bool) : M World (result Resource DBError) :=
  statement (fun _ t =>
    (match First_of (gFind unscoped (fun r : Resource => bool_decide (r.(ConsumerName) = consumerName)) t.(resources)) with
     | Some r => Ok r
     | None => Err ErrRecordNotFound
     end, t)).
End First.

Definition EventService_FindAgeOfOldestUnreconciledEvent : M World (result (option Q) ServiceError) :=
  or_error (fun e => GeneralError "Unable to get age of oldest unreconciled event: %s" [GStr (db_message e)])
    FindAgeOfOldestUnreconciledEvent.
Definition StatusEventService_GetNotificationQueueUsage `{NotificationQueue} : M World (result (option Q) ServiceError) :=
  or_error (fun e => GeneralError "Unable to get notification queue usage: %s" [GStr (db_message e)])
    GetNotificationQueueUsage.

(** ** Gauges *)

Inductive gauge_value := NaN | Value (q : Q).
Definition Gauges := gmap string gauge_value.
Definition Set_ (c : Collector) (v : gauge_value) : M (World * Gauges) unit :=
  modify (fun '(w, g) => (w, <[fqName c := v]> g)).
Definition in_world {A} (m : M World A) : M (World * Gauges) A :=
  fun '(w, g) => let '(a, w) := m w in (a, (w, g)).

Definition max0 (q : Q) : Q := if Qle_bool q 0 then 0%Q else q.

Definition reportOldestEvent : M (World * Gauges) unit :=
  let! r := in_world EventService_FindAgeOfOldestUnreconciledEvent in
  match r with
  | Err _ => Set_ controllers.specControllerEventOldestUnreconciledAge NaN
  | Ok ageSeconds =>
      let age := match ageSeconds with Some a => max0 a | None => 0%Q end in
      Set_ controllers.specControllerEventOldestUnreconciledAge (Value age)
  end.

Definition reportNotificationQueueUsage `{NotificationQueue} : M (World * Gauges) unit :=
  let! r := in_world StatusEventService_GetNotificationQueueUsage in
  match r with
  | Err _ | Ok None => ret tt
  | Ok (Some usage) => Set_ controllers.notificationQueueUsage (Value usage)
  end.
End Queries.

(** ** Facts *)

Section Facts.
Context `{env : Env} `{gl : GormLaws}.

Lemma Min_spec l : match Min l with
                   | None => l = []
                   | Some m => m ∈ l /\ Forall (fun t => m <= t) l
                   end.
Proof.
  destruct l as [|t l]; [done|]. cbn [Min]. induction l as [|u l [IHin IHle]]; cbn [foldr].
  { split; [set_solver|]. repeat constructor. lia. }
  apply Forall_cons in IHle as [Ht Hl]. destruct (Z.min_spec u (foldr Z.min t l)) as [[Hlt ->]|[Hge ->]]; (split; [set_solver|]).
  - constructor; [lia|]. constructor; [lia|]. eapply Forall_impl; [exact Hl|]. cbn. lia.
  - by repeat constructor.
Qed.

(** What the gauge of the oldest event is set to: the age of an unreconciled event no
    other is older than, never below zero, 0 without any, NaN when the database fails. *)
Definition oldest_age (w : World) (v : gauge_value) : Prop :=
  match fault w.(tick) with
  | Some _ => v = NaN
  | None =>
      (v = Value 0%Q /\ forall k e, w.(tables).(events) !! k = Some e -> e.(ReconciledDate) <> None) \/
      exists k e, w.(tables).(events) !! k = Some e /\ e.(ReconciledDate) = None /\
        v = Value (max0 (seconds (clock w.(tick) - e.(CreatedAt)))) /\
        forall k' e', w.(tables).(events) !! k' = Some e' -> e'.(ReconciledDate) = None -> e.(CreatedAt) <= e'.(CreatedAt)
  end.

Lemma unreconciled_rows (t : Tables) c :
  c ∈ ((fun e : Event => e.(CreatedAt)) <$> gFind true unreconciled t.(events)) <->
  exists k e, t.(events) !! k = Some e /\ e.(ReconciledDate) = None /\ c = e.(CreatedAt).
Proof.
  rewrite list_elem_of_fmap. setoid_rewrite gFind_elem. unfold hits, unreconciled. cbn [visible orb andb].
  split.
  - intros (e & -> & k & e0 & Hk & Hr%bool_decide_eq_true & ->). eauto.
  - intros (k & e & Hk & Hr & ->). exists (load scanNull e). split; [done|]. exists k, e.
    by rewrite bool_decide_eq_true.
Qed.

Theorem reportOldestEvent_spec w g :
  let '(_, (w', g')) := reportOldestEvent (w, g) in
  w' = bump w /\ exists v, g' = <[fqName controllers.specControllerEventOldestUnreconciledAge := v]> g /\ oldest_age w v.
Proof.
  unfold reportOldestEvent, EventService_FindAgeOfOldestUnreconciledEvent, FindAgeOfOldestUnreconciledEvent, oldest_age.
  rewrite bind_run. cbn [in_world]. unfold or_error. rewrite bind_run, statement_run.
  destruct (fault _); [cbn; eauto|]. cbn [ret map_err]. rewrite set_tables_bump.
  pose proof (unreconciled_rows w.(tables)) as Hrows.
  pose proof (Min_spec ((fun e : Event => e.(CreatedAt)) <$> gFind true unreconciled w.(tables).(events))) as Hmin.
  destruct (Min _) as [m|] eqn:Em; cbn [fmap option_fmap option_map].
  - destruct Hmin as [(k & e & Hk & Hr & ->)%Hrows Hle]. split; [done|]. eexists. split; [done|]. right. exists k, e.
    split_and!; [done..|]. intros k' e' Hk' Hr'. rewrite Forall_forall in Hle. apply Hle, Hrows. eauto.
  - split; [done|]. eexists. split; [done|]. left. split; [done|]. intros k e Hk Hr.
    assert (e.(CreatedAt) ∈ ((fun e : Event => e.(CreatedAt)) <$> gFind true unreconciled w.(tables).(events))) as Hin
      by (apply Hrows; eauto).
    rewrite Hmin in Hin. set_solver.
Qed.

(** The queue gauge keeps its last value while the database fails, where the age turns to
    NaN: only a number that was read is ever reported. *)
Theorem reportNotificationQueueUsage_spec `{NotificationQueue} w g :
  reportNotificationQueueUsage (w, g) =
  (tt, (bump w, match fault w.(tick), pg_notification_queue_usage w.(tables) with
                | None, Some u => <[fqName controllers.notificationQueueUsage := Value u]> g
                | _, _ => g
                end)).
Proof.
  unfold reportNotificationQueueUsage, StatusEventService_GetNotificationQueueUsage, GetNotificationQueueUsage, or_error.
  rewrite bind_run. cbn [in_world]. rewrite bind_run, statement_run. destruct (fault _); [done|].
  cbn [ret map_err]. rewrite set_tables_bump. by destruct (pg_notification_queue_usage _).
Qed.

(** What orders primary keys: a total preorder. *)
Class Collation (collates : string -> string -> bool) : Prop := {
  collates_trans x y z : collates x y = true -> collates y z = true -> collates x z = true;
  collates_total x y : collates x y = true \/ collates y x = true;
}.

Lemma First_of_spec collates `{!Collation collates} l :
  match First_of collates l with
  | None => l = []
  | Some r => r ∈ l /\ forall r', r' ∈ l -> collates (row_id r) (row_id r') = true
  end.
Proof.
  induction l as [|r l IH]; [done|]. cbn [First_of].
  assert (collates (row_id r) (row_id r) = true) as Hrefl by (by destruct (collates_total (row_id r) (row_id r))).
  destruct (First_of collates l) as [r1|] eqn:E1; [|subst l; set_solver].
  destruct IH as [Hin Hle]. destruct (collates (row_id r1) (row_id r)) eqn:Ec; (split; [set_solver|]).
  - intros r' [->|Hr']%elem_of_cons; [done|by apply Hle].
  - intros r' [->|Hr']%elem_of_cons; [done|]. destruct (collates_total (row_id r1) (row_id r)) as [?|Hc]; [congruence|].
    eapply collates_trans; [exact Hc|by apply Hle].
Qed.

(** FirstByConsumerName finds a resource of the consumer whenever there is one among the
    rows its scope sees, and no other has a smaller primary key. *)
Theorem FirstByConsumerName_spec collates `{!Collation collates} name unscoped w :
  fault w.(tick) = None ->
  let mine r := visible unscoped r = true /\ r.(ConsumerName) = name in
  match (FirstByConsumerName collates name unscoped w).1 with
  | Ok r => exists k r0, w.(tables).(resources) !! k = Some r0 /\ mine r0 /\ r = load scanNull r0 /\
              forall k' r', w.(tables).(resources) !! k' = Some r' -> mine r' -> collates (row_id r0) (row_id r') = true
  | Err e => e = ErrRecordNotFound /\ forall k r, w.(tables).(resources) !! k = Some r -> ~ mine r
  end.
Proof.
  intros Hf mine. unfold FirstByConsumerName. rewrite statement_run, Hf.
  set (p := fun r : Resource => bool_decide (r.(ConsumerName) = name)).
  assert (forall r, r ∈ gFind unscoped p w.(tables).(resources) <->
            exists k r0, w.(tables).(resources) !! k = Some r0 /\ mine r0 /\ r = load scanNull r0) as Hrows.
  { intros r. rewrite gFind_elem. unfold hits, p, mine. by setoid_rewrite andb_true_iff; setoid_rewrite bool_decide_eq_true. }
  pose proof (First_of_spec collates (gFind unscoped p w.(tables).(resources))) as Hfirst.
  destruct (First_of collates _) as [r|] eqn:Ef; cbn.
  - destruct Hfirst as [(k & r0 & Hk & Hm & ->)%Hrows Hle]. exists k, r0. split_and!; [done..|].
    intros k' r' Hk' Hm'. assert (load scanNull r' ∈ gFind unscoped p w.(tables).(resources)) as Hin by (apply Hrows; eauto).
    specialize (Hle _ Hin). by destruct r0, r'.
  - split; [done|]. intros k r Hk Hm. assert (load scanNull r ∈ gFind unscoped p w.(tables).(resources)) as Hin by (apply Hrows; eauto).
    rewrite Hfirst in Hin. set_solver.
Qed.
End Facts.
