(* ===== verification/SourceClient.v ===== *)
(** * pkg/client/cloudevents: the codec and the source client

    Codec translates a resource to the CloudEvent an agent receives and an agent's
    status event back to a resource; SourceClientImpl publishes spec events and sends
    status resync requests in batches. The CloudEvents accessors, the generic source
    client and the transport (sdk-go) are the classes [EventOps] and [CloudEventSource]. *)

From S2P Require Import Prelude GoLib Sha256 Errors Types Json Bundle Validation Gorm World Dao DaoFacts Locks Services.
Import api errors Fmt.

Open Scope Z_scope.

(** ** sdk-go: types, extension names, event accessors *)

Record CloudEventsType := mkCloudEventsType {
  CloudEventsDataType : string;
  SubResource : string;
  Action : string;
}.

Definition SubResourceSpec : string := "spec".
Definition SubResourceStatus : string := "status".
Definition ResyncRequestAction : string := "resync_request".
Definition ExtensionResourceID : string := "resourceid".
Definition ExtensionClusterName : string := "clustername".
Definition ExtensionOriginalSource : string := "originalsource".
Definition ExtensionDeletionTimestamp : string := "deletiontimestamp".
Definition ExtensionStatusHash : string := "statushash".

(** The extensions of the protocol. *)
Definition extension_names : list string :=
  [ExtensionWorkMeta; ExtensionResourceVersion; ExtensionStatusUpdateSequenceID; ExtensionResourceID;
   ExtensionClusterName; ExtensionOriginalSource; ExtensionDeletionTimestamp; ExtensionStatusHash].

Class EventOps `{ce : CloudEvents} := {
  ManifestBundleEventDataType : string;
  ParseCloudEventsType : string -> result CloudEventsType string;
  TypeString : CloudEventsType -> string;
  ceType : CE -> string;
  SetSource : string -> CE -> CE;
  SetType : string -> CE -> CE;
  SetID : string -> CE -> CE;
  SetTime : Time -> CE -> CE;
  SetExtension : string -> ext -> CE -> CE;
  ext_string : string -> ext;
  ext_int : Z -> ext;
  ext_time : Time -> ext;
  (** %v of an extension value *)
  ext_show : ext -> string;
  (** json.Marshal of a ManifestWorkStatus made of the conditions and the resource
      status of a ManifestBundleStatus *)
  marshalWorkStatus : list (string * json) -> result string string;
  (** meta.IsStatusConditionTrue(status.Conditions, type) *)
  IsStatusConditionTrue : list (string * json) -> string -> bool;
  (** %T of a JSON value *)
  type_of : json -> string;
}.
Arguments EventOps ce : clear implicits.
Arguments EventOps {ce}.

Class EventOpsLaws `{eo : EventOps} : Prop := {
  ext_SetExtension k v e k' : k ∈ extension_names ->
    ceExtensions (SetExtension k v e) k' = if decide (k = k') then Some v else ceExtensions e k';
  ext_SetSource s e k : ceExtensions (SetSource s e) k = ceExtensions e k;
  ext_SetType t e k : ceExtensions (SetType t e) k = ceExtensions e k;
  ext_SetID i e k : ceExtensions (SetID i e) k = ceExtensions e k;
  ext_SetTime t e k : ceExtensions (SetTime t e) k = ceExtensions e k;
  type_SetType t e : ceType (SetType t e) = t;
  type_SetExtension k v e : k ∈ extension_names -> ceType (SetExtension k v e) = ceType e;
  type_SetID i e : ceType (SetID i e) = ceType e;
  type_SetTime t e : ceType (SetTime t e) = ceType e;
  ToString_string s : ToString (Some (ext_string s)) = Ok s;
  ToInteger_int z : - 2 ^ 31 <= z < 2 ^ 31 -> ToInteger (Some (ext_int z)) = Ok z;
}.

(** The generic source client and the transport underneath it. *)
Class CloudEventSource `{ce : CloudEvents} := {
  Publish : CloudEventsType -> Resource -> M World (option string);
  (** NewEventBuilder(source, type).WithClusterName(c).NewEvent() with SetData(hashes) *)
  NewResyncEvent : string -> CloudEventsType -> string -> list (string * string) -> M World (result CE string);
  Send : CE -> M World (option string);
  clientReady : M World bool;
}.
Arguments CloudEventSource ce : clear implicits.
Arguments CloudEventSource {ce}.

(** ** The interface the rest of the server uses *)

Class SourceClient := {
  sc_OnCreate : string -> M World (option string);
  sc_OnUpdate : string -> M World (option string);
  sc_OnDelete : string -> M World (option string);
  sc_Resync : list string -> M World (option string);
  sc_IsReady : M World bool;
}.

(** ** codec.go *)

Module Codec.
Section Ops.
Context `{env : Env} `{eo : EventOps}.

(** The resource is the caller's: its payload is changed in place. *)
Definition resetPayloadMetadataNameWithResID (res : Resource) : result Resource string :=
  match jget ExtensionWorkMeta res.(Payload) with
  | None => Ok res
  | Some (JObj metaObj) =>
      Ok (set_Payload (jset ExtensionWorkMeta (JObj (oset "name" (JStr res.(ID)) metaObj)) res.(Payload)) res)
  | Some metadata => Err (Sprintf "unsupported object type %s" [GStr (type_of metadata)])
  end.

Definition Encode (source : string) (eventType : CloudEventsType) (res : Resource) : M World (result CE string) :=
  match resetPayloadMetadataNameWithResID res with
  | Err e => ret (Err e)
  | Ok res =>
      match JSONMAPToCloudEvent res.(Payload) with
      | Err e => ret (Err (Sprintf "failed to convert resource payload to cloudevent: %v" [GStr e]))
      | Ok evt =>
          let evt := SetSource source evt in
          let evt := SetType (TypeString eventType) evt in
          let evt := SetExtension ExtensionResourceID (ext_string res.(ID)) evt in
          let evt := SetExtension ExtensionResourceVersion (ext_int (Int.int64 res.(Version))) evt in
          let evt := SetExtension ExtensionClusterName (ext_string res.(ConsumerName)) evt in
          if IsZero (GetDeletionTimestamp res) then ret (Ok evt)
          else
            let! id := new_id in
            let! now := time_now in
            ret (Ok (SetExtension ExtensionDeletionTimestamp (ext_time (GetDeletionTimestamp res))
                       (SetTime now (SetID id evt))))
      end
  end.

Definition Decode (sourceID : string) (evt : CE) : result Resource string :=
  match ParseCloudEventsType (ceType evt) with
  | Err e => Err (Sprintf "failed to parse cloud event type %s, %v" [GStr (ceType evt); GStr e])
  | Ok eventType =>
  if decide (eventType.(CloudEventsDataType) <> ManifestBundleEventDataType) then
    Err (Sprintf "unsupported cloudevents data type %s" [GStr eventType.(CloudEventsDataType)])
  else
  match ToString (ceExtensions evt ExtensionResourceID) with
  | Err e => Err (Sprintf "failed to get resourceid extension: %v" [GStr e])
  | Ok resourceID =>
  match ToInteger (ceExtensions evt ExtensionResourceVersion) with
  | Err e => Err (Sprintf "failed to get resourceversion extension: %v" [GStr e])
  | Ok resourceVersion =>
  match ToString (ceExtensions evt ExtensionClusterName) with
  | Err e => Err (Sprintf "failed to get clustername extension: %v" [GStr e])
  | Ok clusterName =>
  match ToString (ceExtensions evt ExtensionOriginalSource) with
  | Err e => Err (Sprintf "failed to get originalsource extension: %v" [GStr e])
  | Ok originalSource =>
  match CloudEventToJSONMap evt with
  | Err e => Err (Sprintf "failed to convert cloudevent to resource status: %v" [GStr e])
  | Ok status =>
      if decide (originalSource <> sourceID) then
        Err (Sprintf "unmatched original source id %s for resource %s" [GStr originalSource; GStr resourceID])
      else Ok (mkResource (newMeta resourceID) resourceVersion "" clusterName "" None status "")
  end end end end end end.

End Ops.
End Codec.

(** ** source_client.go *)

Definition statusHashBatchSize : nat := 1000.
Definition maxMQTTPacketSize : Z := 512 * 1024.

Module SourceClientImpl.
Section Ops.
Context `{env : Env} `{gorm : Gorm} `{tf : TimeFormat} `{eo : EventOps} `{src : !CloudEventSource}.

(** The source id the client was created with. *)
Variable sourceID : string.

Definition specType (action : string) : CloudEventsType :=
  mkCloudEventsType ManifestBundleEventDataType SubResourceSpec action.

Definition deleting (resource : Resource) : bool := negb (IsZero resource.(DeletedAt).(NTime)).

Definition OnCreate (id : string) : M World (option string) :=
  let! r := ResourceService.Get id in
  match r with
  | Err err => ret (if Is404 err then None else Some (Error err))
  | Ok resource =>
      if deleting resource then ret None
      else Publish (specType "create_request") resource
  end.

Definition OnUpdate (id : string) : M World (option string) :=
  let! r := ResourceService.Get id in
  match r with
  | Err err => ret (if Is404 err then None else Some (Error err))
  | Ok resource =>
      if deleting resource then ret None
      else Publish (specType "update_request") resource
  end.

Definition OnDelete (id : string) : M World (option string) :=
  let! r := ResourceService.Get id in
  match r with
  | Err err => ret (if Is404 err then None else Some (Error err))
  | Ok resource =>
      if negb (deleting resource) then
        ret (Some (Sprintf "resource %s has not been marked as deleting" [GStr resource.(ID)]))
      else Publish (specType "delete_request") resource
  end.

Definition ResourceStatusHashGetter (res : Resource) : result string string :=
  if (jlen res.(Status) =? 0)%nat then Ok (Sha256.hex (Sha256.Sum256 ""))
  else
    match JSONMAPToCloudEvent res.(Status) with
    | Err e => Err (Sprintf "failed to convert resource status to cloud event, %v" [GStr e])
    | Ok evt =>
        match ceExtensions evt ExtensionStatusHash with
        | Some statusHashVal => Ok (ext_show statusHashVal)
        | None =>
            match DataAsManifestBundleStatus evt with
            | Err e => Err (Sprintf "failed to decode cloudevent data as manifest bundle status: %v" [GStr e])
            | Ok eventPayload =>
                match marshalWorkStatus eventPayload with
                | Err e => Err (Sprintf "failed to marshal work status, %v" [GStr e])
                | Ok workStatusBytes => Ok (Sha256.hex (Sha256.Sum256 workStatusBytes))
                end
            end
        end
    end.

Definition resyncType : CloudEventsType :=
  mkCloudEventsType ManifestBundleEventDataType SubResourceStatus ResyncRequestAction.

Definition sendResyncBatch (consumer : string) (hashes : list (string * string)) (batchNum totalBatches : nat) :
  M World (option string) :=
  let! evt := NewResyncEvent sourceID resyncType consumer hashes in
  match evt with
  | Err e => ret (Some (Sprintf "failed to set resync event data: %v" [GStr e]))
  | Ok evt =>
      match ceMarshal evt with
      | Err e => ret (Some (Sprintf "failed to marshal resync event: %v" [GStr e]))
      | Ok evtBytes =>
          if maxMQTTPacketSize <? Z.of_nat (String.length evtBytes) then
            ret (Some (Sprintf "resync batch %d/%d for consumer %s is %d bytes, exceeds MQTT max_packet_size %d"
                   [GInt (Z.of_nat batchNum); GInt (Z.of_nat totalBatches); GStr consumer;
                    GInt (Z.of_nat (String.length evtBytes)); GInt maxMQTTPacketSize]))
          else Send evt
      end
  end.

(** The hashes of the listed resources; the first failing one ends the loop. *)
Definition status_hash (obj : Resource) : result (string * string) string :=
  match ResourceStatusHashGetter obj with
  | Err e => Err e
  | Ok statusHash => Ok (GetUID obj, statusHash)
  end.

(** [for i := 0; i < len(hashes); i += statusHashBatchSize]; the fuel bounds the
    iterations. *)
Fixpoint resync_loop (fuel : nat) (consumer : string) (hashes : list (string * string)) (totalBatches i : nat) :
  M World (option string) :=
  match fuel with
  | O => ret None
  | S fuel =>
      if (i <? length hashes)%nat then
        let end_ := if (length hashes <? i + statusHashBatchSize)%nat then length hashes
                    else (i + statusHashBatchSize)%nat in
        let batchNum := (i / statusHashBatchSize + 1)%nat in
        let! err := sendResyncBatch consumer (take (end_ - i) (drop i hashes)) batchNum totalBatches in
        match err with
        | Some e => ret (Some e)
        | None => resync_loop fuel consumer hashes totalBatches (i + statusHashBatchSize)
        end
      else ret None
  end.

Definition resyncConsumer (consumer : string) : M World (option string) :=
  let! objs := ResourceService.List consumer in
  match objs with
  | Err e => ret (Some (Sprintf "failed to list resources for consumer %s: %v" [GStr consumer; GStr (db_message e)]))
  | Ok objs =>
      match collect status_hash objs with
      | Err e => ret (Some e)
      | Ok hashes =>
          if (length hashes =? 0)%nat then sendResyncBatch consumer hashes 1 1
          else
            let totalBatches := ((length hashes + statusHashBatchSize - 1) / statusHashBatchSize)%nat in
            resync_loop (length hashes) consumer hashes totalBatches 0
      end
  end.

Definition Resync (consumers : list string) : M World (option string) := for_err resyncConsumer consumers.

Definition IsReady : M World bool := clientReady.

(** What NewSourceClient returns. *)
Definition NewSourceClient : SourceClient := {|
  sc_OnCreate := OnCreate;
  sc_OnUpdate := OnUpdate;
  sc_OnDelete := OnDelete;
  sc_Resync := Resync;
  sc_IsReady := IsReady;
|}.

End Ops.
End SourceClientImpl.
