(* ===== verification/SourceClientFacts.v ===== *)
(** * What the codec and the source client guarantee

    The identity of a resource survives the trip to the agent and back; a resource
    under deletion is never published as alive; a resync request covers every resource
    of the consumer, in batches the broker accepts. *)

From S2P Require Import Prelude GoLib Sha256 Errors Types Json Bundle Validation Gorm World Dao DaoFacts Locks Services ServiceFacts Controllers ControllerFacts SourceClient.
Import api errors Fmt.

Open Scope Z_scope.

(** ** The codec *)

Create Rewrite HintDb codec.

Section Codec.
Context `{env : Env} `{el : EventOpsLaws}.
Import Codec.

#[local] Hint Rewrite ext_SetExtension type_SetExtension using (unfold extension_names; set_solver) : codec.
#[local] Hint Rewrite ext_SetSource ext_SetType ext_SetID ext_SetTime type_SetType
  type_SetID type_SetTime ToString_string : codec.

Lemma reset_keeps res res' :
  resetPayloadMetadataNameWithResID res = Ok res' -> res' = set_Payload res'.(Payload) res.
Proof.
  unfold resetPayloadMetadataNameWithResID.
  destruct (jget _ _) as [[]|]; intros [= <-]; by destruct res.
Qed.

(** What [Encode] puts on the event it makes from the payload. *)
Definition encoded (t : CloudEventsType) (res : Resource) (evt0 evt : CE) : Prop :=
  ceType evt = TypeString t /\
  ceExtensions evt ExtensionResourceID = Some (ext_string res.(ID)) /\
  ceExtensions evt ExtensionResourceVersion = Some (ext_int (Int.int64 res.(Version))) /\
  ceExtensions evt ExtensionClusterName = Some (ext_string res.(ConsumerName)) /\
  ceExtensions evt ExtensionDeletionTimestamp =
    (if IsZero res.(DeletedAt).(NTime) then ceExtensions evt0 ExtensionDeletionTimestamp
     else Some (ext_time res.(DeletedAt).(NTime))) /\
  (forall k, k ∉ [ExtensionResourceID; ExtensionResourceVersion; ExtensionClusterName; ExtensionDeletionTimestamp] ->
             ceExtensions evt k = ceExtensions evt0 k).

Lemma Encode_run source t res w evt w' :
  Encode source t res w = (Ok evt, w') ->
  exists res' evt0, resetPayloadMetadataNameWithResID res = Ok res' /\
    JSONMAPToCloudEvent res'.(Payload) = Ok evt0 /\ encoded t res evt0 evt /\ reads w w'.
Proof.
  unfold Encode. destruct (resetPayloadMetadataNameWithResID res) as [res'|] eqn:Hr; [|done].
  apply reset_keeps in Hr as Hk. destruct (JSONMAPToCloudEvent _) as [evt0|] eqn:Hj; [|done].
  intros He. exists res', evt0. split_and!; [done|done| |].
  all: rewrite Hk in He; unfold GetDeletionTimestamp in He; cbn [set_Payload r_Meta ID Version ConsumerName DeletedAt NTime] in He.
  - unfold encoded. destruct (IsZero _); injection He as <- <-;
      split_and!; intros; autorewrite with codec; try done;
      repeat case_decide; subst; try done; exfalso; set_solver.
  - destruct (IsZero _); by injection He as <- <-.
Qed.

Lemma Decode_iff sourceID evt r :
  Decode sourceID evt = Ok r <->
  exists t rid ver cluster status,
    ParseCloudEventsType (ceType evt) = Ok t /\ t.(CloudEventsDataType) = ManifestBundleEventDataType /\
    ToString (ceExtensions evt ExtensionResourceID) = Ok rid /\
    ToInteger (ceExtensions evt ExtensionResourceVersion) = Ok ver /\
    ToString (ceExtensions evt ExtensionClusterName) = Ok cluster /\
    ToString (ceExtensions evt ExtensionOriginalSource) = Ok sourceID /\
    CloudEventToJSONMap evt = Ok status /\
    r = mkResource (newMeta rid) ver "" cluster "" None status "".
Proof.
  unfold Decode. split.
  - destruct (ParseCloudEventsType _) as [t|]; [|done]. destruct (decide _) as [|Ht%dec_stable]; [done|].
    destruct (ToString _) as [rid|]; [|done]. destruct (ToInteger _) as [ver|]; [|done].
    destruct (ToString _) as [cl|]; [|done]. destruct (ToString _) as [src|]; [|done].
    destruct (CloudEventToJSONMap _) as [st|]; [|done]. destruct (decide _) as [|Hs%dec_stable]; [done|].
    intros [= <-]. subst. by exists t, rid, ver, cl, st.
  - intros (t & rid & ver & cl & st & -> & Ht & -> & -> & -> & -> & -> & ->).
    rewrite decide_False by (by intros ?). rewrite decide_False by (by intros ?). done.
Qed.
End Codec.

Section CodecTheorems.
Context `{env : Env} `{el : EventOpsLaws}.
Import Codec.

(** Encode stamps the event with the resource's id, version and consumer, marks a
    resource under deletion with its deletion time, takes everything else from the
    payload with the metadata name set to the id, and touches no table. *)
Theorem Encode_spec source t res w evt w' :
  Encode source t res w = (Ok evt, w') ->
  exists res' evt0, resetPayloadMetadataNameWithResID res = Ok res' /\
    JSONMAPToCloudEvent res'.(Payload) = Ok evt0 /\ encoded t res evt0 evt /\ reads w w'.
Proof. apply Encode_run. Qed.

(** Decode accepts exactly the events of the manifest-bundle data type that carry
    the three identifying extensions, were first sent by this source, and convert to a
    status; the resource it returns is made of them alone. *)
Theorem Decode_accepts sourceID evt r :
  Decode sourceID evt = Ok r <->
  exists t rid ver cluster status,
    ParseCloudEventsType (ceType evt) = Ok t /\ t.(CloudEventsDataType) = ManifestBundleEventDataType /\
    ToString (ceExtensions evt ExtensionResourceID) = Ok rid /\
    ToInteger (ceExtensions evt ExtensionResourceVersion) = Ok ver /\
    ToString (ceExtensions evt ExtensionClusterName) = Ok cluster /\
    ToString (ceExtensions evt ExtensionOriginalSource) = Ok sourceID /\
    CloudEventToJSONMap evt = Ok status /\
    r = mkResource (newMeta rid) ver "" cluster "" None status "".
Proof. apply Decode_iff. Qed.

(** Identity round trip. An agent that answers a spec event with a status event
    carrying the same id, version and cluster extensions is decoded to a resource with
    the id, the (32-bit) version and the consumer of the one that was sent. *)
Theorem Encode_Decode_identity source t res w evt w' sourceID reply t' status :
  - 2 ^ 31 <= res.(Version) < 2 ^ 31 ->
  Encode source t res w = (Ok evt, w') ->
  (forall k, k ∈ [ExtensionResourceID; ExtensionResourceVersion; ExtensionClusterName] ->
             ceExtensions reply k = ceExtensions evt k) ->
  ParseCloudEventsType (ceType reply) = Ok t' -> t'.(CloudEventsDataType) = ManifestBundleEventDataType ->
  ToString (ceExtensions reply ExtensionOriginalSource) = Ok sourceID ->
  CloudEventToJSONMap reply = Ok status ->
  Decode sourceID reply = Ok (mkResource (newMeta res.(ID)) res.(Version) "" res.(ConsumerName) "" None status "").
Proof.
  intros Hv He Hk Hp Ht Hs Hj. apply Encode_run in He as (res' & evt0 & _ & _ & (_ & Hid & Hver & Hcl & _) & _).
  apply Decode_iff. exists t', res.(ID), res.(Version), res.(ConsumerName), status.
  rewrite !Hk, Hid, Hver, Hcl by set_solver. split_and!; try done; try apply ToString_string.
  unfold Int.int64. rewrite Int.wrap_id by lia. by apply ToInteger_int.
Qed.
End CodecTheorems.

(** ** Reading a resource through the service *)

Lemma Is404_get_error rt f v e :
  Is404 (get_error rt f v e) = match e with ErrRecordNotFound => true | _ => false end.
Proof. by destruct e. Qed.

Section ServiceGet.
Context `{env : Env} `{gl : GormLaws} `{tf : TimeFormat}.

(** The resource as the service returns it. *)
Definition served (r : Resource) : Resource :=
  ResourceService.syncTimestampsFromResourceMeta (load scanNull r).

Lemma ResourceService_Get_run id w :
  wf_tables w ->
  ResourceService.Get id w =
    (match fault w.(tick) with
     | Some e => Err (get_error "Resource" "id" (GStr id) (DriverErr e))
     | None => match w.(tables).(resources) !! id with
               | Some r => Ok (served r)
               | None => Err (get_error "Resource" "id" (GStr id) ErrRecordNotFound)
               end
     end, bump w).
Proof.
  intros Hw. unfold ResourceService.Get, or_error. rewrite !bind_run, ResourceDao_Get_run by done.
  destruct (fault _); [done|]. by destruct (_ !! id).
Qed.

Lemma served_Meta (r : Resource) : (served r).(r_Meta) = r.(r_Meta).
Proof.
  unfold served, ResourceService.syncTimestampsFromResourceMeta.
  by destruct (jget _ _) as [[]|].
Qed.
Lemma served_ConsumerName (r : Resource) : (served r).(ConsumerName) = r.(ConsumerName).
Proof.
  unfold served, ResourceService.syncTimestampsFromResourceMeta.
  by destruct (jget _ _) as [[]|].
Qed.
Lemma served_Source (r : Resource) : (served r).(r_Source) = r.(r_Source).
Proof.
  unfold served, ResourceService.syncTimestampsFromResourceMeta.
  by destruct (jget _ _) as [[]|].
Qed.

Context `{eo : EventOps} `{src : !CloudEventSource}.
Import SourceClientImpl.

Lemma deleting_served (r : Resource) : deleting (served r) = deleting r.
Proof. unfold deleting. by rewrite served_Meta. Qed.

(** What the source client publishes for a spec event. A resource that is gone is
    skipped; one under deletion is never published as created or updated, only as
    deleted; a live one is never published as deleted. *)
Theorem SourceClient_publishes id w :
  wf_tables w -> fault w.(tick) = None ->
  match w.(tables).(resources) !! id with
  | None => OnCreate id w = (None, bump w) /\ OnUpdate id w = (None, bump w) /\ OnDelete id w = (None, bump w)
  | Some r =>
      if deleting r then
        OnCreate id w = (None, bump w) /\ OnUpdate id w = (None, bump w) /\
        OnDelete id w = Publish (specType "delete_request") (served r) (bump w)
      else
        OnCreate id w = Publish (specType "create_request") (served r) (bump w) /\
        OnUpdate id w = Publish (specType "update_request") (served r) (bump w) /\
        OnDelete id w = (Some (Sprintf "resource %s has not been marked as deleting" [GStr r.(ID)]), bump w)
  end.
Proof.
  intros Hw Hf. unfold OnCreate, OnUpdate, OnDelete. rewrite !bind_run, ResourceService_Get_run by done. rewrite Hf.
  destruct (_ !! id) as [r|]; [|by rewrite Is404_get_error]. rewrite deleting_served, served_Meta. by destruct (deleting r).
Qed.

(** ** Resync *)

(** A resync batch reaches the transport only as an event whose encoding fits the
    broker's 512 KB packet; otherwise it is an error and nothing is sent. *)
Theorem sendResyncBatch_bounded sourceID consumer hashes n total w :
  let '(evt, w1) := NewResyncEvent sourceID resyncType consumer hashes w in
  (exists e msg, evt = Ok e /\ ceMarshal e = Ok msg /\ Z.of_nat (String.length msg) <= 524288 /\
                 sendResyncBatch sourceID consumer hashes n total w = Send e w1) \/
  (exists err, sendResyncBatch sourceID consumer hashes n total w = (Some err, w1)).
Proof.
  unfold sendResyncBatch. rewrite bind_run. destruct (NewResyncEvent _ _ _ _ w) as [[e|err] w1]; [|eauto].
  destruct (ceMarshal e) as [msg|err] eqn:Hm; [|eauto]. destruct (_ <? _) eqn:Hl; [eauto|].
  left. exists e, msg. split_and!; [done|done| |done]. apply Z.ltb_ge in Hl. exact Hl.
Qed.

(** The batches with their numbers, counted from [k]. *)
Definition send_batches (sourceID consumer : string) (total k : nat) (bs : list (list (string * string))) :
  M World (option string) :=
  for_err (fun '(n, b) => sendResyncBatch sourceID consumer b n total) (zip (seq k (length bs)) bs).

Lemma resync_loop_batches sourceID fuel consumer hashes total k w :
  resync_loop sourceID fuel consumer hashes total (k * 1000) w
  = send_batches sourceID consumer total (k + 1) (batch_loop fuel hashes 1000 (k * 1000)) w.
Proof.
  revert k w. induction fuel as [|fuel IH]; intros k w; cbn [resync_loop batch_loop]; [done|].
  unfold statusHashBatchSize. destruct (_ <? _)%nat; [|done].
  unfold send_batches. cbn [length seq zip zip_with for_err]. rewrite Nat.div_mul by done. rewrite !bind_run.
  destruct (sendResyncBatch _ _ _ _ _ w) as [[e|] w1]; [done|].
  replace (k * 1000 + 1000)%nat with (S k * 1000)%nat by lia. rewrite IH. unfold send_batches.
  by replace (S k + 1)%nat with (S (k + 1)) by lia.
Qed.
End ServiceGet.

Lemma batch_loop_length {A} fuel (ids : list A) n i :
  (0 < n)%nat -> (length ids <= i + fuel)%nat ->
  length (batch_loop fuel ids n i) = ((length ids - i + n - 1) / n)%nat.
Proof.
  intros Hn. revert i. induction fuel as [|fuel IH]; intros i Hf; cbn [batch_loop].
  { symmetry. apply Nat.div_small. lia. }
  destruct (Nat.ltb_spec i (length ids)) as [Hi|Hi]; [|symmetry; apply Nat.div_small; lia].
  cbn [length]. rewrite IH by lia. set (m := (length ids - i)%nat).
  replace (m + n - 1)%nat with (m - 1 + 1 * n)%nat by lia. rewrite Nat.div_add by lia.
  destruct (le_lt_dec n m).
  - replace (length ids - (i + n) + n - 1)%nat with (m - 1)%nat by lia. lia.
  - replace (length ids - (i + n) + n - 1)%nat with (n - 1)%nat by lia.
    rewrite !Nat.div_small by lia. done.
Qed.

Section Resync.
Context `{env : Env} `{gl : GormLaws} `{eo : EventOps} `{src : !CloudEventSource}.
Import SourceClientImpl.

(** An unscoped query over the resources finds each selected row once. *)
Lemma find_resources_run (p : Resource -> bool) w :
  wf_tables w -> fault w.(tick) = None ->
  exists objs, st_find true p w = (Ok objs, bump w) /\ NoDup ((fun r : Resource => r.(ID)) <$> objs) /\
    forall r, r ∈ objs <-> exists k row, w.(tables).(resources) !! k = Some row /\ p row = true /\ r = load scanNull row.
Proof.
  intros Hw Hf. rewrite st_find_run, Hf. eexists. split; [reflexivity|]. split.
  - change (fun r : Resource => r.(ID)) with (row_id (Row := Resource)). rewrite gFind_perm.
    rewrite <-list_fmap_compose. unfold selected.
    rewrite (list_fmap_ext _ (row_id (Row := Resource))) by (intros; apply row_id_load).
    apply (NoDup_filter_fmap (row_id (Row := Resource))), row_ids_NoDup. by apply wf_resources.
  - intros r. rewrite gFind_elem. split; intros (k & row & Hk & Hh & ->); exists k, row; by split_and!.
Qed.

Lemma List_run consumer w :
  wf_tables w -> fault w.(tick) = None ->
  exists objs, ResourceService.List consumer w = (Ok objs, bump w) /\ NoDup ((fun r : Resource => r.(ID)) <$> objs) /\
    forall r, r ∈ objs <-> exists k row, w.(tables).(resources) !! k = Some row /\
                             row.(ConsumerName) = consumer /\ r = load scanNull row.
Proof.
  intros Hw Hf. destruct (find_resources_run (fun r => bool_decide (r.(ConsumerName) = consumer)) w Hw Hf)
    as (objs & Hl & Hnd & Hin).
  exists objs. split_and!; [done|done|]. intros r. rewrite Hin. by setoid_rewrite bool_decide_eq_true.
Qed.

(** C31: a resync covers the consumer. Unless a status hash cannot be computed, the
    hashes sent are those of all the resources of the consumer, each exactly once, in
    batches of at most 1000 numbered 1 to the announced total; a consumer without
    resources still gets one (empty) batch. *)
Theorem resyncConsumer_covers sourceID consumer w :
  wf_tables w -> fault w.(tick) = None ->
  exists objs,
    NoDup ((fun r : Resource => r.(ID)) <$> objs) /\
    (forall r, r ∈ objs <-> exists k row, w.(tables).(resources) !! k = Some row /\
                              row.(ConsumerName) = consumer /\ r = load scanNull row) /\
    match collect status_hash objs with
    | Err e => resyncConsumer sourceID consumer w = (Some e, bump w)
    | Ok hashes =>
        hashes.*1 = (fun r : Resource => r.(ID)) <$> objs /\
        exists bs, concat bs = hashes /\ bs <> [] /\ Forall (fun b => (length b <= 1000)%nat) bs /\
          resyncConsumer sourceID consumer w = send_batches sourceID consumer (length bs) 1 bs (bump w)
    end.
Proof.
  intros Hw Hf. destruct (List_run consumer w Hw Hf) as (objs & Hl & Hnd & Hin). exists objs.
  split_and!; [done|done|]. unfold resyncConsumer. rewrite bind_run, Hl.
  destruct (collect status_hash objs) as [hashes|e] eqn:Hc; [|done]. split.
  { apply collect_Ok in Hc. clear -Hc. induction Hc as [|r h objs hs Hh _ IH]; [done|].
    rewrite !fmap_cons, IH. f_equal. unfold status_hash in Hh.
    destruct (ResourceStatusHashGetter r); [|done]. by injection Hh as <-. }
  destruct (Nat.eqb_spec (length hashes) 0) as [Hz|Hz].
  { apply nil_length_inv in Hz as ->. exists [[]]. split_and!; try done.
    - by repeat constructor.
    - unfold send_batches. simpl. rewrite bind_run. by destruct (sendResyncBatch _ _ _ _ _ _) as [[]]. }
  exists (batch_loop (length hashes) hashes 1000 0). rewrite batch_loop_concat, drop_0 by lia.
  pose proof (batch_loop_length (length hashes) hashes 1000 0 ltac:(lia) ltac:(lia)) as Hlen.
  split_and!; [done| | |].
  - intros Hn. rewrite Hn in Hlen. cbn [length] in Hlen. symmetry in Hlen. apply Nat.div_small_iff in Hlen; lia.
  - eapply Forall_impl; [apply batch_loop_sizes; lia|]. by intros b [_ ?].
  - rewrite (resync_loop_batches sourceID (length hashes) consumer hashes _ 0).
    rewrite Hlen, Nat.sub_0_r. done.
Qed.
End Resync.
