(* ===== verification/Dispatcher.v ===== *)
(** * pkg/dispatcher: which instance handles a consumer's status updates

    HashDispatcher maps consumers to the ready instances with a consistent-hash ring and
    keeps the set of consumers mapped to its own instance; NoopDispatcher takes
    everything. The ring of buraksezer/consistent is the class [Consistent]; golang-set
    is a finite set. *)

From S2P Require Import Prelude GoLib Errors Types Gorm World Dao DaoFacts Bundle Controllers SourceClient.
Import api Fmt.

Open Scope Z_scope.

(** ** github.com/buraksezer/consistent *)

Class Consistent := {
  Ring : Type;
  newRing : Ring;
  GetMembers : Ring -> gset string;
  ringAdd : string -> Ring -> Ring;
  ringRemove : string -> Ring -> Ring;
  LocateKey : Ring -> string -> string;
}.

(** Keys are located on a member, and the placement depends on the members alone. *)
Class ConsistentLaws `{Consistent} : Prop := {
  members_new : GetMembers newRing = ∅;
  members_Add m r : GetMembers (ringAdd m r) = {[m]} ∪ GetMembers r;
  members_Remove m r : GetMembers (ringRemove m r) = GetMembers r ∖ {[m]};
  locate_member r k : GetMembers r <> ∅ -> LocateKey r k ∈ GetMembers r;
  locate_ext r r' k : GetMembers r = GetMembers r' -> LocateKey r k = LocateKey r' k;
}.

(** ** hash_dispatcher.go *)

Module HashDispatcher.
Section Ops.
Context `{env : Env} `{gorm : Gorm} `{wq : WorkQueue} `{co : Consistent} `{sc : SourceClient}.

(** The id of the instance the dispatcher runs in. *)
Variable instanceID : string.

Record DState := mkDState {
  d_world : World;
  consistent : Ring;
  consumerSet : gset string;
  workQueue : Queue;
}.

Definition onWorld {A} (m : M World A) : M DState A :=
  fun s => let '(a, w) := m s.(d_world) in (a, mkDState w s.(consistent) s.(consumerSet) s.(workQueue)).
Definition onRing (f : Ring -> Ring) : M DState unit :=
  modify (fun s => mkDState s.(d_world) (f s.(consistent)) s.(consumerSet) s.(workQueue)).
Definition onSet (f : gset string -> gset string) : M DState unit :=
  modify (fun s => mkDState s.(d_world) s.(consistent) (f s.(consumerSet)) s.(workQueue)).
Definition onQueue (f : Queue -> Queue) : M DState unit :=
  modify (fun s => mkDState s.(d_world) s.(consistent) s.(consumerSet) (f s.(workQueue))).

Definition NewHashDispatcher (w : World) (q : Queue) : DState := mkDState w newRing ∅ q.

Definition Dispatch (consumerName : string) (s : DState) : bool := bool_decide (consumerName ∈ s.(consumerSet)).

(** The loop of updateConsumerSet: (toAddConsumers, toRemoveConsumers). *)
Fixpoint locate_consumers (consumers : list Consumer) (toAdd toRemove : list string) :
  M DState (list string * list string) :=
  match consumers with
  | [] => ret (toAdd, toRemove)
  | consumer :: consumers =>
      let! s := gets (fun s => s) in
      let name := consumer.(c_Name) in
      if decide (LocateKey s.(consistent) name = instanceID) then
        if decide (name ∈ s.(consumerSet)) then locate_consumers consumers toAdd toRemove
        else onQueue (qAdd name) >> locate_consumers consumers (toAdd ++ [name]) toRemove
      else if decide (name ∈ s.(consumerSet)) then locate_consumers consumers toAdd (toRemove ++ [name])
      else locate_consumers consumers toAdd toRemove
  end.

Definition updateConsumerSet : M DState (option string) :=
  let! s := gets (fun s => s) in
  if decide (GetMembers s.(consistent) = ∅) then ret None
  else
    let! r := onWorld ConsumerDao.All in
    match r with
    | Err e => ret (Some (Sprintf "unable to list consumers: %s" [GStr (db_message e)]))
    | Ok consumers =>
        let! '(toAddConsumers, toRemoveConsumers) := locate_consumers consumers [] [] in
        onSet (fun c => c ∪ list_to_set toAddConsumers) >>
        onSet (fun c => c ∖ list_to_set toRemoveConsumers) >>
        ret None
    end.

Definition check : M DState unit :=
  let! r := onWorld InstanceDao.All in
  match r with
  | Err _ => ret tt
  | Ok instances =>
      let readyInstances := (fun i : ServerInstance => i.(ID)) <$> filter (fun i : ServerInstance => i.(Ready) = true) instances in
      let! s := gets (fun s => s) in
      let setA := list_to_set readyInstances in
      let setB := GetMembers s.(consistent) in
      let addedMembers := setA ∖ setB in
      let removedMembers := setB ∖ setA in
      for_each (fun member => onRing (ringAdd member)) (elements addedMembers) >>
      for_each (fun member => onRing (ringRemove member)) (elements removedMembers) >>
      updateConsumerSet >> ret tt
  end.

(** False when the queue is shut down. *)
Definition processNextResync : M DState bool :=
  let! key := (fun s => let '(k, q) := qGet s.(workQueue) in
                        (k, mkDState s.(d_world) s.(consistent) s.(consumerSet) q)) in
  match key with
  | None => ret false
  | Some consumerName =>
      let! err := onWorld (sc_Resync [consumerName]) in
      (match err with
       | Some _ => onQueue (qAddRateLimited consumerName)
       | None => onQueue (qForget consumerName)
       end) >>
      onQueue (qDone consumerName) >> ret true
  end.

(** One reconnection signal. *)
Definition resyncOnReconnect : M DState unit :=
  let! s := gets (fun s => s) in
  onWorld (sc_Resync (elements s.(consumerSet))) >> ret tt.

End Ops.
End HashDispatcher.

(** ** noop_dispatcher.go *)

Module NoopDispatcher.
Section Ops.
Context `{env : Env} `{gorm : Gorm} `{sc : SourceClient}.

Definition Dispatch (consumerID : string) : bool := true.

Definition onInstanceDown : M World (option string) :=
  let! r := ConsumerDao.All in
  match r with
  | Err e => ret (Some (Sprintf "unable to get all consumers: %s" [GStr (db_message e)]))
  | Ok consumers =>
      let! err := sc_Resync ((fun c : Consumer => c.(ID)) <$> consumers) in
      ret (match err with
           | Some e => Some (Sprintf "unable to trigger statusresync: %s" [GStr e])
           | None => None
           end)
  end.

Definition onInstanceUpdate (ids : string) : M World unit :=
  match Strings.Split ids Strings.colon with
  | [state; list_] =>
      let idList := Strings.Split list_ Strings.comma in
      if bool_decide (state = "unready") && (0 <? length idList)%nat then onInstanceDown >> ret tt
      else ret tt
  | _ => ret tt
  end.

(** One subscription signal. *)
Definition resyncOnSubscribed : M World unit :=
  let! r := ConsumerDao.All in
  match r with
  | Err _ => ret tt
  | Ok consumers => sc_Resync ((fun c : Consumer => c.(ID)) <$> consumers) >> ret tt
  end.

End Ops.
End NoopDispatcher.
