(* ===== verification/DispatcherFacts.v ===== *)
(** * What the dispatchers guarantee

    After a check the ring has exactly the ready instances, each live consumer is
    dispatched by exactly one of them, and a consumer that moved in is queued for a
    resync. *)

From S2P Require Import Prelude GoLib Errors Types Gorm World Dao DaoFacts Bundle Services Controllers ControllerFacts SourceClient SourceClientFacts Dispatcher.
Import api Fmt.

Open Scope Z_scope.

(** The names of the consumers a scoped statement sees. *)
Definition live_consumer (t : Tables) (name : string) : Prop :=
  exists k c, t.(consumers) !! k = Some c /\ visible false c = true /\ c.(c_Name) = name.

Module HashDispatcherFacts.
Import HashDispatcher.
Section Facts.
Context `{env : Env} `{gl : GormLaws} `{ql : WorkQueueLaws} `{cl : ConsistentLaws}.
Variable self : string.
Implicit Types s : DState.

(** Consumers located on this instance that are new to it, and those to drop. *)
Definition moved_in s (names : list string) : list string :=
  filter (fun n => LocateKey s.(consistent) n = self /\ n ∉ s.(consumerSet)) names.
Definition moved_out s (names : list string) : list string :=
  filter (fun n => LocateKey s.(consistent) n <> self /\ n ∈ s.(consumerSet)) names.

Lemma locate_consumers_run l : forall a r s, exists q,
  locate_consumers self l a r s =
    ((a ++ moved_in s (c_Name <$> l), r ++ moved_out s (c_Name <$> l)),
     mkDState s.(d_world) s.(consistent) s.(consumerSet) q) /\
  pending q = pending s.(workQueue) ∪ list_to_set (moved_in s (c_Name <$> l)).
Proof.
  induction l as [|c l IH]; intros a r s; cbn [locate_consumers].
  { exists s.(workQueue). unfold moved_in, moved_out. simpl. rewrite !app_nil_r.
    split; [by destruct s|set_solver]. }
  rewrite bind_run. cbn [gets]. rewrite fmap_cons. unfold moved_in, moved_out. rewrite !filter_cons.
  destruct (decide (LocateKey _ _ = self)) as [Hl|Hl], (decide (c.(c_Name) ∈ _)) as [Hc|Hc];
    repeat (case_decide; try tauto).
  - apply IH.
  - rewrite bind_run. simpl.
    destruct (IH (a ++ [c.(c_Name)]) r (mkDState s.(d_world) s.(consistent) s.(consumerSet) (qAdd c.(c_Name) s.(workQueue))))
      as (q & -> & Hq).
    exists q. unfold moved_in, moved_out in *. simpl in *. rewrite <-app_assoc. split; [done|].
    rewrite Hq, pending_Add. set_solver.
  - destruct (IH a (r ++ [c.(c_Name)]) s) as (q & -> & Hq).
    exists q. unfold moved_in, moved_out in *. by rewrite <-app_assoc.
  - apply IH.
Qed.

Lemma live_names w n :
  n ∈ c_Name <$> gFind false (fun _ : Consumer => true) w.(tables).(consumers) <-> live_consumer w.(tables) n.
Proof.
  rewrite list_elem_of_fmap. split.
  - intros (c & -> & (k & c0 & Hk & [Hv _]%andb_prop & ->)%gFind_elem). by exists k, c0.
  - intros (k & c & Hk & Hv & <-). exists (load scanNull c). split; [done|]. apply gFind_elem.
    exists k, c. unfold hits. by rewrite Hv.
Qed.

(** The consumer set and the queue after an update against a non-empty ring. *)
Record updated s s' : Prop := {
  up_ring : s'.(consistent) = s.(consistent);
  up_tables : s'.(d_world).(tables) = s.(d_world).(tables);
  up_live n : live_consumer s.(d_world).(tables) n -> (n ∈ s'.(consumerSet) <-> LocateKey s.(consistent) n = self);
  up_other n : ~ live_consumer s.(d_world).(tables) n -> (n ∈ s'.(consumerSet) <-> n ∈ s.(consumerSet));
  up_queue n : n ∈ pending s'.(workQueue) <->
    n ∈ pending s.(workQueue) \/
    live_consumer s.(d_world).(tables) n /\ LocateKey s.(consistent) n = self /\ n ∉ s.(consumerSet);
}.

Lemma updateConsumerSet_run s :
  GetMembers s.(consistent) <> ∅ -> fault s.(d_world).(tick) = None ->
  updated s (updateConsumerSet self s).2 /\ (updateConsumerSet self s).1 = None.
Proof.
  intros Hm Hf. unfold updateConsumerSet. rewrite bind_run. cbn [gets]. rewrite decide_False by done.
  rewrite bind_run. unfold onWorld at 1 2. unfold ConsumerDao.All. rewrite st_find_run, Hf. cbn iota.
  set (s1 := mkDState _ _ _ _). rewrite bind_run.
  destruct (locate_consumers_run (gFind false (fun _ : Consumer => true) (tget s.(d_world).(tables))) [] [] s1)
    as (q & -> & Hq). simpl.
  assert (forall n, n ∈ moved_in s1 (c_Name <$> gFind false (fun _ : Consumer => true) s.(d_world).(tables).(consumers)) <->
    live_consumer s.(d_world).(tables) n /\ LocateKey s.(consistent) n = self /\ n ∉ s.(consumerSet)) as Hin.
  { intros n. unfold moved_in. rewrite list_elem_of_filter, live_names. simpl. tauto. }
  assert (forall n, n ∈ moved_out s1 (c_Name <$> gFind false (fun _ : Consumer => true) s.(d_world).(tables).(consumers)) <->
    live_consumer s.(d_world).(tables) n /\ LocateKey s.(consistent) n <> self /\ n ∈ s.(consumerSet)) as Hout.
  { intros n. unfold moved_out. rewrite list_elem_of_filter, live_names. simpl. tauto. }
  split; [|done]. split; simpl; [done|done| | |].
  - intros n Hn. rewrite elem_of_difference, elem_of_union, !elem_of_list_to_set, Hin, Hout.
    destruct (decide (LocateKey s.(consistent) n = self)), (decide (n ∈ s.(consumerSet))); tauto.
  - intros n Hn. rewrite elem_of_difference, elem_of_union, !elem_of_list_to_set, Hin, Hout. tauto.
  - intros n. rewrite Hq, elem_of_union, elem_of_list_to_set. simpl in *. by rewrite Hin.
Qed.

Lemma for_each_ring (f : string -> Ring -> Ring) (g : string -> gset string -> gset string) l s :
  (forall m r, GetMembers (f m r) = g m (GetMembers r)) ->
  exists r, for_each (fun m => onRing (f m)) l s = (tt, mkDState s.(d_world) r s.(consumerSet) s.(workQueue)) /\
    GetMembers r = foldl (fun acc m => g m acc) (GetMembers s.(consistent)) l.
Proof.
  intros Hg. revert s. induction l as [|m l IH]; intros s; simpl.
  { exists s.(consistent). split; [by destruct s|done]. }
  rewrite bind_run. simpl. destruct (IH (mkDState s.(d_world) (f m s.(consistent)) s.(consumerSet) s.(workQueue)))
    as (r & -> & Hr). exists r. split; [done|]. rewrite Hr. simpl. by rewrite Hg.
Qed.

Lemma foldl_union (l : list string) (X : gset string) :
  foldl (fun acc m => {[m]} ∪ acc) X l = list_to_set l ∪ X.
Proof. revert X. induction l as [|m l IH]; intros X; simpl; [set_solver|]. rewrite IH. set_solver. Qed.
Lemma foldl_difference (l : list string) (X : gset string) :
  foldl (fun acc m => acc ∖ {[m]}) X l = X ∖ list_to_set l.
Proof. revert X. induction l as [|m l IH]; intros X; simpl; [set_solver|]. rewrite IH. set_solver. Qed.

Lemma ready_instances w :
  list_to_set ((fun i : ServerInstance => i.(ID)) <$>
    filter (fun i : ServerInstance => i.(Ready) = true) (gFind false (fun _ => true) w.(tables).(server_instances)))
  =@{gset string} ready_ids w.(tables).
Proof.
  apply set_eq. intros n. unfold ready_ids. rewrite !elem_of_list_to_set, !list_elem_of_fmap. split.
  - intros (i & -> & [Hr (k & i0 & Hk & [Hv _]%andb_prop & ->)%gFind_elem]%list_elem_of_filter).
    exists i0. split; [done|]. apply Memory.selected_elem. split; [|by exists k]. unfold hits. by rewrite Hv.
  - intros (i & -> & [Hh [k Hk]]%Memory.selected_elem). apply andb_prop in Hh as [Hv Hr]. exists (load scanNull i).
    split; [done|]. apply list_elem_of_filter. split; [done|]. apply gFind_elem. exists k, i. unfold hits. by rewrite Hv.
Qed.

(** The state in which check calls updateConsumerSet, and what it does then. *)
Lemma check_run s :
  fault s.(d_world).(tick) = None ->
  exists r, GetMembers r = ready_ids s.(d_world).(tables) /\
    (check self s).2 = (updateConsumerSet self (mkDState (bump s.(d_world)) r s.(consumerSet) s.(workQueue))).2.
Proof.
  intros Hf. unfold check. rewrite bind_run. unfold onWorld at 1. unfold InstanceDao.All.
  rewrite st_find_run, Hf. cbn iota. rewrite bind_run. cbn [gets consistent].
  change (tget s.(d_world).(tables)) with s.(d_world).(tables).(server_instances).
  rewrite ready_instances. set (s1 := mkDState _ _ _ _). rewrite bind_run.
  destruct (for_each_ring ringAdd (fun m X => {[m]} ∪ X)
    (elements (ready_ids s.(d_world).(tables) ∖ GetMembers s.(consistent))) s1 members_Add) as (r1 & -> & Hr1).
  rewrite bind_run.
  destruct (for_each_ring ringRemove (fun m X => X ∖ {[m]})
    (elements (GetMembers s.(consistent) ∖ ready_ids s.(d_world).(tables)))
    (mkDState s1.(d_world) r1 s1.(consumerSet) s1.(workQueue)) members_Remove) as (r2 & -> & Hr2).
  exists r2. split.
  - rewrite Hr2. simpl. rewrite foldl_difference, Hr1, foldl_union, !list_to_set_elements_L. simpl.
    apply set_eq. intros n. rewrite !elem_of_difference, elem_of_union, elem_of_difference.
    destruct (decide (n ∈ ready_ids s.(d_world).(tables))), (decide (n ∈ GetMembers s.(consistent))); tauto.
  - rewrite bind_run. by destruct (updateConsumerSet _ _).
Qed.

Lemma check_updated s :
  fault s.(d_world).(tick) = None -> fault (S s.(d_world).(tick)) = None -> ready_ids s.(d_world).(tables) <> ∅ ->
  let s' := (check self s).2 in
  GetMembers s'.(consistent) = ready_ids s.(d_world).(tables) /\
  (forall n, live_consumer s.(d_world).(tables) n -> (n ∈ s'.(consumerSet) <-> LocateKey s'.(consistent) n = self)) /\
  (forall n, ~ live_consumer s.(d_world).(tables) n -> (n ∈ s'.(consumerSet) <-> n ∈ s.(consumerSet))) /\
  (forall n, n ∈ pending s'.(workQueue) <-> n ∈ pending s.(workQueue) \/
     live_consumer s.(d_world).(tables) n /\ n ∈ s'.(consumerSet) /\ n ∉ s.(consumerSet)).
Proof.
  intros Hf1 Hf2 Hr. cbn zeta. destruct (check_run s Hf1) as (r & Hm & ->).
  set (s1 := mkDState _ r _ _). destruct (updateConsumerSet_run s1) as [[Hring Htab Hlive Hother Hq] _].
  { simpl. by rewrite Hm. }
  { exact Hf2. }
  rewrite Hring. split_and!; [done|exact Hlive|exact Hother|].
  intros n. rewrite Hq. simpl. split; (intros [?|(Hn & Hl & Hs)]; [by left|right]).
  - split_and!; [done| |done]. by apply Hlive.
  - split_and!; [done| |done]. by apply Hlive.
Qed.
End Facts.

Section Theorems.
Context `{env : Env} `{gl : GormLaws} `{ql : WorkQueueLaws} `{cl : ConsistentLaws}.

(** After a check that read the tables, the ring has exactly the ready instances; a
    live consumer is dispatched here exactly when the ring places it here, other names
    keep their answer; and the consumers that moved in, no others, are queued for a
    status resync. *)
Theorem check_spec self (s : DState) :
  fault s.(d_world).(tick) = None -> fault (S s.(d_world).(tick)) = None -> ready_ids s.(d_world).(tables) <> ∅ ->
  let s' := (check self s).2 in
  GetMembers s'.(consistent) = ready_ids s.(d_world).(tables) /\
  (forall n, live_consumer s.(d_world).(tables) n -> (Dispatch n s' = true <-> LocateKey s'.(consistent) n = self)) /\
  (forall n, ~ live_consumer s.(d_world).(tables) n -> Dispatch n s' = Dispatch n s) /\
  (forall n, n ∈ pending s'.(workQueue) <-> n ∈ pending s.(workQueue) \/
     live_consumer s.(d_world).(tables) n /\ Dispatch n s' = true /\ Dispatch n s = false).
Proof.
  intros Hf1 Hf2 Hr. destruct (check_updated self s Hf1 Hf2 Hr) as (Hm & Hl & Ho & Hq). cbn zeta. unfold Dispatch.
  split_and!; [done| | |].
  - intros n Hn. rewrite bool_decide_eq_true. by apply Hl.
  - intros n Hn. apply bool_decide_ext. by apply Ho.
  - intros n. rewrite bool_decide_eq_true, bool_decide_eq_false. by apply Hq.
Qed.

(** C16: once every instance has checked the same tables, each live consumer's status
    updates are handled by exactly one instance, and that instance is a ready one. *)
Theorem check_owner_unique (st : string -> DState) t n :
  (forall i, (st i).(d_world).(tables) = t /\ fault (st i).(d_world).(tick) = None /\
             fault (S (st i).(d_world).(tick)) = None) ->
  ready_ids t <> ∅ -> live_consumer t n ->
  exists i, i ∈ ready_ids t /\ forall j, Dispatch n (check j (st j)).2 = true <-> j = i.
Proof.
  intros Hst Hr Hn.
  assert (forall j, GetMembers (check j (st j)).2.(consistent) = ready_ids t /\
                    (Dispatch n (check j (st j)).2 = true <-> LocateKey (check j (st j)).2.(consistent) n = j)) as Hj.
  { intros j. destruct (Hst j) as (Ht & Hf1 & Hf2).
    destruct (check_updated j (st j) Hf1 Hf2) as (Hm & Hl & _); [by rewrite Ht|].
    split; [by rewrite Hm, Ht|]. unfold Dispatch. rewrite bool_decide_eq_true. apply Hl. by rewrite Ht. }
  exists (LocateKey (check "" (st "")).2.(consistent) n).
  assert (forall j, LocateKey (check j (st j)).2.(consistent) n = LocateKey (check "" (st "")).2.(consistent) n) as He.
  { intros j. apply locate_ext. by rewrite (proj1 (Hj j)), (proj1 (Hj "")). }
  split.
  - rewrite <-(proj1 (Hj "")). apply locate_member. by rewrite (proj1 (Hj "")).
  - intros j. rewrite (proj2 (Hj j)), He. split; congruence.
Qed.

(** A resync request is never dropped on failure. Taking a consumer off the queue
    asks it to resync; exactly when that succeeds it leaves the pending ones. *)
Theorem processNextResync_no_loss `{sc : SourceClient} (s : DState) :
  let s' := (processNextResync s).2 in
  match (qGet s.(workQueue)).1 with
  | None => (processNextResync s).1 = false /\ pending s'.(workQueue) = pending s.(workQueue)
  | Some c =>
      (processNextResync s).1 = true /\ s'.(d_world) = (sc_Resync [c] s.(d_world)).2 /\
      s'.(consumerSet) = s.(consumerSet) /\
      pending s'.(workQueue) = match (sc_Resync [c] s.(d_world)).1 with
                               | Some _ => pending s.(workQueue)
                               | None => pending s.(workQueue) ∖ {[c]}
                               end
  end.
Proof.
  cbn zeta. unfold processNextResync. rewrite !bind_run.
  destruct (qGet s.(workQueue)) as [[c|] q] eqn:Hg; simpl.
  2:{ split; [done|]. by apply (pending_Get_None _ _ Hg). }
  apply pending_Get_Some in Hg as [Hin Hp]. rewrite bind_run. unfold onWorld. simpl.
  destruct (sc_Resync [c] s.(d_world)) as [[e|] w']; simpl; split_and!; try done; rewrite pending_Done.
  - rewrite pending_AddRateLimited, Hp. symmetry. apply union_difference_L, singleton_subseteq_l. done.
  - by rewrite pending_Forget.
Qed.
End Theorems.
End HashDispatcherFacts.

(** ** The no-op dispatcher over the real source client *)

Section Noop.
Context `{env : Env} `{gl : GormLaws} `{tf : TimeFormat} `{eo : EventOps} `{src : !CloudEventSource}.
Import SourceClientImpl.

(** When an instance goes down, the no-op dispatcher asks for a resync under the
    identifiers of the live consumers. The source client selects resources by consumer
    name, so the request for a consumer whose identifier is no resource's consumer name
    carries no hashes at all. *)
Theorem noop_resync_by_id sourceID w :
  fault w.(tick) = None ->
  exists cs,
    (forall c, c ∈ cs <-> exists k row, w.(tables).(consumers) !! k = Some row /\ visible false row = true /\
                            c = load scanNull row) /\
    (NoopDispatcher.onInstanceDown (sc := NewSourceClient sourceID) w).2
      = (for_err (resyncConsumer sourceID) ((fun c : Consumer => c.(ID)) <$> cs) (bump w)).2 /\
    forall id w', wf_tables w' -> fault w'.(tick) = None ->
      (forall k row, w'.(tables).(resources) !! k = Some row -> row.(ConsumerName) <> id) ->
      resyncConsumer sourceID id w' = sendResyncBatch sourceID id [] 1 1 (bump w').
Proof.
  intros Hf. unfold NoopDispatcher.onInstanceDown. rewrite bind_run. unfold ConsumerDao.All.
  rewrite st_find_run, Hf. cbn iota.
  exists (gFind false (fun _ : Consumer => true) w.(tables).(consumers)). split_and!.
  - intros c. rewrite gFind_elem. split; intros (k & row & Hk & Hh & ->); exists k, row; split_and!; try done.
    + by apply andb_prop in Hh as [? _].
    + unfold hits. by rewrite Hh.
  - rewrite bind_run. cbn [sc_Resync NewSourceClient]. unfold Resync. change (tget w.(tables)) with w.(tables).(consumers).
    by destruct (for_err _ _ _) as [[]].
  - intros id w' Hw' Hf' Hno. unfold resyncConsumer. rewrite bind_run.
    destruct (List_run id w' Hw' Hf') as (objs & -> & _ & Hin).
    destruct objs as [|r objs]; [done|].
    destruct (proj1 (Hin r) (list_elem_of_here _ _)) as (k & row & Hk & Hc & _). by destruct (Hno k row).
Qed.
End Noop.
