(* ===== verification/Health.v ===== *)
(** * cmd/maestro/server/healthcheck_server.go

    Each instance writes its heartbeat, one of them at a time marks instances ready or
    unready from the heartbeats, and the two probes answer. *)

From S2P Require Import Prelude GoLib Errors Types Json Gorm World Dao DaoFacts Locks Controllers SourceClient.
Import api.

Open Scope Z_scope.

Module HealthCheckServer.
Section Ops.
Context `{env : Env} `{gorm : Gorm} `{lf : LockFactory}.

(** The configuration: the instance's id, its heartbeat interval in seconds, whether
    the message broker is disabled, and the source client if there is one. *)
Variable instanceID : string.
Variable heartbeatInterval : Z.
Variable brokerDisabled : bool.
Variable sourceClient : option SourceClient.

Definition cloudEventsNotReady : M World bool :=
  if brokerDisabled then ret false
  else match sourceClient with
       | None => ret false
       | Some c => let! ready := @sc_IsReady c in ret (negb ready)
       end.

(** The part of pulse under the instance lock. *)
Definition pulse_locked : M World unit :=
  let! found := InstanceDao.Get instanceID in
  match found with
  | Err ErrRecordNotFound =>
      let! now := time_now in
      InstanceDao.Create (mkServerInstance (newMeta instanceID) now false) >> ret tt
  | Err _ => ret tt
  | Ok found =>
      let! now := time_now in
      InstanceDao.Replace (set_LastHeartbeat now found) >> ret tt
  end.

Definition pulse : M World unit :=
  let! notReady := cloudEventsNotReady in
  if notReady : bool then ret tt
  else
    let! '(lockOwnerID, err) := NewAdvisoryLock instanceID Instances in
    (match err with
     | Some _ => ret tt
     | None => pulse_locked
     end) >>
    Unlock lockOwnerID.

(** [time.Duration(int(-3*time.Second)*s.heartbeatInterval)] *)
Definition staleness : Z := Int.int64 (-3000000000 * heartbeatInterval).

(** The loop over the instances: (activeInstanceIDs, inactiveInstanceIDs). time.Now()
    is called afresh for each test. *)
Fixpoint classify (instances : list ServerInstance) (active inactive : list string) :
  M World (list string * list string) :=
  match instances with
  | [] => ret (active, inactive)
  | instance :: instances =>
      let! now := time_now in
      if (now + staleness <? instance.(LastHeartbeat)) && negb instance.(Ready) then
        classify instances (active ++ [instance.(ID)]) inactive
      else
        let! now := time_now in
        if (instance.(LastHeartbeat) <? now + staleness) && instance.(Ready) then
          classify instances active (inactive ++ [instance.(ID)])
        else classify instances active inactive
  end.

(** The part of checkInstances after the lock was acquired. *)
Definition checkInstances_locked : M World unit :=
  let! r := InstanceDao.All in
  match r with
  | Err _ => ret tt
  | Ok instances =>
      let! '(activeInstanceIDs, inactiveInstanceIDs) := classify instances [] [] in
      (if (0 <? length activeInstanceIDs)%nat then InstanceDao.MarkReadyByIDs activeInstanceIDs >> ret tt else ret tt) >>
      (if (0 <? length inactiveInstanceIDs)%nat then InstanceDao.MarkUnreadyByIDs inactiveInstanceIDs >> ret tt
       else ret tt)
  end.

Definition checkInstances : M World unit :=
  singleton "maestro-instances-liveness-check" checkInstances_locked.

(** The JSON object with the one field status. *)
Definition body (status : string) : string :=
  "{" +:+ Json.print_string "status" +:+ ": " +:+ Json.print_string status +:+ "}".

(** The status code and the body written. *)
Definition healthCheckHandler : M World (Z * string) :=
  let! notReady := cloudEventsNotReady in
  if notReady : bool then ret (503, body "cloudevents client not ready")
  else
    let! r := InstanceDao.Get instanceID in
    ret (match r with
         | Err _ => (500, body "error")
         | Ok instance => if instance.(Ready) then (200, body "ok") else (503, body "not ready")
         end).

Definition livenessHandler : M World (Z * string) := ret (200, body "ok").

End Ops.
End HealthCheckServer.

(** * What the health check guarantees

    An instance is marked ready only on a recent heartbeat and unready only on a stale
    one; a pulse writes only the heartbeat of its own instance. *)

From S2P Require Import Services ServiceFacts ControllerFacts.
Import api HealthCheckServer.

Open Scope Z_scope.

Lemma ticks_bump w : ticks w (bump w).
Proof. unfold ticks. simpl. lia. Qed.

Section Classify.
Context `{env : Env}.
Variable hb : Z.

(** Some time.Now() read between the two worlds finds the heartbeat recent, or stale. *)
Definition seen_recent (i : ServerInstance) (w w' : World) : Prop :=
  exists n, (w.(tick) <= n < w'.(tick))%nat /\ clock n + staleness hb < i.(LastHeartbeat).
Definition seen_stale (i : ServerInstance) (w w' : World) : Prop :=
  exists n, (w.(tick) <= n < w'.(tick))%nat /\ i.(LastHeartbeat) < clock n + staleness hb.
(** Every one does. *)
Definition all_recent (i : ServerInstance) (w w' : World) : Prop :=
  forall n, (w.(tick) <= n < w'.(tick))%nat -> clock n + staleness hb < i.(LastHeartbeat).
Definition all_stale (i : ServerInstance) (w w' : World) : Prop :=
  forall n, (w.(tick) <= n < w'.(tick))%nat -> i.(LastHeartbeat) < clock n + staleness hb.

Definition ready_change (i : ServerInstance) (b : bool) (w w' : World) : Prop :=
  i.(Ready) = negb b /\ if b then seen_recent i w w' else seen_stale i w w'.
Definition must_change (i : ServerInstance) (b : bool) (w w' : World) : Prop :=
  i.(Ready) = negb b /\ if b then all_recent i w w' else all_stale i w w'.

Lemma ready_change_mono i b w1 w2 w3 w4 :
  ticks w1 w2 -> ticks w3 w4 -> ready_change i b w2 w3 -> ready_change i b w1 w4.
Proof.
  unfold ticks. intros H1 H2 [Hr Hc]. split; [done|].
  destruct b; destruct Hc as (n & ? & ?); exists n; (split; [lia|done]).
Qed.
Lemma must_change_mono i b w1 w2 w3 w4 :
  ticks w1 w2 -> ticks w3 w4 -> must_change i b w1 w4 -> must_change i b w2 w3.
Proof.
  unfold ticks. intros H1 H2 [Hr Hc]. split; [done|]. destruct b; intros n Hn; apply Hc; lia.
Qed.

(** [act] and [inact] classify the instances of [l] between the two worlds. *)
Record classified (l : list ServerInstance) (act inact : list string) (w w' : World) : Prop := {
  cl_only (b : bool) id : id ∈ (if b then act else inact) -> exists i : ServerInstance, i ∈ l /\ i.(ID) = id /\ ready_change i b w w';
  cl_all (b : bool) i : i ∈ l -> must_change i b w w' -> i.(ID) ∈ if b then act else inact;
}.

(** One more instance, read between [w] and [w1]; [o] is the list it went to, if any. *)
Lemma classified_cons (i : ServerInstance) l act inact w w1 w' (o : option bool) :
  ticks w w1 -> ticks w1 w' -> classified l act inact w1 w' ->
  (forall b, o = Some b -> ready_change i b w w1) -> (forall b, must_change i b w w1 -> o = Some b) ->
  classified (i :: l) (if decide (o = Some true) then i.(ID) :: act else act)
                      (if decide (o = Some false) then i.(ID) :: inact else inact) w w'.
Proof.
  intros H1 H2 [Ho Hall] Hc Hm.
  assert (forall (b : bool) (id : string), id ∈ (if b then act else inact) ->
                       exists j : ServerInstance, j ∈ i :: l /\ j.(ID) = id /\ ready_change j b w w') as Hold.
  { intros b id Hin. destruct (Ho b id Hin) as (j & Hj & Hid & Hch). exists j. split_and!; [by right|done|].
    eapply (ready_change_mono j b w w1 w' w'); [done|reflexivity|done]. }
  assert (forall b, o = Some b -> ready_change i b w w') as Hnew.
  { intros b Hb. eapply (ready_change_mono i b w w w1 w'); [reflexivity|done|auto]. }
  split.
  - intros b id. destruct b; case_decide; try apply (Hold true); try apply (Hold false);
      (intros [->|Hin]%elem_of_cons; [exists i; split_and!; [left|done|auto]|]).
    + by apply (Hold true).
    + by apply (Hold false).
  - intros b j [->|Hj]%elem_of_cons Hmust.
    + rewrite (Hm b) by (apply (must_change_mono i b w w w1 w'); done). destruct b; left.
    + assert (j.(ID) ∈ (if b then act else inact)) as Hin.
      { apply Hall; [done|]. by apply (must_change_mono j b w w1 w' w'). }
      destruct b; case_decide; try by right. all: done.
Qed.

Lemma classify_run l : forall a b w, exists act inact w',
  classify hb l a b w = ((a ++ act, b ++ inact), w') /\ reads w w' /\ ticks w w' /\ classified l act inact w w'.
Proof.
  induction l as [|i l IH]; intros a b w; cbn [classify].
  { exists [], [], w. rewrite !app_nil_r. split_and!; [done|done|done|].
    split; [intros [] ? ?%elem_of_nil; done|by intros ? ? ?%elem_of_nil]. }
  rewrite bind_run. cbn [time_now bind step ret].
  destruct ((clock w.(tick) + staleness hb <? i.(LastHeartbeat)) && negb i.(Ready)) eqn:Ha.
  { apply andb_prop in Ha as [Hlt%Z.ltb_lt Hr%negb_true_iff].
    destruct (IH (a ++ [i.(ID)]) b (bump w)) as (act & inact & w' & -> & Hrd & Htk & Hcl).
    exists (i.(ID) :: act), inact, w'. rewrite <-app_assoc. split_and!; [done|done|by etrans; [apply ticks_bump|]|].
    apply (classified_cons i l act inact w (bump w) w' (Some true)); [apply ticks_bump|done|done| |].
    - intros ? [= <-]. split; [done|]. exists w.(tick). split; [simpl; lia|done].
    - intros [] [Hr' _]; [done|]. by rewrite Hr in Hr'. }
  rewrite bind_run. cbn [time_now bind step ret].
  assert (forall b', must_change i b' w (bump (bump w)) -> b' = false) as Hf.
  { intros [] [Hr Hm]; [|done]. rewrite Hr, andb_true_r in Ha. apply Z.ltb_ge in Ha.
    specialize (Hm w.(tick) ltac:(simpl; lia)). lia. }
  destruct ((i.(LastHeartbeat) <? clock (bump w).(tick) + staleness hb) && i.(Ready)) eqn:Hi.
  - apply andb_prop in Hi as [Hlt%Z.ltb_lt Hr].
    destruct (IH a (b ++ [i.(ID)]) (bump (bump w))) as (act & inact & w' & -> & Hrd & Htk & Hcl).
    exists act, (i.(ID) :: inact), w'. rewrite <-app_assoc.
    split_and!; [done|done|by do 2 (etrans; [apply ticks_bump|])|].
    apply (classified_cons i l act inact w (bump (bump w)) w' (Some false)); [|done|done| |].
    + etrans; apply ticks_bump.
    + intros ? [= <-]. split; [done|]. exists (S w.(tick)). split; [simpl; lia|done].
    + intros b' Hm. by rewrite (Hf b' Hm).
  - destruct (IH a b (bump (bump w))) as (act & inact & w' & -> & Hrd & Htk & Hcl).
    exists act, inact, w'. split_and!; [done|done|by do 2 (etrans; [apply ticks_bump|])|].
    apply (classified_cons i l act inact w (bump (bump w)) w' None); [|done|done|done|].
    + etrans; apply ticks_bump.
    + intros b' Hm. pose proof (Hf b' Hm) as ->. destruct Hm as [Hr Hm]. rewrite Hr, andb_true_r in Hi.
      apply Z.ltb_ge in Hi. specialize (Hm (S w.(tick)) ltac:(simpl; lia)). simpl in Hi. lia.
Qed.
End Classify.

Section Marking.
Context `{env : Env} `{gl : GormLaws}.

Definition instances_of (w : World) : gmap string ServerInstance := w.(tables).(server_instances).

(** The row an instance has after being marked. *)
Definition marked (b : bool) (at_ : Time) (i : ServerInstance) : ServerInstance := updated_row (set_Ready b) at_ i.

Lemma mark_run b ids w :
  wf_tables w ->
  let w' := (InstanceDao.mark b ids w).2 in
  wf_tables w' /\ ticks w w' /\
  (forall id, instances_of w' !! id = instances_of w !! id \/
     exists i, id ∈ ids /\ instances_of w !! id = Some i /\ visible false i = true /\
               instances_of w' !! id = Some (marked b (clock w.(tick)) i)) /\
  (fault w.(tick) = None -> forall id i, id ∈ ids -> instances_of w !! id = Some i -> visible false i = true ->
     instances_of w' !! id = Some (marked b (clock w.(tick)) i)) /\
  (forall id, id ∉ ids -> instances_of w' !! id = instances_of w !! id).
Proof.
  intros Hw. cbn zeta. split; [|split].
  { revert Hw. generalize w. change (always keeps_wf (InstanceDao.mark b ids)). always_auto. }
  { generalize w. change (always ticks (InstanceDao.mark b ids)). always_auto. }
  unfold InstanceDao.mark. rewrite bind_run, or_rollback_run. unfold st_updates. rewrite statement_run.
  destruct (fault w.(tick)) as [e|]; [split_and!; [by left|done|done]|].
  rewrite gUpdates_eq. cbn iota. cbn [snd]. unfold instances_of.
  cbn [ret snd tables set_tables tset tget server_instances_table server_instances bump].
  assert (forall id i, w.(tables).(server_instances) !! id = Some i ->
            hits false (by_ids ids) i = visible false i && bool_decide (id ∈ ids)) as Hh.
  { intros id i Hi. unfold hits, by_ids. by rewrite (wf_instances _ Hw _ _ Hi). }
  split_and!.
  - intros id. rewrite lookup_fmap. destruct (_ !! id) as [i|] eqn:Hi; [|by left]. cbn [fmap option_fmap option_map]. rewrite (Hh id i Hi).
    destruct (visible false i) eqn:Hv; [|by left]. cbn [andb]. case_bool_decide; [|by left]. right. by exists i.
  - intros _ id i Hin Hi Hv. rewrite lookup_fmap, Hi. cbn [fmap option_fmap option_map]. rewrite (Hh id i Hi), Hv.
    by rewrite bool_decide_eq_true_2.
  - intros id Hin. rewrite lookup_fmap. destruct (_ !! id) as [i|] eqn:Hi; [|done]. cbn [fmap option_fmap option_map].
    rewrite (Hh id i Hi), bool_decide_eq_false_2, andb_false_r by done. done.
Qed.

(** The conditional mark of checkInstances. *)
Definition mark_if (b : bool) (ids : list string) : M World unit :=
  if (0 <? length ids)%nat then InstanceDao.mark b ids >> ret tt else ret tt.

Lemma mark_if_run b ids w :
  wf_tables w ->
  let w' := (mark_if b ids w).2 in
  wf_tables w' /\ ticks w w' /\
  (forall id, instances_of w' !! id = instances_of w !! id \/
     exists i t, id ∈ ids /\ instances_of w !! id = Some i /\ visible false i = true /\
                 instances_of w' !! id = Some (marked b t i)) /\
  ((forall n, fault n = None) -> forall id i, id ∈ ids -> instances_of w !! id = Some i -> visible false i = true ->
     exists t, instances_of w' !! id = Some (marked b t i)) /\
  (forall id, id ∉ ids -> instances_of w' !! id = instances_of w !! id).
Proof.
  intros Hw. cbn zeta. unfold mark_if. destruct ids as [|x ids].
  { split_and!; try done; [by left|by intros _ ? ? ?%elem_of_nil]. }
  cbn [length Nat.ltb Nat.leb]. rewrite bind_run. destruct (mark_run b (x :: ids) w Hw) as (H1 & H2 & H3 & H4 & H5).
  destruct (InstanceDao.mark b (x :: ids) w) as [r w']. cbn [snd ret] in *. split_and!; try done.
  - intros id. destruct (H3 id) as [|(i & ? & ? & ? & ?)]; [by left|]. right. eauto 10.
  - intros Hnf id i Hin Hi Hv. eexists. by apply H4.
Qed.

Variable hb : Z.

Lemma checkInstances_locked_eq w :
  checkInstances_locked hb w =
    match InstanceDao.All w with
    | (Err _, w1) => (tt, w1)
    | (Ok l, w1) => let '((act, inact), w2) := classify hb l [] [] w1 in (mark_if true act >> mark_if false inact) w2
    end.
Proof.
  unfold checkInstances_locked. rewrite bind_run. destruct (InstanceDao.All w) as [[l|] w1]; [|done].
  rewrite bind_run. by destruct (classify hb l [] [] w1) as [[act inact] w2].
Qed.

(** What one run may do to the row of an instance. *)
Definition justified (i i' : ServerInstance) (w w' : World) : Prop :=
  i'.(LastHeartbeat) = i.(LastHeartbeat) /\ i'.(ID) = i.(ID) /\
  (i'.(Ready) = i.(Ready) \/ exists b, i'.(Ready) = b /\ ready_change hb i b w w').
End Marking.

Section Theorems.
Context `{env : Env} `{gl : GormLaws} `{ll : LockFactoryLaws}.

Lemma InstanceDao_All_run w :
  InstanceDao.All w = (match fault w.(tick) with
                       | Some e => Err (DriverErr e)
                       | None => Ok (gFind false (fun _ => true) (instances_of w)) end, bump w).
Proof. unfold InstanceDao.All. by rewrite st_find_run. Qed.

Lemma found_instance w (i : ServerInstance) :
  wf_tables w -> i ∈ gFind false (fun _ : ServerInstance => true) (instances_of w) ->
  instances_of w !! i.(ID) = Some i /\ visible false i = true.
Proof.
  intros Hw (k & i0 & Hk & [Hv _]%andb_prop & ->)%gFind_elem.
  change (load scanNull i0) with i0. split; [|done]. rewrite <-(wf_instances _ Hw _ _ Hk) in Hk. exact Hk.
Qed.

(** The two marks on the row stored under an id, in an environment that may fail. *)
Record two_marks (act inact : list string) (id : string) (r r' : option ServerInstance) : Prop := {
  tm_none : r = None -> r' = None;
  tm_some i : r = Some i -> exists i', r' = Some i' /\ i'.(LastHeartbeat) = i.(LastHeartbeat) /\ i'.(ID) = i.(ID) /\
    (i'.(Ready) = i.(Ready) \/ i'.(Ready) = true /\ id ∈ act \/ i'.(Ready) = false /\ id ∈ inact);
  tm_done i : (forall n, fault n = None) -> r = Some i -> visible false i = true ->
    (id ∈ inact -> exists i', r' = Some i' /\ i'.(Ready) = false) /\
    (id ∈ act -> id ∉ inact -> exists i', r' = Some i' /\ i'.(Ready) = true);
}.

Lemma two_marks_run act inact w :
  wf_tables w ->
  let w' := ((mark_if true act >> mark_if false inact) w).2 in
  ticks w w' /\ forall id, two_marks act inact id (instances_of w !! id) (instances_of w' !! id).
Proof.
  intros Hw. cbn zeta. rewrite bind_run.
  destruct (mark_if_run true act w Hw) as (Hw2 & Htk2 & Hm2 & Hd2 & Hn2).
  destruct (mark_if true act w) as [[] w2]. cbn [snd] in *.
  destruct (mark_if_run false inact w2 Hw2) as (Hw3 & Htk3 & Hm3 & Hd3 & Hn3).
  destruct (mark_if false inact w2) as [[] w3]. cbn [snd] in *.
  split; [by etrans|]. intros id. split.
  - intros Hno. destruct (Hm3 id) as [->|(i & t & _ & Hi & _)], (Hm2 id) as [He|(i' & t' & _ & Hi' & _)]; congruence.
  - intros i Hi. destruct (Hm2 id) as [He2|(i2 & t2 & Hin2 & Hi2 & _ & He2)],
      (Hm3 id) as [He3|(i3 & t3 & Hin3 & Hi3 & _ & He3)]; rewrite He3.
    + exists i. split_and!; [congruence|done|done|by left].
    + assert (i3 = i) as -> by congruence. eexists. split_and!; [done..|]. by right; right.
    + assert (i2 = i) as -> by congruence. eexists. split_and!; [exact He2|done|done|]. by right; left.
    + assert (i3 = marked true t2 i) as -> by congruence. eexists. split_and!; [done..|]. by right; right.
  - intros i Hnf Hi Hv. split.
    + intros Hin. destruct (Hm2 id) as [He2|(i2 & t2 & _ & Hi2 & Hv2 & He2)].
      * rewrite Hi in He2. destruct (Hd3 Hnf id i Hin He2 Hv) as [t ->]. by eexists.
      * destruct (Hd3 Hnf id _ Hin He2) as [t ->]; [exact Hv2|]. by eexists.
    + intros Hin Hnot. rewrite (Hn3 id Hnot). destruct (Hd2 Hnf id i Hin Hi Hv) as [t ->]. by eexists.
Qed.

(** The lists a run marks, with the evidence on the stored rows. *)
Lemma checkInstances_locked_run hb w :
  wf_tables w -> fault w.(tick) = None ->
  exists act inact, let w' := (checkInstances_locked hb w).2 in
    ticks w w' /\ (forall id, two_marks act inact id (instances_of w !! id) (instances_of w' !! id)) /\
    (forall (b : bool) id i, id ∈ (if b then act else inact) -> instances_of w !! id = Some i -> ready_change hb i b w w') /\
    (forall (b : bool) id i, instances_of w !! id = Some i -> visible false i = true -> must_change hb i b w w' ->
       id ∈ (if b then act else inact)).
Proof.
  intros Hw Hf. cbn zeta. rewrite checkInstances_locked_eq, InstanceDao_All_run, Hf.
  set (l := gFind false (fun _ : ServerInstance => true) (instances_of w)).
  destruct (classify_run hb l [] [] (bump w)) as (act & inact & w1 & -> & (Ht1 & _) & Htk1 & [Honly Hall]).
  cbn [app]. exists act, inact.
  assert (wf_tables w1) as Hw1 by (unfold wf_tables; by rewrite Ht1).
  assert (instances_of w1 = instances_of w) as Hi1 by (unfold instances_of; by rewrite Ht1).
  destruct (two_marks_run act inact w1 Hw1) as [Htk2 Hrows]. rewrite Hi1 in Hrows.
  set (w3 := ((mark_if true act >> mark_if false inact) w1).2) in *.
  assert (ticks w (bump w)) as Htk0 by apply ticks_bump.
  split_and!; [by do 2 (etrans; [eassumption|])|done| |].
  - intros b id i Hin Hi. destruct (Honly b id Hin) as (j & Hj & <- & Hc).
    apply found_instance in Hj as [Hj _]; [|done]. assert (j = i) as -> by congruence.
    by apply (ready_change_mono hb i b w (bump w) w1 w3).
  - intros b id i Hi Hv Hmust. rewrite <-(wf_instances _ Hw _ _ Hi). apply (Hall b i).
    + unfold l. apply gFind_elem. exists id, i. unfold hits. by rewrite Hv.
    + by apply (must_change_mono hb i b w (bump w) w1 w3).
Qed.

(** CheckInstances never adds or removes an instance and never touches a heartbeat;
    it turns an instance ready only if a clock reading of this run found its heartbeat
    within three intervals, and unready only if one found it older, whatever fails. *)
Theorem checkInstances_sound hb w :
  wf_tables w ->
  let w' := (checkInstances hb w).2 in
  (forall id, instances_of w !! id = None -> instances_of w' !! id = None) /\
  (forall id i, instances_of w !! id = Some i -> exists i', instances_of w' !! id = Some i' /\ justified hb i i' w w').
Proof.
  intros Hw. cbn zeta. unfold checkInstances.
  assert (forall w', instances_of w' = instances_of w ->
    (forall id, instances_of w !! id = None -> instances_of w' !! id = None) /\
    (forall id i, instances_of w !! id = Some i -> exists i', instances_of w' !! id = Some i' /\ justified hb i i' w w'))
    as Hsame.
  { intros w' ->. split; [done|]. intros id i Hi. exists i. split; [done|]. split_and!; [done|done|by left]. }
  apply (singleton_cases (fun w' =>
    (forall id, instances_of w !! id = None -> instances_of w' !! id = None) /\
    (forall id i, instances_of w !! id = Some i -> exists i', instances_of w' !! id = Some i' /\ justified hb i i' w w'))).
  - intros w' [Ht _]. apply Hsame. unfold instances_of. by rewrite Ht.
  - intros w1 w' [Ht _] Htk [Ht' _] Htk'.
    assert (wf_tables w1) as Hw1 by (unfold wf_tables; by rewrite Ht).
    assert (instances_of w1 = instances_of w) as Hi1 by (unfold instances_of; by rewrite Ht).
    destruct (fault w1.(tick)) as [e|] eqn:Hf.
    { apply Hsame. unfold instances_of. rewrite Ht', checkInstances_locked_eq, InstanceDao_All_run, Hf. simpl. by rewrite Ht. }
    destruct (checkInstances_locked_run hb w1 Hw1 Hf) as (act & inact & _ & Hrows & Hev & _).
    rewrite Hi1 in *. unfold instances_of at 2 4. rewrite Ht'. split.
    + intros id Hno. by apply (tm_none _ _ _ _ _ (Hrows id)).
    + intros id i Hi. destruct (tm_some _ _ _ _ _ (Hrows id) i Hi) as (i' & Hi' & Hlh & Hid & Hr).
      exists i'. split; [exact Hi'|]. split_and!; [done|done|].
      destruct Hr as [|[[Hr Hin]|[Hr Hin]]]; [by left|right; exists true|right; exists false]; (split; [done|]).
      * apply (ready_change_mono hb i true w w1 _ w' Htk Htk'). by apply (Hev true id).
      * apply (ready_change_mono hb i false w w1 _ w' Htk Htk'). by apply (Hev false id).
Qed.

(** When nothing fails, a run that holds the lock marks every visible instance whose
    heartbeat is recent throughout as ready, and every one that is stale throughout as
    unready. *)
Theorem checkInstances_complete hb w id i b :
  wf_tables w -> (forall n, fault n = None) ->
  instances_of w !! id = Some i -> visible false i = true ->
  (if b : bool then all_recent hb i w (checkInstances_locked hb w).2
   else all_stale hb i w (checkInstances_locked hb w).2) ->
  exists i', instances_of (checkInstances_locked hb w).2 !! id = Some i' /\ i'.(Ready) = b.
Proof.
  intros Hw Hnf Hi Hv Hall.
  destruct (checkInstances_locked_run hb w Hw (Hnf _)) as (act & inact & _ & Hrows & Hev & Hmust).
  destruct (tm_done _ _ _ _ _ (Hrows id) i Hnf Hi Hv) as [Hfalse Htrue].
  destruct (decide (i.(Ready) = b)) as [Hr|Hr].
  - destruct (tm_some _ _ _ _ _ (Hrows id) i Hi) as (i' & Hi' & _ & _ & Hc). exists i'. split; [exact Hi'|].
    destruct Hc as [->|[[Hr' Hin]|[Hr' Hin]]]; [done| |].
    + destruct (Hev true id i Hin Hi) as [Hn _]. rewrite Hr in Hn. subst b. simpl in *.
      destruct (Hev true id i Hin Hi) as [_ (n & Hn1 & Hn2)]. rewrite Hn in Hall. specialize (Hall n Hn1). lia.
    + destruct (Hev false id i Hin Hi) as [Hn (n & Hn1 & Hn2)]. rewrite Hr in Hn. subst b. rewrite Hn in Hall.
      specialize (Hall n Hn1). lia.
  - assert (must_change hb i b w (checkInstances_locked hb w).2) as Hm.
    { split; [by destruct b, (Ready i)|by destruct b]. }
    pose proof (Hmust b id i Hi Hv Hm) as Hin. destruct b; [|by apply Hfalse].
    apply Htrue; [done|]. intros Hin'. destruct (Hev false id i Hin' Hi) as [Hn _]. by rewrite Hn in Hr.
Qed.

(** *** Heartbeats *)

(** The heartbeat is one of the clock readings made between the two worlds. *)
Definition beat (i : ServerInstance) (w w' : World) : Prop :=
  exists n, (w.(tick) <= n < w'.(tick))%nat /\ i.(LastHeartbeat) = clock n.

(** What a pulse of the instance [self] may do: nothing to other rows and tables, and to
    its own row at most a new heartbeat. *)
Record pulsed (self : string) (w w' : World) : Prop := {
  pu_tables : exists m, w'.(tables) = tset m w.(tables);
  pu_others id : id <> self -> instances_of w' !! id = instances_of w !! id;
  pu_new : instances_of w !! self = None ->
    instances_of w' !! self = None \/
    exists i', instances_of w' !! self = Some i' /\ i'.(Ready) = false /\ beat i' w w';
  pu_own i : instances_of w !! self = Some i ->
    exists i', instances_of w' !! self = Some i' /\ i'.(Ready) = i.(Ready) /\
               (i'.(LastHeartbeat) = i.(LastHeartbeat) \/ beat i' w w');
}.

Lemma pulsed_same self w w' : w'.(tables) = w.(tables) -> pulsed self w w'.
Proof.
  intros Ht. assert (instances_of w' = instances_of w) as He by (unfold instances_of; by rewrite Ht).
  split; rewrite ?He; try done; [|by left|].
  - exists w.(tables).(server_instances). rewrite Ht. by destruct w.(tables).
  - intros i Hi. exists i. split_and!; [done|done|by left].
Qed.

Lemma pulsed_insert self w w' (i' : ServerInstance) :
  w'.(tables) = tset (<[self := i']> w.(tables).(server_instances)) w.(tables) ->
  beat i' w w' -> (forall i, instances_of w !! self = Some i -> i'.(Ready) = i.(Ready)) ->
  (instances_of w !! self = None -> i'.(Ready) = false) -> pulsed self w w'.
Proof.
  intros Ht Hb Hr Hn. assert (instances_of w' = <[self := i']> (instances_of w)) as He by (unfold instances_of; by rewrite Ht).
  split; rewrite ?He.
  - by eexists.
  - intros id Hid. by rewrite lookup_insert_ne.
  - intros Hno. right. exists i'. rewrite lookup_insert_eq. auto.
  - intros i Hi. exists i'. rewrite lookup_insert_eq. split_and!; [done|auto|by right].
Qed.

Lemma pulse_locked_run self w : wf_tables w -> pulsed self w (pulse_locked self w).2.
Proof.
  intros Hw. unfold pulse_locked. rewrite bind_run. unfold InstanceDao.Get. rewrite st_take_by_id by done.
  destruct (fault w.(tick)) as [e|]; [by apply pulsed_same|].
  change (tget w.(tables)) with (instances_of w).
  destruct (instances_of w !! self) as [i|] eqn:Hi; cbn [mbind option_bind].
  - destruct (visible false i); cbn iota; rewrite !bind_run; cbn [time_now bind step ret].
    + change (load scanNull i) with i. unfold InstanceDao.Replace, st_save. rewrite bind_run, or_rollback_run, statement_run.
      destruct (fault _); [by apply pulsed_same|]. rewrite gSave_ok by done. cbn [ret snd].
      eapply (pulsed_insert self); [|exists (S w.(tick)); split; [simpl; lia|]| |].
      * change (row_id (set_LastHeartbeat (clock (tick (bump w))) i)) with (row_id i).
        rewrite (wf_instances _ Hw _ _ Hi). reflexivity.
      * unfold persist. by case_match.
      * rewrite Hi. intros ? [= <-]. unfold persist. by case_match.
      * by rewrite Hi.
    + unfold InstanceDao.Create. rewrite bind_run, or_rollback_run, st_create_run. cbn zeta.
      destruct (fault _); [by apply pulsed_same|].
      match goal with |- context [gCreate ?a ?b ?c ?d] => change a with true; destruct (gCreate_dup b c d) as (msg & -> & _) end.
      { left. exists i. exact Hi. }
      by apply pulsed_same.
  - rewrite !bind_run. cbn [time_now bind step ret].
    unfold InstanceDao.Create. rewrite bind_run, or_rollback_run, st_create_run. cbn zeta.
    destruct (fault _); [by apply pulsed_same|]. rewrite gCreate_ok; [|done|done].
    cbn [ret snd]. eapply (pulsed_insert self); [reflexivity|exists (S w.(tick)); split; [simpl; lia|done]| |done].
    by rewrite Hi.
Qed.

Lemma pulsed_mono self w w1 w2 w' :
  w1.(tables) = w.(tables) -> ticks w w1 -> w'.(tables) = w2.(tables) -> ticks w2 w' ->
  pulsed self w1 w2 -> pulsed self w w'.
Proof.
  intros Ht1 Htk1 Ht2 Htk2 [Hm Ho Hn Hown].
  assert (instances_of w1 = instances_of w) as E1 by (unfold instances_of; by rewrite Ht1).
  assert (instances_of w' = instances_of w2) as E2 by (unfold instances_of; by rewrite Ht2).
  assert (forall i, beat i w1 w2 -> beat i w w') as Hb.
  { intros i (n & Hn1 & Hn2). exists n. unfold ticks in *. split; [lia|done]. }
  rewrite E1 in *. split; rewrite ?E2.
  - destruct Hm as [m Hm]. exists m. by rewrite Ht2, Hm, Ht1.
  - done.
  - intros Hno. destruct (Hn Hno) as [|(i' & ? & ? & ?)]; [by left|right; eauto].
  - intros i Hi. destruct (Hown i Hi) as (i' & ? & ? & [|]); exists i'; eauto.
Qed.

(** A pulse only ever writes the heartbeat of its own instance, with a time read
    during the pulse; it never changes readiness, and a first pulse registers the
    instance as not ready. *)
Theorem pulse_spec self disabled (client : option SourceClient) w :
  (forall c, client = Some c -> always (fun w w' => w'.(tables) = w.(tables) /\ ticks w w') (@sc_IsReady c)) ->
  wf_tables w -> pulsed self w (pulse self disabled client w).2.
Proof.
  intros Hc Hw. unfold pulse. rewrite bind_run.
  assert (exists b w0, cloudEventsNotReady disabled client w = (b, w0) /\ w0.(tables) = w.(tables) /\ ticks w w0)
    as (b & w0 & -> & Ht0 & Htk0).
  { unfold cloudEventsNotReady. destruct disabled; [by exists false, w|]. destruct client as [c|]; [|by exists false, w].
    rewrite bind_run. specialize (Hc c eq_refl w). destruct (sc_IsReady w) as [r w1]. by exists (negb r), w1. }
  destruct b; [by apply pulsed_same|]. rewrite bind_run.
  destruct (NewAdvisoryLock_frame self Instances w0) as (Ht1 & _ & _ & Htk1).
  destruct (NewAdvisoryLock self Instances w0) as [[owner err] w1]. cbn [snd] in *. rewrite bind_run.
  assert (w1.(tables) = w.(tables)) as Ht by congruence. assert (ticks w w1) as Htk by (by etrans).
  destruct err as [e|].
  - cbn [ret]. apply pulsed_same. destruct (Unlock_frame owner w1) as (-> & _). done.
  - pose proof (pulse_locked_run self w1 ltac:(unfold wf_tables; by rewrite Ht)) as Hp.
    destruct (pulse_locked self w1) as [[] w2]. cbn [snd] in *.
    destruct (Unlock_frame owner w2) as (Ht2 & _ & _ & Htk2). by apply (pulsed_mono self w w1 w2).
Qed.

(** The readiness probe answers 200 exactly when the source client is ready (or not
    needed) and the stored row of the instance is visible and ready. *)
Theorem healthCheckHandler_spec self disabled client w :
  wf_tables w ->
  let '(notReady, w1) := cloudEventsNotReady disabled client w in
  w1.(tables) = w.(tables) -> fault w1.(tick) = None ->
  ((healthCheckHandler self disabled client w).1.1 = 200 <->
   notReady = false /\ exists i, instances_of w !! self = Some i /\ visible false i = true /\ i.(Ready) = true).
Proof.
  intros Hw. unfold healthCheckHandler. rewrite bind_run.
  destruct (cloudEventsNotReady disabled client w) as [b w1]. intros Ht Hf.
  destruct b; [split; [done|by intros [? _]]|]. rewrite bind_run. unfold InstanceDao.Get.
  rewrite st_take_by_id by (unfold wf_tables; by rewrite Ht). rewrite Hf.
  change (tget w1.(tables)) with w1.(tables).(server_instances). rewrite Ht. fold (instances_of w).
  destruct (instances_of w !! self) as [i|]; cbn [mbind option_bind].
  2:{ split; [done|]. by intros (_ & i & ? & _). }
  destruct (visible false i) eqn:Hv; cbn iota; cbn [ret fst].
  2:{ split; [done|]. intros (_ & j & [= <-] & Hv' & _). congruence. }
  change (load scanNull i) with i. destruct (Ready i) eqn:Hr.
  - split; [|done]. intros _. split; [done|]. by exists i.
  - split; [done|]. intros (_ & j & [= <-] & _ & Hr'). congruence.
Qed.
End Theorems.
