(* ===== verification/EventServer.v ===== *)
(** * cmd/maestro/server: the event servers, and pkg/event: the broadcaster

    An event server publishes spec events to the agents, takes their status updates into
    the database, and broadcasts stored status events to the subscribers of this
    instance. MessageQueueEventServer does the first over a message queue with the
    source client, GRPCBroker over gRPC streams with the sdk's agent event server. *)

From S2P Require Import Prelude GoLib Errors Types Json Bundle Validation Gorm World Dao DaoFacts Locks Services Controllers SourceClient.
Import api errors Fmt.

Open Scope Z_scope.

(** ** pkg/event/event.go *)

Module EventBroadcaster.
Section Ops.
Context {S : Type}.

(** A handler works on the client's stream. *)
Record eventClient := mkEventClient {
  source : string;
  handler : Resource -> M S (option string);
}.

Definition NewEventBroadcaster : gmap string eventClient := ∅.

Definition Register (id source : string) (handler : Resource -> M S (option string))
  (clients : gmap string eventClient) : gmap string eventClient :=
  <[id := mkEventClient source handler]> clients.

Definition Unregister (id : string) (clients : gmap string eventClient) : gmap string eventClient :=
  match clients !! id with
  | None => clients
  | Some _ => delete id clients
  end.

(** The body of the Start loop for one received resource; the clients are visited in
    the order of the map iteration, and an error of one does not stop the others. *)
Definition deliver (order : list (string * eventClient)) (res : Resource) : M S unit :=
  for_each (fun '(_, client) =>
    if decide (client.(source) = res.(r_Source)) then client.(handler) res >> ret tt else ret tt) order.

End Ops.
Arguments eventClient : clear implicits.

(** [h.broadcast <- res] *)
Definition Broadcast (res : Resource) : M World unit :=
  modify (fun w => set_broadcasts (res :: w.(broadcasts)) w).

End EventBroadcaster.

(** ** event_server.go *)

(** [common.ResourceDeleted], the condition an agent reports after a deletion *)
Definition ResourceDeleted : string := "Deleted".

Section StatusFlow.
Context `{env : Env} `{gorm : Gorm} `{lf : LockFactory} `{tf : TimeFormat} `{sf : Snowflake} `{eo : EventOps}.

(** The status of the resource with the work metadata of the stored spec, and the
    decoded status. *)
Definition merge_status (resource found : Resource) : result (JSONMap * list (string * json)) string :=
  match JSONMAPToCloudEvent resource.(Status) with
  | Err e => Err (Sprintf "failed to convert resource status to cloudevent: %v" [GStr e])
  | Ok statusEvent =>
  match JSONMAPToCloudEvent found.(Payload) with
  | Err e => Err (Sprintf "failed to convert resource spec to cloudevent: %v" [GStr e])
  | Ok specEvent =>
  let statusEvent := match ceExtensions specEvent ExtensionWorkMeta with
                     | Some workMeta => SetExtension ExtensionWorkMeta workMeta statusEvent
                     | None => statusEvent
                     end in
  match CloudEventToJSONMap statusEvent with
  | Err e => Err (Sprintf "failed to convert resource status cloudevent to json: %v" [GStr e])
  | Ok status =>
  match DataAsManifestBundleStatus statusEvent with
  | Err e => Err (Sprintf "failed to decode cloudevent data as resource status: %v" [GStr e])
  | Ok statusPayload => Ok (status, statusPayload)
  end end end end.

(** The agent reports the resource deleted: record it, then delete the row. *)
Definition delete_reported (resource found : Resource) : M World (option string) :=
  let! s := StatusEventService.Create
    (mkStatusEvent (newMeta "") resource.(ID) resource.(r_Source) resource.(Type_) found.(Payload)
       resource.(Status) StatusDeleteEventType None) in
  match s with
  | Err sErr => ret (Some (Sprintf "failed to create status event for resource status delete %s: %s"
                             [GStr resource.(ID); GStr (Error sErr)]))
  | Ok _ =>
      let! d := ResourceService.Delete resource.(ID) in
      ret (match d with
           | Some svcErr => Some (Sprintf "failed to delete resource %s: %s" [GStr resource.(ID); GStr (Error svcErr)])
           | None => None
           end)
  end.

(** Any other status: write it, and record the event when it was written. *)
Definition update_reported (resource : Resource) : M World (option string) :=
  let! u := ResourceService.UpdateStatus resource in
  match u with
  | Err svcErr => ret (Some (Sprintf "failed to update resource status %s: %s"
                               [GStr resource.(ID); GStr (Error svcErr)]))
  | Ok (_, false) => ret None
  | Ok (_, true) =>
      let! s := StatusEventService.Create
        (mkStatusEvent (newMeta "") resource.(ID) "" "" None None StatusUpdateEventType None) in
      ret (match s with
           | Err sErr => Some (Sprintf "failed to create status event for resource status update %s: %s"
                                 [GStr resource.(ID); GStr (Error sErr)])
           | Ok _ => None
           end)
  end.

Definition HandleStatusUpdate (resource : Resource) : M World (option string) :=
  let! r := ResourceService.Get resource.(ID) in
  match r with
  | Err svcErr =>
      ret (if Is404 svcErr then None
           else Some (Sprintf "failed to get resource %s, %s" [GStr resource.(ID); GStr (Error svcErr)]))
  | Ok found =>
      if decide (found.(ConsumerName) <> resource.(ConsumerName)) then
        ret (Some (Sprintf "unmatched consumer name %s for resource %s" [GStr resource.(ConsumerName); GStr resource.(ID)]))
      else
        let resource := set_r_Source found.(r_Source) resource in
        match merge_status resource found with
        | Err e => ret (Some e)
        | Ok (status, statusPayload) =>
            let resource := set_Status status resource in
            if IsStatusConditionTrue statusPayload ResourceDeleted then delete_reported resource found
            else update_reported resource
        end
  end.

(** The resource to broadcast for a status event; no resource means it is gone. *)
Definition broadcast_resource (statusEvent : StatusEvent) (resourceID : string) : M World (result (option Resource) string) :=
  match statusEvent.(StatusEventType_) with
  | StatusDeleteEventType =>
      ret (Ok (Some (mkResource (newMeta resourceID) 0 statusEvent.(ResourceSource) "" statusEvent.(ResourceType)
                       statusEvent.(s_Payload) statusEvent.(s_Status) "")))
  | StatusUpdateEventType =>
      let! r := ResourceService.Get resourceID in
      ret (match r with
           | Err sErr => if Is404 sErr then Ok None
                         else Err (Sprintf "failed to get resource %s: %s" [GStr resourceID; GStr (Error sErr)])
           | Ok resource => Ok (Some resource)
           end)
  end.

Definition broadcastStatusEvent (instanceID eventID resourceID : string) : M World (option string) :=
  let! s := StatusEventService.Get eventID in
  match s with
  | Err sErr => ret (Some (Sprintf "failed to get status event %s: %s" [GStr eventID; GStr (Error sErr)]))
  | Ok statusEvent =>
      let! r := broadcast_resource statusEvent resourceID in
      match r with
      | Err e => ret (Some e)
      | Ok None => ret None
      | Ok (Some resource) =>
          EventBroadcaster.Broadcast resource >>
          let! c := EventInstanceDao.Create (mkEventInstance eventID instanceID) in
          ret (match c with Ok _ => None | Err e => Some (db_message e) end)
      end
  end.

End StatusFlow.

(** The interface of both servers. *)
Class EventServer := {
  es_OnCreate : string -> M World (option string);
  es_OnUpdate : string -> M World (option string);
  es_OnDelete : string -> M World (option string);
  es_OnStatusUpdate : string -> string -> M World (option string);
  es_PredicateEvent : string -> M World (result bool string);
}.

Module MessageQueueEventServer.
Section Ops.
Context `{env : Env} `{gorm : Gorm} `{lf : LockFactory} `{tf : TimeFormat} `{sf : Snowflake} `{eo : EventOps}
        `{sc : SourceClient}.
Variable instanceID : string.
(** The status dispatcher's answer for a consumer. *)
Variable Dispatch : string -> bool.

(** The handler given to Subscribe. *)
Definition startSubscription (resource : Resource) : M World (option string) :=
  if negb (Dispatch resource.(ConsumerName)) then ret None
  else
    let! err := HandleStatusUpdate resource in
    ret (match err with
         | Some e => Some (Sprintf "failed to handle resource status update %s: %s" [GStr resource.(ID); GStr e])
         | None => None
         end).

Definition OnCreate (resourceID : string) : M World (option string) := sc_OnCreate resourceID.
Definition OnUpdate (resourceID : string) : M World (option string) := sc_OnUpdate resourceID.
Definition OnDelete (resourceID : string) : M World (option string) := sc_OnDelete resourceID.
Definition OnStatusUpdate (eventID resourceID : string) : M World (option string) :=
  broadcastStatusEvent instanceID eventID resourceID.
Definition PredicateEvent (eventID : string) : M World (result bool string) := ret (Ok true).

Definition NewMessageQueueEventServer : EventServer := {|
  es_OnCreate := OnCreate; es_OnUpdate := OnUpdate; es_OnDelete := OnDelete;
  es_OnStatusUpdate := OnStatusUpdate; es_PredicateEvent := PredicateEvent;
|}.
End Ops.
End MessageQueueEventServer.

(** ** grpc_broker.go *)

(** sdk-go's agent event server, and the error texts of apimachinery. *)
Class AgentEventServer `{ce : CloudEvents} := {
  HandleEvent : CE -> M World (option string);
  Subscribers : M World (gset string);
  InternalError : string -> string;
  NotFoundError : string -> string -> string;
}.
Arguments AgentEventServer ce : clear implicits.
Arguments AgentEventServer {ce}.

(** The errors Get returns: kubeerrors.NewNotFound, NewInternalError, or Encode's own. *)
Inductive kubeError :=
| NewNotFound (resource name : string)
| NewInternalError (err : string)
| OtherError (err : string).

Module GRPCBroker.
Section Ops.
Context `{env : Env} `{gorm : Gorm} `{lf : LockFactory} `{tf : TimeFormat} `{sf : Snowflake} `{eo : EventOps}
        `{aes : !AgentEventServer}.
Variable instanceID : string.

Definition source : string := "maestro".
Definition CreateRequestAction : string := "create_request".
Definition UpdateRequestAction : string := "update_request".
Definition DeleteRequestAction : string := "delete_request".
Definition ResyncResponseAction : string := "resync_response".

Definition kube_message (e : kubeError) : string :=
  match e with
  | NewNotFound resource name => NotFoundError resource name
  | NewInternalError err => InternalError err
  | OtherError err => err
  end.
Definition IsNotFound (e : kubeError) : bool :=
  match e with NewNotFound _ _ => true | _ => false end.

Definition DecodeResourceStatus (evt : CE) : result Resource string := Codec.Decode source evt.

Definition EncodeResourceSpec (resource : Resource) (action : string) : M World (result CE string) :=
  Codec.Encode source (mkCloudEventsType ManifestBundleEventDataType SubResourceSpec action) resource.

(** GRPCBrokerService.List: the first resource that cannot be encoded ends the loop. *)
Fixpoint encode_all (resources : list Resource) (evts : list CE) : M World (result (list CE) string) :=
  match resources with
  | [] => ret (Ok evts)
  | res :: resources =>
      let! r := EncodeResourceSpec res ResyncResponseAction in
      match r with
      | Err e => ret (Err (InternalError e))
      | Ok evt => encode_all resources (evts ++ [evt])
      end
  end.

Definition List (clusterName : string) : M World (result (list CE) string) :=
  let! r := ResourceService.List clusterName in
  match r with
  | Err e => ret (Err (db_message e))
  | Ok resources => encode_all resources []
  end.

Definition HandleStatusUpdate_ (evt : CE) : M World (option string) :=
  match DecodeResourceStatus evt with
  | Err e => ret (Some (Sprintf "failed to decode cloudevent: %v" [GStr e]))
  | Ok resource =>
      let! err := HandleStatusUpdate resource in
      ret (match err with
           | Some e => Some (Sprintf "failed to handle resource status update %s: %s" [GStr resource.(ID); GStr e])
           | None => None
           end)
  end.

Definition send_spec (resource : Resource) (action : string) : M World (option string) :=
  let! r := EncodeResourceSpec resource action in
  match r with
  | Err e => ret (Some (InternalError e))
  | Ok evt => HandleEvent evt
  end.

Definition OnCreate (resourceID : string) : M World (option string) :=
  let! r := ResourceService.Get resourceID in
  match r with
  | Err svcErr => ret (if Is404 svcErr then None else Some (InternalError (Error svcErr)))
  | Ok resource =>
      if negb (IsZero resource.(DeletedAt).(NTime)) then ret None
      else send_spec resource CreateRequestAction
  end.

Definition OnUpdate (resourceID : string) : M World (option string) :=
  let! r := ResourceService.Get resourceID in
  match r with
  | Err svcErr => ret (if Is404 svcErr then None else Some (InternalError (Error svcErr)))
  | Ok resource =>
      if negb (IsZero resource.(DeletedAt).(NTime)) then ret None
      else send_spec resource UpdateRequestAction
  end.

Definition Get (resourceID action : string) : M World (result CE kubeError) :=
  let! r := ResourceService.Get resourceID in
  match r with
  | Err err =>
      ret (Err (if Is404 err then NewNotFound "manifestbundles" resourceID else NewInternalError (Error err)))
  | Ok resource =>
      let! e := EncodeResourceSpec resource action in
      ret (match e with Ok evt => Ok evt | Err e => Err (OtherError e) end)
  end.

Definition OnDelete (resourceID : string) : M World (option string) :=
  let! r := Get resourceID DeleteRequestAction in
  match r with
  | Err err => ret (if IsNotFound err then None else Some (kube_message err))
  | Ok evt => HandleEvent evt
  end.

Definition OnStatusUpdate (eventID resourceID : string) : M World (option string) :=
  broadcastStatusEvent instanceID eventID resourceID.

Definition PredicateEvent (eventID : string) : M World (result bool string) :=
  let! r := EventService.Get eventID in
  match r with
  | Err err => ret (Err (Sprintf "failed to get event %s: %s" [GStr eventID; GStr (Error err)]))
  | Ok evt =>
      match evt.(ReconciledDate) with
      | Some _ => ret (Ok false)
      | None =>
          let! r := ResourceService.Get evt.(SourceID) in
          match r with
          | Err svcErr =>
              if Is404 svcErr then
                let! now := time_now in
                let! u := EventService.Replace (set_ReconciledDate (Some now) evt) in
                ret (match u with
                     | Err svcErr => Err (Sprintf "failed to mark event with id (%s) as reconciled: %s"
                                            [GStr evt.(ID); GStr (Error svcErr)])
                     | Ok _ => Ok false
                     end)
              else ret (Err (Sprintf "failed to get resource %s: %s" [GStr evt.(SourceID); GStr (Error svcErr)]))
          | Ok resource =>
              let! subscribers := Subscribers in
              ret (Ok (bool_decide (resource.(ConsumerName) ∈ subscribers)))
          end
      end
  end.

Definition NewGRPCBroker : EventServer := {|
  es_OnCreate := OnCreate; es_OnUpdate := OnUpdate; es_OnDelete := OnDelete;
  es_OnStatusUpdate := OnStatusUpdate; es_PredicateEvent := PredicateEvent;
|}.
End Ops.
End GRPCBroker.

(** ** controllers.go: what the controllers call *)

Section ControllersServer.
Context `{es : EventServer}.

Definition spec_handlers : Handlers :=
  Add (mkControllerConfig "Resources"
         (<[CreateEventType := [es_OnCreate]]>
          (<[UpdateEventType := [es_OnUpdate]]> {[DeleteEventType := [es_OnDelete]]}))) ∅.

Definition status_handlers : StatusHandlers :=
  status_Add (<[StatusUpdateEventType := [es_OnStatusUpdate]]> {[StatusDeleteEventType := [es_OnStatusUpdate]]}) ∅.

End ControllersServer.
