(* ===== verification/EventServerFacts.v ===== *)
(** * What the event servers guarantee

    A status update ends in exactly the rows and events its decision asks for; a
    resource only disappears after its deletion was recorded and announced; a stored
    status event counts as processed by an instance only after it was broadcast there. *)

From S2P Require Import Prelude GoLib Errors Types Json Bundle Validation Gorm World Dao DaoFacts Locks Services ServiceFacts Controllers ControllerFacts SourceClient SourceClientFacts EventServer.
Import api errors Fmt.

Open Scope Z_scope.

(** ** The broadcaster *)

Section Broadcaster.
Import EventBroadcaster.

(** Clients that write what they receive to a common log, and then may fail. *)
Definition logs (id : string) (c : eventClient (list (string * Resource))) : Prop :=
  forall res s, exists e, c.(handler) res s = (e, (id, res) :: s).

Definition recipients (clients : gmap string (eventClient (list (string * Resource)))) (res : Resource) : list string :=
  (filter (fun kc => kc.2.(source) = res.(r_Source)) (map_to_list clients)).*1.

Lemma deliver_log (l : list (string * eventClient (list (string * Resource)))) res s :
  Forall (fun kc => logs kc.1 kc.2) l ->
  (deliver l res s).2 ≡ₚ ((fun id => (id, res)) <$> (filter (fun kc => kc.2.(source) = res.(r_Source)) l).*1) ++ s.
Proof.
  revert s. unfold deliver. induction l as [|[id c] l IH]; intros s Hl; [done|].
  apply Forall_cons in Hl as [Hc Hl]. cbn [for_each]. rewrite bind_run, filter_cons. cbn [snd].
  case_decide as Hs; [|by apply IH]. rewrite bind_run. destruct (Hc res s) as [e He]. cbn [fst snd] in *.
  rewrite He. cbn [ret]. rewrite IH by done. rewrite !fmap_cons. cbn [fst]. by rewrite <-Permutation_middle.
Qed.

(** A broadcast resource reaches exactly the clients registered for its source, each
    once, in whatever order they are visited and even if some of them fail. *)
Theorem deliver_exactly clients order res s :
  order ≡ₚ map_to_list clients -> map_Forall (fun id c => logs id c) clients ->
  (deliver order res s).2 ≡ₚ ((fun id => (id, res)) <$> recipients clients res) ++ s.
Proof.
  intros Ho Hl. rewrite deliver_log.
  - unfold recipients. by rewrite Ho.
  - rewrite Ho. apply Forall_forall. intros [id c] Hin%elem_of_map_to_list. by apply (Hl id).
Qed.

(** A registered client is known under its id until it is unregistered. *)
Lemma register_unregister {S} id source_ (h : Resource -> M S (option string)) clients :
  clients !! id = None -> Unregister id (Register id source_ h clients) = clients.
Proof.
  intros Hn. unfold Unregister, Register. rewrite lookup_insert_eq. by apply delete_insert_id.
Qed.
End Broadcaster.

(** ** Creating a status event *)

Definition add_status (e : StatusEvent) (t : Tables) : Tables := tset (<[e.(ID) := e]> t.(status_events)) t.

Section StatusEvents.
Context `{env : Env} `{gl : GormLaws}.

(** The row a status event is stored as. *)
Definition stored_status (w : World) (se : StatusEvent) : StatusEvent :=
  persist (stamp (clock (S w.(tick))) (before_create (newID w.(tick)) se)).

Inductive status_created (w : World) (se : StatusEvent) : bool -> World -> Prop :=
| StatusNotInserted w' : same_data w w' -> ticks w w' -> status_created w se false w'
| StatusInserted (ok : bool) w' :
    w.(tables).(status_events) !! (stored_status w se).(ID) = None ->
    w'.(tables) = add_status (stored_status w se) w.(tables) -> ticks w w' ->
    w'.(notified) = (if ok then [("status_events", (stored_status w se).(ID))] else []) ++ w.(notified) ->
    status_created w se ok w'.

Lemma StatusEvent_Create_run se w :
  status_created w se (is_ok (StatusEventService.Create se w).1) (StatusEventService.Create se w).2.
Proof.
  unfold StatusEventService.Create, StatusEventDao.Create, or_error. rewrite !bind_run, or_rollback_run, st_create_run.
  cbn zeta. destruct (fault (S (tick w))) as [err|].
  { apply StatusNotInserted; [done|unfold ticks; simpl; lia]. }
  destruct (gCreate _ _ _ _) as [[e' m]|msg] eqn:Hc.
  2:{ apply StatusNotInserted; [done|unfold ticks; simpl; lia]. }
  apply gCreate_inv in Hc as (_ & Hn & _ & -> & ->).
  assert ((stored_status w se).(ID) = newID w.(tick)) as Hid.
  { unfold stored_status. change (row_id (persist (stamp (clock (S (tick w))) (before_create (newID (tick w)) se))) = newID w.(tick)).
    by rewrite row_id_persist, row_id_stamp. }
  rewrite bind_run, pg_notify_run. cbn [tick set_tables bump].
  destruct (fault (S (S (tick w)))) as [err|]; apply StatusInserted; rewrite ?Hid; try done;
    unfold ticks; simpl; try lia; unfold add_status; by rewrite Hid.
Qed.
End StatusEvents.

(** ** Status updates *)

Section StatusUpdate.
Context `{env : Env} `{gl : GormLaws} `{ll : LockFactoryLaws} `{tf : TimeFormat} `{sf : Snowflake} `{eo : EventOps}.

(** What a status update asks for, from the tables alone. *)
Inductive Report :=
| RSkip
| RReject
| RDelete (se : StatusEvent)
| RUpdate (req : Resource).

Definition report (t : Tables) (resource : Resource) : Report :=
  match t.(resources) !! resource.(ID) with
  | None => RSkip
  | Some r =>
      if decide (r.(ConsumerName) <> resource.(ConsumerName)) then RReject
      else
        match merge_status (set_r_Source r.(r_Source) resource) (served r) with
        | Err _ => RReject
        | Ok (status, statusPayload) =>
            if IsStatusConditionTrue statusPayload ResourceDeleted
            then RDelete (mkStatusEvent (newMeta "") resource.(ID) r.(r_Source) resource.(Type_) (served r).(Payload)
                            status StatusDeleteEventType None)
            else RUpdate (set_Status status (set_r_Source r.(r_Source) resource))
        end
  end.

Definition update_event (id : string) : StatusEvent :=
  mkStatusEvent (newMeta "") id "" "" None None StatusUpdateEventType None.

(** The status event [e] is a new row made from [se]. *)
Definition new_status (w : World) (se e : StatusEvent) : Prop :=
  w.(tables).(status_events) !! e.(ID) = None /\ exists w0, ticks w w0 /\ e = stored_status w0 se.

Definition announced (w w' : World) (e : StatusEvent) : Prop :=
  w'.(notified) = ("status_events", e.(ID)) :: w.(notified).

(** What may come out of it: nothing; the deletion recorded but not carried out; the
    deletion recorded, announced and carried out; the status written without its event;
    the status written with its event. Success (None) only ever means the whole. *)
Inductive status_outcome (resource : Resource) (w : World) (res : option string) (w' : World) : Prop :=
| Unchanged : same_data w w' ->
    (res = None -> report w.(tables) resource = RSkip \/
       exists req r, report w.(tables) resource = RUpdate req /\ UpdateStatus_decision w.(tables) req = Keep r) ->
    status_outcome resource w res w'
| DeleteRecorded se e : report w.(tables) resource = RDelete se -> new_status w se e -> res <> None ->
    w'.(tables) = add_status e w.(tables) ->
    status_outcome resource w res w'
| Deleted se e : report w.(tables) resource = RDelete se -> new_status w se e -> res = None ->
    w'.(tables) = tset (delete resource.(ID) w.(tables).(resources)) (add_status e w.(tables)) ->
    announced w w' e -> status_outcome resource w res w'
| StatusWritten req r now : report w.(tables) resource = RUpdate req ->
    UpdateStatus_decision w.(tables) req = Change r -> res <> None ->
    w'.(tables) = update_resource (set_Status r.(Status)) now resource.(ID) w.(tables) ->
    w'.(notified) = w.(notified) -> status_outcome resource w res w'
| StatusRecorded req r now e : report w.(tables) resource = RUpdate req ->
    UpdateStatus_decision w.(tables) req = Change r -> new_status w (update_event resource.(ID)) e ->
    w'.(tables) = add_status e (update_resource (set_Status r.(Status)) now resource.(ID) w.(tables)) ->
    (res = None -> announced w w' e) -> status_outcome resource w res w'.

Lemma service_Delete_run id w :
  wf_tables w ->
  let '(r, w') := ResourceService.Delete id w in
  w'.(notified) = w.(notified) /\
  (w'.(tables) = w.(tables) /\ r <> None \/
   w'.(tables) = tset (delete id w.(tables).(resources)) w.(tables) /\ r = None).
Proof.
  intros Hw. unfold ResourceService.Delete, or_error. rewrite !bind_run. destruct (decide (id = "")) as [->|Hid].
  - unfold ResourceDao.Delete, delete_pk. rewrite pkCondition_empty. split; [done|]. by left.
  - rewrite ResourceDao_Delete_run by done. destruct (fault _); (split; [done|]); [by left|by right].
Qed.

(** The event [delete_reported] records. *)
Definition deleted_event (resource found : Resource) : StatusEvent :=
  mkStatusEvent (newMeta "") resource.(ID) resource.(r_Source) resource.(Type_) found.(Payload)
    resource.(Status) StatusDeleteEventType None.

Lemma delete_reported_run (resource req found : Resource) w :
  wf_tables w -> req.(ID) = resource.(ID) -> report w.(tables) resource = RDelete (deleted_event req found) ->
  status_outcome resource w (delete_reported req found (bump w)).1 (delete_reported req found (bump w)).2.
Proof.
  intros Hw Hid Hrep. unfold delete_reported. rewrite bind_run. fold (deleted_event req found). rewrite Hid.
  set (se := deleted_event req found) in *.
  pose proof (StatusEvent_Create_run se (bump w)) as Hc.
  assert (always keeps_wf (StatusEventService.Create se)) as Hk by always_auto. specialize (Hk (bump w) Hw).
  destruct (StatusEventService.Create se (bump w)) as [r w1]. cbn [fst snd] in *.
  inversion Hc as [w' [Ht Hn] Htk Hok|ok w' Hfresh Ht Htk Hn Hok]; subst.
  { destruct r; [done|]. apply Unchanged; [split; [exact Ht|exact Hn]|done]. }
  assert (new_status w se (stored_status (bump w) se)) as Hnew.
  { split; [exact Hfresh|]. exists (bump w). split; [unfold ticks; simpl; lia|done]. }
  destruct r as [x|e]; cbn [is_ok] in *.
  - rewrite bind_run. pose proof (service_Delete_run resource.(ID) w1 Hk) as Hd.
    destruct (ResourceService.Delete _ w1) as [d w2]. destruct Hd as [Hn2 [[Ht2 Hd]|[Ht2 ->]]]; cbn [ret fst snd].
    + eapply DeleteRecorded; [done|exact Hnew| |by rewrite Ht2, Ht]. by destruct d.
    + eapply Deleted; [done|exact Hnew|done| |unfold announced; by rewrite Hn2, Hn]. by rewrite Ht2, Ht.
  - eapply DeleteRecorded; [done|exact Hnew|done|exact Ht].
Qed.

Lemma update_reported_run (resource req : Resource) w :
  wf_tables w -> req.(ID) = resource.(ID) -> report w.(tables) resource = RUpdate req ->
  status_outcome resource w (update_reported req (bump w)).1 (update_reported req (bump w)).2.
Proof.
  intros Hw Hid Hrep. unfold update_reported. rewrite bind_run, Hid. fold (update_event resource.(ID)).
  destruct (UpdateStatus_done req (bump w) Hw) as [Hn Hd].
  assert (always ticks (ResourceService.UpdateStatus req)) as Htk by always_auto. specialize (Htk (bump w)).
  destruct (ResourceService.UpdateStatus req (bump w)) as [u w1]. cbn [fst snd tables notified bump] in *. rewrite Hid in Hd.
  destruct (UpdateStatus_decision w.(tables) req) as [e|r|r] eqn:Hdec.
  - destruct Hd as [Ht Hu]. destruct u; [done|]. by apply Unchanged.
  - destruct Hd as [Ht Hu]. destruct u as [x|]; [|by apply Unchanged]. rewrite (Hu x eq_refl).
    apply Unchanged; [done|]. intros _. right. eauto.
  - destruct u as [x|]; [|by apply Unchanged]. destruct Hd as [-> [now Ht]]. rewrite bind_run.
    pose proof (StatusEvent_Create_run (update_event resource.(ID)) w1) as Hc.
    destruct (StatusEventService.Create _ w1) as [s w2]. cbn [fst snd] in *.
    inversion Hc as [w' [Ht2 Hn2] Htk2 Hok|ok w' Hfresh Ht2 Htk2 Hn2 Hok]; subst.
    + destruct s; [done|]. eapply StatusWritten; [done|exact Hdec|done| |]; cbn [ret snd]; [by rewrite Ht2|congruence].
    + eapply (StatusRecorded _ _ _ _ req r now (stored_status w1 (update_event resource.(ID)))); [done|exact Hdec| | |].
      * split; [by rewrite Ht in Hfresh|]. exists w1. split; [|done]. unfold ticks in *. simpl in *. lia.
      * cbn [ret snd]. by rewrite Ht2, Ht.
      * destruct s; [|done]. intros _. unfold announced. cbn [ret snd]. rewrite Hn2. simpl. by rewrite Hn.
Qed.

Lemma HandleStatusUpdate_run (resource : Resource) w :
  wf_tables w ->
  status_outcome resource w (HandleStatusUpdate resource w).1 (HandleStatusUpdate resource w).2.
Proof.
  intros Hw. unfold HandleStatusUpdate. rewrite bind_run, ResourceService_Get_run by done.
  destruct (fault w.(tick)) as [e|]; [by apply Unchanged; [|rewrite Is404_get_error]|].
  destruct (w.(tables).(resources) !! resource.(ID)) as [r|] eqn:Hr.
  2:{ rewrite Is404_get_error. apply Unchanged; [done|]. intros _. left. unfold report. by rewrite Hr. }
  rewrite served_ConsumerName, served_Source.
  destruct (decide (r.(ConsumerName) <> resource.(ConsumerName))) as [Hc|Hc]; [by apply Unchanged|].
  destruct (merge_status _ _) as [[status payload]|e] eqn:Hm; [|by apply Unchanged].
  destruct (IsStatusConditionTrue payload ResourceDeleted) eqn:Hd.
  - apply delete_reported_run; [done|done|]. unfold report. rewrite Hr, decide_False by done. rewrite Hm, Hd. done.
  - apply update_reported_run; [done|done|]. unfold report. rewrite Hr, decide_False by done. by rewrite Hm, Hd.
Qed.

(** C4: a status update ends in one of the outcomes of its decision and nothing else,
    whatever fails on the way: an unknown resource is skipped, one of another consumer
    or with an undecodable status is rejected without a trace; a reported deletion is
    recorded before the row goes; a newer status is written and recorded. It reports
    success only when all of it was done and announced. *)
Theorem HandleStatusUpdate_spec (resource : Resource) w :
  wf_tables w ->
  status_outcome resource w (HandleStatusUpdate resource w).1 (HandleStatusUpdate resource w).2.
Proof. apply HandleStatusUpdate_run. Qed.

(** C5: no resource disappears unannounced. If handling a status update removes a
    resource, it is the one the update names, its consumer sent it, the status said
    Deleted, and a delete status event with its payload and final status is stored and
    announced. *)
Theorem HandleStatusUpdate_announces_delete (resource : Resource) w id (r : Resource) :
  wf_tables w ->
  w.(tables).(resources) !! id = Some r -> (HandleStatusUpdate resource w).2.(tables).(resources) !! id = None ->
  id = resource.(ID) /\ r.(ConsumerName) = resource.(ConsumerName) /\
  exists k e, w.(tables).(status_events) !! k = None /\
    (HandleStatusUpdate resource w).2.(tables).(status_events) !! k = Some e /\
    ("status_events", k) ∈ (HandleStatusUpdate resource w).2.(notified) /\
    e.(ResourceID) = id /\ e.(StatusEventType_) = StatusDeleteEventType /\ e.(ResourceSource) = r.(r_Source) /\
    e.(s_Payload) = (served r).(Payload).
Proof.
  intros Hw Hr Hno. pose proof (HandleStatusUpdate_run resource w Hw) as Ho.
  inversion Ho as [[Ht _] _|se e _ _ _ Ht|se e Hrep Hnew _ Ht Ha|req r' now _ _ _ Ht _|req r' now e _ _ _ Ht _].
  - rewrite Ht in Hno. congruence.
  - rewrite Ht in Hno. unfold add_status in Hno. cbn [resources tset status_events_table] in Hno. congruence.
  - rewrite Ht in Hno. cbn [resources tset resources_table] in Hno.
    destruct (decide (id = resource.(ID))) as [->|Hne].
    2:{ rewrite lookup_delete_ne in Hno by done. congruence. }
    unfold report in Hrep. rewrite Hr in Hrep. destruct (decide _) as [|Hc%dec_stable]; [done|].
    destruct (merge_status _ _) as [[status payload]|]; [|done].
    destruct (IsStatusConditionTrue _ _); [|done]. injection Hrep as <-.
    destruct Hnew as [Hfresh (w0 & _ & ->)]. split_and!; [done|done|].
    eexists _, _. split; [exact Hfresh|]. rewrite Ht, Ha. split; [apply lookup_insert_eq|].
    split; [left|]. done.
  - rewrite Ht in Hno. cbn [update_resource resources tset resources_table] in Hno.
    rewrite lookup_alter in Hno. case_decide; subst; rewrite Hr in Hno; done.
  - rewrite Ht in Hno. cbn [update_resource add_status resources tset resources_table status_events_table] in Hno.
    rewrite lookup_alter in Hno. case_decide; subst; rewrite Hr in Hno; done.
Qed.
End StatusUpdate.

(** ** Broadcasting a stored status event *)

Section BroadcastStatus.
Context `{env : Env} `{gl : GormLaws} `{tf : TimeFormat}.

(** The resource a status event is about, as the subscribers get it. *)
Definition to_broadcast (t : Tables) (se : StatusEvent) (resourceID : string) : option Resource :=
  match se.(StatusEventType_) with
  | StatusDeleteEventType => Some (mkResource (newMeta resourceID) 0 se.(ResourceSource) "" se.(ResourceType)
                                     se.(s_Payload) se.(s_Status) "")
  | StatusUpdateEventType => served <$> t.(resources) !! resourceID
  end.

Lemma StatusEventService_Get_run id w :
  wf_tables w ->
  StatusEventService.Get id w =
    (match fault w.(tick) with
     | Some e => Err (get_error "StatusEvent" "id" (GStr id) (DriverErr e))
     | None => match (r ← w.(tables).(status_events) !! id; if visible false r then Some r else None) with
               | Some r => Ok (load scanNull r)
               | None => Err (get_error "StatusEvent" "id" (GStr id) ErrRecordNotFound)
               end
     end, bump w).
Proof.
  intros Hw. unfold StatusEventService.Get, StatusEventDao.Get, or_error. rewrite bind_run, st_take_by_id by done.
  destruct (fault _); [done|]. change (tget w.(tables)) with w.(tables).(status_events).
  by destruct (r ← _; _).
Qed.

Lemma broadcast_resource_run se resourceID w :
  wf_tables w ->
  (exists w', broadcast_resource se resourceID w = (Ok (to_broadcast w.(tables) se resourceID), w') /\
              w'.(tables) = w.(tables) /\ w'.(notified) = w.(notified) /\ w'.(broadcasts) = w.(broadcasts)) \/
  (exists e, broadcast_resource se resourceID w = (Err e, bump w)).
Proof.
  intros Hw. unfold broadcast_resource, to_broadcast. destruct (StatusEventType_ se).
  - rewrite bind_run, ResourceService_Get_run by done. destruct (fault _) as [e|].
    { rewrite Is404_get_error. eauto. }
    left. exists (bump w). destruct (_ !! resourceID); [done|by rewrite Is404_get_error].
  - left. by exists w.
Qed.

(** An instance records a status event as processed only after it handed the
    resource to its broadcaster, and then exactly that one row is added. A failed call
    never has the row; a call that succeeds without it found the resource gone. *)
Theorem broadcastStatusEvent_spec instanceID eventID resourceID w :
  wf_tables w ->
  let '(res, w') := broadcastStatusEvent instanceID eventID resourceID w in
  w'.(notified) = w.(notified) /\
  ((w'.(tables) = w.(tables) /\ w'.(broadcasts) = w.(broadcasts) /\
    (res = None -> exists se, w.(tables).(status_events) !! eventID = Some se /\
                              to_broadcast w.(tables) (load scanNull se) resourceID = None)) \/
   (exists se r, w.(tables).(status_events) !! eventID = Some se /\
      to_broadcast w.(tables) (load scanNull se) resourceID = Some r /\ w'.(broadcasts) = r :: w.(broadcasts) /\
      (res <> None /\ w'.(tables) = w.(tables) \/
       res = None /\ w'.(tables) = set_event_instances (mkEventInstance eventID instanceID :: w.(tables).(event_instances))
                                     w.(tables)))).
Proof.
  intros Hw. unfold broadcastStatusEvent. rewrite bind_run, StatusEventService_Get_run by done.
  destruct (fault w.(tick)) as [e|]; [split; [done|by left]|].
  destruct (w.(tables).(status_events) !! eventID) as [se|] eqn:Hse; cbn [mbind option_bind]; [|split; [done|by left]].
  destruct (visible false se); [|split; [done|by left]]. cbn iota. rewrite bind_run.
  destruct (broadcast_resource_run (load scanNull se) resourceID (bump w) Hw)
    as [(w1 & -> & Ht1 & Hn1 & Hb1)|[e ->]]; [|split; [done|by left]].
  cbn [tables notified broadcasts bump] in *.
  destruct (to_broadcast _ _ _) as [r|] eqn:Hr; [|split; [done|left; split_and!; [done..|eauto]]].
  rewrite !bind_run. cbn [EventBroadcaster.Broadcast modify].
  rewrite bind_run. unfold EventInstanceDao.Create. rewrite or_rollback_run, statement_run. cbn [tick set_broadcasts].
  destruct (fault _) as [e|]; cbn [ret snd].
  { split; [exact Hn1|right]. exists se, r. split_and!; [done|done|simpl; congruence|]. left. split; [done|exact Ht1]. }
  cbn [tables set_broadcasts]. rewrite Ht1.
  case_bool_decide; cbn [ret snd]; (split; [exact Hn1|right]); exists se, r;
    (split_and!; [done|done|simpl; congruence|]); [by right|by left].
Qed.
End BroadcastStatus.

(** ** The gRPC broker's filter *)

Section Predicate.
Context `{env : Env} `{gl : GormLaws} `{ql : WorkQueueLaws} `{tf : TimeFormat} `{eo : EventOps} `{aes : !AgentEventServer}.
Import GRPCBroker.

(** Marking an event reconciled, as handleEvent and PredicateEvent do it. *)
Definition mark_reconciled (now at_ : Time) (id : string) (e : Event) (t : Tables) : Tables :=
  tset (<[id := reconciled_as now at_ e]> t.(events)) t.

Lemma Replace_reconciled_run now id e w :
  wf_tables w -> events_of w !! id = Some e -> fault w.(tick) = None ->
  EventService.Replace (set_ReconciledDate (Some now) e) w =
    (Ok (touched (clock w.(tick)) (set_ReconciledDate (Some now) e)),
     set_tables (mark_reconciled now (clock w.(tick)) id e w.(tables)) (bump w)).
Proof.
  intros Hw He Hf. rewrite EventService_Replace_run, Hf. unfold mark_reconciled.
  change (row_id (set_ReconciledDate (Some now) e)) with (row_id e). by rewrite (wf_events _ Hw _ _ He).
Qed.

(** The broker's filter lets an event through exactly when it is unreconciled and its
    resource belongs to a subscribed consumer; it retires, and only then, an event whose
    resource is gone. *)
Theorem PredicateEvent_spec id e w :
  wf_tables w -> (forall n, fault n = None) -> events_of w !! id = Some e -> visible false e = true ->
  match e.(ReconciledDate), w.(tables).(resources) !! e.(SourceID) with
  | Some _, _ => PredicateEvent id w = (Ok false, bump w)
  | None, None => exists now at_ w', PredicateEvent id w = (Ok false, w') /\
                    w'.(tables) = mark_reconciled now at_ id e w.(tables)
  | None, Some r => exists subs w', Subscribers (bump (bump w)) = (subs, w') /\
                    PredicateEvent id w = (Ok (bool_decide (r.(ConsumerName) ∈ subs)), w')
  end.
Proof.
  intros Hw Hnf He Hv. unfold PredicateEvent. rewrite bind_run, EventService_Get_run by done. rewrite Hnf, He.
  cbn [mbind option_bind]. rewrite Hv. cbn iota. destruct (ReconciledDate e); [done|].
  rewrite bind_run, ResourceService_Get_run, Hnf by done. cbn [tables bump].
  destruct (_ !! e.(SourceID)) as [r|].
  - rewrite bind_run. destruct (Subscribers (bump (bump w))) as [subs w'] eqn:Hs. exists subs, w'.
    split; [done|]. cbn [ret]. by rewrite served_ConsumerName.
  - rewrite Is404_get_error, bind_run. cbn [time_now bind step ret]. rewrite bind_run, (Replace_reconciled_run _ id) by done.
    do 3 eexists. split; [reflexivity|]. reflexivity.
Qed.

(** With the broker's filter a key whose event is already reconciled, or was purged,
    never leaves the queue: the filter answers before handleEvent's own checks for these
    two cases, and the key is put back. *)
Theorem predicated_finished_requeued km s id :
  wf_tables s.(world) -> fault s.(world).(tick) = None ->
  (qGet s.(eventsQueue)).1 = Some id ->
  match events_of s.(world) !! id with Some e => is_Some e.(ReconciledDate) | None => True end ->
  pending (processNextEvent km (NewPredicatedEventFilter PredicateEvent) s).2.(eventsQueue) = pending s.(eventsQueue).
Proof.
  intros Hw Hf Hq He.
  pose proof (processNextEvent_run km (NewPredicatedEventFilter PredicateEvent) s
                (fun id => predicated_keeps_queue PredicateEvent id)) as Hp.
  cbv zeta in Hp. rewrite Hq in Hp. destruct Hp as (_ & _ & ->).
  set (s1 := mkCState _ _ _).
  assert (exists r, (onWorld (PredicateEvent id) s1).1 = r /\ r <> Ok true) as (r & Hr & Hne).
  { eexists. split; [reflexivity|]. rewrite onWorld_run. cbn [fst world s1]. unfold PredicateEvent.
    rewrite bind_run, EventService_Get_run, Hf by done.
    destruct (events_of s.(world) !! id) as [e|]; [|done]. cbn [mbind option_bind]. destruct (visible false e); [|done].
    destruct He as [t ->]. done. }
  unfold handleEvent. rewrite bind_run. cbn [Filter NewPredicatedEventFilter].
  destruct (onWorld (PredicateEvent id) s1) as [f s2]. cbn [fst] in Hr. subst f.
  rewrite bind_run. destruct r as [[]|e']; done.
Qed.
End Predicate.

(** ** Stale spec events, end to end *)

Section Stale.
Context `{env : Env} `{gl : GormLaws} `{lf : LockFactory} `{tf : TimeFormat} `{sf : Snowflake} `{eo : EventOps}
        `{src : !CloudEventSource}.

(** The message-queue event server over the source client. *)
Definition mq_server (sourceID instanceID : string) : EventServer :=
  MessageQueueEventServer.NewMessageQueueEventServer (sc := SourceClientImpl.NewSourceClient sourceID) instanceID.

Lemma spec_handlers_lookup `{es : EventServer} :
  exists per, spec_handlers !! "Resources" = Some per /\
    forall ty, per !! ty = Some [match ty with CreateEventType => es_OnCreate | UpdateEventType => es_OnUpdate
                                           | DeleteEventType => es_OnDelete end].
Proof. eexists. split; [vm_compute; reflexivity|]. intros []; vm_compute; reflexivity. Qed.

(** A create or update event that is handled after its resource was marked for
    deletion, and any event of a resource that is gone, is retired without publishing
    anything: the run is the two reads and the reconciled mark. *)
Theorem stale_event_retired sourceID instanceID id e w :
  wf_tables w -> (forall n, fault n = None) ->
  events_of w !! id = Some e -> visible false e = true -> e.(ReconciledDate) = None -> e.(e_Source) = "Resources" ->
  match w.(tables).(resources) !! e.(SourceID) with
  | None => True
  | Some r => SourceClientImpl.deleting r = true /\ e.(EventType_) <> DeleteEventType
  end ->
  exists now at_,
    handle_filtered (spec_handlers (es := mq_server sourceID instanceID)) id w =
      (Ok true, set_tables (mark_reconciled now at_ id e w.(tables)) (bump (bump (bump (bump w))))).
Proof.
  intros Hw Hnf He Hv Hr Hs Hres. unfold handle_filtered. rewrite bind_run, EventService_Get_run by done.
  rewrite Hnf, He. cbn [mbind option_bind]. rewrite Hv. cbn iota. rewrite Hr, Hs.
  destruct (spec_handlers_lookup (es := mq_server sourceID instanceID)) as (per & -> & Hper). rewrite Hper.
  rewrite bind_run. cbn [for_err]. rewrite bind_run.
  assert ((match e.(EventType_) with CreateEventType => @es_OnCreate (mq_server sourceID instanceID)
           | UpdateEventType => @es_OnUpdate (mq_server sourceID instanceID)
           | DeleteEventType => @es_OnDelete (mq_server sourceID instanceID) end) e.(SourceID) (bump w)
          = (None, bump (bump w))) as ->.
  { destruct (EventType_ e) eqn:Hty;
      cbn [mq_server MessageQueueEventServer.NewMessageQueueEventServer es_OnCreate es_OnUpdate es_OnDelete
           MessageQueueEventServer.OnCreate MessageQueueEventServer.OnUpdate MessageQueueEventServer.OnDelete
           sc_OnCreate sc_OnUpdate sc_OnDelete SourceClientImpl.NewSourceClient];
      unfold SourceClientImpl.OnCreate, SourceClientImpl.OnUpdate, SourceClientImpl.OnDelete;
      rewrite bind_run, ResourceService_Get_run, Hnf by done; cbn [tables bump];
      (destruct (_ !! e.(SourceID)) as [r|]; [|by rewrite Is404_get_error]); destruct Hres as [Hd Hne];
      by rewrite ?deleting_served, ?Hd. }
  cbn [ret]. rewrite bind_run. cbn [time_now bind step ret]. rewrite bind_run.
  rewrite (Replace_reconciled_run _ id) by done. by do 2 eexists.
Qed.
End Stale.
