(* ===== verification/Deletion.v ===== *)
(** * The life of a deletion, end to end

    What the components do together: the deletion request (services), the delete event it
    records (events, notification), the spec controller and the event server that publish it
    (controllers, event server, source client), and the agent's last status (event server).
    When nothing fails the resource is gone in the end and its deletion announced. *)

From S2P Require Import Prelude GoLib Errors Types Json Bundle Validation Gorm World Dao DaoFacts Locks Services ServiceFacts Controllers ControllerFacts SourceClient SourceClientFacts EventServer EventServerFacts.
Import api errors Fmt.

Open Scope Z_scope.

Section Deletion.
Context `{env : Env} `{el : !EnvLaws} `{gl : GormLaws} `{ll : LockFactoryLaws} `{tf : TimeFormat} `{sf : Snowflake}
        `{cfg : ResourceConfig} `{eo : EventOps} `{src : !CloudEventSource}.

(** ** The request *)

Lemma MarkAsDeleting_locked_calm id (r : Resource) w :
  wf_tables w -> id <> "" -> (forall n, fault n = None) -> (forall n, w.(tables).(events) !! newID n = None) ->
  w.(tables).(resources) !! id = Some r -> r.(DeletedAt).(Valid) = false ->
  exists now e, 0 < now /\ fresh_event w id DeleteEventType e /\
    (ResourceService.MarkAsDeleting_locked id w).1 = None /\
    (ResourceService.MarkAsDeleting_locked id w).2.(tables) = add_event e (soft_delete_resource now id w.(tables)) /\
    (ResourceService.MarkAsDeleting_locked id w).2.(notified) = ("events", e.(ID)) :: w.(notified).
Proof.
  intros Hw Hid Hnf Hids Hr Hv. unfold ResourceService.MarkAsDeleting_locked.
  rewrite bind_run, ResourceDao_Get_run, Hnf, Hr by done. change (DeletedAt (load scanNull r)) with r.(DeletedAt). rewrite Hv.
  rewrite bind_run, ResourceDao_Delete_run, Hnf by done. rewrite bind_run. set (w1 := set_tables _ _).
  pose proof (create_event_recorded id DeleteEventType w1) as Hrec.
  pose proof (create_event_ok id DeleteEventType w1 Hnf (Hids _)) as Hok.
  destruct (ResourceService.create_event _ _ w1) as [err w2]. cbn [fst snd] in Hrec, Hok. subst err. cbn [bool_decide] in Hrec.
  inversion Hrec as [| |e Hfresh _ Ht Hn]; subst. exists (clock (tick (bump w))), e. split; [apply clock_pos|].
  by split_and!.
Qed.

Lemma MarkAsDeleting_calm id (r : Resource) w :
  wf_tables w -> id <> "" -> calm w id Resources -> w.(tables).(resources) !! id = Some r -> r.(DeletedAt).(Valid) = false ->
  exists now e, 0 < now /\ fresh_event w id DeleteEventType e /\
    (ResourceService.MarkAsDeleting id w).1 = None /\ ticks w (ResourceService.MarkAsDeleting id w).2 /\
    (ResourceService.MarkAsDeleting id w).2.(tables) = add_event e (soft_delete_resource now id w.(tables)) /\
    (ResourceService.MarkAsDeleting id w).2.(notified) = ("events", e.(ID)) :: w.(notified).
Proof.
  intros Hw Hid [Hnf Hl Hids] Hr Hv.
  assert (forall w1, same_data w w1 -> wf_tables w1 /\ (forall n, w1.(tables).(events) !! newID n = None) /\
            w1.(tables).(resources) !! id = Some r) as Hsame.
  { intros w1 [Ht _]. unfold wf_tables. by rewrite Ht. }
  assert (always ticks (ResourceService.MarkAsDeleting id)) as Htk by always_auto. specialize (Htk w).
  destruct (with_lock_granted id Resources Some (ResourceService.MarkAsDeleting_locked id) w Hl) as (w0 & Hs0 & _ & Hres).
  destruct (Hsame w0 Hs0) as (Hw0 & Hi0 & Hr0).
  destruct (MarkAsDeleting_locked_calm id r w0 Hw0 Hid Hnf Hi0 Hr0 Hv) as (_ & _ & _ & _ & Hnone & _). rewrite Hnone in Hres.
  pose proof Hres as Hok. fold (ResourceService.MarkAsDeleting id) in Hok.
  apply (with_lock_cases (fun res w' => res = None -> exists now e, 0 < now /\ fresh_event w id DeleteEventType e /\
    w'.(tables) = add_event e (soft_delete_resource now id w.(tables)) /\ w'.(notified) = ("events", e.(ID)) :: w.(notified))
    id Resources Some (ResourceService.MarkAsDeleting_locked id) w) in Hres as (now & e & Hnow & Hf & Ht & Hn); [|done|].
  - by exists now, e.
  - intros w1 w' Hs _ Hs' _. destruct (Hsame w1 Hs) as (Hw1 & Hi1 & Hr1).
    destruct (MarkAsDeleting_locked_calm id r w1 Hw1 Hid Hnf Hi1 Hr1 Hv) as (now & e & Hnow & [Hf Hc] & _ & Ht & Hn).
    exists now, e. destruct Hs as [Hst Hsn], Hs' as [Hst' Hsn']. split_and!; [done|split; [by rewrite <-Hst|done]| |].
    + by rewrite Hst', Ht, Hst.
    + by rewrite Hsn', Hn, Hsn.
Qed.
(** ** The event *)

(** The transport takes a delete request and leaves the database alone. *)
Definition accepts_deletes : Prop :=
  forall r w, exists w', Publish (SourceClientImpl.specType "delete_request") r w = (None, w') /\ same_data w w' /\ ticks w w'.

Lemma delete_event_published sourceID instanceID eid e (r : Resource) w :
  wf_tables w -> (forall n, fault n = None) -> accepts_deletes ->
  events_of w !! eid = Some e -> visible false e = true -> e.(ReconciledDate) = None -> e.(e_Source) = "Resources" ->
  e.(EventType_) = DeleteEventType -> w.(tables).(resources) !! e.(SourceID) = Some r -> SourceClientImpl.deleting r = true ->
  exists w1 now at_, Publish (SourceClientImpl.specType "delete_request") (served r) (bump (bump w)) = (None, w1) /\
    same_data w w1 /\ ticks w w1 /\
    handle_filtered (spec_handlers (es := mq_server sourceID instanceID)) eid w =
      (Ok true, set_tables (mark_reconciled now at_ eid e w.(tables)) (bump (bump w1))).
Proof.
  intros Hw Hnf Hpub He Hv Hr Hs Hty Hres Hdel. destruct (Hpub (served r) (bump (bump w))) as (w1 & Hp & [Ht Hn] & Htk).
  exists w1. cbn [tables bump notified] in Ht, Hn.
  assert (exists now at_, handle_filtered (spec_handlers (es := mq_server sourceID instanceID)) eid w =
    (Ok true, set_tables (mark_reconciled now at_ eid e w.(tables)) (bump (bump w1)))) as (now & at_ & Hh).
  { unfold handle_filtered. rewrite bind_run, EventService_Get_run by done.
    rewrite Hnf, He. cbn [mbind option_bind]. rewrite Hv. cbn iota. rewrite Hr, Hs.
    destruct (spec_handlers_lookup (es := mq_server sourceID instanceID)) as (per & -> & Hper). rewrite Hper, Hty.
    rewrite bind_run. cbn [for_err]. rewrite bind_run.
    cbn [mq_server MessageQueueEventServer.NewMessageQueueEventServer es_OnDelete MessageQueueEventServer.OnDelete
         sc_OnDelete SourceClientImpl.NewSourceClient].
    unfold SourceClientImpl.OnDelete. rewrite bind_run, ResourceService_Get_run, Hnf by done. cbn [tables bump]. rewrite Hres.
    rewrite deleting_served, Hdel. cbn [negb]. rewrite Hp. cbn [ret]. rewrite bind_run. cbn [time_now bind step ret]. rewrite bind_run.
    rewrite (Replace_reconciled_run _ eid); [|unfold wf_tables; cbn; by rewrite Ht|cbn; unfold events_of; cbn; by rewrite Ht|by rewrite Hnf].
    cbn [tables bump]. rewrite Ht. by do 2 eexists. }
  exists now, at_. split_and!; [done|split; [exact Ht|exact Hn]|unfold ticks in *; cbn in *; lia|exact Hh].
Qed.

(** ** The last status *)

Lemma StatusEvent_Create_ok se w :
  (forall n, fault n = None) -> w.(tables).(status_events) !! newID w.(tick) = None -> se.(s_Meta) = newMeta "" ->
  is_ok (StatusEventService.Create se w).1 = true.
Proof.
  intros Hnf Hn Hm. unfold StatusEventService.Create, StatusEventDao.Create, or_error.
  rewrite !bind_run, or_rollback_run, st_create_run, Hnf. cbn zeta.
  rewrite gCreate_ok; [|by destruct se; cbn in Hm; subst|by intros].
  cbn iota. rewrite bind_run, pg_notify_run. by rewrite Hnf.
Qed.

Lemma reported_deletion (req r : Resource) status data w :
  wf_tables w -> (forall n, fault n = None) -> (forall n, (w.(tick) <= n)%nat -> w.(tables).(status_events) !! newID n = None) ->
  req.(ID) <> "" -> w.(tables).(resources) !! req.(ID) = Some r -> r.(ConsumerName) = req.(ConsumerName) ->
  merge_status (set_r_Source r.(r_Source) req) (served r) = Ok (status, data) -> IsStatusConditionTrue data ResourceDeleted = true ->
  exists e, (HandleStatusUpdate req w).1 = None /\
    e.(ResourceID) = req.(ID) /\ e.(StatusEventType_) = StatusDeleteEventType /\ e.(s_Payload) = (served r).(Payload) /\
    (HandleStatusUpdate req w).2.(tables) = tset (delete req.(ID) w.(tables).(resources)) (add_status e w.(tables)) /\
    announced w (HandleStatusUpdate req w).2 e.
Proof.
  intros Hw Hnf Hids Hid Hr Hc Hm Hd. pose proof (HandleStatusUpdate_run req w Hw) as Ho.
  assert ((HandleStatusUpdate req w).1 = None) as Hnone.
  { unfold HandleStatusUpdate. rewrite bind_run, ResourceService_Get_run, Hnf, Hr by done.
    rewrite served_ConsumerName, served_Source, decide_False by tauto. rewrite Hm, Hd. unfold delete_reported. rewrite bind_run.
    set (se := mkStatusEvent _ _ _ _ _ _ _ _).
    pose proof (StatusEvent_Create_ok se (bump w) Hnf) as Hok.
    assert (always keeps_wf (StatusEventService.Create se)) as Hk by always_auto. specialize (Hk (bump w) Hw).
    destruct (StatusEventService.Create se (bump w)) as [[x|] w1]; [|cbn in Hok; discriminate Hok; [apply Hids; lia|done]].
    rewrite bind_run. unfold ResourceService.Delete, or_error. rewrite !bind_run.
    rewrite ResourceDao_Delete_run by (done || (cbn in Hk; exact Hk)). by rewrite Hnf. }
  assert (report w.(tables) req = RDelete (mkStatusEvent (newMeta "") req.(ID) r.(r_Source) req.(Type_) (served r).(Payload)
            status StatusDeleteEventType None)) as Hrep.
  { unfold report. rewrite Hr, decide_False by tauto. by rewrite Hm, Hd. }
  destruct Ho as [_ Hu|? ? ? ? Hne _|se e Hrep' [_ (w0 & _ & ->)] _ Ht Ha|? ? ? Hrep'|? ? ? ? Hrep'].
  - destruct (Hu Hnone) as [?|(? & ? & ? & _)]; congruence.
  - done.
  - rewrite Hrep in Hrep'. injection Hrep' as <-. exists (stored_status w0 (mkStatusEvent (newMeta "") req.(ID) r.(r_Source) req.(Type_)
      (served r).(Payload) status StatusDeleteEventType None)). by split_and!.
  - congruence.
  - congruence.
Qed.
(** ** The whole *)

Lemma mark_reconciled_wf now at_ eid e t : tables_wf t -> t.(events) !! eid = Some e -> tables_wf (mark_reconciled now at_ eid e t).
Proof.
  intros [H1 H2 H3 H4 H5] He. split; try done. cbn. apply map_Forall_insert_2; [|done].
  unfold reconciled_as. rewrite row_id_persist, row_id_touched. exact (H3 _ _ He).
Qed.

Lemma reconciled_as_fields now at_ (e : Event) :
  (reconciled_as now at_ e).(SourceID) = e.(SourceID) /\ (reconciled_as now at_ e).(EventType_) = e.(EventType_) /\
  is_Some (reconciled_as now at_ e).(ReconciledDate).
Proof. destruct e as [[? ? ? [? []]] ? ? ? ?]; by repeat split; eexists. Qed.

(** C6: when nothing fails, a deletion runs to its end: the request marks the resource and
    announces one delete event; handling that event publishes one delete request with the
    marked resource and reconciles the event; and when the agent reports the resource gone,
    its row is removed, after a status event with its payload was stored and announced. No
    other resource is touched on the way. *)
Theorem deletion_completes sourceID instanceID id (r req : Resource) w :
  wf_tables w -> id <> "" -> calm w id Resources -> (forall n, w.(tables).(status_events) !! newID n = None) -> accepts_deletes ->
  w.(tables).(resources) !! id = Some r -> r.(DeletedAt).(Valid) = false ->
  req.(ID) = id -> req.(ConsumerName) = r.(ConsumerName) ->
  (forall now, exists status data, merge_status (set_r_Source r.(r_Source) req) (served (soft_deleted now r)) = Ok (status, data) /\
     IsStatusConditionTrue data ResourceDeleted = true) ->
  let '(e1, w1) := ResourceService.MarkAsDeleting id w in
  exists eid now w', e1 = None /\ w1.(notified) = ("events", eid) :: w.(notified) /\
  let '(handled, w2) := handle_filtered (spec_handlers (es := mq_server sourceID instanceID)) eid w1 in
  Publish (SourceClientImpl.specType "delete_request") (served (soft_deleted now r)) (bump (bump w1)) = (None, w') /\
  handled = Ok true /\ (exists t, w2 = set_tables t (bump (bump w'))) /\
  (exists e : Event, w2.(tables).(events) !! eid = Some e /\ e.(SourceID) = id /\ e.(EventType_) = DeleteEventType /\ is_Some e.(ReconciledDate)) /\
  let '(e3, w3) := HandleStatusUpdate req w2 in
  e3 = None /\ w3.(tables).(resources) = delete id w.(tables).(resources) /\
  exists se : StatusEvent, w3.(tables).(status_events) !! se.(ID) = Some se /\ se.(ResourceID) = id /\ se.(StatusEventType_) = StatusDeleteEventType /\
    se.(s_Payload) = (served (soft_deleted now r)).(Payload) /\
    w3.(notified) = ("status_events", se.(ID)) :: ("events", eid) :: w.(notified).
Proof.
  intros Hw Hid Hcalm Hsids Hpub Hr Hv Hreq Hcons Hagent. pose proof (calm_faults _ _ _ Hcalm) as Hnf.
  destruct (MarkAsDeleting_calm id r w Hw Hid Hcalm Hr Hv) as (now & e & Hnow & [_ [at1 He]] & Hok1 & Htk1 & Ht1 & Hn1).
  assert (always keeps_wf (ResourceService.MarkAsDeleting id)) as Hk by always_auto. specialize (Hk w Hw).
  destruct (ResourceService.MarkAsDeleting id w) as [e1 w1]. cbn [fst snd] in *. subst e1.
  assert (Hrow : w1.(tables).(resources) !! id = Some (soft_deleted now r)).
  { rewrite Ht1. cbn. rewrite lookup_alter_eq, Hr. cbn. unfold visible. cbn. by rewrite Hv. }
  assert (Hev : w1.(tables).(events) !! e.(ID) = Some e) by (rewrite Ht1; cbn; apply lookup_insert_eq).
  assert (Hf : visible false e = true /\ e.(ReconciledDate) = None /\ e.(e_Source) = "Resources" /\ e.(EventType_) = DeleteEventType /\
               e.(SourceID) = id) by (by rewrite He).
  destruct Hf as (Hf1 & Hf2 & Hf3 & Hf4 & Hf5).
  destruct (delete_event_published sourceID instanceID e.(ID) e (soft_deleted now r) w1) as (w' & rec & at_ & Hp & [Htp Hnp] & Htkp & Hh);
    try done; [by rewrite Hf5| |].
  { unfold SourceClientImpl.deleting. cbn. apply negb_true_iff. unfold IsZero. lia. }
  exists e.(ID), now, w'. split; [done|]. split; [done|]. rewrite Hh. split; [done|]. split; [done|]. split; [by eexists|].
  split.
  { exists (reconciled_as rec at_ e). cbn. rewrite lookup_insert_eq. split; [done|].
    destruct (reconciled_as_fields rec at_ e) as (-> & -> & Hrec). by split_and!. }
  destruct (Hagent now) as (status & data & Hm & Hd). subst id.
  set (w2 := set_tables _ _).
  destruct (reported_deletion req (soft_deleted now r) status data w2) as (se & Hok3 & Hse1 & Hse2 & Hse3 & Ht3 & Ha3); try done.
  { by apply mark_reconciled_wf. }
  { intros n _. cbn. rewrite Ht1. apply Hsids. }
  destruct (HandleStatusUpdate req w2) as [e3 w3]. cbn [fst snd] in *. subst e3. split; [done|]. split.
  { rewrite Ht3. cbn. rewrite Ht1. cbn. apply delete_alter_eq. }
  exists se. split_and!; try done.
  - rewrite Ht3. cbn. apply lookup_insert_eq.
  - rewrite Ha3. cbn. by rewrite Hnp, Hn1.
Qed.
End Deletion.
