(* ===== verification/GrpcServer.v ===== *)
(** * cmd/maestro/server/grpc_server.go: the service the sources call

    A source publishes spec requests (create, update, delete) and status resync requests,
    and subscribes to the status of its resources. The protobuf binding and the payload
    helpers of sdk-go are the class [SourceEvents]; the files the TLS set-up reads are the
    class [TLSFiles]. An open subscription is a state machine, [Subscription]. *)

From S2P Require Import Prelude GoLib Sha256 Errors Types Json Bundle Validation Gorm World Dao DaoFacts Locks Services ServiceFacts Auth SourceClient EventServer.
Import api errors Fmt.

Open Scope Z_scope.

Class SourceEvents `{ce : CloudEvents} := {
  PBEvent : Type;
  (** binding.ToEvent(ctx, grpcprotocol.NewMessage(event)) *)
  ToEvent : PBEvent -> result CE string;
  (** grpcprotocol.WritePBMessage(ctx, binding.ToMessage(evt), pbEvt) *)
  WritePBMessage : CE -> result PBEvent string;
  ceSource : CE -> string;
  ToTime : ext -> result Time string;
  (** the pairs of resource id and status hash of the request *)
  DecodeStatusResyncRequest : CE -> result (list (string * string)) string;
  (** SetData(ApplicationJSON, status), the bundle of the status replaced by the one the
      given spec event carries *)
  SetStatusData : list (string * json) -> option CE -> CE -> result CE string;
}.
Arguments SourceEvents ce : clear implicits.
Arguments SourceEvents {ce}.

(** What the file system gives for the TLS set-up. *)
Class TLSFiles := {
  LoadX509KeyPair : string -> string -> result unit string;
  SystemCertPool : result unit string;
  ReadFile : string -> result string string;
  AppendCertsFromPEM : string -> bool;
}.

Record GRPCServerConfig := mkGRPCServerConfig {
  TLSCertFile : string;
  TLSKeyFile : string;
  GRPCAuthNType : string;
  ClientCAFile : string;
  HeartbeatDisable : bool;
}.

Record GRPCServer := mkGRPCServer {
  disableAuthorizer : bool;
  (** the authentication type of the installed auth interceptors *)
  authInterceptor : option string;
  (** tls.RequireAndVerifyClientCert *)
  clientCertRequired : bool;
  heartbeatDisable : bool;
}.

(** An error is the message the process exits with. *)
Definition NewGRPCServer `{TLSFiles} (config : GRPCServerConfig) : result GRPCServer string :=
  let disableTLS := bool_decide (config.(TLSCertFile) = "" /\ config.(TLSKeyFile) = "") in
  if disableTLS then Ok (mkGRPCServer disableTLS None false config.(HeartbeatDisable))
  else if decide (config.(TLSCertFile) = "" \/ config.(TLSKeyFile) = "") then
    Err "unspecified required --grpc-tls-cert-file, --grpc-tls-key-file"
  else
    match LoadX509KeyPair config.(TLSCertFile) config.(TLSKeyFile) with
    | Err err => Err (Sprintf "failed to load server certificates: %v" [GStr err])
    | Ok _ =>
        if decide (config.(GRPCAuthNType) = "mtls") then
          if decide (String.length config.(ClientCAFile) = 0%nat) then
            Err "no client CA file specified when using mtls authorization type"
          else
            match SystemCertPool with
            | Err err => Err (Sprintf "failed to load system cert pool: %v" [GStr err])
            | Ok _ =>
                match ReadFile config.(ClientCAFile) with
                | Err err => Err (Sprintf "failed to read client CA file: %v" [GStr err])
                | Ok caPEM =>
                    if AppendCertsFromPEM caPEM then
                      Ok (mkGRPCServer disableTLS (Some config.(GRPCAuthNType)) true config.(HeartbeatDisable))
                    else Err "failed to append client CA to cert pool"
                end
            end
        else Ok (mkGRPCServer disableTLS (Some config.(GRPCAuthNType)) false config.(HeartbeatDisable))
    end.

Definition failed (msg : string) : rpc := Returns (Some (PlainError msg)).
Definition succeeded : rpc := Returns None.

Section GRPCServer.
Context `{env : Env} `{gorm : Gorm} `{lf : LockFactory} `{k8s : K8s} `{sf : Snowflake} `{tf : TimeFormat}
        `{cfg : ResourceConfig} `{eo : EventOps} `{se : !SourceEvents} `{authorizer : GRPCAuthorizer}.

(** ** Translation of events *)

Definition decodeResourceSpec (evt : CE) : result Resource string :=
  match ToString (ceExtensions evt ExtensionClusterName) with
  | Err err => Err (Sprintf "failed to get clustername extension: %v" [GStr err])
  | Ok clusterName =>
  match ToString (ceExtensions evt ExtensionResourceID) with
  | Err err => Err (Sprintf "failed to get resourceid extension: %v" [GStr err])
  | Ok resourceID =>
  match ToInteger (ceExtensions evt ExtensionResourceVersion) with
  | Err err => Err (Sprintf "failed to get resourceversion extension: %v" [GStr err])
  | Ok resourceVersion =>
  match (match ceExtensions evt ExtensionDeletionTimestamp with
         | None => Ok NullTime_zero
         | Some v => match ToTime v with
                     | Err err => Err (Sprintf "failed to convert deletion timestamp %v to time.Time: %v"
                                         [GStr (ext_show v); GStr err])
                     | Ok deletionTimestamp => Ok (mkNullTime deletionTimestamp false)
                     end
         end) with
  | Err err => Err err
  | Ok deletedAt =>
  match CloudEventToJSONMap evt with
  | Err err => Err (Sprintf "failed to convert cloudevent to resource payload: %v" [GStr err])
  | Ok payload =>
      Ok (mkResource (mkMeta resourceID 0 0 deletedAt) resourceVersion (ceSource evt) clusterName "" payload None "")
  end end end end end.

Definition encodeResourceStatus (resource : Resource) : result CE string :=
  match JSONMAPToCloudEvent resource.(Status) with
  | Err err => Err err
  | Ok statusEvt =>
  match DataAsManifestBundleStatus statusEvt with
  | Err err => Err err
  | Ok manifestBundleStatus =>
      if (0 <? jlen resource.(Payload))%nat then
        match JSONMAPToCloudEvent resource.(Payload) with
        | Err err => Err err
        | Ok specEvt =>
            match DataAsManifestBundle specEvt with
            | Err err => Err err
            | Ok _ => SetStatusData manifestBundleStatus (Some specEvt) statusEvt
            end
        end
      else SetStatusData manifestBundleStatus None statusEvt
  end end.

(** ** Status resync *)

Fixpoint findStatusHash (id : string) (hashes : list (string * string)) : string * bool :=
  match hashes with
  | [] => ("", false)
  | (resourceID, statusHash) :: hashes =>
      if decide (id = resourceID) then (statusHash, true) else findStatusHash id hashes
  end.

(** The body of the loop over the stored resources. *)
Definition resync_one (hashes : list (string * string)) (obj : Resource) : M World unit :=
  let '(lastHash, ok) := findStatusHash (GetUID obj) hashes in
  if negb ok then ret tt
  else match SourceClientImpl.ResourceStatusHashGetter obj with
       | Err _ => ret tt
       | Ok currentHash =>
           if decide (currentHash = lastHash) then ret tt else EventBroadcaster.Broadcast obj
       end.

Definition respondResyncStatusRequest (evt : CE) : M World (option string) :=
  let! r := ResourceService.FindBySource (ceSource evt) in
  match r with
  | Err serviceErr => ret (Some (Sprintf "failed to list resources: %s" [GStr (Error serviceErr)]))
  | Ok objs =>
      match DecodeStatusResyncRequest evt with
      | Err err => ret (Some (Sprintf "failed to decode status resync request: %v" [GStr err]))
      | Ok statusHashes =>
          if (length statusHashes =? 0)%nat then for_each EventBroadcaster.Broadcast objs >> ret None
          else for_each (resync_one statusHashes) objs >> ret None
      end
  end.

(** ** Publish *)

Definition set_Version (v : Z) (r : Resource) : Resource := set_VersionPayload v r.(Payload) r.

(** The switch on the action of a spec request. *)
Definition handle_spec (action : string) (res : Resource) : M World rpc :=
  if decide (action = GRPCBroker.CreateRequestAction) then
    let! r := ResourceService.Create res in
    ret (match r with
         | Err err => failed (Sprintf "failed to create resource: %v" [GStr (Error err)])
         | Ok _ => succeeded
         end)
  else if decide (action = GRPCBroker.UpdateRequestAction) then
    let! r := ResourceService.Get res.(ID) in
    match r with
    | Err err => ret (failed (Sprintf "failed to get resource: %v" [GStr (Error err)]))
    | Ok found =>
        let res := if decide (res.(Version) = 0) then set_Version found.(Version) res else res in
        let! u := ResourceService.Update res in
        ret (match u with
             | Err err => failed (Sprintf "failed to update resource: %v" [GStr (Error err)])
             | Ok _ => succeeded
             end)
    end
  else if decide (action = GRPCBroker.DeleteRequestAction) then
    let! r := ResourceService.MarkAsDeleting res.(ID) in
    ret (match r with
         | Some err => failed (Sprintf "failed to delete resource: %v" [GStr (Error err)])
         | None => succeeded
         end)
  else ret (failed (Sprintf "unsupported action %s" [GStr action])).

(** Publish once the caller may do so. *)
Definition publish_allowed (evt : CE) : M World rpc :=
  match ParseCloudEventsType (ceType evt) with
  | Err err => ret (failed (Sprintf "failed to parse cloud event type %s, %v" [GStr (ceType evt); GStr err]))
  | Ok eventType =>
      if decide (eventType.(Action) = ResyncRequestAction) then
        let! err := respondResyncStatusRequest evt in
        ret (match err with
             | Some err => failed (Sprintf "failed to respond resync status request: %v" [GStr err])
             | None => succeeded
             end)
      else
        match decodeResourceSpec evt with
        | Err err => ret (failed (Sprintf "failed to decode cloudevent: %v" [GStr err]))
        | Ok res => handle_spec eventType.(Action) res
        end
  end.

(** The check at the top of Publish and of Subscribe; the type assertions on the context
    values panic when the identity is missing. *)
Definition authorize (action source unauthorized : string) (ctx : Context) (allowed : M World rpc) : M World rpc :=
  match ctx.(identity) with
  | None => ret Panics
  | Some (user, groups) =>
      let! r := AccessReview action "source" source user groups in
      match r with
      | Err err => ret (failed (Sprintf "failed to authorize the request: %v" [GStr err]))
      | Ok false => ret (failed (Sprintf unauthorized [GStr source]))
      | Ok true => allowed
      end
  end.

Definition Publish (svr : GRPCServer) (ctx : Context) (pubReq : PBEvent) : M World rpc :=
  match ToEvent pubReq with
  | Err err => ret (failed (Sprintf "failed to convert protobuf to cloudevent: %v" [GStr err]))
  | Ok evt =>
      if svr.(disableAuthorizer) then publish_allowed evt
      else authorize "pub" (ceSource evt) "unauthorized to publish the event from source %s" ctx (publish_allowed evt)
  end.

(** A call as the gRPC server runs it: through the interceptor when there is one. *)
Definition serve_Publish (svr : GRPCServer) (ctx : Context) (pubReq : PBEvent) : M World rpc :=
  match svr.(authInterceptor) with
  | Some authNType => newAuthUnaryInterceptor authNType ctx (fun ctx => Publish svr ctx pubReq)
  | None => Publish svr ctx pubReq
  end.

(** ** Subscribe *)

(** Up to the registration: the call ends early, or the stream is registered under the
    generated client id and [open] takes over. [headerErr] is what SendHeader returns;
    its %w prints as %v. *)
Definition Subscribe (svr : GRPCServer) (ctx : Context) (source : string) (headerErr : option string)
  (open : string -> M World rpc) : M World rpc :=
  let start_ :=
    let! clientID := new_id in
    match headerErr with
    | Some err => ret (failed (Sprintf "failed to send subscription header for subID %s: %v" [GStr clientID; GStr err]))
    | None => open clientID
    end in
  if svr.(disableAuthorizer) then start_
  else authorize "sub" source "unauthorized to subscribe the event from source %s" ctx start_.

(** The handler registered for the stream: what it puts on the channel. *)
Definition subscription_event (res : Resource) : result PBEvent string :=
  match encodeResourceStatus res with
  | Err err => Err (Sprintf "failed to encode cloudevent: %v" [GStr err])
  | Ok evt =>
      match WritePBMessage evt with
      | Err err => Err (Sprintf "failed to convert cloudevent to protobuf: %v" [GStr err])
      | Ok pbEvt => Ok pbEvt
      end
  end.

End GRPCServer.

(** ** An open subscription

    The goroutine that sends, the heartbeat ticker, the handler the broadcaster calls and
    the final select of Subscribe share the context and three channels. Each transition is
    one of them making progress; a select whose several cases are ready may take any. *)

Module Subscription.
Section Machine.
Context {PB : Type}.
Variable heartbeatDisable : bool.
(** What the registered handler makes of a resource, [subscription_event]. *)
Variable encode : Resource -> result PB string.

Definition eventChSize : nat := 100.
Definition heartbeatChSize : nat := 10.

Inductive Frame := Beat (pb : PB) | Event (pb : PB).
Definition event_of (f : Frame) : option PB := match f with Event pb => Some pb | Beat _ => None end.

(** The sending goroutine: in its loop; after cancel(), before it pushes the error; gone. *)
Inductive Sender := Looping | Failing (err : string) | Stopped.

Record State := mkState {
  registered : bool;              (** with the broadcaster *)
  ctxDone : bool;
  eventCh : list PB;
  heartbeatCh : list PB;
  sendErrCh : option string;
  sender : Sender;
  ticking : bool;
  stream : list Frame;            (** what Send has sent, in order *)
  accepted : list PB;             (** what the handler has put on eventCh, in order *)
  returned : option (option string);   (** the result of Subscribe *)
}.

(** After Register. *)
Definition opened : State :=
  mkState true false [] [] None Looping (negb heartbeatDisable) [] [] None.

(** [case sendErrCh <- err: default:] on a channel of size one *)
Definition push_err (err : string) (ch : option string) : option string :=
  match ch with None => Some err | Some e => Some e end.

Inductive step : State -> State -> Prop :=
| Handle d es hs se sd tk st ac rt res pb :
    encode res = Ok pb -> (length es < eventChSize)%nat ->
    step (mkState true d es hs se sd tk st ac rt) (mkState true d (es ++ [pb]) hs se sd tk st (ac ++ [pb]) rt)
| HandleFails s res err :
    s.(registered) = true -> encode res = Err err -> step s s
| HandleDropped s :
    s.(registered) = true -> s.(ctxDone) = true -> step s s
| Tick r d es hs se sd st ac rt pb :
    step (mkState r d es hs se sd true st ac rt)
         (mkState r d es (if (length hs <? heartbeatChSize)%nat then hs ++ [pb] else hs) se sd true st ac rt)
| TickerStops r es hs se sd tk st ac rt :
    step (mkState r true es hs se sd tk st ac rt) (mkState r true es hs se sd false st ac rt)
| SendBeat r d es h hs se tk st ac rt :
    step (mkState r d es (h :: hs) se Looping tk st ac rt) (mkState r d es hs se Looping tk (st ++ [Beat h]) ac rt)
| SendBeatFails r d es h hs se tk st ac rt err :
    step (mkState r d es (h :: hs) se Looping tk st ac rt) (mkState r true es hs se (Failing err) tk st ac rt)
| SendEvent r d e es hs se tk st ac rt :
    step (mkState r d (e :: es) hs se Looping tk st ac rt) (mkState r d es hs se Looping tk (st ++ [Event e]) ac rt)
| SendEventFails r d e es hs se tk st ac rt err :
    step (mkState r d (e :: es) hs se Looping tk st ac rt) (mkState r true es hs se (Failing err) tk st ac rt)
| PushErr r d es hs se tk st ac rt err :
    step (mkState r d es hs se (Failing err) tk st ac rt) (mkState r d es hs (push_err err se) Stopped tk st ac rt)
| SenderStops r es hs se tk st ac rt :
    step (mkState r true es hs se Looping tk st ac rt) (mkState r true es hs se Stopped tk st ac rt)
| ClientGone r d es hs se sd tk st ac rt :
    step (mkState r d es hs se sd tk st ac rt) (mkState r true es hs se sd tk st ac rt)
| ReturnErr r d es hs err sd tk st ac :
    step (mkState r d es hs (Some err) sd tk st ac None)
         (mkState false true es hs None sd tk st ac (Some (Some err)))
| ReturnDone r es hs se sd tk st ac :
    step (mkState r true es hs se sd tk st ac None) (mkState false true es hs se sd tk st ac (Some None)).

Definition reachable : State -> Prop := rtc step opened.

End Machine.
Arguments Frame : clear implicits.
Arguments State : clear implicits.
End Subscription.
