(* ===== verification/GrpcMetrics.v ===== *)
(** * cmd/maestro/server/metrics_interceptor.go: the metrics of the gRPC server

    The unary interceptor runs before the authentication one, around Publish; the stream
    interceptor wraps the stream of Subscribe. What they record are samples of the
    collectors of Collectors.v. status.FromContextError of grpc-go is the class
    [GrpcStatus]. *)

From S2P Require Import Prelude GoLib Sha256 Errors Types Json Bundle Validation Gorm World Collectors Dao DaoFacts Locks Services ServiceFacts Auth SourceClient EventServer GrpcServer.
Import api errors Strings Fmt.

Open Scope Z_scope.

(** codes.Code, as far as a call of this server ends with them *)
Inductive status_code := OK | Canceled | Unknown | DeadlineExceeded | OfCode (c : Auth.Code).
Definition code_String (c : status_code) : string :=
  match c with
  | OK => "OK"
  | Canceled => "Canceled"
  | Unknown => "Unknown"
  | DeadlineExceeded => "DeadlineExceeded"
  | OfCode InvalidArgument => "InvalidArgument"
  | OfCode Auth.Unauthenticated => "Unauthenticated"
  end.

(** "FromContextError converts a context error or wrapped context error into a Status": the
    code for an error that is no status error. *)
Class GrpcStatus := FromContextError : string -> status_code.

(** status.FromError succeeds on nil and on a status error. *)
Definition statusFromError `{GrpcStatus} (err : option grpcError) : status_code :=
  match err with
  | None => OK
  | Some (StatusError code _) => OfCode code
  | Some (PlainError msg) => FromContextError msg
  end.

Section Interceptors.
Context `{env : Env} `{gorm : Gorm} `{lf : LockFactory} `{k8s : K8s} `{sf : Snowflake} `{tf : TimeFormat}
        `{cfg : ResourceConfig} `{eo : EventOps} `{se : !SourceEvents} `{authorizer : GRPCAuthorizer} `{gs : GrpcStatus}.

(** The request as its dynamic type. *)
Inductive grpc_request := PublishRequest (event : PBEvent) | OtherRequest.

Definition newMetricsUnaryInterceptor (FullMethod : string) (req : grpc_request) (handler : M World rpc) :
    M World (rpc * list sample) :=
  let pass := let! resp := handler in ret (resp, []) in
  match Split FullMethod slash with
  | [_; _; t] =>
      if decide (t <> "Publish") then pass
      else
        match req with
        | OtherRequest => ret (failed "invalid request type for Publish method", [])
        | PublishRequest event =>
            match ToEvent event with
            | Err err => ret (failed (Sprintf "failed to convert to cloudevent: %v" [GStr err]), [])
            | Ok evt =>
                let source := ceSource evt in
                let called := [mkSample server.grpcCalledCountMetric [t; source] Inc;
                               mkSample server.grpcMessageReceivedCountMetric [t; source] Inc] in
                let! resp := handler in
                match resp with
                | Panics => ret (Panics, called)
                | Returns err =>
                    let code := statusFromError err in
                    ret (Returns err, called ++
                      [mkSample server.grpcMessageSentCountMetric [t; source] Inc;
                       mkSample server.grpcProcessedCountMetric [t; source; code_String code] Inc;
                       mkSample server.grpcProcessedDurationMetric [t; source] Observe])
                end
            end
        end
  | _ => pass
  end.

(** A call of Publish as the server runs it: ChainUnaryInterceptor puts the metrics first. *)
Definition metered_Publish (FullMethod : string) (svr : GRPCServer) (ctx : Context) (pubReq : PBEvent) :
    M World (rpc * list sample) :=
  newMetricsUnaryInterceptor FullMethod (PublishRequest pubReq) (serve_Publish svr ctx pubReq).

(** ** wrappedMetricsStream *)

(** A call a stream handler makes on its stream, with what the stream below it returns:
    RecvMsg into a SubscriptionRequest that then has the given source, or into another
    message ([None]); SendMsg. *)
Inductive stream_call := RecvMsg (m : option string) (err : option string) | SendMsg (err : option string).

(** *w.source and the samples so far *)
Record wrappedMetricsStream := mkWrapped { source : string; samples : list sample }.

(** What the wrapper returns to the handler, and its new state. *)
Definition wrapped_call (t : string) (w : wrappedMetricsStream) (c : stream_call) : option string * wrappedMetricsStream :=
  match c with
  | RecvMsg None _ => (Some "invalid request type for Subscribe method", w)
  | RecvMsg (Some src) err =>
      (err, mkWrapped src (w.(samples) ++
        [mkSample server.grpcCalledCountMetric [t; src] Inc; mkSample server.grpcMessageReceivedCountMetric [t; src] Inc]))
  | SendMsg err => (err, mkWrapped w.(source) (w.(samples) ++ [mkSample server.grpcMessageSentCountMetric [t; w.(source)] Inc]))
  end.
Definition newWrappedMetricsStream : wrappedMetricsStream := mkWrapped "" [].
Definition wrapped_calls (t : string) (calls : list stream_call) : wrappedMetricsStream :=
  foldl (fun w c => (wrapped_call t w c).2) newWrappedMetricsStream calls.

(** The handler's run: the calls it made on its stream and how it ended. *)
Definition newMetricsStreamInterceptor (IsServerStream IsClientStream : bool) (FullMethod : string)
  (handler : M World (list stream_call * rpc)) : M World (rpc * list sample) :=
  if negb IsServerStream || IsClientStream then
    ret (failed (Sprintf "invalid stream type for stream method: %s" [GStr FullMethod]), [])
  else
    let pass := let! r := handler in ret (r.2, []) in
    match Split FullMethod slash with
    | [_; _; t] =>
        if decide (t <> "Subscribe") then pass
        else
          let! r := handler in
          let w := wrapped_calls t r.1 in
          match r.2 with
          | Panics => ret (Panics, w.(samples))
          | Returns err =>
              let code := statusFromError err in
              ret (Returns err, w.(samples) ++ [mkSample server.grpcProcessedCountMetric [t; w.(source); code_String code] Inc])
          end
    | _ => pass
    end.

(** ** Facts *)

(** The full name of a method of a service. *)
Definition full_method (service name : string) : string := "/" +:+ service +:+ "/" +:+ name.
Lemma Split_full_method service name :
  ~ In slash (String.list_ascii_of_string service) -> ~ In slash (String.list_ascii_of_string name) ->
  Split (full_method service name) slash = [""; service; name].
Proof.
  intros Hs Hn. unfold full_method.
  change ("/" +:+ service +:+ "/" +:+ name) with ("" +:+ String slash (service +:+ String slash name)).
  by rewrite Split_app, Split_app, Split_none by first [done|by intros []].
Qed.

(** C30: Publish through the metrics interceptor. An event that does not convert is refused there: nothing runs
    behind the interceptor, so nothing is authenticated, stored or counted. For any other event the interceptor is
    transparent (the caller gets what the server behind it answers, and the database is left as that leaves it), and
    each call that ends is counted once as called, received, sent and processed and timed once, under the method's
    name, the source the event names, and, for processed, the code of the answer; of a call that panics only the
    first two are recorded. The samples have the labels their collectors declare, so that recording them cannot
    panic. *)
Theorem metered_Publish_spec service svr ctx pubReq w :
  ~ In slash (String.list_ascii_of_string service) ->
  let '((resp, recorded), w') := metered_Publish (full_method service "Publish") svr ctx pubReq w in
  forallb accepted recorded = true /\
  match ToEvent pubReq with
  | Err err => resp = failed (Sprintf "failed to convert to cloudevent: %v" [GStr err]) /\ recorded = [] /\ w' = w
  | Ok evt =>
      (resp, w') = serve_Publish svr ctx pubReq w /\
      let labels := ["Publish"; ceSource evt] in
      recorded = [mkSample server.grpcCalledCountMetric labels Inc; mkSample server.grpcMessageReceivedCountMetric labels Inc] ++
        match resp with
        | Panics => []
        | Returns err =>
            [mkSample server.grpcMessageSentCountMetric labels Inc;
             mkSample server.grpcProcessedCountMetric (labels ++ [code_String (statusFromError err)]) Inc;
             mkSample server.grpcProcessedDurationMetric labels Observe]
        end
  end.
Proof.
  intros Hs. unfold metered_Publish, newMetricsUnaryInterceptor. rewrite Split_full_method; [|done|vm_compute; intuition discriminate].
  rewrite decide_False by tauto. destruct (ToEvent pubReq) as [evt|err]; [|done].
  unfold bind, ret. destruct (serve_Publish svr ctx pubReq w) as [[err|] w']; done.
Qed.

(** A subscription through the stream interceptor. The generated handler receives the request and then sends: the
    request is counted once as called and received, every message handed to the stream once as sent (whether or not
    the stream took it), all under the source of the request, and the end of the call once as processed, with the
    code of what the handler returned. The handler's outcome and effects are untouched, and a stream that is not a
    server stream is refused without running the handler. *)
Theorem metered_Subscribe_spec service handler w src err errs resp w' :
  ~ In slash (String.list_ascii_of_string service) ->
  handler w = ((RecvMsg (Some src) err :: (SendMsg <$> errs), resp), w') ->
  (forall server client, server = false \/ client = true ->
     newMetricsStreamInterceptor server client (full_method service "Subscribe") handler w =
       ((failed (Sprintf "invalid stream type for stream method: %s" [GStr (full_method service "Subscribe")]), []), w)) /\
  let labels := ["Subscribe"; src] in
  newMetricsStreamInterceptor true false (full_method service "Subscribe") handler w =
    ((resp, [mkSample server.grpcCalledCountMetric labels Inc; mkSample server.grpcMessageReceivedCountMetric labels Inc] ++
            replicate (length errs) (mkSample server.grpcMessageSentCountMetric labels Inc) ++
            match resp with
            | Panics => []
            | Returns err => [mkSample server.grpcProcessedCountMetric (labels ++ [code_String (statusFromError err)]) Inc]
            end), w').
Proof.
  intros Hs Hrun. split; [intros [] [] [?|?]; done|].
  unfold newMetricsStreamInterceptor. cbn [negb orb].
  rewrite Split_full_method; [|done|vm_compute; intuition discriminate]. rewrite decide_False by tauto.
  unfold bind. rewrite Hrun. cbn [fst snd].
  assert (Hsent : forall l, foldl (fun w c => (wrapped_call "Subscribe" w c).2) (mkWrapped src l) (SendMsg <$> errs) =
    mkWrapped src (l ++ replicate (length errs) (mkSample server.grpcMessageSentCountMetric ["Subscribe"; src] Inc))).
  { clear. induction errs as [|e errs IH]; intros l; [by rewrite app_nil_r|]. cbn. etrans; [apply IH|]. by rewrite <-app_assoc. }
  unfold wrapped_calls. cbn [foldl wrapped_call snd newWrappedMetricsStream samples app]. rewrite Hsent.
  cbn [samples source]. by destruct resp as [e|]; unfold ret; rewrite ?app_nil_r, <-?app_assoc.
Qed.

End Interceptors.
