(* ===== verification/GrpcServerFacts.v ===== *)
(** * What the source-facing gRPC service guarantees

    Nothing is published without the access review of the source having allowed it, and no
    call panics; an update without a version takes the stored one; a status resync
    broadcasts exactly the resources whose status the source does not have; an open
    subscription delivers in order and always unregisters. *)

From S2P Require Import Prelude GoLib Sha256 Errors Types Json Bundle Validation Gorm World Dao DaoFacts Locks Services ServiceFacts Auth SourceClient SourceClientFacts EventServer GrpcServer.
Import api errors Fmt.

Open Scope Z_scope.

(** ** Access *)

Lemma identify_frame `{al : GRPCAuthorizerLaws} unsupported authNType ctx : always keeps_data (identify unsupported authNType ctx).
Proof.
  unfold identify, identityFromToken. repeat case_decide; try by intros w.
  destruct (metadata ctx) as [md|]; [|by intros w]. destruct (md !! _) as [[|a rest]|]; [by intros w| |by intros w].
  apply always_bind; [typeclasses eauto|apply TokenReview_frame|]. by intros r w.
Qed.

Section Access.
Context `{env : Env} `{gorm : Gorm} `{lf : LockFactory} `{k8s : K8s} `{sf : Snowflake} `{tf : TimeFormat}
        `{cfg : ResourceConfig} `{eo : EventOps} `{se : !SourceEvents} `{kube : KubeClient} `{tls : TLSFiles}.

(** The caller is authenticated by the type the server is configured with. *)
Definition authenticated (authNType : string) (ctx : Context) (user : string) (groups : list string) : Prop :=
  (authNType = "token" /\ exists md authorization rest n, ctx.(metadata) = Some md /\
     md !! "authorization" = Some (authorization :: rest) /\
     TokenReviews_Create n (Strings.TrimPrefix authorization "Bearer ") = Ok (Some (user, groups))) \/
  (authNType = "mtls" /\ exists cert chain chains, ctx.(peer) = Some (TLSInfo ((Some cert :: chain) :: chains)) /\
     user = cert.(CommonName) /\ groups = cert.(Organization) /\ user <> "" /\ groups <> []) \/
  (authNType = "mock" /\ user = "mock" /\ groups = ["mock-group"]).

Lemma identify_authenticated unsupported authNType ctx w user groups w' :
  identify unsupported authNType ctx w = (Ok (user, groups), w') ->
  authenticated authNType ctx user groups /\ keeps_data w w'.
Proof.
  unfold identify, authenticated. case_decide as Ht; [|case_decide as Hm; [|case_decide as Hk]].
  - unfold identityFromToken. destruct (metadata ctx) as [md|]; [|done].
    destruct (md !! _) as [[|a rest]|] eqn:Ha; [done| |done]. cbv zeta. rewrite bind_run.
    cbn [TokenReview kube_authorizer KubeGRPCAuthorizer.NewKubeGRPCAuthorizer]. unfold KubeGRPCAuthorizer.TokenReview.
    cbn [step bind ret]. destruct (TokenReviews_Create _ _) as [[[u g]|]|] eqn:Hr; try done. intros [= -> -> <-].
    split; [|done]. left. split; [done|]. by eexists md, a, rest, _.
  - intros [= Hi <-]. split; [|done]. right. left. split; [done|]. unfold identityFromCertificate in Hi.
    destruct (peer ctx) as [[[|[|[cert|] chain] chains]|]|]; try done.
    case_decide; [done|]. case_decide as Hl; [done|]. injection Hi as <- <-.
    exists cert, chain, chains. split_and!; [done..|]. intros Hn. by rewrite Hn in Hl.
  - intros [= <- <- <-]. split; [|done]. by right; right.
  - done.
Qed.

Lemma handle_spec_returns action res w : (handle_spec action res w).1 <> Panics.
Proof.
  unfold handle_spec. case_decide; [|case_decide; [|case_decide]].
  - rewrite bind_run. destruct (ResourceService.Create _ _) as [[] ?]; done.
  - rewrite bind_run. destruct (ResourceService.Get _ _) as [[found|] ?]; [|done].
    cbv zeta. rewrite bind_run. destruct (ResourceService.Update _ _) as [[] ?]; done.
  - rewrite bind_run. destruct (ResourceService.MarkAsDeleting _ _) as [[] ?]; done.
  - done.
Qed.

Lemma publish_allowed_returns evt w : (publish_allowed evt w).1 <> Panics.
Proof.
  unfold publish_allowed. destruct (ParseCloudEventsType _) as [t|]; [|done]. case_decide.
  - rewrite bind_run. destruct (respondResyncStatusRequest _ _) as [[] ?]; done.
  - destruct (decodeResourceSpec _) as [res|]; [|done]. apply handle_spec_returns.
Qed.

(** A TLS server has the interceptor and the authorizer, any other has neither. *)
Lemma NewGRPCServer_guarded config svr :
  NewGRPCServer config = Ok svr ->
  if svr.(disableAuthorizer) then config.(TLSCertFile) = "" /\ config.(TLSKeyFile) = "" /\ svr.(authInterceptor) = None
  else svr.(authInterceptor) = Some config.(GRPCAuthNType) /\
       (config.(GRPCAuthNType) = "mtls" -> svr.(clientCertRequired) = true).
Proof.
  unfold NewGRPCServer. cbv zeta. case_bool_decide as Hd.
  { intros [= <-]. simpl. tauto. }
  case_decide; [done|]. destruct (LoadX509KeyPair _ _); [|done]. case_decide as Hm.
  - case_decide; [done|]. destruct SystemCertPool; [|done]. destruct (ReadFile _); [|done].
    destruct (AppendCertsFromPEM _); [|done]. intros [= <-]. done.
  - intros [= <-]. simpl. done.
Qed.

(** C10: no call to Publish panics, and on a server with TLS a call changes the database,
    announces an event or broadcasts a resource only if the caller was authenticated (by
    token, by verified client certificate, or by the mock type when that is what is
    configured) and the access review for publishing to the path of the event's source
    was allowed for exactly that user and those groups. *)
Theorem serve_Publish_guarded config svr ctx pubReq w :
  NewGRPCServer config = Ok svr ->
  (serve_Publish svr ctx pubReq w).1 <> Panics /\
  (config.(TLSCertFile) <> "" -> ~ keeps_data w (serve_Publish svr ctx pubReq w).2 ->
   exists evt user groups n, ToEvent pubReq = Ok evt /\
     authenticated config.(GRPCAuthNType) ctx user groups /\
     SubjectAccessReviews_Create n
       (mkSubjectAccessReviewSpec ("/sources/" +:+ ceSource evt) "pub" user groups) = Ok true).
Proof.
  intros Hs%NewGRPCServer_guarded. unfold serve_Publish, Publish. destruct (disableAuthorizer svr).
  { destruct Hs as (Hc & _ & ->). split; [|by intros Hn; rewrite Hc in Hn].
    destruct (ToEvent pubReq) as [evt|]; [apply publish_allowed_returns|done]. }
  destruct Hs as [-> _]. unfold newAuthUnaryInterceptor, intercept. rewrite bind_run.
  pose proof (identify_frame "unsupported authentication type %s" config.(GRPCAuthNType) ctx w) as Hfr.
  destruct (identify _ _ ctx w) as [[[user groups]|e] w1] eqn:Hi; [|done].
  apply identify_authenticated in Hi as [Ha Hk]. destruct (ToEvent pubReq) as [evt|]; [|done].
  unfold authorize. cbn [newContextWithIdentity identity]. rewrite bind_run.
  pose proof (AccessReview_frame "pub" "source" (ceSource evt) user groups w1) as Hfa.
  pose proof (AccessReview_allowed "pub" (ceSource evt) user groups w1) as Hallow.
  destruct (AccessReview _ _ _ _ _ w1) as [[[]|e] w2]; simpl in Hfa, Hallow.
  - split; [apply publish_allowed_returns|]. intros _ _. destruct (Hallow eq_refl) as (_ & _ & _ & Hsar).
    by exists evt, user, groups, w1.(tick).
  - split; [done|]. intros _ Hn. exfalso. apply Hn. simpl. by etrans.
  - split; [done|]. intros _ Hn. exfalso. apply Hn. simpl. by etrans.
Qed.
End Access.

(** ** Spec requests *)

Section Requests.
Context `{env : Env} `{el : !EnvLaws} `{gl : GormLaws} `{ll : LockFactoryLaws} `{k8s : K8s} `{sf : Snowflake}
        `{tf : TimeFormat} `{cfg : ResourceConfig} `{eo : EventOps} `{se : !SourceEvents} `{al : GRPCAuthorizerLaws}.

Lemma served_Version (r : Resource) : (served r).(Version) = r.(Version).
Proof.
  unfold served, ResourceService.syncTimestampsFromResourceMeta.
  by destruct (jget _ _) as [[]|].
Qed.

(** An update request without a version is made against the stored version, so it is
    never refused as stale: it is refused only for a resource under deletion or an invalid
    bundle, and otherwise rewrites the row with the next version and records the event. *)
Theorem update_without_version res row w :
  wf_tables w -> fault w.(tick) = None -> res.(Version) = 0 -> w.(tables).(resources) !! res.(ID) = Some row ->
  let found : Resource := load scanNull row in
  let req := set_Version row.(Version) res in
  Update_decision w.(tables) req =
    (if negb (IsZero row.(DeletedAt).(NTime)) then
       Refuse (Conflict "the resource is under deletion, id: %s" [GStr res.(ID)])
     else if decide (res.(Payload) = found.(Payload)) then Keep found
     else match ValidateManifestBundle res.(Payload) with
          | Some err => Refuse (Validation "the new manifest bundle in the resource is invalid, %v" [GStr err])
          | None => Change (set_VersionPayload (Int.int32 (row.(Version) + 1)) res.(Payload) found)
          end) /\
  exists r, update_done req (bump w) r (handle_spec "update_request" res w).2 /\
    ((handle_spec "update_request" res w).1 = succeeded <-> is_ok r = true).
Proof.
  intros Hw Hf Hv Hrow. cbv zeta. split.
  - unfold Update_decision. cbn [set_Version set_VersionPayload r_Meta Version Payload]. rewrite Hrow. cbv zeta.
    change (Version (load scanNull row)) with row.(Version).
    change (DeletedAt (load scanNull row)) with row.(DeletedAt).
    destruct (negb _); [done|]. by rewrite decide_False by tauto.
  - unfold handle_spec. rewrite decide_False by done. rewrite decide_True by done.
    rewrite bind_run, ResourceService_Get_run, Hf, Hrow by done. cbv zeta.
    rewrite decide_True by done. rewrite served_Version, bind_run.
    pose proof (Update_done (set_Version row.(Version) res) (bump w) Hw) as Hu.
    destruct (ResourceService.Update _ _) as [r w']. exists r. split; [exact Hu|]. by destruct r.
Qed.

(** Who owns a resource plays no part in a delete request. A caller who may publish
    for the source of the event soft-deletes the resource the event names, although the
    resource was created by another source; success is reported only once row, event and
    notification are there. *)
Theorem delete_ignores_owner svr ctx pubReq evt eventType res row user groups w :
  wf_tables w ->
  svr.(disableAuthorizer) = false -> ctx.(identity) = Some (user, groups) -> ToEvent pubReq = Ok evt ->
  (AccessReview "pub" "source" (ceSource evt) user groups w).1 = Ok true ->
  ParseCloudEventsType (ceType evt) = Ok eventType -> eventType.(Action) = "delete_request" ->
  decodeResourceSpec evt = Ok res -> res.(ID) <> "" ->
  w.(tables).(resources) !! res.(ID) = Some row -> row.(r_Source) <> ceSource evt -> row.(DeletedAt).(Valid) = false ->
  exists now ok, wrote w (soft_delete_resource now res.(ID) w.(tables)) res.(ID) DeleteEventType
                   (Publish svr ctx pubReq w).2 ok /\
    ((Publish svr ctx pubReq w).1 = succeeded <-> ok = true).
Proof.
  intros Hw Hd Hi He Ha Ht Hact Hres Hid Hrow _ Hv. unfold Publish. rewrite He, Hd. unfold authorize. rewrite Hi, bind_run.
  pose proof (AccessReview_frame "pub" "source" (ceSource evt) user groups w) as [Hs _].
  destruct (AccessReview _ _ _ _ _ w) as [r w1]. simpl in Ha, Hs. subst r.
  unfold publish_allowed. rewrite Ht, Hact. rewrite decide_False by done. rewrite Hres.
  unfold handle_spec. do 2 rewrite decide_False by done. rewrite decide_True by done. rewrite bind_run.
  assert (wf_tables w1) as Hw1 by (unfold wf_tables; by rewrite (proj1 Hs)).
  pose proof (MarkAsDeleting_done res.(ID) w1 Hw1 Hid) as Hm. unfold deleting_done in Hm.
  rewrite (proj1 Hs), Hrow, Hv in Hm. destruct Hm as [now Hm]. destruct (ResourceService.MarkAsDeleting _ _) as [r w'].
  exists now, (bool_decide (r = None)). split; [by eapply wrote_same|]. by destruct r.
Qed.

(** ** Status resync *)

(** The hash of a resource's status: that of no bytes for an empty status, the one the agent
    sent with it, or that of the work status in it. *)
Inductive current_hash (r : Resource) : string -> Prop :=
| HashOfNothing : jlen r.(Status) = O -> current_hash r (Sha256.hex (Sha256.Sum256 ""))
| HashSent evt v : jlen r.(Status) <> O -> JSONMAPToCloudEvent r.(Status) = Ok evt ->
    ceExtensions evt ExtensionStatusHash = Some v -> current_hash r (ext_show v)
| HashComputed evt status bytes : jlen r.(Status) <> O -> JSONMAPToCloudEvent r.(Status) = Ok evt ->
    ceExtensions evt ExtensionStatusHash = None -> DataAsManifestBundleStatus evt = Ok status ->
    marshalWorkStatus status = Ok bytes -> current_hash r (Sha256.hex (Sha256.Sum256 bytes)).

Lemma current_hash_iff r h : current_hash r h <-> SourceClientImpl.ResourceStatusHashGetter r = Ok h.
Proof.
  unfold SourceClientImpl.ResourceStatusHashGetter. split.
  - intros [He|evt v Hn Hev Hx|evt status bytes Hn Hev Hx Hs Hb].
    + rewrite (proj2 (Nat.eqb_eq _ _) He). reflexivity.
    + rewrite (proj2 (Nat.eqb_neq _ _) Hn), Hev, Hx. reflexivity.
    + rewrite (proj2 (Nat.eqb_neq _ _) Hn), Hev, Hx, Hs, Hb. reflexivity.
  - assert (forall x : string, Ok x = Ok h :> result string string -> x = h) as Hok by congruence.
    destruct (Nat.eqb_spec (jlen (Status r)) 0) as [He|Hn]; [intros <-%Hok; by apply HashOfNothing|].
    destruct (JSONMAPToCloudEvent (Status r)) as [evt|] eqn:Hev; [|discriminate].
    destruct (ceExtensions evt ExtensionStatusHash) as [v|] eqn:Hx; [intros <-%Hok; by eapply HashSent|].
    destruct (DataAsManifestBundleStatus evt) as [status|] eqn:Hs; [|discriminate].
    destruct (marshalWorkStatus status) as [bytes|] eqn:Hb; [|discriminate]. intros <-%Hok. by eapply HashComputed.
Qed.

(** The hash a request lists for a resource; the first of several counts. *)
Definition listed_hash (hashes : list (string * string)) (id known : string) : Prop :=
  exists before after, hashes = before ++ (id, known) :: after /\ id ∉ before.*1.

Lemma listed_hash_iff hashes id known : listed_hash hashes id known <-> findStatusHash id hashes = (known, true).
Proof.
  induction hashes as [|[i h] hashes IH]; cbn [findStatusHash].
  { split; [|done]. intros ([|] & ? & ? & _); done. }
  case_decide as Hi; [subst i|].
  - split; [|intros [= <-]; exists [], hashes; split; [done|apply not_elem_of_nil]].
    intros ([|b before] & after & He & Hn); injection He as He; [by intros; simplify_eq|]. subst b.
    destruct Hn. left.
  - rewrite <-IH. split.
    + intros ([|b before] & after & He & Hn); injection He; [congruence|]. intros -> <-. exists before, after. split; [done|].
      intros Hin. apply Hn. by right.
    + intros (before & after & -> & Hn). exists ((i, h) :: before), after. split; [done|]. by intros [?|?]%elem_of_cons.
Qed.

(** What the loop broadcasts, as a test. *)
Definition resent (hashes : list (string * string)) (obj : Resource) : bool :=
  match hashes with
  | [] => true
  | _ => match findStatusHash obj.(ID) hashes, SourceClientImpl.ResourceStatusHashGetter obj with
         | (lastHash, true), Ok currentHash => bool_decide (currentHash <> lastHash)
         | _, _ => false
         end
  end.

Lemma resent_iff hashes obj :
  resent hashes obj = true <->
    hashes = [] \/ exists known current, listed_hash hashes obj.(ID) known /\ current_hash obj current /\ current <> known.
Proof.
  setoid_rewrite listed_hash_iff. setoid_rewrite current_hash_iff. unfold resent. destruct hashes as [|h hashes]; [naive_solver|].
  destruct (findStatusHash _ _) as [known []], (SourceClientImpl.ResourceStatusHashGetter obj) as [current|];
    rewrite ?bool_decide_eq_true; naive_solver.
Qed.

Lemma for_each_broadcast (f : Resource -> M World unit) (p : Resource -> bool) objs w :
  (forall obj w, f obj w = if p obj then EventBroadcaster.Broadcast obj w else (tt, w)) ->
  for_each f objs w = (tt, set_broadcasts (rev (List.filter p objs) ++ w.(broadcasts)) w).
Proof.
  intros Hf. revert w. induction objs as [|obj objs IH]; intros w; simpl; [by destruct w|].
  rewrite bind_run, Hf. unfold EventBroadcaster.Broadcast, modify. destruct (p obj); cbn [fst snd];
    rewrite IH; [|done]. simpl. by rewrite <-app_assoc.
Qed.

Lemma NoDup_fmap_filter {A B} (f : A -> B) (p : A -> bool) l : NoDup (f <$> l) -> NoDup (f <$> List.filter p l).
Proof.
  induction l as [|x l IH]; [done|]. cbn. intros [Hx Hl]%NoDup_cons. destruct (p x); [|by apply IH].
  apply NoDup_cons. split; [|by apply IH]. intros (y & Hy & Hin)%list_elem_of_fmap. apply Hx. rewrite Hy.
  apply list_elem_of_fmap_2, list_elem_of_In. apply list_elem_of_In, filter_In in Hin. tauto.
Qed.

(** C32: a status resync request that can be decoded changes no table and broadcasts, once
    each, exactly these resources of the requesting source, those under deletion included:
    all of them when the request has no hashes; otherwise those that the request lists with
    a hash other than that of their current status. A resource the request does not list,
    or whose hash cannot be computed, is not sent. *)
Theorem respondResync_exact evt w :
  wf_tables w -> fault w.(tick) = None ->
  match DecodeStatusResyncRequest evt with
  | Err e => exists msg, respondResyncStatusRequest evt w = (Some msg, bump w)
  | Ok hashes => exists sent,
      respondResyncStatusRequest evt w = (None, set_broadcasts (rev sent ++ w.(broadcasts)) (bump w)) /\
      NoDup ((fun r : Resource => r.(ID)) <$> sent) /\
      forall r, r ∈ sent <->
        (exists k row, w.(tables).(resources) !! k = Some row /\ row.(r_Source) = ceSource evt /\ r = load scanNull row) /\
        (hashes = [] \/ exists known current, listed_hash hashes r.(ID) known /\ current_hash r current /\ current <> known)
  end.
Proof.
  intros Hw Hf.
  destruct (find_resources_run (fun r => bool_decide (r.(r_Source) = ceSource evt)) w Hw Hf) as (objs & Hl & Hnd & Hin).
  unfold respondResyncStatusRequest, ResourceService.FindBySource, ResourceDao.FindBySource, or_error.
  rewrite !bind_run, Hl. cbn [ret map_err]. destruct (DecodeStatusResyncRequest evt) as [hashes|e]; [|by eexists].
  exists (List.filter (resent hashes) objs). split_and!; [|by apply NoDup_fmap_filter|].
  - destruct hashes as [|h hashes]; cbn [length Nat.eqb]; rewrite bind_run.
    + by rewrite (for_each_broadcast _ (resent [])).
    + rewrite (for_each_broadcast _ (resent (h :: hashes))); [done|]. intros obj w0. unfold resync_one, resent, GetUID.
      destruct (findStatusHash _ _) as [lastHash []]; [|done]. destruct (SourceClientImpl.ResourceStatusHashGetter obj); [|done].
      case_decide; case_bool_decide; done.
  - intros r. rewrite <-resent_iff, list_elem_of_In, filter_In, <-list_elem_of_In, Hin. by setoid_rewrite bool_decide_eq_true.
Qed.
End Requests.

(** ** Open subscriptions *)

Section Subscriptions.
Context {PB : Type} (heartbeatDisable : bool) (encode : Resource -> result PB string).
Import Subscription.

(** What the subscriber got, what may have been lost in a failed Send, and what waits are
    together what the broadcaster handed over, in that order. *)
Definition in_order (s : State PB) : Prop :=
  exists lost, s.(accepted) = omap event_of s.(stream) ++ lost ++ s.(eventCh) /\
    (length lost <= 1)%nat /\ (s.(sender) = Looping -> lost = []).

Record subscription_ok (s : State PB) : Prop := {
  ok_events : (length s.(eventCh) <= eventChSize)%nat;
  ok_heartbeats : (length s.(heartbeatCh) <= heartbeatChSize)%nat;
  ok_order : in_order s;
  ok_encoded : Forall (fun pb => exists res, encode res = Ok pb) s.(accepted);
  (** registered exactly as long as Subscribe runs *)
  ok_registered : s.(registered) = true <-> s.(returned) = None;
  (** before Unregister waits for the broadcaster, the context is done, so a handler
      blocked on a full channel is released *)
  ok_released : s.(registered) = false \/ is_Some s.(sendErrCh) \/ (exists err, s.(sender) = Failing err) ->
                s.(ctxDone) = true;
  ok_silent : heartbeatDisable = true -> s.(ticking) = false /\ s.(heartbeatCh) = [] /\
              Forall (fun f => is_Some (event_of f)) s.(stream);
}.

Lemma subscription_opened : subscription_ok (opened heartbeatDisable).
Proof.
  split; simpl; try done; try lia.
  - exists []. split_and!; simpl; [done|lia|done].
  - intros [?|[[? ?]|[? ?]]]; done.
  - by intros ->.
Qed.

Lemma in_order_send (r d : bool) (e : PB) es hs se tk st ac rt :
  in_order (mkState r d (e :: es) hs se Looping tk st ac rt) ->
  in_order (mkState r d es hs se Looping tk (st ++ [Event e]) ac rt) /\
  forall err, in_order (mkState r true es hs se (Failing err) tk st ac rt).
Proof.
  intros (lost & Ha & _ & Hl). simpl in *. rewrite (Hl eq_refl) in Ha. split.
  - exists []. split_and!; [|simpl; lia|done]. simpl. by rewrite omap_app, <-app_assoc.
  - intros err. exists [e]. by split_and!.
Qed.

Lemma in_order_beat (r d : bool) (h : PB) es hs hs' se tk st ac rt :
  in_order (mkState r d es hs' se Looping tk st ac rt) ->
  in_order (mkState r d es hs se Looping tk (st ++ [Beat h]) ac rt) /\
  forall err, in_order (mkState r true es hs se (Failing err) tk st ac rt).
Proof.
  intros (lost & Ha & Hn & Hl). simpl in *. split.
  - exists lost. split_and!; [|done..]. simpl. by rewrite omap_app, app_nil_r.
  - intros err. by exists lost.
Qed.

Lemma in_order_handle (r d : bool) (pb : PB) es hs se sd tk st ac rt :
  in_order (mkState r d es hs se sd tk st ac rt) ->
  in_order (mkState r d (es ++ [pb]) hs se sd tk st (ac ++ [pb]) rt).
Proof. intros (lost & Ha & Hn & Hl). exists lost. split_and!; [|done..]. simpl in *. by rewrite Ha, !app_assoc. Qed.

(** The sender leaves its loop, or its error channel is filled. *)
Lemma in_order_stop (r d d' : bool) (es hs : list PB) se se' sd tk st ac rt :
  in_order (mkState r d es hs se sd tk st ac rt) -> in_order (mkState r d' es hs se' Stopped tk st ac rt).
Proof. intros (lost & Ha & Hn & _). by exists lost. Qed.

Lemma subscription_step s s' : step encode s s' -> subscription_ok s -> subscription_ok s'.
Proof.
  intros Hst [He Hh Ho Hc Hr Hd Hs]. destruct Hst; simpl in *; split; simpl in *; try done; try lia; try tauto;
    try (intros; tauto).
  - rewrite length_app. simpl. lia.
  - by apply in_order_handle.
  - apply Forall_app. split; [done|]. by repeat econstructor.
  - destruct (Nat.ltb_spec (length hs) heartbeatChSize); [|done]. rewrite length_app. simpl. lia.
  - intros Hb. by destruct (Hs Hb).
  - by eapply in_order_beat.
  - intros Hb. by destruct (Hs Hb) as (_ & ? & _).
  - by eapply in_order_beat.
  - intros Hb. by destruct (Hs Hb) as (_ & ? & _).
  - by eapply in_order_send.
  - intros Hb. destruct (Hs Hb) as (? & ? & ?). split_and!; [done..|]. apply Forall_app. split; [done|]. by repeat econstructor.
  - by eapply in_order_send.
  - by eapply in_order_stop.
  - intros _. apply Hd. eauto.
  - by eapply in_order_stop.
Qed.

Lemma reachable_ok s : reachable heartbeatDisable encode s -> subscription_ok s.
Proof.
  unfold reachable. revert s. apply (rtc_ind_r (R := step encode) subscription_ok (opened heartbeatDisable)).
  - apply subscription_opened.
  - intros s1 s2 _ Hst Hok. by eapply subscription_step.
Qed.

(** C33: in every state an open subscription can reach, the subscriber has received, in
    order and without gap or duplicate, what the broadcaster handed over, up to what still
    waits and at most one event lost in a failed send; the channels stay within their
    sizes; the client is registered exactly until Subscribe returns, and by then the
    context is done, so no handler stays blocked on the channel. *)
Theorem subscription_delivers_in_order s :
  reachable heartbeatDisable encode s -> subscription_ok s.
Proof. apply reachable_ok. Qed.

(** The error of a failed send may be lost. The sender cancels the context before it
    offers the error, so from any reachable state in which an event waits to be sent,
    Subscribe may return nil although the send failed. *)
Theorem subscription_send_error_lost s err :
  reachable heartbeatDisable encode s ->
  s.(sender) = Looping -> s.(returned) = None -> s.(eventCh) <> [] ->
  exists s', reachable heartbeatDisable encode s' /\ s'.(sender) = Failing err /\ s'.(returned) = Some None.
Proof.
  intros Hr Hl Hn He. destruct s as [r d es hs se sd tk st ac rt]; simpl in *. subst sd rt.
  destruct es as [|e es]; [done|].
  exists (mkState false true es hs se (Failing err) tk st ac (Some None)). split_and!; [|done..].
  eapply rtc_r; [eapply rtc_r; [exact Hr|by eapply SendEventFails]|by eapply ReturnDone].
Qed.
End Subscriptions.
