(* ===== verification/ListQuery.v ===== *)
(** * pkg/services/types.go and pkg/db/sql_helpers.go: list arguments

    The query parameters of a list request with their defaults and bounds, and the
    check of the order and search fields before they become SQL. The search tree is
    tsl.Node of tree-search-language, whose fields are untyped: an operand is whatever
    the tree holds there, and a failed type assertion is a panic. *)

From S2P Require Import Prelude GoLib Errors.
Import errors Fmt Strings.

Open Scope Z_scope.

(** ** types.go *)

Record ListArguments := mkListArguments {
  Page : Z;
  Size : Z;
  Preloads : list string;
  Search : string;
  OrderBy : list string;
  Fields : list string;
}.

Definition MAX_LIST_SIZE : Z := 65500.

(** The loop over the comma-separated fields: (Fields, idNotPresent). *)
Fixpoint collect_fields (fields : list string) (acc : list string) (idNotPresent : bool) : list string * bool :=
  match fields with
  | [] => (acc, idNotPresent)
  | f :: fields =>
      let field := Trim f in
      if decide (field = "") then collect_fields fields acc idNotPresent
      else collect_fields fields (acc ++ [field]) (if decide (field = "id") then false else idNotPresent)
  end.

(** [params] is url.Values.Get: the first value of a parameter, or nothing. *)
Definition NewListArguments (params : string -> string) : ListArguments :=
  let v := Trim (params "page") in
  let page := if decide (v = "") then 1 else (Strconv.Atoi v).1 in
  let v := Trim (params "size") in
  let size := if decide (v = "") then 100 else (Strconv.ParseInt v).1 in
  let size := if (MAX_LIST_SIZE <? size) || (size <? 0) then MAX_LIST_SIZE else size in
  let search := Trim (params "search") in
  let v := Trim (params "orderBy") in
  let orderBy := if decide (v = "") then [] else Split v comma in
  let v := Trim (params "fields") in
  let fields := if decide (v = "") then []
                else let '(fields, idNotPresent) := collect_fields (Split v comma) [] true in
                     if idNotPresent : bool then fields ++ ["id"] else fields in
  mkListArguments page size [] search orderBy fields.

(** ** sql_helpers.go *)

(** Only the keys of the map are used. *)
Definition disallowed := gset string.

Definition startsWithProperties (s : string) : bool := HasPrefix s "properties.".

Definition getField (name : string) (disallowedFields : disallowed) : result string ServiceError :=
  let trimmedName := Trim name in
  if HasPrefix trimmedName "properties ->>" then Ok trimmedName
  else
    let fieldParts := Split trimmedName dot in
    if (2 <? length fieldParts)%nat then Err (BadRequest "%s is not a valid field name" [GStr name])
    else
      let checkName := if (1 <? length fieldParts)%nat then nth 1 fieldParts "" else trimmedName in
      if decide (checkName ∈ disallowedFields) then Err (BadRequest "%s is not a valid field name" [GStr name])
      else Ok trimmedName.

Definition cleanOrderBy (userArg : string) (disallowedFields : disallowed) : result string ServiceError :=
  let bad := Err (BadRequest "bad order value '%s'" [GStr userArg]) in
  match (match Split (Trim userArg) space with
         | [field] => (getField field disallowedFields, "asc")
         | [field; direction] => (getField field disallowedFields, direction)
         | _ => (Ok "", "none valid")
         end) with
  | (Err _, _) => bad
  | (Ok orderField, direction) =>
      if decide (direction <> "asc" /\ direction <> "desc") then bad
      else Ok (Sprintf "%s %s" [GStr orderField; GStr direction])
  end.

(** The first bad argument is the error; the cleaned ones before it are returned too in
    Go, but no caller looks at them then. *)
Fixpoint ArgsToOrderBy (orderByArgs : list string) (disallowedFields : disallowed) :
  result (list string) ServiceError :=
  match orderByArgs with
  | [] => Ok []
  | o :: orderByArgs =>
      match cleanOrderBy o disallowedFields with
      | Err err => Err err
      | Ok order =>
          match ArgsToOrderBy orderByArgs disallowedFields with
          | Err err => Err err
          | Ok orderBy => Ok (order :: orderBy)
          end
      end
  end.

(** *** The search tree *)

Inductive op := IdentOp | StringOp | NumberOp | OtherOp (name : string).
#[export] Instance op_eq_dec : EqDecision op.
Proof. solve_decision. Defined.

Inductive node := Node (Func : op) (Left Right : operand)
with operand :=
| ONil
| ONode (n : node)
| ONodes (l : list node)
| OString (s : string)
| OValue (v : Z).

Definition Func (n : node) : op := match n with Node f _ _ => f end.
Definition Left (n : node) : operand := match n with Node _ l _ => l end.
Definition Right (n : node) : operand := match n with Node _ _ r => r end.

(** A rejected query, a failed type assertion, or not enough fuel. *)
Inductive walkError := Rejected (err : ServiceError) | Panic | OutOfFuel.

(** None: the assertion l.Left.(string) fails. *)
Definition hasProperty (n : node) : option bool :=
  match Left n with
  | ONode l =>
      if decide (Func l <> IdentOp) then Some false
      else match Left l with
           | OString s => Some (startsWithProperties s)
           | _ => None
           end
  | _ => Some false
  end.

(** s[i:] *)
Fixpoint skip (i : nat) (s : string) : string :=
  match i, s with
  | S i, String _ s => skip i s
  | _, _ => s
  end.

Definition propertiesNodeConverter (n : node) : option node :=
  match Left n with
  | ONode l =>
      match Left l with
      | OString s =>
          Some (Node (Func n)
                  (ONode (Node IdentOp (OString (Sprintf "properties ->> '%s'" [GStr (skip 11 s)])) ONil)) (Right n))
      | _ => None
      end
  | _ => Some n
  end.

(** A loop over the right-hand nodes. *)
Fixpoint walk_nodes (walk : node -> result node walkError) (l : list node) : result (list node) walkError :=
  match l with
  | [] => Ok []
  | e :: l =>
      match walk e with
      | Err err => Err err
      | Ok r => match walk_nodes walk l with Ok rr => Ok (r :: rr) | Err err => Err err end
      end
  end.

Fixpoint FieldNameWalk (fuel : nat) (n : node) (disallowedFields : disallowed) : result node walkError :=
  match fuel with
  | O => Err OutOfFuel
  | S fuel =>
      let converted := match hasProperty n with
                       | None => None
                       | Some true => propertiesNodeConverter n
                       | Some false => Some n
                       end in
      match converted with
      | None => Err Panic
      | Some n =>
          match Func n with
          | IdentOp =>
              match Left n with
              | OString userFieldName =>
                  match getField userFieldName disallowedFields with
                  | Err err => Err (Rejected err)
                  | Ok field => Ok (Node IdentOp (OString field) ONil)
                  end
              | _ => Err (Rejected (BadRequest "Identifier name must be a string" []))
              end
          | StringOp | NumberOp => Ok (Node (Func n) (Left n) ONil)
          | OtherOp _ =>
              (* the zero Node when there is no left child *)
              match (match Left n with
                     | ONil => Ok (Node (OtherOp "") ONil ONil)
                     | ONode l => FieldNameWalk fuel l disallowedFields
                     | _ => Err Panic
                     end) with
              | Err err => Err err
              | Ok l =>
                  match Right n with
                  | ONil => Ok (Node (Func n) (ONode l) ONil)
                  | ONode v =>
                      match FieldNameWalk fuel v disallowedFields with
                      | Err err => Err err
                      | Ok r => Ok (Node (Func n) (ONode l) (ONode r))
                      end
                  | ONodes v =>
                      match walk_nodes (fun e => FieldNameWalk fuel e disallowedFields) v with
                      | Err err => Err err
                      | Ok rr => Ok (Node (Func n) (ONode l) (ONodes rr))
                      end
                  | _ => Err (Rejected (BadRequest "unsupported right hand side type in search query" []))
                  end
              end
          end
      end
  end.

(** pkg/services/generic.go *)
Definition isJSONBSearch (search : string) : bool := Contains search "->>" || Contains search "@>".

(** * What a list request can become

    The page size is bounded and the id always selected; an order clause is one allowed
    field and a direction; a search tree that passes mentions allowed fields only. *)

Import errors Fmt Strings.

Open Scope Z_scope.

(** ** List arguments *)

Lemma collect_fields_spec l : forall acc b,
  Forall (fun f => f <> "") acc -> (b = false -> "id" ∈ acc) ->
  let '(fs, b') := collect_fields l acc b in Forall (fun f => f <> "") fs /\ (b' = false -> "id" ∈ fs).
Proof.
  induction l as [|f l IH]; intros acc b Hne Hid; cbn [collect_fields]; [done|].
  case_decide as Hf; [by apply IH|]. apply IH.
  - apply Forall_app. split; [done|]. by apply Forall_singleton.
  - case_decide as Hi; intros Hb; apply elem_of_app; [right|left; auto]. rewrite Hi. left.
Qed.

(** Whatever the query parameters are, the page size is between 0 and 65500, the page
    is a 64-bit integer, and a field selection is empty or contains the id and no blank
    name. *)
Theorem NewListArguments_bounds params :
  let a := NewListArguments params in
  0 <= a.(Size) <= 65500 /\ Int.min_int64 <= a.(Page) <= Int.max_int64 /\
  (a.(Fields) = [] \/ "id" ∈ a.(Fields)) /\ Forall (fun f => f <> "") a.(Fields).
Proof.
  cbv zeta. unfold NewListArguments. cbn [Size Page Fields]. split; [|split].
  - unfold MAX_LIST_SIZE. destruct (_ || _) eqn:Hs; [lia|].
    apply orb_false_iff in Hs as [H1%Z.ltb_ge H2%Z.ltb_ge]. lia.
  - case_decide; [unfold Int.min_int64, Int.max_int64; lia|]. apply Strconv.ParseInt_range.
  - case_decide; [split; [by left|constructor]|].
    pose proof (collect_fields_spec (Split (Trim (params "fields")) comma) [] true) as Hc.
    destruct (collect_fields _ _ _) as [fs b]. destruct Hc as [Hne Hid]; [constructor|done|].
    destruct b; [|by split; [right; apply Hid|]].
    split; [right; apply elem_of_app; right; left|]. apply Forall_app. split; [done|]. by apply Forall_singleton.
Qed.

(** ** Fields *)

(** The name the disallowed fields are compared with. *)
Definition check_name (f : string) : string :=
  let parts := Split f dot in if (1 <? length parts)%nat then nth 1 parts "" else f.

Definition allowed (dis : disallowed) (f : string) : Prop :=
  HasPrefix f "properties ->>" = true \/ (length (Split f dot) <= 2)%nat /\ check_name f ∉ dis.

Lemma getField_iff name dis f : getField name dis = Ok f <-> f = Trim name /\ allowed dis f.
Proof.
  unfold getField, allowed, check_name. destruct (HasPrefix (Trim name) _) eqn:Hp.
  { split; [intros [= <-]; by auto|by intros [-> _]]. }
  destruct (Nat.ltb_spec 2 (length (Split (Trim name) dot))) as [Hl|Hl].
  { split; [done|]. intros [-> [?|[? _]]]; [congruence|lia]. }
  case_decide as Hd; (split; [try done; intros [= <-]; by auto|intros [-> [?|[_ ?]]]; done || congruence]).
Qed.

(** ** Order *)

Fixpoint no_space (s : string) : Prop :=
  match s with "" => True | String c s => c <> space /\ no_space s end.

Lemma Split_no_sep s f l : Split s space = f :: l -> no_space f.
Proof.
  revert f l. induction s as [|c s IH]; intros f l; cbn [Split]; [by intros [= <- _]|].
  case_decide as Hc; [by intros [= <- _]|]. destruct (Split s space) as [|h t] eqn:Hs; intros [= <- _]; simpl; [done|].
  split; [done|]. by eapply IH.
Qed.

Lemma no_space_Split_app f s : no_space f -> Split (f +:+ " " +:+ s) space = f :: Split s space.
Proof.
  induction f as [|c f IH]; intros Hf.
  - change ("" +:+ " " +:+ s) with (String space s). cbn [Split]. by rewrite decide_True.
  - destruct Hf as [Hc Hf]. change (String c f +:+ " " +:+ s) with (String c (f +:+ " " +:+ s)). cbn [Split].
    rewrite decide_False by done. by rewrite IH.
Qed.

Lemma TrimLeft_no_space s : no_space s -> TrimLeft s = s.
Proof. destruct s as [|c s]; [done|]. intros [Hc _]. cbn [TrimLeft]. by rewrite decide_False. Qed.
Lemma TrimRight_no_space s : no_space s -> TrimRight s = s.
Proof.
  induction s as [|c s IH]; [done|]. intros [Hc Hs]. cbn [TrimRight]. rewrite IH by done.
  rewrite decide_False; [done|]. by intros [? _].
Qed.
Lemma Trim_no_space s : no_space s -> Trim s = s.
Proof. intros Hs. unfold Trim. rewrite TrimLeft_no_space by done. by apply TrimRight_no_space. Qed.

Lemma Sprintf_order f d : Sprintf "%s %s" [GStr f; GStr d] = f +:+ " " +:+ d.
Proof. change (f +:+ String space (d +:+ "") = f +:+ " " +:+ d). by rewrite append_nil_r. Qed.

(** An accepted order argument becomes exactly one allowed field and a direction,
    separated by the only space: nothing else of the user's text reaches ORDER BY. *)
Theorem cleanOrderBy_sound userArg dis o :
  cleanOrderBy userArg dis = Ok o ->
  exists f d, Split o space = [f; d] /\ (d = "asc" \/ d = "desc") /\ allowed dis f /\ o = f +:+ " " +:+ d.
Proof.
  unfold cleanOrderBy.
  assert (forall (f d : string) l, Split (Trim userArg) space = f :: l ->
            (match (getField f dis, d) with
             | (Err _, _) => Err (BadRequest "bad order value '%s'" [GStr userArg])
             | (Ok orderField, direction) =>
                 if decide (direction <> "asc" /\ direction <> "desc")
                 then Err (BadRequest "bad order value '%s'" [GStr userArg])
                 else Ok (Sprintf "%s %s" [GStr orderField; GStr direction])
             end) = Ok o ->
            exists f d, Split o space = [f; d] /\ (d = "asc" \/ d = "desc") /\ allowed dis f /\ o = f +:+ " " +:+ d) as H.
  { intros f d l Hs. apply Split_no_sep in Hs. destruct (getField f dis) as [x|] eqn:Hg; [|done].
    apply getField_iff in Hg as [-> Ha]. rewrite Trim_no_space in * by done. rewrite Sprintf_order.
    case_decide as Hd; [done|]. intros [= <-].
    assert (d = "asc" \/ d = "desc") as Hdir.
    { destruct (decide (d = "asc")); [by left|]. destruct (decide (d = "desc")); [by right|]. tauto. }
    exists f, d. rewrite no_space_Split_app by done. split_and!; try done. by destruct Hdir as [-> | ->]. }
  destruct (Split (Trim userArg) space) as [|f [|d [|]]] eqn:Hs.
  - done.
  - by apply (H f "asc" []).
  - by apply (H f d [d]).
  - done.
Qed.

(** ** Search trees *)

(** The trees ParseTSL builds: identifiers and strings hold a string, numbers a value,
    operators nodes; nested at most [d] operators deep. *)
Fixpoint parsed (d : nat) (n : node) : bool :=
  match n with
  | Node IdentOp (OString _) ONil => true
  | Node StringOp (OString _) ONil => true
  | Node NumberOp (OValue _) ONil => true
  | Node (OtherOp _) l r =>
      match d with
      | O => false
      | S d =>
          match l with ONil => true | ONode l => parsed d l | _ => false end &&
          match r with ONil => true | ONode r => parsed d r | ONodes rs => forallb (parsed d) rs | _ => false end
      end
  | _ => false
  end.

(** The identifier [f] occurs in the tree. *)
Inductive occurs (f : string) : node -> Prop :=
| occ_here r : occurs f (Node IdentOp (OString f) r)
| occ_left o n r : occurs f n -> occurs f (Node o (ONode n) r)
| occ_right o l n : occurs f n -> occurs f (Node o l (ONode n))
| occ_list o l ns n : n ∈ ns -> occurs f n -> occurs f (Node o l (ONodes ns)).

(** What the walk may answer for a tree. *)
Definition walked (dis : disallowed) (n : node) (r : result node walkError) : Prop :=
  match r with
  | Ok n' => forall f, occurs f n' -> allowed dis f
  | Err (Rejected e) => exists f, occurs f n /\ getField f dis = Err e
  | Err _ => False
  end.

Lemma TrimRight_quote a : TrimRight (a +:+ "'") = a +:+ "'".
Proof.
  induction a as [|c a IH]; [done|]. change (String c a +:+ "'") with (String c (a +:+ "'")). cbn [TrimRight].
  rewrite IH. rewrite decide_False; [done|]. intros [_ H]. by destruct a.
Qed.

Lemma property_allowed x dis :
  exists f, getField (Sprintf "properties ->> '%s'" [GStr x]) dis = Ok f /\ allowed dis f.
Proof.
  assert (Sprintf "properties ->> '%s'" [GStr x] = "properties ->> '" +:+ (x +:+ "'")) as -> by done.
  exists ("properties ->> '" +:+ (x +:+ "'")).
  assert (allowed dis ("properties ->> '" +:+ (x +:+ "'"))) as Ha by (by left). split; [|done].
  apply getField_iff. split; [|done]. unfold Trim.
  change (TrimLeft ("properties ->> '" +:+ (x +:+ "'"))) with (("properties ->> '" +:+ x) +:+ "'").
  by rewrite TrimRight_quote.
Qed.

Lemma occurs_zero f : ~ occurs f (Node (OtherOp "") ONil ONil).
Proof. inversion 1. Qed.
Lemma occurs_ident f g r : occurs f (Node IdentOp (OString g) r) -> r = ONil -> f = g.
Proof. inversion 1; subst; congruence. Qed.

Lemma walk_ident fuel s dis : walked dis (Node IdentOp (OString s) ONil) (FieldNameWalk (S fuel) (Node IdentOp (OString s) ONil) dis).
Proof.
  cbn. destruct (getField s dis) as [f|e] eqn:Hg; cbn.
  - intros g Ho. apply occurs_ident in Ho as ->; [|done]. by apply getField_iff in Hg as [_ Ha].
  - exists s. split; [constructor|done].
Qed.

Lemma walk_list dis (walk : node -> result node walkError) l :
  Forall (fun n => walked dis n (walk n)) l ->
  match walk_nodes walk l with
  | Ok l' => forall n f, n ∈ l' -> occurs f n -> allowed dis f
  | Err (Rejected e) => exists n f, n ∈ l /\ occurs f n /\ getField f dis = Err e
  | Err _ => False
  end.
Proof.
  induction 1 as [|n l Hn _ IH]; cbn [walk_nodes]; [by intros n f ?%elem_of_nil|].
  destruct (walk n) as [n'|[e| |]]; cbn in Hn; try done.
  2:{ destruct Hn as (f & Ho & Hg). exists n, f. split; [left|done]. }
  destruct (walk_nodes walk l) as [l'|[e| |]]; try done.
  - intros m f [->|Hm]%elem_of_cons Ho; [by apply Hn|by eapply IH].
  - destruct IH as (m & f & Hm & Ho & Hg). exists m, f. split; [by right|done].
Qed.

(** The part of the walk after the conversion, on an operator node. *)
Definition walk_op (fuel : nat) (dis : disallowed) (o : string) (l r : operand) : result node walkError :=
  match (match l with
         | ONil => Ok (Node (OtherOp "") ONil ONil)
         | ONode l => FieldNameWalk fuel l dis
         | _ => Err Panic
         end) with
  | Err err => Err err
  | Ok l =>
      match r with
      | ONil => Ok (Node (OtherOp o) (ONode l) ONil)
      | ONode v => match FieldNameWalk fuel v dis with
                   | Err err => Err err | Ok r => Ok (Node (OtherOp o) (ONode l) (ONode r)) end
      | ONodes v => match walk_nodes (fun e => FieldNameWalk fuel e dis) v with
                    | Err err => Err err | Ok rr => Ok (Node (OtherOp o) (ONode l) (ONodes rr)) end
      | _ => Err (Rejected (BadRequest "unsupported right hand side type in search query" []))
      end
  end.

Definition good_left (dis : disallowed) (n : node) (r : result node walkError) : Prop :=
  match r with
  | Ok l => forall f, occurs f l -> allowed dis f
  | Err (Rejected e) => exists f, occurs f n /\ getField f dis = Err e
  | Err _ => False
  end.

Lemma walk_op_spec fuel d dis n o l r :
  good_left dis n (match l with
                   | ONil => Ok (Node (OtherOp "") ONil ONil)
                   | ONode l => FieldNameWalk fuel l dis
                   | _ => Err Panic
                   end) ->
  (forall n, parsed d n = true -> walked dis n (FieldNameWalk fuel n dis)) ->
  (match r with ONil => true | ONode r => parsed d r | ONodes rs => forallb (parsed d) rs | _ => false end) = true ->
  Right n = r -> walked dis n (walk_op fuel dis o l r).
Proof.
  intros Hl IH Hr Hn. unfold walk_op.
  destruct (match l with ONil => _ | _ => _ end) as [l'|[e| |]]; cbn in Hl; try done.
  destruct n as [o' l0 r0]. cbn in Hn. subst r0.
  destruct r as [|v|v| |]; try done.
  - cbn. intros f Ho. inversion Ho; subst. by apply Hl.
  - specialize (IH v Hr). destruct (FieldNameWalk fuel v dis) as [v'|[e| |]]; cbn in *; try done.
    + intros f Ho. inversion Ho; subst; auto.
    + destruct IH as (f & Ho & Hg). exists f. split; [by apply occ_right|done].
  - pose proof (walk_list dis (fun e => FieldNameWalk fuel e dis) v) as Hw.
    rewrite forallb_forall in Hr.
    destruct (walk_nodes _ v) as [v'|[e| |]]; cbn.
    + intros f Ho. inversion Ho; subst; [by apply Hl|]. eapply Hw; [|done..].
      apply Forall_forall. intros m Hm. by apply IH, Hr, list_elem_of_In.
    + destruct Hw as (m & f & Hm & Ho & Hg).
      { apply Forall_forall. intros m Hm. by apply IH, Hr, list_elem_of_In. }
      exists f. split; [by eapply occ_list|done].
    + apply Hw. apply Forall_forall. intros m Hm. by apply IH, Hr, list_elem_of_In.
    + apply Hw. apply Forall_forall. intros m Hm. by apply IH, Hr, list_elem_of_In.
Qed.

Lemma walked_left dis l o r w :
  walked dis l w -> good_left dis (Node o (ONode l) r) w.
Proof.
  destruct w as [n|[e| |]]; cbn; try done. intros (f & Ho & Hg). exists f. split; [by apply occ_left|done].
Qed.

Lemma good_property fuel s dis n :
  good_left dis n (FieldNameWalk (S fuel) (Node IdentOp (OString (Sprintf "properties ->> '%s'" [GStr s])) ONil) dis).
Proof.
  destruct (property_allowed s dis) as (f & Hg & Ha).
  cbn [FieldNameWalk hasProperty Left Func]. rewrite Hg. cbn. intros g Ho. by apply occurs_ident in Ho as ->.
Qed.

Lemma FieldNameWalk_run d : forall n fuel dis,
  parsed d n = true -> (d < fuel)%nat -> walked dis n (FieldNameWalk fuel n dis).
Proof.
  induction d as [|d IH]; intros [o l r] fuel dis Hp Hf; (destruct fuel as [|fuel]; [lia|]).
  - destruct o; destruct l as [| | |s|v]; destruct r; try done; [apply walk_ident|by cbn; inversion 1..].
  - destruct o as [| | |o].
    1: { destruct l as [| | |s|v]; destruct r; try done. apply walk_ident. }
    1-2: destruct l as [| | |s|v]; destruct r; try done; by cbn; inversion 1.
    cbn [parsed] in Hp. apply andb_prop in Hp as [Hl Hr].
    assert (forall n, parsed d n = true -> walked dis n (FieldNameWalk fuel n dis)) as IH' by (intros; apply IH; [done|lia]).
    destruct l as [|l| | |]; try done.
    + apply (walk_op_spec fuel d dis _ o ONil r); [|done|done|done]. cbn. intros f Ho. by apply occurs_zero in Ho.
    + destruct (decide (Func l = IdentOp)) as [Hi|Hi].
      2:{ assert (FieldNameWalk (S fuel) (Node (OtherOp o) (ONode l) r) dis = walk_op fuel dis o (ONode l) r) as ->.
          { cbn [FieldNameWalk]. unfold hasProperty. cbn [Left]. by rewrite decide_True. }
          apply (walk_op_spec fuel d); [|done..]. by apply walked_left, IH'. }
      destruct l as [o' l' r']. cbn in Hi. subst o'. assert (exists s, l' = OString s /\ r' = ONil) as (s & -> & ->).
      { destruct d, l', r'; try done; by eexists. }
      destruct (startsWithProperties s) eqn:Hs.
      * assert (FieldNameWalk (S fuel) (Node (OtherOp o) (ONode (Node IdentOp (OString s) ONil)) r) dis
                = walk_op fuel dis o (ONode (Node IdentOp (OString (Sprintf "properties ->> '%s'" [GStr (skip 11 s)])) ONil)) r) as ->.
        { cbn [FieldNameWalk]. unfold hasProperty. cbn [Left Func]. rewrite decide_False by (by intros ?). by rewrite Hs. }
        apply (walk_op_spec fuel d); [|done..]. destruct fuel; [lia|]. apply good_property.
      * assert (FieldNameWalk (S fuel) (Node (OtherOp o) (ONode (Node IdentOp (OString s) ONil)) r) dis
                = walk_op fuel dis o (ONode (Node IdentOp (OString s) ONil)) r) as ->.
        { cbn [FieldNameWalk]. unfold hasProperty. cbn [Left Func]. rewrite decide_False by (by intros ?). by rewrite Hs. }
        apply (walk_op_spec fuel d); [|done..]. by apply walked_left, IH'.
Qed.

(** On a parsed search tree the walk never panics and always finishes, given fuel
    for its depth; the tree it returns mentions only allowed fields, and it rejects a
    query only because of a field in it that is not allowed. *)
Theorem FieldNameWalk_spec d n fuel dis :
  parsed d n = true -> (d < fuel)%nat -> walked dis n (FieldNameWalk fuel n dis).
Proof. apply FieldNameWalk_run. Qed.

(** ** The walk as a renaming *)

#[export] Instance allowed_dec dis f : Decision (allowed dis f).
Proof. unfold allowed. apply _. Defined.

(** The identifiers whose names are checked, in the order of the query: all but those of the
    form properties.x on the left of an operator. *)
Definition property (n : node) : option string :=
  match n with
  | Node IdentOp (OString s) _ => if startsWithProperties s then Some (skip 11 s) else None
  | _ => None
  end.
Fixpoint checked (n : node) : list string :=
  match n with
  | Node IdentOp (OString s) _ => [s]
  | Node (OtherOp _) l r =>
      match l with
      | ONode l => match property l with Some _ => [] | None => checked l end
      | _ => []
      end ++
      match r with ONode r => checked r | ONodes rs => flat_map checked rs | _ => [] end
  | _ => []
  end.

(** The query with blanks around names taken off and properties.x read as the member x of the
    properties; everything else stays, an operator without a left side getting an empty one. *)
Fixpoint renamed (n : node) : node :=
  match n with
  | Node IdentOp (OString s) _ => Node IdentOp (OString (Trim s)) ONil
  | Node (OtherOp o) l r =>
      Node (OtherOp o)
        (ONode (match l with
                | ONode l => match property l with
                             | Some x => Node IdentOp (OString ("properties ->> '" +:+ x +:+ "'")) ONil
                             | None => renamed l
                             end
                | _ => Node (OtherOp "") ONil ONil
                end))
        (match r with ONode r => ONode (renamed r) | ONodes rs => ONodes (map renamed rs) | _ => ONil end)
  | Node f l _ => Node f l ONil
  end.

Definition refused (dis : disallowed) (fields : list string) : option string :=
  List.find (fun f => negb (bool_decide (allowed dis (Trim f)))) fields.
Definition answered {A} (dis : disallowed) (fields : list string) (a : A) : result A walkError :=
  match refused dis fields with
  | Some f => Err (Rejected (BadRequest "%s is not a valid field name" [GStr f]))
  | None => Ok a
  end.

Lemma refused_app dis l1 l2 :
  refused dis (l1 ++ l2) = match refused dis l1 with Some f => Some f | None => refused dis l2 end.
Proof. unfold refused. induction l1 as [|f l1 IH]; [done|]. cbn. by destruct (negb _). Qed.

Lemma getField_run s dis :
  getField s dis = if bool_decide (allowed dis (Trim s)) then Ok (Trim s) else Err (BadRequest "%s is not a valid field name" [GStr s]).
Proof.
  case_bool_decide as Ha; [by apply getField_iff|].
  assert (forall f, getField s dis <> Ok f) as Hn by (intros f [-> ?]%getField_iff; done).
  unfold getField in *. destruct (HasPrefix _ _); [by destruct (Hn (Trim s))|]. destruct (2 <? _)%nat; [done|].
  case_decide; [done|]. by destruct (Hn (Trim s)).
Qed.

Lemma walk_ident_run fuel s dis :
  FieldNameWalk (S fuel) (Node IdentOp (OString s) ONil) dis = answered dis [s] (renamed (Node IdentOp (OString s) ONil)).
Proof.
  cbn [FieldNameWalk hasProperty Left Func]. rewrite getField_run. unfold answered, refused. cbn.
  by destruct (bool_decide _).
Qed.

Lemma walk_property_run fuel x dis :
  FieldNameWalk (S fuel) (Node IdentOp (OString (Sprintf "properties ->> '%s'" [GStr x])) ONil) dis =
    Ok (Node IdentOp (OString ("properties ->> '" +:+ x +:+ "'")) ONil).
Proof.
  destruct (property_allowed x dis) as (f & Hg & _). cbn [FieldNameWalk hasProperty Left Func]. rewrite Hg.
  apply getField_iff in Hg as [-> _]. do 2 f_equal.
  assert (Sprintf "properties ->> '%s'" [GStr x] = "properties ->> '" +:+ (x +:+ "'")) as -> by done. unfold Trim.
  change (TrimLeft ("properties ->> '" +:+ (x +:+ "'"))) with (("properties ->> '" +:+ x) +:+ "'").
  by rewrite TrimRight_quote.
Qed.

Lemma walk_nodes_run dis (walk : node -> result node walkError) l :
  Forall (fun n => walk n = answered dis (checked n) (renamed n)) l ->
  walk_nodes walk l = answered dis (flat_map checked l) (map renamed l).
Proof.
  induction 1 as [|n l Hn _ IH]; [done|]. cbn [walk_nodes flat_map map]. rewrite Hn, IH. unfold answered.
  rewrite refused_app. destruct (refused dis (checked n)); [done|]. by destruct (refused dis (flat_map checked l)).
Qed.

(** One operator, given what is done with its left side. *)
Lemma walk_op_run fuel d dis o l r fl l' :
  match l with ONil => Ok (Node (OtherOp "") ONil ONil) | ONode l => FieldNameWalk fuel l dis | _ => Err Panic end = answered dis fl l' ->
  (forall n, parsed d n = true -> FieldNameWalk fuel n dis = answered dis (checked n) (renamed n)) ->
  (match r with ONil => true | ONode r => parsed d r | ONodes rs => forallb (parsed d) rs | _ => false end) = true ->
  walk_op fuel dis o l r =
    answered dis (fl ++ match r with ONode r => checked r | ONodes rs => flat_map checked rs | _ => [] end)
      (Node (OtherOp o) (ONode l') (match r with ONode r => ONode (renamed r) | ONodes rs => ONodes (map renamed rs) | _ => ONil end)).
Proof.
  intros Hl IH Hr. unfold walk_op. rewrite Hl. unfold answered at 1 2. rewrite refused_app.
  destruct (refused dis fl); [done|]. destruct r as [|r|rs| |]; try done.
  - rewrite IH by done. unfold answered. by destruct (refused dis (checked r)).
  - rewrite (walk_nodes_run dis _ rs).
    { unfold answered. by destruct (refused dis (flat_map checked rs)). }
    apply Forall_forall. intros n Hn. apply IH. by apply (proj1 (forallb_forall _ _) Hr), list_elem_of_In.
Qed.

(** C37: On every parsed search tree the walk ends, without a panic, given fuel for the depth
    of the tree, and does this: when a name in the query is not allowed (a field the type
    disallows, or one with more than one dot), the query is refused for the first such name;
    otherwise the result is the same query with the names trimmed and properties.x turned
    into a member of the properties, and nothing left out. *)
Theorem FieldNameWalk_renames d n fuel dis :
  parsed d n = true -> (d < fuel)%nat -> FieldNameWalk fuel n dis = answered dis (checked n) (renamed n).
Proof.
  revert n fuel. induction d as [|d IH]; intros [o l r] fuel Hp Hf; (destruct fuel as [|fuel]; [lia|]).
  - destruct o; destruct l as [| | |s|v]; destruct r; try done. apply walk_ident_run.
  - destruct o as [| | |o].
    1: { destruct l as [| | |s|v]; destruct r; try done. apply walk_ident_run. }
    1-2: destruct l as [| | |s|v]; destruct r; done.
    cbn [parsed] in Hp. apply andb_prop in Hp as [Hl Hr].
    assert (forall n, parsed d n = true -> FieldNameWalk fuel n dis = answered dis (checked n) (renamed n)) as IH'
      by (intros; apply IH; [done|lia]).
    destruct l as [|l| | |]; try done.
    { apply (walk_op_run fuel d dis o ONil r [] (Node (OtherOp "") ONil ONil)); done. }
    destruct (property l) as [x|] eqn:Hx.
    + destruct l as [[| | |o'] [| | |s|] r']; try done. cbn in Hx. destruct (startsWithProperties s) eqn:Hs; [|done]. injection Hx as <-.
      assert (FieldNameWalk (S fuel) (Node (OtherOp o) (ONode (Node IdentOp (OString s) r')) r) dis
                = walk_op fuel dis o (ONode (Node IdentOp (OString (Sprintf "properties ->> '%s'" [GStr (skip 11 s)])) ONil)) r) as ->.
      { cbn [FieldNameWalk]. unfold hasProperty. cbn [Left Func]. rewrite decide_False by (by intros ?). by rewrite Hs. }
      cbn [checked renamed property]. rewrite Hs. apply (walk_op_run fuel d); [|done..].
      destruct fuel; [lia|]. apply walk_property_run.
    + assert (FieldNameWalk (S fuel) (Node (OtherOp o) (ONode l) r) dis = walk_op fuel dis o (ONode l) r) as ->.
      { cbn [FieldNameWalk]. unfold hasProperty. cbn [Left].
        destruct l as [[| | |o'] l' r']; try (by rewrite decide_True by done).
        destruct d, l', r'; try done; cbn in Hx |- *; by destruct (startsWithProperties s). }
      cbn [checked renamed]. rewrite Hx. apply (walk_op_run fuel d); [|done..]. by apply IH'.
Qed.

(** The query "name = 'a' and properties.x = 'b'" with a disallowed field. *)
Definition sample_query (field : string) : node :=
  let eq_ f v := Node (OtherOp "=") (ONode (Node IdentOp (OString f) ONil)) (ONode (Node StringOp (OString v) ONil)) in
  Node (OtherOp "and") (ONode (eq_ field "a")) (ONode (eq_ "properties.x" "b")).

Lemma FieldNameWalk_spec_witness :
  walked {["secret"]} (sample_query "name") (FieldNameWalk 3 (sample_query "name") {["secret"]}) /\
  is_ok (FieldNameWalk 3 (sample_query "name") {["secret"]}) = true /\
  is_ok (FieldNameWalk 3 (sample_query "secret") {["secret"]}) = false.
Proof.
  split; [apply (FieldNameWalk_spec 2); [reflexivity|lia]|]. split; vm_compute; reflexivity.
Defined.

Lemma FieldNameWalk_renames_witness :
  FieldNameWalk 3 (sample_query " name") {["secret"]} = answered {["secret"]} [" name"] (renamed (sample_query " name")) /\
  refused {["secret"]} [" name"] = None /\ refused {["secret"]} ["secret"] = Some "secret".
Proof.
  split; [apply (FieldNameWalk_renames 2 (sample_query " name")); [reflexivity|lia]|]. split; vm_compute; reflexivity.
Defined.

Lemma cleanOrderBy_sound_witness :
  exists f d, Split "name desc" space = [f; d] /\ (d = "asc" \/ d = "desc") /\ allowed {["secret"]} f /\
              "name desc" = f +:+ " " +:+ d.
Proof. apply (cleanOrderBy_sound " name desc "). vm_compute. reflexivity. Defined.
