(* ===== verification/GenericList.v ===== *)
(** * pkg/services/generic.go and pkg/dao/generic.go: the generic list

    A list request is turned into a query step by step (preloads, order, search), which
    is then counted and fetched. gorm's statement is the record [Query]; what PostgreSQL
    answers to a query, and gorm's view of the models, is the class [QueryStore]; the
    search-language libraries are the class [SearchLib]. A map that was never made is
    [None], and assigning into it panics. *)

From S2P Require Import Prelude GoLib Errors Types Gorm World Dao Services ListQuery.
Import api errors Fmt Strings.

Open Scope Z_scope.

(** ** dao/generic.go *)

(** A clause argument: the values squirrel and the SQL parser bind. *)
Inductive sqlValue := SQLString (s : string) | SQLNumber (z : Z).

(** The clauses gathered on gorm's statement, in the order they were added, and whether it
    is unscoped: gorm adds deleted_at IS NULL to the others. *)
Record Query := mkQuery {
  q_unscoped : bool;
  q_preloads : list string;
  q_orders : list string;
  q_joins : list string;
  q_groups : list string;
  q_wheres : list (string * list sqlValue);
}.

Record TableRelation := mkTableRelation {
  TableName : string;
  ColumnName : string;
  ForeignTableName : string;
  ForeignColumnName : string;
}.

(** schema.Relationship as far as it is read: its type, the foreign and primary column of
    its first reference, the table of the field and of the related model. *)
Record Relationship := mkRelationship {
  rel_Type : string;
  rel_ForeignKey : string;
  rel_PrimaryKey : string;
  rel_Table : string;
  rel_ForeignTable : string;
}.

Class QueryStore (Row : Type) := {
  (** the rows a query selects, as a multiset *)
  selection : Query -> Tables -> list Row;
  (** SELECT count, at some time *)
  countRows : Time -> Query -> Tables -> Z;
  (** SELECT at some time, with an offset and a limit *)
  fetchRows : Time -> Z -> Z -> Query -> Tables -> result (list Row) DBError;
  (** gorm's schema of the model: its table and its associations *)
  schemaTable : string;
  Association : string -> option Relationship;
}.
Arguments schemaTable Row {_}.
Arguments Association Row {_}.

(** What is relied on. Without clauses an unscoped query selects every row of the table; a
    query that is not unscoped leaves the soft-deleted rows out; ORDER BY and preloads have
    no part in what is selected. Counting counts the selection. A query with OFFSET and
    LIMIT returns that part of the selected rows put into some order; the order may be
    another one for every query (gorm leaves out an offset that is not positive). *)
Class QueryStoreLaws (Row : Type) `{Model Row} `{HasTable Row} `{QueryStore Row} : Prop := {
  selection_all t : selection (mkQuery true [] [] [] [] []) t ≡ₚ (map_to_list (tget t)).*2;
  selection_scoped p o j g w t :
    selection (mkQuery false p o j g w) t ≡ₚ filter (fun r => visible false r = true) (selection (mkQuery true p o j g w) t);
  selection_clauses u p o j w t : selection (mkQuery u p o j [] w) t ≡ₚ selection (mkQuery u [] [] j [] w) t;
  countRows_selection n q t : q.(q_groups) = [] -> countRows n q t = Z.of_nat (length (selection q t));
  fetchRows_part n o k q t : 0 < k -> exists rows, rows ≡ₚ selection q t /\
    fetchRows n o k q t = Ok (take (Z.to_nat k) (drop (Z.to_nat o) rows));
}.

(** The database happens to keep to one order of the rows, whatever part is asked for. *)
Definition one_order {Row} `{QueryStore Row} (q : Query) (t : Tables) (rows : list Row) : Prop :=
  forall n o k, 0 < k -> fetchRows n o k q t = Ok (take (Z.to_nat k) (drop (Z.to_nat o) rows)).

(** jinzhu/inflection, tree-search-language, squirrel and ocm-common's SQL parser *)
Class SearchLib := {
  Singular : string -> string;
  Plural : string -> string;
  ParseTSL : string -> result node string;
  (** ident.Walk: rewrite every identifier with an effectful function, which may fail *)
  identWalk : forall {S E : Type}, (string -> M S (result string E)) -> node -> M S (result node E);
  sqlFilterWalk : node -> result (result (string * list sqlValue) string) string;
  parseSQL : string -> result (string * list sqlValue) string;
}.

(** A walk only runs the given function: what that keeps of the state, the walk keeps. *)
Class SearchLibLaws `{SearchLib} : Prop := {
  identWalk_keeps {S E : Type} (P : S -> Prop) (f : string -> M S (result string E)) n s :
    (forall x s, P s -> P (f x s).2) -> P s -> P (identWalk f n s).2;
}.

(** How a builder fails: with an error for the caller, or in a panic. *)
Inductive failure := Failed (err : ServiceError) | Panicked.

Module GenericDao.
Section Ops.
Context {Row : Type} `{qs : QueryStore Row} `{sl : SearchLib} `{env : Env}.

Definition GetInstanceDao : Query := mkQuery false [] [] [] [] [].
Definition Preload (preload : string) (q : Query) : Query :=
  mkQuery q.(q_unscoped) (q.(q_preloads) ++ [preload]) q.(q_orders) q.(q_joins) q.(q_groups) q.(q_wheres).
Definition OrderBy (orderBy : string) (q : Query) : Query :=
  mkQuery q.(q_unscoped) q.(q_preloads) (q.(q_orders) ++ [orderBy]) q.(q_joins) q.(q_groups) q.(q_wheres).
Definition Joins (sql : string) (q : Query) : Query :=
  mkQuery q.(q_unscoped) q.(q_preloads) q.(q_orders) (q.(q_joins) ++ [sql]) q.(q_groups) q.(q_wheres).
Definition Group (sql : string) (q : Query) : Query :=
  mkQuery q.(q_unscoped) q.(q_preloads) q.(q_orders) q.(q_joins) (q.(q_groups) ++ [sql]) q.(q_wheres).
Definition Where (sql : string) (values : list sqlValue) (q : Query) : Query :=
  mkQuery q.(q_unscoped) q.(q_preloads) q.(q_orders) q.(q_joins) q.(q_groups) (q.(q_wheres) ++ [(sql, values)]).

(** gorm's Unscoped *)
Definition Unscoped (q : Query) : Query :=
  mkQuery true q.(q_preloads) q.(q_orders) q.(q_joins) q.(q_groups) q.(q_wheres).

(** The order and group clauses are taken off for the count and put back after it; there is
    no limit clause yet. Its error is not looked at, the total then stays what it was. *)
Definition Count (q : Query) (total : Z) : M World Z :=
  let g2 := mkQuery q.(q_unscoped) q.(q_preloads) [] q.(q_joins) [] q.(q_wheres) in
  let! n := step in
  match fault n with
  | Some _ => ret total
  | None => gets (fun w => countRows (clock n) (Unscoped g2) w.(tables))
  end.

Definition Fetch (offset limit : Z) (q : Query) : M World (result (list Row) DBError) :=
  statement (fun now t => (fetchRows now offset limit (Unscoped q) t, t)).

Definition GetTableName : string := schemaTable Row.

(** strings.ToUpper on one byte; an empty name panics in fieldName[:1]. *)
Definition upper (c : ascii) : ascii :=
  let n := nat_of_ascii c in
  if (97 <=? n)%nat && (n <=? 122)%nat then ascii_of_nat (n - 32) else c.

Definition GetTableRelation (fieldName : string) : result (option TableRelation) failure :=
  match fieldName with
  | "" => Err Panicked
  | String c rest =>
      let fieldName := String (upper c) rest in
      let relationship := match Association Row (Singular fieldName) with
                          | Some r => Some r
                          | None => Association Row (Plural fieldName)
                          end in
      match relationship with
      | None => Ok None
      | Some r =>
          if decide (r.(rel_Type) <> "belongs_to" /\ r.(rel_Type) <> "has_many") then Ok None
          else
            let '(columnName, foreignColumnName) :=
              if decide (r.(rel_Type) = "has_many") then (r.(rel_PrimaryKey), r.(rel_ForeignKey))
              else (r.(rel_ForeignKey), r.(rel_PrimaryKey)) in
            Ok (Some (mkTableRelation r.(rel_Table) columnName r.(rel_ForeignTable) foreignColumnName))
      end
  end.
End Ops.
End GenericDao.

(** ** services/generic.go *)

(** listContext, less what never changes; a nil map is [None], and the joins are in the
    order their iteration takes. *)
Record listContext := mkListContext {
  lc_joins : option (list (string * TableRelation));
  lc_groupBy : list string;
  lc_set : list string;
}.

Section GenericService.
Context {Row : Type} `{qs : QueryStore Row} `{sl : SearchLib} `{env : Env}.
(** reflect's name of the row type, for messages *)
Variable resourceType : string.

Definition set_joins (j : option (list (string * TableRelation))) (c : listContext) : listContext :=
  mkListContext j c.(lc_groupBy) c.(lc_set).

(** SearchDisallowedFields is empty, so every type allows all fields. *)
Definition disallowedFields : disallowed := ∅.

Definition newListContext (args : ListArguments) : result (listContext * ListArguments) ServiceError :=
  if decide (resourceType = "") then Err (GeneralError "Could not determine resource type" [])
  else Ok (mkListContext None [] [],
           mkListArguments args.(Page) args.(Size) args.(Preloads) (Trim args.(Search)) args.(OrderBy) args.(Fields)).

Definition buildPreload (args : ListArguments) (c : listContext) (q : Query) : listContext * Query :=
  (mkListContext c.(lc_joins) c.(lc_groupBy) args.(Preloads),
   foldl (fun q preload => GenericDao.Preload preload q) q args.(Preloads)).

Definition buildOrderBy (args : ListArguments) (q : Query) : result Query ServiceError :=
  if (length args.(OrderBy) =? 0)%nat then Ok q
  else match ArgsToOrderBy args.(OrderBy) disallowedFields with
       | Err serviceErr => Err serviceErr
       | Ok orderByArgs => Ok (foldl (fun q orderByArg => GenericDao.OrderBy orderByArg q) q orderByArgs)
       end.

(** The visit of one identifier: the error, the panic of an assignment into the nil map,
    or the field with its table. *)
Definition related_field (field : string) : M listContext (result string failure) :=
  match Split field dot with
  | fieldName :: ((_ :: _) as rest) =>
      if decide (fieldName = GenericDao.GetTableName (Row := Row)) then ret (Ok field)
      else
        let replaced (r : TableRelation) := Join (r.(ForeignTableName) :: rest) "." in
        let! c := gets (fun c => c) in
        match list_find (fun kr => kr.1 = fieldName) (default [] c.(lc_joins)) with
        | Some (_, (_, relation)) => ret (Ok (replaced relation))
        | None =>
            match GenericDao.GetTableRelation (Row := Row) fieldName with
            | Err f => ret (Err f)
            | Ok None =>
                ret (Err (Failed (BadRequest "%s" [GStr (Sprintf "%s is not a related resource of %s"
                                                           [GStr fieldName; GStr resourceType])])))
            | Ok (Some relation) =>
                match c.(lc_joins) with
                | None => ret (Err Panicked)
                | Some joins =>
                    modify (set_joins (Some (joins ++ [(fieldName, relation)]))) >> ret (Ok (replaced relation))
                end
            end
        end
  | _ => ret (Ok field)
  end.

Definition treeWalkForRelatedTables (tslTree : node) : M listContext (result node failure) :=
  identWalk related_field tslTree.

Definition table_field (field : string) : M listContext (result string failure) :=
  ret (Ok (match Split field dot with
           | [_] => if Contains field "->" then field
                    else Sprintf "%s.%s" [GStr (GenericDao.GetTableName (Row := Row)); GStr field]
           | _ => field
           end)).

Definition treeWalkForAddingTableName (tslTree : node) : M listContext (result node failure) :=
  identWalk table_field tslTree.

(** The size of a tree bounds the depth of the walk. *)
Fixpoint node_size (n : node) : nat :=
  match n with Node _ l r => S (operand_size l + operand_size r) end
with operand_size (o : operand) : nat :=
  match o with
  | ONode n => node_size n
  | ONodes l => (fix go l := match l with [] => O | n :: l => (node_size n + go l)%nat end) l
  | _ => O
  end.

Definition treeWalkForSqlizer (tslTree : node) : result (result (string * list sqlValue) string) failure :=
  match FieldNameWalk (S (node_size tslTree)) tslTree disallowedFields with
  | Err (Rejected serviceErr) => Err (Failed serviceErr)
  | Err _ => Err Panicked
  | Ok tslTree =>
      match sqlFilterWalk tslTree with
      | Err err => Err (Failed (BadRequest "%s" [GStr err]))
      | Ok sqlizer => Ok sqlizer
      end
  end.

(** The joins of the context, and the grouping they ask for. *)
Definition addJoins (c : listContext) (q : Query) : listContext * Query :=
  let joins := default [] c.(lc_joins) in
  let '(groupBy, q) := foldl (fun '(groupBy, q) '(_, r) =>
      if decide (r.(ForeignTableName) ∈ c.(lc_set)) then (groupBy, q)
      else (groupBy ++ [r.(ForeignTableName) +:+ ".id"],
            GenericDao.Joins (Sprintf "LEFT JOIN %s ON %s.%s = %s.%s AND %s.deleted_at IS NULL"
              [GStr r.(ForeignTableName); GStr r.(ForeignTableName); GStr r.(ForeignColumnName); GStr r.(TableName);
               GStr r.(ColumnName); GStr r.(ForeignTableName)]) q)) (c.(lc_groupBy), q) joins in
  let '(groupBy, q) :=
    if (0 <? length joins)%nat then
      let groupBy := groupBy ++ [GenericDao.GetTableName (Row := Row) +:+ ".id"] in
      (groupBy, GenericDao.Group (Join groupBy ",") q)
    else (groupBy, q) in
  (mkListContext (Some []) groupBy c.(lc_set), q).

(** buildSearch always finishes when it does not fail. *)
Definition buildSearch (args : ListArguments) (c : listContext) (q : Query) : result (listContext * Query) failure :=
  if decide (args.(Search) = "") then Ok (addJoins c q)
  else if isJSONBSearch args.(Search) then
    match parseSQL args.(Search) with
    | Err err => Err (Failed (BadRequest "failed to parse the search query: %v" [GStr err]))
    | Ok (sql, values) => Ok (c, GenericDao.Where sql values q)
    end
  else
    match ParseTSL args.(Search) with
    | Err _ => Err (Failed (BadRequest "Failed to parse search query: %s" [GStr args.(Search)]))
    | Ok tslTree =>
        let '(r, c) := treeWalkForRelatedTables tslTree c in
        match r with
        | Err f => Err f
        | Ok tslTree =>
            let '(r, c) := treeWalkForAddingTableName tslTree c in
            match r with
            | Err f => Err f
            | Ok tslTree =>
                match treeWalkForSqlizer tslTree with
                | Err f => Err f
                | Ok sqlizer =>
                    let '(c, q) := addJoins c q in
                    match sqlizer with
                    | Err err => Err (Failed (GeneralError "%s" [GStr err]))
                    | Ok (sql, values) => Ok (c, GenericDao.Where sql values q)
                    end
                end
            end
        end
    end.

(** The paging and the rows; the products are those of a 64-bit int. *)
Definition loadList (args : ListArguments) (q : Query) : M World (result (PagingMeta * list Row) ServiceError) :=
  let! total := GenericDao.Count (Row := Row) q 0 in
  if args.(Size) =? 0 then ret (Ok (mkPagingMeta args.(Page) 0 total, []))
  else
    let! r := GenericDao.Fetch (Int.int64 (Int.int64 (args.(Page) - 1) * args.(Size))) args.(Size) q in
    ret (match r with
         | Ok rows => Ok (mkPagingMeta args.(Page) (Z.of_nat (length rows)) total, rows)
         | Err ErrRecordNotFound => Ok (mkPagingMeta args.(Page) 0 total, [])
         | Err err => Err (GeneralError "Unable to list resources: %s" [GStr (db_message err)])
         end).

(** The query the builders make, before anything is asked of the database. *)
Definition build (args : ListArguments) : result (ListArguments * Query) failure :=
  match newListContext args with
  | Err err => Err (Failed err)
  | Ok (c, args) =>
      let '(c, q) := buildPreload args c GenericDao.GetInstanceDao in
      match buildOrderBy args q with
      | Err err => Err (Failed err)
      | Ok q => match buildSearch args c q with
                | Err f => Err f
                | Ok (_, q) => Ok (args, q)
                end
      end
  end.

Definition List (args : ListArguments) : M World (result (PagingMeta * list Row) failure) :=
  match build args with
  | Err f => ret (Err f)
  | Ok (args, q) => let! r := loadList args q in ret (map_err Failed r)
  end.

End GenericService.

(** services/resource.go: ListWithArgs. The loop variable is a copy of the resource, but
    its payload is the same map, so the listed resources change. *)
Definition ListWithArgs `{qs : QueryStore Resource} `{sl : SearchLib} `{env : Env} `{tf : TimeFormat}
  (args : ListArguments) : M World (result (PagingMeta * list Resource) failure) :=
  let! r := List (Row := Resource) "Resource" args in
  ret (match r with
       | Ok (paging, resources) => Ok (paging, ResourceService.syncTimestampsFromResourceMeta <$> resources)
       | Err f => Err f
       end).
