(* ===== verification/Pager.v ===== *)
(** * pkg/client/cloudevents/grpcsource/pager.go: listing in pages

    PageList asks the REST API for one page after the other. The generated API client is
    the section variable [ResourceBundlesGet], a call that may change the state of what it
    talks to; the loop runs on fuel, one unit per request. What is proved: against a
    server that holds a list, the loop ends and returns what was asked for. *)

From S2P Require Import Prelude GoLib.
Import Fmt.

Open Scope Z_scope.

(** metav1.ListOptions, as far as it is used here and by the watcher store *)
Record ListOptions := mkListOptions {
  Limit : Z;
  Continue : string;
  LabelSelector : string;
}.
Definition noOptions : ListOptions := mkListOptions 0 "" "".

(** openapi.ResourceBundleList *)
Record BundleList (A : Type) := mkBundleList {
  bl_Page : Z;
  bl_Size : Z;
  bl_Total : Z;
  bl_Items : list A;
}.
Arguments mkBundleList {A}.
Arguments bl_Page {A}.
Arguments bl_Size {A}.
Arguments bl_Total {A}.
Arguments bl_Items {A}.

Definition MaxListPageSize : Z := 400.

Definition num_error (s : string) (e : Strconv.NumErr) : string :=
  Sprintf "strconv.Atoi: parsing %s: %s"
    [GStr s; GStr (match e with Strconv.ErrSyntax => "invalid syntax" | Strconv.ErrRange => "value out of range" end)].

Definition page (opts : ListOptions) : result Z string :=
  if (String.length opts.(Continue) =? 0)%nat then Ok 1
  else match Strconv.Atoi opts.(Continue) with
       | (_, Some err) => Err (Sprintf "a page number is required, %v" [GStr (num_error opts.(Continue) err)])
       | (page, None) =>
           if page <? 0 then Err (Sprintf "an invalid page number %d" [GInt page])
           else Ok (Int.int32 page)
       end.

Definition pageSize (limit : Z) : Z :=
  if MaxListPageSize <? limit then MaxListPageSize
  else if limit =? 0 then MaxListPageSize
  else limit.

Section PageList.
Context {St A : Type}.
(** ApiMaestroV1ResourceBundlesGet(ctx).Search(search).Page(page).Size(size).Execute() *)
Variable ResourceBundlesGet : string -> Z -> Z -> M St (result (BundleList A) string).

(** The for loop; no result means that the fuel did not suffice. *)
Fixpoint list_loop (fuel : nat) (search : string) (limit pageSize offset page total : Z) (items : list A) :
  M St (option (result (list A * string) string)) :=
  match fuel with
  | O => ret None
  | S fuel =>
      let! r := ResourceBundlesGet search page pageSize in
      match r with
      | Err err => ret (Some (Err err))
      | Ok rbs =>
          let items := items ++ rbs.(bl_Items) in
          let total := Int.int32 (rbs.(bl_Size) + total) in
          let page := Int.int32 (page + 1) in
          if rbs.(bl_Size) <? pageSize then ret (Some (Ok (items, "")))
          else if limit =? 0 then list_loop fuel search limit pageSize offset page total items
          else if total =? Int.int32 limit then
            ret (Some (Ok (items, if Int.int32 (total + offset) <? rbs.(bl_Total) then Sprintf "%d" [GInt page] else "")))
          else list_loop fuel search limit pageSize offset page total items
      end
  end.

Definition PageList (fuel : nat) (search : string) (opts : ListOptions) :
  M St (option (result (list A * string) string)) :=
  match page opts with
  | Err err => ret (Some (Err err))
  | Ok page =>
      let limit := opts.(Limit) in
      if limit <? 0 then ret (Some (Err "limit cannot be less than 0"))
      else
        let pageSize := pageSize (Int.int32 limit) in
        let offset := Int.int32 (Int.int32 (page - 1) * pageSize) in
        list_loop fuel search limit pageSize offset page 0 []
  end.

End PageList.

(** ** A server that holds a list *)

(** Page [p] of size [s]; there is nothing before the first page. *)
Definition slice {A} (l : list A) (p s : Z) : list A :=
  take (Z.to_nat s) (drop (Z.to_nat ((p - 1) * s)) l).

Lemma elem_of_slice {A} (x : A) l p s : x ∈ slice l p s -> x ∈ l.
Proof.
  unfold slice. intros Hx. rewrite <-(take_drop (Z.to_nat ((p - 1) * s)) l). apply elem_of_app. right.
  rewrite <-(take_drop (Z.to_nat s) (drop _ l)). apply elem_of_app. by left.
Qed.

(** Whatever its state, as long as [I] holds of it, the server answers a search with the
    page asked for. *)
Definition list_server {St A} (I : St -> Prop) (l : list A) (search : string)
  (get : string -> Z -> Z -> M St (result (BundleList A) string)) : Prop :=
  forall p s st, I st -> 1 <= p < 2 ^ 31 -> 0 < s <= 400 -> exists st', I st' /\ get search p s st =
    (Ok (mkBundleList p (Z.of_nat (length (slice l p s))) (Z.of_nat (length l)) (slice l p s)), st').

(** A server that holds [n] items with the property [P] and answers with parts of the right
    sizes; which items are in a part is left open. *)
Definition page_server {St A} (I : St -> Prop) (P : A -> Prop) (n : nat) (search : string)
  (get : string -> Z -> Z -> M St (result (BundleList A) string)) : Prop :=
  forall p s st, I st -> 1 <= p < 2 ^ 31 -> 0 < s <= 400 -> exists part st', I st' /\ Forall P part /\
    Z.of_nat (length part) = Z.min s (Z.max 0 (Z.of_nat n - (p - 1) * s)) /\
    get search p s st = (Ok (mkBundleList p (Z.of_nat (length part)) (Z.of_nat n) part), st').

Lemma int32_id x : - 2 ^ 31 <= x < 2 ^ 31 -> Int.int32 x = x.
Proof. intros. apply Int.wrap_id; lia. Qed.

Section Facts.
Context {St A : Type} (get : string -> Z -> Z -> M St (result (BundleList A) string)) (l : list A)
        (I : St -> Prop) (search : string).
Hypothesis Hserver : list_server I l search get.
(** The server holds fewer than 2^31 - 400 items, as the 32-bit totals of the API need. *)
Hypothesis Hsmall : Z.of_nat (length l) + 400 < 2 ^ 31.

Lemma slice_length p s :
  1 <= p -> 0 < s ->
  Z.of_nat (length (slice l p s)) = Z.min s (Z.max 0 (Z.of_nat (length l) - (p - 1) * s)).
Proof. intros Hp Hs. unfold slice. rewrite length_take, length_drop. nia. Qed.

(** Pages follow each other. *)
Lemma slice_next p s :
  1 <= p -> 0 < s ->
  slice l p s ++ drop (Z.to_nat (p * s)) l = drop (Z.to_nat ((p - 1) * s)) l.
Proof.
  intros Hp Hs. unfold slice. rewrite <-(take_drop (Z.to_nat s) (drop (Z.to_nat ((p - 1) * s)) l)) at 2.
  rewrite drop_drop. do 2 f_equal. nia.
Qed.

(** Without a reachable limit the loop reads to the end of the list. *)
Lemma list_loop_all fuel limit s off p total items st :
  I st -> 0 < s <= 400 -> 1 <= p -> total = Z.of_nat (length items) -> (p - 1) * s <= Z.of_nat (length l) ->
  total + (Z.of_nat (length l) - (p - 1) * s) <= Z.of_nat (length l) ->
  (limit <> 0 -> forall k, 0 < k -> total + k * s <> Int.int32 limit) ->
  Z.of_nat (length l) - (p - 1) * s < Z.of_nat fuel * s ->
  exists st', I st' /\ list_loop get fuel search limit s off p total items st =
    (Some (Ok (items ++ drop (Z.to_nat ((p - 1) * s)) l, "")), st').
Proof.
  revert p total items st. induction fuel as [|fuel IH]; intros p total items st HI Hs Hp Ht Hps Htl Hlim Hf; [lia|].
  cbn [list_loop]. rewrite bind_run. destruct (Hserver p s st HI ltac:(nia) ltac:(lia)) as (st' & HI' & ->).
  pose proof (slice_length p s ltac:(lia) ltac:(lia)) as Hlen. cbn [bl_Size bl_Items bl_Total]. rewrite Hlen.
  pose proof (slice_next p s Hp ltac:(lia)) as Hnext.
  destruct (Z.ltb_spec (Z.min s (Z.max 0 (Z.of_nat (length l) - (p - 1) * s))) s) as [Hlast|Hfull].
  { exists st'. split; [done|]. do 4 f_equal. f_equal. rewrite <-Hnext, (drop_ge l), app_nil_r by nia. done. }
  assert (p + 1 < 2 ^ 31) by nia.
  assert (Int.int32 (Z.min s (Z.max 0 (Z.of_nat (length l) - (p - 1) * s)) + total) = total + s) as Htot
    by (rewrite int32_id; nia).
  rewrite Htot, (int32_id (p + 1)) by nia.
  assert (exists st'', I st'' /\ list_loop get fuel search limit s off (p + 1) (total + s) (items ++ slice l p s) st' =
            (Some (Ok (items ++ drop (Z.to_nat ((p - 1) * s)) l, "")), st'')) as Hgo.
  { destruct (IH (p + 1) (total + s) (items ++ slice l p s) st' HI') as (st'' & HI'' & ->); try lia; try nia.
    - rewrite length_app. nia.
    - intros Hl k Hk. replace (total + s + k * s) with (total + (k + 1) * s) by lia. apply Hlim; lia.
    - exists st''. split; [done|]. do 4 f_equal. replace (p + 1 - 1) with p by lia. rewrite <-app_assoc. by rewrite Hnext. }
  destruct (Z.eqb_spec limit 0); [done|].
  destruct (Z.eqb_spec (total + s) (Int.int32 limit)) as [He|]; [|done].
  exfalso. apply (Hlim ltac:(done) 1); lia.
Qed.

(** The token a page that ends before item [n] of the list leaves. *)
Definition token (next n : Z) : string :=
  if n <? Z.of_nat (length l) then Sprintf "%d" [GInt next] else "".

(** With a limit that whole pages reach, the loop reads [m] pages. *)
Lemma list_loop_limit (m : nat) fuel limit s off p total items st :
  I st -> 0 < s <= 400 -> 1 <= p < 2 ^ 31 -> (0 < m)%nat -> 0 <= total -> limit = total + Z.of_nat m * s -> limit < 2 ^ 31 ->
  (p * s <= Z.of_nat (length l) -> off = (p - 1) * s - total) -> (m <= fuel)%nat ->
  exists st', I st' /\ list_loop get fuel search limit s off p total items st =
    (Some (Ok (items ++ take (Z.to_nat (Z.of_nat m * s)) (drop (Z.to_nat ((p - 1) * s)) l),
               token (p + Z.of_nat m) ((p - 1 + Z.of_nat m) * s))), st').
Proof.
  revert fuel p total items st. induction m as [|m IH]; intros fuel p total items st HI Hs Hp Hm Ht Hl Hl2 Hoff Hf; [lia|].
  destruct fuel as [|fuel]; [lia|]. cbn [list_loop]. rewrite bind_run. destruct (Hserver p s st HI ltac:(nia) ltac:(lia)) as (st' & HI' & ->).
  pose proof (slice_length p s ltac:(lia) ltac:(lia)) as Hlen. cbn [bl_Size bl_Items bl_Total]. rewrite Hlen.
  destruct (Z.ltb_spec (Z.min s (Z.max 0 (Z.of_nat (length l) - (p - 1) * s))) s) as [Hlast|Hfull].
  { exists st'. split; [done|]. unfold token. rewrite (proj2 (Z.ltb_ge _ _)) by nia. do 5 f_equal.
    unfold slice. rewrite !take_ge by (rewrite length_drop; nia). done. }
  rewrite (int32_id (Z.min _ _ + total)), (int32_id (p + 1)), (int32_id limit) by nia.
  replace (Z.min s (Z.max 0 (Z.of_nat (length l) - (p - 1) * s)) + total) with (total + s) by lia.
  rewrite (proj2 (Z.eqb_neq limit 0)) by nia. specialize (Hoff ltac:(nia)).
  destruct m as [|m].
  - rewrite (proj2 (Z.eqb_eq _ _)) by lia. exists st'. split; [done|]. unfold token. rewrite int32_id by nia.
    replace (total + s + off) with ((p - 1 + Z.of_nat 1) * s) by nia. do 5 f_equal.
    unfold slice. do 2 f_equal. lia.
  - rewrite (proj2 (Z.eqb_neq _ _)) by nia.
    destruct (IH fuel (p + 1) (total + s) (items ++ slice l p s) st' HI') as (st'' & HI'' & ->); try lia; try nia.
    exists st''. split; [done|]. rewrite <-app_assoc.
    replace (p + 1 + Z.of_nat (S m)) with (p + Z.of_nat (S (S m))) by lia.
    replace (p + 1 - 1 + Z.of_nat (S m)) with (p - 1 + Z.of_nat (S (S m))) by lia.
    replace (Z.to_nat (Z.of_nat (S (S m)) * s)) with (Z.to_nat s + Z.to_nat (Z.of_nat (S m) * s))%nat by nia.
    rewrite <-take_take_drop, drop_drop. unfold slice.
    by replace (Z.to_nat ((p - 1) * s) + Z.to_nat s)%nat with (Z.to_nat ((p + 1 - 1) * s)) by nia.
Qed.

Lemma page_token limit p : 0 <= p < 2 ^ 31 -> page (mkListOptions limit (Sprintf "%d" [GInt p]) "") = Ok p.
Proof.
  intros Hp. unfold page. cbn [Continue].
  assert (Sprintf "%d" [GInt p] = pretty p) as -> by apply Strings.append_nil_r.
  pose proof (Strconv.Atoi_pretty p ltac:(unfold Int.max_int64; lia)) as Ha.
  destruct (pretty p) as [|c r] eqn:Hr; [discriminate Ha|]. rewrite <-Hr in *. rewrite Ha.
  rewrite Hr. cbn [String.length Nat.eqb]. rewrite (proj2 (Z.ltb_ge p 0)) by lia. by rewrite int32_id by lia.
Qed.

Lemma page_small opts p : page opts = Ok p -> p < 2 ^ 31.
Proof.
  unfold page. destruct (_ =? _)%nat; [intros [= <-]; lia|]. destruct (Strconv.Atoi _) as [q [e|]]; [done|].
  destruct (q <? 0); [done|]. intros [= <-]. apply (Int.wrap_range 32 q). lia.
Qed.

Lemma page_start limit : page (mkListOptions limit "" "") = Ok 1.
Proof. done. Qed.

Lemma PageList_from fuel opts p st :
  I st -> page opts = Ok p -> 1 <= p -> opts.(Limit) = 0 -> (length l / 400 < fuel)%nat ->
  exists st', I st' /\ PageList get fuel search opts st = (Some (Ok (drop (Z.to_nat ((p - 1) * 400)) l, "")), st').
Proof.
  intros HI Hp Hp1 Hl Hf. pose proof (page_small _ _ Hp). unfold PageList. rewrite Hp, Hl. cbn [Z.ltb Z.compare].
  change (pageSize (Int.int32 0)) with 400.
  assert (length l < fuel * 400)%nat as Hf'.
  { pose proof (Nat.div_mod_eq (length l) 400). pose proof (Nat.mod_upper_bound (length l) 400). lia. }
  destruct (Z.le_gt_cases ((p - 1) * 400) (Z.of_nat (length l))) as [Hin|Hout].
  - apply (list_loop_all fuel 0 400 _ p 0 [] st); simpl; (done || lia).
  - destruct fuel as [|fuel]; [lia|]. cbn [list_loop]. rewrite bind_run. destruct (Hserver p 400 st HI ltac:(lia) ltac:(lia)) as (st' & HI' & ->).
    exists st'. split; [done|]. unfold slice. rewrite (drop_ge l) by lia. rewrite take_nil. done.
Qed.

(** Listing without a limit ends, after at most one request per 400 items and one
    more, and returns every item from the start page on, each once and in order. *)
Theorem PageList_complete fuel opts p st :
  I st -> page opts = Ok p -> 1 <= p -> opts.(Limit) = 0 -> (length l / 400 < fuel)%nat ->
  exists st', I st' /\ PageList get fuel search opts st = (Some (Ok (drop (Z.to_nat ((p - 1) * 400)) l, "")), st').
Proof. apply PageList_from. Qed.

(** A limit above the page size that is not a multiple of it is ignored: the running
    total never equals it, and everything is listed. *)
Theorem PageList_limit_ignored fuel limit st :
  I st -> 400 < limit < 2 ^ 31 -> limit mod 400 <> 0 -> (length l / 400 < fuel)%nat ->
  exists st', I st' /\ PageList get fuel search (mkListOptions limit "" "") st = (Some (Ok (l, "")), st').
Proof.
  intros HI Hl Hm Hf. unfold PageList. rewrite page_start. cbn [Limit]. rewrite (proj2 (Z.ltb_ge limit 0)) by lia.
  unfold pageSize, MaxListPageSize. rewrite (int32_id limit) by lia. rewrite (proj2 (Z.ltb_lt _ _)) by lia.
  assert (length l < fuel * 400)%nat as Hf'.
  { pose proof (Nat.div_mod_eq (length l) 400). pose proof (Nat.mod_upper_bound (length l) 400). lia. }
  destruct (list_loop_all fuel limit 400 (Int.int32 (Int.int32 (1 - 1) * 400)) 1 0 [] st) as (st' & HI' & ->);
    try (simpl; lia); [done| |by exists st'].
  intros _ k Hk He. apply Hm. rewrite int32_id in He by lia. rewrite <-He, Z.add_0_l. apply Z.mod_mul. lia.
Qed.

(** A client that follows the continue tokens. *)
Fixpoint follow (n fuel : nat) (limit : Z) (cont : string) : M St (option (list A)) :=
  match n with
  | O => ret None
  | S n =>
      let! r := PageList get fuel search (mkListOptions limit cont "") in
      match r with
      | Some (Ok (items, next)) =>
          if decide (next = "") then ret (Some items)
          else let! rest := follow n fuel limit next in ret (app items <$> rest)
      | _ => ret None
      end
  end.

(** The limits the loop can reach: at most a page, or whole pages. *)
Definition whole_pages (limit : Z) : Prop := 0 < limit < 2 ^ 31 /\ (limit <= 400 \/ limit mod 400 = 0).

Lemma PageList_limited fuel limit cont p st :
  I st -> whole_pages limit -> page (mkListOptions limit cont "") = Ok p -> 1 <= p -> Z.of_nat fuel * 400 >= limit ->
  exists st' q, I st' /\ q = Z.min limit 400 /\ PageList get fuel search (mkListOptions limit cont "") st =
    (Some (Ok (take (Z.to_nat limit) (drop (Z.to_nat ((p - 1) * q)) l),
               token (p + limit / q) ((p - 1) * q + limit))), st').
Proof.
  intros HI [Hl Hw] Hp Hp1 Hf. pose proof (page_small _ _ Hp). unfold PageList. rewrite Hp. cbn [Limit]. rewrite (proj2 (Z.ltb_ge limit 0)) by lia.
  rewrite (int32_id limit) by lia. set (q := Z.min limit 400).
  assert (pageSize limit = q) as ->.
  { unfold pageSize, MaxListPageSize, q. destruct (Z.ltb_spec 400 limit); [lia|].
    rewrite (proj2 (Z.eqb_neq limit 0)) by lia. lia. }
  assert (limit = limit / q * q) as Hq.
  { destruct Hw as [Hw|Hw].
    - assert (q = limit) as -> by (unfold q; lia). rewrite Z.div_same by lia. lia.
    - destruct (Z.le_gt_cases limit 400).
      + assert (q = limit) as -> by (unfold q; lia). rewrite Z.div_same by lia. lia.
      + assert (q = 400) as -> by (unfold q; lia). pose proof (Z.div_mod limit 400). lia. }
  assert (0 < q <= 400) as Hq0 by (unfold q; lia).
  assert (0 < limit / q) as Hm by nia.
  destruct (list_loop_limit (Z.to_nat (limit / q)) fuel limit q (Int.int32 (Int.int32 (p - 1) * q)) p 0 [] st)
    as (st' & HI' & ->); try lia; try done.
  - intros Hin. rewrite (int32_id (p - 1)) by nia. rewrite int32_id by nia. lia.
  - destruct Hw; nia.
  - exists st', q. split_and!; [done..|]. rewrite Z2Nat.id by lia. cbn [app].
    replace (limit / q * q) with limit by lia.
    by replace ((p - 1 + limit / q) * q) with ((p - 1) * q + limit) by lia.
Qed.

Lemma follow_from n fuel limit cont p st :
  I st -> whole_pages limit -> Z.of_nat fuel * 400 >= limit -> page (mkListOptions limit cont "") = Ok p -> 1 <= p ->
  (p - 1) * Z.min limit 400 <= Z.of_nat (length l) ->
  Z.of_nat (length l) - (p - 1) * Z.min limit 400 < Z.of_nat n * limit ->
  exists st', I st' /\ follow n fuel limit cont st = (Some (drop (Z.to_nat ((p - 1) * Z.min limit 400)) l), st').
Proof.
  intros HI Hw Hf. revert cont p st HI. induction n as [|n IH]; intros cont p st HI Hp Hp1 Hin Hn; [lia|].
  cbn [follow]. rewrite bind_run.
  destruct (PageList_limited fuel limit cont p st HI Hw Hp Hp1 Hf) as (st' & q & HI' & Hq & ->). rewrite <-Hq in *.
  destruct Hw as [Hl Hw]. assert (limit = limit / q * q) as Hd.
  { subst q. destruct (Z.le_gt_cases limit 400).
    - rewrite Z.min_l by lia. rewrite Z.div_same by lia. lia.
    - rewrite Z.min_r by lia. destruct Hw as [|Hw]; [lia|]. pose proof (Z.div_mod limit 400). lia. }
  unfold token. destruct (Z.ltb_spec ((p - 1) * q + limit) (Z.of_nat (length l))) as [Hmore|Hend].
  - pose proof (page_token limit (p + limit / q) ltac:(nia)) as Hnext. rewrite decide_False.
    2:{ intros He. rewrite He in Hnext. injection Hnext as Hnext. nia. }
    rewrite bind_run. destruct (IH (Sprintf "%d" [GInt (p + limit / q)]) (p + limit / q) st' HI' Hnext) as (st'' & HI'' & ->); try nia.
    exists st''. split; [done|]. cbn [fmap option_fmap option_map ret]. do 2 f_equal.
    rewrite <-(take_drop (Z.to_nat limit) (drop (Z.to_nat ((p - 1) * q)) l)) at 2. f_equal.
    rewrite drop_drop. f_equal. nia.
  - rewrite decide_True by done. exists st'. split; [done|]. do 2 f_equal. rewrite take_ge; [done|]. rewrite length_drop. nia.
Qed.

End Facts.

(** ** Parts of the right sizes *)

Section Parts.
Context {St A : Type} (get : string -> Z -> Z -> M St (result (BundleList A) string)) (P : A -> Prop) (n : nat)
        (I : St -> Prop) (search : string).
Hypothesis Hserver : page_server I P n search get.
Hypothesis Hsmall : Z.of_nat n + 400 < 2 ^ 31.

Lemma list_loop_parts fuel s off p total items st :
  I st -> 0 < s <= 400 -> 1 <= p -> total = Z.of_nat (length items) -> (p - 1) * s <= Z.of_nat n ->
  total + (Z.of_nat n - (p - 1) * s) <= Z.of_nat n -> Z.of_nat n - (p - 1) * s < Z.of_nat fuel * s ->
  exists rest st', I st' /\ Forall P rest /\ Z.of_nat (length rest) = Z.of_nat n - (p - 1) * s /\
    list_loop get fuel search 0 s off p total items st = (Some (Ok (items ++ rest, "")), st').
Proof.
  revert p total items st. induction fuel as [|fuel IH]; intros p total items st HI Hs Hp Ht Hps Htl Hf; [lia|].
  cbn [list_loop]. rewrite bind_run.
  destruct (Hserver p s st HI ltac:(nia) ltac:(lia)) as (part & st' & HI' & HP & Hlen & ->).
  cbn [bl_Size bl_Items]. rewrite Hlen.
  destruct (Z.ltb_spec (Z.min s (Z.max 0 (Z.of_nat n - (p - 1) * s))) s) as [Hlast|Hfull].
  { exists part, st'. split_and!; [done..|lia|done]. }
  rewrite (int32_id (Z.min _ _ + total)), (int32_id (p + 1)) by nia. cbn [Z.eqb].
  destruct (IH (p + 1) (Z.min s (Z.max 0 (Z.of_nat n - (p - 1) * s)) + total) (items ++ part) st' HI')
    as (rest & st'' & HI'' & HP' & Hl & ->); try lia; try nia.
  { rewrite length_app. nia. }
  exists (part ++ rest), st''. rewrite app_assoc. split_and!; [done|by apply Forall_app|rewrite length_app; nia|done].
Qed.

(** Whatever the parts are, listing without a limit ends after one request per 400 items and
    one more, with as many items as there are. *)
Lemma PageList_parts fuel st :
  I st -> (n / 400 < fuel)%nat ->
  exists items st', I st' /\ Forall P items /\ length items = n /\
    PageList get fuel search noOptions st = (Some (Ok (items, "")), st').
Proof.
  intros HI Hf. unfold PageList. cbn [page noOptions Limit Continue String.length Nat.eqb Z.ltb Z.compare].
  change (pageSize (Int.int32 0)) with 400.
  assert (n < fuel * 400)%nat as Hf'.
  { pose proof (Nat.div_mod_eq n 400). pose proof (Nat.mod_upper_bound n 400). lia. }
  destruct (list_loop_parts fuel 400 (Int.int32 (Int.int32 (1 - 1) * 400)) 1 0 [] st) as (items & st' & HI' & HP & Hl & ->);
    try (done || lia).
  exists items, st'. split_and!; [done..|lia|done].
Qed.
End Parts.

(** A server without an order of its own: the second page overlaps the first. The listing
    ends with as many items as there are, one of them missing and another one listed twice. *)
Definition unordered (l : list nat) (search : string) (p s : Z) : M unit (result (BundleList nat) string) :=
  let l := if p =? 1 then l else reverse l in
  ret (Ok (mkBundleList p (Z.of_nat (length (slice l p s))) (Z.of_nat (length l)) (slice l p s))).
Theorem unordered_pages_repeat :
  page_server (fun _ : unit => True) (fun i => i ∈ seq 0 401) 401 "" (unordered (seq 0 401)) /\
  exists items, PageList (unordered (seq 0 401)) 2 "" noOptions tt = (Some (Ok (items, "")), tt) /\
    length items = 401%nat /\ 400%nat ∉ items /\ ~ NoDup items.
Proof.
  split.
  - intros p s [] _ Hp Hs. unfold unordered. set (l := if p =? 1 then _ else _).
    assert (length l = 401%nat /\ forall i, i ∈ l -> i ∈ seq 0 401) as [Hl Hin].
    { unfold l. destruct (p =? 1); [by rewrite length_seq|]. rewrite length_reverse, length_seq. split; [done|].
      intros i. by rewrite elem_of_reverse. }
    exists (slice l p s), (). rewrite Hl. split_and!; [done| |unfold slice; rewrite length_take, length_drop; lia|done].
    apply Forall_forall. intros i Hi. by eapply Hin, elem_of_slice.
  - exists (seq 0 400 ++ [0%nat]). split; [vm_compute; reflexivity|]. split; [reflexivity|]. split.
    + apply (bool_decide_unpack _). vm_compute. exact I.
    + intros [_ [Hd _]]%NoDup_app. apply (Hd 0%nat); [|by left]. apply elem_of_seq. lia.
Qed.

(** ** A server and its pages *)

Definition serve_list {A} (l : list A) (search : string) (p s : Z) : M unit (result (BundleList A) string) :=
  ret (Ok (mkBundleList p (Z.of_nat (length (slice l p s))) (Z.of_nat (length l)) (slice l p s))).
Lemma serve_list_ok {A} (l : list A) : list_server (fun _ => True) l "" (serve_list l).
Proof. intros p s st _ _ _. by eexists. Qed.

Lemma PageList_complete_witness :
  exists st', True /\ PageList (serve_list (seq 0 900)) 3 "" noOptions tt = (Some (Ok (seq 0 900, "")), st').
Proof.
  apply (PageList_complete (serve_list (seq 0 900)) (seq 0 900) (fun _ => True) "" (serve_list_ok _)
           ltac:(vm_compute; reflexivity) 3 noOptions 1 tt);
    [done|reflexivity|lia|reflexivity|vm_compute; lia].
Defined.

Lemma PageList_limit_ignored_witness :
  exists st', True /\ PageList (serve_list (seq 0 900)) 3 "" (mkListOptions 500 "" "") tt = (Some (Ok (seq 0 900, "")), st').
Proof.
  apply (PageList_limit_ignored (serve_list (seq 0 900)) (seq 0 900) (fun _ => True) "" (serve_list_ok _)
           ltac:(vm_compute; reflexivity) 3 500 tt);
    [done|lia|vm_compute; discriminate|vm_compute; lia].
Defined.

