(* ===== verification/Presenters.v ===== *)
(** * pkg/api/presenters: rows as API objects

    The generated openapi structs with their optional fields, and the conversions between
    them and the rows. A reference names the object, its kind and its path. *)

From S2P Require Import Prelude GoLib Errors Types Json Bundle.
Import api errors Fmt.

Open Scope Z_scope.

(** ** openapi models *)

Record ObjectReference := mkObjectReference {
  ref_Id : option string;
  ref_Kind : option string;
  ref_Href : option string;
}.

Record OpenConsumer := mkOpenConsumer {
  oc_Id : option string;
  oc_Kind : option string;
  oc_Href : option string;
  oc_Name : option string;
  oc_Labels : option (list (string * string));
  oc_CreatedAt : option Time;
  oc_UpdatedAt : option Time;
}.

(** openapi.Error; what AsOpenapiError builds has every field set *)
Record OpenError := mkOpenError {
  er_Id : option string;
  er_Kind : option string;
  er_Href : option string;
  er_Code : option string;
  er_Reason : option string;
  er_OperationId : option string;
}.
Definition openError (e : OpenapiError) : OpenError :=
  mkOpenError (Some e.(oe_Id)) (Some e.(oe_Kind)) (Some e.(oe_Href)) (Some e.(oe_Code)) (Some e.(oe_Reason))
    (Some e.(oe_OperationId)).

Record ConsumerPatchRequest := mkConsumerPatchRequest { p_Labels : option (list (string * string)) }.

Record ResourceBundle := mkResourceBundle {
  rb_Id : option string;
  rb_Kind : option string;
  rb_Href : option string;
  rb_Name : option string;
  rb_ConsumerName : option string;
  rb_Version : option Z;
  rb_CreatedAt : option Time;
  rb_UpdatedAt : option Time;
  rb_DeletedAt : option Time;
  rb_Metadata : JSONMap;
  (** a nil slice is [None] *)
  rb_Manifests : option (list JSONMap);
  rb_DeleteOption : JSONMap;
  rb_ManifestConfigs : option (list JSONMap);
  rb_Status : JSONMap;
}.

(** ** util and db helpers *)

Definition NilToEmptyString (a : option string) : string := default "" a.

Definition EmptyMapToNilStringMap (a : option (list (string * string))) : option (list (string * string)) :=
  match a with
  | None => None
  | Some m => if (length m =? 0)%nat then None else Some m
  end.

Definition ToMap (m : option (list (string * string))) : option (list (string * string)) := m.

(** ** kind.go, path.go, object_reference.go *)

(** What the type switches tell apart. *)
Inductive object :=
| AConsumer | ConsumerList | AResource | ResourceList | AServiceError | OtherObject.

Definition ObjectKind (i : object) : string :=
  match i with
  | AConsumer => "Consumer"
  | ConsumerList => "ConsumerList"
  | AResource => "ResourceBundle"
  | ResourceList => "ResourceBundleList"
  | AServiceError => "Error"
  | OtherObject => ""
  end.

Definition BasePath : string := "/api/maestro/v1".

Definition path (i : object) : string :=
  match i with
  | AResource => "resource-bundles"
  | AConsumer => "consumers"
  | AServiceError => "errors"
  | _ => ""
  end.

Definition ObjectPath (id : string) (obj : object) : string :=
  Sprintf "%s/%s/%s" [GStr BasePath; GStr (path obj); GStr id].

Definition PresentReference (id : string) (obj : object) : ObjectReference :=
  if decide (id = "") then mkObjectReference None None None
  else mkObjectReference (Some id) (Some (ObjectKind obj)) (Some (ObjectPath id obj)).

(** ** consumer.go, error.go *)

Definition ConvertConsumer (consumer : OpenConsumer) : Consumer :=
  mkConsumer (newMeta (NilToEmptyString consumer.(oc_Id))) (NilToEmptyString consumer.(oc_Name))
    (EmptyMapToNilStringMap consumer.(oc_Labels)).

Definition PresentConsumer (consumer : Consumer) : OpenConsumer :=
  let reference := PresentReference consumer.(ID) AConsumer in
  mkOpenConsumer reference.(ref_Id) reference.(ref_Kind) reference.(ref_Href) (Some consumer.(c_Name))
    (ToMap consumer.(Labels)) (Some consumer.(CreatedAt)) (Some consumer.(UpdatedAt)).

Definition PresentError (err : ServiceError) : OpenapiError := AsOpenapiError err "".

(** ** resource_bundle.go *)

Definition PresentResourceBundle `{ce : CloudEvents} (resource : Resource) : result ResourceBundle string :=
  match DecodeManifestBundle resource.(Payload) with
  | Err err => Err err
  | Ok manifestWrapper =>
      match DecodeBundleStatus resource.(Status) with
      | Err err => Err err
      | Ok status =>
          let reference := PresentReference resource.(ID) AResource in
          let rb metadata manifests configs deleteOption :=
            mkResourceBundle reference.(ref_Id) reference.(ref_Kind) reference.(ref_Href)
              (Some resource.(r_Name)) (Some resource.(ConsumerName)) (Some resource.(Version))
              (Some resource.(CreatedAt)) (Some resource.(UpdatedAt))
              (if IsZero resource.(DeletedAt).(NTime) then None else Some resource.(DeletedAt).(NTime))
              metadata manifests deleteOption configs status in
          Ok (match manifestWrapper with
              | Some w => rb w.(mw_Meta) (Some w.(mw_Manifests)) (Some w.(mw_ManifestConfigs)) w.(mw_DeleteOption)
              | None => rb None None None None
              end)
      end
  end.

(** A presented consumer is the consumer it was made from, less its deletion time: reading
    an API object back gives id, name and labels. *)
Lemma Convert_Present (c : Consumer) :
  c.(Labels) <> Some [] ->
  ConvertConsumer (PresentConsumer c) = mkConsumer (newMeta c.(ID)) c.(c_Name) c.(Labels).
Proof.
  intros Hl. unfold ConvertConsumer, PresentConsumer, PresentReference.
  destruct c as [m n [[|kv l]|]]; simpl in *; [done| |]; case_decide as Hid; rewrite ?Hid; done.
Qed.
