(* ===== verification/JsonStruct.v ===== *)
(** * encoding/json on structs

    How json.Marshal writes a struct and how a Decoder fills one: members are matched
    with fields by name, exactly or else without case; null leaves a field as it is; a
    value of the wrong type is noted and decoding goes on, while an error of an
    Unmarshaler stops it; DisallowUnknownFields notes a member that matches no field. A
    field type is a [codec]; its [codec_ok] says that what is written reads back.

    Two members that match one field count as the later of them, in the order of their
    keys. The text of an error does not name the field. *)

From S2P Require Import Prelude GoLib Types Json.
Import api Strings.

Open Scope Z_scope.

(** The outcome of decoding into a fresh variable: the value with the first error noted,
    or the error that stopped it. *)
Inductive decoded (A : Type) :=
| Decoded (a : A) (saved : option string)
| Aborted (err : string).
Arguments Decoded {A}.
Arguments Aborted {A}.

(** What Unmarshal returns. *)
Definition unmarshalled {A} (d : decoded A) : result A string :=
  match d with
  | Decoded a None => Ok a
  | Decoded _ (Some err) | Aborted err => Err err
  end.

Definition first_saved (e e' : option string) : option string := match e with Some _ => e | None => e' end.

Definition dmap {A B} (f : A -> B) (d : decoded A) : decoded B :=
  match d with Decoded a e => Decoded (f a) e | Aborted err => Aborted err end.

(** json.Marshal and Decode of one Go type. *)
Record codec (A : Type) := mkCodec {
  zero : A;
  enc : A -> result json string;
  dec : json -> decoded A;
}.
Arguments mkCodec {A}.
Arguments zero {A}.
Arguments enc {A}.
Arguments dec {A}.

Definition json_kind (j : json) : string :=
  match j with
  | JNull => "null"
  | JBool _ => "bool"
  | JNum _ => "number"
  | JStr _ => "string"
  | JArr _ => "array"
  | JObj _ => "object"
  end.

Definition UnmarshalTypeError (j : json) (type_ : string) : string :=
  Fmt.Sprintf "json: cannot unmarshal %s into Go value of type %s" [Fmt.GStr (json_kind j); Fmt.GStr type_].

Definition mismatch {A} (z : A) (j : json) (type_ : string) : decoded A :=
  match j with JNull => Decoded z None | _ => Decoded z (Some (UnmarshalTypeError j type_)) end.

(** ** The types of the fields *)

Definition string_codec : codec string :=
  mkCodec "" (fun s => Ok (JStr s)) (fun j => match j with JStr s => Decoded s None | _ => mismatch "" j "string" end).

Definition int32_codec : codec Z :=
  mkCodec 0 (fun z => Ok (JNum z))
    (fun j => match j with
              | JNum z => if decide (Int.int32 z = z) then Decoded z None
                          else Decoded 0 (Some (UnmarshalTypeError j "int32"))
              | _ => mismatch 0 j "int32"
              end).

(** time.Time between quotes: MarshalJSON fails outside the years 0 to 9999. *)
Class TimeJSON := {
  MarshalTime : Time -> result string string;
  UnmarshalTime : string -> result Time string;
}.
Class TimeJSONLaws `{TimeJSON} : Prop :=
  UnmarshalTime_Marshal t s : MarshalTime t = Ok s -> UnmarshalTime s = Ok t.

Definition time_codec `{TimeJSON} : codec Time :=
  mkCodec 0 (fun t => match MarshalTime t with Ok s => Ok (JStr s) | Err err => Err err end)
    (fun j => match j with
              | JStr s => match UnmarshalTime s with Ok t => Decoded t None | Err err => Aborted err end
              | JNull => Decoded 0 None
              | _ => Aborted "Time.UnmarshalJSON: input is not a JSON string"
              end).

(** *T *)
Definition ptr_codec {A} (c : codec A) : codec (option A) :=
  mkCodec None (fun p => match p with None => Ok JNull | Some a => enc c a end)
    (fun j => match j with JNull => Decoded None None | _ => dmap Some (dec c j) end).

(** map[string]interface{}, whose numbers are float64 *)
Definition range_error (z : Z) : string :=
  Fmt.Sprintf "json: cannot unmarshal number %d into Go value of type float64" [Fmt.GInt z].
Definition map_codec : codec (option (list (string * json))) :=
  mkCodec None (fun m => Ok (match m with None => JNull | Some l => JObj l end))
    (fun j => match j with
              | JObj l => Decoded (Some (Json.float_members l)) (range_error <$> Json.overflow j)
              | _ => mismatch None j "map[string]interface {}"
              end).

Fixpoint dec_list {A} (f : json -> decoded A) (l : list json) : decoded (list A) :=
  match l with
  | [] => Decoded [] None
  | j :: l => match f j with
              | Aborted err => Aborted err
              | Decoded a e => match dec_list f l with
                               | Aborted err => Aborted err
                               | Decoded l e' => Decoded (a :: l) (first_saved e e')
                               end
              end
  end.

Fixpoint enc_list {A} (f : A -> result json string) (l : list A) : result (list json) string :=
  match l with
  | [] => Ok []
  | a :: l => match f a with
              | Err err => Err err
              | Ok j => match enc_list f l with Ok js => Ok (j :: js) | Err err => Err err end
              end
  end.

(** []T; nil is [None] *)
Definition slice_codec {A} (type_ : string) (c : codec A) : codec (option (list A)) :=
  mkCodec None
    (fun s => match s with
              | None => Ok JNull
              | Some l => match enc_list (enc c) l with Ok js => Ok (JArr js) | Err err => Err err end
              end)
    (fun j => match j with JArr l => dmap Some (dec_list (dec c) l) | _ => mismatch None j type_ end).

(** map[string]string *)
Definition dec_entry (kv : string * json) : decoded (string * string) :=
  dmap (pair kv.1) (dec string_codec kv.2).
Fixpoint dec_entries (l : list (string * json)) : decoded (list (string * string)) :=
  match l with
  | [] => Decoded [] None
  | kv :: l => match dec_entry kv, dec_entries l with
               | Decoded a e, Decoded m e' => Decoded (a :: m) (first_saved e e')
               | Aborted err, _ | _, Aborted err => Aborted err
               end
  end.
Definition strings_codec : codec (list (string * string)) :=
  mkCodec [] (fun m => Ok (JObj (prod_map id JStr <$> m)))
    (fun j => match j with JObj l => dec_entries l | _ => mismatch [] j "map[string]string" end).

(** ** Structs *)

(** The assignments of a ToMap method in order: the key, and the value unless the field
    is nil. *)
Definition assignments := list (string * option (result json string)).
Definition required {A} (c : codec A) (a : A) : option (result json string) := Some (enc c a).
Definition nilable {A} (c : codec (option A)) (v : option A) : option (result json string) :=
  match v with None => None | Some _ => Some (enc c v) end.

(** toSerialize, with the values marshalled. *)
Definition serialized := result (list (string * json)) string.
Definition put (m : serialized) (kv : string * option (result json string)) : serialized :=
  match m, kv.2 with
  | Err err, _ => Err err
  | Ok l, None => Ok l
  | Ok _, Some (Err err) => Err err
  | Ok l, Some (Ok j) => Ok (oset kv.1 j l)
  end.
Definition serialize (es : assignments) : serialized := foldl put (Ok []) es.

(** json.Marshal(toSerialize) as a document. *)
Definition serialized_json (m : serialized) : result json string :=
  match m with Ok l => Ok (JObj l) | Err err => Err err end.

(** The fields of a struct: the name in the tag, and what decoding a value into the
    field notes or stops with. *)
Definition fields := list (string * (json -> decoded unit)).
Definition field_check {A} (c : codec A) : json -> decoded unit := fun j => dmap (fun _ => tt) (dec c j).

(** The field a member goes to. *)
Definition resolve (fs : fields) (key : string) : option (string * (json -> decoded unit)) :=
  match List.find (fun f => String.eqb f.1 key) fs with
  | Some f => Some f
  | None => List.find (fun f => EqualFold f.1 key) fs
  end.

Definition unknown_field (key : string) : string :=
  "json: unknown field " +:+ String Json.quote (key +:+ String Json.quote "").

(** What decoding the members, one after the other, notes. *)
Fixpoint check_members (strict : bool) (fs : fields) (l : list (string * json)) : decoded unit :=
  match l with
  | [] => Decoded tt None
  | (key, j) :: l =>
      match (match resolve fs key with
             | Some f => f.2 j
             | None => Decoded tt (if strict then Some (unknown_field key) else None)
             end) with
      | Aborted err => Aborted err
      | Decoded _ e => match check_members strict fs l with
                       | Aborted err => Aborted err
                       | Decoded _ e' => Decoded tt (first_saved e e')
                       end
      end
  end.

(** The value a field gets: that of the last member that goes to it. *)
Fixpoint member (fs : fields) (name : string) (l : list (string * json)) : option json :=
  match l with
  | [] => None
  | (key, j) :: l =>
      match member fs name l with
      | Some j => Some j
      | None => match resolve fs key with
                | Some f => if String.eqb f.1 name then Some j else None
                | None => None
                end
      end
  end.

Definition field_value {A} (c : codec A) (j : option json) : A :=
  match j with
  | None => zero c
  | Some j => match dec c j with Decoded a _ => a | Aborted _ => zero c end
  end.

(** Decoding a document into a fresh struct. *)
Definition dec_struct {S} (strict : bool) (fs : fields) (build : (string -> option json) -> S) (j : json) : decoded S :=
  match j with
  | JObj l => dmap (fun _ => build (fun name => member fs name l)) (check_members strict fs l)
  | _ => mismatch (build (fun _ => None)) j "struct"
  end.

(** ** What is written reads back *)

Definition writes {A} (c : codec A) (a : A) (j : json) : Prop :=
  enc c a = Ok j /\ Json.json_wf j = true /\ dec c j = Decoded a None.
Definition codec_ok {A} (c : codec A) (ok : A -> bool) : Prop :=
  forall a, ok a = true -> exists j, writes c a j.
Definition nonnull {A} (c : codec A) : Prop := forall a, enc c a <> Ok JNull.

Create HintDb json_codec.
#[export] Hint Extern 4 (nonnull _) => (by intros ?; discriminate) : json_codec.

Lemma string_codec_ok : codec_ok string_codec (fun _ => true).
Proof. intros s _. by exists (JStr s). Qed.

Definition int32_ok (z : Z) : bool := bool_decide (Int.int32 z = z).
Lemma int32_codec_ok : codec_ok int32_codec int32_ok.
Proof.
  intros z Hz%bool_decide_eq_true. exists (JNum z). split_and!; [done| |simpl; by rewrite decide_True].
  apply bool_decide_eq_true, Json.float64_int64. pose proof (Int.wrap_range 32 z ltac:(lia)) as Hr.
  unfold Int.int32 in Hz. rewrite Hz in Hr. lia.
Qed.

Definition time_ok `{TimeJSON} (t : Time) : bool := is_ok (MarshalTime t).
Lemma time_codec_ok `{TimeJSONLaws} : codec_ok time_codec time_ok.
Proof.
  intros t Ht. unfold time_ok in Ht. destruct (MarshalTime t) as [s|] eqn:E; [|done].
  exists (JStr s). split_and!; [cbn; by rewrite E|done|]. cbn. by rewrite (UnmarshalTime_Marshal t s E).
Qed.
Lemma time_nonnull `{TimeJSON} : nonnull time_codec.
Proof. intros t. cbn. by destruct (MarshalTime t). Qed.

Definition opt_ok {A} (ok : A -> bool) (p : option A) : bool := match p with None => true | Some a => ok a end.
Lemma ptr_codec_ok {A} (c : codec A) ok : codec_ok c ok -> nonnull c -> codec_ok (ptr_codec c) (opt_ok ok).
Proof.
  intros Hc Hn [a|] Ha; [|by exists JNull]. destruct (Hc a Ha) as (j & He & Hw & Hd). exists j. split_and!; [done..|].
  cbn. destruct j; [by destruct (Hn a)|..]; by rewrite Hd.
Qed.

Lemma oget_floats k l : oget k (Json.float_members l) = Json.floats <$> oget k l.
Proof. induction l as [|[k' v] l IH]; [done|]. cbn. case_decide; [done|exact IH]. Qed.

Definition map_ok (m : JSONMap) : bool := opt_ok (fun l => Json.json_wf (JObj l) && Json.exact (JObj l)) m.
Lemma map_codec_ok : codec_ok map_codec map_ok.
Proof.
  intros [l|] Hm; [|by exists JNull]. exists (JObj l). apply andb_prop in Hm as [Hw Hx]. split_and!; [done..|].
  cbn [dec map_codec]. by rewrite Json.float_members_exact, Json.overflow_wf.
Qed.

Lemma slice_codec_ok {A} type_ (c : codec A) ok :
  codec_ok c ok -> codec_ok (slice_codec type_ c) (opt_ok (forallb ok)).
Proof.
  intros Hc [l|] Hl; [|by exists JNull]. cbn in Hl.
  assert (exists js, enc_list (enc c) l = Ok js /\ forallb Json.json_wf js = true /\ dec_list (dec c) js = Decoded l None)
    as (js & He & Hw & Hd).
  { induction l as [|a l IH]; [by exists []|]. apply andb_true_iff in Hl as [Ha Hl].
    destruct (Hc a Ha) as (j & He & Hw & Hd), (IH Hl) as (js & Hes & Hws & Hds).
    exists (j :: js). cbn. by rewrite He, Hes, Hw, Hws, Hd, Hds. }
  exists (JArr js). split_and!; cbn; [by rewrite He|done|by rewrite Hd].
Qed.

Fixpoint sorted_strings (m : list (string * string)) : bool :=
  match m with
  | [] => true
  | (k, _) :: m => forallb (fun kv => String.ltb k kv.1) m && sorted_strings m
  end.
Lemma strings_codec_ok : codec_ok strings_codec sorted_strings.
Proof.
  intros m Hm. exists (JObj (prod_map id JStr <$> m)). split_and!; [done|..].
  - cbn. apply andb_true_iff. split; [|by induction m as [|[k v] m IH]; [|simpl in *; apply IH; apply andb_true_iff in Hm as []]].
    induction m as [|[k v] m IH]; [done|]. cbn in *. apply andb_true_iff in Hm as [Hk Hm].
    rewrite (IH Hm), andb_true_r. clear -Hk. induction m as [|[k' v'] m IH]; [done|]. cbn in *.
    apply andb_true_iff in Hk as [-> Hk]. by apply IH.
  - cbn. clear. induction m as [|[k v] m IH]; [done|]. cbn. by rewrite IH.
Qed.

(** ** Reading a serialized struct *)

Definition entry_json (v : option (result json string)) : option json :=
  match v with Some (Ok j) => Some j | _ => None end.
Fixpoint assigned (name : string) (es : assignments) : option json :=
  match es with
  | [] => None
  | (k, v) :: es => if String.eqb name k then entry_json v else assigned name es
  end.

(** A value that is written under a key goes to the field of that name, without an error. *)
Definition fits (fs : fields) (kv : string * json) : Prop :=
  Json.json_wf kv.2 = true /\
  exists f, List.find (fun f => String.eqb f.1 kv.1) fs = Some f /\ f.2 kv.2 = Decoded tt None.
Definition assignment_ok (fs : fields) (kv : string * option (result json string)) : Prop :=
  match kv.2 with None => True | Some r => exists j, r = Ok j /\ fits fs (kv.1, j) end.

(** *** Sorted keys *)

Lemma string_lt_trans (a b c : string) : String.ltb a b = true -> String.ltb b c = true -> String.ltb a c = true.
Proof.
  unfold String.ltb. revert b c. induction a as [|x a IH]; intros [|y b] [|z c]; try done. cbn.
  unfold Ascii.compare.
  destruct (N.compare_spec (N_of_ascii x) (N_of_ascii y)) as [Hxy|Hxy|Hxy]; try done;
    destruct (N.compare_spec (N_of_ascii y) (N_of_ascii z)) as [Hyz|Hyz|Hyz]; try done; intros H1 H2.
  - rewrite Hxy, Hyz, N.compare_refl. by apply (IH b).
  - by rewrite Hxy, (proj2 (N.compare_lt_iff _ _) Hyz).
  - by rewrite <-Hyz, (proj2 (N.compare_lt_iff _ _) Hxy).
  - by rewrite (proj2 (N.compare_lt_iff _ _)) by lia.
Qed.

Lemma below_oset (a k : string) v (l : list (string * json)) : String.ltb a k = true -> forallb (fun kv => String.ltb a kv.1) l = true ->
  forallb (fun kv => String.ltb a kv.1) (oset k v l) = true.
Proof.
  intros Hk. induction l as [|[k' v'] l IH]; cbn; [by rewrite Hk|]. intros [Hk' Hl]%andb_true_iff.
  destruct (String.compare k k'); cbn; rewrite ?Hk, ?Hk', ?Hl, ?IH; done.
Qed.

Lemma oset_sorted k v l : Json.sorted_keys l = true -> Json.sorted_keys (oset k v l) = true.
Proof.
  induction l as [|[k' v'] l IH]; [done|]. cbn. intros [Hb Hs]%andb_true_iff.
  destruct (String.compare k k') eqn:E; cbn.
  - apply String.compare_eq_iff in E as ->. by rewrite Hb, Hs.
  - assert (String.ltb k k' = true) as Hlt by (unfold String.ltb; by rewrite E). rewrite Hlt, Hb, Hs.
    rewrite !andb_true_r. apply forallb_forall. intros kv Hkv.
    eapply string_lt_trans; [done|]. by apply (proj1 (forallb_forall _ _) Hb).
  - rewrite (IH Hs), andb_true_r. apply below_oset; [|done]. unfold String.ltb.
    rewrite String.compare_antisym, E. done.
Qed.

Lemma sorted_absent (k : string) l : forallb (fun kv => String.ltb k kv.1) l = true -> oget k l = None.
Proof.
  induction l as [|[k' v'] l IH]; [done|]. cbn. intros [Hk Hl]%andb_true_iff.
  rewrite decide_False; [by apply IH|]. intros ->. unfold String.ltb in Hk.
  pose proof (String.compare_antisym k' k') as Ha. by destruct (String.compare k' k').
Qed.

(** *** Members and fields *)

Definition good (fs : fields) (l : list (string * json)) : Prop := Json.sorted_keys l = true /\ Forall (fits fs) l.

Lemma fits_resolve fs key j :
  fits fs (key, j) -> exists f, resolve fs key = Some f /\ f.1 = key /\ f.2 j = Decoded tt None.
Proof.
  intros (_ & f & Hf & Hd). exists f. unfold resolve. cbn in Hf. rewrite Hf. split_and!; [done| |done].
  apply find_some in Hf as [_ Hf]. by apply String.eqb_eq.
Qed.

Lemma good_check strict fs l : Forall (fits fs) l -> check_members strict fs l = Decoded tt None.
Proof.
  induction 1 as [|[key j] l Hk _ IH]; [done|]. cbn.
  destruct (fits_resolve _ _ _ Hk) as (f & -> & _ & ->). by rewrite IH.
Qed.

Lemma good_member fs name l : good fs l -> member fs name l = oget name l.
Proof.
  intros [Hs Hf]. induction Hf as [|[key j] l Hk Hl IH]; [done|]. cbn in *. apply andb_true_iff in Hs as [Hb Hs].
  rewrite (IH Hs). destruct (fits_resolve _ _ _ Hk) as (f & -> & -> & _).
  destruct (String.eqb_spec key name) as [->|Hne].
  - by rewrite (sorted_absent name l Hb), decide_True.
  - rewrite decide_False by done. by destruct (oget name l).
Qed.

Lemma good_wf fs l : good fs l -> Json.json_wf (JObj l) = true.
Proof.
  intros [Hs Hf]. cbn. rewrite Hs. cbn. apply forallb_forall. intros kv Hkv%list_elem_of_In.
  by destruct (proj1 (Forall_forall _ _) Hf _ Hkv).
Qed.

Lemma Forall_oset fs k v l : fits fs (k, v) -> Forall (fits fs) l -> Forall (fits fs) (oset k v l).
Proof.
  intros Hk. induction 1 as [|[k' v'] l Hk' Hl IH]; cbn; [by constructor|].
  destruct (String.compare k k'); by repeat apply Forall_cons_2.
Qed.

Lemma oget_oset_eqb name k v l : oget name (oset k v l) = if String.eqb name k then Some v else oget name l.
Proof. destruct (String.eqb_spec name k) as [->|]; [apply oget_oset|by apply oget_oset_ne]. Qed.

Lemma assigned_key name es j : assigned name es = Some j -> name ∈ es.*1.
Proof.
  induction es as [|[k v] es IH]; [done|]. cbn. destruct (String.eqb_spec name k) as [->|]; [left|right; auto].
Qed.

Lemma serialize_from fs es l :
  good fs l -> Forall (assignment_ok fs) es -> NoDup es.*1 -> Forall (fun kv => oget kv.1 l = None) es ->
  exists l', foldl put (Ok l) es = Ok l' /\ good fs l' /\
    forall name, oget name l' = match assigned name es with Some j => Some j | None => oget name l end.
Proof.
  revert l. induction es as [|[k v] es IH]; intros l Hl Hes Hnd Hnew; [by exists l|].
  apply Forall_cons in Hes as [Hk Hes], Hnew as [Hkn Hnew]. apply NoDup_cons in Hnd as [Hkes Hnd]. cbn in *.
  destruct v as [r|]; cbn in *.
  - destruct Hk as (j & -> & Hj). destruct (IH (oset k j l)) as (l' & Hf & Hg & Ho); [|done|done|..].
    + destruct Hl as [Hs Hf]. split; [by apply oset_sorted|by apply Forall_oset].
    + apply Forall_forall. intros [k' v'] Hin. cbn. rewrite oget_oset_eqb.
      destruct (String.eqb_spec k' k) as [->|]; [by destruct Hkes; apply (list_elem_of_fmap_2 fst _ _ Hin)|].
      by apply (proj1 (Forall_forall _ _) Hnew _ Hin).
    + exists l'. split_and!; [done..|]. intros name. rewrite (Ho name), oget_oset_eqb.
      destruct (String.eqb_spec name k) as [->|]; [|done].
      destruct (assigned k es) as [j'|] eqn:E; [|done]. by destruct Hkes; eapply assigned_key.
  - destruct (IH l) as (l' & Hf & Hg & Ho); [done..|]. exists l'. split_and!; [done..|]. intros name. rewrite (Ho name).
    destruct (String.eqb_spec name k) as [->|]; [|done].
    destruct (assigned k es) as [j'|] eqn:E; [|done]. by destruct Hkes; eapply assigned_key.
Qed.

Lemma serialize_ok fs es :
  Forall (assignment_ok fs) es -> NoDup es.*1 ->
  exists l, serialize es = Ok l /\ good fs l /\ forall name, oget name l = assigned name es.
Proof.
  intros Hes Hnd. destruct (serialize_from fs es []) as (l & Hs & Hg & Ho); [by split|done..| |].
  - by apply Forall_forall.
  - exists l. split_and!; [done..|]. intros name. rewrite (Ho name). by destruct (assigned name es).
Qed.

(** A struct whose ToMap makes the assignments [es] and whose fields are read back from
    them is read back. *)
Lemma struct_reads {S} strict fs es (build : (string -> option json) -> S) s :
  Forall (assignment_ok fs) es -> NoDup es.*1 ->
  (forall look, (forall name, look name = assigned name es) -> build look = s) ->
  exists j, serialized_json (serialize es) = Ok j /\ Json.json_wf j = true /\ j <> JNull /\
    dec_struct strict fs build j = Decoded s None.
Proof.
  intros Hes Hnd Hb. destruct (serialize_ok fs es) as (l & Hs & Hg & Ho); [done..|].
  exists (JObj l). rewrite Hs. split_and!; [done|by eapply good_wf|done|]. cbn. rewrite good_check by apply Hg. cbn.
  f_equal. apply Hb. intros name. by rewrite good_member, Ho.
Qed.

(** *** Single fields *)

Lemma assignment_required {A} fs key (c : codec A) ok a f :
  codec_ok c ok -> ok a = true -> List.find (fun f => String.eqb f.1 key) fs = Some (f, field_check c) ->
  assignment_ok fs (key, required c a).
Proof.
  intros Hc Ha Hf. destruct (Hc a Ha) as (j & He & Hw & Hd). exists j. split; [done|]. split; [done|].
  eexists. split; [done|]. cbn. unfold field_check. by rewrite Hd.
Qed.

Lemma assignment_nilable {A} fs key (c : codec (option A)) ok v f :
  codec_ok c ok -> ok v = true -> List.find (fun f => String.eqb f.1 key) fs = Some (f, field_check c) ->
  assignment_ok fs (key, nilable c v).
Proof. intros Hc Hv Hf. destruct v as [a|]; [|done]. by apply (assignment_required fs key c ok (Some a) f). Qed.

Lemma value_required {A} (c : codec A) ok a :
  codec_ok c ok -> ok a = true -> field_value c (entry_json (required c a)) = a.
Proof. intros Hc Ha. destruct (Hc a Ha) as (j & He & _ & Hd). cbn. rewrite He. cbn. by rewrite Hd. Qed.

Lemma value_nilable {A} (c : codec (option A)) ok v :
  codec_ok c ok -> zero c = None -> ok v = true -> field_value c (entry_json (nilable c v)) = v.
Proof. intros Hc Hz Hv. destruct v as [a|]; [|done]. by apply (value_required c ok (Some a)). Qed.
