(* ===== verification/GoMap.v ===== *)
(** * Go maps with string keys

    A map is the list of its entries in the order of the keys, as the other files keep the
    maps they take from documents. *)

From S2P Require Import Prelude GoLib Types Json JsonStruct.

Section Ops.
Context {V : Type}.
Implicit Types m : list (string * V).

Fixpoint get (k : string) m : option V :=
  match m with
  | [] => None
  | (k', v) :: m => if String.eqb k k' then Some v else get k m
  end.

(** m[k] = v *)
Fixpoint set (k : string) (v : V) m : list (string * V) :=
  match m with
  | [] => [(k, v)]
  | (k', v') :: m' =>
      match String.compare k k' with
      | Eq => (k, v) :: m'
      | Lt => (k, v) :: m
      | Gt => (k', v') :: set k v m'
      end
  end.

(** delete(m, k) *)
Fixpoint delete (k : string) m : list (string * V) :=
  match m with
  | [] => []
  | (k', v) :: m => if String.eqb k k' then delete k m else (k', v) :: delete k m
  end.

Fixpoint sorted m : bool :=
  match m with
  | [] => true
  | (k, _) :: m => forallb (fun kv => String.ltb k kv.1) m && sorted m
  end.

(** Every entry of [from], one after the other, put into [m]. *)
Definition put_all (from m : list (string * V)) : list (string * V) := foldl (fun m kv => set kv.1 kv.2 m) m from.

Lemma get_set k v m name : get name (set k v m) = if String.eqb name k then Some v else get name m.
Proof.
  induction m as [|[k' v'] m IH]; cbn; [by destruct (String.eqb name k)|].
  destruct (String.compare k k') eqn:E; cbn.
  - apply String.compare_eq_iff in E as ->. by destruct (String.eqb name k').
  - by destruct (String.eqb name k).
  - rewrite IH. destruct (String.eqb_spec name k') as [->|]; [|done].
    destruct (String.eqb_spec k' k) as [->|]; [|done]. pose proof (String.compare_antisym k k) as Ha. by rewrite E in Ha.
Qed.

Lemma get_delete k m name : get name (delete k m) = if String.eqb name k then None else get name m.
Proof.
  induction m as [|[k' v'] m IH]; cbn; [by destruct (String.eqb name k)|].
  destruct (String.eqb_spec k k') as [->|Hk]; cbn; rewrite IH; [by destruct (String.eqb name k')|].
  destruct (String.eqb_spec name k') as [->|]; [|done]. by rewrite (proj2 (String.eqb_neq k' k)) by done.
Qed.

(** The last entry of a key wins. *)
Fixpoint last_get (k : string) m : option V :=
  match m with
  | [] => None
  | (k', v) :: m => match last_get k m with
                    | Some v' => Some v'
                    | None => if String.eqb k k' then Some v else None
                    end
  end.

Lemma get_put_all from m name :
  get name (put_all from m) = match last_get name from with Some v => Some v | None => get name m end.
Proof.
  unfold put_all. revert m. induction from as [|[k v] from IH]; intros m; cbn; [done|]. rewrite IH, get_set. cbn.
  destruct (last_get name from); [done|]. by destruct (String.eqb name k).
Qed.

Lemma get_delete_all keys m name :
  get name (foldl (fun m k => delete k m) m keys) = if existsb (String.eqb name) keys then None else get name m.
Proof.
  revert m. induction keys as [|k keys IH]; intros m; cbn; [done|]. rewrite IH, get_delete.
  destruct (existsb (String.eqb name) keys); [by rewrite orb_true_r|]. by rewrite orb_false_r.
Qed.

Lemma below_set a k v m :
  String.ltb a k = true -> forallb (fun kv => String.ltb a kv.1) m = true -> forallb (fun kv => String.ltb a kv.1) (set k v m) = true.
Proof.
  intros Hk. induction m as [|[k' v'] m IH]; cbn; [by rewrite Hk|]. intros [Hk' Hm]%andb_true_iff.
  destruct (String.compare k k'); cbn; rewrite ?Hk, ?Hk', ?Hm, ?IH; done.
Qed.

Lemma sorted_set k v m : sorted m = true -> sorted (set k v m) = true.
Proof.
  induction m as [|[k' v'] m IH]; [done|]. cbn. intros [Hb Hs]%andb_true_iff.
  destruct (String.compare k k') eqn:E; cbn.
  - apply String.compare_eq_iff in E as ->. by rewrite Hb, Hs.
  - assert (String.ltb k k' = true) as Hlt by (unfold String.ltb; by rewrite E). rewrite Hlt, Hb, Hs, !andb_true_r.
    apply forallb_forall. intros kv Hkv. eapply string_lt_trans; [done|]. by apply (proj1 (forallb_forall _ _) Hb).
  - rewrite (IH Hs), andb_true_r. apply below_set; [|done]. unfold String.ltb. by rewrite String.compare_antisym, E.
Qed.

Lemma below_delete a k m :
  forallb (fun kv => String.ltb a kv.1) m = true -> forallb (fun kv => String.ltb a kv.1) (delete k m) = true.
Proof.
  induction m as [|[k' v'] m IH]; [done|]. cbn. intros [Hk' Hm]%andb_true_iff.
  destruct (String.eqb k k'); cbn; rewrite ?Hk', IH; done.
Qed.

Lemma sorted_delete k m : sorted m = true -> sorted (delete k m) = true.
Proof.
  induction m as [|[k' v'] m IH]; [done|]. cbn. intros [Hb Hs]%andb_true_iff.
  destruct (String.eqb k k'); [by apply IH|]. cbn. by rewrite (IH Hs), below_delete.
Qed.

Lemma sorted_put_all from m : sorted m = true -> sorted (put_all from m) = true.
Proof. unfold put_all. revert m. induction from as [|kv from IH]; intros m Hm; [done|]. by apply IH, sorted_set. Qed.

Lemma sorted_delete_all keys m : sorted m = true -> sorted (foldl (fun m k => delete k m) m keys) = true.
Proof. revert m. induction keys as [|k keys IH]; intros m Hm; [done|]. by apply IH, sorted_delete. Qed.
End Ops.

Lemma sorted_strings_sorted (m : list (string * string)) : sorted_strings m = sorted m.
Proof. induction m as [|[k v] m IH]; [done|]. cbn. by rewrite IH. Qed.
