(* ===== verification/Models.v ===== *)
(** * pkg/api/openapi: the generated models as JSON

    model_*.go: for each model its fields, ToMap, MarshalJSON and, for the lists,
    UnmarshalJSON, which asks for every required property and refuses members it does not
    know. The accessors are in ModelAccessors.v. *)

From S2P Require Import Prelude GoLib Errors Types Json Bundle Presenters JsonStruct.
Import api Strings Fmt.

Open Scope Z_scope.

Section Models.
Context `{tj : TimeJSON}.

Definition str_ptr : codec (option string) := ptr_codec string_codec.
Definition int32_ptr : codec (option Z) := ptr_codec int32_codec.
Definition time_ptr : codec (option Time) := ptr_codec time_codec.
Definition labels_ptr : codec (option (list (string * string))) := ptr_codec strings_codec.
Definition maps_codec : codec (option (list JSONMap)) := slice_codec "[]map[string]interface {}" map_codec.

(** The encoder and the decoder of a struct type. *)
Definition struct_codec {S} (strict : bool) (fs : fields) (build : (string -> option json) -> S)
  (ToMap : S -> serialized) : codec S :=
  mkCodec (build (fun _ => None)) (fun o => serialized_json (ToMap o)) (dec_struct strict fs build).

(** MarshalJSON *)
Definition MarshalJSON {S} (ToMap : S -> serialized) (o : S) : result string string :=
  match serialized_json (ToMap o) with Ok j => Ok (Json.Marshal j) | Err err => Err err end.

(** ** model_object_reference.go *)

Definition ObjectReference_fields : fields :=
  [("id", field_check str_ptr); ("kind", field_check str_ptr); ("href", field_check str_ptr)].
Definition ObjectReference_build (m : string -> option json) : ObjectReference :=
  mkObjectReference (field_value str_ptr (m "id")) (field_value str_ptr (m "kind")) (field_value str_ptr (m "href")).
Definition ObjectReference_assignments (o : ObjectReference) : assignments :=
  [("id", nilable str_ptr o.(ref_Id)); ("kind", nilable str_ptr o.(ref_Kind)); ("href", nilable str_ptr o.(ref_Href))].
Definition ObjectReference_ToMap (o : ObjectReference) : serialized := serialize (ObjectReference_assignments o).
Definition ObjectReference_codec (strict : bool) : codec ObjectReference :=
  struct_codec strict ObjectReference_fields ObjectReference_build ObjectReference_ToMap.

(** ** model_consumer.go *)

Definition Consumer_fields : fields :=
  [("id", field_check str_ptr); ("kind", field_check str_ptr); ("href", field_check str_ptr);
   ("name", field_check str_ptr); ("labels", field_check labels_ptr);
   ("created_at", field_check time_ptr); ("updated_at", field_check time_ptr)].
Definition Consumer_build (m : string -> option json) : OpenConsumer :=
  mkOpenConsumer (field_value str_ptr (m "id")) (field_value str_ptr (m "kind")) (field_value str_ptr (m "href"))
    (field_value str_ptr (m "name")) (field_value labels_ptr (m "labels"))
    (field_value time_ptr (m "created_at")) (field_value time_ptr (m "updated_at")).
Definition Consumer_assignments (o : OpenConsumer) : assignments :=
  [("id", nilable str_ptr o.(oc_Id)); ("kind", nilable str_ptr o.(oc_Kind)); ("href", nilable str_ptr o.(oc_Href));
   ("name", nilable str_ptr o.(oc_Name)); ("labels", nilable labels_ptr o.(oc_Labels));
   ("created_at", nilable time_ptr o.(oc_CreatedAt)); ("updated_at", nilable time_ptr o.(oc_UpdatedAt))].
Definition Consumer_ToMap (o : OpenConsumer) : serialized := serialize (Consumer_assignments o).
Definition Consumer_codec (strict : bool) : codec OpenConsumer :=
  struct_codec strict Consumer_fields Consumer_build Consumer_ToMap.

(** ** model_consumer_patch_request.go *)

Definition ConsumerPatchRequest_fields : fields := [("labels", field_check labels_ptr)].
Definition ConsumerPatchRequest_build (m : string -> option json) : ConsumerPatchRequest :=
  mkConsumerPatchRequest (field_value labels_ptr (m "labels")).
Definition ConsumerPatchRequest_assignments (o : ConsumerPatchRequest) : assignments :=
  [("labels", nilable labels_ptr o.(p_Labels))].
Definition ConsumerPatchRequest_ToMap (o : ConsumerPatchRequest) : serialized :=
  serialize (ConsumerPatchRequest_assignments o).
Definition ConsumerPatchRequest_codec (strict : bool) : codec ConsumerPatchRequest :=
  struct_codec strict ConsumerPatchRequest_fields ConsumerPatchRequest_build ConsumerPatchRequest_ToMap.

(** ** model_error.go *)

Definition Error_fields : fields :=
  [("id", field_check str_ptr); ("kind", field_check str_ptr); ("href", field_check str_ptr);
   ("code", field_check str_ptr); ("reason", field_check str_ptr); ("operation_id", field_check str_ptr)].
Definition Error_build (m : string -> option json) : OpenError :=
  mkOpenError (field_value str_ptr (m "id")) (field_value str_ptr (m "kind")) (field_value str_ptr (m "href"))
    (field_value str_ptr (m "code")) (field_value str_ptr (m "reason")) (field_value str_ptr (m "operation_id")).
Definition Error_assignments (o : OpenError) : assignments :=
  [("id", nilable str_ptr o.(er_Id)); ("kind", nilable str_ptr o.(er_Kind)); ("href", nilable str_ptr o.(er_Href));
   ("code", nilable str_ptr o.(er_Code)); ("reason", nilable str_ptr o.(er_Reason));
   ("operation_id", nilable str_ptr o.(er_OperationId))].
Definition Error_ToMap (o : OpenError) : serialized := serialize (Error_assignments o).
Definition Error_codec (strict : bool) : codec OpenError := struct_codec strict Error_fields Error_build Error_ToMap.

(** ** model_resource_bundle.go *)

Definition ResourceBundle_fields : fields :=
  [("id", field_check str_ptr); ("kind", field_check str_ptr); ("href", field_check str_ptr);
   ("name", field_check str_ptr); ("consumer_name", field_check str_ptr); ("version", field_check int32_ptr);
   ("created_at", field_check time_ptr); ("updated_at", field_check time_ptr); ("deleted_at", field_check time_ptr);
   ("metadata", field_check map_codec); ("manifests", field_check maps_codec);
   ("delete_option", field_check map_codec); ("manifest_configs", field_check maps_codec);
   ("status", field_check map_codec)].
Definition ResourceBundle_build (m : string -> option json) : ResourceBundle :=
  mkResourceBundle (field_value str_ptr (m "id")) (field_value str_ptr (m "kind")) (field_value str_ptr (m "href"))
    (field_value str_ptr (m "name")) (field_value str_ptr (m "consumer_name")) (field_value int32_ptr (m "version"))
    (field_value time_ptr (m "created_at")) (field_value time_ptr (m "updated_at")) (field_value time_ptr (m "deleted_at"))
    (field_value map_codec (m "metadata")) (field_value maps_codec (m "manifests"))
    (field_value map_codec (m "delete_option")) (field_value maps_codec (m "manifest_configs"))
    (field_value map_codec (m "status")).
Definition ResourceBundle_assignments (o : ResourceBundle) : assignments :=
  [("id", nilable str_ptr o.(rb_Id)); ("kind", nilable str_ptr o.(rb_Kind)); ("href", nilable str_ptr o.(rb_Href));
   ("name", nilable str_ptr o.(rb_Name)); ("consumer_name", nilable str_ptr o.(rb_ConsumerName));
   ("version", nilable int32_ptr o.(rb_Version)); ("created_at", nilable time_ptr o.(rb_CreatedAt));
   ("updated_at", nilable time_ptr o.(rb_UpdatedAt)); ("deleted_at", nilable time_ptr o.(rb_DeletedAt));
   ("metadata", nilable map_codec o.(rb_Metadata)); ("manifests", nilable maps_codec o.(rb_Manifests));
   ("delete_option", nilable map_codec o.(rb_DeleteOption));
   ("manifest_configs", nilable maps_codec o.(rb_ManifestConfigs)); ("status", nilable map_codec o.(rb_Status))].
Definition ResourceBundle_ToMap (o : ResourceBundle) : serialized := serialize (ResourceBundle_assignments o).
Definition ResourceBundle_codec (strict : bool) : codec ResourceBundle :=
  struct_codec strict ResourceBundle_fields ResourceBundle_build ResourceBundle_ToMap.
End Models.

(** ** model_list.go and the lists of models *)

Record ModelList (A : Type) := mkModelList {
  ml_Kind : string;
  ml_Page : Z;
  ml_Size : Z;
  ml_Total : Z;
  (** a nil slice is [None] *)
  ml_Items : option (list A);
}.
Arguments mkModelList {A}.
Arguments ml_Kind {A}.
Arguments ml_Page {A}.
Arguments ml_Size {A}.
Arguments ml_Total {A}.
Arguments ml_Items {A}.

Definition paging_fields : fields :=
  [("kind", field_check string_codec); ("page", field_check int32_codec); ("size", field_check int32_codec);
   ("total", field_check int32_codec)].

Section Lists.
(** The item of the list: its type name, and its codec in a strict decoder. *)
Context {A : Type} (item : string) (c : codec A).

Definition items_codec : codec (option (list A)) := slice_codec item c.
Definition List_fields : fields := paging_fields ++ [("items", field_check items_codec)].
Definition List_build (m : string -> option json) : ModelList A :=
  mkModelList (field_value string_codec (m "kind")) (field_value int32_codec (m "page"))
    (field_value int32_codec (m "size")) (field_value int32_codec (m "total")) (field_value items_codec (m "items")).
Definition List_assignments (o : ModelList A) : assignments :=
  [("kind", required string_codec o.(ml_Kind)); ("page", required int32_codec o.(ml_Page));
   ("size", required int32_codec o.(ml_Size)); ("total", required int32_codec o.(ml_Total));
   ("items", required items_codec o.(ml_Items))].
Definition List_ToMap (o : ModelList A) : serialized := serialize (List_assignments o).
Definition requiredProperties : list string := ["kind"; "page"; "size"; "total"; "items"].
End Lists.

(** The loop over the required properties. *)
Fixpoint missing_property (required : list string) (allProperties : JSONMap) : option string :=
  match required with
  | [] => None
  | p :: required => match jget p allProperties with
                     | Some _ => missing_property required allProperties
                     | None => Some (Sprintf "no value given for required property %v" [GStr p])
                     end
  end.

(** UnmarshalJSON of a list model, from the document its data is. *)
Definition UnmarshalJSON {S} (required : list string) (fs : fields) (build : (string -> option json) -> S) (j : json) :
  result S string :=
  match unmarshalled (dec map_codec j) with
  | Err err => Err err
  | Ok allProperties =>
      match missing_property required allProperties with
      | Some err => Err err
      | None => unmarshalled (dec_struct true fs build j)
      end
  end.

(** List itself has no items. *)
Definition PlainList_build (m : string -> option json) : ModelList unit :=
  mkModelList (field_value string_codec (m "kind")) (field_value int32_codec (m "page"))
    (field_value int32_codec (m "size")) (field_value int32_codec (m "total")) None.
Definition PlainList_assignments (o : ModelList unit) : assignments :=
  [("kind", required string_codec o.(ml_Kind)); ("page", required int32_codec o.(ml_Page));
   ("size", required int32_codec o.(ml_Size)); ("total", required int32_codec o.(ml_Total))].
Definition PlainList_ToMap (o : ModelList unit) : serialized := serialize (PlainList_assignments o).
Definition PlainList_UnmarshalJSON (j : json) : result (ModelList unit) string :=
  UnmarshalJSON ["kind"; "page"; "size"; "total"] paging_fields PlainList_build j.

Section ModelLists.
Context `{tj : TimeJSON}.
Definition ResourceBundleList_ToMap : ModelList ResourceBundle -> serialized :=
  List_ToMap "[]openapi.ResourceBundle" (ResourceBundle_codec true).
Definition ResourceBundleList_UnmarshalJSON (j : json) : result (ModelList ResourceBundle) string :=
  UnmarshalJSON requiredProperties (List_fields "[]openapi.ResourceBundle" (ResourceBundle_codec true))
    (List_build "[]openapi.ResourceBundle" (ResourceBundle_codec true)) j.
Definition ConsumerList_ToMap : ModelList OpenConsumer -> serialized :=
  List_ToMap "[]openapi.Consumer" (Consumer_codec true).
Definition ConsumerList_UnmarshalJSON (j : json) : result (ModelList OpenConsumer) string :=
  UnmarshalJSON requiredProperties (List_fields "[]openapi.Consumer" (Consumer_codec true))
    (List_build "[]openapi.Consumer" (Consumer_codec true)) j.
End ModelLists.
Definition ErrorList_ToMap : ModelList OpenError -> serialized := List_ToMap "[]openapi.Error" (Error_codec true).
Definition ErrorList_UnmarshalJSON (j : json) : result (ModelList OpenError) string :=
  UnmarshalJSON requiredProperties (List_fields "[]openapi.Error" (Error_codec true))
    (List_build "[]openapi.Error" (Error_codec true)) j.
