(* ===== verification/ModelFacts.v ===== *)
(** * The generated models: what is written reads back

    A model is [ok] when its integers fit in 32 bits, its times can be written and the
    keys of its maps are in order, as those of a Go map are when it is marshalled. Every
    model that is [ok] is read back as it was, by a strict decoder and by a lax one. *)

From S2P Require Import Prelude GoLib Errors Types Json Bundle Presenters JsonStruct Models.
Import api Strings.

Open Scope Z_scope.

(** The base codecs, for the proofs about the structs. *)
Lemma str_ptr_ok : codec_ok str_ptr (fun _ => true).
Proof. intros p _. eapply ptr_codec_ok; [apply string_codec_ok|auto with json_codec|]. by destruct p. Qed.
Lemma int32_ptr_ok : codec_ok int32_ptr (opt_ok int32_ok).
Proof. apply ptr_codec_ok; [apply int32_codec_ok|auto with json_codec]. Qed.
Lemma time_ptr_ok `{TimeJSONLaws} : codec_ok time_ptr (opt_ok time_ok).
Proof. apply ptr_codec_ok; [apply time_codec_ok|apply time_nonnull]. Qed.
Lemma labels_ptr_ok : codec_ok labels_ptr (opt_ok sorted_strings).
Proof. apply ptr_codec_ok; [apply strings_codec_ok|auto with json_codec]. Qed.
Lemma maps_codec_ok : codec_ok maps_codec (opt_ok (forallb map_ok)).
Proof. apply slice_codec_ok, map_codec_ok. Qed.
#[export] Hint Resolve str_ptr_ok int32_ptr_ok time_ptr_ok labels_ptr_ok maps_codec_ok map_codec_ok string_codec_ok
  int32_codec_ok : json_codec.

Ltac split_ok := repeat match goal with H : (_ && _)%bool = true |- _ => apply andb_true_iff in H as [? ?] end.
Ltac solve_assignments :=
  repeat (apply Forall_cons; split;
          [first [eapply assignment_nilable | eapply assignment_required]; [by auto with json_codec|done|reflexivity]|]);
  by apply Forall_nil.
Ltac solve_names := cbn; apply (bool_decide_unpack _); by vm_compute.
Ltac solve_struct :=
  cbn [assigned String.eqb Ascii.eqb Bool.eqb];
  repeat (first [erewrite value_nilable by (first [done | by auto with json_codec])
                |erewrite value_required by (first [done | by auto with json_codec])]);
  done.

Definition consumer_ok `{TimeJSON} (o : OpenConsumer) : bool :=
  opt_ok sorted_strings o.(oc_Labels) && opt_ok time_ok o.(oc_CreatedAt) && opt_ok time_ok o.(oc_UpdatedAt).
Definition patch_ok (o : ConsumerPatchRequest) : bool := opt_ok sorted_strings o.(p_Labels).
Definition bundle_ok `{TimeJSON} (o : ResourceBundle) : bool :=
  opt_ok int32_ok o.(rb_Version) && opt_ok time_ok o.(rb_CreatedAt) && opt_ok time_ok o.(rb_UpdatedAt)
  && opt_ok time_ok o.(rb_DeletedAt) && map_ok o.(rb_Metadata) && opt_ok (forallb map_ok) o.(rb_Manifests)
  && map_ok o.(rb_DeleteOption) && opt_ok (forallb map_ok) o.(rb_ManifestConfigs) && map_ok o.(rb_Status).

(** A struct whose fields are read back is read back. *)
Lemma struct_codec_ok {S} strict fs (build : (string -> option json) -> S) assign (ok : S -> bool) :
  (forall o, ok o = true -> Forall (assignment_ok fs) (assign o)) ->
  (forall o, NoDup (assign o).*1) ->
  (forall o, ok o = true -> forall look, (forall name, look name = assigned name (assign o)) -> build look = o) ->
  codec_ok (struct_codec strict fs build (fun o => serialize (assign o))) ok /\
  nonnull (struct_codec strict fs build (fun o => serialize (assign o))).
Proof.
  intros Ha Hn Hb. split.
  - intros o Ho. destruct (struct_reads strict fs (assign o) build o) as (j & He & Hw & _ & Hd);
      [by apply Ha|by apply Hn|by apply Hb|by exists j].
  - intros o. unfold struct_codec. simpl. by destruct (serialize (assign o)).
Qed.

Section Facts.
Context `{tj : TimeJSON} `{tl : !TimeJSONLaws}.

Lemma ObjectReference_ok strict : codec_ok (ObjectReference_codec strict) (fun _ => true).
Proof.
  apply (struct_codec_ok _ _ _ ObjectReference_assignments); [intros [] _|intros []|intros [] _].
  - solve_assignments.
  - solve_names.
  - intros look Hl. unfold ObjectReference_build. rewrite !Hl. unfold ObjectReference_assignments. solve_struct.
Qed.

Lemma Consumer_nonnull strict : nonnull (Consumer_codec strict).
Proof. intros o. unfold Consumer_codec, struct_codec, Consumer_ToMap. simpl enc. by destruct (serialize (Consumer_assignments o)). Qed.

Lemma Consumer_ok strict : codec_ok (Consumer_codec strict) consumer_ok.
Proof.
  apply (struct_codec_ok _ _ _ Consumer_assignments); unfold consumer_ok; [intros [] ?|intros []|intros [] ?]; cbn in *; split_ok.
  - solve_assignments.
  - solve_names.
  - intros look Hl. unfold Consumer_build. rewrite !Hl. unfold Consumer_assignments. solve_struct.
Qed.

Lemma ConsumerPatchRequest_nonnull strict : nonnull (ConsumerPatchRequest_codec strict).
Proof. intros o. unfold ConsumerPatchRequest_codec, struct_codec, ConsumerPatchRequest_ToMap. simpl enc. by destruct (serialize (ConsumerPatchRequest_assignments o)). Qed.

Lemma ConsumerPatchRequest_ok strict : codec_ok (ConsumerPatchRequest_codec strict) patch_ok.
Proof.
  apply (struct_codec_ok _ _ _ ConsumerPatchRequest_assignments); unfold patch_ok; [intros [] ?|intros []|intros [] ?]; cbn in *.
  - solve_assignments.
  - solve_names.
  - intros look Hl. unfold ConsumerPatchRequest_build. rewrite !Hl. unfold ConsumerPatchRequest_assignments. solve_struct.
Qed.

Lemma Error_nonnull strict : nonnull (Error_codec strict).
Proof. intros o. unfold Error_codec, struct_codec, Error_ToMap. simpl enc. by destruct (serialize (Error_assignments o)). Qed.

Lemma Error_ok strict : codec_ok (Error_codec strict) (fun _ => true).
Proof.
  apply (struct_codec_ok _ _ _ Error_assignments); [intros [] _|intros []|intros [] _].
  - solve_assignments.
  - solve_names.
  - intros look Hl. unfold Error_build. rewrite !Hl. unfold Error_assignments. solve_struct.
Qed.

Lemma ResourceBundle_nonnull strict : nonnull (ResourceBundle_codec strict).
Proof. intros o. unfold ResourceBundle_codec, struct_codec, ResourceBundle_ToMap. simpl enc. by destruct (serialize (ResourceBundle_assignments o)). Qed.

Lemma ResourceBundle_ok strict : codec_ok (ResourceBundle_codec strict) bundle_ok.
Proof.
  apply (struct_codec_ok _ _ _ ResourceBundle_assignments); unfold bundle_ok; [intros [] ?|intros []|intros [] ?]; cbn in *; split_ok.
  - solve_assignments.
  - solve_names.
  - intros look Hl. unfold ResourceBundle_build. rewrite !Hl. unfold ResourceBundle_assignments. solve_struct.
Qed.
End Facts.

(** ** The lists *)

Section ListFacts.
Context {A : Type} (item : string) (c : codec A) (ok : A -> bool).
Hypothesis Hc : codec_ok c ok.

Definition list_ok (o : ModelList A) : bool :=
  int32_ok o.(ml_Page) && int32_ok o.(ml_Size) && int32_ok o.(ml_Total) && opt_ok (forallb ok) o.(ml_Items).

Lemma items_codec_ok : codec_ok (items_codec item c) (opt_ok (forallb ok)).
Proof. by apply slice_codec_ok. Qed.
Hint Resolve items_codec_ok : json_codec.

(** UnmarshalJSON finds every required property in what MarshalJSON writes, and reads the
    list back. *)
Lemma List_reads o : list_ok o = true ->
  exists j, serialized_json (List_ToMap item c o) = Ok j /\ Json.json_wf j = true /\ j <> JNull /\
    UnmarshalJSON requiredProperties (List_fields item c) (List_build item c) j = Ok o.
Proof.
  destruct o as [k p s t items]. unfold list_ok. cbn [ml_Kind ml_Page ml_Size ml_Total ml_Items]. intros ?. split_ok.
  destruct (serialize_ok (List_fields item c) (List_assignments item c (mkModelList k p s t items)))
    as (l & Hs & Hg & Ho); [cbn; solve_assignments|solve_names|].
  exists (JObj l). unfold List_ToMap. rewrite Hs. split_and!; [done|by eapply good_wf|done|].
  unfold UnmarshalJSON. cbn [dec map_codec]. rewrite (Json.overflow_wf (JObj l)) by (by eapply good_wf).
  cbn [unmarshalled fmap option_fmap option_map missing_property requiredProperties jget option_bind mbind].
  destruct (items_codec_ok items) as (j & Hj & _); [done|].
  rewrite !oget_floats, !Ho. cbn [assigned List_assignments String.eqb Ascii.eqb Bool.eqb ml_Kind ml_Page ml_Size ml_Total ml_Items].
  cbn [entry_json required enc string_codec int32_codec]. rewrite Hj. cbn [entry_json fmap option_fmap option_map].
  cbn [dec_struct]. rewrite good_check by apply Hg. cbn [dmap unmarshalled]. f_equal.
  unfold List_build. rewrite !(good_member _ _ _ Hg), !Ho.
  cbn [assigned List_assignments ml_Kind ml_Page ml_Size ml_Total ml_Items]. solve_struct.
Qed.
End ListFacts.
