(* ===== verification/ModelAccessors.v ===== *)
(** * pkg/api/openapi: the accessors of the generated models

    Get, GetOk, Has and Set of every field, for pointer fields, for map and slice fields
    and for required fields. The receiver of a getter may be nil; a setter gets a copy.
    Also the Nullable wrappers and the constructors. *)

From S2P Require Import Prelude GoLib Errors Types Json Bundle Presenters JsonStruct Models ModelFacts.
Import api Strings.

Open Scope Z_scope.

(** ** The three kinds of fields *)

(** The four accessors of a field of type [T] that may be missing; [P] is what GetOk
    returns besides the boolean. *)
Record accessors (S T P : Type) := mkAccessors {
  Get : option S -> T;
  GetOk : option S -> P * bool;
  Has : option S -> bool;
  Set_ : T -> S -> S;
}.
Arguments mkAccessors {S T P}.
Arguments Get {S T P}.
Arguments GetOk {S T P}.
Arguments Has {S T P}.
Arguments Set_ {S T P}.

(** A pointer field: its value, how it is assigned, and the zero value of its type. *)
Definition pointer_accessors {S T} (field : S -> option T) (assign : option T -> S -> S) (zero : T) :
  accessors S T (option T) :=
  mkAccessors
    (fun o => match o with None => zero | Some o => match field o with None => zero | Some v => v end end)
    (fun o => match o with None => (None, false) | Some o => match field o with None => (None, false) | Some v => (Some v, true) end end)
    (fun o => match o with None => false | Some o => match field o with None => false | Some _ => true end end)
    (fun v => assign (Some v)).

(** A map or a slice field, which GetOk answers with [missing] when it is nil. *)
Definition nilable_accessors {S T} (field : S -> option T) (assign : option T -> S -> S) (missing : option T) :
  accessors S (option T) (option T) :=
  mkAccessors
    (fun o => match o with None => None | Some o => field o end)
    (fun o => match o with None => (missing, false) | Some o => match field o with None => (missing, false) | Some v => (Some v, true) end end)
    (fun o => match o with None => false | Some o => match field o with None => false | Some _ => true end end)
    assign.

(** A required field has no Has; GetOk looks at the receiver only. *)
Record required_accessors (S T P : Type) := mkRequired {
  rGet : option S -> T;
  rGetOk : option S -> P * bool;
  rSet : T -> S -> S;
}.
Arguments mkRequired {S T P}.
Arguments rGet {S T P}.
Arguments rGetOk {S T P}.
Arguments rSet {S T P}.

Definition required_field {S T} (field : S -> T) (assign : T -> S -> S) (zero : T) : required_accessors S T (option T) :=
  mkRequired (fun o => match o with None => zero | Some o => field o end)
    (fun o => match o with None => (None, false) | Some o => (Some (field o), true) end) assign.
(** The items: a slice is returned as it is, not by a pointer. *)
Definition required_slice {S T} (field : S -> option T) (assign : option T -> S -> S) : required_accessors S (option T) (option T) :=
  mkRequired (fun o => match o with None => None | Some o => field o end)
    (fun o => match o with None => (None, false) | Some o => (field o, true) end) assign.

(** ** Nullable *)

Record Nullable (T : Type) := mkNullable { n_value : option T; n_isSet : bool }.
Arguments mkNullable {T}.
Arguments n_value {T}.
Arguments n_isSet {T}.

Record nullable_methods (T : Type) := mkNullableMethods {
  nGet : Nullable T -> option T;
  nSet : option T -> Nullable T -> Nullable T;
  IsSet : Nullable T -> bool;
  Unset : Nullable T -> Nullable T;
  NewNullable : option T -> Nullable T;
  nMarshalJSON : Nullable T -> result json string;
  (** UnmarshalJSON on a wrapper without a value *)
  nUnmarshalJSON : json -> result (Nullable T) string;
}.
Arguments mkNullableMethods {T}.
Definition nullable {T} (c : codec T) : nullable_methods T :=
  mkNullableMethods n_value (fun val _ => mkNullable val true) n_isSet (fun _ => mkNullable None false)
    (fun val => mkNullable val true) (fun v => enc (ptr_codec c) v.(n_value))
    (fun src => match unmarshalled (dec (ptr_codec c) src) with Ok value => Ok (mkNullable value true) | Err err => Err err end).

Section Accessors.
Context `{tj : TimeJSON}.

(** ** model_object_reference.go *)

Definition NewObjectReference : ObjectReference := mkObjectReference None None None.
Definition ObjectReference_Id : accessors ObjectReference string (option string) :=
  pointer_accessors ref_Id
    (fun v o => mkObjectReference v o.(ref_Kind) o.(ref_Href)) "".
Definition ObjectReference_Kind : accessors ObjectReference string (option string) :=
  pointer_accessors ref_Kind
    (fun v o => mkObjectReference o.(ref_Id) v o.(ref_Href)) "".
Definition ObjectReference_Href : accessors ObjectReference string (option string) :=
  pointer_accessors ref_Href
    (fun v o => mkObjectReference o.(ref_Id) o.(ref_Kind) v) "".
Definition NullableObjectReference : nullable_methods ObjectReference := nullable (ObjectReference_codec false).

(** ** model_consumer.go *)

Definition NewConsumer : OpenConsumer := mkOpenConsumer None None None None None None None.
Definition Consumer_Id : accessors OpenConsumer string (option string) :=
  pointer_accessors oc_Id
    (fun v o => mkOpenConsumer v o.(oc_Kind) o.(oc_Href) o.(oc_Name) o.(oc_Labels) o.(oc_CreatedAt) o.(oc_UpdatedAt)) "".
Definition Consumer_Kind : accessors OpenConsumer string (option string) :=
  pointer_accessors oc_Kind
    (fun v o => mkOpenConsumer o.(oc_Id) v o.(oc_Href) o.(oc_Name) o.(oc_Labels) o.(oc_CreatedAt) o.(oc_UpdatedAt)) "".
Definition Consumer_Href : accessors OpenConsumer string (option string) :=
  pointer_accessors oc_Href
    (fun v o => mkOpenConsumer o.(oc_Id) o.(oc_Kind) v o.(oc_Name) o.(oc_Labels) o.(oc_CreatedAt) o.(oc_UpdatedAt)) "".
Definition Consumer_Name : accessors OpenConsumer string (option string) :=
  pointer_accessors oc_Name
    (fun v o => mkOpenConsumer o.(oc_Id) o.(oc_Kind) o.(oc_Href) v o.(oc_Labels) o.(oc_CreatedAt) o.(oc_UpdatedAt)) "".
Definition Consumer_Labels : accessors OpenConsumer (list (string * string)) (option (list (string * string))) :=
  pointer_accessors oc_Labels
    (fun v o => mkOpenConsumer o.(oc_Id) o.(oc_Kind) o.(oc_Href) o.(oc_Name) v o.(oc_CreatedAt) o.(oc_UpdatedAt)) [].
Definition Consumer_CreatedAt : accessors OpenConsumer Time (option Time) :=
  pointer_accessors oc_CreatedAt
    (fun v o => mkOpenConsumer o.(oc_Id) o.(oc_Kind) o.(oc_Href) o.(oc_Name) o.(oc_Labels) v o.(oc_UpdatedAt)) 0.
Definition Consumer_UpdatedAt : accessors OpenConsumer Time (option Time) :=
  pointer_accessors oc_UpdatedAt
    (fun v o => mkOpenConsumer o.(oc_Id) o.(oc_Kind) o.(oc_Href) o.(oc_Name) o.(oc_Labels) o.(oc_CreatedAt) v) 0.
Definition NullableConsumer : nullable_methods OpenConsumer := nullable (Consumer_codec false).

(** ** model_consumer_patch_request.go *)

Definition NewConsumerPatchRequest : ConsumerPatchRequest := mkConsumerPatchRequest None.
Definition ConsumerPatchRequest_Labels : accessors ConsumerPatchRequest (list (string * string)) (option (list (string * string))) :=
  pointer_accessors p_Labels
    (fun v o => mkConsumerPatchRequest v) [].
Definition NullableConsumerPatchRequest : nullable_methods ConsumerPatchRequest := nullable (ConsumerPatchRequest_codec false).

(** ** model_error.go *)

Definition NewError : OpenError := mkOpenError None None None None None None.
Definition Error_Id : accessors OpenError string (option string) :=
  pointer_accessors er_Id
    (fun v o => mkOpenError v o.(er_Kind) o.(er_Href) o.(er_Code) o.(er_Reason) o.(er_OperationId)) "".
Definition Error_Kind : accessors OpenError string (option string) :=
  pointer_accessors er_Kind
    (fun v o => mkOpenError o.(er_Id) v o.(er_Href) o.(er_Code) o.(er_Reason) o.(er_OperationId)) "".
Definition Error_Href : accessors OpenError string (option string) :=
  pointer_accessors er_Href
    (fun v o => mkOpenError o.(er_Id) o.(er_Kind) v o.(er_Code) o.(er_Reason) o.(er_OperationId)) "".
Definition Error_Code : accessors OpenError string (option string) :=
  pointer_accessors er_Code
    (fun v o => mkOpenError o.(er_Id) o.(er_Kind) o.(er_Href) v o.(er_Reason) o.(er_OperationId)) "".
Definition Error_Reason : accessors OpenError string (option string) :=
  pointer_accessors er_Reason
    (fun v o => mkOpenError o.(er_Id) o.(er_Kind) o.(er_Href) o.(er_Code) v o.(er_OperationId)) "".
Definition Error_OperationId : accessors OpenError string (option string) :=
  pointer_accessors er_OperationId
    (fun v o => mkOpenError o.(er_Id) o.(er_Kind) o.(er_Href) o.(er_Code) o.(er_Reason) v) "".
Definition NullableError : nullable_methods OpenError := nullable (Error_codec false).

(** ** model_resource_bundle.go *)

Definition NewResourceBundle : ResourceBundle := mkResourceBundle None None None None None None None None None None None None None None.
Definition ResourceBundle_Id : accessors ResourceBundle string (option string) :=
  pointer_accessors rb_Id
    (fun v o => mkResourceBundle v o.(rb_Kind) o.(rb_Href) o.(rb_Name) o.(rb_ConsumerName) o.(rb_Version) o.(rb_CreatedAt) o.(rb_UpdatedAt) o.(rb_DeletedAt) o.(rb_Metadata) o.(rb_Manifests) o.(rb_DeleteOption) o.(rb_ManifestConfigs) o.(rb_Status)) "".
Definition ResourceBundle_Kind : accessors ResourceBundle string (option string) :=
  pointer_accessors rb_Kind
    (fun v o => mkResourceBundle o.(rb_Id) v o.(rb_Href) o.(rb_Name) o.(rb_ConsumerName) o.(rb_Version) o.(rb_CreatedAt) o.(rb_UpdatedAt) o.(rb_DeletedAt) o.(rb_Metadata) o.(rb_Manifests) o.(rb_DeleteOption) o.(rb_ManifestConfigs) o.(rb_Status)) "".
Definition ResourceBundle_Href : accessors ResourceBundle string (option string) :=
  pointer_accessors rb_Href
    (fun v o => mkResourceBundle o.(rb_Id) o.(rb_Kind) v o.(rb_Name) o.(rb_ConsumerName) o.(rb_Version) o.(rb_CreatedAt) o.(rb_UpdatedAt) o.(rb_DeletedAt) o.(rb_Metadata) o.(rb_Manifests) o.(rb_DeleteOption) o.(rb_ManifestConfigs) o.(rb_Status)) "".
Definition ResourceBundle_Name : accessors ResourceBundle string (option string) :=
  pointer_accessors rb_Name
    (fun v o => mkResourceBundle o.(rb_Id) o.(rb_Kind) o.(rb_Href) v o.(rb_ConsumerName) o.(rb_Version) o.(rb_CreatedAt) o.(rb_UpdatedAt) o.(rb_DeletedAt) o.(rb_Metadata) o.(rb_Manifests) o.(rb_DeleteOption) o.(rb_ManifestConfigs) o.(rb_Status)) "".
Definition ResourceBundle_ConsumerName : accessors ResourceBundle string (option string) :=
  pointer_accessors rb_ConsumerName
    (fun v o => mkResourceBundle o.(rb_Id) o.(rb_Kind) o.(rb_Href) o.(rb_Name) v o.(rb_Version) o.(rb_CreatedAt) o.(rb_UpdatedAt) o.(rb_DeletedAt) o.(rb_Metadata) o.(rb_Manifests) o.(rb_DeleteOption) o.(rb_ManifestConfigs) o.(rb_Status)) "".
Definition ResourceBundle_Version : accessors ResourceBundle Z (option Z) :=
  pointer_accessors rb_Version
    (fun v o => mkResourceBundle o.(rb_Id) o.(rb_Kind) o.(rb_Href) o.(rb_Name) o.(rb_ConsumerName) v o.(rb_CreatedAt) o.(rb_UpdatedAt) o.(rb_DeletedAt) o.(rb_Metadata) o.(rb_Manifests) o.(rb_DeleteOption) o.(rb_ManifestConfigs) o.(rb_Status)) 0.
Definition ResourceBundle_CreatedAt : accessors ResourceBundle Time (option Time) :=
  pointer_accessors rb_CreatedAt
    (fun v o => mkResourceBundle o.(rb_Id) o.(rb_Kind) o.(rb_Href) o.(rb_Name) o.(rb_ConsumerName) o.(rb_Version) v o.(rb_UpdatedAt) o.(rb_DeletedAt) o.(rb_Metadata) o.(rb_Manifests) o.(rb_DeleteOption) o.(rb_ManifestConfigs) o.(rb_Status)) 0.
Definition ResourceBundle_UpdatedAt : accessors ResourceBundle Time (option Time) :=
  pointer_accessors rb_UpdatedAt
    (fun v o => mkResourceBundle o.(rb_Id) o.(rb_Kind) o.(rb_Href) o.(rb_Name) o.(rb_ConsumerName) o.(rb_Version) o.(rb_CreatedAt) v o.(rb_DeletedAt) o.(rb_Metadata) o.(rb_Manifests) o.(rb_DeleteOption) o.(rb_ManifestConfigs) o.(rb_Status)) 0.
Definition ResourceBundle_DeletedAt : accessors ResourceBundle Time (option Time) :=
  pointer_accessors rb_DeletedAt
    (fun v o => mkResourceBundle o.(rb_Id) o.(rb_Kind) o.(rb_Href) o.(rb_Name) o.(rb_ConsumerName) o.(rb_Version) o.(rb_CreatedAt) o.(rb_UpdatedAt) v o.(rb_Metadata) o.(rb_Manifests) o.(rb_DeleteOption) o.(rb_ManifestConfigs) o.(rb_Status)) 0.
Definition ResourceBundle_Metadata : accessors ResourceBundle JSONMap JSONMap :=
  nilable_accessors rb_Metadata
    (fun v o => mkResourceBundle o.(rb_Id) o.(rb_Kind) o.(rb_Href) o.(rb_Name) o.(rb_ConsumerName) o.(rb_Version) o.(rb_CreatedAt) o.(rb_UpdatedAt) o.(rb_DeletedAt) v o.(rb_Manifests) o.(rb_DeleteOption) o.(rb_ManifestConfigs) o.(rb_Status)) (Some []).
Definition ResourceBundle_Manifests : accessors ResourceBundle (option (list JSONMap)) (option (list JSONMap)) :=
  nilable_accessors rb_Manifests
    (fun v o => mkResourceBundle o.(rb_Id) o.(rb_Kind) o.(rb_Href) o.(rb_Name) o.(rb_ConsumerName) o.(rb_Version) o.(rb_CreatedAt) o.(rb_UpdatedAt) o.(rb_DeletedAt) o.(rb_Metadata) v o.(rb_DeleteOption) o.(rb_ManifestConfigs) o.(rb_Status)) None.
Definition ResourceBundle_DeleteOption : accessors ResourceBundle JSONMap JSONMap :=
  nilable_accessors rb_DeleteOption
    (fun v o => mkResourceBundle o.(rb_Id) o.(rb_Kind) o.(rb_Href) o.(rb_Name) o.(rb_ConsumerName) o.(rb_Version) o.(rb_CreatedAt) o.(rb_UpdatedAt) o.(rb_DeletedAt) o.(rb_Metadata) o.(rb_Manifests) v o.(rb_ManifestConfigs) o.(rb_Status)) (Some []).
Definition ResourceBundle_ManifestConfigs : accessors ResourceBundle (option (list JSONMap)) (option (list JSONMap)) :=
  nilable_accessors rb_ManifestConfigs
    (fun v o => mkResourceBundle o.(rb_Id) o.(rb_Kind) o.(rb_Href) o.(rb_Name) o.(rb_ConsumerName) o.(rb_Version) o.(rb_CreatedAt) o.(rb_UpdatedAt) o.(rb_DeletedAt) o.(rb_Metadata) o.(rb_Manifests) o.(rb_DeleteOption) v o.(rb_Status)) None.
Definition ResourceBundle_Status : accessors ResourceBundle JSONMap JSONMap :=
  nilable_accessors rb_Status
    (fun v o => mkResourceBundle o.(rb_Id) o.(rb_Kind) o.(rb_Href) o.(rb_Name) o.(rb_ConsumerName) o.(rb_Version) o.(rb_CreatedAt) o.(rb_UpdatedAt) o.(rb_DeletedAt) o.(rb_Metadata) o.(rb_Manifests) o.(rb_DeleteOption) o.(rb_ManifestConfigs) v) (Some []).
Definition NullableResourceBundle : nullable_methods ResourceBundle := nullable (ResourceBundle_codec false).

(** ** The lists *)

Section ListFields.
Context {A : Type}.
Definition List_Kind : required_accessors (ModelList A) string (option string) :=
  required_field ml_Kind (fun v o => mkModelList v o.(ml_Page) o.(ml_Size) o.(ml_Total) o.(ml_Items)) "".
Definition List_Page : required_accessors (ModelList A) Z (option Z) :=
  required_field ml_Page (fun v o => mkModelList o.(ml_Kind) v o.(ml_Size) o.(ml_Total) o.(ml_Items)) 0.
Definition List_Size : required_accessors (ModelList A) Z (option Z) :=
  required_field ml_Size (fun v o => mkModelList o.(ml_Kind) o.(ml_Page) v o.(ml_Total) o.(ml_Items)) 0.
Definition List_Total : required_accessors (ModelList A) Z (option Z) :=
  required_field ml_Total (fun v o => mkModelList o.(ml_Kind) o.(ml_Page) o.(ml_Size) v o.(ml_Items)) 0.
Definition List_Items : required_accessors (ModelList A) (option (list A)) (option (list A)) :=
  required_slice ml_Items (fun v o => mkModelList o.(ml_Kind) o.(ml_Page) o.(ml_Size) o.(ml_Total) v).
End ListFields.

(** model_list.go *)

Definition NewList (kind : string) (page size total : Z) : ModelList unit := mkModelList kind page size total None.

(** model_consumer_list.go *)

Definition NewConsumerList (kind : string) (page size total : Z) (items : option (list OpenConsumer)) : ModelList OpenConsumer :=
  mkModelList kind page size total items.
Definition ConsumerList_Kind : required_accessors (ModelList OpenConsumer) string (option string) := List_Kind.
Definition ConsumerList_Page : required_accessors (ModelList OpenConsumer) Z (option Z) := List_Page.
Definition ConsumerList_Size : required_accessors (ModelList OpenConsumer) Z (option Z) := List_Size.
Definition ConsumerList_Total : required_accessors (ModelList OpenConsumer) Z (option Z) := List_Total.
Definition ConsumerList_Items : required_accessors (ModelList OpenConsumer) (option (list OpenConsumer)) (option (list OpenConsumer)) := List_Items.

(** model_error_list.go *)

Definition NewErrorList (kind : string) (page size total : Z) (items : option (list OpenError)) : ModelList OpenError :=
  mkModelList kind page size total items.
Definition ErrorList_Kind : required_accessors (ModelList OpenError) string (option string) := List_Kind.
Definition ErrorList_Page : required_accessors (ModelList OpenError) Z (option Z) := List_Page.
Definition ErrorList_Size : required_accessors (ModelList OpenError) Z (option Z) := List_Size.
Definition ErrorList_Total : required_accessors (ModelList OpenError) Z (option Z) := List_Total.
Definition ErrorList_Items : required_accessors (ModelList OpenError) (option (list OpenError)) (option (list OpenError)) := List_Items.

(** model_resource_bundle_list.go *)

Definition NewResourceBundleList (kind : string) (page size total : Z) (items : option (list ResourceBundle)) : ModelList ResourceBundle :=
  mkModelList kind page size total items.
Definition ResourceBundleList_Kind : required_accessors (ModelList ResourceBundle) string (option string) := List_Kind.
Definition ResourceBundleList_Page : required_accessors (ModelList ResourceBundle) Z (option Z) := List_Page.
Definition ResourceBundleList_Size : required_accessors (ModelList ResourceBundle) Z (option Z) := List_Size.
Definition ResourceBundleList_Total : required_accessors (ModelList ResourceBundle) Z (option Z) := List_Total.
Definition ResourceBundleList_Items : required_accessors (ModelList ResourceBundle) (option (list ResourceBundle)) (option (list ResourceBundle)) := List_Items.

Definition bool_codec : codec bool :=
  mkCodec false (fun b => Ok (JBool b)) (fun j => match j with JBool b => Decoded b None | _ => mismatch false j "bool" end).
Definition int64_codec (type_ : string) : codec Z :=
  mkCodec 0 (fun z => Ok (JNum z))
    (fun j => match j with
              | JNum z => if decide (Int.int64 z = z) then Decoded z None else Decoded 0 (Some (UnmarshalTypeError j type_))
              | _ => mismatch 0 j type_
              end).
Definition NullableBool : nullable_methods bool := nullable bool_codec.
Definition NullableInt : nullable_methods Z := nullable (int64_codec "int").
Definition NullableInt64 : nullable_methods Z := nullable (int64_codec "int64").
Definition NullableString : nullable_methods string := nullable string_codec.
Definition NullableInt32 : nullable_methods Z := nullable int32_codec.
Definition NullableTime : nullable_methods Time := nullable time_codec.

(** A list model has its own UnmarshalJSON, whose error stops the decoder. *)
Definition unmarshaler_codec {S} (z : S) (ToMap : S -> serialized) (UnmarshalJSON : json -> result S string) : codec S :=
  mkCodec z (fun o => serialized_json (ToMap o))
    (fun j => match UnmarshalJSON j with Ok o => Decoded o None | Err err => Aborted err end).
Definition zero_list {A} : ModelList A := mkModelList "" 0 0 0 None.
Definition NullableConsumerList : nullable_methods (ModelList OpenConsumer) :=
  nullable (unmarshaler_codec zero_list ConsumerList_ToMap ConsumerList_UnmarshalJSON).
Definition NullableResourceBundleList : nullable_methods (ModelList ResourceBundle) :=
  nullable (unmarshaler_codec zero_list ResourceBundleList_ToMap ResourceBundleList_UnmarshalJSON).
Definition NullableErrorList : nullable_methods (ModelList OpenError) :=
  nullable (unmarshaler_codec zero_list ErrorList_ToMap ErrorList_UnmarshalJSON).
Definition NullableList : nullable_methods (ModelList unit) :=
  nullable (unmarshaler_codec zero_list PlainList_ToMap PlainList_UnmarshalJSON).
End Accessors.

(** ** What a setter writes

    After a setter the getters answer the value, and in the JSON of the model only the
    member of the field has changed. Has tells whether the member is written. *)

Fixpoint replaced (key : string) (v : option (result json string)) (es : assignments) : assignments :=
  match es with
  | [] => []
  | (k, w) :: es => (if String.eqb k key then (key, v) else (k, w)) :: replaced key v es
  end.

Section Laws.
Context {S : Type} (assign : S -> assignments).

(** In what ToMap makes of the model, [set] changes the member [key] to the value, or
    removes it when the value is nil, and no other. *)
Definition sets_member {T} (key : string) (e : T -> option (result json string)) (set : T -> S -> S) : Prop :=
  forall v o l, serialize (assign o) = Ok l -> (forall err, e v <> Some (Err err)) ->
  exists l', serialize (assign (set v o)) = Ok l' /\
    forall name, oget name l' = if String.eqb name key then entry_json (e v) else oget name l.

Definition gets {T U} (given : T -> option U) (a : accessors S T (option U)) : Prop :=
  forall v o, Get a (Some (Set_ a v o)) = v /\ Has a (Some (Set_ a v o)) = bool_decide (is_Some (given v)) /\
    (is_Some (given v) -> GetOk a (Some (Set_ a v o)) = (given v, true)).
Definition field_spec {T U} (key : string) (e : T -> option (result json string)) (given : T -> option U)
  (a : accessors S T (option U)) : Prop :=
  gets given a /\
  (forall o l, serialize (assign o) = Ok l -> Has a (Some o) = bool_decide (is_Some (oget key l))) /\
  sets_member key e (Set_ a).

Definition pointer_spec {T} (key : string) (c : codec T) (a : accessors S T (option T)) : Prop :=
  field_spec key (fun v => Some (enc c v)) Some a.
Definition nilable_spec {T} (key : string) (c : codec (option T)) (a : accessors S (option T) (option T)) : Prop :=
  field_spec key (nilable c) id a.
Definition required_spec {T P} (key : string) (c : codec T) (ok : T -> P) (a : required_accessors S T P) : Prop :=
  (forall v o, rGet a (Some (rSet a v o)) = v /\ rGetOk a (Some (rSet a v o)) = (ok v, true)) /\
  sets_member key (fun v => Some (enc c v)) (rSet a).

(** *** Serialized members *)

Lemma foldl_put_Err err es : foldl put (Err err) es = Err err.
Proof. by induction es as [|kv es IH]. Qed.

Lemma serialize_get_from es l l' :
  NoDup es.*1 -> Forall (fun kv => oget kv.1 l = None) es -> foldl put (Ok l) es = Ok l' ->
  (forall k err, (k, Some (Err err)) ∉ es) /\
  forall name, oget name l' = match assigned name es with Some j => Some j | None => oget name l end.
Proof.
  revert l. induction es as [|[k v] es IH]; intros l Hnd Hnew Hf; cbn in *.
  { split; [intros k err Hin; by apply elem_of_nil in Hin|]. by simplify_eq. }
  apply NoDup_cons in Hnd as [Hk Hnd]. apply Forall_cons in Hnew as [Hkn Hnew]. cbn in Hkn.
  destruct v as [[j|err]|]; cbn in Hf; [|by rewrite foldl_put_Err in Hf|].
  - destruct (IH (oset k j l) Hnd) as [He Ho]; [|done|].
    { apply Forall_forall. intros [k' v'] Hin. cbn. rewrite oget_oset_ne; [by apply (proj1 (Forall_forall _ _) Hnew _ Hin)|].
      intros ->. apply Hk, (list_elem_of_fmap_2 fst _ _ Hin). }
    split; [intros k' err; rewrite not_elem_of_cons; by split|].
    intros name. rewrite Ho, oget_oset_eqb. destruct (String.eqb_spec name k) as [->|]; [|done].
    destruct (assigned k es) eqn:E; [|done]. by destruct Hk; eapply assigned_key.
  - destruct (IH l Hnd Hnew Hf) as [He Ho]. split; [intros k' err; rewrite not_elem_of_cons; by split|].
    intros name. rewrite Ho. destruct (String.eqb_spec name k) as [->|]; [|done].
    destruct (assigned k es) eqn:E; [|done]. by destruct Hk; eapply assigned_key.
Qed.

Lemma serialize_get es l :
  NoDup es.*1 -> serialize es = Ok l ->
  (forall k err, (k, Some (Err err)) ∉ es) /\ forall name, oget name l = assigned name es.
Proof.
  intros Hnd Hs. destruct (serialize_get_from es [] l Hnd) as [He Ho]; [by apply Forall_forall|done|].
  split; [done|]. intros name. rewrite Ho. by destruct (assigned name es).
Qed.

Lemma serialize_total es : (forall k err, (k, Some (Err err)) ∉ es) -> exists l, serialize es = Ok l.
Proof.
  unfold serialize. generalize (@nil (string * json)). induction es as [|[k v] es IH]; intros l He; [by exists l|].
  setoid_rewrite not_elem_of_cons in He. cbn. destruct v as [[j|err]|]; cbn.
  - apply IH. intros k' err. apply He.
  - by destruct (proj1 (He k err)).
  - apply IH. intros k' err. apply He.
Qed.

Lemma assigned_replaced key v es name :
  key ∈ es.*1 -> assigned name (replaced key v es) = if String.eqb name key then entry_json v else assigned name es.
Proof.
  induction es as [|[k w] es IH]; cbn; [by intros ?%elem_of_nil|]. rewrite elem_of_cons.
  destruct (String.eqb_spec k key) as [->|Hk]; intros Hin.
  - destruct (String.eqb_spec name key) as [|Hn]; [done|].
    destruct (decide (key ∈ es.*1)) as [Hi|Hi].
    + by rewrite (IH Hi).
    + f_equal. clear -Hi. induction es as [|[k' w'] es IH]; [done|]. cbn in *. apply not_elem_of_cons in Hi as [Hk Hi].
      rewrite (IH Hi). by rewrite (proj2 (String.eqb_neq _ _)) by done.
  - destruct Hin as [|Hin]; [done|]. destruct (String.eqb_spec name k) as [->|]; [|by apply IH].
    by rewrite (proj2 (String.eqb_neq _ _)) by done.
Qed.

Lemma keys_replaced key v es : (replaced key v es).*1 = es.*1.
Proof. induction es as [|[k w] es IH]; [done|]. cbn. rewrite IH. by destruct (String.eqb_spec k key) as [->|]. Qed.

Lemma pointer_gets {T} (field : S -> option T) (set : option T -> S -> S) z :
  (forall v o, field (set v o) = v) -> gets Some (pointer_accessors field set z).
Proof. intros Hf v o. cbn. rewrite Hf. done. Qed.
Lemma nilable_gets {T} (field : S -> option T) (set : option T -> S -> S) z :
  (forall v o, field (set v o) = v) -> gets id (nilable_accessors field set z).
Proof.
  intros Hf v o. cbn. rewrite Hf. split_and!; [done|by destruct v|by intros [? ->]].
Qed.

(** Setters that replace one assignment. *)
Lemma sets_member_intro {T} key (e : T -> option (result json string)) set :
  (forall o, NoDup (assign o).*1) -> (forall o, key ∈ (assign o).*1) ->
  (forall v o, assign (set v o) = replaced key (e v) (assign o)) -> sets_member key e set.
Proof.
  intros Hnd Hk Hs v o l Ho He. rewrite Hs. destruct (serialize_get _ _ (Hnd o) Ho) as [Hno Hget].
  destruct (serialize_total (replaced key (e v) (assign o))) as [l' Hl'].
  { intros k err Hin. clear -Hno He Hin. induction (assign o) as [|[k' w] es IH]; cbn in Hin; [by apply elem_of_nil in Hin|].
    setoid_rewrite not_elem_of_cons in Hno. apply elem_of_cons in Hin as [Hin|Hin].
    - destruct (String.eqb k' key); injection Hin as -> Hv; [by apply (He err)|by apply (proj1 (Hno k' err)); rewrite Hv].
    - apply IH; [|done]. intros k0 err0. apply Hno. }
  exists l'. split; [done|]. intros name.
  destruct (serialize_get (replaced key (e v) (assign o)) l') as [_ Hget']; [by rewrite keys_replaced|done|].
  rewrite Hget', Hget. by apply assigned_replaced.
Qed.

Lemma has_member key (has : option S -> bool) :
  (forall o, NoDup (assign o).*1) ->
  (forall o, exists v, (key, v) ∈ assign o /\ has (Some o) = bool_decide (is_Some v)) ->
  forall o l, serialize (assign o) = Ok l -> has (Some o) = bool_decide (is_Some (oget key l)).
Proof.
  intros Hnd Hhas o l Ho. destruct (serialize_get _ _ (Hnd o) Ho) as [Hno ->]. destruct (Hhas o) as (v & Hin & ->).
  assert (assigned key (assign o) = entry_json v) as ->.
  { clear -Hin Hnd. specialize (Hnd o). induction (assign o) as [|[k w] es IH]; [by apply elem_of_nil in Hin|]. cbn in *.
    apply NoDup_cons in Hnd as [Hk Hnd]. apply elem_of_cons in Hin as [Heq|Hin].
    - injection Heq as <- <-. by rewrite String.eqb_refl.
    - destruct (String.eqb_spec key k) as [->|]; [by destruct Hk; apply (list_elem_of_fmap_2 fst _ _ Hin)|by apply IH]. }
  destruct v as [[j|err]|]; [done| |done]. by destruct (Hno key err).
Qed.
End Laws.

Ltac find_in := cbn; repeat first [apply list_elem_of_here | apply list_elem_of_further].
Ltac solve_sets := apply sets_member_intro; [intros []; solve_names|intros []; find_in|by intros ? []].
Ltac solve_field :=
  split; [|split];
  [first [apply pointer_gets|apply nilable_gets]; by intros ? []
  |apply has_member; [intros []; solve_names|intros []; eexists; split; [find_in|]; cbn; by case_match]
  |solve_sets].
Ltac solve_required := split; [by intros v []|solve_sets].

Section Specs.
Context `{tj : TimeJSON}.

(** The accessors of the generated models. After a setter the getters answer the value
    that was set; in the JSON of the model exactly the member of the field's own name has
    changed, to that value or, for a nil map or slice, to nothing; and Has tells whether
    the member is written. *)
Theorem accessors_spec :
  pointer_spec ObjectReference_assignments "id" string_codec ObjectReference_Id /\
  pointer_spec ObjectReference_assignments "kind" string_codec ObjectReference_Kind /\
  pointer_spec ObjectReference_assignments "href" string_codec ObjectReference_Href /\
  pointer_spec Consumer_assignments "id" string_codec Consumer_Id /\
  pointer_spec Consumer_assignments "kind" string_codec Consumer_Kind /\
  pointer_spec Consumer_assignments "href" string_codec Consumer_Href /\
  pointer_spec Consumer_assignments "name" string_codec Consumer_Name /\
  pointer_spec Consumer_assignments "labels" strings_codec Consumer_Labels /\
  pointer_spec Consumer_assignments "created_at" time_codec Consumer_CreatedAt /\
  pointer_spec Consumer_assignments "updated_at" time_codec Consumer_UpdatedAt /\
  pointer_spec ConsumerPatchRequest_assignments "labels" strings_codec ConsumerPatchRequest_Labels /\
  pointer_spec Error_assignments "id" string_codec Error_Id /\
  pointer_spec Error_assignments "kind" string_codec Error_Kind /\
  pointer_spec Error_assignments "href" string_codec Error_Href /\
  pointer_spec Error_assignments "code" string_codec Error_Code /\
  pointer_spec Error_assignments "reason" string_codec Error_Reason /\
  pointer_spec Error_assignments "operation_id" string_codec Error_OperationId /\
  pointer_spec ResourceBundle_assignments "id" string_codec ResourceBundle_Id /\
  pointer_spec ResourceBundle_assignments "kind" string_codec ResourceBundle_Kind /\
  pointer_spec ResourceBundle_assignments "href" string_codec ResourceBundle_Href /\
  pointer_spec ResourceBundle_assignments "name" string_codec ResourceBundle_Name /\
  pointer_spec ResourceBundle_assignments "consumer_name" string_codec ResourceBundle_ConsumerName /\
  pointer_spec ResourceBundle_assignments "version" int32_codec ResourceBundle_Version /\
  pointer_spec ResourceBundle_assignments "created_at" time_codec ResourceBundle_CreatedAt /\
  pointer_spec ResourceBundle_assignments "updated_at" time_codec ResourceBundle_UpdatedAt /\
  pointer_spec ResourceBundle_assignments "deleted_at" time_codec ResourceBundle_DeletedAt /\
  nilable_spec ResourceBundle_assignments "metadata" map_codec ResourceBundle_Metadata /\
  nilable_spec ResourceBundle_assignments "manifests" maps_codec ResourceBundle_Manifests /\
  nilable_spec ResourceBundle_assignments "delete_option" map_codec ResourceBundle_DeleteOption /\
  nilable_spec ResourceBundle_assignments "manifest_configs" maps_codec ResourceBundle_ManifestConfigs /\
  nilable_spec ResourceBundle_assignments "status" map_codec ResourceBundle_Status /\
  required_spec PlainList_assignments "kind" string_codec Some List_Kind /\
  required_spec PlainList_assignments "page" int32_codec Some List_Page /\
  required_spec PlainList_assignments "size" int32_codec Some List_Size /\
  required_spec PlainList_assignments "total" int32_codec Some List_Total /\
  required_spec (List_assignments "[]openapi.Consumer" (Consumer_codec true)) "kind" string_codec Some ConsumerList_Kind /\
  required_spec (List_assignments "[]openapi.Consumer" (Consumer_codec true)) "page" int32_codec Some ConsumerList_Page /\
  required_spec (List_assignments "[]openapi.Consumer" (Consumer_codec true)) "size" int32_codec Some ConsumerList_Size /\
  required_spec (List_assignments "[]openapi.Consumer" (Consumer_codec true)) "total" int32_codec Some ConsumerList_Total /\
  required_spec (List_assignments "[]openapi.Consumer" (Consumer_codec true)) "items" (items_codec "[]openapi.Consumer" (Consumer_codec true)) id ConsumerList_Items /\
  required_spec (List_assignments "[]openapi.Error" (Error_codec true)) "kind" string_codec Some ErrorList_Kind /\
  required_spec (List_assignments "[]openapi.Error" (Error_codec true)) "page" int32_codec Some ErrorList_Page /\
  required_spec (List_assignments "[]openapi.Error" (Error_codec true)) "size" int32_codec Some ErrorList_Size /\
  required_spec (List_assignments "[]openapi.Error" (Error_codec true)) "total" int32_codec Some ErrorList_Total /\
  required_spec (List_assignments "[]openapi.Error" (Error_codec true)) "items" (items_codec "[]openapi.Error" (Error_codec true)) id ErrorList_Items /\
  required_spec (List_assignments "[]openapi.ResourceBundle" (ResourceBundle_codec true)) "kind" string_codec Some ResourceBundleList_Kind /\
  required_spec (List_assignments "[]openapi.ResourceBundle" (ResourceBundle_codec true)) "page" int32_codec Some ResourceBundleList_Page /\
  required_spec (List_assignments "[]openapi.ResourceBundle" (ResourceBundle_codec true)) "size" int32_codec Some ResourceBundleList_Size /\
  required_spec (List_assignments "[]openapi.ResourceBundle" (ResourceBundle_codec true)) "total" int32_codec Some ResourceBundleList_Total /\
  required_spec (List_assignments "[]openapi.ResourceBundle" (ResourceBundle_codec true)) "items" (items_codec "[]openapi.ResourceBundle" (ResourceBundle_codec true)) id ResourceBundleList_Items.
Proof.
  repeat match goal with |- _ /\ _ => split end;
    match goal with |- required_spec _ _ _ _ _ => solve_required | |- _ => solve_field end.
Qed.
End Specs.

(** A wrapper that was set, with a value or with null, reads back as it was written. *)
Theorem nullable_roundtrip {T} (c : codec T) ok (v : Nullable T) j :
  codec_ok c ok -> nonnull c -> v.(n_isSet) = true -> opt_ok ok v.(n_value) = true ->
  nMarshalJSON _ (nullable c) v = Ok j -> nUnmarshalJSON _ (nullable c) j = Ok v.
Proof.
  intros Hc Hn Hs Hok Hm. destruct v as [value isSet]. cbn in *. subst isSet.
  destruct (ptr_codec_ok c ok Hc Hn value Hok) as (j' & He & _ & Hd). cbn in He. rewrite Hm in He. injection He as <-.
  cbn in Hd. by rewrite Hd.
Qed.

Lemma unmarshaler_codec_ok {A} item (c : codec A) ok :
  codec_ok c ok ->
  let cl := unmarshaler_codec zero_list (List_ToMap item c) (UnmarshalJSON requiredProperties (List_fields item c) (List_build item c)) in
  codec_ok cl (list_ok ok) /\ nonnull cl.
Proof.
  intros Hc cl. split.
  - intros o Ho. destruct (List_reads item c ok Hc o Ho) as (j & He & Hwf & _ & Hd). exists j. subst cl. unfold writes. cbn [enc dec unmarshaler_codec]. by rewrite He, Hd.
  - intros o. subst cl. cbn [enc unmarshaler_codec]. by destruct (List_ToMap item c o).
Qed.

(** So does a wrapped list of consumers: its UnmarshalJSON finds every property it asks for in
    what MarshalJSON writes. *)
Theorem nullable_list_roundtrip `{TimeJSONLaws} (v : Nullable (ModelList OpenConsumer)) j :
  v.(n_isSet) = true -> opt_ok (list_ok consumer_ok) v.(n_value) = true ->
  nMarshalJSON _ NullableConsumerList v = Ok j -> nUnmarshalJSON _ NullableConsumerList j = Ok v.
Proof.
  intros Hs Hok Hm. destruct (unmarshaler_codec_ok "[]openapi.Consumer" _ _ (Consumer_ok true)) as [Hc Hn].
  by apply (nullable_roundtrip _ _ v j Hc Hn).
Qed.
