(* ===== verification/SliceFilter.v ===== *)
(** * pkg/api/presenters/slice_filter.go: field selection

    SliceFilter projects the items of a list onto the requested fields with package
    reflect. A Go value is seen as reflect shows it, [rval]; asking a value of another kind
    for its fields is a panic, [None]. The map of requested fields is shared by all calls,
    so it is state. *)

From S2P Require Import Prelude GoLib Errors Types Json Bundle Services Presenters.
Import api errors Fmt Strings.

Open Scope Z_scope.

(** A field: its Go name, its json tag, whether its type is *time.Time, whether its type
    is a slice, and its value. *)
Record rfield_of (V : Type) := mkRField {
  goName : string;
  tag : string;
  timePtr : bool;
  sliceType : bool;
  field_value : V;
}.
Arguments mkRField {V} _ _ _ _ _.
Arguments goName {V} _.
Arguments tag {V} _.
Arguments timePtr {V} _.
Arguments sliceType {V} _.
Arguments field_value {V} _.

(** A value, pointers followed: a struct with its type name, a time, a slice, a nil
    pointer, or anything else with its JSON form. *)
Inductive rval :=
| RStruct (name : string) (fields : list (rfield_of rval))
| RTime (t : Time)
| RSlice (l : list rval)
| RNil
| RScalar (j : json).

Abbreviation rfield := (rfield_of rval).

(** reflect.Value.FieldByName; the zero Value of a missing field makes the next call panic. *)
Fixpoint FieldByName (n : string) (fields : list rfield) : option rval :=
  match fields with
  | [] => None
  | mkRField g _ _ _ v :: fields => if decide (g = n) then Some v else FieldByName n fields
  end.

(** The name in a tag such as "id,omitempty". *)
Definition tag_name (tag : string) : string := default "" (head (Split tag comma)).

Record ProjectionList := mkProjectionList {
  pl_Kind : string;
  pl_Page : Z;
  pl_Size : Z;
  pl_Total : Z;
  pl_Items : list (list (string * json));
}.

(** ** removeStar *)

(** The leftmost match of (name\..* ), which runs to the end of the key. *)
Fixpoint star_match (pattern k : string) : option string :=
  if String.prefix pattern k then Some k
  else match k with "" => None | String _ k => star_match pattern k end.

Definition removeStar (in_ : gset string) (name : string) : gset string :=
  foldr (fun k acc => match star_match (name +:+ ".") k with Some m => acc ∖ {[m]} | None => acc end) in_ (elements in_).

(** ** validate *)

(** fmt.Sprintf of a prefix and a name; nextPrefix of the nested structs is the same text. *)
Definition prefixed (prefix name : string) : string :=
  if decide (prefix = "") then name else Sprintf "%s.%s" [GStr prefix; GStr name].

Definition untagged (tag : string) : bool := bool_decide (tag = "" \/ tag = "-").

(** What the loop over the fields leaves of the map. The result of the nested calls is
    dropped, their deletions stay. *)
Fixpoint remaining (model : rval) (prefix : string) (in_ : gset string) : gset string :=
  match model with
  | RStruct _ fields =>
      (fix go (fields : list rfield) (in_ : gset string) : gset string :=
         match fields with
         | [] => in_
         | mkRField _ tag timePtr sliceType v :: fields =>
             if untagged tag then go fields in_
             else
               let name := tag_name tag in
               go fields
                 (match v with
                  | RTime _ =>
                      if timePtr then in_ ∖ {[name]}
                      else if decide ((name +:+ ".*") ∈ in_) then removeStar in_ name else in_
                  | RStruct _ _ =>
                      if decide ((name +:+ ".*") ∈ in_) then removeStar in_ name else remaining v name in_
                  | _ => if sliceType then removeStar in_ name else in_ ∖ {[prefixed prefix name]}
                  end)
         end) fields in_
  | _ => in_
  end.

(** [None] is a panic: a value that is no struct has no fields. *)
Definition validate (model : rval) (in_ : gset string) : option (option ServiceError) :=
  match model with
  | RStruct typeName fields =>
      let in_ := remaining model "" in_ in
      Some (if decide (in_ = ∅) then None
            else Some (Validation "%s"
                   [GStr (Sprintf "The following field(s) doesn't exist in `%s`: %s"
                            [GStr typeName; GStr (Join (elements in_) ", ")])]))
  | _ => None
  end.

(** ** structToMap *)

Section StructToMap.
Context `{tf : TimeFormat}.

Definition scalar (v : rval) : json := match v with RScalar j => j | _ => JNull end.

(** Slice elements: the loop stops at the first one that gives nothing. *)
Fixpoint project_slice (project : rval -> option (list (string * json))) (l : list rval) : option (list json) :=
  match l with
  | [] => Some []
  | v :: l =>
      match project v with
      | None => None
      | Some [] => Some []
      | Some m => match project_slice project l with None => None | Some js => Some (JObj m :: js) end
      end
  end.

Fixpoint structToMap (in_ : gset string) (prefix : string) (item : rval) : option (list (string * json)) :=
  match item with
  | RStruct _ fields =>
      (fix go (fields : list rfield) (res : list (string * json)) : option (list (string * json)) :=
         match fields with
         | [] => Some res
         | mkRField _ tag timePtr sliceType v :: fields =>
             if untagged tag then go fields res
             else
               let name := tag_name tag in
               match v with
               | RTime t =>
                   go fields (if timePtr && bool_decide (name ∈ in_) then oset name (JStr (FormatRFC3339 t)) res else res)
               | RStruct _ _ =>
                   match structToMap in_ (prefixed prefix name) v with
                   | None => None
                   | Some [] => go fields res
                   | Some m => go fields (oset name (JObj m) res)
                   end
               | RSlice l =>
                   if sliceType then
                     match project_slice (structToMap in_ name) l with
                     | None => None
                     | Some [] => go fields res
                     | Some js => go fields (oset name (JArr js) res)
                     end
                   else None
               | _ =>
                   go fields (if decide (prefixed prefix name ∈ in_ \/ Sprintf "%s.*" [GStr prefix] ∈ in_)
                              then oset name (scalar v) res else res)
               end
         end) fields []
  | _ => None
  end.

Definition as_string (v : rval) : string := match v with RScalar (JStr s) => s | _ => "" end.
Definition as_int (v : rval) : Z := match v with RScalar (JNum z) => z | _ => 0 end.

(** None is a panic. *)
Definition SliceFilter (fields2Store : list string) (model : rval) : option (result ProjectionList ServiceError) :=
  let in_ : gset string := list_to_set fields2Store in
  match model with
  | RStruct _ fields =>
      match FieldByName "Kind" fields, FieldByName "Page" fields, FieldByName "Size" fields,
            FieldByName "Total" fields, FieldByName "Items" fields with
      | Some kind, Some page, Some size, Some total, Some (RSlice items) =>
          let result_ its := mkProjectionList (as_string kind) (Int.int32 (as_int page)) (Int.int32 (as_int size))
                               (Int.int32 (as_int total)) its in
          match items with
          | [] => Some (Ok (result_ []))
          | item :: _ =>
              match validate item in_ with
              | None => None
              | Some (Some err) => Some (Err err)
              | Some None =>
                  match mapM (structToMap in_ "") items with
                  | None => None
                  | Some its => Some (Ok (result_ its))
                  end
              end
          end
      | _, _, _, _, _ => None
      end
  | _ => None
  end.
End StructToMap.

(** ** The openapi structs, as reflect shows them *)

Definition rstring (s : option string) : rval := match s with Some s => RScalar (JStr s) | None => RNil end.
Definition rtime (t : option Time) : rval := match t with Some t => RTime t | None => RNil end.
Definition rmap (m : JSONMap) : rval := RScalar (match m with Some m => JObj m | None => JNull end).
Definition rlabels (m : option (list (string * string))) : rval :=
  match m with Some m => RScalar (JObj ((fun '(k, v) => (k, JStr v)) <$> m)) | None => RNil end.

Definition plain (goName tag : string) (v : rval) : rfield := mkRField goName (tag +:+ ",omitempty") false false v.
Definition timed (goName tag : string) (v : rval) : rfield := mkRField goName (tag +:+ ",omitempty") true false v.
Definition sliced (goName tag : string) (v : rval) : rfield := mkRField goName (tag +:+ ",omitempty") false true v.

Definition reflectConsumer (c : OpenConsumer) : rval :=
  RStruct "Consumer"
    [plain "Id" "id" (rstring c.(oc_Id)); plain "Kind" "kind" (rstring c.(oc_Kind)); plain "Href" "href" (rstring c.(oc_Href));
     plain "Name" "name" (rstring c.(oc_Name)); plain "Labels" "labels" (rlabels c.(oc_Labels));
     timed "CreatedAt" "created_at" (rtime c.(oc_CreatedAt)); timed "UpdatedAt" "updated_at" (rtime c.(oc_UpdatedAt))].

Definition reflectBundle (b : ResourceBundle) : rval :=
  RStruct "ResourceBundle"
    [plain "Id" "id" (rstring b.(rb_Id)); plain "Kind" "kind" (rstring b.(rb_Kind)); plain "Href" "href" (rstring b.(rb_Href));
     plain "Name" "name" (rstring b.(rb_Name)); plain "ConsumerName" "consumer_name" (rstring b.(rb_ConsumerName));
     plain "Version" "version" (match b.(rb_Version) with Some v => RScalar (JNum v) | None => RNil end);
     timed "CreatedAt" "created_at" (rtime b.(rb_CreatedAt)); timed "UpdatedAt" "updated_at" (rtime b.(rb_UpdatedAt));
     timed "DeletedAt" "deleted_at" (rtime b.(rb_DeletedAt)); plain "Metadata" "metadata" (rmap b.(rb_Metadata));
     sliced "Manifests" "manifests" (RSlice (rmap <$> default [] b.(rb_Manifests))); plain "DeleteOption" "delete_option" (rmap b.(rb_DeleteOption));
     sliced "ManifestConfigs" "manifest_configs" (RSlice (rmap <$> default [] b.(rb_ManifestConfigs))); plain "Status" "status" (rmap b.(rb_Status))].

(** The list structs: Kind, Page, Size and Total are values, and Items a slice. *)
Definition reflectList (name kind : string) (page size total : Z) (items : list rval) : rval :=
  RStruct name
    [mkRField "Kind" "kind" false false (RScalar (JStr kind)); mkRField "Page" "page" false false (RScalar (JNum page));
     mkRField "Size" "size" false false (RScalar (JNum size)); mkRField "Total" "total" false false (RScalar (JNum total));
     mkRField "Items" "items" false true (RSlice items)].
