(* ===== verification/Rest.v ===== *)
(** * pkg/handlers and the routes: the REST API

    The handlers (pkg/handlers) and the routes (cmd/maestro/server/routes.go), behind the
    middleware of Transactions.v. Reading a JSON body into a generated struct is the class
    [BodyCodec]. A handler answers with a status code and a payload, or panics. *)

From S2P Require Import Prelude GoLib Errors Types Json Bundle Validation Gorm World Dao DaoFacts Locks Transactions Services ListQuery GenericList Presenters SliceFilter.
Import api errors Fmt.

Open Scope Z_scope.

Inductive Payload_ :=
| NoBody
| ConsumerBody (c : OpenConsumer)
| BundleBody (b : ResourceBundle)
| ConsumersBody (kind : string) (page size total : Z) (items : list OpenConsumer)
| BundlesBody (kind : string) (page size total : Z) (items : list ResourceBundle)
| ErrorBody (e : OpenapiError)
| ErrorsBody (kind : string) (page size total : Z) (items : list OpenapiError)
| ProjectionBody (l : ProjectionList)
| TextBody (s : string)
(** a document of the metadata and error types of pkg/api *)
| DocumentBody (j : json).

Inductive reply :=
| Replied (code : Z) (payload : Payload_)
| HandlerPanics.

Record Request := mkRequest {
  operationID : string;
  body : result string string;
  (** mux.Vars(r)["id"] *)
  var_id : string;
  (** r.URL.Query().Get *)
  query : string -> string;
}.

(** ** pkg/api/error.go, metadata.go *)

(** api.Error with its omitempty tags, as a document *)
Definition api_error (fields_ : list (string * string)) : json :=
  JObj (foldr (fun kv l => if decide (kv.2 = "") then l else oset kv.1 (JStr kv.2) l) [] fields_).

Definition SendNotFound (path : string) : reply :=
  let id := "404" in
  Replied 404 (DocumentBody (api_error
    [("type", "Error"); ("id", id); ("href", "/api/maestro/v1/errors/" +:+ id); ("code", "maestro-" +:+ id);
     ("reason", Sprintf "The requested resource '%s' doesn't exist" [GStr path])])).

Definition panicBody : json :=
  let panicID := "1000" in
  api_error
    [("type", "Error"); ("id", panicID); ("href", "/api/maestro/v1/" +:+ panicID); ("code", "maestro-" +:+ panicID);
     ("reason", "An unexpected error happened, please check the log of the service for details")].

(** The metadata documents. *)
Definition SendAPI (path : string) : reply :=
  Replied 200 (DocumentBody (JObj [("href", JStr path); ("id", JStr "maestro"); ("kind", JStr "API");
    ("versions", JArr [JObj [("collections", JNull); ("href", JStr (path +:+ "/v1")); ("id", JStr "v1"); ("kind", JStr "")]])])).

Definition SendAPIV1 (path : string) : reply :=
  Replied 200 (DocumentBody (JObj
    [("collections", JArr [JObj [("href", JStr (path +:+ "/resources")); ("id", JStr "resources"); ("kind", JStr "ResourceList")]]);
     ("href", JStr path); ("id", JStr "v1"); ("kind", JStr "APIVersion")])).

Class BodyCodec := {
  UnmarshalConsumer : string -> result OpenConsumer string;
  UnmarshalPatch : string -> result ConsumerPatchRequest string;
}.

(** ** framework.go, helpers.go, validation.go *)

Definition handleError (r : Request) (err : ServiceError) : reply :=
  Replied err.(HttpCode) (ErrorBody (AsOpenapiError err r.(operationID))).

Definition writeJSONResponse (code : Z) (payload : Payload_) : reply := Replied code payload.

(** The validations run in order; the first error counts. *)
Fixpoint first_error (l : list (option ServiceError)) : option ServiceError :=
  match l with
  | [] => None
  | Some err :: _ => Some err
  | None :: l => first_error l
  end.

(** The end of every handler: the answer to what the action returned. *)
Definition answer (r : Request) (httpStatus : Z) (result_ : result Payload_ failure) : reply :=
  match result_ with
  | Ok p => writeJSONResponse httpStatus p
  | Err (Failed serviceErr) => handleError r serviceErr
  | Err Panicked => HandlerPanics
  end.

Definition handle {T} (r : Request) (unmarshal : string -> result T string) (validate : T -> list (option ServiceError))
  (action : T -> M World (result Payload_ failure)) (httpStatus : Z) : M World reply :=
  match r.(body) with
  | Err err => ret (handleError r (MalformedRequest "Unable to read request body: %s" [GStr err]))
  | Ok bytes =>
      match unmarshal bytes with
      | Err err => ret (handleError r (MalformedRequest "Invalid request format: %s" [GStr err]))
      | Ok into =>
          match first_error (validate into) with
          | Some err => ret (handleError r err)
          | None => let! result_ := action into in ret (answer r httpStatus result_)
          end
      end
  end.

Definition handleDelete (r : Request) (validate : list (option ServiceError))
  (action : M World (result Payload_ failure)) (httpStatus : Z) : M World reply :=
  match first_error validate with
  | Some err => ret (handleError r err)
  | None => let! result_ := action in ret (answer r httpStatus result_)
  end.

Definition handleGet (r : Request) (action : M World (result Payload_ failure)) : M World reply :=
  let! result_ := action in ret (answer r 200 result_).

Definition handleList (r : Request) (action : M World (result Payload_ failure)) : M World reply :=
  let! results := action in ret (answer r 200 results).

(** The field is a string pointer in every use. *)
Definition validateNotEmpty (value : option string) (field : string) : option ServiceError :=
  match value with
  | None => Some (Validation "%s is required" [GStr field])
  | Some s => if (String.length s =? 0)%nat then Some (Validation "%s is required" [GStr field]) else None
  end.

Definition validateEmpty (value : option string) (field : string) : option ServiceError :=
  match value with
  | None => None
  | Some s => if (String.length s =? 0)%nat then None else Some (Validation "%s must be empty" [GStr field])
  end.

(** items.Index(i) for i from low to high - 1; [None] is the panic of an index out of range. *)
Definition items_between {A} (items : list A) (low high : Z) : option (list A) :=
  if high <=? low then Some []
  else if (0 <=? low) && (high <=? Z.of_nat (length items)) then
    Some (take (Z.to_nat (high - low)) (drop (Z.to_nat low) items))
  else None.

(** (list, total); the bounds are 64-bit. *)
Definition determineListRange {A} (items : list A) (page size : Z) : option (list A * Z) :=
  let total := Z.of_nat (length items) in
  let low := Int.int64 (Int.int64 (page - 1) * size) in
  let high := Int.int64 (low + size) in
  let '(low, high) := if (low <? 0) || (total <=? low) || (total <=? high) then (0, total) else (low, high) in
  match items_between items low high with
  | None => None
  | Some list_ => Some (list_, total)
  end.

(** What the list handlers return when fields are asked for: they hand the items over, a
    slice, not the list struct. *)
Definition filtered `{TimeFormat} (fields : list string) (items : list rval) : result Payload_ failure :=
  match SliceFilter fields (RSlice items) with
  | None => Err Panicked
  | Some (Err err) => Err (Failed err)
  | Some (Ok l) => Ok (ProjectionBody l)
  end.

Definition service {A} (m : M World (result A ServiceError)) : M World (result A failure) :=
  let! r := m in ret (map_err Failed r).

(** ** consumer.go *)

Module ConsumerHandler.
Section Ops.
Context `{env : Env} `{gorm : Gorm} `{k8s : K8s} `{codec : BodyCodec} `{tf : TimeFormat} `{qs : QueryStore Consumer} `{sl : SearchLib}.

Definition Create (r : Request) : M World reply :=
  handle r UnmarshalConsumer (fun consumer => [validateEmpty consumer.(oc_Id) "id"])
    (fun consumer =>
       let! c := service (ConsumerService.Create (ConvertConsumer consumer)) in
       ret (match c with Ok c => Ok (ConsumerBody (PresentConsumer c)) | Err e => Err e end))
    201.

Definition Patch (r : Request) : M World reply :=
  handle r UnmarshalPatch (fun _ => [])
    (fun patch =>
       let! found := service (ConsumerService.Get r.(var_id)) in
       match found with
       | Err e => ret (Err e)
       | Ok found =>
           let found := match patch.(p_Labels) with
                        | Some _ => set_Labels (EmptyMapToNilStringMap patch.(p_Labels)) found
                        | None => found
                        end in
           let! c := service (ConsumerService.Replace found) in
           ret (match c with Ok c => Ok (ConsumerBody (PresentConsumer c)) | Err e => Err e end)
       end)
    200.

Definition List (r : Request) : M World reply :=
  handleList r
    (let listArgs := NewListArguments r.(query) in
     let! l := GenericList.List (Row := Consumer) "Consumer" listArgs in
     ret (match l with
          | Err e => Err e
          | Ok (paging, consumers) =>
              let items := PresentConsumer <$> consumers in
              if decide (listArgs.(Fields) <> []) then filtered listArgs.(Fields) (reflectConsumer <$> items)
              else
                Ok (ConsumersBody (ObjectKind ConsumerList) (Int.int32 paging.(pm_Page)) (Int.int32 paging.(pm_Size))
                      (Int.int32 paging.(pm_Total)) items)
          end)).

Definition Get (r : Request) : M World reply :=
  handleGet r
    (let! c := service (ConsumerService.Get r.(var_id)) in
     ret (match c with Ok c => Ok (ConsumerBody (PresentConsumer c)) | Err e => Err e end)).

Definition Delete (r : Request) : M World reply :=
  handleDelete r []
    (let! d := service (ConsumerService.Delete r.(var_id)) in
     ret (match d with Ok _ => Ok NoBody | Err e => Err e end))
    204.
End Ops.
End ConsumerHandler.

(** ** resource_bundle.go *)

Module ResourceBundleHandler.
Section Ops.
Context `{env : Env} `{gorm : Gorm} `{lf : LockFactory} `{ce : CloudEvents} `{tf : TimeFormat} `{cfg : ResourceConfig}
        `{qs : QueryStore Resource} `{sl : SearchLib}.

(** http.Error *)
Definition Create (r : Request) : M World reply := ret (Replied 501 (TextBody "Not Implemented Yet")).
Definition Patch (r : Request) : M World reply := ret (Replied 501 (TextBody "Not Implemented Yet")).

Definition present (resource : Resource) : result ResourceBundle failure :=
  map_err (fun err => Failed (GeneralError "failed to present resource bundle: %s" [GStr err]))
    (PresentResourceBundle resource).

Definition Get (r : Request) : M World reply :=
  handleGet r
    (let! resource := service (ResourceService.Get r.(var_id)) in
     ret (match resource with
          | Err e => Err e
          | Ok resource => match present resource with Ok rb => Ok (BundleBody rb) | Err e => Err e end
          end)).

(** The first resource that cannot be presented ends the loop. *)
Fixpoint present_all (resources : list Resource) : result (list ResourceBundle) failure :=
  match resources with
  | [] => Ok []
  | resource :: resources =>
      match present resource with
      | Err e => Err e
      | Ok converted => match present_all resources with Ok items => Ok (converted :: items) | Err e => Err e end
      end
  end.

Definition List (r : Request) : M World reply :=
  handleList r
    (let listArgs := NewListArguments r.(query) in
     let! l := ListWithArgs listArgs in
     ret (match l with
          | Err e => Err e
          | Ok (paging, resources) =>
              match present_all resources with
              | Err e => Err e
              | Ok items =>
                  if decide (listArgs.(Fields) <> []) then filtered listArgs.(Fields) (reflectBundle <$> items)
                  else
                    Ok (BundlesBody (ObjectKind ResourceList) (Int.int32 paging.(pm_Page)) (Int.int32 paging.(pm_Size))
                          (Int.int32 paging.(pm_Total)) items)
              end
          end)).

Definition Delete (r : Request) : M World reply :=
  handleDelete r []
    (let! err := ResourceService.MarkAsDeleting r.(var_id) in
     ret (match err with None => Ok NoBody | Some e => Err (Failed e) end))
    204.
End Ops.
End ResourceBundleHandler.

(** ** errors.go *)

Module ErrorHandler.

Definition List (r : Request) : M World reply :=
  handleList r
    (let listArgs := NewListArguments r.(query) in
     ret (match determineListRange Errors listArgs.(Page) listArgs.(Size) with
          | None => Err Panicked
          | Some (list_, total) =>
              Ok (ErrorsBody "ErrorList" (Int.int32 listArgs.(Page)) (Int.int32 (Z.of_nat (length list_))) (Int.int32 total)
                    (PresentError <$> list_))
          end)).

Definition Get (r : Request) : M World reply :=
  handleGet r
    (let notFound := Err (Failed (NotFound "No error with id %s exists" [GStr r.(var_id)])) in
     ret (match Strconv.Atoi r.(var_id) with
          | (_, Some _) => notFound
          | (value, None) =>
              match Find value with
              | None => notFound
              | Some sErr => Ok (ErrorBody (PresentError sErr))
              end
          end)).

Definition Create (r : Request) : M World reply := ret (handleError r (NotImplemented "create" [])).
Definition Patch (r : Request) : M World reply := ret (handleError r (NotImplemented "path" [])).
Definition Delete (r : Request) : M World reply := ret (handleError r (NotImplemented "delete" [])).
End ErrorHandler.

(** ** routes.go *)

Inductive Method := GET | POST | PATCH | DELETE.
#[export] Instance Method_eq_dec : EqDecision Method.
Proof. solve_decision. Defined.

Section Routes.
Context `{env : Env} `{gorm : Gorm} `{lf : LockFactory} `{ce : CloudEvents} `{k8s : K8s} `{codec : BodyCodec}
        `{tf : TimeFormat} `{cfg : ResourceConfig} `{cs : QueryStore Consumer} `{rs : QueryStore Resource} `{sl : SearchLib}
        `{pgl : PgAdvisory} `{rb : SqlRollback}.

Definition with_id (id : string) (r : Request) : Request := mkRequest r.(operationID) r.(body) id r.(query).

(** The handler registered for a method and a path under /api/maestro/v1, cut at the
    slashes; {id} stands for one segment that is not empty. *)
Definition routes (method : Method) (path : list string) (r : Request) : option (M World reply) :=
  match path with
  | [collection] =>
      if decide (collection = "errors") then
        match method with GET => Some (ErrorHandler.List r) | _ => None end
      else if decide (collection = "resource-bundles") then
        match method with GET => Some (ResourceBundleHandler.List r) | _ => None end
      else if decide (collection = "consumers") then
        match method with
        | GET => Some (ConsumerHandler.List r)
        | POST => Some (ConsumerHandler.Create r)
        | _ => None
        end
      else None
  | [collection; id] =>
      let r := with_id id r in
      if decide (id = "") then None
      else if decide (collection = "errors") then
        match method with GET => Some (ErrorHandler.Get r) | _ => None end
      else if decide (collection = "resource-bundles") then
        match method with
        | GET => Some (ResourceBundleHandler.Get r)
        | DELETE => Some (ResourceBundleHandler.Delete r)
        | _ => None
        end
      else if decide (collection = "consumers") then
        match method with
        | GET => Some (ConsumerHandler.Get r)
        | PATCH => Some (ConsumerHandler.Patch r)
        | DELETE => Some (ConsumerHandler.Delete r)
        | _ => None
        end
      else None
  | _ => None
  end.

(** registerApiMiddleware: a handler runs behind the transaction middleware; a request no
    route matches is answered by the router. *)
Definition serve_http (method : Method) (path : list string) (r : Request) : M World (option reply) :=
  match routes method path r with
  | None => ret None
  | Some next => let! answer := TransactionMiddleware (handleError r) next in ret (Some answer)
  end.
End Routes.
