(* ===== verification/Configuration.v ===== *)
(** * pkg/api/openapi/configuration.go: the server an operation is sent to

    The configuration of the API client and the URL of an operation: the server list of
    the operation or the common one, the index and the variables from the context. The
    values in a context may have any type. *)

From S2P Require Import Prelude GoLib Types GoMap.
Import api Strings Fmt.

Open Scope Z_scope.

(** strings.Replace(s, old, new, -1) for a non-empty old: [skip] bytes of a match are left. *)
Fixpoint replace_from (skip : nat) (s old new : string) : string :=
  match s with
  | "" => ""
  | String c s' =>
      match skip with
      | S skip => replace_from skip s' old new
      | O => if String.prefix old s then new +:+ replace_from (String.length old - 1) s' old new
             else String c (replace_from 0 s' old new)
      end
  end.
Definition Replace (s old new : string) : string := replace_from 0 s old new.

Record ServerVariable := mkServerVariable {
  sv_Description : string;
  DefaultValue : string;
  EnumValues : list string;
}.

(** The variables are listed in the order the map is walked in. *)
Record ServerConfiguration := mkServerConfiguration {
  sc_URL : string;
  sc_Description : string;
  Variables : list (string * ServerVariable);
}.

(** The parts of http.Client that are set. *)
Record HTTPClient := mkHTTPClient {
  MinVersionTLS13 : bool;
  hc_InsecureSkipVerify : bool;
  hc_Timeout : Z;
}.

Record Configuration := mkConfiguration {
  Host : string;
  Scheme : string;
  DefaultHeader : list (string * string);
  UserAgent : string;
  Debug : bool;
  Servers : list ServerConfiguration;
  OperationServers : list (string * list ServerConfiguration);
  HTTPClient_ : option HTTPClient;
}.

Definition NewConfiguration : Configuration :=
  mkConfiguration "" "" [] "OpenAPI-Generator/1.0.0/go" false
    [mkServerConfiguration "http://localhost:8000" "current domain" [];
     mkServerConfiguration "https://api.openshift.com" "Main (production) server" [];
     mkServerConfiguration "https://api.stage.openshift.com" "Staging server" []] [] None.

Definition AddDefaultHeader (key value : string) (c : Configuration) : Configuration :=
  mkConfiguration c.(Host) c.(Scheme) (GoMap.set key value c.(DefaultHeader))
    c.(UserAgent) c.(Debug) c.(Servers) c.(OperationServers) c.(HTTPClient_).

(** The loop over the variables of the server. *)
Fixpoint substitute (vars : list (string * ServerVariable)) (variables : list (string * string)) (url : string) :
  result string string :=
  match vars with
  | [] => Ok url
  | (name, variable) :: vars =>
      let placeholder := "{" +:+ name +:+ "}" in
      match GoMap.get name variables with
      | Some value =>
          let found := (length variable.(EnumValues) =? 0)%nat || existsb (String.eqb value) variable.(EnumValues) in
          if found then substitute vars variables (Replace url placeholder value)
          else Err (Sprintf "the variable %s in the server URL has invalid value %v. Must be %v"
                      [GStr name; GStr value; GStrs variable.(EnumValues)])
      | None => substitute vars variables (Replace url placeholder variable.(DefaultValue))
      end
  end.

Definition URL (sc : list ServerConfiguration) (index : Z) (variables : list (string * string)) : result string string :=
  match (if index <? 0 then None else sc !! Z.to_nat index) with
  | None => Err (Sprintf "index %v out of range %v" [GInt index; GInt (Z.of_nat (length sc) - 1)])
  | Some server => substitute server.(Variables) variables server.(sc_URL)
  end.

Definition ServerURL (index : Z) (variables : list (string * string)) (c : Configuration) : result string string :=
  URL c.(Servers) index variables.

(** ** What a context may hold *)

Inductive any :=
| AInt (z : Z)
| AIndices (m : list (string * Z))
| AVariables (m : list (string * string))
| AOperationVariables (m : list (string * list (string * string)))
| AOther (type : string).

(** %T *)
Definition any_type (a : any) : string :=
  match a with
  | AInt _ => "int"
  | AIndices _ => "map[string]int"
  | AVariables _ => "map[string]string"
  | AOperationVariables _ => "map[string]map[string]string"
  | AOther type => type
  end.

Record context := mkUrlContext {
  ContextServerIndex : option any;
  ContextOperationServerIndices : option any;
  ContextServerVariables : option any;
  ContextOperationServerVariables : option any;
}.
Definition Background : context := mkUrlContext None None None None.

Definition getServerIndex (ctx : context) : result Z string :=
  match ctx.(ContextServerIndex) with
  | None => Ok 0
  | Some (AInt index) => Ok index
  | Some si => Err (Sprintf "Invalid type %v should be int" [GStr (any_type si)])
  end.

Definition getServerOperationIndex (ctx : context) (endpoint : string) : result Z string :=
  match ctx.(ContextOperationServerIndices) with
  | None => getServerIndex ctx
  | Some (AIndices operationIndices) =>
      match GoMap.get endpoint operationIndices with
      | Some index => Ok index
      | None => getServerIndex ctx
      end
  | Some osi => Err (Sprintf "Invalid type %v should be map[string]int" [GStr (any_type osi)])
  end.

Definition getServerVariables (ctx : context) : result (list (string * string)) string :=
  match ctx.(ContextServerVariables) with
  | None => Ok []
  | Some (AVariables variables) => Ok variables
  | Some sv => Err (Sprintf "ctx value of ContextServerVariables has invalid type %v should be map[string]string"
                      [GStr (any_type sv)])
  end.

Definition getServerOperationVariables (ctx : context) (endpoint : string) : result (list (string * string)) string :=
  match ctx.(ContextOperationServerVariables) with
  | None => getServerVariables ctx
  | Some (AOperationVariables operationVariables) =>
      match GoMap.get endpoint operationVariables with
      | Some variables => Ok variables
      | None => getServerVariables ctx
      end
  | Some osv =>
      Err (Sprintf "ctx value of ContextOperationServerVariables has invalid type %v should be map[string]map[string]string"
             [GStr (any_type osv)])
  end.

(** [None] is a nil context. *)
Definition ServerURLWithContext (c : Configuration) (ctx : option context) (endpoint : string) : result string string :=
  let sc := match GoMap.get endpoint c.(OperationServers) with Some sc => sc | None => c.(Servers) end in
  match ctx with
  | None => URL sc 0 []
  | Some ctx =>
      match getServerOperationIndex ctx endpoint with
      | Err err => Err err
      | Ok index =>
          match getServerOperationVariables ctx endpoint with
          | Err err => Err err
          | Ok variables => URL sc index variables
          end
      end
  end.

(** ** Facts *)

(** A value is refused only when the variable restricts it. *)
Definition admissible (variables : list (string * string)) (v : string * ServerVariable) : Prop :=
  match GoMap.get v.1 variables with
  | Some value => v.2.(EnumValues) = [] \/ value ∈ v.2.(EnumValues)
  | None => True
  end.

Lemma substitute_ok vars variables url :
  is_ok (substitute vars variables url) = true <-> Forall (admissible variables) vars.
Proof.
  revert url. induction vars as [|[name v] vars IH]; intros url; [split; [by constructor|done]|].
  rewrite Forall_cons. cbn [substitute]. unfold admissible at 1. cbn [fst snd].
  destruct (GoMap.get name variables) as [value|]; [|rewrite IH; tauto].
  destruct (length v.(EnumValues) =? 0)%nat eqn:El; cbn [orb].
  - rewrite IH. apply Nat.eqb_eq, nil_length_inv in El. rewrite El. split; [auto|tauto].
  - destruct (existsb _ _) eqn:Ee.
    + rewrite IH. apply existsb_exists in Ee as (x & Hx & ->%String.eqb_eq). apply list_elem_of_In in Hx. tauto.
    + split; [done|]. intros [[Hn|Hin] _]; [by rewrite Hn in El|].
      assert (existsb (String.eqb value) v.(EnumValues) = true) as E'; [|congruence].
      apply existsb_exists. exists value. rewrite String.eqb_refl. by apply list_elem_of_In in Hin.
Qed.

(** The URL of a server exists exactly when the index is that of a server and every given
    variable has a value its server admits. *)
Lemma URL_ok sc index variables :
  is_ok (URL sc index variables) = true <->
  exists server, 0 <= index /\ sc !! Z.to_nat index = Some server /\ Forall (admissible variables) server.(Variables).
Proof.
  unfold URL. destruct (Z.ltb_spec index 0) as [Hi|Hi].
  { split; [done|]. intros (? & ? & _). lia. }
  destruct (sc !! Z.to_nat index) as [server|] eqn:Es.
  - rewrite substitute_ok. split; [intros; by exists server|]. intros (s & _ & [= <-] & ?). done.
  - split; [done|]. by intros (? & _ & ? & _).
Qed.
