(* ===== verification/Url.v ===== *)
(** * net/url: the URLs of requests

    Percent-encoding of a path, a path segment and a query component, url.Values with its
    Encode and ParseQuery, and the parsing and printing of a URL. An authority with user
    information, in brackets, with an escape or with bytes outside ASCII is not parsed here. *)

From S2P Require Import Prelude GoLib Json.
Import Strings.

Open Scope Z_scope.

(** ** Escaping *)

Inductive mode := encodePath | encodePathSegment | encodeQueryComponent.

Definition code (c : ascii) : Z := Z.of_nat (nat_of_ascii c).
Definition alphanumeric (c : ascii) : bool :=
  let n := code c in ((97 <=? n) && (n <=? 122)) || ((65 <=? n) && (n <=? 90)) || ((48 <=? n) && (n <=? 57)).
Definition one_of (l : string) (c : ascii) : bool := existsb (Ascii.eqb c) (String.list_ascii_of_string l).

Definition shouldEscape (m : mode) (c : ascii) : bool :=
  if alphanumeric c then false
  else if one_of "-_.~" c then false
  else if one_of "$&+,/:;=?@" c then
    match m with
    | encodePath => one_of "?" c
    | encodePathSegment => one_of "/;,?" c
    | encodeQueryComponent => true
    end
  else true.

Definition upperhex (n : Z) : ascii := Json.byte (if n <? 10 then 48 + n else 55 + n).
Definition escape_char (m : mode) (c : ascii) : string :=
  if shouldEscape m c then
    match m, c with
    | encodeQueryComponent, " "%char => "+"
    | _, _ => String "%" (String (upperhex (code c / 16)) (String (upperhex (code c mod 16)) ""))
    end
  else String c "".
Fixpoint escape (m : mode) (s : string) : string :=
  match s with "" => "" | String c s => escape_char m c +:+ escape m s end.

(** [None]: an invalid escape. *)
Fixpoint unescape (m : mode) (s : string) : option string :=
  match s with
  | "" => Some ""
  | String "%" (String a (String b s)) =>
      match Json.hexval a, Json.hexval b with
      | Some x, Some y => String (Json.byte (16 * x + y)) <$> unescape m s
      | _, _ => None
      end
  | String "%" _ => None
  | String "+" s => String (match m with encodeQueryComponent => " "%char | _ => "+"%char end) <$> unescape m s
  | String c s => String c <$> unescape m s
  end.

Definition PathEscape : string -> string := escape encodePathSegment.
Definition QueryEscape : string -> string := escape encodeQueryComponent.

(** ** url.Values *)

(** Values are the list of their pairs in the order of Add; the order between different keys
    has no meaning. *)
Definition insert_pair (x : string * string) : list (string * string) -> list (string * string) :=
  fix go l := match l with
              | [] => [x]
              | y :: l' => if String.ltb y.1 x.1 then y :: go l' else x :: l
              end.
(** The pairs by key, those of one key in their order. *)
Definition sorted (v : list (string * string)) : list (string * string) := foldr insert_pair [] v.
Definition encode_pair (kv : string * string) : string := QueryEscape kv.1 +:+ "=" +:+ QueryEscape kv.2.
Definition Encode (v : list (string * string)) : string := Join (encode_pair <$> sorted v) "&".

(** strings.Cut *)
Definition Cut (s : string) (sep : ascii) : string * string :=
  match SplitN2 s sep with Some ab => ab | None => (s, "") end.

(** The pair of one part of a query, if it has one: parts with a semicolon or an invalid
    escape are left out. *)
Definition parse_pair (part : string) : option (string * string) :=
  if Contains part ";" then None
  else if decide (part = "") then None
  else let '(key, value) := Cut part "="%char in
       match unescape encodeQueryComponent key, unescape encodeQueryComponent value with
       | Some k, Some v => Some (k, v)
       | _, _ => None
       end.
(** URL.Query(), which drops the error of ParseQuery. *)
Definition ParseQuery (query : string) : list (string * string) := omap parse_pair (Split query "&"%char).

(** ** URLs *)

Record URL := mkURL {
  u_Scheme : string;
  u_Opaque : string;
  u_Host : string;
  u_OmitHost : bool;
  u_Path : string;
  u_RawPath : string;
  u_ForceQuery : bool;
  u_RawQuery : string;
  u_RawFragment : string;
}.

Definition control (c : ascii) : bool := (code c <? 32) || (code c =? 127).
Definition any_char (p : ascii -> bool) (s : string) : bool := existsb p (String.list_ascii_of_string s).

(** The scheme and what follows it; [None]: missing protocol scheme. *)
Definition letter (c : ascii) : bool := let n := code c in ((97 <=? n) && (n <=? 122)) || ((65 <=? n) && (n <=? 90)).
Fixpoint scan_scheme (first : bool) (s : string) : option (option (string * string)) :=
  match s with
  | "" => Some None
  | String ":" s => if first then None else Some (Some ("", s))
  | String c s =>
      if letter c || (negb first && (alphanumeric c || one_of "+-." c)) then
        match scan_scheme false s with
        | Some (Some (a, b)) => Some (Some (String c a, b))
        | r => r
        end
      else Some None
  end.
Definition getScheme (s : string) : option (string * string) :=
  match scan_scheme true s with
  | None => None
  | Some None => Some ("", s)
  | Some (Some (scheme, rest)) => Some (ToLower scheme, rest)
  end.

(** The host of an authority: name and port. *)
Definition digit_char (c : ascii) : bool := (48 <=? code c) && (code c <=? 57).
Fixpoint last_colon (s : string) : option string :=
  match s with
  | "" => None
  | String c s => match last_colon s with
                  | Some p => Some p
                  | None => if decide (c = ":"%char) then Some s else None
                  end
  end.
Definition host_char (c : ascii) : bool := alphanumeric c || one_of "-_.~$&+,;=:!'()*<>" c || one_of (String "034" "") c.
Definition parseAuthority (s : string) : option string :=
  let port_ok := match last_colon s with Some p => forallb digit_char (String.list_ascii_of_string p) | None => true end in
  if port_ok && forallb host_char (String.list_ascii_of_string s) then Some s else None.

Definition setPath (p : string) : option (string * string) :=
  path ← unescape encodePath p; Some (path, if decide (p = escape encodePath path) then "" else p).

(** What follows the scheme, without the query. *)
Definition parse_rest (viaRequest : bool) (scheme rest : string) (forceQuery : bool) (rawQuery : string) : option URL :=
  let with_path host omit rest :=
    '(path, rawPath) ← setPath rest; Some (mkURL scheme "" host omit path rawPath forceQuery rawQuery "") in
  if negb (HasPrefix rest "/") then
    if decide (scheme <> "") then Some (mkURL scheme rest "" false "" "" forceQuery rawQuery "")
    else if viaRequest then None
    else if Contains (Cut rest slash).1 ":" then None
    else with_path "" false rest
  else if bool_decide (scheme <> "" \/ viaRequest = false /\ HasPrefix rest "///" = false) && HasPrefix rest "//" then
    match SplitN2 (TrimPrefix rest "//") slash with
    | Some (authority, path) => host ← parseAuthority authority; with_path host false (String "/" path)
    | None => host ← parseAuthority (TrimPrefix rest "//"); with_path host false ""
    end
  else with_path "" (bool_decide (scheme <> "")) rest.

(** A question mark at the end, and no other, asks for an empty query. *)
Definition parse (rawURL : string) (viaRequest : bool) : option URL :=
  if any_char control rawURL then None
  else if decide (rawURL = "" /\ viaRequest = true) then None
  else if decide (rawURL = "*") then Some (mkURL "" "" "" false "*" "" false "" "")
  else
    '(scheme, rest) ← getScheme rawURL;
    let '(r, rawQuery) := Cut rest "?"%char in
    parse_rest viaRequest scheme r (bool_decide (rawQuery = "" /\ r <> rest)) rawQuery.

Definition Parse (rawURL : string) : option URL :=
  let '(u, frag) := Cut rawURL "#"%char in
  u ← parse u false;
  Some (mkURL u.(u_Scheme) u.(u_Opaque) u.(u_Host) u.(u_OmitHost) u.(u_Path) u.(u_RawPath) u.(u_ForceQuery) u.(u_RawQuery) frag).
Definition ParseRequestURI (rawURL : string) : option URL := parse rawURL true.

Definition valid_char (c : ascii) : bool :=
  one_of "!$&'()*+,;=:@" c || one_of "[]" c || one_of "%" c || negb (shouldEscape encodePath c).
Definition validEncoded (s : string) : bool := forallb valid_char (String.list_ascii_of_string s).
Definition EscapedPath (u : URL) : string :=
  if decide (u.(u_RawPath) <> "" /\ validEncoded u.(u_RawPath) = true /\ unescape encodePath u.(u_RawPath) = Some u.(u_Path)) then u.(u_RawPath)
  else if decide (u.(u_Path) = "*") then "*"
  else escape encodePath u.(u_Path).

Definition with_query (u : URL) (s : string) : string :=
  if u.(u_ForceQuery) || bool_decide (u.(u_RawQuery) <> "") then s +:+ "?" +:+ u.(u_RawQuery) else s.
(** String(); a host of the characters above is printed as it is. *)
Definition URL_String (u : URL) : string :=
  let scheme := if decide (u.(u_Scheme) = "") then "" else u.(u_Scheme) +:+ ":" in
  let text :=
    if decide (u.(u_Opaque) <> "") then scheme +:+ u.(u_Opaque)
    else
      let slashes :=
        if decide ((u.(u_Scheme) <> "" \/ u.(u_Host) <> "") /\ ~ (u.(u_OmitHost) = true /\ u.(u_Host) = "") /\
                   (u.(u_Host) <> "" \/ u.(u_Path) <> "")) then "//" else "" in
      let path := EscapedPath u in
      let root := if decide (path <> "" /\ HasPrefix path "/" = false /\ u.(u_Host) <> "") then "/" else "" in
      let before := scheme +:+ slashes +:+ u.(u_Host) +:+ root in
      let dot := if decide (before = "" /\ Contains (Cut path slash).1 ":" = true) then "./" else "" in
      before +:+ dot +:+ path in
  with_query u text +:+ (if decide (u.(u_RawFragment) = "") then "" else "#" +:+ u.(u_RawFragment)).

(** The target of the request line. *)
Definition RequestURI (u : URL) : string :=
  with_query u (if decide (u.(u_Opaque) = "") then let p := EscapedPath u in if decide (p = "") then "/" else p
                else if HasPrefix u.(u_Opaque) "//" then u.(u_Scheme) +:+ ":" +:+ u.(u_Opaque) else u.(u_Opaque)).

(** * Round trips of net/url

    What is escaped unescapes to itself, an encoded query parses to its pairs, and a URL
    whose path is encoded keeps it when it is parsed and printed. *)

Import Strings.

Open Scope Z_scope.

(** ** Bytes *)

Definition all_ascii : list ascii := ascii_of_nat <$> seq 0 256.
Lemma for_all_ascii (p : ascii -> bool) : forallb p all_ascii = true -> forall c, p c = true.
Proof.
  intros H c. apply (proj1 (forallb_forall p all_ascii) H). apply list_elem_of_In. apply list_elem_of_fmap.
  exists (nat_of_ascii c). split; [by rewrite ascii_nat_embedding|]. apply elem_of_seq. pose proof (nat_ascii_bounded c). lia.
Qed.

(** The shapes of an escaped byte: itself, a plus for a space, or two digits. *)
Definition escape_shape (m : mode) (c : ascii) : bool :=
  match escape_char m c with
  | String "%" (String a (String b "")) =>
      match Json.hexval a, Json.hexval b with Some x, Some y => bool_decide (Json.byte (16 * x + y) = c) | _, _ => false end
  | String "+" "" => match m with encodeQueryComponent => Ascii.eqb c " " | _ => Ascii.eqb c "+" end
  | String d "" => Ascii.eqb c d && negb (Ascii.eqb d "%")
  | _ => false
  end.
Lemma escape_shape_all m c : escape_shape m c = true.
Proof. revert c. apply for_all_ascii. destruct m; vm_compute; reflexivity. Qed.

Lemma unescape_digits m a b s :
  unescape m (String "%" (String a (String b "")) +:+ s) =
  match Json.hexval a, Json.hexval b with Some x, Some y => String (Json.byte (16 * x + y)) <$> unescape m s | _, _ => None end.
Proof. done. Qed.
Definition is_query (m : mode) : bool := match m with encodeQueryComponent => true | _ => false end.
Lemma unescape_char m m' c s :
  is_query m' = is_query m -> unescape m' (escape_char m c +:+ s) = String c <$> unescape m' s.
Proof.
  intros Hm. pose proof (escape_shape_all m c) as Hs. unfold escape_shape in Hs.
  destruct (escape_char m c) as [|d [|a [|b [|e t]]]]; [done| | | |];
    try (destruct d as [[] [] [] [] [] [] [] []]; done).
  - destruct (decide (d = "+"%char)) as [->|Hp].
    { cbn. destruct m, m'; try done; apply Ascii.eqb_eq in Hs as ->; done. }
    assert (Hd : (Ascii.eqb c d && negb (Ascii.eqb d "%")) = true).
    { destruct d as [[] [] [] [] [] [] [] []]; exact Hs || done. }
    apply andb_prop in Hd as [->%Ascii.eqb_eq Hn]. clear Hs.
    destruct d as [[] [] [] [] [] [] [] []]; done.
  - destruct (decide (d = "%"%char)) as [->|Hp]; [|destruct d as [[] [] [] [] [] [] [] []]; done].
    rewrite unescape_digits. destruct (Json.hexval a), (Json.hexval b); try done. by apply bool_decide_eq_true in Hs as ->.
Qed.

Lemma unescape_escape_modes m m' s : is_query m' = is_query m -> unescape m' (escape m s) = Some s.
Proof. intros Hm. induction s as [|c s IH]; [done|]. cbn [escape]. by rewrite unescape_char, IH. Qed.
Lemma unescape_escape m s : unescape m (escape m s) = Some s.
Proof. by apply unescape_escape_modes. Qed.

(** ** What an escaped text does not contain *)

Lemma any_char_app p a b : any_char p (a +:+ b) = any_char p a || any_char p b.
Proof.
  unfold any_char. induction a as [|c a IH]; [done|]. change (String c a +:+ b) with (String c (a +:+ b)).
  cbn [String.list_ascii_of_string existsb]. by rewrite IH, orb_assoc.
Qed.

Lemma escape_free m p s : (forall c, any_char p (escape_char m c) = false) -> any_char p (escape m s) = false.
Proof. intros H. induction s as [|c s IH]; [done|]. cbn [escape]. by rewrite any_char_app, H, IH. Qed.

Definition reserved (c : ascii) : bool := one_of "&=;#?" c || control c.
Lemma escape_query_free s : any_char reserved (escape encodeQueryComponent s) = false.
Proof.
  apply escape_free. intros c. apply negb_true_iff. revert c. apply (for_all_ascii (fun c => negb _)). vm_compute. reflexivity.
Qed.

Lemma any_char_weaken p q s : (forall c, p c = true -> q c = true) -> any_char q s = false -> any_char p s = false.
Proof.
  intros H. unfold any_char. induction s as [|c s IH]; [done|]. cbn. intros [Hc Hs]%orb_false_iff.
  rewrite IH by done. destruct (p c) eqn:E; [|done]. by rewrite (H _ E) in Hc.
Qed.
Lemma lacks_char c p s : p c = true -> any_char p s = false -> ~ In c (String.list_ascii_of_string s).
Proof.
  intros Hp. unfold any_char. induction s as [|d s IH]; cbn; [tauto|]. intros [Hd Hs]%orb_false_iff [->|Hin]; [congruence|].
  by apply IH.
Qed.

Lemma Contains_char c s : any_char (Ascii.eqb c) s = false -> Contains s (String c "") = false.
Proof.
  unfold any_char. induction s as [|d s IH]; [done|]. cbn. intros [Hd Hs]%orb_false_iff.
  rewrite IH by done. destruct (ascii_dec c d) as [->|]; [by rewrite Ascii.eqb_refl in Hd|]. by destruct s.
Qed.

Lemma SplitN2_app a sep b : ~ In sep (String.list_ascii_of_string a) -> SplitN2 (a +:+ String sep b) sep = Some (a, b).
Proof.
  induction a as [|c a IH]; intros Hn; cbn in Hn.
  - change ("" +:+ String sep b) with (String sep b). cbn. by rewrite decide_True.
  - change (String c a +:+ String sep b) with (String c (a +:+ String sep b)). cbn [SplitN2].
    rewrite decide_False by (intros ->; apply Hn; by left). by rewrite IH by tauto.
Qed.
Lemma Cut_none s sep : ~ In sep (String.list_ascii_of_string s) -> Cut s sep = (s, "").
Proof.
  intros Hn. unfold Cut. enough (SplitN2 s sep = None) as -> by done. induction s as [|c s IH]; [done|]. cbn in Hn. cbn [SplitN2].
  rewrite decide_False by (intros ->; apply Hn; by left). by rewrite IH by tauto.
Qed.

Lemma Split_Join l sep :
  Forall (fun s => ~ In sep (String.list_ascii_of_string s)) l -> l <> [] -> Split (Join l (String sep "")) sep = l.
Proof.
  induction l as [|s [|t l] IH]; intros Hl Hne; [done| |].
  - apply Forall_cons in Hl as [Hs _]. cbn. by apply Split_none.
  - apply Forall_cons in Hl as [Hs Hl]. change (Join (s :: t :: l) (String sep "")) with (s +:+ String sep (Join (t :: l) (String sep ""))).
    rewrite Split_app by done. by rewrite IH.
Qed.

(** ** Queries *)

Lemma parse_pair_eq a b k v :
  any_char reserved a = false -> any_char reserved b = false ->
  unescape encodeQueryComponent a = Some k -> unescape encodeQueryComponent b = Some v ->
  parse_pair (a +:+ "=" +:+ b) = Some (k, v).
Proof.
  intros Ha Hb Hk Hv. unfold parse_pair.
  rewrite Contains_char; [|rewrite !any_char_app; cbn; rewrite !(any_char_weaken _ reserved); try done].
  2,3: intros c <-%Ascii.eqb_eq; done.
  rewrite decide_False by (by destruct a). unfold Cut. change ("=" +:+ b) with (String "=" b).
  rewrite SplitN2_app by (by apply (lacks_char _ reserved)). by rewrite Hk, Hv.
Qed.

Lemma ParseQuery_Join (part : string * string -> string) l :
  (forall x, x ∈ l -> ~ In "&"%char (String.list_ascii_of_string (part x)) /\ parse_pair (part x) = Some x) ->
  ParseQuery (Join (part <$> l) "&") = l.
Proof.
  intros Hp. unfold ParseQuery. destruct l as [|x l]; [done|].
  rewrite Split_Join; [|apply Forall_fmap, Forall_forall; intros y Hy; by apply Hp|done].
  remember (x :: l) as l' eqn:E. clear E x l. induction l' as [|x l IH]; [done|].
  cbn. rewrite (proj2 (Hp x ltac:(by left))). f_equal. apply IH. intros y Hy. apply Hp. by right.
Qed.

Theorem ParseQuery_Encode v : ParseQuery (Encode v) = sorted v.
Proof.
  apply ParseQuery_Join. intros [k w] _. unfold encode_pair. cbn [fst snd]. split.
  - apply (lacks_char _ (Ascii.eqb "&")); [done|]. rewrite !any_char_app. cbn.
    assert (Hw : forall t, any_char (Ascii.eqb "&") (QueryEscape t) = false).
    { intros t. apply (any_char_weaken _ reserved); [by intros c <-%Ascii.eqb_eq|apply escape_query_free]. }
    by rewrite !Hw.
  - apply parse_pair_eq; [apply escape_query_free..|apply unescape_escape|apply unescape_escape].
Qed.

Lemma string_compare_refl s : String.compare s s = Eq.
Proof. induction s as [|c s IH]; [done|]. cbn. unfold Ascii.compare. by rewrite N.compare_refl. Qed.

(** Sorting keeps the values of every key, in their order. *)
Lemma filter_insert_pair k x l :
  base.filter (fun kv : string * string => kv.1 = k) (insert_pair x l) = base.filter (fun kv => kv.1 = k) (x :: l).
Proof.
  induction l as [|y l IH]; [done|]. cbn [insert_pair]. destruct (String.ltb y.1 x.1) eqn:E; [|done].
  rewrite !filter_cons in *. rewrite IH. assert (y.1 <> x.1).
  { intros Heq. rewrite Heq in E. unfold String.ltb in E.
    by rewrite string_compare_refl in E. }
  repeat case_decide; congruence.
Qed.
Lemma filter_sorted k v : base.filter (fun kv : string * string => kv.1 = k) (sorted v) = base.filter (fun kv => kv.1 = k) v.
Proof.
  induction v as [|x v IH]; [done|]. cbn [sorted foldr]. fold (sorted v). rewrite filter_insert_pair, !filter_cons. by rewrite IH.
Qed.

(** ** Paths and URLs *)

(** A text of bytes a path keeps as they are. *)
Definition kept (c : ascii) : bool := negb (shouldEscape encodePath c) && negb (Ascii.eqb c "%") && negb (Ascii.eqb c "+").
Definition plain_path (s : string) : bool := forallb kept (String.list_ascii_of_string s).

Lemma append_assoc (a b c : string) : (a +:+ b) +:+ c = a +:+ b +:+ c.
Proof. induction a as [|x a IH]; [done|]. change (String x ((a +:+ b) +:+ c) = String x (a +:+ b +:+ c)). by rewrite IH. Qed.
Lemma list_ascii_app a b : String.list_ascii_of_string (a +:+ b) = String.list_ascii_of_string a ++ String.list_ascii_of_string b.
Proof. induction a as [|c a IH]; [done|]. change (String c a +:+ b) with (String c (a +:+ b)). cbn. by rewrite IH. Qed.

Lemma unescape_plain p s : plain_path p = true -> unescape encodePath (p +:+ s) = (fun t => p +:+ t) <$> unescape encodePath s.
Proof.
  induction p as [|c p IH]; intros Hp; [change ("" +:+ s) with s; by destruct (unescape encodePath s)|].
  unfold plain_path in Hp. cbn in Hp. apply andb_prop in Hp as [Hc Hp]. change (String c p +:+ s) with (String c (p +:+ s)).
  assert (He : unescape encodePath (String c (p +:+ s)) = String c <$> unescape encodePath (p +:+ s)).
  { unfold kept in Hc. clear IH. destruct c as [[] [] [] [] [] [] [] []]; reflexivity || discriminate Hc. }
  rewrite He, IH by done. by destruct (unescape encodePath s).
Qed.

(** What a path of a request is made of. *)
Definition encoded_path (s : string) : bool :=
  validEncoded s && negb (any_char (fun c => one_of "?#" c || control c) s).

Lemma encoded_app a b : encoded_path a = true -> encoded_path b = true -> encoded_path (a +:+ b) = true.
Proof.
  unfold encoded_path, validEncoded. rewrite list_ascii_app, forallb_app, any_char_app, !andb_true_iff, !negb_true_iff, orb_false_iff.
  tauto.
Qed.
Lemma kept_encoded c : kept c = true -> encoded_path (String c "") = true.
Proof.
  intros Hc. enough (negb (kept c) || encoded_path (String c "") = true) as [Hn|Hn]%orb_prop by (rewrite ?Hc in Hn; done).
  clear Hc. revert c. apply (for_all_ascii (fun c => negb (kept c) || encoded_path (String c ""))). vm_compute. reflexivity.
Qed.
Lemma plain_encoded p : plain_path p = true -> encoded_path p = true.
Proof.
  induction p as [|c p IH]; [done|]. unfold plain_path. cbn. intros [Hc Hp]%andb_prop.
  change (String c p) with (String c "" +:+ p). apply encoded_app; [by apply kept_encoded|by apply IH].
Qed.
Lemma PathEscape_encoded s : encoded_path (PathEscape s) = true.
Proof.
  induction s as [|c s IH]; [done|]. unfold PathEscape in *. cbn [escape]. apply encoded_app; [|done].
  clear s IH. revert c. apply (for_all_ascii (fun c => encoded_path (escape_char encodePathSegment c))). vm_compute. reflexivity.
Qed.

(** setPath and EscapedPath give the path back. *)
Lemma setPath_escaped p path : unescape encodePath p = Some path -> validEncoded p = true -> p <> "" -> path <> "*" ->
  exists raw, setPath p = Some (path, raw) /\
    forall scheme opaque host omit force query frag,
      EscapedPath (mkURL scheme opaque host omit path raw force query frag) = p.
Proof.
  intros Hu Hv Hne Hstar. unfold setPath. rewrite Hu. cbn. eexists. split; [done|]. intros. unfold EscapedPath. cbn.
  destruct (decide (p = escape encodePath path)) as [He|He].
  - rewrite decide_False by (by intros [? _]). by rewrite decide_False.
  - by rewrite decide_True.
Qed.

Lemma insert_pair_permutation x l : Permutation (insert_pair x l) (x :: l).
Proof.
  induction l as [|y l IH]; [done|]. cbn [insert_pair]. destruct (String.ltb y.1 x.1); [|done]. rewrite IH. apply Permutation_swap.
Qed.
Lemma sorted_permutation v : Permutation (sorted v) v.
Proof. induction v as [|x v IH]; [done|]. cbn. rewrite insert_pair_permutation. by fold (sorted v); rewrite IH. Qed.
