(* ===== verification/CliConfig.v ===== *)
(** * cmd/maestro/common/clients/config.go and the construction of the clients

    How the command line tool finds its configuration (flag, else environment, else the
    default of the flag), and the two clients it makes: NewRESTClient (rest.go) and
    NewGRPCClient (grpc.go) with its three ways to connect. The parsed flags (cobra), the
    files and grpc.NewClient are parameters. *)

From S2P Require Import Prelude GoLib Errors Types Json Bundle Validation Gorm World Dao DaoFacts Locks Services ServiceFacts Auth SourceClient EventServer GrpcServer Configuration.
Import Strings Fmt.

Open Scope Z_scope.

(** ** The command and its environment *)

(** What a command reads: the flags by name, whether a flag was given, and the environment. *)
Record Command := mkCommand {
  GetString : string -> result string string;
  GetBool : string -> result bool string;
  GetInt : string -> result Z string;
  GetDuration : string -> result Z string;
  GetStringSlice : string -> result (list string) string;
  Changed : string -> bool;
  Getenv : string -> string;
  (** what the next line read from the standard input is *)
  Stdin : result string string;
}.

(** time.ParseDuration *)
Class Durations := ParseDuration : string -> result Z string.

(** strconv.ParseBool *)
Definition ParseBool (s : string) : result bool string :=
  if decide (s ∈ ["1"; "t"; "T"; "true"; "TRUE"; "True"]) then Ok true
  else if decide (s ∈ ["0"; "f"; "F"; "false"; "FALSE"; "False"]) then Ok false
  else Err ("strconv.ParseBool: parsing " +:+ Strconv.Quote s +:+ ": invalid syntax").

Definition FlagRESTURL := "rest-url".
Definition FlagInsecureSkipVerify := "insecure-skip-verify".
Definition FlagTimeout := "timeout".
Definition FlagGRPCServerAddress := "grpc-server-address".
Definition FlagGRPCCAFile := "grpc-ca-file".
Definition FlagGRPCTokenFile := "grpc-token-file".
Definition FlagGRPCClientCert := "grpc-client-cert-file".
Definition FlagGRPCClientKey := "grpc-client-key-file".
Definition FlagGRPCSourceID := "grpc-source-id".
Definition EnvRESTURL := "MAESTRO_REST_URL".
Definition EnvInsecureSkipVerify := "MAESTRO_REST_INSECURE_SKIP_VERIFY".
Definition EnvTimeout := "MAESTRO_REST_TIMEOUT".
Definition EnvGRPCServerAddress := "MAESTRO_GRPC_SERVER_ADDRESS".
Definition EnvGRPCCAFile := "MAESTRO_GRPC_CA_FILE".
Definition EnvGRPCTokenFile := "MAESTRO_GRPC_TOKEN_FILE".
Definition EnvGRPCClientCert := "MAESTRO_GRPC_CLIENT_CERT_FILE".
Definition EnvGRPCClientKey := "MAESTRO_GRPC_CLIENT_KEY_FILE".
Definition EnvGRPCSourceID := "MAESTRO_GRPC_SOURCE_ID".

Record RESTConfig := mkRESTConfig {
  BaseURL : string;
  InsecureSkipVerify : bool;
  Timeout : Z;
}.

Record GRPCConfig := mkGRPCConfig {
  ServerAddress : string;
  CAFile : string;
  TokenFile : string;
  ClientCert : string;
  ClientKey : string;
  SourceID : string;
}.

Record Config := mkConfig {
  RESTConfig_ : RESTConfig;
  GRPCConfig_ : GRPCConfig;
}.

(** AddClientFlags: the defaults of the flags. *)
Definition flag_default (defaultSourceID flag : string) : option string :=
  if decide (flag = FlagRESTURL) then Some "https://127.0.0.1:30080"
  else if decide (flag = FlagGRPCServerAddress) then Some "127.0.0.1:30090"
  else if decide (flag = FlagGRPCSourceID) then Some defaultSourceID
  else if decide (flag ∈ [FlagGRPCCAFile; FlagGRPCTokenFile; FlagGRPCClientCert; FlagGRPCClientKey]) then Some ""
  else None.

Section Load.
Context `{durations : Durations} (cmd : Command).

Definition read_error (flag err : string) : string := Sprintf "failed to read --%s: %v" [GStr flag; GStr err].

(** The block of every string setting. *)
Definition string_setting (flag env : string) : result string string :=
  match GetString cmd flag with
  | Err err => Err (read_error flag err)
  | Ok v => Ok (if Changed cmd flag then v
                else let e := Getenv cmd env in if decide (e = "") then v else e)
  end.

(** A setting whose environment variable has to be parsed. *)
Definition parsed_setting {A} (get : string -> result A string) (parse : string -> result A string) (flag env : string) :
  result A string :=
  match get flag with
  | Err err => Err (read_error flag err)
  | Ok v =>
      if Changed cmd flag then Ok v
      else let e := Getenv cmd env in
           if decide (e = "") then Ok v
           else match parse e with
                | Err err => Err (Sprintf "invalid %s: %v" [GStr env; GStr err])
                | Ok parsed => Ok parsed
                end
  end.

Definition LoadRESTConfigFromFlags : result RESTConfig string :=
  match string_setting FlagRESTURL EnvRESTURL with
  | Err err => Err err
  | Ok restURL =>
  if decide (restURL = "") then
    Err (Sprintf "REST API URL is required (use --%s flag or %s env var)" [GStr FlagRESTURL; GStr EnvRESTURL])
  else
  match parsed_setting (GetBool cmd) ParseBool FlagInsecureSkipVerify EnvInsecureSkipVerify with
  | Err err => Err err
  | Ok insecureSkipVerify =>
  match parsed_setting (GetDuration cmd) ParseDuration FlagTimeout EnvTimeout with
  | Err err => Err err
  | Ok timeout =>
      if timeout <=? 0 then Err (Sprintf "--%s must be greater than 0" [GStr FlagTimeout])
      else Ok (mkRESTConfig restURL insecureSkipVerify timeout)
  end end end.

Definition LoadGRPCConfigFromFlags : result GRPCConfig string :=
  match string_setting FlagGRPCServerAddress EnvGRPCServerAddress with
  | Err err => Err err
  | Ok grpcServerAddress =>
  if decide (grpcServerAddress = "") then
    Err (Sprintf "gRPC server address is required (use --%s flag or %s env var)"
           [GStr FlagGRPCServerAddress; GStr EnvGRPCServerAddress])
  else
  match string_setting FlagGRPCSourceID EnvGRPCSourceID with
  | Err err => Err err
  | Ok grpcSourceID =>
  if decide (grpcSourceID = "") then
    Err (Sprintf "gRPC source id is required (use --%s flag or %s env var)" [GStr FlagGRPCSourceID; GStr EnvGRPCSourceID])
  else
  match string_setting FlagGRPCCAFile EnvGRPCCAFile with
  | Err err => Err err
  | Ok grpcCAFile =>
  match string_setting FlagGRPCTokenFile EnvGRPCTokenFile with
  | Err err => Err err
  | Ok grpcTokenFile =>
  match string_setting FlagGRPCClientCert EnvGRPCClientCert with
  | Err err => Err err
  | Ok grpcClientCert =>
  match string_setting FlagGRPCClientKey EnvGRPCClientKey with
  | Err err => Err err
  | Ok grpcClientKey =>
      Ok (mkGRPCConfig grpcServerAddress grpcCAFile grpcTokenFile grpcClientCert grpcClientKey grpcSourceID)
  end end end end end end.

Definition LoadConfigFromFlags : result Config string :=
  match LoadRESTConfigFromFlags with
  | Err err => Err err
  | Ok restConfig =>
      match LoadGRPCConfigFromFlags with
      | Err err => Err err
      | Ok grpcConfig => Ok (mkConfig restConfig grpcConfig)
      end
  end.
End Load.

(** ** NewRESTClient *)

Record RESTClient := mkRESTClient { client : Configuration }.

(** [None] is a nil configuration. *)
Definition NewRESTClient (cfg : option RESTConfig) : result RESTClient string :=
  match cfg with
  | None => Err "REST config is required"
  | Some cfg =>
      if decide (cfg.(BaseURL) = "") then Err "REST base URL is required"
      else Ok (mkRESTClient (mkConfiguration "" "" [] "OpenAPI-Generator/1.0.0/go" false
                 [mkServerConfiguration cfg.(BaseURL) "" []] []
                 (Some (mkHTTPClient true cfg.(InsecureSkipVerify) cfg.(Timeout)))))
  end.

(** ** NewGRPCClient *)

(** The transport credentials: the roots are the contents of the CA file, the certificate
    is given by its files. *)
Inductive Transport :=
| Insecure
| TLS12 (RootCAs : string) (Certificate : option (string * string)).

Record GRPCClient := mkGRPCClient {
  conn_address : string;
  conn_transport : Transport;
  (** the bearer token sent with every call *)
  conn_token : option string;
  sourceID : string;
}.

(** grpc.NewClient of an address *)
Class GrpcDial := NewClient : string -> result unit string.

Section Connect.
Context `{files : TLSFiles} `{dial : GrpcDial}.

Definition loadCA (caFile : string) : result string string :=
  if decide (caFile = "") then Err "CA file is required for secure gRPC connection"
  else match ReadFile caFile with
       | Err err => Err (Sprintf "failed to read CA file: %v" [GStr err])
       | Ok caCert => if AppendCertsFromPEM caCert then Ok caCert else Err "failed to parse CA certificate"
       end.

Definition connect (serverAddress : string) (transport : Transport) (token : option string) (source : string) :
  result GRPCClient string :=
  match NewClient serverAddress with
  | Err err => Err (Sprintf "failed to dial gRPC server: %v" [GStr err])
  | Ok _ => Ok (mkGRPCClient serverAddress transport token source)
  end.

Definition NewGRPCClient (cfg : option Config) : result GRPCClient string :=
  match cfg with
  | None => Err "config is required"
  | Some cfg =>
  let g := cfg.(GRPCConfig_) in
  if decide (g.(ServerAddress) = "") then Err "gRPC server address is required"
  else if decide (g.(SourceID) = "") then Err "gRPC source ID is required"
  else if decide (g.(TokenFile) <> "" /\ (g.(ClientCert) <> "" \/ g.(ClientKey) <> "")) then
    Err "cannot use both token authentication and client certificates"
  else if decide (g.(TokenFile) <> "") then
    match loadCA g.(CAFile) with
    | Err err => Err err
    | Ok caCertPool =>
        match ReadFile g.(TokenFile) with
        | Err err => Err (Sprintf "failed to read token file: %v" [GStr err])
        | Ok tokenBytes =>
            let token := TrimSpace tokenBytes in
            if decide (token = "") then Err "token file is empty"
            else connect g.(ServerAddress) (TLS12 caCertPool None) (Some token) g.(SourceID)
        end
    end
  else if decide (g.(ClientCert) <> "" /\ g.(ClientKey) <> "") then
    match loadCA g.(CAFile) with
    | Err err => Err err
    | Ok caCertPool =>
        match LoadX509KeyPair g.(ClientCert) g.(ClientKey) with
        | Err err => Err (Sprintf "failed to load client certificate and key: %v" [GStr err])
        | Ok _ => connect g.(ServerAddress) (TLS12 caCertPool (Some (g.(ClientCert), g.(ClientKey)))) None g.(SourceID)
        end
    end
  else if decide (g.(ClientCert) <> "" \/ g.(ClientKey) <> "") then
    Err "both client certificate and key must be provided for mutual TLS"
  else if decide (g.(CAFile) <> "") then
    Err "grpc-ca-file requires grpc-token-file or grpc-client-cert-file + grpc-client-key-file"
  else connect g.(ServerAddress) Insecure None g.(SourceID)
  end.
End Connect.

(** ** What the configuration promises *)

Section Facts.
Context `{durations : Durations} `{files : TLSFiles} `{dial : GrpcDial}.

(** The value a setting has for the command. *)
Definition chosen (cmd : Command) (flag env v : string) : Prop :=
  exists d, GetString cmd flag = Ok d /\
    (Changed cmd flag = true /\ v = d \/
     Changed cmd flag = false /\ Getenv cmd env <> "" /\ v = Getenv cmd env \/
     Changed cmd flag = false /\ Getenv cmd env = "" /\ v = d).

Lemma string_setting_chosen cmd flag env v : string_setting cmd flag env = Ok v -> chosen cmd flag env v.
Proof.
  unfold string_setting, chosen. destruct (GetString cmd flag) as [d|]; [|done]. intros [= <-]. exists d. split; [done|].
  destruct (Changed cmd flag); [by left|]. case_decide; [by right; right|by right; left].
Qed.

(** How a connection with the given transport and token came about. *)
Definition authorized_by (g : GRPCConfig) (c : GRPCClient) : Prop :=
  match c.(conn_transport), c.(conn_token) with
  | Insecure, None => g.(CAFile) = "" /\ g.(TokenFile) = "" /\ g.(ClientCert) = "" /\ g.(ClientKey) = ""
  | TLS12 roots None, Some token =>
      g.(ClientCert) = "" /\ g.(ClientKey) = "" /\ token <> "" /\
      (exists text, ReadFile g.(TokenFile) = Ok text /\ token = TrimSpace text) /\
      ReadFile g.(CAFile) = Ok roots /\ AppendCertsFromPEM roots = true
  | TLS12 roots (Some keypair), None =>
      g.(TokenFile) = "" /\ keypair = (g.(ClientCert), g.(ClientKey)) /\ LoadX509KeyPair g.(ClientCert) g.(ClientKey) = Ok tt /\
      ReadFile g.(CAFile) = Ok roots /\ AppendCertsFromPEM roots = true
  | _, _ => False
  end.

Lemma loadCA_ok f roots : loadCA f = Ok roots -> ReadFile f = Ok roots /\ AppendCertsFromPEM roots = true.
Proof.
  unfold loadCA. case_decide; [done|]. destruct (ReadFile f) as [pem|]; [|done].
  destruct (AppendCertsFromPEM pem) eqn:E; [|done]. by intros [= <-].
Qed.

Lemma connect_ok a t tok s c :
  connect a t tok s = Ok c -> c = mkGRPCClient a t tok s.
Proof. unfold connect. destruct (NewClient a); [|done]. by intros [= <-]. Qed.

Lemma NewGRPCClient_ok cfg c :
  NewGRPCClient (Some cfg) = Ok c ->
  c.(conn_address) = cfg.(GRPCConfig_).(ServerAddress) /\ c.(sourceID) = cfg.(GRPCConfig_).(SourceID) /\
  authorized_by cfg.(GRPCConfig_) c.
Proof.
  unfold NewGRPCClient, authorized_by. destruct cfg as [r [addr ca tok cert key src]]. cbn.
  do 2 (case_decide; [done|]). case_decide as Hboth; [done|]. case_decide as Htok.
  { destruct (loadCA ca) as [roots|] eqn:Eca; [|done]. apply loadCA_ok in Eca.
    destruct (ReadFile tok) as [text|] eqn:Et; [|done]. case_decide; [done|]. intros ->%connect_ok. cbn.
    destruct (decide (cert = "")), (decide (key = "")); try (exfalso; tauto). split_and!; try done; try tauto. by exists text. }
  assert (tok = "") as -> by (destruct (decide (tok = "")); tauto).
  case_decide as Hpair.
  { destruct (loadCA ca) as [roots|] eqn:Eca; [|done]. apply loadCA_ok in Eca.
    destruct (LoadX509KeyPair cert key) as [[]|] eqn:Ek; [|done]. intros ->%connect_ok. cbn. tauto. }
  case_decide as Hone; [done|]. case_decide as Hca; [done|]. intros ->%connect_ok. cbn.
  destruct (decide (cert = "")), (decide (key = "")), (decide (ca = "")); tauto.
Qed.

(** C29: How the tool connects. Whatever flags, environment and files there are, the clients
    the loaded configuration gives are: a REST client with a positive timeout whose every
    operation goes to the configured URL; and, when the gRPC client can be made at all, a
    connection to the configured address that is unencrypted only if neither a flag nor the
    environment names a CA, a token, a certificate or a key, and that otherwise verifies
    the server with the CA file and identifies the caller either by the non-empty token of
    the token file or by the certificate and key, never by both and never by one of the two
    alone. *)
Theorem clients_as_configured cmd cfg :
  LoadConfigFromFlags cmd = Ok cfg ->
  (exists rc hc, NewRESTClient (Some cfg.(RESTConfig_)) = Ok rc /\
     chosen cmd FlagRESTURL EnvRESTURL cfg.(RESTConfig_).(BaseURL) /\
     rc.(client).(HTTPClient_) = Some hc /\ 0 < hc.(hc_Timeout) /\
     forall op, ServerURLWithContext rc.(client) (Some Background) op = Ok cfg.(RESTConfig_).(BaseURL)) /\
  forall c, NewGRPCClient (Some cfg) = Ok c ->
    exists ca token cert key,
      chosen cmd FlagGRPCServerAddress EnvGRPCServerAddress c.(conn_address) /\
      chosen cmd FlagGRPCSourceID EnvGRPCSourceID c.(sourceID) /\ c.(sourceID) <> "" /\
      chosen cmd FlagGRPCCAFile EnvGRPCCAFile ca /\ chosen cmd FlagGRPCTokenFile EnvGRPCTokenFile token /\
      chosen cmd FlagGRPCClientCert EnvGRPCClientCert cert /\ chosen cmd FlagGRPCClientKey EnvGRPCClientKey key /\
      authorized_by (mkGRPCConfig c.(conn_address) ca token cert key c.(sourceID)) c.
Proof.
  unfold LoadConfigFromFlags. destruct (LoadRESTConfigFromFlags cmd) as [r|] eqn:Er; [|done].
  destruct (LoadGRPCConfigFromFlags cmd) as [g|] eqn:Eg; [|done]. intros [= <-]. cbn [RESTConfig_ GRPCConfig_]. split.
  - unfold LoadRESTConfigFromFlags in Er. destruct (string_setting _ _ _) as [url|] eqn:Eu; [|done].
    case_decide as Hurl; [done|]. destruct (parsed_setting _ _ _ FlagInsecureSkipVerify _) as [skip|]; [|done].
    destruct (parsed_setting _ _ _ FlagTimeout _) as [t|]; [|done]. destruct (Z.leb_spec t 0); [done|]. simplify_eq.
    unfold NewRESTClient. cbn [BaseURL]. rewrite decide_False by done. do 2 eexists. split_and!; try done.
    by apply string_setting_chosen.
  - intros c [Ha [Hs Hc]]%NewGRPCClient_ok. unfold LoadGRPCConfigFromFlags in Eg. cbn [GRPCConfig_] in *.
    destruct (string_setting _ FlagGRPCServerAddress _) as [addr|] eqn:E1; [|done]. case_decide as Hn1; [done|].
    destruct (string_setting _ FlagGRPCSourceID _) as [src|] eqn:E2; [|done]. case_decide as Hn2; [done|].
    destruct (string_setting _ FlagGRPCCAFile _) as [ca|] eqn:E3; [|done].
    destruct (string_setting _ FlagGRPCTokenFile _) as [tok|] eqn:E4; [|done].
    destruct (string_setting _ FlagGRPCClientCert _) as [cert|] eqn:E5; [|done].
    destruct (string_setting _ FlagGRPCClientKey _) as [key|] eqn:E6; [|done]. simplify_eq. cbn in Ha, Hs.
    exists ca, tok, cert, key. rewrite Ha, Hs. split_and!; try done; by apply string_setting_chosen.
Qed.
End Facts.
