(* ===== verification/ServerConfig.v ===== *)
(** * pkg/config: the configuration of the server

    One Module per struct, with its fields, its defaults (New) and its flags (AddFlags: for
    each flag the name, the assignment of its default, and the variable it sets), and the
    files the database settings are read from. pflag, which parses and sets flags, and the
    flags klog registers with Go's flag package are the class [Pflag]; the file system is
    the class [Files]. *)

From Stdlib Require Import QArith.
From S2P Require Import Prelude GoLib Types Json Session CliConfig.
Import api Strings Fmt.

Local Close Scope Q_scope.
Open Scope Z_scope.
Delimit Scope Q_scope with Q.

(** ** Standard library: strconv.Unquote and path/filepath *)

Definition newline_char : ascii := "010"%char.
Definition hex_value (l : list ascii) : option Z :=
  foldl (fun acc c => a ← acc; d ← Json.hexval c; Some (16 * a + d)) (Some 0) l.
Definition octal (c : ascii) : option Z :=
  d ← Strconv.digit c; if d <? 8 then Some d else None.
Definition prefixed (p : option string) (rest : option string) : option string :=
  a ← p; b ← rest; Some (a +:+ b).

(** What follows an opening quote, up to the closing one, which ends the string. *)
Fixpoint unquote_rest (quote : ascii) (s : string) : option string :=
  match s with
  | "" => None
  | String c s =>
      if decide (c = quote) then if decide (s = "") then Some "" else None
      else if decide (c = newline_char) then None
      else if decide (c = "092"%char) then
        match s with
        | "" => None
        | String "a" s => String "007" <$> unquote_rest quote s
        | String "b" s => String "008" <$> unquote_rest quote s
        | String "f" s => String "012" <$> unquote_rest quote s
        | String "n" s => String "010" <$> unquote_rest quote s
        | String "r" s => String "013" <$> unquote_rest quote s
        | String "t" s => String "009" <$> unquote_rest quote s
        | String "v" s => String "011" <$> unquote_rest quote s
        | String "092" s => String "092" <$> unquote_rest quote s
        | String "x" (String a (String b s)) =>
            prefixed ((fun n => String (ascii_of_nat (Z.to_nat n)) "") <$> hex_value [a; b]) (unquote_rest quote s)
        | String "u" (String a (String b (String d (String e s)))) =>
            prefixed (hex_value [a; b; d; e] ≫= Json.utf8) (unquote_rest quote s)
        | String "U" (String a (String b (String d (String e (String f (String g (String h (String i s)))))))) =>
            prefixed (hex_value [a; b; d; e; f; g; h; i] ≫= Json.utf8) (unquote_rest quote s)
        | String e s' =>
            if decide (e = quote) then String e <$> unquote_rest quote s'
            else match s' with
                 | String f (String g s) =>
                     prefixed (x ← octal e; y ← octal f; z ← octal g;
                               let n := 64 * x + 8 * y + z in
                               if n <? 256 then Some (String (ascii_of_nat (Z.to_nat n)) "") else None)
                       (unquote_rest quote s)
                 | _ => None
                 end
        end
      else String c <$> unquote_rest quote s
  end.

(** A raw string: no closing quote inside, carriage returns dropped. *)
Fixpoint unquote_raw (s : string) : option string :=
  match s with
  | "" => None
  | String c s =>
      if decide (c = "096"%char) then if decide (s = "") then Some "" else None
      else if decide (c = "013"%char) then unquote_raw s else String c <$> unquote_raw s
  end.

(** The bytes that do not continue a character. *)
Fixpoint runes (s : string) : nat :=
  match s with
  | "" => 0
  | String c s => let n := nat_of_ascii c in if ((128 <=? n) && (n <? 192))%nat then runes s else S (runes s)
  end.

Definition Unquote (s : string) : option string :=
  match s with
  | String "034" s => unquote_rest "034" s
  | String "096" s => unquote_raw s
  | String "039" s => r ← unquote_rest "039" s; if (runes r =? 1)%nat then Some r else None
  | _ => None
  end.

Definition IsAbs (path : string) : bool := HasPrefix path "/".
(** Join(root, path) for an absolute root: the elements joined and cleaned. *)
Definition clean_step (stack : list string) (e : string) : list string :=
  if decide (e = "" \/ e = ".") then stack else if decide (e = "..") then tail stack else e :: stack.
Definition Join_path (root path : string) : string :=
  "/" +:+ Join (rev (foldl clean_step [] (Split (root +:+ "/" +:+ path) slash))) "/".

(** ** Flags *)

Inductive Var (C : Type) :=
| StringVar (set : string -> C -> C)
| BoolVar (set : bool -> C -> C)
| IntVar (set : Z -> C -> C)
| Uint32Var (set : Z -> C -> C)
| DurationVar (set : Z -> C -> C)
| Float64Var (set : Q -> C -> C).
Arguments StringVar {C}.
Arguments BoolVar {C}.
Arguments IntVar {C}.
Arguments Uint32Var {C}.
Arguments DurationVar {C}.
Arguments Float64Var {C}.

Record Flag (C : Type) := mkFlag { flag_name : string; assign_default : C -> C; flag_var : Var C }.
Arguments mkFlag {C}.
Arguments flag_name {C}.
Arguments assign_default {C}.
Arguments flag_var {C}.

(** A flag of a part of a configuration. *)
Definition lift_flag {C D} (part : D -> C) (set : C -> D -> D) (f : Flag C) : Flag D :=
  let on {V} (s : V -> C -> C) (v : V) (d : D) : D := set (s v (part d)) d in
  mkFlag f.(flag_name) (fun d => set (f.(assign_default) (part d)) d)
    match f.(flag_var) with
    | StringVar s => StringVar (on s)
    | BoolVar s => BoolVar (on s)
    | IntVar s => IntVar (on s)
    | Uint32Var s => Uint32Var (on s)
    | DurationVar s => DurationVar (on s)
    | Float64Var s => Float64Var (on s)
    end.

Class Pflag := {
  parseInt : string -> result Z string;
  parseUint32 : string -> result Z string;
  parseDuration : string -> result Z string;
  parseFloat : string -> result Q string;
  (** the errors of an unknown flag and of a value that does not parse *)
  noSuchFlag : string -> string;
  invalidArgument : string -> string -> string -> string;
  (** a flag of Go's flag package: [None] when there is none of that name *)
  goSet : string -> string -> option (result unit string);
}.

(** klog.InitFlags registers v, a number, and logtostderr, a boolean. *)
Class PflagLaws `{Pflag} : Prop := {
  goSet_v n : 0 <= n < 2 ^ 31 -> goSet "v" (pretty n) = Some (Ok tt);
  goSet_logtostderr b : goSet "logtostderr" (if b : bool then "true" else "false") = Some (Ok tt);
}.

(** ** http_server.go *)

Module HTTPServerConfig.
Record T := mk {
  Hostname : string;
  BindPort : string;
  ReadTimeout : Z;
  WriteTimeout : Z;
  HTTPSCertFile : string;
  HTTPSKeyFile : string;
  EnableHTTPS : bool;
}.
Definition New : T :=
  mk "localhost" "8000" 5000000000 30000000000 "" "" false.
Definition set_BindPort (v : string) (o : T) : T := let 'mk a _ c d e f g := o in mk a v c d e f g.
Definition set_Hostname (v : string) (o : T) : T := let 'mk _ b c d e f g := o in mk v b c d e f g.
Definition set_ReadTimeout (v : Z) (o : T) : T := let 'mk a b _ d e f g := o in mk a b v d e f g.
Definition set_WriteTimeout (v : Z) (o : T) : T := let 'mk a b c _ e f g := o in mk a b c v e f g.
Definition set_HTTPSCertFile (v : string) (o : T) : T := let 'mk a b c d _ f g := o in mk a b c d v f g.
Definition set_HTTPSKeyFile (v : string) (o : T) : T := let 'mk a b c d e _ g := o in mk a b c d e v g.
Definition set_EnableHTTPS (v : bool) (o : T) : T := let 'mk a b c d e f _ := o in mk a b c d e f v.
Definition AddFlags : list (Flag T) :=
  [mkFlag "http-server-bindport" id (StringVar set_BindPort);
   mkFlag "server-hostname" id (StringVar set_Hostname);
   mkFlag "http-read-timeout" id (DurationVar set_ReadTimeout);
   mkFlag "http-write-timeout" id (DurationVar set_WriteTimeout);
   mkFlag "https-cert-file" id (StringVar set_HTTPSCertFile);
   mkFlag "https-key-file" id (StringVar set_HTTPSKeyFile);
   mkFlag "enable-https" id (BoolVar set_EnableHTTPS)].
End HTTPServerConfig.

(** ** grpc_server.go *)

Module GRPCServerConfig.
Record T := mk {
  EnableGRPCServer : bool;
  DisableTLS : bool;
  TLSCertFile : string;
  TLSKeyFile : string;
  BrokerTLSCertFile : string;
  BrokerTLSKeyFile : string;
  GRPCAuthNType : string;
  GRPCAuthorizerConfig : string;
  ClientCAFile : string;
  BrokerClientCAFile : string;
  ServerBindPort : string;
  BrokerBindPort : string;
  MaxConcurrentStreams : Z;
  MaxReceiveMessageSize : Z;
  MaxSendMessageSize : Z;
  ConnectionTimeout : Z;
  WriteBufferSize : Z;
  ReadBufferSize : Z;
  MaxConnectionAge : Z;
  ClientMinPingInterval : Z;
  ServerPingInterval : Z;
  ServerPingTimeout : Z;
  PermitPingWithoutStream : bool;
  HeartbeatCheckInterval : Z;
  HeartbeatDisable : bool;
}.
Definition New : T :=
  mk false false "" "" "" "" "" "" "" "" "" "" 0 0 0 0 0 0 0 0 0 0 false 0 false.
Definition set_EnableGRPCServer (v : bool) (o : T) : T := let 'mk _ b c d e f g h i j k l m n o p q r s t u w x y z := o in mk v b c d e f g h i j k l m n o p q r s t u w x y z.
Definition set_ServerBindPort (v : string) (o : T) : T := let 'mk a b c d e f g h i j _ l m n o p q r s t u w x y z := o in mk a b c d e f g h i j v l m n o p q r s t u w x y z.
Definition set_BrokerBindPort (v : string) (o : T) : T := let 'mk a b c d e f g h i j k _ m n o p q r s t u w x y z := o in mk a b c d e f g h i j k v m n o p q r s t u w x y z.
Definition set_MaxConcurrentStreams (v : Z) (o : T) : T := let 'mk a b c d e f g h i j k l _ n o p q r s t u w x y z := o in mk a b c d e f g h i j k l v n o p q r s t u w x y z.
Definition set_MaxReceiveMessageSize (v : Z) (o : T) : T := let 'mk a b c d e f g h i j k l m _ o p q r s t u w x y z := o in mk a b c d e f g h i j k l m v o p q r s t u w x y z.
Definition set_MaxSendMessageSize (v : Z) (o : T) : T := let 'mk a b c d e f g h i j k l m n _ p q r s t u w x y z := o in mk a b c d e f g h i j k l m n v p q r s t u w x y z.
Definition set_ConnectionTimeout (v : Z) (o : T) : T := let 'mk a b c d e f g h i j k l m n o _ q r s t u w x y z := o in mk a b c d e f g h i j k l m n o v q r s t u w x y z.
Definition set_MaxConnectionAge (v : Z) (o : T) : T := let 'mk a b c d e f g h i j k l m n o p q r _ t u w x y z := o in mk a b c d e f g h i j k l m n o p q r v t u w x y z.
Definition set_ClientMinPingInterval (v : Z) (o : T) : T := let 'mk a b c d e f g h i j k l m n o p q r s _ u w x y z := o in mk a b c d e f g h i j k l m n o p q r s v u w x y z.
Definition set_ServerPingInterval (v : Z) (o : T) : T := let 'mk a b c d e f g h i j k l m n o p q r s t _ w x y z := o in mk a b c d e f g h i j k l m n o p q r s t v w x y z.
Definition set_ServerPingTimeout (v : Z) (o : T) : T := let 'mk a b c d e f g h i j k l m n o p q r s t u _ x y z := o in mk a b c d e f g h i j k l m n o p q r s t u v x y z.
Definition set_PermitPingWithoutStream (v : bool) (o : T) : T := let 'mk a b c d e f g h i j k l m n o p q r s t u w _ y z := o in mk a b c d e f g h i j k l m n o p q r s t u w v y z.
Definition set_WriteBufferSize (v : Z) (o : T) : T := let 'mk a b c d e f g h i j k l m n o p _ r s t u w x y z := o in mk a b c d e f g h i j k l m n o p v r s t u w x y z.
Definition set_ReadBufferSize (v : Z) (o : T) : T := let 'mk a b c d e f g h i j k l m n o p q _ s t u w x y z := o in mk a b c d e f g h i j k l m n o p q v s t u w x y z.
Definition set_DisableTLS (v : bool) (o : T) : T := let 'mk a _ c d e f g h i j k l m n o p q r s t u w x y z := o in mk a v c d e f g h i j k l m n o p q r s t u w x y z.
Definition set_TLSCertFile (v : string) (o : T) : T := let 'mk a b _ d e f g h i j k l m n o p q r s t u w x y z := o in mk a b v d e f g h i j k l m n o p q r s t u w x y z.
Definition set_TLSKeyFile (v : string) (o : T) : T := let 'mk a b c _ e f g h i j k l m n o p q r s t u w x y z := o in mk a b c v e f g h i j k l m n o p q r s t u w x y z.
Definition set_BrokerTLSCertFile (v : string) (o : T) : T := let 'mk a b c d _ f g h i j k l m n o p q r s t u w x y z := o in mk a b c d v f g h i j k l m n o p q r s t u w x y z.
Definition set_BrokerTLSKeyFile (v : string) (o : T) : T := let 'mk a b c d e _ g h i j k l m n o p q r s t u w x y z := o in mk a b c d e v g h i j k l m n o p q r s t u w x y z.
Definition set_GRPCAuthNType (v : string) (o : T) : T := let 'mk a b c d e f _ h i j k l m n o p q r s t u w x y z := o in mk a b c d e f v h i j k l m n o p q r s t u w x y z.
Definition set_GRPCAuthorizerConfig (v : string) (o : T) : T := let 'mk a b c d e f g _ i j k l m n o p q r s t u w x y z := o in mk a b c d e f g v i j k l m n o p q r s t u w x y z.
Definition set_ClientCAFile (v : string) (o : T) : T := let 'mk a b c d e f g h _ j k l m n o p q r s t u w x y z := o in mk a b c d e f g h v j k l m n o p q r s t u w x y z.
Definition set_BrokerClientCAFile (v : string) (o : T) : T := let 'mk a b c d e f g h i _ k l m n o p q r s t u w x y z := o in mk a b c d e f g h i v k l m n o p q r s t u w x y z.
Definition set_HeartbeatCheckInterval (v : Z) (o : T) : T := let 'mk a b c d e f g h i j k l m n o p q r s t u w x _ z := o in mk a b c d e f g h i j k l m n o p q r s t u w x v z.
Definition set_HeartbeatDisable (v : bool) (o : T) : T := let 'mk a b c d e f g h i j k l m n o p q r s t u w x y _ := o in mk a b c d e f g h i j k l m n o p q r s t u w x y v.
Definition AddFlags : list (Flag T) :=
  [mkFlag "enable-grpc-server" (set_EnableGRPCServer true) (BoolVar set_EnableGRPCServer);
   mkFlag "grpc-server-bindport" (set_ServerBindPort "8090") (StringVar set_ServerBindPort);
   mkFlag "grpc-broker-bindport" (set_BrokerBindPort "8091") (StringVar set_BrokerBindPort);
   mkFlag "grpc-max-concurrent-streams" (set_MaxConcurrentStreams 4294967295) (Uint32Var set_MaxConcurrentStreams);
   mkFlag "grpc-max-receive-message-size" (set_MaxReceiveMessageSize 4194304) (IntVar set_MaxReceiveMessageSize);
   mkFlag "grpc-max-send-message-size" (set_MaxSendMessageSize 2147483647) (IntVar set_MaxSendMessageSize);
   mkFlag "grpc-connection-timeout" (set_ConnectionTimeout 120000000000) (DurationVar set_ConnectionTimeout);
   mkFlag "grpc-max-connection-age" (set_MaxConnectionAge 9223372036854775807) (DurationVar set_MaxConnectionAge);
   mkFlag "grpc-client-min-ping-interval" (set_ClientMinPingInterval 5000000000) (DurationVar set_ClientMinPingInterval);
   mkFlag "grpc-server-ping-interval" (set_ServerPingInterval 30000000000) (DurationVar set_ServerPingInterval);
   mkFlag "grpc-server-ping-timeout" (set_ServerPingTimeout 10000000000) (DurationVar set_ServerPingTimeout);
   mkFlag "permit-ping-without-stream" (set_PermitPingWithoutStream false) (BoolVar set_PermitPingWithoutStream);
   mkFlag "grpc-write-buffer-size" (set_WriteBufferSize 32768) (IntVar set_WriteBufferSize);
   mkFlag "grpc-read-buffer-size" (set_ReadBufferSize 32768) (IntVar set_ReadBufferSize);
   mkFlag "disable-grpc-tls" (set_DisableTLS false) (BoolVar set_DisableTLS);
   mkFlag "grpc-tls-cert-file" (set_TLSCertFile "") (StringVar set_TLSCertFile);
   mkFlag "grpc-tls-key-file" (set_TLSKeyFile "") (StringVar set_TLSKeyFile);
   mkFlag "grpc-broker-tls-cert-file" (set_BrokerTLSCertFile "") (StringVar set_BrokerTLSCertFile);
   mkFlag "grpc-broker-tls-key-file" (set_BrokerTLSKeyFile "") (StringVar set_BrokerTLSKeyFile);
   mkFlag "grpc-authn-type" (set_GRPCAuthNType "mock") (StringVar set_GRPCAuthNType);
   mkFlag "grpc-authorizer-config" (set_GRPCAuthorizerConfig "") (StringVar set_GRPCAuthorizerConfig);
   mkFlag "grpc-client-ca-file" (set_ClientCAFile "") (StringVar set_ClientCAFile);
   mkFlag "grpc-broker-client-ca-file" (set_BrokerClientCAFile "") (StringVar set_BrokerClientCAFile);
   mkFlag "heartbeat-check-interval" (set_HeartbeatCheckInterval 10000000000) (DurationVar set_HeartbeatCheckInterval);
   mkFlag "heartbeat-disable" (set_HeartbeatDisable false) (BoolVar set_HeartbeatDisable)].
End GRPCServerConfig.

(** ** metrics.go *)

Module MetricsConfig.
Record T := mk {
  BindPort : string;
  EnableHTTPS : bool;
  LabelMetricsInclusionDuration : Z;
}.
Definition New : T :=
  mk "8080" false 604800000000000.
Definition set_BindPort (v : string) (o : T) : T := let 'mk _ b c := o in mk v b c.
Definition set_EnableHTTPS (v : bool) (o : T) : T := let 'mk a _ c := o in mk a v c.
Definition set_LabelMetricsInclusionDuration (v : Z) (o : T) : T := let 'mk a b _ := o in mk a b v.
Definition AddFlags : list (Flag T) :=
  [mkFlag "metrics-server-bindport" id (StringVar set_BindPort);
   mkFlag "enable-metrics-https" id (BoolVar set_EnableHTTPS);
   mkFlag "label-metrics-inclusion-duration" (set_LabelMetricsInclusionDuration 604800000000000) (DurationVar set_LabelMetricsInclusionDuration)].
End MetricsConfig.

(** ** health_check.go *)

Module HealthCheckConfig.
Record T := mk {
  BindPort : string;
  EnableHTTPS : bool;
  HeartbeartInterval : Z;
}.
Definition New : T :=
  mk "8083" false 15.
Definition set_BindPort (v : string) (o : T) : T := let 'mk _ b c := o in mk v b c.
Definition set_EnableHTTPS (v : bool) (o : T) : T := let 'mk a _ c := o in mk a v c.
Definition set_HeartbeartInterval (v : Z) (o : T) : T := let 'mk a b _ := o in mk a b v.
Definition AddFlags : list (Flag T) :=
  [mkFlag "health-check-server-bindport" id (StringVar set_BindPort);
   mkFlag "enable-health-check-https" id (BoolVar set_EnableHTTPS);
   mkFlag "heartbeat-interval" id (IntVar set_HeartbeartInterval)].
End HealthCheckConfig.

(** ** event_server.go *)

Module ConsistentHashConfig.
Record T := mk {
  PartitionCount : Z;
  ReplicationFactor : Z;
  Load : Q;
}.
Definition New : T :=
  mk 7 20 (5#4)%Q.
Definition set_PartitionCount (v : Z) (o : T) : T := let 'mk _ b c := o in mk v b c.
Definition set_ReplicationFactor (v : Z) (o : T) : T := let 'mk a _ c := o in mk a v c.
Definition set_Load (v : Q) (o : T) : T := let 'mk a b _ := o in mk a b v.
Definition AddFlags : list (Flag T) :=
  [mkFlag "consistent-hash-partition-count" id (IntVar set_PartitionCount);
   mkFlag "consistent-hash-replication-factor" id (IntVar set_ReplicationFactor);
   mkFlag "consistent-hash-load" id (Float64Var set_Load)].
End ConsistentHashConfig.

(** ** event_server.go *)

Module EventServerConfig.
Record T := mk {
  SubscriptionType : string;
  ConsistentHashConfig : ConsistentHashConfig.T;
  UndeliveredResourceThreshold : Z;
  StaleDeleteEventThreshold : Z;
  DeleteEventRepublishInterval : Z;
}.
Definition New : T :=
  mk "shared" ConsistentHashConfig.New 600 3600 60.
Definition set_SubscriptionType (v : string) (o : T) : T := let 'mk _ b c d e := o in mk v b c d e.
Definition set_UndeliveredResourceThreshold (v : Z) (o : T) : T := let 'mk a b _ d e := o in mk a b v d e.
Definition set_StaleDeleteEventThreshold (v : Z) (o : T) : T := let 'mk a b c _ e := o in mk a b c v e.
Definition set_DeleteEventRepublishInterval (v : Z) (o : T) : T := let 'mk a b c d _ := o in mk a b c d v.
Definition set_hash (v : ConsistentHashConfig.T) (o : T) : T := let 'mk a _ c d e := o in mk a v c d e.
Definition AddFlags : list (Flag T) :=
  [mkFlag "subscription-type" id (StringVar set_SubscriptionType);
   mkFlag "undelivered-resource-threshold" id (IntVar set_UndeliveredResourceThreshold);
   mkFlag "stale-delete-event-threshold" id (IntVar set_StaleDeleteEventThreshold);
   mkFlag "delete-event-republish-interval" id (IntVar set_DeleteEventRepublishInterval)] ++
  (lift_flag ConsistentHashConfig set_hash <$> ConsistentHashConfig.AddFlags).
End EventServerConfig.

(** ** db.go *)

Module DatabaseConfig.
Record T := mk {
  Dialect : string;
  SSLMode : string;
  Debug : bool;
  MaxOpenConnections : Z;
  Host : string;
  Port : Z;
  Name : string;
  Username : string;
  Password : string;
  HostFile : string;
  PortFile : string;
  NameFile : string;
  UsernameFile : string;
  PasswordFile : string;
  RootCertFile : string;
  AuthMethod : string;
  TokenRequestScope : string;
  Token : option AccessToken;
}.
Definition New : T :=
  mk "postgres" "disable" false 50 "" 0 "" "" "" "secrets/db.host" "secrets/db.port" "secrets/db.name" "secrets/db.user" "secrets/db.password" "secrets/db.rootcert" AuthMethodPassword "https://ossrdbms-aad.database.windows.net/.default" None.
Definition set_AuthMethod (v : string) (o : T) : T := let 'mk a b c d e f g h i j k l m n o _ q r := o in mk a b c d e f g h i j k l m n o v q r.
Definition set_TokenRequestScope (v : string) (o : T) : T := let 'mk a b c d e f g h i j k l m n o p _ r := o in mk a b c d e f g h i j k l m n o p v r.
Definition set_HostFile (v : string) (o : T) : T := let 'mk a b c d e f g h i _ k l m n o p q r := o in mk a b c d e f g h i v k l m n o p q r.
Definition set_PortFile (v : string) (o : T) : T := let 'mk a b c d e f g h i j _ l m n o p q r := o in mk a b c d e f g h i j v l m n o p q r.
Definition set_UsernameFile (v : string) (o : T) : T := let 'mk a b c d e f g h i j k l _ n o p q r := o in mk a b c d e f g h i j k l v n o p q r.
Definition set_PasswordFile (v : string) (o : T) : T := let 'mk a b c d e f g h i j k l m _ o p q r := o in mk a b c d e f g h i j k l m v o p q r.
Definition set_NameFile (v : string) (o : T) : T := let 'mk a b c d e f g h i j k _ m n o p q r := o in mk a b c d e f g h i j k v m n o p q r.
Definition set_RootCertFile (v : string) (o : T) : T := let 'mk a b c d e f g h i j k l m n _ p q r := o in mk a b c d e f g h i j k l m n v p q r.
Definition set_SSLMode (v : string) (o : T) : T := let 'mk a _ c d e f g h i j k l m n o p q r := o in mk a v c d e f g h i j k l m n o p q r.
Definition set_Debug (v : bool) (o : T) : T := let 'mk a b _ d e f g h i j k l m n o p q r := o in mk a b v d e f g h i j k l m n o p q r.
Definition set_MaxOpenConnections (v : Z) (o : T) : T := let 'mk a b c _ e f g h i j k l m n o p q r := o in mk a b c v e f g h i j k l m n o p q r.
Definition AddFlags : list (Flag T) :=
  [mkFlag "db-auth-method" id (StringVar set_AuthMethod);
   mkFlag "db-token-request-scope" id (StringVar set_TokenRequestScope);
   mkFlag "db-host-file" id (StringVar set_HostFile);
   mkFlag "db-port-file" id (StringVar set_PortFile);
   mkFlag "db-user-file" id (StringVar set_UsernameFile);
   mkFlag "db-password-file" id (StringVar set_PasswordFile);
   mkFlag "db-name-file" id (StringVar set_NameFile);
   mkFlag "db-rootcert" id (StringVar set_RootCertFile);
   mkFlag "db-sslmode" id (StringVar set_SSLMode);
   mkFlag "enable-db-debug" id (BoolVar set_Debug);
   mkFlag "db-max-open-connections" id (IntVar set_MaxOpenConnections)].
Definition set_Host (v : string) (o : T) : T := let 'mk a b c d _ f g h i j k l m n o p q r := o in mk a b c d v f g h i j k l m n o p q r.
Definition set_Port (v : Z) (o : T) : T := let 'mk a b c d e _ g h i j k l m n o p q r := o in mk a b c d e v g h i j k l m n o p q r.
Definition set_Name (v : string) (o : T) : T := let 'mk a b c d e f _ h i j k l m n o p q r := o in mk a b c d e f v h i j k l m n o p q r.
Definition set_Username (v : string) (o : T) : T := let 'mk a b c d e f g _ i j k l m n o p q r := o in mk a b c d e f g v i j k l m n o p q r.
Definition set_Password (v : string) (o : T) : T := let 'mk a b c d e f g h _ j k l m n o p q r := o in mk a b c d e f g h v j k l m n o p q r.
End DatabaseConfig.

(** ** message_broker.go *)

Module MessageBrokerConfig.
Record T := mk {
  Disable : bool;
  EnableMock : bool;
  SourceID : string;
  ClientID : string;
  MessageBrokerType : string;
  MessageBrokerConfig : string;
}.
Definition New (root : string) : T :=
  mk false false "maestro" "maestro" "mqtt" (Join_path root "secrets/mqtt.config").
Definition set_Disable (v : bool) (o : T) : T := let 'mk _ b c d e f := o in mk v b c d e f.
Definition set_EnableMock (v : bool) (o : T) : T := let 'mk a _ c d e f := o in mk a v c d e f.
Definition set_SourceID (v : string) (o : T) : T := let 'mk a b _ d e f := o in mk a b v d e f.
Definition set_ClientID (v : string) (o : T) : T := let 'mk a b c _ e f := o in mk a b c v e f.
Definition set_MessageBrokerType (v : string) (o : T) : T := let 'mk a b c d _ f := o in mk a b c d v f.
Definition set_MessageBrokerConfig (v : string) (o : T) : T := let 'mk a b c d e _ := o in mk a b c d e v.
Definition AddFlags : list (Flag T) :=
  [mkFlag "disable-message-broker" id (BoolVar set_Disable);
   mkFlag "enable-message-broker-mock" id (BoolVar set_EnableMock);
   mkFlag "source-id" id (StringVar set_SourceID);
   mkFlag "client-id" id (StringVar set_ClientID);
   mkFlag "message-broker-type" id (StringVar set_MessageBrokerType);
   mkFlag "message-broker-config-file" id (StringVar set_MessageBrokerConfig)].
End MessageBrokerConfig.

(** ** config.go *)

Record ApplicationConfig := mkApplicationConfig {
  HTTPServer : HTTPServerConfig.T;
  GRPCServer_ : GRPCServerConfig.T;
  Metrics : MetricsConfig.T;
  HealthCheck : HealthCheckConfig.T;
  EventServer_ : EventServerConfig.T;
  Database : DatabaseConfig.T;
  MessageBroker : MessageBrokerConfig.T;
}.

(** [root] is GetProjectRootDir(). *)
Definition NewApplicationConfig (root : string) : ApplicationConfig :=
  mkApplicationConfig HTTPServerConfig.New GRPCServerConfig.New MetricsConfig.New HealthCheckConfig.New
    EventServerConfig.New DatabaseConfig.New (MessageBrokerConfig.New root).

Definition set_Database (d : DatabaseConfig.T) (c : ApplicationConfig) : ApplicationConfig :=
  mkApplicationConfig c.(HTTPServer) c.(GRPCServer_) c.(Metrics) c.(HealthCheck) c.(EventServer_) d c.(MessageBroker).

(** The flags of the parts, in the order they are added; those of Go's flag package come
    first, and are [goSet]. *)
Definition app_flags : list (Flag ApplicationConfig) :=
  (lift_flag HTTPServer (fun p c => mkApplicationConfig p c.(GRPCServer_) c.(Metrics) c.(HealthCheck) c.(EventServer_) c.(Database) c.(MessageBroker))
     <$> HTTPServerConfig.AddFlags) ++
  (lift_flag GRPCServer_ (fun p c => mkApplicationConfig c.(HTTPServer) p c.(Metrics) c.(HealthCheck) c.(EventServer_) c.(Database) c.(MessageBroker))
     <$> GRPCServerConfig.AddFlags) ++
  (lift_flag Metrics (fun p c => mkApplicationConfig c.(HTTPServer) c.(GRPCServer_) p c.(HealthCheck) c.(EventServer_) c.(Database) c.(MessageBroker))
     <$> MetricsConfig.AddFlags) ++
  (lift_flag HealthCheck (fun p c => mkApplicationConfig c.(HTTPServer) c.(GRPCServer_) c.(Metrics) p c.(EventServer_) c.(Database) c.(MessageBroker))
     <$> HealthCheckConfig.AddFlags) ++
  (lift_flag EventServer_ (fun p c => mkApplicationConfig c.(HTTPServer) c.(GRPCServer_) c.(Metrics) c.(HealthCheck) p c.(Database) c.(MessageBroker))
     <$> EventServerConfig.AddFlags) ++
  (lift_flag Database set_Database <$> DatabaseConfig.AddFlags) ++
  (lift_flag MessageBroker (fun p c => mkApplicationConfig c.(HTTPServer) c.(GRPCServer_) c.(Metrics) c.(HealthCheck) c.(EventServer_) c.(Database) p)
     <$> MessageBrokerConfig.AddFlags).

(** AddFlags: defining a flag assigns its default. *)
Definition AddFlags (c : ApplicationConfig) : ApplicationConfig := foldl (fun c f => f.(assign_default) c) c app_flags.

Section Set_.
Context `{pf : Pflag}.

(** Set of a flag set, on a value given as text. *)
Definition set_var {C} (v : Var C) (value : string) (c : C) : result C string :=
  let with_ {V} (parsed : result V string) (set : V -> C -> C) :=
    match parsed with Ok x => Ok (set x c) | Err err => Err err end in
  match v with
  | StringVar set => Ok (set value c)
  | BoolVar set => with_ (ParseBool value) set
  | IntVar set => with_ (parseInt value) set
  | Uint32Var set => with_ (parseUint32 value) set
  | DurationVar set => with_ (parseDuration value) set
  | Float64Var set => with_ (parseFloat value) set
  end.
Fixpoint find_flag {C} (name : string) (l : list (Flag C)) : option (Flag C) :=
  match l with [] => None | f :: l => if decide (f.(flag_name) = name) then Some f else find_flag name l end.
Definition Set_flag (name value : string) (c : ApplicationConfig) : result ApplicationConfig string :=
  match find_flag name app_flags with
  | Some f => map_err (invalidArgument name value) (set_var f.(flag_var) value c)
  | None =>
      match goSet name value with
      | None => Err (noSuchFlag name)
      | Some (Err err) => Err (invalidArgument name value err)
      | Some (Ok _) => Ok c
      end
  end.
End Set_.

(** *** The files *)

Class Files := os_ReadFile : string -> result string string.

Section Read.
Context `{fs : Files} (root : string).

Definition ReadFile (file : string) : result string string :=
  let unquotedFile := default file (Unquote file) in
  if decide (unquotedFile = "") then Ok ""
  else os_ReadFile (if IsAbs unquotedFile then unquotedFile else Join_path root unquotedFile).

(** strconv.Atoi with the error as text *)
Definition atoi_error (s : string) (e : Strconv.NumErr) : string :=
  "strconv.Atoi: parsing " +:+ Strconv.Quote s +:+ ": " +:+
  match e with Strconv.ErrSyntax => "invalid syntax" | Strconv.ErrRange => "value out of range" end.

(** The value that is assigned (also the one that comes with an error of the conversion), and
    the error. *)
Definition readFileValueInt (file : string) : option Z * option string :=
  match ReadFile file with
  | Err err => (None, Some err)
  | Ok fileContents =>
      let '(n, e) := Strconv.Atoi fileContents in (Some n, atoi_error fileContents <$> e)
  end.
Definition readFileValueString (file : string) : option string * option string :=
  match ReadFile file with
  | Err err => (None, Some err)
  | Ok fileContents => (Some (TrimSuffix fileContents (String newline_char "")), None)
  end.
Definition readFileValueBool (file : string) : option bool * option string :=
  match ReadFile file with
  | Err err => (None, Some err)
  | Ok fileContents =>
      match ParseBool fileContents with Ok b => (Some b, None) | Err err => (Some false, Some err) end
  end.

(** One setting of the database: assigned, and then the next unless there was an error. *)
Definition assigned_then {V} (r : option V * option string) (set : V -> DatabaseConfig.T -> DatabaseConfig.T)
  (next : DatabaseConfig.T -> DatabaseConfig.T * option string) (c : DatabaseConfig.T) : DatabaseConfig.T * option string :=
  let c := match r.1 with Some v => set v c | None => c end in
  match r.2 with Some err => (c, Some err) | None => next c end.

(** DatabaseConfig.ReadFiles *)
Definition Database_ReadFiles (c : DatabaseConfig.T) : DatabaseConfig.T * option string :=
  assigned_then (readFileValueString c.(DatabaseConfig.HostFile)) DatabaseConfig.set_Host (fun c =>
  assigned_then (readFileValueInt c.(DatabaseConfig.PortFile)) DatabaseConfig.set_Port (fun c =>
  assigned_then (readFileValueString c.(DatabaseConfig.UsernameFile)) DatabaseConfig.set_Username (fun c =>
  let name c := assigned_then (readFileValueString c.(DatabaseConfig.NameFile)) DatabaseConfig.set_Name (fun c => (c, None)) c in
  if decide (c.(DatabaseConfig.AuthMethod) = AuthMethodPassword) then
    assigned_then (readFileValueString c.(DatabaseConfig.PasswordFile)) DatabaseConfig.set_Password name c
  else name c) c) c) c.

(** ApplicationConfig.ReadFiles: the messages; the other parts read nothing. *)
Definition ReadFiles (c : ApplicationConfig) : ApplicationConfig * list string :=
  let '(d, err) := Database_ReadFiles c.(Database) in
  (set_Database d c, match err with Some err => [Sprintf "%s %s" [GStr "Database"; GStr err]] | None => [] end).
End Read.

(** The settings a session is made from. *)
Definition session_config (c : DatabaseConfig.T) : Session.DatabaseConfig :=
  mkDatabaseConfig c.(DatabaseConfig.Host) c.(DatabaseConfig.Port) c.(DatabaseConfig.Username) c.(DatabaseConfig.Password)
    c.(DatabaseConfig.Name) c.(DatabaseConfig.SSLMode) c.(DatabaseConfig.RootCertFile) c.(DatabaseConfig.AuthMethod)
    c.(DatabaseConfig.TokenRequestScope) c.(DatabaseConfig.Token).

(** The connection string for logs and panics. *)
Definition LogSafeConnectionStringWithName (c : DatabaseConfig.T) (name : string) (withSSL : bool) : string :=
  if withSSL then
    Sprintf "host=%s port=%d user=%s password='<REDACTED>' dbname=%s sslmode=%s sslrootcert='<REDACTED>'"
      [GStr c.(DatabaseConfig.Host); GInt c.(DatabaseConfig.Port); GStr c.(DatabaseConfig.Username); GStr name;
       GStr c.(DatabaseConfig.SSLMode)]
  else
    Sprintf "host=%s port=%d user=%s password='<REDACTED>' dbname=%s"
      [GStr c.(DatabaseConfig.Host); GInt c.(DatabaseConfig.Port); GStr c.(DatabaseConfig.Username); GStr name].
Definition LogSafeConnectionString (c : DatabaseConfig.T) (withSSL : bool) : string :=
  LogSafeConnectionStringWithName c c.(DatabaseConfig.Name) withSSL.
