(* ===== verification/Factory.v ===== *)
(** * pkg/db/db_session: the connection pool of the service, and the one of tests

    Default and Test with their Init, New, CheckConnection, Close and ResetDB, on a process
    that numbers the pools it opens and keeps a trace of what is done with them. pgx's parser
    of connection strings, gorm's Open and the answers of the server are the class [Server];
    [migrate] is an argument of initDatabase, as in the source. *)

From S2P Require Import Prelude GoLib Types Session CliConfig ServerConfig.
Import api Fmt.

Open Scope Z_scope.

Module Db := ServerConfig.DatabaseConfig.

(** What is done with a pool. *)
Inductive action :=
| Opened (h : nat) (connstr : string)
| SetMaxOpenConns (h : nat) (n : Z)
| Executed (h : nat) (query : string) (args : list string)
| Migrated (h : nat)
| Closed (h : nat).

Record process := mkProcess_ {
  once : bool;
  testOnce : bool;
  pools : nat;
  trace : list action;
}.
Definition act (a : action) (p : process) : process := mkProcess_ p.(once) p.(testOnce) p.(pools) (p.(trace) ++ [a]).

Class Server := {
  (** pgx.ParseConfig *)
  parseError : string -> option string;
  (** gorm.Open on a pool; a statement; Close: at a point of the trace *)
  openError : list action -> option string;
  execError : list action -> string -> option string;
  closeError : list action -> option string;
}.

(** How a call ends. *)
Inductive outcome (A : Type) := Returned (a : A) | Panicked (msg : string) | Hangs.
Arguments Returned {A}.
Arguments Panicked {A}.
Arguments Hangs {A}.

Definition disable : string := "disable".
Definition newline : string := String newline_char "".

Section Factory.
Context `{sv : Server}.

Definition withSSL (c : Db.T) : bool := bool_decide (c.(Db.SSLMode) <> disable).

Definition parse_panic (safe err : string) : string :=
  "GORM failed to parse the connection string: " +:+ safe +:+ newline +:+ "Error: " +:+ err.
Definition open_panic (c : Db.T) (err : string) : string :=
  Sprintf "GORM failed to connect to %s database %s with connection string: %s" [GStr c.(Db.Dialect); GStr c.(Db.Name);
    GStr (LogSafeConnectionString c (withSSL c))] +:+ newline +:+ "Error: " +:+ err.

(** stdlib.OpenDB, and gorm.Open on the pool. *)
Definition open_pool (c : Db.T) (connstr : string) (max : option Z) (p : process) : process * outcome nat :=
  let h := p.(pools) in
  let p := act (Opened h connstr) (mkProcess_ p.(once) p.(testOnce) (S h) p.(trace)) in
  let p := match max with Some n => act (SetMaxOpenConns h n) p | None => p end in
  match openError p.(trace) with
  | Some err => (p, Panicked (open_panic c err))
  | None => (p, Returned h)
  end.

(** ** default.go *)

Record Default := mkDefault { d_config : option Db.T; d_pool : option nat }.

(** Init on a factory: only the first call of the process does anything, and it counts also
    when it panics. *)
Definition Default_Init (config : Db.T) (f : Default) (p : process) : process * outcome Default :=
  if p.(once) then (p, Returned f)
  else
    let p := mkProcess_ true p.(testOnce) p.(pools) p.(trace) in
    let connstr := ConnectionString (session_config config) (withSSL config) in
    match parseError connstr with
    | Some err => (p, Panicked (parse_panic (LogSafeConnectionString config (withSSL config)) err))
    | None =>
        match open_pool config connstr (Some config.(Db.MaxOpenConnections)) p with
        | (p, Returned h) => (p, Returned (mkDefault (Some config) (Some h)))
        | (p, Panicked msg) => (p, Panicked msg)
        | (p, Hangs) => (p, Hangs)
        end
    end.
Definition NewProdFactory (config : Db.T) (p : process) : process * outcome Default :=
  Default_Init config (mkDefault None None) p.

Definition nil_dereference : string := "runtime error: invalid memory address or nil pointer dereference".

(** New: the pool of the session and whether it logs statements. *)
Definition Default_New (f : Default) : outcome (nat * bool) :=
  match f.(d_pool), f.(d_config) with
  | Some h, Some c => Returned (h, c.(Db.Debug))
  | _, _ => Panicked nil_dereference
  end.
Definition exec (h : nat) (query : string) (args : list string) (p : process) : process * option string :=
  let e := execError p.(trace) query in (act (Executed h query args) p, e).
Definition Default_CheckConnection (f : Default) (p : process) : process * outcome (option string) :=
  match f.(d_pool) with
  | None => (p, Panicked nil_dereference)
  | Some h => let '(p, e) := exec h "SELECT 1" [] p in (p, Returned e)
  end.
Definition close_pool (h : nat) (p : process) : process * option string :=
  let e := closeError p.(trace) in (act (Closed h) p, e).
Definition Default_Close (f : Default) (p : process) : process * outcome (option string) :=
  match f.(d_pool) with
  | None => (p, Panicked nil_dereference)
  | Some h => let '(p, e) := close_pool h p in (p, Returned e)
  end.
Definition Default_ResetDB {A} (p : process) : process * outcome A :=
  (p, Panicked "ResetDB is not implemented for non-integration-test env").

(** ** test.go *)

(** connect without its cleanup, which closes the pool. *)
Definition connect (name : string) (config : Db.T) (p : process) : process * outcome nat :=
  let connstr := ConnectionStringWithName (session_config config) name (withSSL config) in
  match parseError connstr with
  | Some err => (p, Panicked (parse_panic (LogSafeConnectionStringWithName config name (withSSL config)) err))
  | None => open_pool config connstr None p
  end.

(** A body on a connection of its own, with [defer cleanup()]. *)
Definition with_connection (name : string) (config : Db.T) (body : nat -> process -> process * outcome (option string))
  (p : process) : process * outcome (option string) :=
  match connect name config p with
  | (p, Returned h) =>
      match body h p with
      | (p, Hangs) => (p, Hangs)
      | (p, r) => match close_pool h p with (p, None) => (p, r) | (p, Some err) => (p, Panicked err) end
      end
  | (p, Panicked msg) => (p, Panicked msg)
  | (p, Hangs) => (p, Hangs)
  end.

(** for _, err := dbx.Exec(`select 1`); err != nil; { sleep }: the statement is in the
    initialisation of the loop, which runs once; [false] when the fuel runs out. *)
Fixpoint wait_ready (fuel : nat) (err : option string) : bool :=
  match err with
  | None => true
  | Some _ => match fuel with O => false | S fuel => wait_ready fuel err end
  end.

Definition initDatabase (migrate : nat -> process -> process * option string) (config : Db.T) : process -> process * outcome (option string) :=
  with_connection "template1" config (fun h p =>
    let '(p, err) := exec h "select 1" [] p in
    if wait_ready 1 err then let '(p, err) := migrate h p in (p, Returned err) else (p, Hangs)).

Definition dropConnections (h : nat) (name : string) : process -> process * option string :=
  exec h "select pg_terminate_backend(pg_stat_activity.pid) from pg_stat_activity where pg_stat_activity.datname = $1 and pid <> pg_backend_pid()"
    [name].

Definition resetDB (config : Db.T) : process -> process * outcome (option string) :=
  with_connection "postgres" config (fun h p =>
    match dropConnections h "template1" p with
    | (p, Some err) => (p, Returned (Some err))
    | (p, None) =>
        match dropConnections h config.(Db.Name) p with
        | (p, Some err) => (p, Returned (Some err))
        | (p, None) =>
            match exec h (Sprintf "DROP DATABASE IF EXISTS %s" [GStr config.(Db.Name)]) [] p with
            | (p, Some err) => (p, Returned (Some (Sprintf "SQL failed to DROP database %s: %s" [GStr config.(Db.Name); GStr err])))
            | (p, None) =>
                match exec h (Sprintf "CREATE DATABASE %s TEMPLATE template1" [GStr config.(Db.Name)]) [] p with
                | (p, Some err) => (p, Returned (Some (Sprintf "SQL failed to CREATE database %s: %s" [GStr config.(Db.Name); GStr err])))
                | (p, None) => (p, Returned None)
                end
            end
        end
    end).

Definition connectFactory (config : Db.T) (p : process) : process * outcome nat :=
  match connect config.(Db.Name) config p with
  | (p, Returned h) => (act (SetMaxOpenConns h config.(Db.MaxOpenConnections)) p, Returned h)
  | r => r
  end.

Record Test := mkTest { t_config : Db.T; t_pool : nat; wasDisconnected : bool }.

(** The first Init prepares the template and the database; an error there is only logged. *)
Definition prepare (migrate : nat -> process -> process * option string) (config : Db.T) (p : process) : process * outcome unit :=
  if p.(testOnce) then (p, Returned tt)
  else
    match initDatabase migrate config (mkProcess_ p.(once) true p.(pools) p.(trace)) with
    | (p, Returned (Some _)) => (p, Returned tt)
    | (p, Returned None) =>
        match resetDB config p with
        | (p, Returned _) => (p, Returned tt)
        | (p, Panicked msg) => (p, Panicked msg)
        | (p, Hangs) => (p, Hangs)
        end
    | (p, Panicked msg) => (p, Panicked msg)
    | (p, Hangs) => (p, Hangs)
    end.
Definition NewTestFactory (migrate : nat -> process -> process * option string) (config : Db.T) (p : process) : process * outcome Test :=
  match prepare migrate config p with
  | (p, Returned _) =>
      match connectFactory config p with
      | (p, Returned h) => (p, Returned (mkTest config h false))
      | (p, Panicked msg) => (p, Panicked msg)
      | (p, Hangs) => (p, Hangs)
      end
  | (p, Panicked msg) => (p, Panicked msg)
  | (p, Hangs) => (p, Hangs)
  end.

(** New connects again after a reset. *)
Definition Test_New (f : Test) (p : process) : process * outcome (Test * (nat * bool)) :=
  if f.(wasDisconnected) then
    match connectFactory f.(t_config) p with
    | (p, Returned h) => (p, Returned (mkTest f.(t_config) h false, (h, f.(t_config).(Db.Debug))))
    | (p, Panicked msg) => (p, Panicked msg)
    | (p, Hangs) => (p, Hangs)
    end
  else (p, Returned (f, (f.(t_pool), f.(t_config).(Db.Debug)))).
Definition Test_CheckConnection (f : Test) (p : process) : process * option string := exec f.(t_pool) "SELECT 1" [] p.
Definition Test_Close (f : Test) (p : process) : process * option string := close_pool f.(t_pool) p.
(** The error of resetDB is not looked at. *)
Definition Test_ResetDB (f : Test) (p : process) : process * outcome Test :=
  match resetDB f.(t_config) p with
  | (p, Returned _) => (p, Returned (mkTest f.(t_config) f.(t_pool) true))
  | (p, Panicked msg) => (p, Panicked msg)
  | (p, Hangs) => (p, Hangs)
  end.

(** ** cmd/maestro/migrate: the configuration with its files read, one factory, Migrate *)

(** [Some msg]: the process ends with the message. *)
Definition runMigration `{fs : Files} (root : string) (migrate : nat -> process -> process * option string) (dbConfig : Db.T)
  (p : process) : process * option string :=
  match Database_ReadFiles root dbConfig with
  | (_, Some err) => (p, Some err)
  | (dbConfig, None) =>
      match NewProdFactory dbConfig p with
      | (p, Returned f) =>
          match Default_New f with
          | Returned (h, _) => migrate h p
          | Panicked msg => (p, Some msg)
          | Hangs => (p, None)
          end
      | (p, Panicked msg) => (p, Some msg)
      | (p, Hangs) => (p, None)
      end
  end.

End Factory.

(** * What the session factories promise

    The pools a factory leaves open, which of its methods can be called, and what a message
    of a failed start says. *)

Import api Fmt.

Open Scope Z_scope.

(** ** Open pools *)

Definition after_action (s : gset nat) (a : action) : gset nat :=
  match a with
  | Opened h _ => {[h]} ∪ s
  | Closed h => s ∖ {[h]}
  | _ => s
  end.
Definition open_pools (p : process) : gset nat := foldl after_action ∅ p.(trace).
(** Pools are numbered in the order they are opened. *)
Definition numbered (p : process) : Prop := set_Forall (fun h => (h < p.(pools))%nat) (open_pools p).

Lemma open_pools_act a p : open_pools (act a p) = after_action (open_pools p) a.
Proof. unfold open_pools, act. cbn. by rewrite foldl_app. Qed.

(** A step that leaves the pools as they were. *)
Definition keeps {A} (f : process -> process * A) : Prop :=
  forall p, numbered p -> let p' := (f p).1 in numbered p' /\ open_pools p' = open_pools p /\ p'.(testOnce) = p.(testOnce) /\ p'.(once) = p.(once).

Section Facts.
Context `{sv : Server}.

Lemma numbered_same p p' : open_pools p' = open_pools p -> (p.(pools) <= p'.(pools))%nat -> numbered p -> numbered p'.
Proof. unfold numbered. intros -> Hp Hn h Hh. specialize (Hn h Hh). cbn in *. lia. Qed.

Lemma exec_keeps h q args : keeps (exec h q args).
Proof.
  intros p Hn. cbn. assert (open_pools (act (Executed h q args) p) = open_pools p) as He by apply open_pools_act.
  split_and!; [by apply (numbered_same p)|done..].
Qed.

Lemma open_pool_spec c connstr max p :
  numbered p -> let '(p', r) := open_pool c connstr max p in
  numbered p' /\ open_pools p' = {[p.(pools)]} ∪ open_pools p /\ p'.(testOnce) = p.(testOnce) /\ p'.(once) = p.(once) /\
  (forall h, r = Returned h -> h = p.(pools)) /\ r <> Hangs /\ (forall h, r = Returned h -> p.(pools) ∉ open_pools p).
Proof.
  intros Hn. unfold open_pool. set (p1 := act (Opened _ _) _). set (p2 := match max with Some n => _ | None => p1 end).
  assert (H1 : open_pools p1 = {[p.(pools)]} ∪ open_pools p) by (unfold p1; by rewrite open_pools_act).
  assert (H2 : open_pools p2 = open_pools p1) by (unfold p2; destruct max; [by rewrite open_pools_act|done]).
  assert (Hpools : p2.(pools) = S p.(pools)) by (unfold p2; by destruct max).
  assert (Hfresh : p.(pools) ∉ open_pools p) by (intros Hin; specialize (Hn _ Hin); cbn in Hn; lia).
  assert (Hn2 : numbered p2).
  { unfold numbered. rewrite H2, H1, Hpools. intros h [->%elem_of_singleton|Hh]%elem_of_union; [lia|].
    specialize (Hn _ Hh). cbn in Hn. lia. }
  assert (Ht : p2.(testOnce) = p.(testOnce) /\ p2.(once) = p.(once)) by (unfold p2; by destruct max). destruct Ht.
  destruct (openError p2.(trace)); split_and!; try done; congruence.
Qed.

Lemma close_pool_spec h p :
  let '(p', _) := close_pool h p in
  open_pools p' = open_pools p ∖ {[h]} /\ p'.(pools) = p.(pools) /\ p'.(testOnce) = p.(testOnce) /\ p'.(once) = p.(once).
Proof. cbn. split_and!; [apply open_pools_act|done..]. Qed.

(** A connection of its own is closed again. *)
Lemma with_connection_returned name c body p p' r :
  (forall h, keeps (body h)) -> numbered p -> with_connection name c body p = (p', Returned r) ->
  numbered p' /\ open_pools p' = open_pools p /\ p'.(testOnce) = p.(testOnce) /\ p'.(once) = p.(once).
Proof.
  intros Hbody Hn. unfold with_connection, connect. destruct (parseError _); [done|].
  pose proof (open_pool_spec c (ConnectionStringWithName (session_config c) name (withSSL c)) None p Hn) as Ho.
  destruct (open_pool _ _ _ _) as [p1 r1]. destruct Ho as (Hn1 & Ho1 & Ht1 & Hc1 & Hh & _ & Hfresh).
  destruct r1 as [h| |]; [|done..]. specialize (Hh _ eq_refl). subst h. specialize (Hfresh _ eq_refl).
  destruct (Hbody p.(pools) p1 Hn1) as (Hn2 & Ho2 & Ht2 & Hc2). destruct (body p.(pools) p1) as [p2 r2]. cbn in Hn2, Ho2, Ht2, Hc2.
  pose proof (close_pool_spec p.(pools) p2) as Hc. destruct (close_pool p.(pools) p2) as [p3 e3]. destruct Hc as (Ho3 & Hp3 & Ht3 & Hc3).
  assert (Hopen : open_pools p3 = open_pools p) by (rewrite Ho3, Ho2, Ho1; set_solver).
  assert (Hn3 : numbered p3).
  { unfold numbered. rewrite Ho3, Hp3. intros h Hh. apply Hn2. set_solver. }
  destruct r2; [|by destruct e3..]; destruct e3; [done|]. intros [= <- <-]. split_and!; [done..|congruence|congruence].
Qed.

Lemma keeps_pair {A B} (f : process -> process * A) (g : A -> process -> process * B) :
  keeps f -> (forall a, keeps (g a)) -> keeps (fun p => let '(p, a) := f p in g a p).
Proof.
  intros Hf Hg p Hn. destruct (Hf p Hn) as (Hn1 & Ho1 & Ht1 & Hc1). destruct (f p) as [p1 a]. cbn in *.
  destruct (Hg a p1 Hn1) as (Hn2 & Ho2 & Ht2 & Hc2). split_and!; [done|congruence..].
Qed.
Lemma keeps_ret {A} (a : A) : keeps (fun p => (p, a)).
Proof. by intros p Hn. Qed.

Lemma keeps_exec_then {A} h q args (f : string -> A) (next : process -> process * A) :
  keeps next -> keeps (fun p => match exec h q args p with (p, Some err) => (p, f err) | (p, None) => next p end).
Proof.
  intros Hnext p Hn. destruct (exec_keeps h q args p Hn) as (Hn1 & Ho1 & Ht1 & Hc1). destruct (exec h q args p) as [p1 [e|]]; [done|].
  cbn in Hn1, Ho1, Ht1, Hc1. destruct (Hnext p1 Hn1) as (Hn2 & Ho2 & Ht2 & Hc2). split_and!; [done|congruence..].
Qed.

Lemma resetDB_returned c p p' r :
  numbered p -> resetDB c p = (p', Returned r) -> numbered p' /\ open_pools p' = open_pools p /\ p'.(testOnce) = p.(testOnce) /\ p'.(once) = p.(once).
Proof.
  intros Hn. apply with_connection_returned; [|done]. intros h.
  unfold dropConnections. do 4 (apply keeps_exec_then). apply keeps_ret.
Qed.

Lemma initDatabase_returned migrate c p p' r :
  (forall h, keeps (migrate h)) -> numbered p -> initDatabase migrate c p = (p', Returned r) ->
  numbered p' /\ open_pools p' = open_pools p /\ p'.(testOnce) = p.(testOnce) /\ p'.(once) = p.(once).
Proof.
  intros Hm Hn. apply with_connection_returned; [|done]. intros h.
  apply (keeps_pair (exec h "select 1" []) (fun err p => if wait_ready 1 err then let '(p, err) := migrate h p in (p, Returned err) else (p, Hangs)));
    [apply exec_keeps|].
  intros [e|]; [apply keeps_ret|]. cbn [wait_ready].
  apply (keeps_pair (migrate h) (fun e p => (p, Returned e))); [apply Hm|intros; apply keeps_ret].
Qed.

Lemma prepare_returned migrate c p p' :
  (forall h, keeps (migrate h)) -> numbered p -> prepare migrate c p = (p', Returned tt) ->
  numbered p' /\ open_pools p' = open_pools p /\ p'.(testOnce) = true /\ p'.(once) = p.(once).
Proof.
  intros Hm Hn. unfold prepare. destruct (testOnce p) eqn:Ht; [intros [= <-]; done|].
  set (p0 := mkProcess_ _ _ _ _). assert (Hn0 : numbered p0) by exact Hn.
  destruct (initDatabase migrate c p0) as [p1 [[e|]| |]] eqn:E1; [| |done|done].
  - intros [= <-]. by destruct (initDatabase_returned _ _ _ _ _ Hm Hn0 E1) as (? & ? & ? & ?).
  - destruct (initDatabase_returned _ _ _ _ _ Hm Hn0 E1) as (Hn1 & Ho1 & Ht1 & Hc1).
    destruct (resetDB c p1) as [p2 [e| |]] eqn:E2; [|done..]. intros [= <-].
    destruct (resetDB_returned _ _ _ _ Hn1 E2) as (Hn2 & Ho2 & Ht2 & Hc2).
    split_and!; [done|by rewrite Ho2, Ho1|by rewrite Ht2, Ht1|by rewrite Hc2, Hc1].
Qed.

(** A factory of the tests that is returned has a pool of its own, with the limit of the
    configuration, and every pool that was opened to prepare the database is closed again,
    whatever failed on the way. *)
Theorem test_factory_pools migrate c p p' f :
  (forall h, keeps (migrate h)) -> numbered p -> NewTestFactory migrate c p = (p', Returned f) ->
  open_pools p' = {[f.(t_pool)]} ∪ open_pools p /\ f.(t_pool) ∉ open_pools p /\ f.(t_config) = c /\
  f.(wasDisconnected) = false /\ p'.(testOnce) = true /\
  last p'.(trace) = Some (SetMaxOpenConns f.(t_pool) c.(Db.MaxOpenConnections)).
Proof.
  intros Hm Hn. unfold NewTestFactory. destruct (prepare migrate c p) as [p1 [[]| |]] eqn:E1; [|done..].
  destruct (prepare_returned _ _ _ _ Hm Hn E1) as (Hn1 & Ho1 & Ht1 & _). unfold connectFactory, connect.
  destruct (parseError _); [done|].
  pose proof (open_pool_spec c (ConnectionStringWithName (session_config c) (Db.Name c) (withSSL c)) None p1 Hn1) as Ho.
  destruct (open_pool _ _ _ _) as [p2 [h| |]]; [|done..]. destruct Ho as (_ & Ho2 & Ht2 & _ & Hh & _ & Hfresh).
  specialize (Hh _ eq_refl). subst h. specialize (Hfresh _ eq_refl). intros [= <- <-]. cbn [t_pool t_config wasDisconnected].
  split_and!; try done.
  - rewrite open_pools_act. cbn. by rewrite Ho2, Ho1.
  - by rewrite <- Ho1.
  - by cbn; rewrite Ht2.
  - cbn. apply last_snoc.
Qed.

(** When the first statement on the template fails, Init never returns: the loop does not ask
    again. *)
Lemma wait_ready_never fuel e : wait_ready fuel (Some e) = false.
Proof. induction fuel; done. Qed.
Theorem initDatabase_hangs migrate c p p1 h e :
  connect "template1" c p = (p1, Returned h) -> execError p1.(trace) "select 1" = Some e ->
  (forall fuel, wait_ready fuel (Some e) = false) /\ (initDatabase migrate c p).2 = Hangs.
Proof.
  intros Hc He. split; [intros; apply wait_ready_never|]. unfold initDatabase, with_connection. rewrite Hc. cbn. by rewrite He.
Qed.

(** *** The factory of the service *)

Lemma first_factory c p p' f :
  p.(once) = false -> NewProdFactory c p = (p', Returned f) ->
  f = mkDefault (Some c) (Some p.(pools)) /\ p'.(once) = true /\
  p'.(trace) = p.(trace) ++ [Opened p.(pools) (ConnectionString (session_config c) (withSSL c));
                             SetMaxOpenConns p.(pools) c.(Db.MaxOpenConnections)].
Proof.
  intros Ho. unfold NewProdFactory, Default_Init. rewrite Ho. destruct (parseError _); [done|].
  unfold open_pool. destruct (openError _); [done|]. intros [= <- <-]. split_and!; [done|done|]. cbn. by rewrite <- app_assoc.
Qed.

Lemma once_for_all c p : (NewProdFactory c p).1.(once) = true.
Proof.
  unfold NewProdFactory, Default_Init. destruct (once p) eqn:Ho; [done|]. destruct (parseError _); [done|].
  unfold open_pool. by destruct (openError _).
Qed.

(** The message of a start that failed does not depend on the password. *)
Lemma panic_redacted c pw p msg :
  (NewProdFactory c p).2 = Panicked msg -> (NewProdFactory (Db.set_Password pw c) p).2 = Panicked msg.
Proof.
  destruct c. unfold NewProdFactory, Default_Init. destruct (once p); [done|].
  change (ConnectionString (session_config (Db.set_Password pw ?c))) with (ConnectionString (session_config c)).
  change (withSSL (Db.set_Password pw ?c)) with (withSSL c).
  change (LogSafeConnectionString (Db.set_Password pw ?c)) with (LogSafeConnectionString c).
  destruct (parseError _); [done|]. unfold open_pool. cbn [Db.MaxOpenConnections Db.set_Password].
  destruct (openError _); done.
Qed.

(** The connection pool of a process. The first factory of a process either panics, with a message that does not depend
    on the password, or has one new pool, on the connection string of the configuration and with its limit, and New
    then answers a session on that pool in the debug mode of the configuration. Whatever came of it, every later
    factory of the same process is empty: making it changes nothing, and its New, CheckConnection and Close all panic. *)
Theorem prod_factory_once c c2 p :
  p.(once) = false ->
  let '(p1, r1) := NewProdFactory c p in
  let '(p2, r2) := NewProdFactory c2 p1 in
  match r1 with
  | Returned f =>
      p1.(trace) = p.(trace) ++ [Opened p.(pools) (ConnectionString (session_config c) (withSSL c));
                                 SetMaxOpenConns p.(pools) c.(Db.MaxOpenConnections)] /\
      Default_New f = Returned (p.(pools), c.(Db.Debug))
  | Panicked msg => forall pw, (NewProdFactory (Db.set_Password pw c) p).2 = Panicked msg
  | Hangs => False
  end /\
  p2 = p1 /\ exists f2, r2 = Returned f2 /\ Default_New f2 = Panicked nil_dereference /\
  forall q, (Default_CheckConnection f2 q).2 = Panicked nil_dereference /\ (Default_Close f2 q).2 = Panicked nil_dereference.
Proof.
  intros Ho. destruct (NewProdFactory c p) as [p1 r1] eqn:E1. destruct (NewProdFactory c2 p1) as [p2 r2] eqn:E2.
  pose proof (once_for_all c p) as H1. rewrite E1 in H1. cbn in H1.
  unfold NewProdFactory, Default_Init in E2. rewrite H1 in E2. injection E2 as <- <-.
  split; [|split; [done|by exists (mkDefault None None)]].
  destruct r1 as [f|msg|].
  - destruct (first_factory _ _ _ _ Ho E1) as (-> & _ & ->). done.
  - intros pw. apply panic_redacted. by rewrite E1.
  - revert E1. unfold NewProdFactory, Default_Init. rewrite Ho. destruct (parseError _); [done|]. unfold open_pool.
    by destruct (openError _).
Qed.
End Facts.

(** ** A server that answers *)

#[local] Instance answering : Server := {|
  parseError _ := None;
  openError _ := None;
  execError _ _ := None;
  closeError _ := None;
|}.
Definition fresh_process : process := mkProcess_ false false 0 [].
Lemma prod_factory_once_witness :
  exists f, (NewProdFactory Db.New fresh_process).2 = Returned f /\ Default_New f = Returned (0%nat, false).
Proof.
  pose proof (prod_factory_once Db.New Db.New fresh_process eq_refl) as H. cbn in H.
  eexists. split; [reflexivity|]. exact (proj2 (proj1 H)).
Defined.

(** Preparing the database of the tests takes two connections, both closed. *)
Definition noting (h : nat) (p : process) : process * option string := (act (Migrated h) p, None).
Lemma noting_keeps h : keeps (noting h).
Proof.
  intros p Hn. cbn. assert (open_pools (act (Migrated h) p) = open_pools p) as He by apply open_pools_act.
  split_and!; [by apply (numbered_same p)|done..].
Qed.
Lemma test_factory_pools_witness :
  exists p f, NewTestFactory noting Db.New fresh_process = (p, Returned f) /\ open_pools p = {[2%nat]}.
Proof.
  destruct (NewTestFactory noting Db.New fresh_process) as [p [f|?|]] eqn:E; [|vm_compute in E; discriminate E..].
  exists p, f. split; [done|].
  destruct (test_factory_pools noting Db.New fresh_process p f noting_keeps ltac:(done) E) as [-> _].
  vm_compute in E. injection E as _ <-. cbn [t_pool]. set_solver.
Defined.
