(* ===== verification/Environment.v ===== *)
(** * cmd/maestro/environments and cmd/maestro/servecmd: what a configuration starts

    The three environments, Initialize (visitors, files, clients), and runServer with
    NewControllersServer: which event server, filter, dispatcher, controllers and detectors
    a configuration gives. Loading a broker configuration and a kubeconfig, and connecting to
    them, is the class [Connections]. *)

From S2P Require Import Prelude GoLib Types Session Services ServerConfig.
Import api Strings Fmt.

Open Scope Z_scope.

(** ** types.go, e_development.go, e_integration_testing.go, e_production.go *)

Inductive EnvironmentImpl := devEnvImpl | testingEnvImpl | productionEnvImpl.

Definition TestingEnv : string := "testing".
Definition DevelopmentEnv : string := "development".
Definition ProductionEnv : string := "production".

Definition GetEnvironmentStrFromEnv (LookupEnv : string -> option string) : string :=
  match LookupEnv "MAESTRO_ENV" with
  | Some envStr => if decide (envStr = "") then DevelopmentEnv else envStr
  | None => DevelopmentEnv
  end.

Definition environments (name : string) : option EnvironmentImpl :=
  if decide (name = DevelopmentEnv) then Some devEnvImpl
  else if decide (name = TestingEnv) then Some testingEnvImpl
  else if decide (name = ProductionEnv) then Some productionEnvImpl
  else None.

(** A Go map: the entries in some order. *)
Definition Flags (e : EnvironmentImpl) : list (string * string) :=
  match e with
  | devEnvImpl =>
      [("v", "10"); ("enable-https", "false"); ("enable-metrics-https", "false"); ("server-hostname", "localhost");
       ("http-server-bindport", "8000"); ("source-id", "maestro")]
  | testingEnvImpl =>
      [("v", "0"); ("logtostderr", "true"); ("enable-https", "false"); ("enable-metrics-https", "false");
       ("source-id", "maestro")]
  | productionEnvImpl => [("v", "1"); ("source-id", "maestro")]
  end.

Definition set_Debug (b : bool) (c : ApplicationConfig) : ApplicationConfig :=
  set_Database (DatabaseConfig.set_Debug b c.(Database)) c.

(** VisitConfig of the environments. *)
Definition Getenv (LookupEnv : string -> option string) (key : string) : string := default "" (LookupEnv key).
Definition VisitConfig (impl : EnvironmentImpl) (LookupEnv : string -> option string) (c : ApplicationConfig) : ApplicationConfig :=
  match impl with
  | testingEnvImpl => if decide (Getenv LookupEnv "DB_DEBUG" = "true") then set_Debug true c else c
  | _ => c
  end.

(** The session factory with the configuration it was made from. *)
Inductive SessionFactory := ProdFactory (c : DatabaseConfig.T) | TestFactory (c : DatabaseConfig.T).

Inductive Authorizer := MockAuthorizer | KubeAuthorizer.

(** ** framework.go *)

Class Connections := {
  BrokerConfig : Type;
  SourceOptions : Type;
  (** builder.NewConfigLoader(type, file).LoadConfig() *)
  LoadConfig : string -> string -> result BrokerConfig string;
  (** builder.BuildCloudEventsSourceOptions(config, clientID, sourceID, dataType) for the
      data type of manifest bundles *)
  BuildCloudEventsSourceOptions : BrokerConfig -> string -> string -> result SourceOptions string;
  (** NewSourceClient connects to the broker *)
  connectSource : SourceOptions -> option string;
  KubeConfig : Type;
  BuildConfigFromFlags : string -> result KubeConfig string;
  InClusterConfig : result KubeConfig string;
  (** kubernetes.NewForConfig *)
  NewForConfig : KubeConfig -> option string;
  (** autoexport.NewSpanExporter and resource.New of OpenTelemetry: their errors *)
  NewSpanExporter : option string;
  NewTraceResource : option string;
}.

Section Framework.
Context `{pf : Pflag} `{fs : Files} `{cn : Connections}.
Context (root : string) (LookupEnv : string -> option string).

Inductive Source := SourceMock | SourceOf (o : SourceOptions).

Record Env_ := mkEnv {
  EnvName : string;
  (** environment.Config, which the program reads *)
  Config_ : ApplicationConfig;
  (** environment.ApplicationConfig, a configuration of its own, which the visitors get *)
  VisitedConfig : ApplicationConfig;
  CloudEventsSource : option Source;
  GRPCAuthorizer_ : option Authorizer;
  SessionFactory_ : option SessionFactory;
}.

(** init *)
Definition init_env : Env_ :=
  mkEnv (GetEnvironmentStrFromEnv LookupEnv) (NewApplicationConfig root) (NewApplicationConfig root) None None None.

Fixpoint setConfigDefaults (defaults : list (string * string)) (c : ApplicationConfig) : result ApplicationConfig string :=
  match defaults with
  | [] => Ok c
  | (name, value) :: defaults =>
      match Set_flag name value c with
      | Err err => Err (Sprintf "Error setting flag %s: %v" [GStr name; GStr err])
      | Ok c => setConfigDefaults defaults c
      end
  end.

Definition set_Config (c : ApplicationConfig) (e : Env_) : Env_ :=
  mkEnv e.(EnvName) c e.(VisitedConfig) e.(CloudEventsSource) e.(GRPCAuthorizer_) e.(SessionFactory_).

(** AddFlags of the environment; [order] is the order the map of flags is walked in, and
    [None] the nil dereference of an environment that does not exist. *)
Definition Env_AddFlags (order : list (string * string) -> list (string * string)) (e : Env_) : option (result Env_ string) :=
  match environments e.(EnvName) with
  | None => None
  | Some impl =>
      Some (match setConfigDefaults (order (Flags impl)) (AddFlags e.(Config_)) with
            | Err err => Err err
            | Ok c => Ok (set_Config c e)
            end)
  end.

Definition grpc_broker (c : ApplicationConfig) : bool :=
  bool_decide (c.(MessageBroker).(MessageBrokerConfig.MessageBrokerType) = "grpc").

(** The source client LoadClients makes, if any. *)
Definition load_source (c : ApplicationConfig) : result (option Source) string :=
  let mb := c.(MessageBroker) in
  if mb.(MessageBrokerConfig.EnableMock) then Ok (Some SourceMock)
  else if mb.(MessageBrokerConfig.Disable) then Ok None
  else if grpc_broker c then Ok None
  else
    match LoadConfig mb.(MessageBrokerConfig.MessageBrokerType) mb.(MessageBrokerConfig.MessageBrokerConfig) with
    | Err err => Err (Sprintf "Unable to load cloudevent config: %v" [GStr err])
    | Ok config =>
        match BuildCloudEventsSourceOptions config mb.(MessageBrokerConfig.ClientID) mb.(MessageBrokerConfig.SourceID) with
        | Err err => Err (Sprintf "Unable to build cloudevent source options: %v" [GStr err])
        | Ok options =>
            match connectSource options with
            | Some err => Err (Sprintf "Unable to create cloudevent source client: %v" [GStr err])
            | None => Ok (Some (SourceOf options))
            end
        end
    end.

(** The authorizer LoadClients makes, if any. *)
Definition load_authorizer (c : ApplicationConfig) : result (option Authorizer) string :=
  let g := c.(GRPCServer_) in
  if negb g.(GRPCServerConfig.EnableGRPCServer) then Ok None
  else if decide (g.(GRPCServerConfig.GRPCAuthNType) = "mock") then Ok (Some MockAuthorizer)
  else
    let kubeConfig :=
      match BuildConfigFromFlags g.(GRPCServerConfig.GRPCAuthorizerConfig) with
      | Ok k => Ok k
      | Err _ =>
          match InClusterConfig with
          | Ok k => Ok k
          | Err err => Err (Sprintf "Unable to retrieve kube client config: %v" [GStr err])
          end
      end in
    match kubeConfig with
    | Err err => Err err
    | Ok k =>
        match NewForConfig k with
        | Some err => Err (Sprintf "Unable to create kube client: %v" [GStr err])
        | None => Ok (Some KubeAuthorizer)
        end
    end.

Definition LoadClients (e : Env_) : result Env_ string :=
  match load_source e.(Config_) with
  | Err err => Err err
  | Ok source =>
      match load_authorizer e.(Config_) with
      | Err err => Err err
      | Ok authorizer =>
          Ok (mkEnv e.(EnvName) e.(Config_) e.(VisitedConfig) source authorizer e.(SessionFactory_))
      end
  end.

Inductive outcome :=
| Fatal (msg : string)
| Failed (err : string)
| Initialized (e : Env_).

(** The visitors of databases, brokers, services, clients and handlers do nothing but make
    the session factory, and Seed is empty. *)
Definition Initialize (e : Env_) : outcome :=
  match environments e.(EnvName) with
  | None => Fatal (Sprintf "Unknown runtime environment: %s" [GStr e.(EnvName)])
  | Some impl =>
      let visited := VisitConfig impl LookupEnv e.(VisitedConfig) in
      let '(c, messages) := ReadFiles root e.(Config_) in
      match messages with
      | _ :: _ => Fatal ("Unable to read configuration files:" +:+ String newline_char (Join messages (String newline_char "")))
      | [] =>
          let factory := match impl with testingEnvImpl => TestFactory c.(Database) | _ => ProdFactory c.(Database) end in
          match LoadClients (mkEnv e.(EnvName) c visited e.(CloudEventsSource) e.(GRPCAuthorizer_) (Some factory)) with
          | Err err => Failed (Sprintf "failed to load clients: %v" [GStr err])
          | Ok e => Initialized e
          end
      end
  end.

(** service_types.go: the locator reads the configuration when it is called. *)
Definition NewResourceServiceLocator (e : Env_) : ResourceConfig :=
  ResourceService.NewResourceService e.(Config_).(EventServer_).(EventServerConfig.DeleteEventRepublishInterval).

(** ** controllers.go: NewControllersServer *)

Record ControllersServer := mkControllersServer {
  KindControllerManager : bool;
  (** the thresholds of the detectors that run *)
  UndeliveredDetector : option Z;
  StaleDeleteDetector : option Z;
}.
(** The status controller, and what the manager and the detectors of the server run. *)
Inductive Task :=
| KindControllerRun
| ListenEvents
| DetectUndelivered (threshold : Z)
| DetectStaleDelete (threshold : Z)
| StatusControllerRun
| ListenStatusEvents.
Definition ControllersServer_Start (s : ControllersServer) : list Task :=
  (if s.(KindControllerManager) then [KindControllerRun; ListenEvents] else []) ++
  match s.(UndeliveredDetector) with Some t => [DetectUndelivered t] | None => [] end ++
  match s.(StaleDeleteDetector) with Some t => [DetectStaleDelete t] | None => [] end ++
  [StatusControllerRun; ListenStatusEvents].
Definition when_positive (threshold : Z) : option Z := if 0 <? threshold then Some threshold else None.
Definition NewControllersServer (c : ApplicationConfig) : ControllersServer :=
  if c.(MessageBroker).(MessageBrokerConfig.Disable) then mkControllersServer false None None
  else mkControllersServer true (when_positive c.(EventServer_).(EventServerConfig.UndeliveredResourceThreshold))
         (when_positive c.(EventServer_).(EventServerConfig.StaleDeleteEventThreshold)).

(** ** api_server.go, metrics_server.go, healthcheck_server.go: how the servers listen *)

Inductive Listening :=
| Exits (err : string)
| ServesTLS (addr cert key : string)
| Serves (addr : string).

(** The common part of the three: HTTPS asks for the certificate and the key of the HTTP
    server, and check exits the process. *)
Definition listening (EnableHTTPS : bool) (addr : string) (c : ApplicationConfig) : Listening :=
  let cert := c.(HTTPServer).(HTTPServerConfig.HTTPSCertFile) in
  let key := c.(HTTPServer).(HTTPServerConfig.HTTPSKeyFile) in
  if EnableHTTPS then
    if decide (cert = "" \/ key = "") then Exits "unspecified required --https-cert-file, --https-key-file"
    else ServesTLS addr cert key
  else Serves addr.
Definition Addr (c : ApplicationConfig) (port : string) : string := c.(HTTPServer).(HTTPServerConfig.Hostname) +:+ ":" +:+ port.

Definition apiServer_Serve (c : ApplicationConfig) : Listening :=
  listening c.(HTTPServer).(HTTPServerConfig.EnableHTTPS) (Addr c c.(HTTPServer).(HTTPServerConfig.BindPort)) c.
Definition metricsServer_Start (c : ApplicationConfig) : Listening :=
  listening c.(Metrics).(MetricsConfig.EnableHTTPS) (Addr c c.(Metrics).(MetricsConfig.BindPort)) c.
Definition HealthCheckServer_listen (c : ApplicationConfig) : Listening :=
  listening c.(HealthCheck).(HealthCheckConfig.EnableHTTPS) (Addr c c.(HealthCheck).(HealthCheckConfig.BindPort)) c.

(** ** common/otlp_sdk.go *)

Definition TracingEnabled : bool := bool_decide (is_Some (LookupEnv "OTEL_TRACES_EXPORTER")).
(** The error, if any. *)
Definition InstallOpenTelemetryTracer : option string :=
  match NewSpanExporter with
  | Some err => Some (Sprintf "failed to create OTEL exporter: %s" [GStr err])
  | None =>
      match NewTraceResource with
      | Some err => Some (Sprintf "failed to initialize trace resources: %s" [GStr err])
      | None => None
      end
  end.

(** ** servecmd/cmd.go: runServer *)

Inductive Dispatcher_ :=
| NoopDispatcher_ (source : option Source)
| HashDispatcher_ (clientID : string) (source : option Source) (hash : ConsistentHashConfig.T) (checkInterval : Z).
Inductive EventServer__ :=
| BrokerServer
| MessageQueueServer (instanceID : string) (source : option Source) (d : Dispatcher_).
Inductive Filter_ := PredicatedFilter | LockBasedFilter.

(** NewAPIServer: the gRPC server with its authorizer, where it is enabled. *)
Definition new_grpcServer (e : Env_) : option (option Authorizer) :=
  if e.(Config_).(GRPCServer_).(GRPCServerConfig.EnableGRPCServer) then Some e.(GRPCAuthorizer_) else None.

Record Process := mkProcess {
  p_eventServer : EventServer__;
  p_eventFilter : Filter_;
  p_grpcServer : option (option Authorizer);
  p_api : Listening;
  p_metrics : Listening;
  p_health : Listening;
  (** NewHealthCheckServer *)
  p_healthSource : option Source;
  (** go eventServer.Start(ctx) *)
  p_startsEventServer : bool;
  (** controllersServer.Start *)
  p_tasks : list Task;
}.

(** The event server, its filter and its dispatcher. *)
Definition choose_event_server (e : Env_) : result (EventServer__ * Filter_) string :=
  let c := e.(Config_) in
  let clientID := c.(MessageBroker).(MessageBrokerConfig.ClientID) in
  let subscriptionType := c.(EventServer_).(EventServerConfig.SubscriptionType) in
  if grpc_broker c then Ok (BrokerServer, PredicatedFilter)
  else if decide (subscriptionType = "shared") then
    Ok (MessageQueueServer clientID e.(CloudEventsSource) (NoopDispatcher_ e.(CloudEventsSource)), LockBasedFilter)
  else if decide (subscriptionType = "broadcast") then
    Ok (MessageQueueServer clientID e.(CloudEventsSource) (HashDispatcher_ clientID e.(CloudEventsSource) c.(EventServer_).(EventServerConfig.ConsistentHashConfig) 5000000000), LockBasedFilter)
  else Err "Unsupported subscription type".

(** [Err]: the process exits with the message. *)
Definition runServer (e : Env_) : result Process string :=
  match Initialize e with
  | Fatal msg => Err msg
  | Failed err => Err (Sprintf "Unable to initialize environment: %s" [GStr err])
  | Initialized e =>
      match choose_event_server e with
      | Err err => Err err
      | Ok (eventServer, eventFilter) =>
          let c := e.(Config_) in
          match (if TracingEnabled then InstallOpenTelemetryTracer else None) with
          | Some err => Err err
          | None =>
              Ok (mkProcess eventServer eventFilter (new_grpcServer e) (apiServer_Serve c) (metricsServer_Start c)
                    (HealthCheckServer_listen c) e.(CloudEventsSource) (negb c.(MessageBroker).(MessageBrokerConfig.Disable))
                    (ControllersServer_Start (NewControllersServer c)))
          end
      end
  end.

End Framework.
