(* ===== verification/EnvironmentFacts.v ===== *)
(** * What the configuration promises

    The built-in flags of the environments, the files of the database settings, and the
    parts a process is made of. *)

From S2P Require Import Prelude GoLib Types Session Services CliConfig ServerConfig Environment.
Import api Strings Fmt.

Open Scope Z_scope.

(** ** Flags *)

(** No two parts define the same flag: defining one twice panics. *)
Lemma flags_distinct : NoDup (flag_name <$> app_flags).
Proof. apply (bool_decide_unpack _). vm_compute. exact I. Qed.

Section Flags.
Context `{pl : PflagLaws} `{cn : Connections}.

Lemma setConfigDefaults_same l c :
  Forall (fun kv => Set_flag kv.1 kv.2 c = Ok c) l -> setConfigDefaults l c = Ok c.
Proof. induction 1 as [|[name value] l Hkv _ IH]; [done|]. cbn in *. by rewrite Hkv. Qed.

(** Setting a flag to the value it has. *)
Lemma set_enable_https c : c.(HTTPServer).(HTTPServerConfig.EnableHTTPS) = false -> Set_flag "enable-https" "false" c = Ok c.
Proof. destruct c as [[] ? ? ? ? ? ?]. cbn. intros ->. vm_compute. reflexivity. Qed.
Lemma set_enable_metrics_https c : c.(Metrics).(MetricsConfig.EnableHTTPS) = false -> Set_flag "enable-metrics-https" "false" c = Ok c.
Proof. destruct c as [? ? [] ? ? ? ?]. cbn. intros ->. vm_compute. reflexivity. Qed.
Lemma set_hostname c : c.(HTTPServer).(HTTPServerConfig.Hostname) = "localhost" -> Set_flag "server-hostname" "localhost" c = Ok c.
Proof. destruct c as [[] ? ? ? ? ? ?]. cbn. intros ->. vm_compute. reflexivity. Qed.
Lemma set_bindport c : c.(HTTPServer).(HTTPServerConfig.BindPort) = "8000" -> Set_flag "http-server-bindport" "8000" c = Ok c.
Proof. destruct c as [[] ? ? ? ? ? ?]. cbn. intros ->. vm_compute. reflexivity. Qed.
Lemma set_source_id c : c.(MessageBroker).(MessageBrokerConfig.SourceID) = "maestro" -> Set_flag "source-id" "maestro" c = Ok c.
Proof. destruct c as [? ? ? ? ? ? []]. cbn. intros ->. vm_compute. reflexivity. Qed.

(** The flags of klog are not of the configuration. *)
Lemma set_go_flag name value c :
  find_flag name app_flags = None -> goSet name value = Some (Ok tt) -> Set_flag name value c = Ok c.
Proof. intros Hf Hg. unfold Set_flag. by rewrite Hf, Hg. Qed.
Lemma v_is_klogs : find_flag "v" app_flags = None.
Proof. vm_compute. reflexivity. Qed.
Lemma logtostderr_is_klogs : find_flag "logtostderr" app_flags = None.
Proof. vm_compute. reflexivity. Qed.

(** The defaults the environments restate. *)
Record restated (c : ApplicationConfig) : Prop := {
  r_https : c.(HTTPServer).(HTTPServerConfig.EnableHTTPS) = false;
  r_metrics : c.(Metrics).(MetricsConfig.EnableHTTPS) = false;
  r_host : c.(HTTPServer).(HTTPServerConfig.Hostname) = "localhost";
  r_port : c.(HTTPServer).(HTTPServerConfig.BindPort) = "8000";
  r_source : c.(MessageBroker).(MessageBrokerConfig.SourceID) = "maestro";
}.
Lemma defaults_restated root : restated (AddFlags (NewApplicationConfig root)).
Proof. split; vm_compute; reflexivity. Qed.

Lemma flags_kept impl c : restated c -> Forall (fun kv => Set_flag kv.1 kv.2 c = Ok c) (Flags impl).
Proof.
  intros [].
  destruct impl; repeat apply List.Forall_cons; try apply List.Forall_nil; cbn [fst snd];
    first [by apply set_enable_https|by apply set_enable_metrics_https|by apply set_hostname|by apply set_bindport
          |by apply set_source_id
          |apply set_go_flag; [apply logtostderr_is_klogs|exact (goSet_logtostderr true)]
          |apply set_go_flag; [apply v_is_klogs|]].
  - exact (goSet_v 10 ltac:(lia)).
  - exact (goSet_v 0 ltac:(lia)).
  - exact (goSet_v 1 ltac:(lia)).
Qed.

(** The flags an environment sets by itself are accepted, in whatever order the map of
    them is walked, and leave the configuration at the defaults of the flags. *)
Theorem environment_flags_accepted root LookupEnv impl order :
  environments (GetEnvironmentStrFromEnv LookupEnv) = Some impl -> (forall l, order l ≡ₚ l) ->
  NoDup (flag_name <$> app_flags) /\
  Env_AddFlags order (init_env root LookupEnv) =
    Some (Ok (set_Config (AddFlags (NewApplicationConfig root)) (init_env root LookupEnv))).
Proof.
  intros Himpl Horder. split; [apply flags_distinct|]. unfold Env_AddFlags. cbn [EnvName init_env]. rewrite Himpl.
  rewrite setConfigDefaults_same; [done|]. rewrite Horder. apply flags_kept, defaults_restated.
Qed.
End Flags.

(** ** Files *)

Section Files.
Context `{fs : Files} (root : string).
Implicit Types c : DatabaseConfig.T.

Definition trimmed (s : string) : string := TrimSuffix s (String newline_char "").

(** The contents of the files the settings of the database are in; the password file only
    counts where passwords are used. *)
Record contents c (host port user password name : string) : Prop := {
  c_host : ReadFile root c.(DatabaseConfig.HostFile) = Ok host;
  c_port : ReadFile root c.(DatabaseConfig.PortFile) = Ok port;
  c_user : ReadFile root c.(DatabaseConfig.UsernameFile) = Ok user;
  c_password : c.(DatabaseConfig.AuthMethod) = AuthMethodPassword -> ReadFile root c.(DatabaseConfig.PasswordFile) = Ok password;
  c_name : ReadFile root c.(DatabaseConfig.NameFile) = Ok name;
}.

(** What the settings are read to. *)
Definition read_to (host : string) (port : Z) (user password name : string) c : DatabaseConfig.T :=
  let c' := DatabaseConfig.set_Username (trimmed user) (DatabaseConfig.set_Port port (DatabaseConfig.set_Host (trimmed host) c)) in
  DatabaseConfig.set_Name (trimmed name)
    (if decide (c.(DatabaseConfig.AuthMethod) = AuthMethodPassword) then DatabaseConfig.set_Password (trimmed password) c' else c').

Lemma Database_ReadFiles_run c :
  let '(c', err) := Database_ReadFiles root c in
  (err = None -> exists host port n user password name,
     contents c host port user password name /\ Strconv.Atoi port = (n, None) /\ c' = read_to host n user password name c) /\
  (forall host port n user password name,
     contents c host port user password name -> Strconv.Atoi port = (n, None) -> err = None).
Proof.
  destruct c as [a b d e h p nm us pw hf pf nf uf pwf rc am ts tk].
  unfold Database_ReadFiles, assigned_then, readFileValueString, readFileValueInt, read_to; cbn.
  destruct (ReadFile root hf) as [host|?] eqn:Eh; cbn; [|split; [done|intros ? ? ? ? ? ? [H]; cbn in H; congruence]].
  destruct (ReadFile root pf) as [port|?] eqn:Ep; cbn; [|split; [done|intros ? ? ? ? ? ? [_ H]; cbn in H; congruence]].
  destruct (Strconv.Atoi port) as [n [er|]] eqn:En; cbn;
    [split; [done|intros ? ? ? ? ? ? [_ H] ?; cbn in H; congruence]|].
  destruct (ReadFile root uf) as [user|?] eqn:Eu; cbn; [|split; [done|intros ? ? ? ? ? ? [_ _ H]; cbn in H; congruence]].
  destruct (decide (am = AuthMethodPassword)) as [Ham|Ham]; cbn.
  - destruct (ReadFile root pwf) as [password|?] eqn:Epw; cbn;
      [|split; [done|intros ? ? ? ? ? ? [_ _ _ H]; cbn in H; specialize (H Ham); congruence]].
    destruct (ReadFile root nf) as [name|?] eqn:Enm; cbn; [|split; [done|intros ? ? ? ? ? ? [_ _ _ _ H]; cbn in H; congruence]].
    split; [|done]. intros _. exists host, port, n, user, password, name. done.
  - destruct (ReadFile root nf) as [name|?] eqn:Enm; cbn; [|split; [done|intros ? ? ? ? ? ? [_ _ _ _ H]; cbn in H; congruence]].
    split; [|done]. intros _. exists host, port, n, user, "", name. done.
Qed.

(** The settings of the database come from their files: reading succeeds exactly when every
    file that counts can be read and the port is a number and nothing else; then the five
    settings are the contents, less one line break at the end, the password only where
    passwords are used, and nothing else of the configuration changes. *)
Theorem ReadFiles_spec (c : ApplicationConfig) :
  let '(c', messages) := ReadFiles root c in
  (messages = [] <-> exists host port n user password name,
     contents c.(Database) host port user password name /\ Strconv.Atoi port = (n, None)) /\
  (messages = [] -> exists host port n user password name,
     contents c.(Database) host port user password name /\ Strconv.Atoi port = (n, None) /\
     c' = set_Database (read_to host n user password name c.(Database)) c).
Proof.
  unfold ReadFiles. pose proof (Database_ReadFiles_run c.(Database)) as Hr.
  destruct (Database_ReadFiles root c.(Database)) as [d [err|]]; destruct Hr as [Hok Hall].
  - split; [|done]. split; [done|]. intros (h & p & n & u & pw & nm & Hc & Hn). specialize (Hall _ _ _ _ _ _ Hc Hn). done.
  - destruct (Hok eq_refl) as (h & p & n & u & pw & nm & Hc & Hn & ->).
    split; [split; [intros _; by exists h, p, n, u, pw, nm|done]|]. intros _. by exists h, p, n, u, pw, nm.
Qed.

(** A port file that ends in a line break, as most editors write it, is not accepted, while
    the other files may end in one. *)
Lemma port_with_newline (c : ApplicationConfig) :
  ReadFile root c.(Database).(DatabaseConfig.PortFile) = Ok ("5432" +:+ String newline_char "") -> (ReadFiles root c).2 <> [].
Proof.
  intros Hp. pose proof (ReadFiles_spec c) as Hs. destruct (ReadFiles root c) as [c' messages]. destruct Hs as [[Hs _] _].
  intros Hm. destruct (Hs Hm) as (h & p & m & u & pw & nm & [_ Hp' _ _ _] & Hn). rewrite Hp in Hp'. simplify_eq.
Qed.
End Files.

(** ** The process *)

Section Process.
Context `{fs : Files} `{cn : Connections} (root : string) (LookupEnv : string -> option string).

(** What Initialize leaves: the configuration it was given with the settings of the files
    read in, and the clients that configuration asks for. *)
Lemma Initialize_ready e e' :
  Initialize root LookupEnv e = Initialized e' ->
  e'.(Config_) = (ReadFiles root e.(Config_)).1 /\ (ReadFiles root e.(Config_)).2 = [] /\
  load_source e'.(Config_) = Ok e'.(CloudEventsSource) /\ load_authorizer e'.(Config_) = Ok e'.(GRPCAuthorizer_) /\
  exists impl, environments e.(EnvName) = Some impl /\
    e'.(SessionFactory_) = Some (match impl with
                                 | testingEnvImpl => TestFactory e'.(Config_).(Database)
                                 | _ => ProdFactory e'.(Config_).(Database)
                                 end).
Proof.
  unfold Initialize, LoadClients. destruct (environments e.(EnvName)) as [impl|]; [|done].
  destruct (ReadFiles root e.(Config_)) as [c [|? ?]]; [|done]. cbn [Config_ CloudEventsSource GRPCAuthorizer_ SessionFactory_ EnvName].
  destruct (load_source c) eqn:Es; [|done]. destruct (load_authorizer c) eqn:Ea; [|done].
  intros [= <-]. cbn. split_and!; try done. exists impl. split; [done|]. by destruct impl.
Qed.

(** A broker that is a message queue and is not disabled has a source client. *)
Lemma load_source_some c s :
  load_source c = Ok s -> c.(MessageBroker).(MessageBrokerConfig.Disable) = false -> grpc_broker c = false -> is_Some s.
Proof. unfold load_source. intros Hs Hd Hg. rewrite Hd, Hg in Hs. repeat case_match; simplify_eq; eauto. Qed.

Lemma load_authorizer_kind c a :
  load_authorizer c = Ok a -> c.(GRPCServer_).(GRPCServerConfig.EnableGRPCServer) = true ->
  a = Some (if decide (c.(GRPCServer_).(GRPCServerConfig.GRPCAuthNType) = "mock") then MockAuthorizer else KubeAuthorizer).
Proof. unfold load_authorizer. intros Ha He. rewrite He in Ha. cbn [negb] in Ha. repeat case_match; by simplify_eq. Qed.

(** The event server and the filter of events that go together. *)
Definition wired (c : ApplicationConfig) (source : option Source) (s : EventServer__) (f : Filter_) : Prop :=
  match s with
  | BrokerServer => grpc_broker c = true /\ f = PredicatedFilter
  | MessageQueueServer id src d =>
      grpc_broker c = false /\ f = LockBasedFilter /\ id = c.(MessageBroker).(MessageBrokerConfig.ClientID) /\ src = source /\
      match d with
      | NoopDispatcher_ src' => c.(EventServer_).(EventServerConfig.SubscriptionType) = "shared" /\ src' = source
      | HashDispatcher_ id' src' hash _ =>
          c.(EventServer_).(EventServerConfig.SubscriptionType) = "broadcast" /\ id' = id /\ src' = source /\
          hash = c.(EventServer_).(EventServerConfig.ConsistentHashConfig)
      end
  end.

Lemma choose_event_server_wired e s f :
  choose_event_server e = Ok (s, f) -> wired e.(Config_) e.(CloudEventsSource) s f.
Proof.
  unfold choose_event_server. destruct (grpc_broker _) eqn:Hg; [intros [= <- <-]; done|].
  repeat case_decide; intros ?; simplify_eq; cbn; split_and!; done.
Qed.

Lemma tasks_spec c task :
  task ∈ ControllersServer_Start (NewControllersServer c) <->
  match task with
  | StatusControllerRun | ListenStatusEvents => True
  | KindControllerRun | ListenEvents => c.(MessageBroker).(MessageBrokerConfig.Disable) = false
  | DetectUndelivered t =>
      c.(MessageBroker).(MessageBrokerConfig.Disable) = false /\ 0 < t /\ c.(EventServer_).(EventServerConfig.UndeliveredResourceThreshold) = t
  | DetectStaleDelete t =>
      c.(MessageBroker).(MessageBrokerConfig.Disable) = false /\ 0 < t /\ c.(EventServer_).(EventServerConfig.StaleDeleteEventThreshold) = t
  end.
Proof.
  unfold NewControllersServer, ControllersServer_Start, when_positive.
  destruct (MessageBrokerConfig.Disable _); cbn;
    [|destruct (Z.ltb_spec 0 c.(EventServer_).(EventServerConfig.UndeliveredResourceThreshold));
      destruct (Z.ltb_spec 0 c.(EventServer_).(EventServerConfig.StaleDeleteEventThreshold)); cbn];
    destruct task; set_unfold; intuition (simplify_eq; try lia); tauto.
Qed.

(** A server that listens with TLS has both files, and one that does not was not asked to. *)
Definition listens (EnableHTTPS : bool) (c : ApplicationConfig) (addr : string) (l : Listening) : Prop :=
  match l with
  | Serves a => EnableHTTPS = false /\ a = addr
  | ServesTLS a cert key =>
      EnableHTTPS = true /\ a = addr /\ cert = c.(HTTPServer).(HTTPServerConfig.HTTPSCertFile) /\
      key = c.(HTTPServer).(HTTPServerConfig.HTTPSKeyFile) /\ cert <> "" /\ key <> ""
  | Exits _ => EnableHTTPS = true
  end.
Lemma listening_listens b c addr : listens b c addr (listening b addr c).
Proof. unfold listening. destruct b; [|done]. case_decide as Hf; cbn; [done|]. split_and!; try done; tauto. Qed.

(** C22: what a server process is made of. Whatever the configuration, the files, the variables and the connections, a
    process that gets as far as starting its servers has consistent parts, for the configuration with the files read
    in. The event server is the gRPC broker, with its predicate as the filter of events, exactly for the broker type
    grpc, and otherwise the message queue server, with the lock as the filter, under the client id of the process and
    with the dispatcher of the subscription type, both on the one source client; where a message queue is not disabled
    that client exists, so what publishes and subscribes through it never dereferences a missing one. A disabled
    broker starts no event server and no spec controller, detectors run exactly for positive thresholds, the status
    controller always runs; the gRPC server has the mock authorizer exactly for the mock authentication; and no
    server asked to use HTTPS listens without. *)
Theorem server_wiring e p :
  runServer root LookupEnv e = Ok p ->
  exists e', Initialize root LookupEnv e = Initialized e' /\
  let c := e'.(Config_) in
  let source := e'.(CloudEventsSource) in
  let disabled := c.(MessageBroker).(MessageBrokerConfig.Disable) in
  wired c source p.(p_eventServer) p.(p_eventFilter) /\
  (disabled = false -> grpc_broker c = false -> is_Some source) /\ p.(p_healthSource) = source /\
  p.(p_startsEventServer) = negb disabled /\ (KindControllerRun ∈ p.(p_tasks) <-> disabled = false) /\
  (forall t, DetectUndelivered t ∈ p.(p_tasks) <->
     disabled = false /\ 0 < t /\ c.(EventServer_).(EventServerConfig.UndeliveredResourceThreshold) = t) /\
  (forall t, DetectStaleDelete t ∈ p.(p_tasks) <->
     disabled = false /\ 0 < t /\ c.(EventServer_).(EventServerConfig.StaleDeleteEventThreshold) = t) /\
  StatusControllerRun ∈ p.(p_tasks) /\
  p.(p_grpcServer) = (if c.(GRPCServer_).(GRPCServerConfig.EnableGRPCServer) then
    Some (Some (if decide (c.(GRPCServer_).(GRPCServerConfig.GRPCAuthNType) = "mock") then MockAuthorizer else KubeAuthorizer))
  else None) /\
  listens c.(HTTPServer).(HTTPServerConfig.EnableHTTPS) c (Addr c c.(HTTPServer).(HTTPServerConfig.BindPort)) p.(p_api) /\
  listens c.(Metrics).(MetricsConfig.EnableHTTPS) c (Addr c c.(Metrics).(MetricsConfig.BindPort)) p.(p_metrics) /\
  listens c.(HealthCheck).(HealthCheckConfig.EnableHTTPS) c (Addr c c.(HealthCheck).(HealthCheckConfig.BindPort)) p.(p_health).
Proof.
  unfold runServer. destruct (Initialize root LookupEnv e) as [?|?|e'] eqn:Ei; [done..|].
  destruct (Initialize_ready _ _ Ei) as (_ & _ & Hsrc & Hauth & _).
  destruct (choose_event_server e') as [[s f]|] eqn:Ec; [|done].
  destruct (if TracingEnabled LookupEnv then _ else _); [done|]. intros [= <-]. exists e'. split; [done|]. cbv zeta.
  split_and!; cbn [p_eventServer p_eventFilter p_healthSource p_startsEventServer p_tasks p_grpcServer p_api p_metrics p_health];
    try done; try (intros; apply tasks_spec); try apply listening_listens.
  - by apply choose_event_server_wired.
  - by apply load_source_some.
  - done.
  - unfold new_grpcServer. destruct (GRPCServerConfig.EnableGRPCServer _) eqn:Hg; [|done]. by rewrite (load_authorizer_kind _ _ Hauth Hg).
Qed.
End Process.

(** The debug setting of the test environment is made in a configuration of its own, which
    nothing reads: the configuration of the process does not depend on the variables. *)
Theorem DB_DEBUG_ignored `{fs : Files} `{cn : Connections} root vars vars' e e1 e2 :
  Initialize root vars e = Initialized e1 -> Initialize root vars' e = Initialized e2 ->
  e1.(Config_) = e2.(Config_) /\ e1.(SessionFactory_) = e2.(SessionFactory_).
Proof.
  intros H1 H2. destruct (Initialize_ready _ _ _ _ H1) as (Hc1 & _ & _ & _ & i1 & Hi1 & Hf1).
  destruct (Initialize_ready _ _ _ _ H2) as (Hc2 & _ & _ & _ & i2 & Hi2 & Hf2).
  assert (Hc : e1.(Config_) = e2.(Config_)) by congruence. split; [done|]. rewrite Hf1, Hf2, Hc. by simplify_eq.
Qed.

(** * A configuration that starts

    The parameters of the configuration instantiated: the files of a directory of secrets, a
    broker and a cluster that can be reached, and the two flags of klog. The server
    started from them with the defaults of the flags. *)

Import api Strings Fmt.

Open Scope Z_scope.

#[local] Instance secrets : Files := fun path =>
  if decide (path = "/maestro/secrets/db.host") then Ok ("maestro-db" +:+ String newline_char "")
  else if decide (path = "/maestro/secrets/db.port") then Ok "5432"
  else if decide (path = "/maestro/secrets/db.user") then Ok "maestro"
  else if decide (path = "/maestro/secrets/db.password") then Ok "TheBlurstOfTimes"
  else if decide (path = "/maestro/secrets/db.name") then Ok "maestro"
  else Err ("open " +:+ path +:+ ": no such file or directory").

#[local] Instance reachable : Connections := {|
  BrokerConfig := string * string;
  SourceOptions := string * string;
  LoadConfig type_ file := Ok (type_, file);
  BuildCloudEventsSourceOptions _ clientID sourceID := Ok (clientID, sourceID);
  connectSource _ := None;
  KubeConfig := string;
  BuildConfigFromFlags _ := Err "invalid configuration: no configuration has been provided";
  InClusterConfig := Ok "in-cluster";
  NewForConfig _ := None;
  NewSpanExporter := None;
  NewTraceResource := None;
|}.

#[local] Instance klog_flags : Pflag := {|
  parseInt s := match Strconv.Atoi s with (n, None) => Ok n | (_, Some e) => Err (atoi_error s e) end;
  parseUint32 s := match Strconv.Atoi s with (n, None) => if (0 <=? n) && (n <? 2 ^ 32) then Ok n else Err "value out of range" | (_, Some e) => Err (atoi_error s e) end;
  parseDuration s := Err ("time: invalid duration " +:+ Strconv.Quote s);
  parseFloat s := Err ("strconv.ParseFloat: parsing " +:+ Strconv.Quote s +:+ ": invalid syntax");
  noSuchFlag name := "no such flag -" +:+ name;
  invalidArgument name value err := "invalid argument " +:+ Strconv.Quote value +:+ " for --" +:+ name +:+ ": " +:+ err;
  goSet name value :=
    if decide (name = "v") then
      Some (match Strconv.Atoi value with (_, None) => Ok tt | (_, Some e) => Err (atoi_error value e) end)
    else if decide (name = "logtostderr") then
      Some (match ParseBool value with Ok _ => Ok tt | Err err => Err err end)
    else None;
|}.
#[local] Instance klog_flags_laws : PflagLaws.
Proof.
  split.
  - intros n Hn. cbn. rewrite Strconv.Atoi_pretty by (unfold Int.max_int64; lia). done.
  - by intros [].
Qed.

(** Every environment gets through AddFlags. *)
Lemma production_flags :
  exists e, Env_AddFlags reverse (init_env "/maestro" (fun _ => Some "production")) = Some (Ok e).
Proof.
  destruct (environment_flags_accepted "/maestro" (fun _ => Some "production") productionEnvImpl reverse eq_refl
    (fun l => reverse_Permutation l)) as [_ H]. eexists. exact H.
Qed.

(** An unknown name is not reported: the flags of no environment are asked for. *)
Lemma unknown_environment_panics :
  Env_AddFlags id (init_env "/maestro" (fun _ => Some "staging")) = None.
Proof. reflexivity. Qed.

(** The environment with the defaults of the flags. *)
Definition default_env : Env_ := set_Config (AddFlags (NewApplicationConfig "/maestro")) (init_env "/maestro" (fun _ => None)).

(** The host is read without its line break, the broker is a message queue, its client is the
    one every part uses, and both detectors run. *)
Lemma server_wiring_witness :
  exists e', Initialize "/maestro" (fun _ => None) default_env = Initialized e' /\
  e'.(Config_).(Database).(DatabaseConfig.Host) = "maestro-db" /\ is_Some e'.(CloudEventsSource) /\
  match runServer "/maestro" (fun _ => None) default_env with
  | Ok p => p.(p_eventFilter) = LockBasedFilter /\ p.(p_startsEventServer) = true /\
            DetectUndelivered 600 ∈ p.(p_tasks) /\ DetectStaleDelete 3600 ∈ p.(p_tasks)
  | Err _ => False
  end.
Proof.
  destruct (runServer "/maestro" (fun _ => None) default_env) as [p|err] eqn:Hp; [|vm_compute in Hp; discriminate Hp].
  destruct (server_wiring "/maestro" (fun _ => None) default_env p Hp)
    as (e' & He & Hw & Hsrc & _ & Hstart & _ & Hu & Hs & _).
  exists e'. vm_compute in He. injection He as <-. split; [vm_compute; reflexivity|]. split; [reflexivity|].
  split; [by apply Hsrc; vm_compute|]. split; [|split; [|split]].
  - vm_compute in Hp. injection Hp as <-. reflexivity.
  - rewrite Hstart. reflexivity.
  - apply Hu. split_and!; [reflexivity|lia|reflexivity].
  - apply Hs. split_and!; [reflexivity|lia|reflexivity].
Defined.
