(* ===== verification/Lifecycle.v ===== *)
(** * cmd/maestro/server: how the broker and the API server start and stop

    NewGRPCBroker and Start of grpc_broker.go, with the files of the TLS set-up from the class
    [TLSFiles], and Start of api_server.go as the sequence of what it does: what net.Listen
    and the HTTP server come back with are arguments. check exits the process, which skips
    every deferred call. *)

From S2P Require Import Prelude GoLib Errors Types Json Bundle ServerConfig Environment GrpcServer.
Import Fmt.

Open Scope Z_scope.

Module Grpc := ServerConfig.GRPCServerConfig.

(** ** grpc_broker.go *)

(** The options given to grpc.NewServer. *)
Record ServerOptions := mkServerOptions {
  MaxRecvMsgSize : Z;
  MaxSendMsgSize : Z;
  MaxConcurrentStreams : Z;
  ConnectionTimeout : Z;
  WriteBufferSize : Z;
  ReadBufferSize : Z;
  (** keepalive.EnforcementPolicy *)
  MinTime : Z;
  PermitWithoutStream : bool;
  (** keepalive.ServerParameters *)
  MaxConnectionAge : Z;
  PingTime : Z;
  PingTimeout : Z;
}.

(** The tls.Config, TLS 1.3 only: the certificate's files and the pool of client CAs, with
    RequireAndVerifyClientCert. *)
Record TLSConfig := mkTLSConfig { Certificates : string * string; ClientCAs : option string }.

Record Broker := mkBroker {
  b_instanceID : string;
  b_bindAddress : string;
  b_options : ServerOptions;
  b_creds : option TLSConfig;
  b_HeartbeatDisabled : bool;
  b_HeartbeatCheckInterval : Z;
}.

Definition server_options (config : Grpc.T) : ServerOptions :=
  mkServerOptions config.(Grpc.MaxReceiveMessageSize) config.(Grpc.MaxSendMessageSize) config.(Grpc.MaxConcurrentStreams)
    config.(Grpc.ConnectionTimeout) config.(Grpc.WriteBufferSize) config.(Grpc.ReadBufferSize)
    config.(Grpc.ClientMinPingInterval) config.(Grpc.PermitPingWithoutStream)
    config.(Grpc.MaxConnectionAge) config.(Grpc.ServerPingInterval) config.(Grpc.ServerPingTimeout).

Section Broker.
Context `{files : TLSFiles}.

(** The pool of client CAs, [None] without a file of them. *)
Definition broker_client_ca (config : Grpc.T) : result (option string) string :=
  if decide (config.(Grpc.BrokerClientCAFile) = "") then Ok None
  else
    match SystemCertPool with
    | Err err => Err (Sprintf "failed to load system cert pool: %v" [GStr err])
    | Ok _ =>
        match ReadFile config.(Grpc.BrokerClientCAFile) with
        | Err err => Err (Sprintf "failed to read broker client CA file: %v" [GStr err])
        | Ok caPEM => if AppendCertsFromPEM caPEM then Ok (Some caPEM) else Err "failed to append broker client CA to cert pool"
        end
    end.

Definition broker_tls (config : Grpc.T) : result (option TLSConfig) string :=
  let cert := config.(Grpc.BrokerTLSCertFile) in
  let key := config.(Grpc.BrokerTLSKeyFile) in
  let disableTLS := bool_decide (cert = "" /\ key = "") in
  if disableTLS then Ok None
  else if decide (cert = "" \/ key = "") then Err "unspecified required --grpc-broker-tls-cert-file, --grpc-broker-tls-key-file"
  else
    match LoadX509KeyPair cert key with
    | Err err => Err (Sprintf "failed to load broker certificates: %v" [GStr err])
    | Ok _ =>
        match broker_client_ca config with
        | Err err => Err err
        | Ok pool => Ok (Some (mkTLSConfig (cert, key) pool))
        end
    end.

(** [Err]: the process exits with the message. *)
Definition NewGRPCBroker (c : ApplicationConfig) : result Broker string :=
  let config := c.(GRPCServer_) in
  match broker_tls config with
  | Err err => Err err
  | Ok creds =>
      Ok (mkBroker c.(MessageBroker).(MessageBrokerConfig.ClientID) (Addr c config.(Grpc.BrokerBindPort)) (server_options config) creds
            config.(Grpc.HeartbeatDisable) config.(Grpc.HeartbeatCheckInterval))
  end.

(** What the files have to give for the broker to start. *)
Definition files_ready (config : Grpc.T) : Prop :=
  let cert := config.(Grpc.BrokerTLSCertFile) in
  let key := config.(Grpc.BrokerTLSKeyFile) in
  (cert = "" /\ key = "") \/
  (cert <> "" /\ key <> "" /\ LoadX509KeyPair cert key = Ok tt /\
   (config.(Grpc.BrokerClientCAFile) = "" \/
    SystemCertPool = Ok tt /\ exists caPEM, ReadFile config.(Grpc.BrokerClientCAFile) = Ok caPEM /\ AppendCertsFromPEM caPEM = true)).

Lemma broker_client_ca_spec config :
  match broker_client_ca config with
  | Ok None => config.(Grpc.BrokerClientCAFile) = ""
  | Ok (Some pem) => config.(Grpc.BrokerClientCAFile) <> "" /\ SystemCertPool = Ok tt /\
                     ReadFile config.(Grpc.BrokerClientCAFile) = Ok pem /\ AppendCertsFromPEM pem = true
  | Err _ => config.(Grpc.BrokerClientCAFile) <> "" /\
      ~ (SystemCertPool = Ok tt /\ exists pem, ReadFile config.(Grpc.BrokerClientCAFile) = Ok pem /\ AppendCertsFromPEM pem = true)
  end.
Proof.
  unfold broker_client_ca. case_decide; [done|]. destruct SystemCertPool as [[]|]; [|naive_solver].
  destruct (ReadFile _) as [pem|]; [|naive_solver]. destruct (AppendCertsFromPEM pem) eqn:Ha; [done|].
  split; [done|]. intros (_ & pem' & [= <-] & Ha'). congruence.
Qed.

(** The broker starts exactly when its files are there. It speaks TLS exactly when a
    certificate is configured, it asks its agents for certificates exactly when a CA file is,
    and the address, the identity and the limits are those of the configuration. *)
Theorem NewGRPCBroker_spec c :
  let config := c.(GRPCServer_) in
  match NewGRPCBroker c with
  | Err _ => ~ files_ready config
  | Ok b =>
      files_ready config /\ b.(b_instanceID) = c.(MessageBroker).(MessageBrokerConfig.ClientID) /\
      b.(b_bindAddress) = c.(HTTPServer).(HTTPServerConfig.Hostname) +:+ ":" +:+ config.(Grpc.BrokerBindPort) /\
      b.(b_options) = server_options config /\
      match b.(b_creds) with
      | None => config.(Grpc.BrokerTLSCertFile) = "" /\ config.(Grpc.BrokerTLSKeyFile) = ""
      | Some t => t.(Certificates) = (config.(Grpc.BrokerTLSCertFile), config.(Grpc.BrokerTLSKeyFile)) /\
                  (is_Some t.(ClientCAs) <-> config.(Grpc.BrokerClientCAFile) <> "")
      end
  end.
Proof.
  unfold NewGRPCBroker, broker_tls. cbn zeta. set (config := c.(GRPCServer_)). case_bool_decide as Hoff.
  { split_and!; try done; [by left|tauto..]. }
  case_decide as Hone; [unfold files_ready; tauto|]. destruct (LoadX509KeyPair _ _) as [[]|] eqn:El; [|unfold files_ready; cbn zeta; rewrite El; naive_solver].
  pose proof (broker_client_ca_spec config) as Hca. unfold files_ready. cbn zeta. rewrite El.
  destruct (broker_client_ca config) as [[pem|]|]; cbn; [| |tauto].
  - destruct Hca as (? & ? & ? & ?). split_and!; try done. right. naive_solver.
  - split_and!; try done. right; tauto.
Qed.
End Broker.

(** Start: [Some] is the message the process exits with; [None] the graceful stop after the
    context is done. *)
Definition Broker_Start (listen_err serve_err : option string) : option string :=
  match listen_err with
  | Some err => Some err
  | None => serve_err
  end.

(** ** api_server.go: Start *)

Inductive start_action := GoGrpcServer | StopGrpcServer | LogError (err : string) | ClosePool | ExitProcess (err : string).
#[export] Instance start_action_eq_dec : EqDecision start_action.
Proof. solve_decision. Defined.

(** http.ErrServerClosed, the error of Serve after Shutdown *)
Definition ErrServerClosed : string := "http: Server closed".

Definition apiServer_Start (c : ApplicationConfig) (listen_err : option string) (served : string) : list start_action :=
  let grpc := c.(GRPCServer_).(Grpc.EnableGRPCServer) in
  let deferred := if grpc then [StopGrpcServer] else [] in
  (if grpc then [GoGrpcServer] else []) ++
  match listen_err with
  | Some err => LogError err :: deferred
  | None =>
      match apiServer_Serve c with
      | Exits err => [ExitProcess err]
      | ServesTLS _ _ _ | Serves _ => if decide (served = ErrServerClosed) then ClosePool :: deferred else [ExitProcess served]
      end
  end.

(** The pool of connections is closed at most once, and only when the HTTP server was shut
    down in order; a server that could not listen, or was stopped by an error, leaves it open,
    and in the second case the gRPC server is not stopped either. *)
Theorem pool_closed_on_shutdown c listen_err served :
  let actions := apiServer_Start c listen_err served in
  (ClosePool ∈ actions <->
     listen_err = None /\ served = ErrServerClosed /\ forall err, apiServer_Serve c <> Exits err) /\
  (length (base.filter (fun a => a = ClosePool) actions) <= 1)%nat /\
  ((exists err, ExitProcess err ∈ actions) -> StopGrpcServer ∉ actions).
Proof.
  unfold apiServer_Start. cbn zeta. destruct (Grpc.EnableGRPCServer _), listen_err as [e|], (apiServer_Serve c); try case_decide; cbn.
  all: split_and!; [split; [set_solver|naive_solver set_solver]|rewrite ?filter_cons; repeat case_decide; cbn; done || lia|set_solver].
Qed.
