(* ===== verification/Shutdown.v ===== *)
(** * cmd/maestro/servecmd and server: the threads of a running process and its shutdown

    runServer after the set-up: the goroutine that waits for a signal, Start of the API
    server with the gRPC server it starts and stops, of the metrics server and of the health
    check server, and main, which leaves when the context is done. Of http.Server the model
    has what its documentation says: Shutdown closes the listeners and returns when no
    request is left, and Serve returns ErrServerClosed as soon as Shutdown is called; of
    grpc.Server: GracefulStop accepts no more calls and returns when the pending ones have
    ended, and Serve returns once it was called. A step is a label; [step] says whether a
    thread can take it and what comes of it. *)

From S2P Require Import Prelude.

Open Scope Z_scope.

(** ** State *)

(** The signal goroutine: waiting, inside apiserver.Stop, inside metricsServer.Stop, before the
    shutdown of tracing, after the deferred cancel. *)
Inductive signal_pc := Waiting | StoppingApi | StoppingMetrics | StoppingTracing | Cancelled.
(** apiServer.Start: before Listen, after it failed, inside Serve, after it, after
    SessionFactory.Close, inside the deferred grpcServer.Stop, and gone. *)
Inductive api_pc := ApiListening | ApiNoListener | ApiServing | ApiServed | ApiClosed | ApiStoppingGrpc | ApiGone.
(** grpcServer.Start: never called, before Listen, inside Serve, gone. *)
Inductive grpc_pc := GrpcOff | GrpcListening | GrpcServing | GrpcGone.
(** metricsServer.Start: inside ListenAndServe, or done. *)
Inductive metrics_pc := MetricsServing | MetricsDone.
(** HealthCheckServer.Start: inside ListenAndServe, at <-ctx.Done(), after Shutdown. *)
Inductive health_pc := HealthServing | HealthWaiting | HealthDone.

(** An http.Server: whether Shutdown was called on it, and its requests in flight. *)
Record http := mkHttp { shut : bool; inflight : nat }.
Definition arrives (h : http) : option http := if h.(shut) then None else Some (mkHttp false (S h.(inflight))).
Definition ends (h : http) : option http := match h.(inflight) with O => None | S n => Some (mkHttp h.(shut) n) end.
Definition Shutdown (h : http) : http := mkHttp true h.(inflight).

Record Process := mkProcess {
  signal : signal_pc;
  api : api_pc;
  grpc : grpc_pc;
  metrics : metrics_pc;
  health : health_pc;
  api_http : http;
  metrics_http : http;
  health_http : http;
  (** GracefulStop was called, and the calls in flight *)
  grpc_stopped : bool;
  calls : nat;
  (** calls of SessionFactory.Close *)
  closes : nat;
  ctx_done : bool;
  (** main has returned, or check has exited with an error *)
  exited : bool;
  failed : bool;
}.

(** go apiserver.Start, go metricsServer.Start, go healthcheckServer.Start; whether Start
    starts the gRPC server is configured. *)
Definition started (EnableGRPCServer : bool) : Process :=
  mkProcess Waiting ApiListening (if EnableGRPCServer then GrpcListening else GrpcOff) MetricsServing HealthServing
    (mkHttp false 0) (mkHttp false 0) (mkHttp false 0) false 0 0 false false false.

(** ** Steps *)

Inductive label :=
| Signal                       (** SIGTERM or SIGINT: apiserver.Stop is called *)
| ApiStopReturns | MetricsStopReturns | TracingStops
| MainReturns
| ListenFails | Listens        (** apiServer.Start *)
| RequestArrives | RequestEnds
| ServeReturns | ClosesPool | StopsGrpc | GrpcStopReturns
| GrpcListenFails | GrpcListens | CallArrives | CallEnds
| GrpcServeReturns             (** after GracefulStop, or with an error nobody reads *)
| ServeFails                   (** any of the HTTP servers ends with another error: check exits *)
| MetricsRequestArrives | MetricsRequestEnds | MetricsServeReturns
| HealthRequestArrives | HealthRequestEnds | HealthServeReturns | HealthContextDone.

Definition with_signal (pc : signal_pc) (p : Process) : Process :=
  mkProcess pc p.(api) p.(grpc) p.(metrics) p.(health) p.(api_http) p.(metrics_http) p.(health_http) p.(grpc_stopped) p.(calls) p.(closes) p.(ctx_done) p.(exited) p.(failed).
Definition with_api (pc : api_pc) (p : Process) : Process :=
  mkProcess p.(signal) pc p.(grpc) p.(metrics) p.(health) p.(api_http) p.(metrics_http) p.(health_http) p.(grpc_stopped) p.(calls) p.(closes) p.(ctx_done) p.(exited) p.(failed).
Definition with_grpc (pc : grpc_pc) (p : Process) : Process :=
  mkProcess p.(signal) p.(api) pc p.(metrics) p.(health) p.(api_http) p.(metrics_http) p.(health_http) p.(grpc_stopped) p.(calls) p.(closes) p.(ctx_done) p.(exited) p.(failed).
Definition with_metrics (pc : metrics_pc) (p : Process) : Process :=
  mkProcess p.(signal) p.(api) p.(grpc) pc p.(health) p.(api_http) p.(metrics_http) p.(health_http) p.(grpc_stopped) p.(calls) p.(closes) p.(ctx_done) p.(exited) p.(failed).
Definition with_health (pc : health_pc) (p : Process) : Process :=
  mkProcess p.(signal) p.(api) p.(grpc) p.(metrics) pc p.(api_http) p.(metrics_http) p.(health_http) p.(grpc_stopped) p.(calls) p.(closes) p.(ctx_done) p.(exited) p.(failed).
Definition with_api_http (h : http) (p : Process) : Process :=
  mkProcess p.(signal) p.(api) p.(grpc) p.(metrics) p.(health) h p.(metrics_http) p.(health_http) p.(grpc_stopped) p.(calls) p.(closes) p.(ctx_done) p.(exited) p.(failed).
Definition with_metrics_http (h : http) (p : Process) : Process :=
  mkProcess p.(signal) p.(api) p.(grpc) p.(metrics) p.(health) p.(api_http) h p.(health_http) p.(grpc_stopped) p.(calls) p.(closes) p.(ctx_done) p.(exited) p.(failed).
Definition with_health_http (h : http) (p : Process) : Process :=
  mkProcess p.(signal) p.(api) p.(grpc) p.(metrics) p.(health) p.(api_http) p.(metrics_http) h p.(grpc_stopped) p.(calls) p.(closes) p.(ctx_done) p.(exited) p.(failed).
Definition stop_grpc (p : Process) : Process :=
  mkProcess p.(signal) p.(api) p.(grpc) p.(metrics) p.(health) p.(api_http) p.(metrics_http) p.(health_http) true p.(calls) p.(closes) p.(ctx_done) p.(exited) p.(failed).
Definition with_calls (n : nat) (p : Process) : Process :=
  mkProcess p.(signal) p.(api) p.(grpc) p.(metrics) p.(health) p.(api_http) p.(metrics_http) p.(health_http) p.(grpc_stopped) n p.(closes) p.(ctx_done) p.(exited) p.(failed).
Definition close_pool (p : Process) : Process :=
  mkProcess p.(signal) p.(api) p.(grpc) p.(metrics) p.(health) p.(api_http) p.(metrics_http) p.(health_http) p.(grpc_stopped) p.(calls) (S p.(closes)) p.(ctx_done) p.(exited) p.(failed).
Definition cancel (p : Process) : Process :=
  mkProcess p.(signal) p.(api) p.(grpc) p.(metrics) p.(health) p.(api_http) p.(metrics_http) p.(health_http) p.(grpc_stopped) p.(calls) p.(closes) true p.(exited) p.(failed).
Definition leave (err : bool) (p : Process) : Process :=
  mkProcess p.(signal) p.(api) p.(grpc) p.(metrics) p.(health) p.(api_http) p.(metrics_http) p.(health_http) p.(grpc_stopped) p.(calls) p.(closes) p.(ctx_done) true err.

(** The signal goroutine of runServer; the deferred cancel follows the shutdown of tracing. *)
Definition signal_step (l : label) (p : Process) : option Process :=
  match l, p.(signal) with
  | Signal, Waiting => Some (with_api_http (Shutdown p.(api_http)) (with_signal StoppingApi p))
  | ApiStopReturns, StoppingApi =>
      if decide (p.(api_http).(inflight) = O) then Some (with_metrics_http (Shutdown p.(metrics_http)) (with_signal StoppingMetrics p)) else None
  | MetricsStopReturns, StoppingMetrics =>
      if decide (p.(metrics_http).(inflight) = O) then Some (with_signal StoppingTracing p) else None
  | TracingStops, StoppingTracing => Some (cancel (with_signal Cancelled p))
  | _, _ => None
  end.

(** The deferred grpcServer.Stop, which there is only when the gRPC server is enabled. *)
Definition deferred (p : Process) : Process :=
  match p.(grpc) with GrpcOff => with_api ApiGone p | _ => stop_grpc (with_api ApiStoppingGrpc p) end.

(** Start of the API server, and the requests it serves. *)
Definition api_step (l : label) (p : Process) : option Process :=
  match l, p.(api) with
  | ListenFails, ApiListening => Some (with_api ApiNoListener p)
  | Listens, ApiListening => Some (with_api ApiServing p)
  | RequestArrives, ApiServing => h ← arrives p.(api_http); Some (with_api_http h p)
  | RequestEnds, _ => h ← ends p.(api_http); Some (with_api_http h p)
  | ServeReturns, ApiServing => if p.(api_http).(shut) then Some (with_api ApiServed p) else None
  | ClosesPool, ApiServed => Some (close_pool (with_api ApiClosed p))
  | StopsGrpc, (ApiNoListener | ApiClosed) => Some (deferred p)
  | GrpcStopReturns, ApiStoppingGrpc => if decide (p.(calls) = O) then Some (with_api ApiGone p) else None
  | _, _ => None
  end.

(** Start of the gRPC server, and the calls it serves. *)
Definition grpc_step (l : label) (p : Process) : option Process :=
  match l, p.(grpc) with
  | GrpcListenFails, GrpcListening => Some (with_grpc GrpcGone p)
  | GrpcListens, GrpcListening => Some (with_grpc GrpcServing p)
  | CallArrives, GrpcServing => if p.(grpc_stopped) then None else Some (with_calls (S p.(calls)) p)
  | CallEnds, _ => match p.(calls) with O => None | S n => Some (with_calls n p) end
  | GrpcServeReturns, GrpcServing => Some (with_grpc GrpcGone p)
  | _, _ => None
  end.

(** Start of the metrics server and of the health check server. *)
Definition metrics_step (l : label) (p : Process) : option Process :=
  match l, p.(metrics) with
  | MetricsRequestArrives, MetricsServing => h ← arrives p.(metrics_http); Some (with_metrics_http h p)
  | MetricsRequestEnds, _ => h ← ends p.(metrics_http); Some (with_metrics_http h p)
  | MetricsServeReturns, MetricsServing => if p.(metrics_http).(shut) then Some (with_metrics MetricsDone p) else None
  | _, _ => None
  end.
Definition health_step (l : label) (p : Process) : option Process :=
  match l, p.(health) with
  | HealthRequestArrives, HealthServing => h ← arrives p.(health_http); Some (with_health_http h p)
  | HealthRequestEnds, _ => h ← ends p.(health_http); Some (with_health_http h p)
  | HealthServeReturns, HealthServing => if p.(health_http).(shut) then Some (with_health HealthWaiting p) else None
  | HealthContextDone, HealthWaiting =>
      if p.(ctx_done) then Some (with_health_http (Shutdown p.(health_http)) (with_health HealthDone p)) else None
  | _, _ => None
  end.

(** main and check. *)
Definition main_step (l : label) (p : Process) : option Process :=
  match l with
  | MainReturns => if p.(ctx_done) then Some (leave false p) else None
  | ServeFails => Some (leave true p)
  | _ => None
  end.

(** Nothing runs in a process that is gone. *)
Definition step (l : label) (p : Process) : option Process :=
  if p.(exited) then None
  else
    match l with
    | Signal | ApiStopReturns | MetricsStopReturns | TracingStops => signal_step l p
    | ListenFails | Listens | RequestArrives | RequestEnds | ServeReturns | ClosesPool | StopsGrpc | GrpcStopReturns => api_step l p
    | GrpcListenFails | GrpcListens | CallArrives | CallEnds | GrpcServeReturns => grpc_step l p
    | MetricsRequestArrives | MetricsRequestEnds | MetricsServeReturns => metrics_step l p
    | HealthRequestArrives | HealthRequestEnds | HealthServeReturns | HealthContextDone => health_step l p
    | MainReturns | ServeFails => main_step l p
    end.

Fixpoint run (ls : list label) (p : Process) : option Process :=
  match ls with [] => Some p | l :: ls => p' ← step l p; run ls p' end.

(** ** Invariant *)

Definition api_stopped (pc : signal_pc) : bool := match pc with Waiting | StoppingApi => false | _ => true end.
Definition metrics_stopped (pc : signal_pc) : bool := match pc with StoppingTracing | Cancelled => true | _ => false end.

Record inv (p : Process) : Prop := {
  inv_shutdown : p.(api_http).(shut) = true <-> p.(signal) <> Waiting;
  inv_drained : api_stopped p.(signal) = true -> p.(api_http).(inflight) = O /\ p.(metrics_http).(shut) = true;
  inv_metrics : metrics_stopped p.(signal) = true -> p.(metrics_http).(inflight) = O;
  inv_context : p.(ctx_done) = true <-> p.(signal) = Cancelled;
  inv_exited : p.(exited) = true -> p.(failed) = false -> p.(ctx_done) = true;
  inv_closes : (p.(closes) <= 1)%nat /\ (p.(closes) = 1%nat -> p.(api_http).(shut) = true);
  inv_open : p.(closes) = 1%nat -> p.(api) = ApiClosed \/ p.(api) = ApiStoppingGrpc \/ p.(api) = ApiGone;
  inv_served : p.(api) = ApiServed -> p.(api_http).(shut) = true;
  inv_grpc : p.(grpc_stopped) = true -> p.(api) = ApiStoppingGrpc \/ p.(api) = ApiGone /\ p.(calls) = O;
  inv_health : p.(health) = HealthServing /\ p.(health_http).(shut) = false;
}.

Lemma inv_started g : inv (started g).
Proof. split; cbn; naive_solver lia. Qed.

Ltac step_cases l Hs :=
  destruct l; cbn in Hs; try done; unfold arrives, ends, deferred in Hs;
  repeat (case_match || case_decide || simplify_option_eq); simplify_eq; try done.
Ltac solve_field p :=
  try assumption; try done;
  (assert (closes p = 1%nat \/ closes p <> 1%nat) by lia); intuition (congruence || lia).
Ltac solve_inv p := split; cbn in *; solve_field p.
(** By the point the signal goroutine has reached. *)
Ltac solve_inv_by_signal p :=
  let E := fresh in destruct (signal p) eqn:E; split; cbn in *; rewrite ?E in *; cbn in *; solve_field p.

Lemma signal_step_inv l p p' : signal_step l p = Some p' -> p.(exited) = false -> inv p -> inv p'.
Proof. intros Hs He [H1 H2 H3 H4 H5 [H6 H6'] H7 H8 H9 [H10 H11]]. step_cases l Hs; solve_inv_by_signal p. Qed.

Lemma api_step_inv l p p' : api_step l p = Some p' -> p.(exited) = false -> inv p -> inv p'.
Proof.
  intros Hs He [H1 H2 H3 H4 H5 [H6 H6'] H7 H8 H9 [H10 H11]]. step_cases l Hs; first [solve_inv p | solve_inv_by_signal p].
Qed.

Lemma grpc_step_inv l p p' : grpc_step l p = Some p' -> p.(exited) = false -> inv p -> inv p'.
Proof. intros Hs He [H1 H2 H3 H4 H5 [H6 H6'] H7 H8 H9 [H10 H11]]. step_cases l Hs; solve_inv p. Qed.

Lemma metrics_step_inv l p p' : metrics_step l p = Some p' -> p.(exited) = false -> inv p -> inv p'.
Proof.
  intros Hs He [H1 H2 H3 H4 H5 [H6 H6'] H7 H8 H9 [H10 H11]]. step_cases l Hs; first [solve_inv p | solve_inv_by_signal p].
Qed.

Lemma health_step_inv l p p' : health_step l p = Some p' -> p.(exited) = false -> inv p -> inv p'.
Proof. intros Hs He [H1 H2 H3 H4 H5 [H6 H6'] H7 H8 H9 [H10 H11]]. step_cases l Hs; solve_inv p. Qed.

Lemma main_step_inv l p p' : main_step l p = Some p' -> inv p -> inv p'.
Proof. intros Hs [H1 H2 H3 H4 H5 [H6 H6'] H7 H8 H9 [H10 H11]]. step_cases l Hs; split; cbn; naive_solver. Qed.

Lemma process_step_inv l p p' : step l p = Some p' -> inv p -> inv p'.
Proof.
  unfold step. destruct (exited p) eqn:He; [done|]. intros Hs Hi.
  destruct l; eauto using signal_step_inv, api_step_inv, grpc_step_inv, metrics_step_inv, health_step_inv, main_step_inv.
Qed.

Lemma run_inv ls p p' : run ls p = Some p' -> inv p -> inv p'.
Proof.
  revert p. induction ls as [|l ls IH]; cbn; intros p; [by intros [= <-]|].
  destruct (step l p) as [q|] eqn:Hs; [|done]. cbn. intros Hr Hi. eapply IH; [done|]. by eapply process_step_inv.
Qed.

(** ** Theorems *)

(** C23: A process that leaves in order has answered every request of the REST API and of the
    metrics server, whose servers it has shut down. In every run the connection pool is closed
    at most once, and only after a signal; the gRPC server is asked to stop only by the end of
    the API server's Start, which returns when no call is left; and the health check server
    is never shut down, whatever the context says. *)
Theorem shutdown_graceful g ls p :
  run ls (started g) = Some p ->
  (p.(exited) = true -> p.(failed) = false ->
     p.(signal) = Cancelled /\ p.(api_http) = mkHttp true 0 /\ p.(metrics_http) = mkHttp true 0) /\
  (p.(closes) <= 1)%nat /\ (p.(closes) = 1%nat -> p.(signal) <> Waiting) /\
  (p.(grpc_stopped) = true -> p.(api) = ApiStoppingGrpc \/ p.(api) = ApiGone /\ p.(calls) = O) /\
  p.(health) = HealthServing /\ p.(health_http).(shut) = false.
Proof.
  intros Hr. pose proof (run_inv _ _ _ Hr (inv_started g)) as [H1 H2 H3 H4 H5 [H6 H6'] _ _ H9 H10]. split_and!; try done; [| |apply H10..].
  - intros He Hf. apply H4 in H5; [|done..]. rewrite H5 in H1, H2, H3. destruct (H2 eq_refl) as [Ha Hm]. specialize (H3 eq_refl).
    destruct (api_http p) as [sa na], (metrics_http p) as [sm nm]. cbn in *. subst. split_and!; [done|f_equal; by apply H1|done].
  - intros Hc. by apply H1, H6'.
Qed.

(** A signal with requests in flight, which are answered before the process leaves. *)
Definition orderly : list label :=
  [Listens; GrpcListens; RequestArrives; MetricsRequestArrives; Signal; ServeReturns; RequestEnds; ClosesPool; StopsGrpc; GrpcStopReturns;
   ApiStopReturns; MetricsServeReturns; MetricsRequestEnds; MetricsStopReturns; TracingStops; MainReturns].
Definition after_orderly : Process :=
  mkProcess Cancelled ApiGone GrpcServing MetricsDone HealthServing (mkHttp true 0) (mkHttp true 0) (mkHttp false 0) true 0 1 true true false.
Lemma shutdown_graceful_witness :
  run orderly (started true) = Some after_orderly /\ after_orderly.(exited) = true /\ after_orderly.(api_http) = mkHttp true 0 /\
  (after_orderly.(closes) <= 1)%nat.
Proof.
  assert (Hr : run orderly (started true) = Some after_orderly) by (vm_compute; reflexivity).
  destruct (shutdown_graceful true orderly after_orderly Hr) as (Hleft & Hc & _).
  exact (conj Hr (conj eq_refl (conj (proj1 (proj2 (Hleft eq_refl eq_refl))) Hc))).
Defined.

(** Serve returns before Shutdown does, so the pool is closed under the requests that are
    still being served; and main does not wait for the close at all. *)
Definition closed_under : Process :=
  mkProcess StoppingApi ApiClosed GrpcOff MetricsServing HealthServing (mkHttp true 1) (mkHttp false 0) (mkHttp false 0) false 0 1 false false false.
Definition left_open : Process :=
  mkProcess Cancelled ApiServing GrpcOff MetricsServing HealthServing (mkHttp true 0) (mkHttp true 0) (mkHttp false 0) false 0 0 true true false.
Theorem pool_closed_under_requests :
  run [Listens; RequestArrives; Signal; ServeReturns; ClosesPool] (started false) = Some closed_under /\
  closed_under.(closes) = 1%nat /\ closed_under.(api_http).(inflight) = 1%nat /\
  run [Listens; Signal; ApiStopReturns; MetricsStopReturns; TracingStops; MainReturns] (started false) = Some left_open /\
  left_open.(exited) = true /\ left_open.(failed) = false /\ left_open.(closes) = O.
Proof. vm_compute. by repeat split. Qed.

(** Nor does main wait for the gRPC server: an orderly process can leave with a call in flight,
    even before its server was asked to stop, and the pool is closed under its calls before
    that. *)
Definition call_cut : Process :=
  mkProcess Cancelled ApiServing GrpcServing MetricsServing HealthServing (mkHttp true 0) (mkHttp true 0) (mkHttp false 0) false 1 0 true true false.
Definition call_without_pool : Process :=
  mkProcess StoppingApi ApiClosed GrpcServing MetricsServing HealthServing (mkHttp true 0) (mkHttp false 0) (mkHttp false 0) false 1 1 false false false.
Theorem grpc_call_cut :
  run [Listens; GrpcListens; CallArrives; Signal; ApiStopReturns; MetricsStopReturns; TracingStops; MainReturns] (started true) = Some call_cut /\
  call_cut.(exited) = true /\ call_cut.(failed) = false /\ call_cut.(calls) = 1%nat /\ call_cut.(grpc_stopped) = false /\
  run [Listens; GrpcListens; Signal; ServeReturns; ClosesPool; CallArrives] (started true) = Some call_without_pool /\
  call_without_pool.(closes) = 1%nat /\ call_without_pool.(calls) = 1%nat.
Proof. vm_compute. by repeat split. Qed.

(** The requests in flight can all end. *)
Lemma drain n p :
  p.(exited) = false -> p.(api_http).(inflight) = n ->
  run (replicate n RequestEnds) p = Some (with_api_http (mkHttp p.(api_http).(shut) 0) p).
Proof.
  revert p. induction n as [|n IH]; intros p He Hn; [by destruct p as [? ? ? ? ? [? ?]]; cbn in *; subst|].
  cbn [replicate run]. unfold step. rewrite He. cbn [api_step]. unfold ends. rewrite Hn. cbn [mbind option_bind].
  by rewrite IH.
Qed.
Lemma drain_metrics n p :
  p.(exited) = false -> p.(metrics_http).(inflight) = n ->
  run (replicate n MetricsRequestEnds) p = Some (with_metrics_http (mkHttp p.(metrics_http).(shut) 0) p).
Proof.
  revert p. induction n as [|n IH]; intros p He Hn; [by destruct p as [? ? ? ? ? ? [? ?]]; cbn in *; subst|].
  cbn [replicate run]. unfold step. rewrite He. cbn [metrics_step]. unfold ends. rewrite Hn. cbn [mbind option_bind].
  by rewrite IH.
Qed.

Lemma run_app ls1 ls2 p : run (ls1 ++ ls2) p = (p' ← run ls1 p; run ls2 p').
Proof. revert p. induction ls1 as [|l ls1 IH]; intros p; [done|]. cbn. destruct (step l p); cbn; [apply IH|done]. Qed.

(** What the goroutine still has to do, once nothing is in flight. *)
Definition rest_of (pc : signal_pc) : list label :=
  match pc with
  | Waiting => [Signal; ApiStopReturns; MetricsStopReturns; TracingStops; MainReturns]
  | StoppingApi => [ApiStopReturns; MetricsStopReturns; TracingStops; MainReturns]
  | StoppingMetrics => [MetricsStopReturns; TracingStops; MainReturns]
  | StoppingTracing => [TracingStops; MainReturns]
  | Cancelled => [MainReturns]
  end.
Lemma rest_runs p :
  p.(exited) = false -> p.(api_http).(inflight) = O -> p.(metrics_http).(inflight) = O -> (p.(signal) = Cancelled -> p.(ctx_done) = true) ->
  exists p', run (rest_of p.(signal)) p = Some p' /\ p'.(exited) = true /\ p'.(failed) = false.
Proof.
  destruct p as [[] a g m h [s n] [ms mn] hh gs k c d e f]; cbn [exited api_http metrics_http inflight signal ctx_done]; intros -> -> -> Hd;
    try specialize (Hd eq_refl); subst; (eexists; split; [vm_compute; reflexivity|by split]).
Qed.

(** C24: No reachable state is stuck: once the requests in flight are answered, the goroutine can go
    on to the end, and the process leaves without an error. *)
Theorem shutdown_completes g ls p :
  run ls (started g) = Some p -> p.(exited) = false ->
  exists ls' p', run ls' p = Some p' /\ p'.(exited) = true /\ p'.(failed) = false.
Proof.
  intros Hr He. pose proof (run_inv _ _ _ Hr (inv_started g)) as [_ _ _ H4 _ _ _ _ _ _].
  pose proof (drain _ p He eq_refl) as Hd1. set (p1 := with_api_http _ p) in Hd1.
  pose proof (drain_metrics _ p1 He eq_refl) as Hd2. set (p2 := with_metrics_http _ p1) in Hd2.
  destruct (rest_runs p2) as (p' & Hrun & Hex); [done|done|done|intros Hc; by apply H4|].
  eexists (replicate _ RequestEnds ++ replicate _ MetricsRequestEnds ++ rest_of p2.(signal)), p'.
  split; [|exact Hex]. rewrite run_app, Hd1. cbn [mbind option_bind]. rewrite run_app, Hd2. cbn [mbind option_bind]. by rewrite Hrun.
Qed.

Definition signalled : Process :=
  mkProcess StoppingApi ApiServing GrpcListening MetricsServing HealthServing (mkHttp true 1) (mkHttp false 0) (mkHttp false 0) false 0 0 false false false.
Lemma shutdown_completes_witness : exists ls' p', run ls' signalled = Some p' /\ p'.(exited) = true /\ p'.(failed) = false.
Proof. apply (shutdown_completes true [Listens; RequestArrives; Signal] signalled); vm_compute; reflexivity. Defined.
