(* ===== verification/CliOutput.v ===== *)
(** * cmd/maestro/common/output: what the commands print

    format.go and table.go. The tables go through text/tabwriter with padding 3, whose
    column blocks are modelled; a cell is as wide as its number of runes. *)

From S2P Require Import Prelude GoLib Errors Types Json Bundle Presenters JsonStruct Models CliConfig.
Import api Strings Fmt.

Open Scope Z_scope.

Definition tab : string := String "009" "".
Definition nl : string := String "010" "".

(** time.Time.Format(`2006-01-02 15:04:05`) *)
Class ClockFormat := FormatClock : Time -> string.
(** The order in which a range over a map of labels meets its entries. *)
Class MapOrder := in_order : list (string * string) -> list (string * string).

(** What a command leaves: what it printed, and its error. *)
Record exit := mkExit {
  stdout : string;
  exit_error : option string;
}.
Definition nil_dereference : string := "runtime error: invalid memory address or nil pointer dereference".

(** ** format.go *)

Inductive Format := FormatJSON | FormatTable.

Definition GetFormat (cmd : Command) : result Format string :=
  match GetString cmd "output" with
  | Err err => Err err
  | Ok formatStr =>
      if decide (formatStr = "json") then Ok FormatJSON
      else if decide (formatStr = "table") then Ok FormatTable
      else Err (Sprintf "invalid output format: %s (must be json or table)" [GStr formatStr])
  end.

(** Indent, two spaces for each level. *)
Fixpoint indented (prefix : string) (j : json) : string :=
  let inner := prefix +:+ "  " in
  match j with
  | JArr (_ :: _ as l) =>
      "[" +:+ nl +:+ Join (List.map (fun x => inner +:+ indented inner x) l) ("," +:+ nl) +:+ nl +:+ prefix +:+ "]"
  | JObj (_ :: _ as l) =>
      "{" +:+ nl +:+ Join (List.map (fun kv => inner +:+ Json.print_string kv.1 +:+ ": " +:+ indented inner kv.2) l) ("," +:+ nl)
        +:+ nl +:+ prefix +:+ "}"
  | _ => Json.Marshal j
  end.

Definition PrintJSON (data : result json string) : exit :=
  match data with
  | Ok j => mkExit (indented "" j +:+ nl) None
  | Err err => mkExit "" (Some err)
  end.

(** ** text/tabwriter *)

(** utf8.RuneCount of a valid text: the bytes that do not continue a rune *)
Fixpoint RuneCount (s : string) : nat :=
  match s with
  | "" => 0%nat
  | String c s => let n := nat_of_ascii c in
      if ((128 <=? n) && (n <? 192))%nat then RuneCount s else S (RuneCount s)
  end.

Fixpoint spaces (n : nat) : string := match n with O => "" | S n => String " " (spaces n) end.

Definition padding : nat := 3.

(** A column of a line is a cell that a tab ends: every cell but the last. *)
Definition has_column (column : nat) (line : list string) : bool := (column <? length line - 1)%nat.

(** The lines up to the first without the column. *)
Fixpoint block (column : nat) (lines : list (list string)) : list (list string) * list (list string) :=
  match lines with
  | [] => ([], [])
  | line :: rest => if has_column column line then let '(b, r) := block column rest in (line :: b, r) else ([], lines)
  end.

Definition column_width (column : nat) (lines : list (list string)) : nat :=
  foldr (fun line w => Nat.max (RuneCount (nth column line "") + padding) w) 0%nat lines.

(** A cell is padded to the width of its column; the last cell has none. *)
Fixpoint write_cells (widths : list nat) (cells : list string) : string :=
  match cells with
  | [] => ""
  | c :: cells =>
      match widths with
      | [] => c +:+ write_cells [] cells
      | w :: widths => c +:+ spaces (w - RuneCount c) +:+ write_cells widths cells
      end
  end.

(** Writer.format: a line that starts a block of the next column is printed with its block. *)
Fixpoint format (fuel : nat) (widths : list nat) (lines : list (list string)) : list string :=
  match fuel with
  | O => []
  | S fuel =>
      match lines with
      | [] => []
      | line :: rest =>
          let column := length widths in
          if has_column column line then
            let '(b, r) := block column lines in
            format fuel (widths ++ [column_width column b]) b ++ format fuel widths r
          else write_cells widths line :: format fuel widths rest
      end
  end.

(** Enough fuel: a call goes to fewer lines or to the next column. *)
Definition most_cells (lines : list (list string)) : nat := foldr (fun line n => Nat.max (length line) n) 0%nat lines.
Definition format_fuel (lines : list (list string)) : nat := S (length lines + most_cells lines).

(** What Flush writes of the text: the lines are cut at the tabs. *)
Definition Flush (text : string) : string :=
  let lines := (fun l => Split l "009"%char) <$> Split text "010"%char in
  Join (format (format_fuel lines) [] lines) nl.

(** ** table.go *)

Section Tables.
Context `{clock : ClockFormat} `{order : MapOrder}.

Definition getStringPtr (ptr : option string) : string := default "" ptr.
Definition getInt32Ptr (ptr : option Z) : Z := default 0 ptr.
Definition formatTime (t : option Time) : string := match t with None => "" | Some t => FormatClock t end.

Definition formatLabels (labels : option (list (string * string))) : string :=
  match labels with
  | None => ""
  | Some labels => Join ((fun kv => Sprintf "%s=%s" [GStr kv.1; GStr kv.2]) <$> in_order labels) ","
  end.

Definition json_string (j : option json) : string := match j with Some (JStr s) => s | _ => "" end.

Fixpoint applied_condition (conditions : list json) : string :=
  match conditions with
  | [] => "Unknown"
  | JObj cond :: conditions =>
      if decide (json_string (oget "type" cond) = "Applied") then
        if decide (json_string (oget "status" cond) = "True") then "Applied" else "Pending"
      else applied_condition conditions
  | _ :: conditions => applied_condition conditions
  end.

Definition getStatusFromMap (status : JSONMap) : string :=
  match jget "conditions" status with
  | Some (JArr conditions) => applied_condition conditions
  | _ => "Unknown"
  end.

Definition row (cells : list string) : string := Join cells tab +:+ nl.
Definition printed (rows : list string) : exit := mkExit (Flush (Join rows "")) None.

Definition PrintResourceBundleList (bundles : list ResourceBundle) : exit :=
  printed (row ["ID"; "NAME"; "CONSUMER"; "VERSION"; "CREATED"; "STATUS"] ::
    ((fun bundle => row [getStringPtr bundle.(rb_Id); getStringPtr bundle.(rb_Name); getStringPtr bundle.(rb_ConsumerName);
                         pretty (getInt32Ptr bundle.(rb_Version)); formatTime bundle.(rb_CreatedAt);
                         getStatusFromMap bundle.(rb_Status)]) <$> bundles)).

Definition PrintResourceBundle (bundle : option ResourceBundle) : exit :=
  match bundle with
  | None => mkExit "" (Some "resource bundle is required")
  | Some bundle =>
      printed [row ["FIELD"; "VALUE"]; row ["ID"; getStringPtr bundle.(rb_Id)]; row ["Name"; getStringPtr bundle.(rb_Name)];
               row ["Consumer"; getStringPtr bundle.(rb_ConsumerName)]; row ["Version"; pretty (getInt32Ptr bundle.(rb_Version))];
               row ["Created"; formatTime bundle.(rb_CreatedAt)]; row ["Updated"; formatTime bundle.(rb_UpdatedAt)];
               row ["Status"; getStatusFromMap bundle.(rb_Status)]]
  end.

Definition PrintConsumerList (consumers : list OpenConsumer) : exit :=
  printed (row ["ID"; "NAME"; "LABELS"; "CREATED"] ::
    ((fun consumer => row [getStringPtr consumer.(oc_Id); getStringPtr consumer.(oc_Name); formatLabels consumer.(oc_Labels);
                           formatTime consumer.(oc_CreatedAt)]) <$> consumers)).

Definition PrintConsumer (consumer : option OpenConsumer) : exit :=
  match consumer with
  | None => mkExit "" (Some "consumer is required")
  | Some consumer =>
      printed [row ["FIELD"; "VALUE"]; row ["ID"; getStringPtr consumer.(oc_Id)]; row ["Name"; getStringPtr consumer.(oc_Name)];
               row ["Labels"; formatLabels consumer.(oc_Labels)]; row ["Created"; formatTime consumer.(oc_CreatedAt)];
               row ["Updated"; formatTime consumer.(oc_UpdatedAt)]]
  end.

Definition optional_row (field value : string) : string := if decide (value = "") then "" else row [field; value].

(** The rows of one condition; what is no object is skipped. *)
Definition condition_rows (j : json) : string :=
  match j with
  | JObj cond =>
      row ["  Type"; json_string (oget "type" cond)] +:+ row ["  Status"; json_string (oget "status" cond)]
        +:+ optional_row "  Reason" (json_string (oget "reason" cond))
        +:+ optional_row "  Message" (json_string (oget "message" cond))
        +:+ optional_row "  LastTransitionTime" (json_string (oget "lastTransitionTime" cond)) +:+ nl
  | _ => ""
  end.

Definition PrintResourceBundleStatus (bundleID : string) (status : JSONMap) : exit :=
  printed ([row ["FIELD"; "VALUE"]; row ["ID"; bundleID]; row ["Status"; getStatusFromMap status]] ++
    match jget "conditions" status with
    | Some (JArr (_ :: _ as conditions)) => [nl; "Conditions:" +:+ nl] ++ (condition_rows <$> conditions)
    | _ => []
    end).
End Tables.

(** ** The table is complete *)

Lemma block_split column lines b r : block column lines = (b, r) -> lines = b ++ r.
Proof.
  revert b r. induction lines as [|line lines IH]; intros b r; cbn [block]; [by intros [= <- <-]|].
  destruct (has_column column line); [|intros ?; by simplify_eq].
  destruct (block column lines) as [b' r']. intros ?. simplify_eq. cbn. f_equal. by apply IH.
Qed.

Lemma most_cells_app l l' : most_cells (l ++ l') = Nat.max (most_cells l) (most_cells l').
Proof. unfold most_cells. induction l as [|x l IH]; cbn; [done|]. rewrite IH. lia. Qed.

(** The fuel is enough: every line of the text is printed. *)
Lemma format_length fuel widths lines :
  (length lines + (most_cells lines - length widths) < fuel)%nat -> length (format fuel widths lines) = length lines.
Proof.
  revert widths lines. induction fuel as [|fuel IH]; intros widths lines Hf; [lia|].
  destruct lines as [|line rest]; [done|]. cbn [format].
  destruct (has_column (length widths) line) eqn:Hc.
  - destruct (block (length widths) (line :: rest)) as [b r] eqn:Eb.
    pose proof (block_split _ _ _ _ Eb) as Hs. cbn [block] in Eb. rewrite Hc in Eb.
    destruct (block (length widths) rest) as [b' r'].
    assert (1 <= length b)%nat by (simplify_eq; cbn; lia).
    rewrite Hs in *. rewrite most_cells_app, length_app in Hf. unfold has_column in Hc. apply Nat.ltb_lt in Hc.
    assert (length line <= Nat.max (most_cells b) (most_cells r))%nat.
    { rewrite <-most_cells_app, <-Hs. cbn. lia. }
    rewrite !length_app, !IH by (rewrite ?length_app; cbn [length]; lia). done.
  - cbn [length]. rewrite IH; [done|]. cbn [length most_cells foldr] in Hf. unfold most_cells in *. lia.
Qed.

Lemma Flush_lines text :
  let lines := (fun l => Split l "009"%char) <$> Split text "010"%char in
  Flush text = Join (format (format_fuel lines) [] lines) nl /\
  length (format (format_fuel lines) [] lines) = length (Split text "010"%char).
Proof. cbv zeta. split; [done|]. rewrite format_length; [by rewrite length_fmap|]. unfold format_fuel. cbn. lia. Qed.
