(* ===== verification/OpenapiClient.v ===== *)
(** * pkg/api/openapi: the generated API client

    api_default.go (one Execute per endpoint) and the parts of client.go it uses. An
    endpoint turns its request struct into an HTTP request, sends it, and turns the
    response into its results. The transport, the server URL and the decoding of a JSON
    body into a generated struct are parameters; the path is that of the URL below
    /api/maestro/v1, decoded and cut at the slashes, as the server's router sees it. *)

From S2P Require Import Prelude GoLib Errors Types Json Bundle Validation Gorm World Dao DaoFacts Locks Transactions Services ListQuery GenericList Presenters SliceFilter Rest Pager JsonStruct Models ModelFacts.
Import api errors Fmt Strings.

Open Scope Z_scope.

Record http_request := mkHttpRequest {
  rq_method : Method;
  rq_path : list string;
  (** url.Values, in the order of the calls to Add *)
  rq_query : list (string * string);
  rq_headers : list (string * string);
  rq_body : option string;
}.

Record http_response := mkHttpResponse {
  StatusCode : Z;
  contents : Payload_;
}.

Record GenericOpenAPIError := mkGenericOpenAPIError {
  err_body : Payload_;
  err_error : string;
  err_model : option OpenError;
}.

(** What an Execute returns: the value, the response and the error; an error of the
    transport is its text. *)
Record outcome (A : Type) := mkOutcome {
  o_value : option A;
  o_response : option http_response;
  o_error : option (string + GenericOpenAPIError);
}.
Arguments mkOutcome {A}.
Arguments o_value {A}.
Arguments o_response {A}.
Arguments o_error {A}.

Class ClientCodec := {
  EncodeConsumer : OpenConsumer -> result string string;
  EncodePatch : ConsumerPatchRequest -> result string string;
  (** decode leaves nil for an empty body *)
  DecodeConsumer : Payload_ -> result (option OpenConsumer) string;
  DecodeConsumerList : Payload_ -> result (option (ModelList OpenConsumer)) string;
  DecodeBundle : Payload_ -> result (option ResourceBundle) string;
  DecodeBundleList : Payload_ -> result (option (ModelList ResourceBundle)) string;
  DecodeError : Payload_ -> result OpenError string;
  (** http.Response.Status of a code *)
  StatusText : Z -> string;
}.

(** ** client.go *)

(** The kinds of value a parameter may have, floating-point numbers left out: no operation
    of the client passes one. A map is in the order it is walked in; a struct that is a
    MappedNullable has the map of ToMap, [None] when that fails; a time is its text in RFC
    3339; anything else is written by its type. *)
Inductive param :=
| PNil
| PInt (z : Z) | PUint (z : Z) | PBool (b : bool) | PStr (s : string)
| PPtr (obj : param)
| PSlice (l : list param)
| PMap (l : list (string * param))
| PMapped (m : option (list (string * param)))
| PTime (rfc3339 : string)
| POther (type_ : string).

(** Get, Set and Add of url.Values, kept as the list of its pairs *)
Fixpoint values_get (params : list (string * string)) (key : string) : string :=
  match params with
  | [] => ""
  | (k, v) :: params => if String.eqb k key then v else values_get params key
  end.
Definition values_add (params : list (string * string)) (key value : string) : list (string * string) :=
  params ++ [(key, value)].
Definition values_set (params : list (string * string)) (key value : string) : list (string * string) :=
  values_add (base.filter (fun kv => kv.1 <> key) params) key value.

Definition add_value (params : list (string * string)) (keyPrefix value collectionType : string) : list (string * string) :=
  if decide (collectionType = "csv" /\ values_get params keyPrefix <> "")
  then values_set params keyPrefix (values_get params keyPrefix +:+ "," +:+ value)
  else values_add params keyPrefix value.

Lemma add_value_form params key value : add_value params key value "" = params ++ [(key, value)].
Proof. unfold add_value. rewrite decide_False; [done|]. by intros [? _]. Qed.

Fixpoint parameterAddToHeaderOrQuery (params : list (string * string)) (keyPrefix : string) (obj : param)
  (style collectionType : string) {struct obj} : list (string * string) :=
  match obj with
  | PNil => add_value params keyPrefix "null" collectionType
  | PSlice l =>
      (fix go (i : Z) (l : list param) (params : list (string * string)) : list (string * string) :=
         match l with
         | [] => params
         | arrayValue :: l =>
             let keyPrefixForCollectionType :=
               if decide (style = "deepObject") then keyPrefix +:+ "[" +:+ pretty i +:+ "]" else keyPrefix in
             go (i + 1) l (parameterAddToHeaderOrQuery params keyPrefixForCollectionType arrayValue style collectionType)
         end) 0 l params
  | PMap l | PMapped (Some l) =>
      (fix go (l : list (string * param)) (params : list (string * string)) : list (string * string) :=
         match l with
         | [] => params
         | (k, v) :: l =>
             go l (parameterAddToHeaderOrQuery params (Sprintf "%s[%s]" [GStr keyPrefix; GStr k]) v style collectionType)
         end) l params
  | PMapped None => params
  | PTime s => add_value params keyPrefix s collectionType
  | POther t => add_value params keyPrefix (t +:+ " value") collectionType
  | PPtr obj => parameterAddToHeaderOrQuery params keyPrefix obj style collectionType
  | PInt z | PUint z => add_value params keyPrefix (pretty z) collectionType
  | PBool b => add_value params keyPrefix (if b then "true" else "false") collectionType
  | PStr s => add_value params keyPrefix s collectionType
  end.

Definition add_opt (params : list (string * string)) (key : string) (obj : option string) : list (string * string) :=
  match obj with Some s => parameterAddToHeaderOrQuery params key (PPtr (PStr s)) "form" "" | None => params end.

Definition int_param (defaultValue : Z) (obj : option Z) : param :=
  match obj with Some z => PPtr (PInt z) | None => PInt defaultValue end.

Definition contains (haystack : list string) (needle : string) : bool := existsb (fun a => EqualFold a needle) haystack.

Definition selectHeaderContentType (contentTypes : list string) : string :=
  match contentTypes with
  | [] => ""
  | first :: _ => if contains contentTypes "application/json" then "application/json" else first
  end.

Definition selectHeaderAccept (accepts : list string) : string :=
  match accepts with
  | [] => ""
  | _ => if contains accepts "application/json" then "application/json" else Join accepts ","
  end.

Definition with_header (h : string) (v : string) (headers : list (string * string)) : list (string * string) :=
  if decide (v = "") then headers else headers ++ [(h, v)].

Definition std_headers (contentTypes : list string) : list (string * string) :=
  with_header "Accept" (selectHeaderAccept ["application/json"]) (with_header "Content-Type" (selectHeaderContentType contentTypes) []).

(** The generated Error has neither Title nor Detail. *)
Definition formatErrorMessage (status : string) (v : OpenError) : string := TrimSpace (Sprintf "%s %s" [GStr status; GStr ""]).

Section Client.
Context {St : Type} `{codec : ClientCodec}.
(** cfg.ServerURLWithContext of an operation, and cfg.HTTPClient.Do *)
Variable ServerURL : string -> result string string.
Variable Do : http_request -> M St (result http_response string).

(** The second half of every Execute: [codes] are the status codes whose body is read as
    an error. *)
Definition finish {A} (codes : list Z) (decode : Payload_ -> result (option A) string) (resp : http_response) : outcome A :=
  if 300 <=? resp.(StatusCode) then
    let newErr error model := mkGenericOpenAPIError resp.(contents) error model in
    let status := StatusText resp.(StatusCode) in
    mkOutcome None (Some resp)
      (Some (inr (if decide (resp.(StatusCode) ∈ codes) then
                    match DecodeError resp.(contents) with
                    | Err err => newErr err None
                    | Ok v => newErr (formatErrorMessage status v) (Some v)
                    end
                  else newErr status None)))
  else
    match decode resp.(contents) with
    | Err err => mkOutcome None (Some resp) (Some (inr (mkGenericOpenAPIError resp.(contents) err None)))
    | Ok v => mkOutcome v (Some resp) None
    end.

Definition execute {A} (operation : string) (body : option (result string string)) (mk : option string -> http_request)
  (codes : list Z) (decode : Payload_ -> result (option A) string) : M St (outcome A) :=
  match ServerURL operation with
  | Err err => ret (mkOutcome None None (Some (inr (mkGenericOpenAPIError NoBody err None))))
  | Ok _ =>
      match body with
      | Some (Err err) => ret (mkOutcome None None (Some (inl err)))
      | _ =>
          let! r := Do (mk (match body with Some (Ok b) => Some b | _ => None end)) in
          ret (match r with
               | Err err => mkOutcome None None (Some (inl err))
               | Ok resp => finish codes decode resp
               end)
      end
  end.

(** An operation that returns no value. *)
Definition no_value (_ : Payload_) : result (option unit) string := Ok None.

(** ** api_default.go *)

Record ListRequest := mkListRequest {
  lr_page : option Z;
  lr_size : option Z;
  lr_search : option string;
  lr_orderBy : option string;
  lr_fields : option string;
  lr_xOperationID : option string;
}.
Definition newListRequest : ListRequest := mkListRequest None None None None None None.
Definition Page (page : Z) (r : ListRequest) : ListRequest :=
  mkListRequest (Some page) r.(lr_size) r.(lr_search) r.(lr_orderBy) r.(lr_fields) r.(lr_xOperationID).
Definition Size (size : Z) (r : ListRequest) : ListRequest :=
  mkListRequest r.(lr_page) (Some size) r.(lr_search) r.(lr_orderBy) r.(lr_fields) r.(lr_xOperationID).
Definition Search (search : string) (r : ListRequest) : ListRequest :=
  mkListRequest r.(lr_page) r.(lr_size) (Some search) r.(lr_orderBy) r.(lr_fields) r.(lr_xOperationID).
Definition OrderBy (orderBy : string) (r : ListRequest) : ListRequest :=
  mkListRequest r.(lr_page) r.(lr_size) r.(lr_search) (Some orderBy) r.(lr_fields) r.(lr_xOperationID).
Definition Fields (fields : string) (r : ListRequest) : ListRequest :=
  mkListRequest r.(lr_page) r.(lr_size) r.(lr_search) r.(lr_orderBy) (Some fields) r.(lr_xOperationID).
Definition XOperationID (xOperationID : string) (r : ListRequest) : ListRequest :=
  mkListRequest r.(lr_page) r.(lr_size) r.(lr_search) r.(lr_orderBy) r.(lr_fields) (Some xOperationID).

(** The query of a list: page and size always, the others when set. *)
Definition list_query (r : ListRequest) : list (string * string) :=
  let params := parameterAddToHeaderOrQuery [] "page" (int_param 1 r.(lr_page)) "form" "" in
  let params := parameterAddToHeaderOrQuery params "size" (int_param 100 r.(lr_size)) "form" "" in
  let params := add_opt params "search" r.(lr_search) in
  let params := add_opt params "orderBy" r.(lr_orderBy) in
  add_opt params "fields" r.(lr_fields).

Definition ApiMaestroV1ConsumersGetExecute (r : ListRequest) : M St (outcome (ModelList OpenConsumer)) :=
  execute "DefaultAPIService.ApiMaestroV1ConsumersGet" None
    (mkHttpRequest GET ["consumers"] (list_query r) (std_headers [])) [401; 403; 500] DecodeConsumerList.

Definition ApiMaestroV1ConsumersIdDeleteExecute (id : string) : M St (outcome unit) :=
  execute "DefaultAPIService.ApiMaestroV1ConsumersIdDelete" None
    (mkHttpRequest DELETE ("consumers" :: Split id "/"%char) [] (std_headers [])) [400; 401; 403; 404; 500] no_value.

Definition ApiMaestroV1ConsumersIdGetExecute (id : string) : M St (outcome OpenConsumer) :=
  execute "DefaultAPIService.ApiMaestroV1ConsumersIdGet" None
    (mkHttpRequest GET ("consumers" :: Split id "/"%char) [] (std_headers [])) [401; 403; 404; 500] DecodeConsumer.

(** Without the request body the endpoint fails before it sends anything. *)
Definition ApiMaestroV1ConsumersIdPatchExecute (id : string) (consumerPatchRequest : option ConsumerPatchRequest) :
  M St (outcome OpenConsumer) :=
  execute "DefaultAPIService.ApiMaestroV1ConsumersIdPatch"
    (Some (match consumerPatchRequest with
           | None => Err "consumerPatchRequest is required and must be specified"
           | Some p => EncodePatch p
           end))
    (mkHttpRequest PATCH ("consumers" :: Split id "/"%char) [] (std_headers ["application/json"]))
    [400; 401; 403; 404; 409; 500] DecodeConsumer.

Definition ApiMaestroV1ConsumersPostExecute (consumer : option OpenConsumer) : M St (outcome OpenConsumer) :=
  execute "DefaultAPIService.ApiMaestroV1ConsumersPost"
    (Some (match consumer with
           | None => Err "consumer is required and must be specified"
           | Some c => EncodeConsumer c
           end))
    (mkHttpRequest POST ["consumers"] [] (std_headers ["application/json"])) [400; 401; 403; 409; 500] DecodeConsumer.

Definition operation_header (xOperationID : option string) (headers : list (string * string)) : list (string * string) :=
  match xOperationID with Some x => parameterAddToHeaderOrQuery headers "X-Operation-ID" (PPtr (PStr x)) "simple" "" | None => headers end.

Definition ApiMaestroV1ResourceBundlesGetExecute (r : ListRequest) : M St (outcome (ModelList ResourceBundle)) :=
  execute "DefaultAPIService.ApiMaestroV1ResourceBundlesGet" None
    (mkHttpRequest GET ["resource-bundles"] (list_query r) (operation_header r.(lr_xOperationID) (std_headers [])))
    [401; 403; 500] DecodeBundleList.

Definition ApiMaestroV1ResourceBundlesIdDeleteExecute (id : string) : M St (outcome unit) :=
  execute "DefaultAPIService.ApiMaestroV1ResourceBundlesIdDelete" None
    (mkHttpRequest DELETE ("resource-bundles" :: Split id "/"%char) [] (std_headers [])) [400; 401; 403; 404; 500] no_value.

Definition ApiMaestroV1ResourceBundlesIdGetExecute (id : string) (xOperationID : option string) : M St (outcome ResourceBundle) :=
  execute "DefaultAPIService.ApiMaestroV1ResourceBundlesIdGet" None
    (mkHttpRequest GET ("resource-bundles" :: Split id "/"%char) [] (operation_header xOperationID (std_headers [])))
    [401; 403; 404; 500] DecodeBundle.
End Client.

(** ** The client and the server *)

Section Network.
Context `{env : Env} `{gorm : Gorm} `{lf : LockFactory} `{ce : CloudEvents} `{k8s : K8s} `{codec : BodyCodec}
        `{tf : TimeFormat} `{cfg : ResourceConfig} `{cs : QueryStore Consumer} `{rs : QueryStore Resource} `{sl : SearchLib}
        `{pgl : PgAdvisory} `{rb : SqlRollback} `{cc : ClientCodec}.
Variable ServerURL : string -> result string string.
(** the operation id of a request without the header *)
Variable operationID : string.

(** A reliable network: the server gets the request and the client its answer. A handler
    that panics closes the connection; what no route matches, the router refuses. *)
Definition send (req : http_request) : M World (result http_response string) :=
  let opid := values_get req.(rq_headers) "X-Operation-ID" in
  let! a := serve_http req.(rq_method) req.(rq_path)
              (mkRequest (if decide (opid = "") then operationID else opid) (Ok (default "" req.(rq_body))) ""
                 (values_get req.(rq_query))) in
  ret (match a with
       | Some (Replied code payload) => Ok (mkHttpResponse code payload)
       | Some HandlerPanics => Err "EOF"
       | None => match SendNotFound ("/api/maestro/v1/" +:+ Join req.(rq_path) "/") with
                 | Replied code payload => Ok (mkHttpResponse code payload)
                 | HandlerPanics => Err "EOF"
                 end
       end).

Definition paging {A} (l : ModelList A) : BundleList A :=
  mkBundleList l.(ml_Page) l.(ml_Size) l.(ml_Total) (default [] l.(ml_Items)).

(** What PageList gets for one page; it reads the list of a response without an error, and
    panics when there is none. *)
Definition bundles_get (search : string) (page size : Z) : M World (result (BundleList ResourceBundle) string) :=
  let! o := ApiMaestroV1ResourceBundlesGetExecute ServerURL send (Size size (Page page (Search search newListRequest))) in
  ret (match o.(o_error), o.(o_value) with
       | Some (inl err), _ => Err err
       | Some (inr err), _ => Err err.(err_error)
       | None, Some rbs => Ok (paging rbs)
       | None, None => Err "invalid memory address or nil pointer dereference"
       end).
End Network.

(** A body the server wrote from a struct that can be written reads back as that struct. *)
Class ClientCodecLaws `{TimeJSON} `{ClientCodec} : Prop := {
  DecodeBundleList_body kind p s n items :
    int32_ok p && int32_ok s && int32_ok n && forallb bundle_ok items = true ->
    DecodeBundleList (BundlesBody kind p s n items) = Ok (Some (mkModelList kind p s n (Some items)));
  DecodeConsumerList_body kind p s n items :
    int32_ok p && int32_ok s && int32_ok n && forallb consumer_ok items = true ->
    DecodeConsumerList (ConsumersBody kind p s n items) = Ok (Some (mkModelList kind p s n (Some items)));
  DecodeConsumer_body c : consumer_ok c = true -> DecodeConsumer (ConsumerBody c) = Ok (Some c);
  DecodeBundle_body b : bundle_ok b = true -> DecodeBundle (BundleBody b) = Ok (Some b);
  DecodeError_body e : DecodeError (ErrorBody e) = Ok (openError e);
}.
