(* ===== verification/ClientRequest.v ===== *)
(** * pkg/api/openapi/client.go: the request that goes out

    prepareRequest with its bodies and forms, and what the server reads of it: the request
    line carries the target of the URL, which the server parses again. mime/multipart draws a
    boundary and os opens files: both are arguments, and so is http.DetectContentType. Also
    the helpers of the client that no operation calls. *)

From S2P Require Import Prelude GoLib Types Json GoMap Url Configuration OpenapiClient.
Import api Strings Fmt.

Open Scope Z_scope.

(** ** Bodies *)

(** A body by the kind reflect gives it, with what setBody makes of it for a content type. *)
Inductive body_kind := KStruct | KMap | KPtr | KString | KBytes (b : string) | KSlice | KOther.
Record post_body := mkPostBody { pb_kind : body_kind; pb_set : string -> result string string }.

Section Body.
Context (DetectContentType : string -> string).
Definition detectContentType (body : post_body) : string :=
  match body.(pb_kind) with
  | KStruct | KMap | KPtr => "application/json; charset=utf-8"
  | KString => "text/plain; charset=utf-8"
  | KBytes b => DetectContentType b
  | KSlice => "application/json; charset=utf-8"
  | KOther => "text/plain; charset=utf-8"
  end.
End Body.

(** *** mime/multipart *)

Definition crlf : string := String "013" (String "010" "").
Definition dquote : string := String "034" "".
Fixpoint escapeQuotes (s : string) : string :=
  match s with
  | "" => ""
  | String c s => if decide (c = "092"%char \/ c = "034"%char) then String "092" (String c (escapeQuotes s)) else String c (escapeQuotes s)
  end.
Record form_part := mkFormPart { part_header : string; part_content : string }.
Definition disposition (name : string) (filename : option string) : string :=
  "Content-Disposition: form-data; name=" +:+ dquote +:+ escapeQuotes name +:+ dquote +:+
  match filename with Some f => "; filename=" +:+ dquote +:+ escapeQuotes f +:+ dquote | None => "" end +:+ crlf.
Definition WriteField (name value : string) : form_part := mkFormPart (disposition name None) value.
Definition CreateFormFile (name filename content : string) : form_part :=
  mkFormPart (disposition name (Some filename) +:+ "Content-Type: application/octet-stream" +:+ crlf) content.
(** What the writer has written, before Close and after it. *)
Fixpoint parts_text (boundary : string) (first : bool) (l : list form_part) : string :=
  match l with
  | [] => ""
  | p :: l => (if first then "" else crlf) +:+ "--" +:+ boundary +:+ crlf +:+ p.(part_header) +:+ crlf +:+ p.(part_content) +:+
              parts_text boundary false l
  end.
Definition closed_text (boundary : string) (l : list form_part) : string :=
  parts_text boundary true l +:+ crlf +:+ "--" +:+ boundary +:+ "--" +:+ crlf.

(** filepath.Base *)
Fixpoint trim_slashes (s : string) : string :=
  match s with "" => "" | String c s => let r := trim_slashes s in if decide (c = slash /\ r = "") then "" else String c r end.
Definition Base (path : string) : string :=
  if decide (path = "") then "."
  else let p := trim_slashes path in if decide (p = "") then "/" else default "" (last (Split p slash)).

Record formFile := mkFormFile { fileBytes : string; fileName : string; formFileName : string }.

(** ** prepareRequest *)

Record Request := mkRequest_ {
  r_method : string;
  r_URL : Url.URL;
  (** in the order they are added; a name may come twice *)
  r_headers : list (string * string);
  r_body : option string;
}.

(** http.CanonicalHeaderKey of a name of letters, digits and dashes *)
Fixpoint canonical_from (upper : bool) (s : string) : string :=
  match s with
  | "" => ""
  | String c s =>
      let n := nat_of_ascii c in
      String (if upper then if ((97 <=? n) && (n <=? 122))%nat then ascii_of_nat (n - 32) else c else fold_ascii c)
        (canonical_from (bool_decide (c = "-"%char)) s)
  end.
Definition CanonicalHeaderKey : string -> string := canonical_from true.

Fixpoint queryDescape (s : string) : string :=
  match s with
  | String "%" (String "5" (String "B" s)) => String "[" (queryDescape s)
  | String "%" (String "5" (String "D" s)) => String "]" (queryDescape s)
  | String c s => String c (queryDescape s)
  | "" => ""
  end.
(** The function of ReplaceAllStringFunc on one part of the query. *)
Definition descape_part (s : string) : string :=
  match Split s "="%char with
  | p :: pieces => Join (queryDescape p :: pieces) "="
  | [] => ""
  end.
Definition raw_query (query : list (string * string)) : string := Join (descape_part <$> Split (Encode query) "&"%char) "&".

Section Prepare.
Context (DetectContentType : string -> string) (boundary : string).
(** os.Open(filepath.Clean(path)): the name of the file *)
Context (OpenFile : string -> result string string).
Context (cfg : Configuration).

(** The file is closed before it is copied, so reading it fails. *)
Definition addFile (fieldName path : string) : result form_part string :=
  match OpenFile path with
  | Err err => Err err
  | Ok name => Err ("read " +:+ name +:+ ": file already closed")
  end.

Fixpoint form_parts (formParams : list (string * string)) : result (list form_part) string :=
  match formParams with
  | [] => Ok []
  | (k, iv) :: formParams =>
      let part := match k with String "@" k => addFile k iv | _ => Ok (WriteField k iv) end in
      match part with
      | Err err => Err err
      | Ok p => match form_parts formParams with Ok l => Ok (p :: l) | Err err => Err err end
      end
  end.
Definition file_parts (formFiles : list formFile) : list form_part :=
  omap (fun f => if decide (f.(fileBytes) <> "" /\ f.(fileName) <> "")
                 then Some (CreateFormFile f.(formFileName) (Base f.(fileName)) f.(fileBytes)) else None) formFiles.

Definition length_text (s : string) : string := pretty (Z.of_nat (String.length s)).
Definition header (headers : list (string * string)) (h : string) : string := default "" (GoMap.get h headers).

(** The body and the headers: those of the body, of a multipart form, of an encoded form. *)
Definition prepare_body (postBody : option post_body) (headerParams formParams : list (string * string)) (formFiles : list formFile) :
  result (option string * list (string * string)) string :=
  let posted :=
    match postBody with
    | None => Ok (None, headerParams)
    | Some b =>
        let given := header headerParams "Content-Type" in
        let contentType := if decide (given = "") then detectContentType DetectContentType b else given in
        match b.(pb_set) contentType with
        | Err err => Err err
        | Ok s => Ok (Some s, if decide (given = "") then GoMap.set "Content-Type" contentType headerParams else headerParams)
        end
    end in
  match posted with
  | Err err => Err err
  | Ok (body, headers) =>
      let multipart :=
        if (HasPrefix (header headers "Content-Type") "multipart/form-data" && (0 <? length formParams)%nat) || (0 <? length formFiles)%nat then
          if decide (is_Some body) then Err "Cannot specify postBody and multipart form at the same time."
          else match form_parts formParams with
               | Err err => Err err
               | Ok fields =>
                   let parts := fields ++ file_parts formFiles in
                   Ok (Some (closed_text boundary parts),
                       GoMap.set "Content-Length" (length_text (parts_text boundary true parts))
                         (GoMap.set "Content-Type" ("multipart/form-data; boundary=" +:+ boundary) headers))
               end
        else Ok (body, headers) in
      match multipart with
      | Err err => Err err
      | Ok (body, headers) =>
          if HasPrefix (header headers "Content-Type") "application/x-www-form-urlencoded" && (0 <? length formParams)%nat then
            if decide (is_Some body) then Err "Cannot specify postBody and x-www-form-urlencoded form at the same time."
            else let text := Encode formParams in Ok (Some text, GoMap.set "Content-Length" (length_text text) headers)
          else Ok (body, headers)
      end
  end.

(** The URL: host and scheme of the configuration go before those of the path, and the
    parameters are added to the query of the path. *)
Definition prepare_url (path : string) (queryParams : list (string * string)) : option Url.URL :=
  match Parse path with
  | None => None
  | Some u =>
      let host := if decide (cfg.(Host) <> "") then cfg.(Host) else u.(u_Host) in
      let scheme := if decide (cfg.(Scheme) <> "") then cfg.(Scheme) else u.(u_Scheme) in
      Some (mkURL scheme u.(u_Opaque) host u.(u_OmitHost) u.(u_Path) u.(u_RawPath) u.(u_ForceQuery)
              (raw_query (ParseQuery u.(u_RawQuery) ++ queryParams)) u.(u_RawFragment))
  end.

(** http.NewRequest: the default method, the characters a method may have, the text of the URL
    parsed again, and a host without an empty port. *)
Definition token_char (c : ascii) : bool := alphanumeric c || one_of "!#$%&'*+-.^_`|~" c.
Definition validMethod (method : string) : bool :=
  negb (bool_decide (method = "")) && forallb token_char (String.list_ascii_of_string method).
Definition default_method (method : string) : string := if decide (method = "") then "GET" else method.
Definition removeEmptyPort (u : Url.URL) : Url.URL :=
  mkURL u.(u_Scheme) u.(u_Opaque) (TrimSuffix u.(u_Host) ":") u.(u_OmitHost) u.(u_Path) u.(u_RawPath) u.(u_ForceQuery)
    u.(u_RawQuery) u.(u_RawFragment).
Definition NewRequest (method url : string) (body : option string) : result Request string :=
  let method := default_method method in
  if negb (validMethod method) then Err ("net/http: invalid method " +:+ Strconv.Quote method)
  else match Parse url with
       | None => Err ("parse " +:+ url)
       | Some u => Ok (mkRequest_ method (removeEmptyPort u) [] body)
       end.

(** [token]: the access token in the context. *)
Definition prepareRequest (token : option string) (path method : string) (postBody : option post_body)
  (headerParams queryParams formParams : list (string * string)) (formFiles : list formFile) : result Request string :=
  match prepare_body postBody headerParams formParams formFiles with
  | Err err => Err err
  | Ok (body, headers) =>
      match prepare_url path queryParams with
      | None => Err ("parse " +:+ path)
      | Some url =>
          match NewRequest method (URL_String url) body with
          | Err err => Err err
          | Ok r =>
          Ok (mkRequest_ r.(r_method) r.(r_URL)
                (headers ++ [("User-Agent", cfg.(UserAgent))] ++
                 match token with Some auth => [("Authorization", "Bearer " +:+ auth)] | None => [] end ++
                 ((fun kv => (CanonicalHeaderKey kv.1, kv.2)) <$> cfg.(DefaultHeader)))
                r.(r_body))
          end
      end
  end.
End Prepare.

(** What the server makes of the request line: the path and the query. *)
Definition received (r : Request) : option (string * list (string * string)) :=
  u ← ParseRequestURI (RequestURI r.(r_URL)); Some (u.(u_Path), ParseQuery u.(u_RawQuery)).

(** ** Helpers *)

(** parseCacheControl of the Cache-Control header. *)
Fixpoint trim_left (c : ascii) (s : string) : string :=
  match s with "" => "" | String d s' => if decide (d = c) then trim_left c s' else s end.
Fixpoint trim_right (c : ascii) (s : string) : string :=
  match s with "" => "" | String d s => let r := trim_right c s in if decide (d = c /\ r = "") then "" else String d r end.
Definition trim (c : ascii) (s : string) : string := trim_right c (trim_left c s).
Definition cache_entry (cc : list (string * string)) (part : string) : list (string * string) :=
  let part := Trim part in
  if decide (part = "") then cc
  else match Split part "="%char with
       | k :: v :: _ => GoMap.set (Trim k) (trim ","%char v) cc
       | _ => GoMap.set part "" cc
       end.
Definition parseCacheControl (ccHeader : string) : list (string * string) := foldl cache_entry [] (Split ccHeader ","%char).

(** CacheExpires: [parse] is time.Parse for RFC 1123, [duration] time.ParseDuration, [now]
    time.Now(); the zero time is 0. *)
Definition CacheExpires (parse : string -> option Time) (duration : string -> option Z) (now : Time)
  (date cacheControl expires : string) : Time :=
  match parse date with
  | None => now
  | Some date =>
      match GoMap.get "max-age" (parseCacheControl cacheControl) with
      | Some maxAge => match duration (maxAge +:+ "s") with Some lifetime => date + lifetime | None => date end
      | None => if decide (expires = "") then 0 else default date (parse expires)
      end
  end.

(** typeCheckParameter on a value with its type. *)
Definition typeCheckParameter (type_ : option string) (expected name : string) : option string :=
  match type_ with
  | None => None
  | Some t => if decide (t = expected) then None
              else Some (Sprintf "expected %s to be of type %s but received %s" [GStr name; GStr expected; GStr t])
  end.

(** ** Sending *)

Section Send.
Context {St : Type} {Response : Type}.
(** httputil.DumpRequestOut and DumpResponse, and cfg.HTTPClient.Do, whose response may come
    with an error *)
Context (DumpRequestOut : Request -> result string string) (DumpResponse : Response -> result string string).
Context (Do : Request -> M St (option Response * option string)).

(** log.Printf: the lines logged so far *)
Definition Printf (dump : string) : M (St * list string) unit :=
  modify (fun '(st, log) => (st, log ++ [Sprintf (String "010" ("%s" +:+ String "010" "")) [GStr dump]])).

Definition callAPI (Debug : bool) (request : Request) : M (St * list string) (option Response * option string) :=
  let send : M (St * list string) (option Response * option string) :=
    let! '(resp, err) := (fun '(st, log) => let '(r, st) := Do request st in (r, (st, log))) in
    match err, resp with
    | Some err, _ => ret (resp, Some err)
    | None, Some r =>
        if Debug then
          match DumpResponse r with
          | Err err => ret (Some r, Some err)
          | Ok dump => Printf dump >> ret (Some r, None)
          end
        else ret (Some r, None)
    | None, None => ret (None, None)
    end in
  if Debug then
    match DumpRequestOut request with
    | Err err => ret (None, Some err)
    | Ok dump => Printf dump >> send
    end
  else send.
End Send.

(** * The request arrives as it was made

    The query and the path of a request the client prepares, read back by the server: this
    is what lets the other files speak of decoded segments and of pairs. *)

Import api Strings Fmt.

Open Scope Z_scope.

(** ** The query *)

Definition descaped (c : ascii) : string :=
  if decide (c = "["%char) then "[" else if decide (c = "]"%char) then "]" else escape_char encodeQueryComponent c.
Fixpoint descaped_text (s : string) : string := match s with "" => "" | String c s => descaped c +:+ descaped_text s end.

Lemma queryDescape_char c s : queryDescape (escape_char encodeQueryComponent c +:+ s) = descaped c +:+ queryDescape s.
Proof. destruct c as [[] [] [] [] [] [] [] []]; vm_compute; reflexivity. Qed.
Lemma queryDescape_escape s : queryDescape (QueryEscape s) = descaped_text s.
Proof. induction s as [|c s IH]; [done|]. unfold QueryEscape in *. cbn [escape descaped_text]. by rewrite queryDescape_char, IH. Qed.

Lemma unescape_descaped s : unescape encodeQueryComponent (descaped_text s) = Some s.
Proof.
  induction s as [|c s IH]; [done|]. cbn [descaped_text]. unfold descaped.
  assert (Hb : forall b, b = "["%char \/ b = "]"%char ->
    unescape encodeQueryComponent (String b (descaped_text s)) = String b <$> unescape encodeQueryComponent (descaped_text s))
    by (by intros b [-> | ->]).
  case_decide as H1; [|case_decide as H2]; [subst c; change (String ?b "" +:+ ?t) with (String b t); rewrite Hb, IH by auto; done..|].
  by rewrite unescape_char, IH.
Qed.
Lemma descaped_free s : any_char reserved (descaped_text s) = false.
Proof.
  induction s as [|c s IH]; [done|]. cbn [descaped_text]. rewrite any_char_app, IH, orb_false_r. apply negb_true_iff.
  clear s IH. revert c. apply (for_all_ascii (fun c => negb (any_char reserved (descaped c)))). vm_compute. reflexivity.
Qed.

Definition sent_pair (kv : string * string) : string := descaped_text kv.1 +:+ "=" +:+ QueryEscape kv.2.

Lemma free_of c s : reserved c = true -> any_char reserved s = false -> ~ In c (String.list_ascii_of_string s).
Proof. apply lacks_char. Qed.

Lemma descape_encode_pair kv : descape_part (encode_pair kv) = sent_pair kv.
Proof.
  unfold descape_part, encode_pair, sent_pair. change ("=" +:+ QueryEscape kv.2) with (String "=" (QueryEscape kv.2)).
  rewrite Split_app by (apply free_of; [done|apply escape_query_free]).
  rewrite Split_none by (apply free_of; [done|apply escape_query_free]). cbn [Join]. by rewrite queryDescape_escape.
Qed.

Lemma encode_pair_free kv : ~ In "&"%char (String.list_ascii_of_string (encode_pair kv)).
Proof.
  apply (lacks_char _ (Ascii.eqb "&")); [done|]. unfold encode_pair. rewrite !any_char_app. cbn.
  rewrite !(any_char_weaken _ reserved); try apply escape_query_free; try done; by intros c <-%Ascii.eqb_eq.
Qed.
Lemma sent_pair_free kv p : (forall c, p c = true -> reserved c = true) -> p "="%char = false -> any_char p (sent_pair kv) = false.
Proof.
  intros Hp He. unfold sent_pair. rewrite !any_char_app. cbn. rewrite He.
  by rewrite !(any_char_weaken _ reserved) by (done || apply escape_query_free || apply descaped_free).
Qed.

Lemma raw_query_eq q : raw_query q = Join (sent_pair <$> Url.sorted q) "&".
Proof.
  unfold raw_query, Encode. destruct (Url.sorted q) as [|x l] eqn:E; [done|].
  rewrite Split_Join; [|apply Forall_fmap, Forall_forall; intros; apply encode_pair_free|done].
  f_equal. rewrite <- list_fmap_compose. apply list_fmap_ext. intros i y _. apply descape_encode_pair.
Qed.

(** What the server reads are the pairs, by key. *)
Lemma ParseQuery_raw_query q : ParseQuery (raw_query q) = Url.sorted q.
Proof.
  rewrite raw_query_eq. apply ParseQuery_Join. intros kv _. split.
  - apply (lacks_char _ (Ascii.eqb "&")); [done|]. apply sent_pair_free; [by intros c <-%Ascii.eqb_eq|done].
  - unfold sent_pair. destruct kv as [k v]. cbn.
    apply parse_pair_eq; [apply descaped_free|apply escape_query_free|apply unescape_descaped|apply unescape_escape].
Qed.

Lemma Join_free p l : p "&"%char = false -> Forall (fun s => any_char p s = false) l -> any_char p (Join l "&") = false.
Proof.
  intros Hp. induction l as [|s [|t l] IH]; intros Hl; [done|by apply Forall_cons in Hl as [? _]|].
  apply Forall_cons in Hl as [Hs Hl]. change (Join (s :: t :: l) "&") with (s +:+ "&" +:+ Join (t :: l) "&").
  rewrite !any_char_app, Hs, IH by done. cbn. by rewrite Hp.
Qed.
(** Neither a fragment nor a control character comes in through the query. *)
Lemma raw_query_free q : any_char (fun c => one_of "#" c || control c) (raw_query q) = false.
Proof.
  rewrite raw_query_eq. apply Join_free; [done|]. apply Forall_fmap, Forall_forall. intros kv _. apply sent_pair_free; [|done].
  intros c. unfold reserved, one_of. cbn. destruct (control c); [by rewrite !orb_true_r|].
  destruct (Ascii.eqb c "#"); [by rewrite !orb_true_r|done].
Qed.

Lemma values_get_filter l l' key :
  base.filter (fun kv : string * string => kv.1 = key) l = base.filter (fun kv => kv.1 = key) l' -> values_get l key = values_get l' key.
Proof.
  assert (H : forall l, values_get l key = match base.filter (fun kv : string * string => kv.1 = key) l with kv :: _ => kv.2 | [] => "" end).
  { clear. intros l. induction l as [|[k v] l IH]; [done|]. cbn [values_get]. rewrite filter_cons. cbn.
    destruct (String.eqb_spec k key) as [->|]; [by rewrite decide_True|by rewrite decide_False]. }
  intros Hf. by rewrite !H, Hf.
Qed.
Lemma values_get_sorted l key : values_get (Url.sorted l) key = values_get l key.
Proof. apply values_get_filter, filter_sorted. Qed.

(** ** The URL *)

Definition question (r : string) : string := if decide (r = "") then "" else "?" +:+ r.

Lemma Cut_question a r : ~ In "?"%char (String.list_ascii_of_string a) ->
  Cut (a +:+ question r) "?"%char = (a, r).
Proof.
  intros Ha. unfold question. case_decide as Hr; [subst; rewrite append_nil_r; by apply Cut_none|].
  change ("?" +:+ r) with (String "?" r). unfold Cut. by rewrite SplitN2_app.
Qed.

(** The two schemes of the servers. *)
Definition http_scheme (s : string) : bool := String.eqb s "http" || String.eqb s "https".
Lemma getScheme_http scheme rest : http_scheme scheme = true -> getScheme (scheme +:+ "://" +:+ rest) = Some (scheme, "//" +:+ rest).
Proof. intros [->%String.eqb_eq | ->%String.eqb_eq]%orb_prop; reflexivity. Qed.
Lemma getScheme_path rest : getScheme (String "/" rest) = Some ("", String "/" rest).
Proof. reflexivity. Qed.

Definition not_in_url (c : ascii) : bool := one_of "?#/" c || control c.
Lemma host_free host : parseAuthority host = Some host -> any_char not_in_url host = false.
Proof.
  unfold parseAuthority. destruct (_ && _) eqn:E; [|done]. apply andb_prop in E as [_ Hc]. intros _. unfold any_char.
  induction (String.list_ascii_of_string host) as [|c l IH]; [done|]. cbn in *. apply andb_prop in Hc as [Hc Hl].
  rewrite IH by done. rewrite orb_false_r. clear -Hc.
  enough (negb (host_char c) || negb (not_in_url c) = true) as [Hn|Hn]%orb_prop by (rewrite ?Hc in Hn; by destruct (not_in_url c)).
  clear Hc. revert c. apply (for_all_ascii (fun c => negb (host_char c) || negb (not_in_url c))). vm_compute. reflexivity.
Qed.

Definition in_target (c : ascii) : bool := one_of "#" c || control c.
Lemma question_free r : any_char in_target r = false -> any_char in_target (question r) = false.
Proof. intros Hr. unfold question. case_decide; [done|]. rewrite any_char_app. by rewrite Hr. Qed.

Lemma encoded_free p c : encoded_path p = true -> one_of "?#" c || control c = true -> ~ In c (String.list_ascii_of_string p).
Proof. unfold encoded_path. intros [_ Hn]%andb_prop Hc. apply negb_true_iff in Hn. by apply (lacks_char c (fun c => one_of "?#" c || control c)). Qed.
Lemma encoded_control p : encoded_path p = true -> any_char in_target p = false.
Proof.
  unfold encoded_path. intros [_ Hn%negb_true_iff]%andb_prop. revert Hn. apply any_char_weaken. intros c. unfold in_target, one_of. cbn.
  destruct (control c); [by rewrite !orb_true_r|]. destruct (Ascii.eqb c "#"); [by rewrite !orb_true_r|done].
Qed.
Lemma not_In_app c a b : ~ In c (String.list_ascii_of_string a) -> ~ In c (String.list_ascii_of_string b) -> ~ In c (String.list_ascii_of_string (a +:+ b)).
Proof. rewrite list_ascii_app, in_app_iff. tauto. Qed.
Lemma target_control s : any_char in_target s = false -> any_char control s = false.
Proof. apply any_char_weaken. intros c Hc. unfold in_target. rewrite Hc. apply orb_true_r. Qed.

Section Absolute.
Context (scheme host p' r : string).
Let p := String "/" p'.
Hypothesis Hscheme : http_scheme scheme = true.
Hypothesis Hhost : parseAuthority host = Some host.
Hypothesis Hp : encoded_path p = true.
Hypothesis Hr : any_char in_target r = false.

Let text := scheme +:+ "://" +:+ host +:+ p +:+ question r.

Lemma text_free : any_char in_target text = false.
Proof.
  unfold text. rewrite !any_char_app, (encoded_control p) by done. rewrite question_free by done.
  rewrite (any_char_weaken in_target not_in_url host), orb_false_r; [|intros c; unfold in_target, not_in_url, one_of; cbn|by apply host_free].
  - apply orb_prop in Hscheme as [->%String.eqb_eq | ->%String.eqb_eq]; reflexivity.
  - destruct (control c); [by rewrite !orb_true_r|]. destruct (Ascii.eqb c "#"); [by rewrite !orb_true_r|done].
Qed.

Lemma parse_rest_authority :
  parse_rest false scheme ("//" +:+ host +:+ p) false r =
  '(path, raw) ← setPath p; Some (mkURL scheme "" host false path raw false r "").
Proof.
  unfold parse_rest. change (HasPrefix ("//" +:+ host +:+ p) "/") with true. cbn [negb].
  change (HasPrefix ("//" +:+ host +:+ p) "//") with (HasPrefix (host +:+ p) "").
  assert (Hsc : scheme <> "") by (apply orb_prop in Hscheme as [->%String.eqb_eq | ->%String.eqb_eq]; discriminate).
  rewrite bool_decide_eq_true_2 by (by left). assert (Hpre : forall s, HasPrefix s "" = true) by (by intros []). rewrite Hpre. cbn [andb].
  assert (Ht : TrimPrefix ("//" +:+ host +:+ p) "//" = host +:+ p).
  { change ("//" +:+ host +:+ p) with (String "/" (String "/" (host +:+ p))). cbn. by destruct (host +:+ p). }
  rewrite Ht. unfold p at 1. rewrite SplitN2_app by (by apply (lacks_char _ not_in_url), host_free).
  by rewrite Hhost.
Qed.

Lemma Parse_absolute :
  Parse text = '(path, raw) ← setPath p; Some (mkURL scheme "" host false path raw false r "").
Proof.
  unfold Parse. rewrite Cut_none by (apply (lacks_char _ in_target); [done|apply text_free]).
  unfold parse. rewrite target_control by apply text_free.
  rewrite decide_False by (by intros [_ ?]). rewrite decide_False.
  2: { unfold text. apply orb_prop in Hscheme as [->%String.eqb_eq | ->%String.eqb_eq]; discriminate. }
  unfold text. rewrite getScheme_http by done. cbn [mbind option_bind].
  replace ("//" +:+ host +:+ p +:+ question r) with (("//" +:+ host +:+ p) +:+ question r) by (by rewrite !append_assoc).
  assert (Hq : ~ In "?"%char (String.list_ascii_of_string ("//" +:+ host +:+ p))).
  { apply not_In_app; [cbn; intuition discriminate|]. apply not_In_app; [by apply (lacks_char _ not_in_url), host_free|by apply encoded_free]. }
  rewrite Cut_question by done. rewrite bool_decide_eq_false_2.
  2: { intros [-> Hne]. apply Hne. unfold question. by rewrite decide_True, append_nil_r. }
  rewrite parse_rest_authority. by destruct (setPath p) as [[]|].
Qed.

(** The target of the request line, as the server parses it. *)
Lemma ParseRequestURI_target :
  ParseRequestURI (p +:+ question r) = '(path, raw) ← setPath p; Some (mkURL "" "" "" false path raw false r "").
Proof.
  unfold ParseRequestURI, parse. rewrite target_control by (rewrite any_char_app, encoded_control, question_free; done).
  rewrite decide_False by (by intros [? _]). rewrite decide_False by done.
  unfold p. change (String "/" p' +:+ question r) with (String "/" (p' +:+ question r)). rewrite getScheme_path. cbn [mbind option_bind].
  change (String "/" (p' +:+ question r)) with (p +:+ question r). rewrite Cut_question by (by apply encoded_free).
  rewrite bool_decide_eq_false_2.
  2: { intros [-> Hne]. apply Hne. unfold question. by rewrite decide_True, append_nil_r. }
  unfold parse_rest. replace (HasPrefix p "/") with true by (by unfold p; cbn; destruct p'). cbn [negb].
  rewrite bool_decide_eq_false_2 by (by intros [?|[? _]]).
  cbn [andb]. by rewrite bool_decide_eq_false_2 by auto.
Qed.
End Absolute.

Lemma with_query_question u s : u.(u_ForceQuery) = false -> with_query u s = s +:+ question u.(u_RawQuery).
Proof.
  intros Hf. unfold with_query, question. rewrite Hf. cbn [orb]. case_decide as Hr.
  - rewrite bool_decide_eq_false_2 by tauto. by rewrite append_nil_r.
  - by rewrite bool_decide_eq_true_2.
Qed.

(** The text of a URL with an encoded path. *)
Lemma URL_String_absolute scheme host p' path raw r :
  http_scheme scheme = true -> path <> "" -> 
  (forall scheme opaque host omit force query frag, EscapedPath (mkURL scheme opaque host omit path raw force query frag) = String "/" p') ->
  URL_String (mkURL scheme "" host false path raw false r "") = scheme +:+ "://" +:+ host +:+ String "/" p' +:+ question r.
Proof.
  intros Hs Hpath He. unfold URL_String. cbn [u_Scheme u_Opaque u_Host u_OmitHost u_Path u_RawPath u_RawFragment]. rewrite He.
  assert (Hsc : scheme <> "") by (apply orb_prop in Hs as [->%String.eqb_eq | ->%String.eqb_eq]; discriminate).
  rewrite (decide_False (P := scheme = "")) by done. rewrite (decide_False (P := "" <> "")) by tauto.
  rewrite decide_True by (split_and!; [by left|by intros [? _]|by right]).
  rewrite decide_False by (intros (_ & Hn & _); cbn in Hn; by destruct p').
  rewrite decide_False by (intros [Hn _]; destruct scheme; done). rewrite decide_True by done.
  rewrite with_query_question by done. cbn [u_RawQuery]. rewrite !append_nil_r.
  change ("://" +:+ ?x) with (":" +:+ "//" +:+ x). rewrite !append_assoc. done.
Qed.

(** Without a form the body is what setBody made, and nothing else can fail. *)
Lemma prepare_body_plain sniff boundary open body headers :
  match prepare_body sniff boundary open body headers [] [] with
  | Ok (b, _) => match body with None => b = None | Some bd => exists t, is_Some b /\ bd.(pb_set) t = Ok (default "" b) end
  | Err err => exists bd t, body = Some bd /\ bd.(pb_set) t = Err err
  end.
Proof.
  unfold prepare_body. destruct body as [bd|].
  - destruct (pb_set bd _) as [s|err] eqn:E; [|by eauto]. cbn [length Nat.ltb Nat.leb]. rewrite andb_false_r. cbn [orb].
    rewrite andb_false_r. eauto.
  - cbn [length Nat.ltb Nat.leb]. rewrite andb_false_r. cbn [orb]. by rewrite andb_false_r.
Qed.

(** ** The operations *)

(** The path of an operation, as its Execute writes it and as the model of the operations
    has it. *)
Definition endpoint (collection : string) (id : option string) : string :=
  "/api/maestro/v1/" +:+ collection +:+ match id with Some id => "/" +:+ PathEscape id | None => "" end.
Definition segments (collection : string) (id : option string) : list string :=
  collection :: match id with Some id => Split id slash | None => [] end.

Lemma endpoint_decoded collection id :
  plain_path collection = true ->
  encoded_path (endpoint collection id) = true /\
  unescape encodePath (endpoint collection id) =
    Some ("/api/maestro/v1/" +:+ collection +:+ match id with Some id => "/" +:+ id | None => "" end).
Proof.
  intros Hc. unfold endpoint. split.
  - apply encoded_app; [reflexivity|]. apply encoded_app; [by apply plain_encoded|]. destruct id; [|done].
    apply encoded_app; [done|apply PathEscape_encoded].
  - rewrite unescape_plain by done. rewrite unescape_plain by done. destruct id as [id|]; [|done].
    rewrite (unescape_plain "/") by done. unfold PathEscape. by rewrite unescape_escape_modes.
Qed.

Lemma Split_endpoint collection id :
  ~ In slash (String.list_ascii_of_string collection) ->
  Split ("/api/maestro/v1/" +:+ collection +:+ match id with Some id => "/" +:+ id | None => "" end) slash =
  [""; "api"; "maestro"; "v1"] ++ segments collection id.
Proof.
  intros Hc.
  assert (Hhead : forall s, Split ("/api/maestro/v1/" +:+ s) slash = [""; "api"; "maestro"; "v1"] ++ Split s slash).
  { intros s. change ("/api/maestro/v1/" +:+ s) with ("" +:+ String slash ("api" +:+ String slash ("maestro" +:+ String slash ("v1" +:+ String slash s)))).
    rewrite !Split_app by (cbn; intuition discriminate). done. }
  rewrite Hhead. f_equal. unfold segments. destruct id as [id|].
  - change ("/" +:+ id) with (String slash id). by rewrite Split_app.
  - rewrite append_nil_r. by rewrite Split_none.
Qed.

(** C28: A request of the generated client arrives as it was made. For a server URL of scheme http or https and any host,
    any collection, any id and any parameters, whatever bytes they contain, prepareRequest fails only when the body
    cannot be encoded or the method is not a token of HTTP; otherwise the server parses the request line to the path of the operation with the id as it
    is, cut into the segments the operations are modelled with, and for every key to the value that was added first;
    brackets in a key are sent unescaped and read back as well. The method, GET when it is empty, and the body are those that were given. *)
Theorem request_roundtrip sniff boundary open cfg token scheme host collection id method body headers query :
  cfg.(Host) = "" -> cfg.(Scheme) = "" -> http_scheme scheme = true -> parseAuthority host = Some host ->
  plain_path collection = true -> ~ In slash (String.list_ascii_of_string collection) ->
  match prepareRequest sniff boundary open cfg token (scheme +:+ "://" +:+ host +:+ endpoint collection id) method body headers query [] [] with
  | Ok r =>
      exists path q, received r = Some (path, q) /\
      Split path slash = [""; "api"; "maestro"; "v1"] ++ segments collection id /\
      (forall key, values_get q key = values_get query key) /\ Permutation q query /\
      r.(r_method) = default_method method /\
      match body with None => r.(r_body) = None | Some b => exists t, is_Some (r.(r_body)) /\ b.(pb_set) t = Ok (default "" r.(r_body)) end
  | Err err => (exists b t, body = Some b /\ b.(pb_set) t = Err err) \/ method <> "" /\ validMethod method = false
  end.
Proof.
  intros Hch Hcs Hs Hh Hpl Hsl. destruct (endpoint_decoded collection id Hpl) as [Henc Hun].
  set (path := "/api/maestro/v1/" +:+ collection +:+ match id with Some id => "/" +:+ id | None => "" end) in *.
  assert (Hp : exists p', endpoint collection id = String "/" p') by (by eexists). destruct Hp as [p' Hp]. rewrite Hp in *.
  assert (Hne : path <> "" /\ path <> "*") by done. destruct Hne as [Hne Hstar].
  destruct (setPath_escaped (String "/" p') path Hun) as (raw & Hset & Hesc); [by apply andb_prop in Henc as [? _]|done|done|].
  unfold prepareRequest.
  pose proof (prepare_body_plain sniff boundary open body headers) as Hbody.
  destruct (prepare_body sniff boundary open body headers [] []) as [[b hs]|err]; [|by left]. unfold prepare_url.
  assert (Hparse : Parse (scheme +:+ "://" +:+ host +:+ String "/" p') = Some (mkURL scheme "" host false path raw false "" "")).
  { pose proof (Parse_absolute scheme host p' "" Hs Hh Henc eq_refl) as Hx. unfold question in Hx. rewrite decide_True in Hx by done.
    rewrite append_nil_r, Hset in Hx. exact Hx. }
  rewrite Hparse. cbn [u_Host u_Scheme u_Opaque u_OmitHost u_Path u_RawPath u_ForceQuery u_RawQuery u_RawFragment].
  rewrite Hch, Hcs. cbn [mbind option_bind]. rewrite !decide_False by tauto.
  change (ParseQuery "" ++ query) with query.
  rewrite (URL_String_absolute _ _ p') by done.
  unfold NewRequest. destruct (validMethod (default_method method)) eqn:Hm; cbn [negb].
  2: { right. unfold default_method in Hm. destruct (decide (method = "")); [discriminate Hm|done]. }
  rewrite (Parse_absolute scheme host p' (raw_query query) Hs Hh Henc (raw_query_free query)), Hset.
  exists path, (Url.sorted query). unfold received, removeEmptyPort.
  cbn [r_URL r_method r_body u_Scheme u_Opaque u_Host u_OmitHost u_Path u_RawPath u_ForceQuery u_RawQuery u_RawFragment].
  assert (Huri : RequestURI (mkURL scheme "" (TrimSuffix host ":") false path raw false (raw_query query) "") = String "/" p' +:+ question (raw_query query)).
  { unfold RequestURI. rewrite with_query_question by done. cbn [u_Opaque u_RawQuery]. rewrite Hesc.
    by rewrite decide_True, decide_False. }
  rewrite Huri. rewrite ParseRequestURI_target by (done || apply raw_query_free). rewrite Hset. cbn [mbind option_bind u_Path u_RawQuery].
  split_and!; [by rewrite ParseQuery_raw_query|by apply Split_endpoint|apply values_get_sorted|apply sorted_permutation|done|done].
Qed.

(** A form with a file never gets as far as a request: the file is closed before it is read. *)
Theorem form_file_fails open name path formParams :
  exists err, form_parts open ((String "@" name, path) :: formParams) = Err err.
Proof. cbn. unfold addFile. destruct (open path); eauto. Qed.

(** The debug log never changes what is asked of the server: a request is sent as it is, once,
    and only a request that cannot be dumped is kept back; without an error of the dump the
    answer is that of the HTTP client. *)
Theorem callAPI_sends {St Response} DumpOut DumpResp (Do : Request -> M St (option Response * option string)) debug request st log :
  (forall st, match (Do request st).1 with (None, None) => False | _ => True end) ->
  let '((resp, err), (st', log')) := callAPI DumpOut DumpResp Do debug request (st, log) in
  match DumpOut request with
  | Err e => if debug then resp = None /\ err = Some e /\ st' = st /\ log' = log else st' = (Do request st).2
  | Ok _ => st' = (Do request st).2 /\ resp = (Do request st).1.1 /\ (debug = false -> log' = log)
  end /\
  (debug = false -> (resp, err) = (Do request st).1).
Proof.
  intros Hdo. specialize (Hdo st). unfold callAPI, Printf. destruct (Do request st) as [[[r|] [?|]] st1] eqn:E; [..|done].
  all: destruct (DumpOut request), debug; rewrite ?bind_run; cbn; try done; rewrite ?bind_run; cbn; rewrite ?E; cbn;
    try destruct (DumpResp r); by repeat split.
Qed.

(** An id and a search no URL could carry as they are. *)
Definition odd_query : list (string * string) := [("search", "name = 'x&y'"); ("page", "1"); ("f[a]", "+")].
Definition odd_request : result Request string :=
  prepareRequest (fun _ => "text/plain") "b" Ok NewConfiguration None
    ("http" +:+ "://" +:+ "localhost:8000" +:+ endpoint "consumers" (Some "a/b c?#%[1]")) "GET" None [] odd_query [] [].
Lemma request_roundtrip_witness :
  exists r path q, odd_request = Ok r /\ received r = Some (path, q) /\
    Split path slash = [""; "api"; "maestro"; "v1"; "consumers"; "a"; "b c?#%[1]"] /\ values_get q "search" = "name = 'x&y'" /\
    values_get q "f[a]" = "+".
Proof.
  assert (Hsl : ~ In slash (String.list_ascii_of_string "consumers")) by (cbn; intuition discriminate).
  generalize (request_roundtrip (fun _ => "text/plain") "b" Ok NewConfiguration None "http" "localhost:8000" "consumers" (Some "a/b c?#%[1]")
    "GET" None [] odd_query eq_refl eq_refl eq_refl eq_refl eq_refl Hsl). fold odd_request.
  generalize odd_request. intros [r|err]; [|by intros [(? & ? & ? & _)|[_ ?]]].
  intros (path & q & Hr & Hp & Hq & _). exists r, path, q. split_and!; [done|done|exact Hp|by rewrite Hq|by rewrite Hq].
Defined.
