(* ===== verification/Wire.v ===== *)
(** * JSON on the wire between the API client and the server

    What writeJSONResponse writes for a payload, and decode and setBody of
    pkg/api/openapi/client.go: the codecs of Rest.v and OpenapiClient.v, discharged by the
    models and the JSON of the standard library. *)

From S2P Require Import Prelude GoLib Errors Types Json Bundle Presenters SliceFilter Rest Pager JsonStruct Models ModelFacts OpenapiClient.
Import api errors Strings Fmt.

Open Scope Z_scope.

(** The text of a syntax error of encoding/json. *)
Class JsonSyntax := json_syntax_error : string -> string.

(** What xml.Unmarshal makes of a body for the given type. *)
Definition xml_decoder (A : Type) := string -> result A string.

(** ** JsonCheck and XmlCheck: (?i:(?:application|text)/(?:[^;]+\+)?json) *)

Fixpoint strip_fold (p s : string) : option string :=
  match p, s with
  | "", _ => Some s
  | String c p, String d s => if decide (fold_ascii c = fold_ascii d) then strip_fold p s else None
  | _, _ => None
  end.

(** [^;]*\+json at the start, one byte already read *)
Fixpoint suffix_type (format s : string) : bool :=
  match strip_fold ("+" +:+ format) s with
  | Some _ => true
  | None => match s with "" => false | String c s => bool_decide (c <> ";"%char) && suffix_type format s end
  end.
Definition type_here (format s : string) : bool :=
  match (match strip_fold "application/" s with Some r => Some r | None => strip_fold "text/" s end) with
  | None => false
  | Some r => match strip_fold format r with
              | Some _ => true
              | None => match r with "" => false | String c r => bool_decide (c <> ";"%char) && suffix_type format r end
              end
  end.
Fixpoint media_type (format s : string) : bool :=
  type_here format s || match s with "" => false | String _ s => media_type format s end.
Definition JsonCheck (contentType : string) : bool := media_type "json" contentType.
Definition XmlCheck (contentType : string) : bool := media_type "xml" contentType.

(** ** decode and setBody *)

Section Wire.
Context `{tj : TimeJSON} `{js : JsonSyntax}.

(** decode into a pointer: an empty body and a JSON null leave it nil. No operation decodes
    into a string or a file. *)
Definition decode {A} (xml : xml_decoder A) (unmarshal : json -> result A string) (b contentType : string) :
  result (option A) string :=
  if (String.length b =? 0)%nat then Ok None
  else if XmlCheck contentType then match xml b with Ok v => Ok (Some v) | Err err => Err err end
  else if JsonCheck contentType then
    match Json.Unmarshal b with
    | None => Err (json_syntax_error b)
    | Some JNull => Ok None
    | Some j => match unmarshal j with Ok v => Ok (Some v) | Err err => Err err end
    end
  else Err "undefined response type".

(** The body of a struct: json.NewEncoder(bodyBuf).Encode(body) ends it with a newline. *)
Definition newline : string := String "010" "".
Definition setBody {A} (ToMap : A -> serialized) (body : A) (contentType : string) : result string string :=
  if JsonCheck contentType then
    match MarshalJSON ToMap body with Ok s => Ok (s +:+ newline) | Err err => Err err end
  else Err (Sprintf "invalid body type %s" [GStr contentType] +:+ newline).

(** What json.Unmarshal(bytes, &cfg.MarshalInto) leaves in the request struct. *)
Definition read_struct {A} (c : codec A) (bytes : string) : result A string :=
  match Json.Unmarshal bytes with
  | None => Err (json_syntax_error bytes)
  | Some JNull => Ok (zero c)
  | Some j => unmarshalled (dec c j)
  end.

(** ** What the server writes *)

(** writeJSONResponse ignores the error of Marshal. *)
Definition response_json (m : serialized) : string * string :=
  (match serialized_json m with Ok j => Json.Marshal j | Err _ => "" end, "application/json").

Definition projection_ToMap (l : ProjectionList) : serialized :=
  Ok [("items", JArr (JObj <$> l.(pl_Items))); ("kind", JStr l.(pl_Kind)); ("page", JNum l.(pl_Page));
      ("size", JNum l.(pl_Size)); ("total", JNum l.(pl_Total))].

(** The bytes of a response and its Content-Type. *)
Definition response_body (p : Payload_) : string * string :=
  match p with
  | NoBody => ("", "application/json")
  | ConsumerBody c => response_json (Consumer_ToMap c)
  | BundleBody b => response_json (ResourceBundle_ToMap b)
  | ConsumersBody kind page size total items =>
      response_json (ConsumerList_ToMap (mkModelList kind page size total (Some items)))
  | BundlesBody kind page size total items =>
      response_json (ResourceBundleList_ToMap (mkModelList kind page size total (Some items)))
  | ErrorBody e => response_json (Error_ToMap (openError e))
  | ErrorsBody kind page size total items =>
      response_json (ErrorList_ToMap (mkModelList kind page size total (Some (openError <$> items))))
  | ProjectionBody l => response_json (projection_ToMap l)
  | TextBody s => (s, "text/plain; charset=utf-8")
  | DocumentBody j => (Json.Marshal j, "application/json")
  end.

(** ** The codecs *)

#[export] Instance json_body_codec : BodyCodec := {
  UnmarshalConsumer := read_struct (Consumer_codec false);
  UnmarshalPatch := read_struct (ConsumerPatchRequest_codec false);
}.

(** The server sends no XML. *)
Definition decode_body {A} (unmarshal : json -> result A string) (p : Payload_) : result (option A) string :=
  decode (fun _ => Err "EOF") unmarshal (response_body p).1 (response_body p).2.

(** http.Response.Status *)
Definition status_text (code : Z) : string :=
  Sprintf "%d %s" [GInt code; GStr (match code with
    | 200 => "OK" | 201 => "Created" | 204 => "No Content" | 400 => "Bad Request" | 401 => "Unauthorized"
    | 403 => "Forbidden" | 404 => "Not Found" | 405 => "Method Not Allowed" | 409 => "Conflict"
    | 500 => "Internal Server Error" | 501 => "Not Implemented" | _ => "" end)].

#[export] Instance json_client_codec : ClientCodec := {
  EncodeConsumer c := setBody Consumer_ToMap c "application/json";
  EncodePatch p := setBody ConsumerPatchRequest_ToMap p "application/json";
  DecodeConsumer := decode_body (fun j => unmarshalled (dec (Consumer_codec false) j));
  DecodeConsumerList := decode_body ConsumerList_UnmarshalJSON;
  DecodeBundle := decode_body (fun j => unmarshalled (dec (ResourceBundle_codec false) j));
  DecodeBundleList := decode_body ResourceBundleList_UnmarshalJSON;
  DecodeError p := match decode_body (fun j => unmarshalled (dec (Error_codec false) j)) p with
                   | Ok e => Ok (default (zero (Error_codec false)) e)
                   | Err err => Err err
                   end;
  StatusText := status_text;
}.
End Wire.

(** ** What is written reads back *)

Lemma Unmarshal_line j : Json.json_wf j = true -> Json.Unmarshal (Json.Marshal j +:+ newline) = Some j.
Proof.
  intros Hw. unfold Json.Unmarshal. pose proof (Json.depth_Marshal j). rewrite (Json.value_Marshal j Hw); [done| |done].
  rewrite Json.length_app_s. lia.
Qed.

Lemma Marshal_not_empty j : String.length (Json.Marshal j) <> 0%nat.
Proof. pose proof (Json.depth_Marshal j). destruct j; cbn in *; lia. Qed.

Section Laws.
Context `{tl : TimeJSONLaws} `{js : JsonSyntax}.

Lemma decode_written {A} (unmarshal : json -> result A string) p m j v :
  response_body p = response_json m -> serialized_json m = Ok j -> Json.json_wf j = true -> j <> JNull ->
  unmarshal j = Ok v -> decode_body unmarshal p = Ok (Some v).
Proof.
  intros Hp Hm Hw Hn Hu. unfold decode_body. rewrite Hp. unfold response_json. rewrite Hm. cbn [fst snd]. unfold decode.
  rewrite (proj2 (Nat.eqb_neq _ _) (Marshal_not_empty j)).
  replace (XmlCheck "application/json") with false by (by vm_compute).
  replace (JsonCheck "application/json") with true by (by vm_compute).
  rewrite (Json.Unmarshal_Marshal j Hw), Hu. by destruct j.
Qed.

Lemma struct_decoded {A} (c : codec A) ok a p m :
  codec_ok c ok -> nonnull c -> ok a = true -> response_body p = response_json m -> enc c a = serialized_json m ->
  decode_body (fun j => unmarshalled (dec c j)) p = Ok (Some a).
Proof.
  intros Hc Hn Ha Hp He. destruct (Hc a Ha) as (j & Hj & Hw & Hd).
  apply (decode_written _ p m j a Hp); [by rewrite <-He|done|intros ->; by apply (Hn a)|by rewrite Hd].
Qed.

#[export] Instance json_client_laws : ClientCodecLaws.
Proof.
  split.
  - intros kind p s n items Hok. unfold DecodeBundleList. cbn [json_client_codec].
    destruct (List_reads "[]openapi.ResourceBundle" (ResourceBundle_codec true) bundle_ok (ResourceBundle_ok true)
                (mkModelList kind p s n (Some items)) Hok) as (j & Hj & Hw & Hn & Hu).
    by apply (decode_written ResourceBundleList_UnmarshalJSON (BundlesBody kind p s n items) _ j _ eq_refl Hj Hw Hn Hu).
  - intros kind p s n items Hok. unfold DecodeConsumerList. cbn [json_client_codec].
    destruct (List_reads "[]openapi.Consumer" (Consumer_codec true) consumer_ok (Consumer_ok true)
                (mkModelList kind p s n (Some items)) Hok) as (j & Hj & Hw & Hn & Hu).
    by apply (decode_written ConsumerList_UnmarshalJSON (ConsumersBody kind p s n items) _ j _ eq_refl Hj Hw Hn Hu).
  - intros c Hc. by apply (struct_decoded _ consumer_ok c _ (Consumer_ToMap c) (Consumer_ok false) (Consumer_nonnull false)).
  - intros b Hb.
    by apply (struct_decoded _ bundle_ok b _ (ResourceBundle_ToMap b) (ResourceBundle_ok false) (ResourceBundle_nonnull false)).
  - intros e. unfold DecodeError. cbn [json_client_codec].
    by rewrite (struct_decoded _ _ (openError e) (ErrorBody e) (Error_ToMap (openError e)) (Error_ok false)
                                 (Error_nonnull false) eq_refl eq_refl eq_refl).
Qed.

(** A request body is read by the handler as the struct the client wrote. *)
Lemma body_read {A} (c : codec A) ok (ToMap : A -> serialized) a :
  codec_ok c ok -> nonnull c -> (forall a, enc c a = serialized_json (ToMap a)) -> ok a = true ->
  exists bytes, setBody ToMap a "application/json" = Ok bytes /\ read_struct c bytes = Ok a.
Proof.
  intros Hc Hn He Ha. destruct (Hc a Ha) as (j & Hj & Hw & Hd). rewrite He in Hj.
  exists (Json.Marshal j +:+ newline). unfold setBody, MarshalJSON. rewrite Hj.
  replace (JsonCheck "application/json") with true by (by vm_compute). split; [done|].
  unfold read_struct. rewrite (Unmarshal_line j Hw), Hd. destruct j; try done. by destruct (Hn a); rewrite He.
Qed.
End Laws.
