(* ===== verification/WireFacts.v ===== *)
(** * What client and server understand of each other

    Bodies that can be written are read as what they were made from; members the reader
    does not know are ignored in a single object and refused in a list. *)

From S2P Require Import Prelude GoLib Errors Types Json Bundle Presenters SliceFilter Rest Pager JsonStruct Models ModelFacts OpenapiClient Wire.
Import api errors Strings Fmt.

Open Scope Z_scope.

Section Facts.
Context `{tl : TimeJSONLaws} `{js : JsonSyntax}.

(** C27: Server and client agree on the wire. Whatever consumer, resource bundle or page of
    them the server answers with, as long as it can be written at all (32-bit numbers,
    years of four digits) and the numbers in its documents are float64s, the client decodes
    from the bytes exactly that value; an error answer is decoded to that error; and a
    consumer or a patch the client sends is read by the handler as it was. *)
Theorem wire_roundtrip :
  (forall c, consumer_ok c = true -> DecodeConsumer (ConsumerBody c) = Ok (Some c)) /\
  (forall b, bundle_ok b = true -> DecodeBundle (BundleBody b) = Ok (Some b)) /\
  (forall kind p s n items, int32_ok p && int32_ok s && int32_ok n && forallb bundle_ok items = true ->
     DecodeBundleList (BundlesBody kind p s n items) = Ok (Some (mkModelList kind p s n (Some items)))) /\
  (forall kind p s n items, int32_ok p && int32_ok s && int32_ok n && forallb consumer_ok items = true ->
     DecodeConsumerList (ConsumersBody kind p s n items) = Ok (Some (mkModelList kind p s n (Some items)))) /\
  (forall e, DecodeError (ErrorBody e) = Ok (openError e)) /\
  (forall c, consumer_ok c = true -> exists bytes, EncodeConsumer c = Ok bytes /\ UnmarshalConsumer bytes = Ok c) /\
  (forall p, patch_ok p = true -> exists bytes, EncodePatch p = Ok bytes /\ UnmarshalPatch bytes = Ok p).
Proof.
  split_and!.
  - apply DecodeConsumer_body.
  - apply DecodeBundle_body.
  - apply DecodeBundleList_body.
  - apply DecodeConsumerList_body.
  - apply DecodeError_body.
  - intros c Hc. by apply (body_read (Consumer_codec false) consumer_ok _ c (Consumer_ok false) (Consumer_nonnull false)).
  - intros p Hp. by apply (body_read (ConsumerPatchRequest_codec false) patch_ok _ p (ConsumerPatchRequest_ok false)
                             (ConsumerPatchRequest_nonnull false)).
Qed.

(** A number in a document that is no float64 is not read as it was written: the client
    decodes documents into interface{} values. *)
Definition numbered (z : Z) : ResourceBundle :=
  mkResourceBundle None None None None None None None None None None (Some [Some [("generation", JNum z)]]) None None None.
Theorem large_number_rounded :
  DecodeBundle (BundleBody (numbered (2 ^ 53 + 1))) = Ok (Some (numbered (2 ^ 53))).
Proof. vm_compute. reflexivity. Qed.

(** ** Unknown members *)

Definition faultless {A} (d : decoded A) : bool := match d with Decoded _ None => true | _ => false end.

Lemma faultless_dmap {A B} (f : A -> B) d : faultless (dmap f d) = faultless d.
Proof. by destruct d. Qed.

Lemma unmarshalled_faulty {A} (d : decoded A) : faultless d = false -> exists err, unmarshalled d = Err err.
Proof. destruct d as [a [e|]|e]; intros H1; [by exists e|done|by exists e]. Qed.

Lemma check_faulty strict fs l key j :
  (key, j) ∈ l ->
  match resolve fs key with Some f => faultless (f.2 j) = false | None => strict = true end ->
  faultless (check_members strict fs l) = false.
Proof.
  intros Hin Hf. induction l as [|[k v] l IH]; [by apply elem_of_nil in Hin|]. cbn.
  apply elem_of_cons in Hin as [Heq|Hin]; [simplify_eq|].
  - destruct (resolve fs k) as [f|].
    + destruct (f.2 v) as [u [e|]|e]; try done; by destruct (check_members strict fs l).
    + subst strict. by destruct (check_members true fs l).
  - specialize (IH Hin). destruct (check_members strict fs l) as [u' [e'|]|e']; [|done|].
    + destruct (resolve fs k) as [f|]; [by destruct (f.2 v) as [u [e|]|e]|by destruct strict].
    + destruct (resolve fs k) as [f|]; [by destruct (f.2 v)|done].
Qed.

Lemma dec_list_faulty {A} (f : json -> decoded A) l j :
  j ∈ l -> faultless (f j) = false -> faultless (dec_list f l) = false.
Proof.
  intros Hin Hf. induction l as [|x l IH]; [by apply elem_of_nil in Hin|]. cbn.
  apply elem_of_cons in Hin as [Heq|Hin]; [subst x|].
  - destruct (f j) as [a [e|]|e]; try done. by destruct (dec_list f l).
  - specialize (IH Hin). destruct (f x) as [a e|e]; [|done]. destruct (dec_list f l) as [a' [e'|]|e']; [|done|done]. by destruct e.
Qed.

(** Members no field takes do not change what a lax decoder reads. *)
Lemma lax_ignores {S} fs (build : (string -> option json) -> S) l l' key j :
  resolve fs key = None -> (forall look look', (forall name, look name = look' name) -> build look = build look') ->
  dec_struct false fs build (JObj (l ++ (key, j) :: l')) = dec_struct false fs build (JObj (l ++ l')).
Proof.
  intros Hr Hb. cbn. assert (check_members false fs (l ++ (key, j) :: l') = check_members false fs (l ++ l')) as ->.
  { induction l as [|[k v] l IH]; cbn; [|by rewrite IH]. rewrite Hr. by destruct (check_members false fs l') as [[] e|e]. }
  destruct (check_members false fs (l ++ l')); [|done]. cbn. f_equal. apply Hb. intros name.
  induction l as [|[k v] l IH]; cbn; [|by rewrite IH]. rewrite Hr. by destruct (member fs name l').
Qed.

(** C39: Readers of another version of the API. A member a client does not know is ignored
    when the client reads a single bundle, but the same member in one item of a list makes
    the client refuse the whole list: it then lists nothing. *)
Theorem unknown_member_in_list key v m m' l items :
  resolve ResourceBundle_fields key = None -> (JObj (m ++ (key, v) :: m')) ∈ items -> ("items", JArr items) ∈ l ->
  dec (ResourceBundle_codec false) (JObj (m ++ (key, v) :: m')) = dec (ResourceBundle_codec false) (JObj (m ++ m')) /\
  exists err, ResourceBundleList_UnmarshalJSON (JObj l) = Err err.
Proof.
  intros Hr Hm Hl. split.
  { apply lax_ignores; [done|]. intros look look' Heq. unfold ResourceBundle_build. by rewrite !Heq. }
  unfold ResourceBundleList_UnmarshalJSON, UnmarshalJSON. cbn [dec map_codec].
  destruct (Json.overflow (JObj l)) as [z|]; cbn [fmap option_fmap option_map unmarshalled]; [by eexists|].
  destruct (missing_property requiredProperties _) as [err|]; [by exists err|].
  apply unmarshalled_faulty. cbn [dec_struct]. rewrite faultless_dmap.
  apply (check_faulty true _ l "items" (JArr items) Hl).
  change (resolve _ "items") with (Some ("items", field_check (items_codec "[]openapi.ResourceBundle" (ResourceBundle_codec true)))).
  cbn [snd]. unfold field_check. rewrite faultless_dmap. cbn [dec items_codec slice_codec]. rewrite faultless_dmap.
  apply (dec_list_faulty _ items _ Hm). cbn [dec ResourceBundle_codec struct_codec dec_struct]. rewrite faultless_dmap.
  apply (check_faulty true _ _ key v); [|by rewrite Hr]. apply elem_of_app. right. left.
Qed.
End Facts.
