(* ===== verification/Middleware.v ===== *)
(** * The HTTP server around the handlers: routing templates, middleware, logging, metrics

    cmd/maestro/server/routes.go and metrics_middleware.go, the logging middleware of
    cmd/maestro/server/logging, pkg/logger/operationid_middleware.go and
    removeTrailingSlash. A handler is what it does with the response writer it is given;
    the writers that wrap another one (metricsResponseWrapper, loggingWriter) are instances
    of [ResponseWriter], as in the code. The compression of gorilla/handlers is the class
    [CompressHandler]. *)

From S2P Require Import Prelude GoLib Errors Types Json Bundle Validation Gorm World Collectors Dao DaoFacts Locks Transactions Services ListQuery GenericList Presenters SliceFilter Rest Pager JsonStruct GoMap Models OpenapiClient Wire.
Import api errors Strings Fmt.

Open Scope Z_scope.

(** ** http.ResponseWriter *)

Class ResponseWriter (W : Type) := {
  WriteHeader : Z -> W -> W;
  Write : string -> W -> W;
}.

(** The writer of net/http: the first final status counts, and a body is only sent where the
    status allows one. The codes the handlers use are at least 100. *)
Record http_response := mkResponse { status : option Z; sent : string }.
Definition bodyAllowedForStatus (code : Z) : bool :=
  negb (((100 <=? code) && (code <=? 199)) || (code =? 204) || (code =? 304)).
#[export] Instance http_writer : ResponseWriter http_response := {
  WriteHeader code w :=
    match w.(status) with
    | Some _ => w
    | None => if (100 <=? code) && (code <=? 199) && negb (code =? 101) then w else mkResponse (Some code) w.(sent)
    end;
  Write b w :=
    let code := default 200 w.(status) in
    mkResponse (Some code) (if bodyAllowedForStatus code then w.(sent) +:+ b else w.(sent));
}.
Definition fresh_response : http_response := mkResponse None "".
(** The status line the client gets once the handler has returned. *)
Definition final_status (w : http_response) : Z := default 200 w.(status).

Record metricsResponseWrapper (W : Type) := mkMetricsResponseWrapper { wrapped : W; code : Z }.
Arguments mkMetricsResponseWrapper {W}.
Arguments wrapped {W}.
Arguments code {W}.
#[export] Instance metrics_writer {W} `{ResponseWriter W} : ResponseWriter (metricsResponseWrapper W) := {
  Write b w := mkMetricsResponseWrapper (Write b w.(wrapped)) (if w.(code) =? 0 then 200 else w.(code));
  WriteHeader code w := mkMetricsResponseWrapper (WriteHeader code w.(wrapped)) code;
}.

Record loggingWriter (W : Type) := mkLoggingWriter { lw_wrapped : W; responseStatus : Z; responseBody : string }.
Arguments mkLoggingWriter {W}.
Arguments lw_wrapped {W}.
Arguments responseStatus {W}.
Arguments responseBody {W}.
#[export] Instance logging_writer {W} `{ResponseWriter W} : ResponseWriter (loggingWriter W) := {
  Write b w := mkLoggingWriter (Write b w.(lw_wrapped)) w.(responseStatus) b;
  WriteHeader status w := mkLoggingWriter (WriteHeader status w.(lw_wrapped)) status w.(responseBody);
}.
Definition NewLoggingWriter {W} (w : W) : loggingWriter W := mkLoggingWriter w 0 "".

(** What a handler does with its writer. *)
Inductive write_op := OpWriteHeader (code : Z) | OpWrite (b : string).
Definition perform_op {W} `{ResponseWriter W} (w : W) (o : write_op) : W :=
  match o with OpWriteHeader code => WriteHeader code w | OpWrite b => Write b w end.
Definition perform {W} `{ResponseWriter W} (ops : list write_op) (w : W) : W := foldl perform_op w ops.

(** A handler writes and returns, or panics after what it wrote. *)
Record outcome := mkOutcome { ops : list write_op; panics : bool }.

(** ** Requests and handlers *)

Definition Header := list (string * list string).
(** [Get] and [Set] with the name in its canonical form, which is how the server keeps it. *)
Definition header_Get (h : Header) (name : string) : string :=
  match get name h with Some (v :: _) => v | _ => "" end.
Definition header_Set (h : Header) (name value : string) : Header := set name [value] h.

Record HttpRequest := mkHttpRequest {
  method : Method;
  urlPath : string;
  RequestURI : string;
  RemoteAddr : string;
  header : Header;
  http_body : result string string;
  http_query : string -> string;
  (** ctx.Value(OpIDKey) *)
  opID : option string;
  (** mux.CurrentRoute, with what GetPathTemplate returns *)
  route : option (result string string);
}.
Definition set_path (p : string) (r : HttpRequest) : HttpRequest :=
  mkHttpRequest r.(method) p r.(RequestURI) r.(RemoteAddr) r.(header) r.(http_body) r.(http_query) r.(opID) r.(route).
Definition set_route (t : string) (r : HttpRequest) : HttpRequest :=
  mkHttpRequest r.(method) r.(urlPath) r.(RequestURI) r.(RemoteAddr) r.(header) r.(http_body) r.(http_query) r.(opID) (Some (Ok t)).
Definition set_opID (id : string) (r : HttpRequest) : HttpRequest :=
  mkHttpRequest r.(method) r.(urlPath) r.(RequestURI) r.(RemoteAddr) r.(header) r.(http_body) r.(http_query) (Some id) r.(route).
Definition set_header (h : Header) (r : HttpRequest) : HttpRequest :=
  mkHttpRequest r.(method) r.(urlPath) r.(RequestURI) r.(RemoteAddr) h r.(http_body) r.(http_query) r.(opID) r.(route).

Definition method_name (m : Method) : string :=
  match m with GET => "GET" | POST => "POST" | PATCH => "PATCH" | DELETE => "DELETE" end.

(** What serving a request leaves besides the response. *)
Inductive effect :=
| Sampled (s : sample)
| Logged (level : Z) (msg : string).

Record served (W : Type) := mkServed { writer : W; panicked : bool; effects : list effect }.
Arguments mkServed {W}.
Arguments writer {W}.
Arguments panicked {W}.
Arguments effects {W}.
Definition handler (W : Type) := HttpRequest -> W -> M World (served W).
Definition http_HandlerFunc {W} `{ResponseWriter W} (h : HttpRequest -> M World outcome) : handler W :=
  fun r w => let! o := h r in ret (mkServed (perform o.(ops) w) o.(panics) []).

(** ** operationid_middleware.go *)

(** "X-Operation-ID" in its canonical form *)
Definition OpIDHeader : string := "X-Operation-Id".

Section Middleware.
Context `{env : Env}.

(** ctx.Value(OpIDKey) after WithOpID(ctx), of what it was before *)
Definition WithOpID (ctx : option string) : M World (option string) :=
  match ctx with
  | Some _ => ret ctx
  | None => let! opID := new_id in ret (Some opID)
  end.
Definition GetOperationID (ctx : option string) : string :=
  match ctx with Some opID => opID | None => "" end.

(** The span attribute and the values of the logger are left out. *)
Definition OperationIDMiddleware {W} (next : handler W) : handler W :=
  fun r w =>
    let id := header_Get r.(header) OpIDHeader in
    if decide (id <> "") then next (set_opID id r) w
    else
      let! ctx := WithOpID r.(opID) in
      let id := GetOperationID ctx in
      next (set_header (header_Set r.(header) OpIDHeader id) (set_opID id r)) w.

(** ** logging *)

(** [v4] is logger.V(4).Enabled(). *)
Context (v4 : bool).

Definition omitempty (name value : string) : list (string * json) :=
  if decide (value = "") then [] else [(name, JStr value)].

(** jsonRequestLog: the body is a value of a type of net/http without exported fields. *)
Definition FormatRequestLog (r : HttpRequest) : string :=
  Json.Marshal (JObj (
    [("request_method", JStr (method_name r.(method))); ("request_url", JStr r.(RequestURI))] ++
    (if v4 then
       (if decide (r.(header) = []) then [] else
          [("request_header", JObj ((fun kv => (kv.1, JArr (JStr <$> kv.2))) <$> r.(header)))]) ++
       [("request_body", JObj [])]
     else []) ++
    omitempty "request_remote_ip" r.(RemoteAddr))).

(** The header of the response info is not carried over. *)
Definition FormatResponseLog (status : Z) (body elapsed : string) : string :=
  Json.Marshal (JObj (
    (if decide (status = 0) then [] else [("response_status", JNum status)]) ++
    (if v4 then omitempty "response_body" body else []) ++
    omitempty "elapsed" elapsed)).

Definition prepareResponseLog {W} (w : loggingWriter W) (elapsed : string) : string :=
  FormatResponseLog w.(responseStatus) w.(responseBody) elapsed.

Definition doLog (urlPath : string) : bool := negb (bool_decide (TrimSuffix urlPath "/" = "/api/maestro")).
Definition logLevel (urlPath : string) : Z :=
  let path := TrimSuffix urlPath "/" in
  if decide (path = "/healthcheck") then 4 else if decide (path = "/livez") then 4 else 2.

(** [elapsed] is the printed duration. *)
Definition RegisterLoggerMiddleware {W} (elapsed : string) (next : handler (loggingWriter W)) : handler W :=
  fun r w =>
    let log msg := if doLog r.(urlPath) then [Logged (logLevel r.(urlPath)) msg] else [] in
    let request_log := log (FormatRequestLog r) in
    let! s := next r (NewLoggingWriter w) in
    let response_log := if s.(panicked) then [] else log (prepareResponseLog s.(writer) elapsed) in
    ret (mkServed s.(writer).(lw_wrapped) s.(panicked) (request_log ++ s.(effects) ++ response_log)).

(** ** metrics_middleware.go *)

Definition PathVarSub : string := "-".

(** metricsPathVarRE.ReplaceAllString(template, PathVarSub) for the expression of an opening
    brace, any characters but a closing one, and the closing brace; [pending] is what was
    read since the opening one. *)
Fixpoint ReplaceVars (pending : option string) (s : string) : string :=
  match s, pending with
  | "", None => ""
  | "", Some p => "{" +:+ p
  | String c s, None => if decide (c = "{"%char) then ReplaceVars (Some "") s else String c (ReplaceVars None s)
  | String c s, Some p =>
      if decide (c = "}"%char) then PathVarSub +:+ ReplaceVars None s else ReplaceVars (Some (p +:+ String c "")) s
  end.

Definition metrics_path (r : HttpRequest) : string :=
  match r.(route) with
  | Some (Ok template) => ReplaceVars None template
  | _ => "/" +:+ PathVarSub
  end.

Definition MetricsMiddleware {W} `{ResponseWriter W} (next : handler (metricsResponseWrapper W)) : handler W :=
  fun r w =>
    let! s := next r (mkMetricsResponseWrapper w 0) in
    let done_ := mkServed s.(writer).(wrapped) in
    if s.(panicked) then ret (done_ true s.(effects))
    else
      let labels := [("method", method_name r.(method)); ("path", metrics_path r); ("code", pretty s.(writer).(code))] in
      match With server.requestCountMetric labels Inc with
      | None => ret (done_ true s.(effects))
      | Some count =>
          match With server.requestDurationMetric labels Observe with
          | None => ret (done_ true (s.(effects) ++ [Sampled count]))
          | Some duration => ret (done_ false (s.(effects) ++ [Sampled count; Sampled duration]))
          end
      end.

End Middleware.

(** ** routes.go *)

(** gorilla/handlers' CompressHandler, on what the handler behind it writes: a status code is
    passed on when it comes; a response with a body keeps having one, and no code is made up. *)
Class CompressHandler := {
  compress : HttpRequest -> list write_op -> list write_op;
  compress_header : forall r c l, compress r (OpWriteHeader c :: l) = OpWriteHeader c :: compress r l;
  compress_writes : forall r bs, exists bs', compress r (OpWrite <$> bs) = OpWrite <$> bs' /\ (bs <> [] -> bs' <> []);
}.

(** What a handler that ends in writeJSONResponse does. *)
Definition reply_outcome `{TimeJSON} (rep : reply) : outcome :=
  match rep with
  | Replied code NoBody => mkOutcome [OpWriteHeader code] false
  | Replied code p => mkOutcome [OpWriteHeader code; OpWrite (response_body p).1] false
  | HandlerPanics => mkOutcome [] true
  end.
(** SendAPI and SendAPIV1 only write their body. *)
Definition metadata_outcome `{TimeJSON} (rep : reply) : outcome :=
  match rep with
  | Replied _ p => mkOutcome [OpWrite (response_body p).1] false
  | HandlerPanics => mkOutcome [] true
  end.
(** openAPIHandler.Get *)
Definition openapi_outcome (OpenAPIDefinitions : string) : outcome :=
  mkOutcome [OpWriteHeader 200; OpWrite OpenAPIDefinitions] false.

Section Server.
Context `{env : Env} `{gorm : Gorm} `{lf : LockFactory} `{ce : CloudEvents} `{k8s : K8s} `{codec : BodyCodec}
        `{tf : TimeFormat} `{cfg : ResourceConfig} `{cs : QueryStore Consumer} `{rs : QueryStore Resource} `{sl : SearchLib}
        `{pgl : PgAdvisory} `{rb : SqlRollback} `{tj : TimeJSON} `{gz : CompressHandler}.
Context (openAPIDefinitions : string) (v4 : bool) (elapsed : string).

Definition to_request (r : HttpRequest) : Request :=
  mkRequest (GetOperationID r.(opID)) r.(http_body) "" r.(http_query).

Definition apiV1 : string := "/api/maestro/v1".
(** The segments of a path under /api/maestro/v1. *)
Definition v1_segments (path : string) : option (list string) :=
  if HasPrefix path apiV1 then
    match TrimPrefix path apiV1 with
    | "" => Some []
    | String c rest => if decide (c = slash) then Some (Split rest slash) else None
    end
  else None.

(** The full path template of a route of a collection. *)
Definition collection_template (segments : list string) : string :=
  match segments with
  | [collection] => apiV1 +:+ "/" +:+ collection
  | _ => apiV1 +:+ "/" +:+ default "" (head segments) +:+ "/{id}"
  end.

Definition compressed (r : HttpRequest) (o : outcome) : outcome := mkOutcome (compress r o.(ops)) o.(panics).

(** A handler of apiV1Router behind registerApiMiddleware, the metrics apart. *)
Definition in_transaction (next : HttpRequest -> M World outcome) (r : HttpRequest) : M World outcome :=
  TransactionMiddleware (fun err => reply_outcome (handleError (to_request r) err))
    (let! o := next r in ret (compressed r o)).

(** The route of apiV1Router for a request, with its template and its handler. Which route it
    is depends on the method and the path only, so the inner [None] does not arise. *)
Definition apiV1Router (r : HttpRequest) : option (string * (HttpRequest -> M World outcome)) :=
  match v1_segments r.(urlPath) with
  | None => None
  | Some [] =>
      match r.(method) with
      | GET => Some (apiV1, fun r => ret (metadata_outcome (SendAPIV1 r.(urlPath))))
      | _ => None
      end
  | Some segments =>
      if decide (segments = [""]) then
        match r.(method) with
        | GET => Some (apiV1 +:+ "/", fun r => ret (metadata_outcome (SendAPIV1 r.(urlPath))))
        | _ => None
        end
      else if decide (segments = ["openapi"]) then
        match r.(method) with
        | GET => Some (apiV1 +:+ "/openapi", fun _ => ret (openapi_outcome openAPIDefinitions))
        | _ => None
        end
      else
        match routes r.(method) segments (to_request r) with
        | None => None
        | Some _ =>
            Some (collection_template segments, fun r =>
              match routes r.(method) segments (to_request r) with
              | Some next => let! rep := next in ret (reply_outcome rep)
              | None => ret (mkOutcome [] true)
              end)
        end
  end.

(** mainRouter: the middleware runs for a request that has a route; the router answers the
    others itself ([None]). *)
Definition mainRouter (r : HttpRequest) (w : http_response) : option (M World (served http_response)) :=
  if decide (r.(urlPath) = "/api/maestro" /\ r.(method) = GET) then
    Some (OperationIDMiddleware
            (RegisterLoggerMiddleware v4 elapsed
               (http_HandlerFunc (fun r => ret (metadata_outcome (SendAPI r.(urlPath))))))
            (set_route "/api/maestro" r) w)
  else
    match apiV1Router r with
    | None => None
    | Some (template, next) =>
        Some (OperationIDMiddleware
                (RegisterLoggerMiddleware v4 elapsed (MetricsMiddleware (http_HandlerFunc (in_transaction next))))
                (set_route template r) w)
    end.

Definition removeTrailingSlash (r : HttpRequest) : HttpRequest := set_path (TrimSuffix r.(urlPath) "/") r.

(** A request as the server answers it (the CORS checks and the tracing apart). *)
Definition serve_request (r : HttpRequest) : option (M World (served http_response)) :=
  mainRouter (removeTrailingSlash r) fresh_response.

End Server.
