(* ===== verification/MiddlewareFacts.v ===== *)
(** * The middleware stack: transparent to the response, exact in what it records *)

From S2P Require Import Prelude GoLib Errors Types Json Bundle Validation Gorm World Collectors Dao DaoFacts Locks Transactions Services ListQuery GenericList Presenters SliceFilter Rest Pager JsonStruct GoMap Models OpenapiClient Wire Middleware.
Import api errors Strings Fmt.

Open Scope Z_scope.

(** ** Strings *)

Lemma TrimSuffix_cases s suf : TrimSuffix s suf = s \/ s = TrimSuffix s suf +:+ suf.
Proof.
  induction s as [|c s IH]; cbn [TrimSuffix]; case_decide as Heq; [by right|by left|by right|].
  destruct IH as [->|IH]; [by left|right]. by rewrite IH at 1.
Qed.

(** ** The writers *)

Definition codes (l : list write_op) : list Z := omap (fun o => match o with OpWriteHeader c => Some c | OpWrite _ => None end) l.
Definition writes (l : list write_op) : list string := omap (fun o => match o with OpWrite b => Some b | OpWriteHeader _ => None end) l.
(** What loggingWriter remembers. *)
Definition logged_status (l : list write_op) : Z := default 0 (last (codes l)).
Definition logged_body (l : list write_op) : string := default "" (last (writes l)).

Definition metric_code (k : Z) (l : list write_op) : Z :=
  foldl (fun k o => match o with OpWriteHeader c => c | OpWrite _ => if k =? 0 then 200 else k end) k l.

Lemma perform_metrics {W} `{ResponseWriter W} l (w : W) k :
  perform l (mkMetricsResponseWrapper w k) = mkMetricsResponseWrapper (perform l w) (metric_code k l).
Proof. revert w k. induction l as [|[c|b] l IH]; intros w k; [done| |]; unfold perform in *; cbn; by rewrite IH. Qed.

Lemma perform_logging {W} `{ResponseWriter W} l (w : W) s b :
  perform l (mkLoggingWriter w s b) =
  mkLoggingWriter (perform l w) (default s (last (codes l))) (default b (last (writes l))).
Proof.
  revert w s b. induction l as [|[c|d] l IH]; intros w s b; [done| |].
  - change (codes (OpWriteHeader c :: l)) with (c :: codes l). rewrite last_cons.
    change (writes (OpWriteHeader c :: l)) with (writes l).
    etrans; [apply IH|]. by destruct (last (codes l)).
  - change (writes (OpWrite d :: l)) with (d :: writes l). rewrite last_cons.
    change (codes (OpWrite d :: l)) with (codes l).
    etrans; [apply IH|]. by destruct (last (writes l)).
Qed.

(** ** The shape of an answer *)

(** A handler that does not panic sets one status and then writes, or only writes. *)
Definition answered (l : list write_op) : Prop :=
  (exists c bs, l = OpWriteHeader c :: (OpWrite <$> bs)) \/ (exists bs, bs <> [] /\ l = OpWrite <$> bs).

Lemma writes_keep_status bs w c : w.(status) = Some c -> (perform (OpWrite <$> bs) w).(status) = Some c.
Proof.
  revert w. induction bs as [|b bs IH]; intros w Hw; [done|].
  change (perform (OpWrite <$> b :: bs) w) with (perform (OpWrite <$> bs) (Write b w)).
  apply IH. cbn. by rewrite Hw.
Qed.
Lemma writes_keep_code bs k : k <> 0 -> metric_code k (OpWrite <$> bs) = k.
Proof.
  intros Hk. induction bs as [|b bs IH]; [done|].
  change (metric_code k (OpWrite <$> b :: bs)) with (metric_code (if k =? 0 then 200 else k) (OpWrite <$> bs)).
  by rewrite (proj2 (Z.eqb_neq k 0) Hk).
Qed.

(** The code the metrics see is the status the client gets. *)
Lemma answered_code l :
  answered l -> (forall c, OpWriteHeader c ∈ l -> 200 <= c) ->
  metric_code 0 l = final_status (perform l fresh_response).
Proof.
  intros [(c & bs & ->)|(bs & Hne & ->)] Hfinal; unfold final_status.
  - specialize (Hfinal c ltac:(set_solver)).
    change (metric_code 0 (OpWriteHeader c :: (OpWrite <$> bs))) with (metric_code c (OpWrite <$> bs)).
    rewrite writes_keep_code by lia.
    change (perform (OpWriteHeader c :: (OpWrite <$> bs)) fresh_response)
      with (perform (OpWrite <$> bs) (WriteHeader c fresh_response)).
    rewrite (writes_keep_status bs _ c); [done|]. cbn.
    by rewrite (proj2 (Z.leb_gt c 199)), andb_false_r by lia.
  - destruct bs as [|b bs]; [done|].
    change (metric_code 0 (OpWrite <$> b :: bs)) with (metric_code 200 (OpWrite <$> bs)).
    rewrite writes_keep_code by lia.
    change (perform (OpWrite <$> b :: bs) fresh_response) with (perform (OpWrite <$> bs) (Write b fresh_response)).
    by rewrite (writes_keep_status bs _ 200).
Qed.

Lemma answered_compress `{CompressHandler} r l : answered l -> answered (compress r l).
Proof.
  intros [(c & bs & ->)|(bs & Hne & ->)].
  - left. rewrite compress_header. destruct (compress_writes r bs) as (bs' & -> & _). eauto.
  - right. destruct (compress_writes r bs) as (bs' & -> & Hne'). eauto.
Qed.

Lemma reply_answered `{TimeJSON} rep : (reply_outcome rep).(panics) = false -> answered (reply_outcome rep).(ops).
Proof.
  destruct rep as [c p|]; [|done]. intros _. left.
  destruct p as [| | | | | | | | |]; [by exists c, []|..]; (eexists c, [_]; reflexivity).
Qed.
Lemma metadata_answered `{TimeJSON} rep : (metadata_outcome rep).(panics) = false -> answered (metadata_outcome rep).(ops).
Proof. destruct rep as [c p|]; [|done]. intros _. right. by exists [(response_body p).1]. Qed.

(** ** The path label *)

Definition api_paths : list string :=
  ["/api/maestro/v1"; "/api/maestro/v1/"; "/api/maestro/v1/openapi"; "/api/maestro/v1/errors"; "/api/maestro/v1/errors/-";
   "/api/maestro/v1/resource-bundles"; "/api/maestro/v1/resource-bundles/-"; "/api/maestro/v1/consumers";
   "/api/maestro/v1/consumers/-"].

(** ** The operation id *)

(** The id a request is given: the client's, or the one of its context, or a new one. *)
Definition operation_id `{Env} (r : HttpRequest) : M World string :=
  let id := header_Get r.(header) OpIDHeader in
  if decide (id <> "") then ret id
  else match r.(opID) with Some id => ret id | None => new_id end.

(** The request the handler sees. *)
Definition identified (id : string) (r : HttpRequest) : HttpRequest :=
  let r' := set_opID id r in
  if decide (header_Get r.(header) OpIDHeader <> "") then r'
  else set_header (header_Set r.(header) OpIDHeader id) r'.

Lemma OperationIDMiddleware_run `{Env} {W} (next : handler W) r w :
  forall s, OperationIDMiddleware next r w s = (let '(id, s1) := operation_id r s in next (identified id r) w s1).
Proof.
  intros s. unfold OperationIDMiddleware, operation_id, identified. case_decide as Hid; [done|].
  destruct (opID r) as [id|] eqn:E; unfold WithOpID, GetOperationID; [done|]. by unfold bind, ret; destruct (new_id s).
Qed.

Lemma identified_id `{Env} r s : forall id s1, operation_id r s = (id, s1) ->
  GetOperationID (identified id r).(opID) = id /\ header_Get (identified id r).(header) OpIDHeader = id.
Proof.
  intros id s1. unfold operation_id, identified. case_decide as Hid.
  - intros [= <- _]. done.
  - intros _. split; [done|]. cbn. unfold header_Get, header_Set. by rewrite get_set, String.eqb_refl.
Qed.

Section Server.
Context `{env : Env} `{gorm : Gorm} `{lf : LockFactory} `{ce : CloudEvents} `{k8s : K8s} `{codec : BodyCodec}
        `{tf : TimeFormat} `{cfg : ResourceConfig} `{cs : QueryStore Consumer} `{rs : QueryStore Resource} `{sl : SearchLib}
        `{pgl : PgAdvisory} `{rb : SqlRollback} `{tj : TimeJSON} `{gz : CompressHandler}.
Context (openAPIDefinitions : string) (v4 : bool) (elapsed : string).

(** The route does not depend on the request's context, body or query. *)
Lemma routes_any m segs req req' : is_Some (routes m segs req) -> is_Some (routes m segs req').
Proof.
  unfold routes. destruct segs as [|c [|id [|? ?]]]; [done| | |done]; repeat case_decide; try done; by destruct m.
Qed.

Lemma template_paths m segs req :
  is_Some (routes m segs req) -> ReplaceVars None (collection_template segs) ∈ api_paths.
Proof.
  unfold routes. destruct segs as [|c [|id [|? ?]]]; [by intros []| | |by intros []]; cbn [collection_template head];
    intros Hr; repeat case_decide; try (by destruct Hr); subst; apply (bool_decide_unpack _); vm_compute; exact I.
Qed.

Lemma apiV1Router_template r template next :
  apiV1Router openAPIDefinitions r = Some (template, next) -> ReplaceVars None template ∈ api_paths.
Proof.
  unfold apiV1Router. destruct (v1_segments _) as [[|g segs]|] eqn:E; [| |done].
  - destruct (method r); intros; simplify_eq; apply (bool_decide_unpack _); vm_compute; exact I.
  - repeat case_decide.
    1,2: destruct (method r); intros; simplify_eq; apply (bool_decide_unpack _); vm_compute; exact I.
    destruct (routes _ _ _) eqn:Hr; [|done]. intros; simplify_eq. eapply template_paths. by rewrite Hr.
Qed.

Lemma apiV1Router_path r template next : apiV1Router openAPIDefinitions r = Some (template, next) -> HasPrefix r.(urlPath) apiV1.
Proof. unfold apiV1Router, v1_segments. destruct (HasPrefix _ _); done. Qed.

Lemma apiV1Router_logged r template next :
  apiV1Router openAPIDefinitions r = Some (template, next) -> doLog r.(urlPath) = true /\ r.(urlPath) <> "/api/maestro".
Proof.
  intros Hp%apiV1Router_path. split; [|by intros Heq; rewrite Heq in Hp].
  unfold doLog. apply negb_true_iff, bool_decide_eq_false. intros Heq.
  destruct (TrimSuffix_cases r.(urlPath) "/") as [Hs|Hs]; rewrite Heq in Hs; rewrite <-?Hs in Hp; [done|].
  by rewrite Hs in Hp.
Qed.

(** What the handler of a route answers. *)
Lemma in_transaction_answered r0 template next r w :
  apiV1Router openAPIDefinitions r0 = Some (template, next) ->
  let '(o, _) := in_transaction next r w in o.(panics) = false -> answered o.(ops).
Proof.
  intros Hroute.
  assert (Hnext : forall r w, let '(o, _) := next r w in o.(panics) = false -> answered o.(ops)).
  { intros r' w'. unfold apiV1Router in Hroute. destruct (v1_segments _) as [[|g segs]|]; [| |done].
    - destruct (method r0); simplify_eq. exact (metadata_answered (SendAPIV1 r'.(urlPath))).
    - repeat case_decide.
      + destruct (method r0); simplify_eq. exact (metadata_answered (SendAPIV1 r'.(urlPath))).
      + destruct (method r0); simplify_eq. left. by exists 200, [openAPIDefinitions].
      + destruct (routes (method r0) _ _); [|done]. simplify_eq.
        destruct (routes (method r') _ _) as [h|]; [|done]. unfold bind, ret. destruct (h w') as [rep w2].
        by apply reply_answered. }
  unfold in_transaction, TransactionMiddleware, bind, ret. destruct (NewContext w) as [[t|e] w1]; [|exact (reply_answered _)].
  specialize (Hnext r w1). destruct (next r w1) as [o w2]. destruct (Resolve t w2).
  cbn. intros Hp. apply answered_compress. auto.
Qed.

(** The middleware around the transaction, on what the handler in it does. *)
Definition stack (next : HttpRequest -> M World outcome) : handler http_response :=
  OperationIDMiddleware (RegisterLoggerMiddleware v4 elapsed (MetricsMiddleware (http_HandlerFunc (in_transaction next)))).

Lemma stack_run next r w id w1 o w2 :
  operation_id r w = (id, w1) -> in_transaction next (identified id r) w1 = (o, w2) -> doLog r.(urlPath) = true ->
  exists s, stack next r fresh_response w = (s, w2) /\
    s = mkServed (perform o.(ops) fresh_response) o.(panics) s.(effects) /\
    let labels := [method_name r.(method); metrics_path r; pretty (metric_code 0 o.(ops))] in
    s.(effects) = Logged (logLevel r.(urlPath)) (FormatRequestLog v4 (identified id r)) ::
      (if o.(panics) then [] else
         [Sampled (mkSample server.requestCountMetric labels Inc); Sampled (mkSample server.requestDurationMetric labels Observe);
          Logged (logLevel r.(urlPath)) (FormatResponseLog v4 (logged_status o.(ops)) (logged_body o.(ops)) elapsed)]).
Proof.
  intros Hid Ho Hlog.
  assert (Hr1 : (identified id r).(urlPath) = r.(urlPath) /\ (identified id r).(method) = r.(method) /\
                metrics_path (identified id r) = metrics_path r) by (unfold identified; by case_decide).
  destruct Hr1 as (Hu & Hm & Ht). unfold stack. rewrite OperationIDMiddleware_run, Hid.
  unfold RegisterLoggerMiddleware, MetricsMiddleware, http_HandlerFunc, bind, ret, NewLoggingWriter.
  rewrite Ho. cbn [writer panicked effects wrapped code]. rewrite perform_metrics, perform_logging, Hu, Hlog.
  cbn [wrapped code]. rewrite Hm, Ht. destruct (panics o); eexists; (split; [reflexivity|]); done.
Qed.

(** C20: A request of the REST API that has a route, through every layer of the server: the trailing slash, the
    operation id, the log, the metrics, the transaction. The handler of the route runs once, inside the transaction,
    on a request whose operation id is the client's X-Operation-ID header if there is one, else that of its context,
    else a new one, and which carries that id in its header too. The client gets exactly what the handler (or the
    refused transaction) wrote, the database is left as the handler left it, and a panic is passed on. Unless there
    was one, exactly one request is counted and timed, under the request's method, a path that is one of nine whatever
    ids the request names, and the status the client got; two lines are logged, the second with the code the handler
    set (none if it set none). After a panic only the line of the request is there. The handlers' codes are final
    ones, 200 or above. *)
Theorem serve_request_spec r w template next :
  let r' := removeTrailingSlash r in
  apiV1Router openAPIDefinitions r' = Some (template, next) ->
  let '(id, w1) := operation_id r w in
  let r1 := identified id (set_route template r') in
  let '(o, w2) := in_transaction next r1 w1 in
  (forall c, OpWriteHeader c ∈ o.(ops) -> 200 <= c) ->
  exists run s, serve_request openAPIDefinitions v4 elapsed r = Some run /\ run w = (s, w2) /\
    s.(writer) = perform o.(ops) fresh_response /\ s.(panicked) = o.(panics) /\
    GetOperationID r1.(opID) = id /\ header_Get r1.(header) OpIDHeader = id /\
    let labels := [method_name r.(method); ReplaceVars None template; pretty (final_status s.(writer))] in
    let level := logLevel r'.(urlPath) in
    ReplaceVars None template ∈ api_paths /\
    s.(effects) = Logged level (FormatRequestLog v4 r1) ::
      (if o.(panics) then [] else
         [Sampled (mkSample server.requestCountMetric labels Inc);
          Sampled (mkSample server.requestDurationMetric labels Observe);
          Logged level (FormatResponseLog v4 (logged_status o.(ops)) (logged_body o.(ops)) elapsed)]).
Proof.
  intros r' Hroute. destruct (apiV1Router_logged _ _ _ Hroute) as [Hlog Hpath].
  destruct (operation_id r w) as [id w1] eqn:Hid.
  assert (Hid' : operation_id (set_route template r') w = (id, w1)) by done.
  intros r1.
  pose proof (in_transaction_answered r' template next r1 w1 Hroute) as Hans.
  destruct (in_transaction next r1 w1) as [o w2] eqn:Ho. intros Hfinal.
  destruct (identified_id _ _ _ _ Hid') as [Hg Hh].
  unfold serve_request, mainRouter. fold r'. rewrite decide_False by tauto. rewrite Hroute.
  destruct (stack_run next (set_route template r') w id w1 o w2 Hid' Ho Hlog) as (s & Hrun & Hs & He).
  eexists _, s. split; [done|]. split; [done|]. rewrite Hs. cbn [writer panicked effects].
  split_and!; [done..|by eapply apiV1Router_template|]. rewrite He. destruct (panics o); [done|]. by rewrite answered_code by auto.
Qed.
End Server.
