(* ===== verification/Cli.v ===== *)
(** * cmd/maestro: the command line clients

    common/clients/rest.go and grpc.go over the generated client and the gRPC service, and
    the commands consumer create, get, list, update, delete and resourcebundle apply, get,
    list, status, delete. A command prints something and ends with or without an error.
    Building an event is the class [SpecEvents] (the CloudEvents library); the connection
    the events go over is a parameter. *)

From S2P Require Import Prelude GoLib Sha256 Errors Types Json Bundle Validation Gorm World Dao DaoFacts Locks Transactions Services ServiceFacts Auth SourceClient EventServer GrpcServer ListQuery GenericList Presenters SliceFilter Rest Pager JsonStruct GoMap Models ModelFacts Configuration CliConfig CliOutput OpenapiClient Wire.
Import api errors Strings Fmt.

Open Scope Z_scope.

(** ** rest.go *)

(** An error in a message with %w *)
Definition error_text (err : option (string + GenericOpenAPIError)) : string :=
  match err with
  | None => "%!w(<nil>)"
  | Some (inl err) => err
  | Some (inr err) => err.(err_error)
  end.

Fixpoint message_of (code : Z) (messages : list (Z * string)) : option string :=
  match messages with
  | [] => None
  | (c, msg) :: messages => if code =? c then Some msg else message_of code messages
  end.

(** The switch on the status code at the end of every method: what the expected code gives,
    and the messages of the others. *)
Definition by_status {A B} (expected : Z) (success : outcome A -> result B string) (messages : list (Z * string))
  (o : outcome A) : result B string :=
  match o.(o_response) with
  | None => Err ("no HTTP response received, err=" +:+ error_text o.(o_error))
  | Some resp =>
      if resp.(StatusCode) =? expected then success o
      else match message_of resp.(StatusCode) messages with
           | Some msg => Err msg
           | None => Err (Sprintf "unexpected status code %d, err=%s" [GInt resp.(StatusCode); GStr (error_text o.(o_error))])
           end
  end.

(** A value is returned unless it could not be decoded; it may be nil. *)
Definition decoded_value {A} (what : string) (o : outcome A) : result (option A) string :=
  match o.(o_error) with
  | Some err => Err (Sprintf "failed to decode %s response: %s" [GStr what; GStr (error_text (Some err))])
  | None => Ok o.(o_value)
  end.

Definition access_messages : list (Z * string) := [(401, "authentication failed"); (403, "permission denied")].

Module RESTClient.
Section Methods.
Context {St : Type} `{codec : ClientCodec}.
Variable ServerURL : string -> result string string.
Variable Do : http_request -> M St (result http_response string).

(** The page and the size of a list, cut to 32 bits. *)
Definition list_request (page size : Z) (search : string) : ListRequest :=
  let req := Size (Int.int32 size) (Page (Int.int32 page) newListRequest) in
  if decide (search = "") then req else Search search req.

Definition ListResourceBundles (page size : Z) (search : string) : M St (result (option (ModelList ResourceBundle)) string) :=
  let! o := ApiMaestroV1ResourceBundlesGetExecute ServerURL Do (list_request page size search) in
  ret (by_status 200 (decoded_value "resource bundle list") ((404, "resource bundle not found") :: access_messages) o).

Definition GetResourceBundle (id : string) : M St (result (option ResourceBundle) string) :=
  let! o := ApiMaestroV1ResourceBundlesIdGetExecute ServerURL Do id None in
  ret (by_status 200 (decoded_value "resource bundle") ((404, "resource bundle not found") :: access_messages) o).

Definition DeleteResourceBundle (id : string) : M St (result unit string) :=
  let! o := ApiMaestroV1ResourceBundlesIdDeleteExecute ServerURL Do id in
  ret (by_status 204 (fun _ => Ok tt) ((404, "resource bundle not found") :: access_messages) o).

Definition ListConsumers (page size : Z) (search : string) : M St (result (option (ModelList OpenConsumer)) string) :=
  let! o := ApiMaestroV1ConsumersGetExecute ServerURL Do (list_request page size search) in
  ret (by_status 200 (decoded_value "consumer list") ((404, "consumer not found") :: access_messages) o).

Definition GetConsumer (id : string) : M St (result (option OpenConsumer) string) :=
  let! o := ApiMaestroV1ConsumersIdGetExecute ServerURL Do id in
  ret (by_status 200 (decoded_value "consumer") ((404, "consumer not found") :: access_messages) o).

Definition CreateConsumer (consumer : OpenConsumer) : M St (result (option OpenConsumer) string) :=
  let! o := ApiMaestroV1ConsumersPostExecute ServerURL Do (Some consumer) in
  ret (by_status 201 (decoded_value "consumer") ((400, "bad request") :: (409, "consumer already exists") :: access_messages) o).

Definition UpdateConsumer (id : string) (consumer : ConsumerPatchRequest) : M St (result (option OpenConsumer) string) :=
  let! o := ApiMaestroV1ConsumersIdPatchExecute ServerURL Do id (Some consumer) in
  ret (by_status 200 (decoded_value "consumer") ((404, "consumer not found") :: (400, "bad request") :: access_messages) o).

Definition DeleteConsumer (id : string) : M St (result unit string) :=
  let! o := ApiMaestroV1ConsumersIdDeleteExecute ServerURL Do id in
  ret (by_status 204 (fun _ => Ok tt)
         ((404, "consumer not found") :: (409, "conflict - consumer has existing resources") :: access_messages) o).
End Methods.
End RESTClient.

(** ** grpc.go *)

(** Building a spec event. *)
Class SpecEvents `{ce : CloudEvents} := {
  NewEvent : CE;
  SetDataContentType : string -> CE -> CE;
  (** SetData(ApplicationJSON, data) of a map *)
  SetSpecData : list (string * json) -> CE -> result CE string;
}.
Arguments SpecEvents ce : clear implicits.
Arguments SpecEvents {ce}.

Module GRPCClient.
Section Methods.
Context `{env : Env} `{eo : EventOps} `{se : !SourceEvents} `{sp : !SpecEvents}.
(** c.client.Publish: the error of the call *)
Variable Call : PBEvent -> M World (option string).

Definition publish (evt : CE) : M World (option string) :=
  match WritePBMessage evt with
  | Err err => ret (Some (Sprintf "failed to convert CloudEvent to protobuf: %s" [GStr err]))
  | Ok pbEvt =>
      let! err := Call pbEvt in
      ret (match err with
           | Some err => Some (Sprintf "failed to publish CloudEvent: %s" [GStr err])
           | None => None
           end)
  end.

(** A JSON value of a slice of maps. *)
Definition maps_json (l : list JSONMap) : json := JArr ((fun m => match m with None => JNull | Some m => JObj m end) <$> l).

(** A spec event of the client up to its extensions. *)
Definition spec_event (source action resourceID : string) (resourceVersion : Z) (consumerName : string) : M World CE :=
  let! id := new_id in
  let evt := SetSource source (SetID id NewEvent) in
  let evt := SetType (TypeString (mkCloudEventsType ManifestBundleEventDataType SubResourceSpec action)) evt in
  let evt := SetDataContentType "application/json" evt in
  let evt := SetExtension ExtensionResourceID (ext_string resourceID) evt in
  let evt := SetExtension ExtensionResourceVersion (ext_int resourceVersion) evt in
  ret (SetExtension ExtensionClusterName (ext_string consumerName) evt).

Definition spec_data (bundle : ResourceBundle) (manifests : list JSONMap) : list (string * json) :=
  let data := [("manifests", maps_json manifests)] in
  let data := match bundle.(rb_ManifestConfigs) with
              | Some (_ :: _ as configs) => oset "manifestConfigs" (maps_json configs) data
              | _ => data
              end in
  match bundle.(rb_DeleteOption) with
  | Some o => oset "deleteOption" (JObj o) data
  | None => data
  end.

Definition supported (action : string) : bool :=
  bool_decide (action = GRPCBroker.CreateRequestAction \/ action = GRPCBroker.UpdateRequestAction).

Definition nonempty (s : option string) : option string :=
  match s with None => None | Some s => if decide (s = "") then None else Some s end.

(** [None] is a nil bundle. *)
Definition Apply (source : string) (bundle : option ResourceBundle) (action : string) : M World (option string) :=
  match bundle with
  | None => ret (Some "resource bundle is required")
  | Some bundle =>
  match nonempty bundle.(rb_Id) with
  | None => ret (Some "resource bundle ID is required")
  | Some resourceID =>
  match bundle.(rb_Version) with
  | None => ret (Some "resource bundle version is required")
  | Some version =>
  match nonempty bundle.(rb_ConsumerName) with
  | None => ret (Some "consumer name is required")
  | Some consumerName =>
  match bundle.(rb_Manifests) with
  | None | Some [] => ret (Some "manifest must specify at least one item in 'manifests'")
  | Some manifests =>
      if negb (supported action) then ret (Some (Sprintf "unsupported action for Apply: %s" [GStr action]))
      else
        let! evt := spec_event source action resourceID version consumerName in
        let evt := match bundle.(rb_Metadata) with
                   | Some metadata => SetExtension ExtensionWorkMeta (ext_string (Json.Marshal (JObj metadata))) evt
                   | None => evt
                   end in
        match SetSpecData (spec_data bundle manifests) evt with
        | Err err => ret (Some (Sprintf "failed to set CloudEvent data: %s" [GStr err]))
        | Ok evt =>
            let! err := publish evt in
            ret (match err with
                 | Some err => Some (Sprintf "failed to publish CloudEvent: %s" [GStr err])
                 | None => None
                 end)
        end
  end end end end end.

Definition Delete (source resourceID consumerName : string) (resourceVersion : Z) : M World (option string) :=
  if decide (resourceID = "") then ret (Some "resource ID is required")
  else if decide (consumerName = "") then ret (Some "consumer name is required")
  else
    let! evt := spec_event source GRPCBroker.DeleteRequestAction resourceID resourceVersion consumerName in
    let! err := publish evt in
    ret (match err with
         | Some err => Some (Sprintf "failed to publish delete CloudEvent: %s" [GStr err])
         | None => None
         end).
End Methods.
End GRPCClient.

(** ** The commands *)

Section Commands.
Context `{env : Env} `{eo : EventOps} `{se : !SourceEvents} `{sp : !SpecEvents} `{codec : ClientCodec} `{tj : TimeJSON}
        `{js : JsonSyntax} `{durations : Durations} `{files : TLSFiles} `{dial : GrpcDial} `{clock : ClockFormat}
        `{order : MapOrder}.
(** The connections the clients make: HTTP requests, and calls of Publish. *)
Variable Do : RESTClient -> http_request -> M World (result http_response string).
Variable Call : GRPCClient -> PBEvent -> M World (option string).
Variable cmd : Command.

Definition ends (err : string) : M World exit := ret (mkExit "" (Some err)).
Definition prints (text : string) : M World exit := ret (mkExit text None).

(** The REST client of the command. *)
Definition rest_client : result RESTClient string :=
  match LoadRESTConfigFromFlags cmd with
  | Err err => Err err
  | Ok cfg => map_err (fun err => Sprintf "failed to create REST client: %s" [GStr err]) (NewRESTClient (Some cfg))
  end.
Definition url_of (c : RESTClient) : string -> result string string := ServerURLWithContext c.(client) (Some Background).

(** The end of the commands that show something: the value in the chosen format. *)
Definition show_as (table json : exit) : M World exit :=
  match GetFormat cmd with
  | Err err => ends err
  | Ok FormatTable => ret table
  | Ok FormatJSON => ret json
  end.
Definition pointer_json {A} (ToMap : A -> serialized) (v : option A) : result json string :=
  match v with None => Ok JNull | Some v => serialized_json (ToMap v) end.
Definition show_consumer (c : option OpenConsumer) : M World exit :=
  show_as (PrintConsumer c) (PrintJSON (pointer_json Consumer_ToMap c)).
Definition show_list {A} (table : list A -> exit) (ToMap : ModelList A -> serialized) (l : option (ModelList A)) : M World exit :=
  show_as (table (default [] (l ≫= ml_Items))) (PrintJSON (pointer_json ToMap l)).

(** *** consumer *)

(** The labels of --label: the loop over them. *)
Fixpoint parse_labels (trim : bool) (labelStrings : list string) (labels : list (string * string)) :
  result (list (string * string)) string :=
  match labelStrings with
  | [] => Ok labels
  | labelStr :: labelStrings =>
      match SplitN2 labelStr "="%char with
      | None => Err (Sprintf "invalid label format: %s (expected key=value)" [GStr labelStr])
      | Some (k, v) =>
          let key := if trim then TrimSpace k else k in
          if decide (trim = true /\ key = "") then
            Err (Sprintf "invalid label format: %s (key cannot be empty)" [GStr labelStr])
          else parse_labels trim labelStrings (GoMap.set key v labels)
      end
  end.

Definition consumer_runCreate (name : string) : M World exit :=
  match GetStringSlice cmd "label" with
  | Err err => ends (Sprintf "failed to read --label: %s" [GStr err])
  | Ok labelStrings =>
  match parse_labels true labelStrings [] with
  | Err err => ends err
  | Ok labels =>
  match rest_client with
  | Err err => ends err
  | Ok c =>
      let consumer := mkOpenConsumer None None None (Some name)
                        (if (0 <? length labels)%nat then Some labels else None) None None in
      let! created := RESTClient.CreateConsumer (url_of c) (Do c) consumer in
      match created with
      | Err err => ends err
      | Ok created => show_consumer created
      end
  end end end.

Definition consumer_runGet (consumerID : string) : M World exit :=
  match rest_client with
  | Err err => ends err
  | Ok c =>
      let! consumer := RESTClient.GetConsumer (url_of c) (Do c) consumerID in
      match consumer with
      | Err err => ends err
      | Ok consumer => show_consumer consumer
      end
  end.

(** The page flags of the two list commands; a flag that cannot be read counts as zero. *)
Definition page_flags : result (Z * Z * string) string :=
  let page := match GetInt cmd "page" with Ok page => page | Err _ => 0 end in
  let size := match GetInt cmd "size" with Ok size => size | Err _ => 0 end in
  let search := match GetString cmd "search" with Ok search => search | Err _ => "" end in
  if page <? 1 then Err "--page must be >= 1"
  else if size <? 1 then Err "--size must be >= 1"
  else Ok (page, size, search).

Definition consumer_runList : M World exit :=
  match page_flags with
  | Err err => ends err
  | Ok (page, size, search) =>
  match rest_client with
  | Err err => ends err
  | Ok c =>
      let! result_ := RESTClient.ListConsumers (url_of c) (Do c) page size search in
      match result_ with
      | Err err => ends err
      | Ok l => show_list PrintConsumerList ConsumerList_ToMap l
      end
  end end.

Definition slice_flag (name : string) : list string := match GetStringSlice cmd name with Ok l => l | Err _ => [] end.

(** The labels the update sends. *)
Definition merge_labels (current : option (list (string * string))) (labelsToAdd : list (string * string))
  (labelsToRemove : list string) : list (string * string) :=
  let mergedLabels := put_all (default [] current) [] in
  let mergedLabels := put_all labelsToAdd mergedLabels in
  foldl (fun m k => GoMap.delete k m) mergedLabels labelsToRemove.

Definition consumer_runUpdate (consumerID : string) : M World exit :=
  match parse_labels false (slice_flag "label") [] with
  | Err err => ends err
  | Ok labelsToAdd =>
  let labelsToRemove := slice_flag "remove-label" in
  if existsb (fun k => bool_decide (TrimSpace k = "")) labelsToRemove then
    ends "invalid remove-label: key cannot be empty"
  else if ((length labelsToAdd =? 0) && (length labelsToRemove =? 0))%nat then
    ends "at least one --label or --remove-label must be specified"
  else
  match rest_client with
  | Err err => ends err
  | Ok c =>
      let! current := RESTClient.GetConsumer (url_of c) (Do c) consumerID in
      match current with
      | Err err => ends err
      | Ok None => ends nil_dereference
      | Ok (Some current) =>
          let mergedLabels := merge_labels current.(oc_Labels) labelsToAdd labelsToRemove in
          let! updated := RESTClient.UpdateConsumer (url_of c) (Do c) consumerID (mkConsumerPatchRequest (Some mergedLabels)) in
          match updated with
          | Err err => ends err
          | Ok updated => show_consumer updated
          end
      end
  end end.

(** The question before a deletion: the answer, or why there is none. *)
Definition confirmed (response : string) : bool :=
  bool_decide (TrimSpace (ToLower response) = "y" \/ TrimSpace (ToLower response) = "yes").
Definition confirm (question : string) (proceed : string -> M World exit) : M World exit :=
  match GetBool cmd "yes" with
  | Err err => ends (Sprintf "failed to read --yes flag: %s" [GStr err])
  | Ok true => proceed ""
  | Ok false =>
      match Stdin cmd with
      | Err err => ret (mkExit question (Some (Sprintf "failed to read confirmation: %s" [GStr err])))
      | Ok response =>
          if confirmed response then proceed question else ret (mkExit (question +:+ "Deletion cancelled" +:+ nl) None)
      end
  end.

Definition consumer_runDelete (consumerID : string) : M World exit :=
  confirm (Sprintf "Are you sure you want to delete consumer %s? (y/N): " [GStr consumerID])
    (fun shown =>
       match rest_client with
       | Err err => ret (mkExit shown (Some err))
       | Ok c =>
           let! d := RESTClient.DeleteConsumer (url_of c) (Do c) consumerID in
           ret (match d with
                | Err err => mkExit shown (Some err)
                | Ok _ => mkExit (shown +:+ Sprintf "Consumer %s deleted successfully" [GStr consumerID] +:+ nl) None
                end)
       end).

(** *** resourcebundle *)

Definition bundle_runGet (bundleID : string) : M World exit :=
  match rest_client with
  | Err err => ends err
  | Ok c =>
      let! bundle := RESTClient.GetResourceBundle (url_of c) (Do c) bundleID in
      match bundle with
      | Err err => ends err
      | Ok bundle => show_as (PrintResourceBundle bundle) (PrintJSON (pointer_json ResourceBundle_ToMap bundle))
      end
  end.

Definition bundle_runList : M World exit :=
  match page_flags with
  | Err err => ends err
  | Ok (page, size, search) =>
  match rest_client with
  | Err err => ends err
  | Ok c =>
      let! result_ := RESTClient.ListResourceBundles (url_of c) (Do c) page size search in
      match result_ with
      | Err err => ends err
      | Ok l => show_list PrintResourceBundleList ResourceBundleList_ToMap l
      end
  end end.

Definition bundle_runStatus (bundleID : string) : M World exit :=
  match rest_client with
  | Err err => ends err
  | Ok c =>
      let! bundle := RESTClient.GetResourceBundle (url_of c) (Do c) bundleID in
      match bundle with
      | Err err => ends err
      | Ok bundle =>
          match GetFormat cmd, bundle with
          | Err err, _ => ends err
          | Ok _, None => ends nil_dereference
          | Ok FormatTable, Some bundle => ret (PrintResourceBundleStatus bundleID bundle.(rb_Status))
          | Ok FormatJSON, Some bundle => ret (PrintJSON (enc map_codec bundle.(rb_Status)))
          end
      end
  end.

(** The clients of the commands that publish. *)
Definition clients : result (Config * RESTClient) string :=
  match LoadConfigFromFlags cmd with
  | Err err => Err err
  | Ok cfg =>
      match NewRESTClient (Some cfg.(RESTConfig_)) with
      | Err err => Err (Sprintf "failed to create REST client: %s" [GStr err])
      | Ok c => Ok (cfg, c)
      end
  end.
Definition grpc_client (cfg : Config) : result GRPCClient string :=
  map_err (fun err => Sprintf "failed to create gRPC client: %s" [GStr err]) (NewGRPCClient (Some cfg)).

Definition set_Id (id : string) (b : ResourceBundle) : ResourceBundle :=
  mkResourceBundle (Some id) b.(rb_Kind) b.(rb_Href) b.(rb_Name) b.(rb_ConsumerName) b.(rb_Version) b.(rb_CreatedAt)
    b.(rb_UpdatedAt) b.(rb_DeletedAt) b.(rb_Metadata) b.(rb_Manifests) b.(rb_DeleteOption) b.(rb_ManifestConfigs) b.(rb_Status).
Definition set_BundleVersion (v : option Z) (b : ResourceBundle) : ResourceBundle :=
  mkResourceBundle b.(rb_Id) b.(rb_Kind) b.(rb_Href) b.(rb_Name) b.(rb_ConsumerName) v b.(rb_CreatedAt)
    b.(rb_UpdatedAt) b.(rb_DeletedAt) b.(rb_Metadata) b.(rb_Manifests) b.(rb_DeleteOption) b.(rb_ManifestConfigs) b.(rb_Status).

(** The version the update is sent with. *)
Definition update_version (bundle existing : option Z) : result (option Z) string :=
  match bundle with
  | None | Some 0 => Ok existing
  | Some v =>
      match existing with
      | Some v' =>
          if decide (v <> v') then
            Err (Sprintf "version mismatch: manifest specifies version %d but resource bundle has version %d. Update your manifest with the current version or omit 'version' to use the latest"
                   [GInt v; GInt v'])
          else Ok bundle
      | None => Ok bundle
      end
  end.

(** The action and the bundle that is applied. *)
Definition to_apply (c : RESTClient) (bundle : ResourceBundle) : M World (result (string * ResourceBundle) string) :=
  match GRPCClient.nonempty bundle.(rb_Id) with
  | Some id =>
      let! existing := RESTClient.GetResourceBundle (url_of c) (Do c) id in
      ret (match existing with
           | Err err => Err ("cannot update resource bundle " +:+ Strconv.Quote id +:+ ": " +:+ err)
           | Ok None => Err nil_dereference
           | Ok (Some existing) =>
               match update_version bundle.(rb_Version) existing.(rb_Version) with
               | Err err => Err err
               | Ok v => Ok (GRPCBroker.UpdateRequestAction, set_BundleVersion v bundle)
               end
           end)
  | None =>
      let! resourceID := new_id in
      ret (Ok (GRPCBroker.CreateRequestAction, set_BundleVersion (Some 0) (set_Id resourceID bundle)))
  end.

Definition bundle_runApply : M World exit :=
  match GetString cmd "file" with
  | Err err => ends (Sprintf "failed to read --file flag: %s" [GStr err])
  | Ok filePath =>
  match ReadFile filePath with
  | Err err => ends (Sprintf "failed to read manifest file: %s" [GStr err])
  | Ok data =>
  match read_struct (ResourceBundle_codec false) data with
  | Err err => ends (Sprintf "failed to parse manifest file: %s" [GStr err])
  | Ok bundle =>
  match clients with
  | Err err => ends err
  | Ok (cfg, c) =>
  match grpc_client cfg with
  | Err err => ends err
  | Ok g =>
      let! a := to_apply c bundle in
      match a with
      | Err err => ends err
      | Ok (action, bundle) =>
          let! err := GRPCClient.Apply (Call g) g.(sourceID) (Some bundle) action in
          match err with
          | Some err => ends (Sprintf "failed to apply resource bundle: %s" [GStr err])
          | None => prints ("Resource bundle applied successfully:" +:+ nl +:+ "ID: " +:+ default "" bundle.(rb_Id) +:+ nl)
          end
      end
  end end end end end.

Definition bundle_runDelete (bundleID : string) : M World exit :=
  match GetBool cmd "yes" with
  | Err err => ends (Sprintf "failed to read --yes flag: %s" [GStr err])
  | Ok _ =>
  match clients with
  | Err err => ends err
  | Ok (cfg, c) =>
      let! bundle := RESTClient.GetResourceBundle (url_of c) (Do c) bundleID in
      match bundle with
      | Err err => ends err
      | Ok bundle =>
          match bundle ≫= rb_ConsumerName, bundle ≫= rb_Version with
          | Some consumerName, Some version =>
              confirm (Sprintf "Are you sure you want to delete resource bundle %s (consumer: %s)? (y/N): "
                         [GStr bundleID; GStr consumerName])
                (fun shown =>
                   match grpc_client cfg with
                   | Err err => ret (mkExit shown (Some err))
                   | Ok g =>
                       let! err := GRPCClient.Delete (Call g) g.(sourceID) bundleID consumerName version in
                       ret (match err with
                            | Some err => mkExit shown (Some (Sprintf "failed to delete resource bundle: %s" [GStr err]))
                            | None => mkExit (shown +:+ Sprintf "Resource bundle %s deleted successfully" [GStr bundleID] +:+ nl) None
                            end)
                   end)
          | _, _ => ends ("resource bundle " +:+ Strconv.Quote bundleID +:+ " is missing required metadata (consumer_name/version)")
          end
      end
  end end.
End Commands.
