(* ===== verification/CliFacts.v ===== *)
(** * What the command line clients do to the server

    The commands over a reliable network to the REST API and the gRPC service of one
    server, with the JSON both sides really write and read. *)

From S2P Require Import Prelude GoLib Sha256 Errors Types Json Bundle Validation Gorm World Dao DaoFacts Locks Transactions Services ServiceFacts Auth SourceClient EventServer GrpcServer ListQuery GenericList Presenters SliceFilter Rest RestFacts Pager JsonStruct GoMap Models ModelFacts Configuration CliConfig CliOutput OpenapiClient Wire Cli.
Import api errors Strings Fmt.

Open Scope Z_scope.

(** ** Labels *)

(** The value of the last --label of a key. *)
Fixpoint given_label (k : string) (labelStrings : list string) : option string :=
  match labelStrings with
  | [] => None
  | s :: labelStrings =>
      match given_label k labelStrings with
      | Some v => Some v
      | None => match SplitN2 s "="%char with
                | Some (k', v) => if String.eqb k k' then Some v else None
                | None => None
                end
      end
  end.

Lemma parse_labels_get strs m m' k :
  parse_labels false strs m = Ok m' ->
  get k m' = match given_label k strs with Some v => Some v | None => get k m end.
Proof.
  revert m. induction strs as [|s strs IH]; intros m; cbn; [by intros [= <-]|].
  destruct (SplitN2 s "="%char) as [[k' v]|]; [|done]. rewrite decide_False by (by intros [? _]). intros Hp.
  rewrite (IH _ Hp), get_set. destruct (given_label k strs); [done|]. by destruct (String.eqb k k').
Qed.

Lemma parse_labels_sorted trim strs m m' : parse_labels trim strs m = Ok m' -> sorted m = true -> sorted m' = true.
Proof.
  revert m. induction strs as [|s strs IH]; intros m; cbn; [by intros [= <-]|].
  destruct (SplitN2 s "="%char) as [[k v]|]; [|done]. case_decide; [done|]. intros Hp Hm.
  eapply IH; [done|]. by apply sorted_set.
Qed.

Lemma last_get_sorted {V} k (m : list (string * V)) : sorted m = true -> last_get k m = get k m.
Proof.
  induction m as [|[k' v] m IH]; [done|]. cbn. intros [Hb Hs]%andb_true_iff. rewrite (IH Hs).
  destruct (String.eqb_spec k k') as [->|]; [|by destruct (get k m)].
  assert (get k' m = None) as ->; [|done]. clear -Hb. induction m as [|[k'' v'] m IH]; [done|]. cbn in *.
  apply andb_true_iff in Hb as [Hk Hb]. destruct (String.eqb_spec k' k'') as [->|]; [|by apply IH].
  unfold String.ltb in Hk. pose proof (String.compare_antisym k'' k'') as Ha. by destruct (String.compare k'' k'').
Qed.

Lemma merge_labels_get current add remove k :
  sorted (default [] current) = true -> sorted add = true ->
  get k (merge_labels current add remove) =
    if existsb (String.eqb k) remove then None
    else match get k add with Some v => Some v | None => get k (default [] current) end.
Proof.
  intros Hc Ha. unfold merge_labels. rewrite get_delete_all, get_put_all, get_put_all, !last_get_sorted by done.
  destruct (existsb _ _); [done|]. destruct (get k add); [done|]. by destruct (get k (default [] current)).
Qed.

Lemma merge_labels_sorted current add remove : sorted (merge_labels current add remove) = true.
Proof. by apply sorted_delete_all, sorted_put_all, sorted_put_all. Qed.

(** ** The REST client against the server *)

Lemma by_status_error `{codec : ClientCodec} {A B} expected (success : outcome A -> result B string) msgs codes decode code p :
  expected < 400 -> 400 <= code ->
  is_ok (by_status expected success msgs (finish codes decode (mkHttpResponse code p))) = false.
Proof.
  intros He Hc. unfold finish. cbn [StatusCode contents]. rewrite (proj2 (Z.leb_le 300 code)) by lia.
  unfold by_status. cbn [o_response o_error StatusCode]. rewrite (proj2 (Z.eqb_neq code expected)) by lia.
  by destruct (message_of code msgs).
Qed.

Section Server.
Context `{env : Env} `{gl : GormLaws} `{ll : LockFactoryLaws} `{ce : CloudEvents} `{k8s : K8s}
        `{tf : TimeFormat} `{cfg : ResourceConfig} `{cs : QueryStore Consumer} `{rs : QueryStore Resource} `{sl : SearchLib}
        `{pgl : PgAdvisoryLaws} `{rb : SqlRollbackLaws} `{tl : TimeJSONLaws} `{js : JsonSyntax}.
Variables (url : string -> result string string) (opid : string).
Hypothesis Hurl : forall op, is_ok (url op) = true.

(** The path of an id that is one segment. *)
Definition one_segment (id : string) : Prop := id <> "" /\ Split id "/"%char = [id].

(** Rows whose presentation can be written: years of four digits, labels in order. *)
Definition consumers_writable (w : World) : Prop :=
  forall k row, w.(tables).(consumers) !! k = Some row -> consumer_ok (PresentConsumer row) = true.

Lemma execute_sent {A St} op body mk codes decode (Do : http_request -> M St (result http_response string)) s :
  match body with Some (Err _) => False | _ => True end ->
  execute (A := A) url Do op body mk codes decode s =
    let '(r, s') := Do (mk (match body with Some (Ok b) => Some b | _ => None end)) s in
    (match r with Err err => mkOutcome None None (Some (inl err)) | Ok resp => finish codes decode resp end, s').
Proof.
  intros Hb. unfold execute. specialize (Hurl op). destruct (url op); [|done].
  destruct body as [[b|err]|]; [|done|]; rewrite bind_run; by destruct (Do _ s).
Qed.

Lemma GetConsumer_run id w :
  tables_wf w.(tables) -> one_segment id -> consumers_writable w ->
  let '(r, w') := RESTClient.GetConsumer url (send opid) id w in
  same_data w w' /\
  (is_ok r = false \/
   exists row : Consumer, w.(tables).(consumers) !! id = Some row /\ row.(DeletedAt).(Valid) = false /\
     r = Ok (Some (PresentConsumer row))).
Proof.
  intros Hw [Hid Hseg] Hwr. unfold RESTClient.GetConsumer, ApiMaestroV1ConsumersIdGetExecute. rewrite bind_run.
  rewrite execute_sent by done. unfold send at 1. rewrite bind_run. cbn [rq_method rq_path rq_query rq_headers rq_body].
  rewrite Hseg. match goal with |- context [serve_http GET _ ?r w] => pose proof (rest_get_run id r w Hw Hid) as Hg end.
  destruct (serve_http GET _ _ w) as [a w']. destruct Hg as [Hd (rep & -> & Hr)]. cbn [ret].
  destruct Hr as [(err & -> & Hc)|(row & Hrow & Hv & ->)]; cbn [handleError].
  - split; [done|]. left. by apply by_status_error.
  - split; [done|]. right. exists row. split_and!; [done..|]. unfold finish. cbn [StatusCode contents].
    change (300 <=? 200) with false. cbn iota. by rewrite (DecodeConsumer_body (PresentConsumer row) (Hwr _ _ Hrow)).
Qed.

(** What a patch with labels does to a consumer. *)
Definition relabelled (id : string) (labels : list (string * string)) (w w' : World) : Prop :=
  exists (row : Consumer) now, w.(tables).(consumers) !! id = Some row /\ row.(DeletedAt).(Valid) = false /\
    w'.(tables) = tset (<[id := persist (touched now (set_Labels (EmptyMapToNilStringMap (Some labels)) row))]>
                         w.(tables).(consumers)) w.(tables) /\
    w'.(notified) = w.(notified).

Lemma UpdateConsumer_run id labels w :
  tables_wf w.(tables) -> one_segment id -> sorted labels = true ->
  let '(r, w') := RESTClient.UpdateConsumer url (send opid) id (mkConsumerPatchRequest (Some labels)) w in
  same_data w w' /\ is_ok r = false \/ relabelled id labels w w'.
Proof.
  intros Hw [Hid Hseg] Hl. unfold RESTClient.UpdateConsumer, ApiMaestroV1ConsumersIdPatchExecute. rewrite bind_run.
  destruct (body_read (ConsumerPatchRequest_codec false) patch_ok ConsumerPatchRequest_ToMap
              (mkConsumerPatchRequest (Some labels)) (ConsumerPatchRequest_ok false)
              (ConsumerPatchRequest_nonnull false)) as (bytes & Hb & Hu); [done| |].
  { unfold patch_ok. cbn. by rewrite sorted_strings_sorted. }
  change (EncodePatch (mkConsumerPatchRequest (Some labels)))
    with (setBody ConsumerPatchRequest_ToMap (mkConsumerPatchRequest (Some labels)) "application/json").
  rewrite Hb, execute_sent by done. unfold send at 1. rewrite bind_run. cbn [rq_method rq_path rq_query rq_headers rq_body].
  rewrite Hseg. match goal with |- context [serve_http PATCH _ ?r w] => pose proof (rest_patch_run id r w Hw Hid) as Hp end.
  destruct (serve_http PATCH _ _ w) as [a w']. cbn [ret].
  destruct Hp as [[(rep & -> & err & -> & Hc) Hd]|(rep & -> & bytes' & p & row & now & Hby & Hp & Hrow & Hv & -> & Ht & Hn)].
  - left. split; [done|]. by apply by_status_error.
  - right. cbn [body default] in Hby. injection Hby as <-.
    change (UnmarshalPatch bytes) with (read_struct (ConsumerPatchRequest_codec false) bytes) in Hp.
    rewrite Hu in Hp. injection Hp as <-. by exists row, now.
Qed.

(** DELETE /consumers/{id} has no conflict: a consumer with resources is answered with
    Forbidden, so the message the client has for that case is never shown. *)
Lemma delete_error_status ty msg :
  (handleDeleteError ty msg).(HttpCode) = 403 \/ (handleDeleteError ty msg).(HttpCode) = 500.
Proof. unfold handleDeleteError. destruct (Contains _ _); [left|right]; reflexivity. Qed.

Theorem delete_conflict_unreachable id w :
  one_segment id ->
  (RESTClient.DeleteConsumer url (send opid) id w).1 <> Err "conflict - consumer has existing resources".
Proof.
  intros [Hid Hseg]. unfold RESTClient.DeleteConsumer, ApiMaestroV1ConsumersIdDeleteExecute. rewrite bind_run.
  rewrite execute_sent by done. unfold send at 1. rewrite bind_run. cbn [rq_method rq_path rq_query rq_headers rq_body].
  rewrite Hseg. set (r := mkRequest _ _ _ _).
  assert (routes DELETE ["consumers"; id] r = Some (ConsumerHandler.Delete (with_id id r))) as Hr
    by (unfold routes; by rewrite decide_False).
  pose proof (serve_http_run _ _ _ _ w Hr) as Hs. destruct (serve_http DELETE _ _ w) as [a w'].
  destruct Hs as [_ [[-> _]|(w1 & _ & -> & _)]]; [done|].
  unfold ConsumerHandler.Delete, handleDelete, service, ConsumerService.Delete, or_error. cbn [first_error].
  rewrite !bind_run. destruct (ConsumerDao.Delete _ _ w1) as [[x|e] w2]; cbn [ret map_err fst answer]; [done|].
  unfold handleError. destruct (delete_error_status "Consumer" (db_message e)) as [Hc|Hc]; rewrite Hc; done.
Qed.
End Server.

(** ** consumer update *)

Lemma rest_client_url `{durations : Durations} cmd c op : rest_client cmd = Ok c -> is_ok (url_of c op) = true.
Proof.
  unfold rest_client, NewRESTClient. destruct (LoadRESTConfigFromFlags cmd) as [r|]; [|done]. cbn [map_err].
  destruct (decide (r.(BaseURL) = "")); [done|]. cbn [map_err]. by intros [= <-].
Qed.

Section Update.
Context `{env : Env} `{gl : GormLaws} `{ll : LockFactoryLaws} `{ce : CloudEvents} `{k8s : K8s}
        `{tf : TimeFormat} `{cfg : ResourceConfig} `{cs : QueryStore Consumer} `{rs : QueryStore Resource} `{sl : SearchLib}
        `{pgl : PgAdvisoryLaws} `{rb : SqlRollbackLaws} `{tl : TimeJSONLaws} `{js : JsonSyntax}
        `{durations : Durations} `{clock : ClockFormat} `{order : MapOrder}.

(** What is shown changes nothing. *)
Lemma show_consumer_run cmd c w : exists e, show_consumer cmd c w = (e, w).
Proof. unfold show_consumer, show_as, ends. destruct (GetFormat cmd) as [[]|]; eexists; reflexivity. Qed.

(** C26: `consumer update` end to end. The command either fails and leaves the server as it
    was, or it changes exactly one row, that of the live consumer with the given id, and in
    it only the labels and the update time: a label of --remove-label is gone, any other
    label of --label has the value its last occurrence gives, and all others are as the
    consumer had them. *)
Theorem consumer_update_spec opid cmd id w :
  tables_wf w.(tables) -> one_segment id -> consumers_writable w ->
  let '(e, w') := consumer_runUpdate (fun _ => send opid) cmd id w in
  same_data w w' /\ e.(exit_error) <> None \/
  exists (row : Consumer) labels, w.(tables).(consumers) !! id = Some row /\ relabelled id labels w w' /\
    sorted labels = true /\
    forall k, get k labels =
      if existsb (String.eqb k) (slice_flag cmd "remove-label") then None
      else match given_label k (slice_flag cmd "label") with
           | Some v => Some v
           | None => get k (default [] row.(Labels))
           end.
Proof.
  intros Hw Hid Hwr. unfold consumer_runUpdate, ends.
  destruct (parse_labels false _ []) as [add|] eqn:Hadd; [|by left].
  destruct (existsb _ _); [by left|]. destruct (_ && _); [by left|].
  destruct (rest_client cmd) as [c|] eqn:Hc; [|by left]. rewrite bind_run.
  pose proof (GetConsumer_run (url_of c) opid (fun op => rest_client_url cmd c op Hc) id w Hw Hid Hwr) as Hg.
  destruct (RESTClient.GetConsumer _ _ id w) as [r w1]. destruct Hg as [Hd [Hr|(row & Hrow & Hv & ->)]].
  { destruct r as [?|err]; [done|]. by left. }
  cbn [PresentConsumer oc_Labels ToMap]. rewrite bind_run.
  assert (sorted (default [] row.(Labels)) = true) as Hsorted.
  { pose proof (Hwr _ _ Hrow) as Hok. unfold consumer_ok in Hok. apply andb_true_iff in Hok as [Hok _].
    apply andb_true_iff in Hok as [Hok _]. cbn in Hok. destruct (Labels row) as [l|]; [|done]. by rewrite <-sorted_strings_sorted. }
  pose proof (UpdateConsumer_run (url_of c) opid (fun op => rest_client_url cmd c op Hc) id
                (merge_labels (Labels row) add (slice_flag cmd "remove-label")) w1) as Hu.
  destruct (RESTClient.UpdateConsumer _ _ id _ w1) as [u w2].
  destruct Hu as [[Hd2 Hu]|Hu]; [by rewrite (proj1 Hd)|done|apply merge_labels_sorted| |].
  - destruct u as [u|err]; [done|]. left. split; [by etrans|done].
  - assert (exists e, (match u with Err err => ret (mkExit "" (Some err)) | Ok updated => show_consumer cmd updated end) w2 = (e, w2))
      as [e ->] by (destruct u; [apply show_consumer_run|by eexists]).
    right. exists row. eexists. split; [done|]. destruct Hd as [Ht Hn].
    split; [destruct Hu as (row' & now & Hu); exists row', now; by rewrite <-Ht, <-Hn|].
    split; [apply merge_labels_sorted|]. intros k. rewrite merge_labels_get by (done || by eapply parse_labels_sorted).
    rewrite (parse_labels_get _ _ _ k Hadd). by destruct (given_label k _).
Qed.
End Update.
