(* ===== verification/CliPublishFacts.v ===== *)
(** * resourcebundle apply and delete, as far as the database of the server

    What the command publishes is what the server decodes; so an update is guarded by the
    version of the manifest, and a deletion is of the resource that was confirmed. *)

From S2P Require Import Prelude GoLib Sha256 Errors Types Json Bundle Validation Gorm World Dao DaoFacts Locks Transactions Services ServiceFacts Auth SourceClient SourceClientFacts EventServer GrpcServer GrpcServerFacts ListQuery GenericList Presenters SliceFilter Rest RestFacts Pager JsonStruct GoMap Models ModelFacts Configuration CliConfig CliOutput OpenapiClient Wire Cli.
Import api errors Strings Fmt.

Open Scope Z_scope.

(** An event as a JSON object, in the JSON format of CloudEvents. *)
Definition document `{ce : CloudEvents} (e : CE) : result JSONMap string :=
  match ceMarshal e with Ok s => jsonMapUnmarshal s | Err err => Err err end.

(** What a document reads back as from its text, its numbers as float64s. *)
Definition reread (j : json) : option json := Json.floats <$> Json.Unmarshal (Json.Marshal j).

Lemma reread_exact j : Json.json_wf j = true -> Json.exact j = true -> reread j = Some j.
Proof. intros Hw Hx. unfold reread. rewrite Json.Unmarshal_Marshal by done. cbn. by rewrite Json.floats_exact. Qed.

(** The CloudEvents library: setters keep what they do not set, an event arrives as it was
    sent, and in the JSON format the data is the member data and every extension a member of
    its name. *)
Class SpecEventsLaws `{eo : EventOps} `{se : !SourceEvents} `{sp : !SpecEvents} : Prop := {
  ext_NewEvent k : ceExtensions NewEvent k = None;
  ext_SetDataContentType t e k : ceExtensions (SetDataContentType t e) k = ceExtensions e k;
  type_SetDataContentType t e : ceType (SetDataContentType t e) = ceType e;
  source_SetSource s e : ceSource (SetSource s e) = s;
  source_SetType t e : ceSource (SetType t e) = ceSource e;
  source_SetDataContentType t e : ceSource (SetDataContentType t e) = ceSource e;
  source_SetExtension k v e : k ∈ extension_names -> ceSource (SetExtension k v e) = ceSource e;
  spec_data_kept d e e' : SetSpecData d e = Ok e' ->
    (forall k, ceExtensions e' k = ceExtensions e k) /\ ceType e' = ceType e /\ ceSource e' = ceSource e;
  sent_received e pb : WritePBMessage e = Ok pb ->
    exists e', ToEvent pb = Ok e' /\ (forall k, ceExtensions e' k = ceExtensions e k) /\ ceType e' = ceType e /\
      ceSource e' = ceSource e /\ document e' = document e;
  spec_document d e e' m : SetSpecData d e = Ok e' -> document e' = Ok m ->
    jget "data" m = reread (JObj d) /\
    (forall k s, k ∈ extension_names -> ceExtensions e k = Some (ext_string s) -> jget k m = Some (JStr s)) /\
    (forall k, k ∈ extension_names -> ceExtensions e k = None -> jget k m = None);
  Parse_TypeString a : a ∈ [GRPCBroker.CreateRequestAction; GRPCBroker.UpdateRequestAction; GRPCBroker.DeleteRequestAction] ->
    let t := mkCloudEventsType ManifestBundleEventDataType SubResourceSpec a in ParseCloudEventsType (TypeString t) = Ok t;
}.

(** The error of a call, as the client sees what the server returned. *)
Definition code_name (c : Auth.Code) : string :=
  match c with Auth.InvalidArgument => "InvalidArgument" | Auth.Unauthenticated => "Unauthenticated" end.
Definition rpc_error (r : rpc) : option string :=
  match r with
  | Returns None => None
  | Returns (Some (PlainError msg)) => Some (Sprintf "rpc error: code = Unknown desc = %s" [GStr msg])
  | Returns (Some (StatusError c msg)) => Some (Sprintf "rpc error: code = %s desc = %s" [GStr (code_name c); GStr msg])
  | Panics => Some "rpc error: code = Unavailable desc = error reading from server: EOF"
  end.

Lemma int32_range v : int32_ok v = true -> - 2 ^ 31 <= v < 2 ^ 31.
Proof.
  intros Hv%bool_decide_eq_true. rewrite <-Hv. unfold Int.int32, Int.wrap.
  pose proof (Z.mod_pos_bound (v + 2 ^ 31) (2 ^ 32) eq_refl). change (2 ^ (32 - 1)) with (2 ^ 31). lia.
Qed.

Section Publish.
Context `{env : Env} `{el : !EnvLaws} `{gl : GormLaws} `{ll : LockFactoryLaws} `{k8s : K8s} `{sf : Snowflake}
        `{tf : TimeFormat} `{cfg : ResourceConfig} `{eo : EventOps} `{eol : !EventOpsLaws} `{se : !SourceEvents} `{al : GRPCAuthorizerLaws}
        `{sp : !SpecEvents} `{spl : !SpecEventsLaws}.

(** The call of Publish over a working connection; [ctx] is what the server sees of it. *)
Definition call_server (svr : GRPCServer) (ctx : Context) (pb : PBEvent) : M World (option string) :=
  let! r := serve_Publish svr ctx pb in ret (rpc_error r).

Lemma rpc_error_None r : rpc_error r = None <-> r = succeeded.
Proof. unfold succeeded. destruct r as [[[]|]|]; by split. Qed.

(** A call ends before its event is handled, with an error, or handles the event. *)
Lemma serve_Publish_cases svr ctx pb evt w :
  ToEvent pb = Ok evt ->
  let '(r, w') := serve_Publish svr ctx pb w in
  same_data w w' /\ r <> succeeded \/ exists w1, same_data w w1 /\ (r, w') = publish_allowed evt w1.
Proof.
  intros He.
  assert (forall ctx w, let '(r, w') := Publish svr ctx pb w in
            same_data w w' /\ r <> succeeded \/ exists w1, same_data w w1 /\ (r, w') = publish_allowed evt w1) as Hp.
  { clear ctx w. intros ctx w. unfold Publish. rewrite He. destruct (disableAuthorizer svr).
    { destruct (publish_allowed evt w) as [r w'] eqn:E. right. by exists w. }
    unfold authorize. destruct (identity ctx) as [[user groups]|]; [|by left]. rewrite bind_run.
    pose proof (AccessReview_frame "pub" "source" (ceSource evt) user groups w) as [Hs _].
    destruct (AccessReview _ _ _ _ _ w) as [[[]|e] w1]; [|by left..].
    destruct (publish_allowed evt w1) as [r w'] eqn:E. right. by exists w1. }
  unfold serve_Publish. destruct (authInterceptor svr) as [t|]; [|apply Hp].
  unfold newAuthUnaryInterceptor, intercept. rewrite bind_run.
  pose proof (identify_frame "unsupported authentication type %s" t ctx w) as [Hs _].
  destruct (identify _ _ ctx w) as [[[user groups]|e] w1]; [|by left].
  specialize (Hp (newContextWithIdentity ctx user groups) w1). destruct (Publish svr _ pb w1) as [r w'].
  destruct Hp as [[Hd Hr]|(w2 & Hd & Hr)]; [left; split; [by etrans|done]|]. right. exists w2. split; [by etrans|done].
Qed.

(** What a spec event of the client says. *)
Record carries (e : CE) (source action id consumer : string) (version : Z) : Prop := {
  carries_type : ceType e = TypeString (mkCloudEventsType ManifestBundleEventDataType SubResourceSpec action);
  carries_source : ceSource e = source;
  carries_id : ceExtensions e ExtensionResourceID = Some (ext_string id);
  carries_version : ceExtensions e ExtensionResourceVersion = Some (ext_int version);
  carries_consumer : ceExtensions e ExtensionClusterName = Some (ext_string consumer);
  carries_no_deletion : ceExtensions e ExtensionDeletionTimestamp = None;
}.

Lemma carries_same e e' s a i c v :
  carries e s a i c v -> (forall k, ceExtensions e' k = ceExtensions e k) -> ceType e' = ceType e -> ceSource e' = ceSource e ->
  carries e' s a i c v.
Proof. intros [] Hk Ht Hs. split; by rewrite ?Hk, ?Ht, ?Hs. Qed.

Lemma spec_event_carries s a i v c w :
  exists e, GRPCClient.spec_event s a i v c w = (e, (new_id w).2) /\ carries e s a i c v /\ ceExtensions e ExtensionWorkMeta = None.
Proof.
  unfold GRPCClient.spec_event. rewrite bind_run. destruct (new_id w) as [id w1]. eexists. split; [reflexivity|]. split.
  2:{ rewrite !ext_SetExtension by set_solver. repeat case_decide; try done.
      by rewrite ext_SetDataContentType, ext_SetType, ext_SetSource, ext_SetID, ext_NewEvent. }
  split; rewrite ?type_SetExtension, ?source_SetExtension, ?type_SetDataContentType, ?source_SetDataContentType,
    ?source_SetType, ?type_SetType, ?source_SetSource by set_solver; try done;
    rewrite ?ext_SetExtension by set_solver; repeat case_decide; try done;
    by rewrite ext_SetDataContentType, ext_SetType, ext_SetSource, ext_SetID, ext_NewEvent.
Qed.

(** The resource the server decodes from it. *)
Definition requested (res : Resource) (source id consumer : string) (version : Z) : Prop :=
  res.(ID) = id /\ res.(Version) = version /\ res.(r_Source) = source /\ res.(ConsumerName) = consumer.

Lemma decode_carried e s a i c v :
  carries e s a i c v -> - 2 ^ 31 <= v < 2 ^ 31 ->
  (exists err, decodeResourceSpec e = Err err) \/
  exists res, decodeResourceSpec e = Ok res /\ requested res s i c v /\ res.(r_Name) = "" /\ CloudEventToJSONMap e = Ok res.(Payload).
Proof.
  intros [Ht Hs Hi Hv Hc Hd] Hr. unfold decodeResourceSpec. rewrite Hc, ToString_string, Hi, ToString_string, Hv, ToInteger_int by done.
  rewrite Hd. destruct (CloudEventToJSONMap e) as [payload|]; [|left; by eexists]. right. eexists. split; [done|]. by rewrite <-Hs.
Qed.

(** The payload the server stores is the document of the event, with the metadata as an
    object. *)
Definition stored_as (m payload : JSONMap) : Prop :=
  match jget ExtensionWorkMeta m with
  | None => payload = m
  | Some metadata => exists o, Json.UnmarshalMap (sprint_s metadata) = Some o /\
                       payload = jset ExtensionWorkMeta (match o with Some l => JObj l | None => JNull end) m
  end.

Lemma payload_document e payload :
  CloudEventToJSONMap e = Ok payload -> exists m, document e = Ok m /\ stored_as m payload.
Proof.
  unfold CloudEventToJSONMap, document, stored_as. destruct (ceMarshal e) as [s|]; [|done].
  destruct (jsonMapUnmarshal s) as [m|]; [|done]. intros Hp. exists m. split; [done|].
  destruct (jget ExtensionWorkMeta m) as [md|]; [|by injection Hp].
  destruct (Json.UnmarshalMap (sprint_s md)) as [o|]; [|done]. exists o. split; [done|]. by injection Hp.
Qed.

(** The members of the payload that come from a manifest: exactly its manifests, configs and
    delete option as the data, and its metadata. *)
Definition maps (l : list JSONMap) : json := JArr ((fun m => match m with None => JNull | Some m => JObj m end) <$> l).
Definition content (b : ResourceBundle) (k : string) : option json :=
  if decide (k = "manifests") then maps <$> b.(rb_Manifests)
  else if decide (k = "manifestConfigs") then
    match b.(rb_ManifestConfigs) with Some (_ :: _ as configs) => Some (maps configs) | _ => None end
  else if decide (k = "deleteOption") then JObj <$> b.(rb_DeleteOption)
  else None.
Definition carried (b : ResourceBundle) (payload : JSONMap) : Prop :=
  (exists d, (forall k, oget k d = content b k) /\ jget "data" payload = reread (JObj d)) /\
  jget ExtensionWorkMeta payload = match b.(rb_Metadata) with Some md => reread (JObj md) | None => None end.

Lemma spec_data_content b manifests k :
  b.(rb_Manifests) = Some manifests -> oget k (GRPCClient.spec_data b manifests) = content b k.
Proof.
  intros Hm. unfold GRPCClient.spec_data, content. rewrite Hm.
  destruct (rb_DeleteOption b) as [o|], (rb_ManifestConfigs b) as [[|x l]|]; rewrite ?oget_oset_eqb; cbn [oget];
    destruct (String.eqb_spec k "deleteOption") as [->|]; try done; destruct (String.eqb_spec k "manifestConfigs") as [->|]; try done;
    destruct (decide (k = "manifests")) as [->|]; try done.
  all: by rewrite !decide_False by congruence.
Qed.

Lemma carried_payload b manifests e e' e2 payload :
  b.(rb_Manifests) = Some manifests -> SetSpecData (GRPCClient.spec_data b manifests) e = Ok e2 -> document e' = document e2 ->
  ceExtensions e ExtensionWorkMeta = (match b.(rb_Metadata) with
                                      | Some md => Some (ext_string (Json.Marshal (JObj md))) | None => None end) ->
  CloudEventToJSONMap e' = Ok payload -> carried b payload.
Proof.
  intros Hm Hs Hd Hx (m & Hdoc & Hst)%payload_document. rewrite Hd in Hdoc.
  destruct (spec_document _ _ _ _ Hs Hdoc) as (Hdata & Hsome & Hnone). unfold stored_as in Hst.
  assert (jget "data" payload = jget "data" m /\
    jget ExtensionWorkMeta payload = match b.(rb_Metadata) with Some md => reread (JObj md) | None => None end) as [Hdat Hmd].
  { destruct (rb_Metadata b) as [md|].
    - rewrite (Hsome ExtensionWorkMeta _ ltac:(left) Hx) in Hst. destruct Hst as (o & Ho & ->). cbn [sprint_s] in Ho.
      pose proof (Hsome ExtensionWorkMeta _ ltac:(left) Hx) as Hj. destruct m as [m|]; [|done]. cbn [jset jget fmap option_fmap option_map mbind option_bind].
      rewrite oget_oset_ne, oget_oset by done. split; [done|]. unfold reread. unfold Json.UnmarshalMap in Ho.
      destruct (Json.Unmarshal _) as [[]|]; try done; [by injection Ho as <-|].
      destruct (Json.overflow _); [done|]. by injection Ho as <-.
    - rewrite (Hnone ExtensionWorkMeta ltac:(left) Hx) in Hst. subst. split; [done|]. by apply Hnone; [left|]. }
  split; [|done]. exists (GRPCClient.spec_data b manifests). split; [intros k; by apply spec_data_content|]. by rewrite Hdat.
Qed.

(** Publishing an event of the client: an error and nothing changed, or the server handles
    the request for the resource the client meant. *)
Lemma publish_run svr ctx e s a i c v w :
  carries e s a i c v -> - 2 ^ 31 <= v < 2 ^ 31 ->
  a ∈ [GRPCBroker.CreateRequestAction; GRPCBroker.UpdateRequestAction; GRPCBroker.DeleteRequestAction] ->
  let '(err, w') := GRPCClient.publish (call_server svr ctx) e w in
  same_data w w' /\ err <> None \/
  exists res w1 e', same_data w w1 /\ requested res s i c v /\ res.(r_Name) = "" /\
    document e' = document e /\ CloudEventToJSONMap e' = Ok res.(Payload) /\
    (err = None <-> (handle_spec a res w1).1 = succeeded) /\ w' = (handle_spec a res w1).2.
Proof.
  intros Hc Hv Ha. unfold GRPCClient.publish. destruct (WritePBMessage e) as [pb|] eqn:Hw; [|by left].
  destruct (sent_received e pb Hw) as (e' & He & Hk & Ht & Hs & Hdoc). rewrite bind_run. unfold call_server. rewrite bind_run.
  pose proof (serve_Publish_cases svr ctx pb e' w He) as Hp. destruct (serve_Publish svr ctx pb w) as [r w']. cbn [ret].
  assert (r <> succeeded -> (match rpc_error r with Some err => Some (Sprintf "failed to publish CloudEvent: %s" [GStr err]) | None => None end) <> None) as Hn.
  { intros Hr. destruct (rpc_error r) eqn:E; [done|]. by apply rpc_error_None in E. }
  destruct Hp as [[Hd Hr]|(w1 & Hd & Hr)]; [left; auto|].
  pose proof (carries_same e e' _ _ _ _ _ Hc Hk Ht Hs) as Hc'. unfold publish_allowed in Hr.
  rewrite (carries_type _ _ _ _ _ _ Hc'), (Parse_TypeString a Ha) in Hr. cbn [Action] in Hr.
  rewrite decide_False in Hr by (intros ->; set_solver).
  destruct (decode_carried e' _ _ _ _ _ Hc' Hv) as [[err Hde]|(res & Hde & Hq & Hname & Hpay)]; rewrite Hde in Hr.
  - injection Hr as -> ->. by left.
  - right. exists res, w1, e'. split_and!; [done..| |by destruct (handle_spec _ _ _); injection Hr].
    replace (handle_spec a res w1).1 with r by (by destruct (handle_spec _ _ _); injection Hr).
    rewrite <-rpc_error_None. by destruct (rpc_error r).
Qed.

(** What is required of a bundle before it is applied. *)
Lemma nonempty_Some o s : GRPCClient.nonempty o = Some s -> o = Some s /\ s <> "".
Proof. destruct o as [x|]; [|done]. cbn. case_decide; [done|]. by intros [= ->]. Qed.

Lemma Apply_run svr ctx source bundle action w :
  opt_ok int32_ok bundle.(rb_Version) = true ->
  let '(err, w') := GRPCClient.Apply (call_server svr ctx) source (Some bundle) action w in
  same_data w w' /\ err <> None \/
  exists id consumer version res w1, GRPCClient.supported action = true /\
    bundle.(rb_Id) = Some id /\ id <> "" /\ bundle.(rb_Version) = Some version /\ bundle.(rb_ConsumerName) = Some consumer /\
    same_data w w1 /\ requested res source id consumer version /\ res.(r_Name) = "" /\ carried bundle res.(Payload) /\
    (err = None <-> (handle_spec action res w1).1 = succeeded) /\ w' = (handle_spec action res w1).2.
Proof.
  intros Hv. unfold GRPCClient.Apply. destruct (GRPCClient.nonempty (rb_Id bundle)) as [id|] eqn:Hid; [|by left].
  apply nonempty_Some in Hid as [Hid Hne]. destruct (rb_Version bundle) as [v|]; [|by left]. cbn in Hv.
  destruct (GRPCClient.nonempty (rb_ConsumerName bundle)) as [c|] eqn:Hc; [|by left]. apply nonempty_Some in Hc as [Hc _].
  destruct (rb_Manifests bundle) as [[|m ms]|] eqn:Hman; [by left| |by left].
  destruct (GRPCClient.supported action) eqn:Ha; cbn [negb]; [|by left]. rewrite bind_run.
  destruct (spec_event_carries source action id v c w) as (e & -> & He & Hmeta0).
  set (e1 := match rb_Metadata bundle with Some _ => _ | None => _ end).
  assert (ceExtensions e1 ExtensionWorkMeta = match rb_Metadata bundle with
                                              | Some md => Some (ext_string (Json.Marshal (JObj md))) | None => None end) as Hmeta1.
  { subst e1. destruct (rb_Metadata bundle); [|done]. rewrite ext_SetExtension by set_solver. by rewrite decide_True. }
  assert (carries e1 source action id c v) as He1.
  { subst e1. destruct (rb_Metadata bundle); [|done]. destruct He. split; rewrite ?type_SetExtension, ?source_SetExtension by set_solver;
      try done; rewrite ext_SetExtension by set_solver; case_decide; done. }
  destruct (SetSpecData _ e1) as [e2|] eqn:He2; [|by left]. pose proof He2 as Hset. apply spec_data_kept in He2 as (Hk & Ht & Hs).
  pose proof (carries_same e1 e2 _ _ _ _ _ He1 Hk Ht Hs) as Hc2. rewrite bind_run.
  pose proof (int32_range v Hv) as Hr.
  pose proof (publish_run svr ctx e2 _ _ _ _ _ (new_id w).2 Hc2 Hr) as Hp.
  assert (same_data w (new_id w).2) as Hnew by done.
  destruct (GRPCClient.publish _ e2 _) as [err w']. cbn [ret].
  destruct Hp as [[Hd Hn]|(res & w1 & e' & Hd & Hq & Hname & Hdoc & Hpay & Hi & ->)].
  - unfold GRPCClient.supported in Ha. apply bool_decide_eq_true in Ha. set_solver.
  - left. split; [by etrans|]. by destruct err.
  - right. exists id, c, v, res, w1. split_and!; [done..|by etrans|done|done| | |done].
    + by apply (carried_payload bundle (m :: ms) e1 e' e2).
    + rewrite <-Hi. by destruct err.
Qed.
Lemma Delete_run svr ctx source id consumer v w :
  int32_ok v = true ->
  let '(err, w') := GRPCClient.Delete (call_server svr ctx) source id consumer v w in
  same_data w w' /\ err <> None \/
  exists res w1, id <> "" /\ same_data w w1 /\ requested res source id consumer v /\
    (err = None <-> (handle_spec GRPCBroker.DeleteRequestAction res w1).1 = succeeded) /\
    w' = (handle_spec GRPCBroker.DeleteRequestAction res w1).2.
Proof.
  intros Hv. unfold GRPCClient.Delete. case_decide; [by left|]. case_decide; [by left|]. rewrite bind_run.
  destruct (spec_event_carries source GRPCBroker.DeleteRequestAction id v consumer w) as (e & -> & He & _). rewrite bind_run.
  pose proof (publish_run svr ctx e _ _ _ _ _ (new_id w).2 He (int32_range v Hv)) as Hp.
  assert (same_data w (new_id w).2) as Hnew by done.
  destruct (GRPCClient.publish _ e _) as [err w']. cbn [ret].
  destruct Hp as [[Hd Hn]|(res & w1 & e' & Hd & Hq & _ & _ & _ & Hi & ->)]; [set_solver| |].
  - left. split; [by etrans|]. by destruct err.
  - right. exists res, w1. split_and!; [done|by etrans|done| |done]. rewrite <-Hi. by destruct err.
Qed.

(** ** What the server makes of the requests *)

Lemma update_succeeded (res : Resource) w :
  wf_tables w -> res.(Version) <> 0 -> (handle_spec GRPCBroker.UpdateRequestAction res w).1 = succeeded ->
  exists row : Resource, w.(tables).(resources) !! res.(ID) = Some row /\ row.(Version) = res.(Version) /\
    IsZero row.(DeletedAt).(NTime) = true.
Proof.
  intros Hw Hv. unfold handle_spec. rewrite decide_False by done. rewrite decide_True by done.
  rewrite bind_run, ResourceService_Get_run by done. destruct (fault (tick w)); [done|].
  destruct (w.(tables).(resources) !! res.(ID)) as [row|] eqn:Hrow; [|done]. cbn iota. rewrite decide_False by done.
  rewrite bind_run. pose proof (Update_done res (bump w) Hw) as Hu.
  destruct (ResourceService.Update res (bump w)) as [r w']. destruct r as [r|err]; [|done]. intros _.
  unfold update_done, Update_decision in Hu. change (tables (bump w)) with (tables w) in Hu. rewrite Hrow in Hu. cbv zeta in Hu.
  change (Version (load scanNull row)) with row.(Version) in Hu.
  change (DeletedAt (load scanNull row)) with row.(DeletedAt) in Hu. cbn [fst snd] in Hu.
  destruct (IsZero (NTime (DeletedAt row))) eqn:Hz; cbn [negb] in Hu; [|by destruct Hu].
  destruct (decide (Version row <> Version res)) as [Hne|Hne]; [by destruct Hu|]. exists row. split_and!; [done| |done].
  destruct (decide (row.(Version) = res.(Version))); [done|by destruct Hne].
Qed.

Lemma delete_handled (res : Resource) w :
  wf_tables w -> res.(ID) <> "" ->
  exists r, deleting_done res.(ID) w r (handle_spec GRPCBroker.DeleteRequestAction res w).2 /\
    ((handle_spec GRPCBroker.DeleteRequestAction res w).1 = succeeded <-> r = None).
Proof.
  intros Hw Hid. unfold handle_spec. do 2 rewrite decide_False by done. rewrite decide_True by done. rewrite bind_run.
  pose proof (MarkAsDeleting_done res.(ID) w Hw Hid) as Hm. destruct (ResourceService.MarkAsDeleting _ w) as [r w'].
  exists r. split; [done|]. by destruct r.
Qed.
End Publish.

(** ** The commands *)

(** A decoded bundle has a 32-bit version. *)
Lemma bundle_version_int32 `{TimeJSON} strict j b :
  unmarshalled (dec (ResourceBundle_codec strict) j) = Ok b -> opt_ok int32_ok b.(rb_Version) = true.
Proof.
  assert (forall m, opt_ok int32_ok (field_value int32_ptr m) = true) as Hf.
  { intros [[| |z| | |]|]; try done. unfold field_value. cbn. case_decide as Hz; [|done]. cbn.
    unfold int32_ok. by rewrite bool_decide_true. }
  cbn [dec ResourceBundle_codec struct_codec]. unfold dec_struct, mismatch, ResourceBundle_build.
  destruct j as [| | | | |l]; cbn [unmarshalled]; try (by intros [= <-]); try done.
  destruct (check_members _ _ l) as [u [e|]|e]; cbn [dmap unmarshalled]; try done. intros [= <-]. apply Hf.
Qed.

Lemma DecodeBundle_version `{TimeJSON} `{JsonSyntax} p b :
  DecodeBundle p = Ok (Some b) -> opt_ok int32_ok b.(rb_Version) = true.
Proof.
  unfold DecodeBundle. cbn [json_client_codec]. unfold decode_body, decode.
  destruct (_ =? 0)%nat; [done|]. destruct (XmlCheck _); [done|]. destruct (JsonCheck _); [|done].
  destruct (Json.Unmarshal _) as [j|]; [|done].
  destruct (unmarshalled (dec (ResourceBundle_codec false) j)) as [b'|] eqn:E; [|by destruct j].
  intros Hd. assert (b' = b) as <- by (by destruct j; simplify_eq). by eapply bundle_version_int32.
Qed.

Section Commands.
Context `{env : Env} `{el : !EnvLaws} `{gl : GormLaws} `{ll : LockFactoryLaws} `{k8s : K8s} `{sf : Snowflake}
        `{tf : TimeFormat} `{cfg : ResourceConfig} `{eo : EventOps} `{eol : !EventOpsLaws} `{se : !SourceEvents} `{al : GRPCAuthorizerLaws}
        `{sp : !SpecEvents} `{spl : !SpecEventsLaws} `{cs : QueryStore Consumer} `{rs : QueryStore Resource} `{sl : SearchLib}
        `{pgl : PgAdvisoryLaws} `{rb : SqlRollbackLaws} `{tl : TimeJSONLaws} `{js : JsonSyntax}
        `{durations : Durations} `{files : TLSFiles} `{dial : GrpcDial}.

Lemma bundle_get_same id r w :
  wf_tables w -> same_data w (serve_http GET ("resource-bundles" :: Split id "/"%char) r w).2.
Proof.
  intros Hw. destruct (routes GET ("resource-bundles" :: Split id "/"%char) r) as [next|] eqn:Hr;
    [|unfold serve_http; by rewrite Hr].
  pose proof (serve_http_run _ _ _ _ w Hr) as Hs. destruct (serve_http _ _ _ w) as [a w']. cbn [snd].
  destruct Hs as [_ [[_ Hs]|(w1 & Hd & _ & Hd')]]; [done|]. transitivity w1; [done|].
  transitivity (next w1).2; [|done]. unfold routes in Hr.
  destruct (Split id "/"%char) as [|seg [|]] eqn:Hsp; [by destruct (Split_nonempty id "/"%char)| |done].
  case_decide; [done|]. injection Hr as <-. unfold ResourceBundleHandler.Get, handleGet, service. rewrite !bind_run.
  rewrite ResourceService_Get_run by (unfold wf_tables; by rewrite (proj1 Hd)).
  destruct (match fault _ with Some _ => _ | None => _ end); done.
Qed.

Lemma GetResourceBundle_run url opid id w :
  (forall op, is_ok (url op) = true) -> wf_tables w ->
  let '(r, w') := RESTClient.GetResourceBundle url (send opid) id w in
  same_data w w' /\ (forall b, r = Ok (Some b) -> opt_ok int32_ok b.(rb_Version) = true).
Proof.
  intros Hurl Hw. unfold RESTClient.GetResourceBundle, ApiMaestroV1ResourceBundlesIdGetExecute, execute. rewrite bind_run.
  specialize (Hurl "DefaultAPIService.ApiMaestroV1ResourceBundlesIdGet"). destruct (url _) as [u|]; [|done]. rewrite bind_run.
  unfold send at 1. rewrite bind_run. cbn [rq_method rq_path rq_query rq_headers rq_body].
  match goal with |- context [serve_http GET _ ?r w] => pose proof (bundle_get_same id r w Hw) as Hs end.
  destruct (serve_http GET _ _ w) as [a w']. cbn [ret snd] in *. split; [done|]. clear. intros b.
  assert (forall resp, by_status 200 (decoded_value "resource bundle") ((404, "resource bundle not found") :: access_messages)
            (finish [401; 403; 404; 500] DecodeBundle resp) = Ok (Some b) -> opt_ok int32_ok b.(rb_Version) = true) as Hf.
  { intros [code p]. unfold finish, by_status. cbn [StatusCode contents]. destruct (Z.leb_spec 300 code).
    - cbn [o_response o_error StatusCode]. rewrite (proj2 (Z.eqb_neq code 200)) by lia. by destruct (message_of _ _).
    - destruct (DecodeBundle p) as [v|err] eqn:E; cbn [o_response o_error o_value StatusCode];
        (destruct (code =? 200); [|by destruct (message_of _ _)]); cbn [decoded_value o_error o_value]; [|done].
      intros [= ->]. by eapply DecodeBundle_version. }
  destruct a as [[code p|]|]; [apply Hf|done|apply Hf].
Qed.

Lemma clients_url cmd c r op : clients cmd = Ok (c, r) -> is_ok (url_of r op) = true.
Proof.
  unfold clients. destruct (LoadConfigFromFlags cmd) as [x|]; [|done]. unfold NewRESTClient.
  destruct (decide (x.(RESTConfig_).(BaseURL) = "")); [done|]. by intros [= <- <-].
Qed.

(** What a manifest file asks for, given the id and the version it names. *)
Definition asked (b : ResourceBundle) (action : string) (res : Resource) : Prop :=
  match GRPCClient.nonempty b.(rb_Id) with
  | Some id => action = GRPCBroker.UpdateRequestAction /\ res.(ID) = id /\
               (forall v, b.(rb_Version) = Some v -> v <> 0 -> res.(Version) = v)
  | None => action = GRPCBroker.CreateRequestAction /\ (exists n, res.(ID) = newID n) /\ res.(Version) = 0
  end.

Lemma to_apply_run url_client opid b w :
  (forall op, is_ok (url_of url_client op) = true) -> wf_tables w -> opt_ok int32_ok b.(rb_Version) = true ->
  let '(a, w') := to_apply (fun _ => send opid) url_client b w in
  same_data w w' /\ forall action b', a = Ok (action, b') ->
    opt_ok int32_ok b'.(rb_Version) = true /\ b'.(rb_ConsumerName) = b.(rb_ConsumerName) /\
    (forall payload, carried b' payload -> carried b payload) /\
    forall res : Resource, b'.(rb_Id) = Some res.(ID) -> b'.(rb_Version) = Some res.(Version) -> asked b action res.
Proof.
  intros Hurl Hw Hv. unfold to_apply, asked. destruct (GRPCClient.nonempty (rb_Id b)) as [id|] eqn:Hid; rewrite bind_run.
  - pose proof (GetResourceBundle_run (url_of url_client) opid id w Hurl Hw) as Hg.
    destruct (RESTClient.GetResourceBundle _ _ id w) as [r w']. destruct Hg as [Hd Hr]. cbn [ret]. split; [done|].
    destruct r as [[ex|]|]; [|done|done]. specialize (Hr ex eq_refl). apply nonempty_Some in Hid as [Hid _].
    intros action b'. unfold update_version.
    destruct (rb_Version b) as [v|] eqn:Ev.
    + destruct (decide (v = 0)) as [->|Hv0].
      { intros [= <- <-]. split_and!; [done|done|done|]. cbn. intros res Hi Hres. split_and!; [done|congruence|]. by intros ? [= <-]. }
      replace (match v with 0 => Ok (rb_Version ex) | _ => _ end) with
        (match rb_Version ex with
         | Some v' => if decide (v <> v') then Err (Sprintf "version mismatch: manifest specifies version %d but resource bundle has version %d. Update your manifest with the current version or omit 'version' to use the latest" [GInt v; GInt v'])
                      else Ok (Some v)
         | None => Ok (Some v)
         end : result (option Z) string) by (by destruct v).
      assert (forall x : result (option Z) string, (x = Ok (Some v) \/ is_ok x = false) ->
                match x with Err err => Err err | Ok v => Ok (GRPCBroker.UpdateRequestAction, set_BundleVersion v b) end = Ok (action, b') ->
                action = GRPCBroker.UpdateRequestAction /\ b' = set_BundleVersion (Some v) b) as Hx.
      { intros x [->|Hx] He; [by simplify_eq|by destruct x]. }
      intros He. apply Hx in He as [-> ->].
      * split_and!; [done|done|done|]. cbn. intros res Hi Hres. split_and!; [done|congruence|]. intros ? [= <-] _. congruence.
      * destruct (rb_Version ex); [|by left]. case_decide; [by right|by left].
    + intros [= <- <-]. split_and!; [done|done|done|]. cbn. intros res Hi Hres. split_and!; [done|congruence|done].
  - split; [done|]. cbn. intros action b' [= <- <-]. split_and!; [done|done|done|]. cbn. intros res [= Hi] [= Hres].
    split_and!; [done|by eexists|done].
Qed.

(** How the command ends after the call. *)
Lemma apply_exit err id (w : World) :
  exists e, match err with
            | Some err => ends (Sprintf "failed to apply resource bundle: %s" [GStr err])
            | None => prints ("Resource bundle applied successfully:" +:+ nl +:+ "ID: " +:+ id +:+ nl)
            end w = (e, w) /\ (exit_error e = None <-> err = None).
Proof. destruct err; by eexists. Qed.

(** C11: `resourcebundle apply` end to end, with any server and any identity. The command
    fails and leaves the server as it was, or the server handled the request the manifest
    file asks for, from the configured source and for the consumer of the manifest: without
    an id the creation of a resource with a new one, with an id the update of that resource;
    and its payload has exactly the manifests, the configs and the delete option of the
    manifest as its data, and the metadata of the manifest. The name of the manifest is not
    sent. Success is reported exactly when the server reported it.
    When the manifest names a version, success means that the stored resource, not under
    deletion, had that version: an outdated manifest never replaces a newer one. *)
Theorem apply_spec svr ctx opid cmd w :
  tables_wf w.(tables) ->
  let '(e, w') := bundle_runApply (fun _ => send opid) (fun _ => call_server svr ctx) cmd w in
  same_data w w' /\ e.(exit_error) <> None \/
  exists file data b config g action res w1,
    GetString cmd "file" = Ok file /\ ReadFile file = Ok data /\ read_struct (ResourceBundle_codec false) data = Ok b /\
    LoadConfigFromFlags cmd = Ok config /\ NewGRPCClient (Some config) = Ok g /\ asked b action res /\
    carried b res.(Payload) /\ res.(r_Name) = "" /\
    res.(r_Source) = g.(sourceID) /\ b.(rb_ConsumerName) = Some res.(ConsumerName) /\ same_data w w1 /\
    w' = (handle_spec action res w1).2 /\ (e.(exit_error) = None <-> (handle_spec action res w1).1 = succeeded) /\
    (e.(exit_error) = None -> forall id v, GRPCClient.nonempty b.(rb_Id) = Some id -> b.(rb_Version) = Some v -> v <> 0 ->
     exists row : Resource, w.(tables).(resources) !! id = Some row /\ row.(Version) = v /\
       IsZero row.(DeletedAt).(NTime) = true).
Proof.
  intros Hw. unfold bundle_runApply. destruct (GetString cmd "file") as [file|] eqn:Ef; [|by left].
  destruct (ReadFile file) as [data|] eqn:Ed; [|by left].
  destruct (read_struct _ data) as [b|] eqn:Eb; [|by left].
  assert (opt_ok int32_ok b.(rb_Version) = true) as Hv.
  { unfold read_struct in Eb. destruct (Json.Unmarshal data) as [[]|]; try done; try (by eapply bundle_version_int32).
    by injection Eb as <-. }
  destruct (clients cmd) as [[config c]|] eqn:Ec; [|by left]. unfold grpc_client.
  destruct (NewGRPCClient (Some config)) as [g|] eqn:Eg; [|by left]. cbn [map_err]. rewrite bind_run.
  pose proof (to_apply_run c opid b w (fun op => clients_url cmd config c op Ec) Hw Hv) as Ha.
  destruct (to_apply _ c b w) as [a w1]. destruct Ha as [Hd Ha]. destruct a as [[action b']|]; [|by left].
  destruct (Ha action b' eq_refl) as (Hv' & Hc & Hcar & Hask). rewrite bind_run.
  pose proof (Apply_run svr ctx g.(sourceID) b' action w1 Hv') as Hp.
  destruct (GRPCClient.Apply _ _ _ _ w1) as [err w2].
  destruct Hp as [[Hd2 Hn]|(id & cons & v & res & w3 & _ & Hid & Hne & Hver & Hcons & Hd3 & (Hi & Hvr & Hs & Hcn) & Hname & Hpay & Hok & ->)].
  { destruct err; [|done]. left. split; [by etrans|done]. }
  assert (asked b action res) as Hasked by (apply Hask; congruence).
  assert (LoadConfigFromFlags cmd = Ok config) as El.
  { unfold clients in Ec. destruct (LoadConfigFromFlags cmd); [|done]. destruct (NewRESTClient _); [|done]. by simplify_eq. }
  assert (same_data w w3) as Hw3 by (by etrans).
  destruct (apply_exit err (default "" (rb_Id b')) (handle_spec action res w3).2) as (e & -> & Herr). right.
  exists file, data, b, config, g, action, res, w3. rewrite Herr. split_and!; try done; [by apply Hcar|congruence|].
  intros Hsucc id' v' Hid' Hv0 Hne0. unfold asked in Hasked. rewrite Hid' in Hasked. destruct Hasked as (-> & <- & Hver').
  specialize (Hver' v' Hv0 Hne0).
  destruct (update_succeeded res w3) as (row & Hrow & Hrv & Hz);
    [unfold wf_tables; by rewrite (proj1 Hw3)|by rewrite Hver'|by apply Hok|].
  exists row. rewrite <-(proj1 Hw3). split_and!; [done|congruence|done].
Qed.

(** The user agreed: the flag, or a yes on the terminal. *)
Definition agreed (cmd : Command) : Prop :=
  GetBool cmd "yes" = Ok true \/
  GetBool cmd "yes" = Ok false /\ exists response, Stdin cmd = Ok response /\ confirmed response = true.

(** A question is followed by the deletion only when the user agreed. *)
Lemma confirm_run cmd question proceed (w : World) :
  let '(e, w') := confirm cmd question proceed w in
  w' = w /\ ~ agreed cmd \/ agreed cmd /\ exists shown, (e, w') = proceed shown w.
Proof.
  unfold confirm, agreed, ends. destruct (GetBool cmd "yes") as [[]|].
  - destruct (proceed "" w) as [e w'] eqn:E. right. split; [by left|]. by exists "".
  - destruct (Stdin cmd) as [response|]; [|left; split; [done|]; by intros [?|(_ & ? & ? & _)]].
    destruct (confirmed response) eqn:Ec; [|left; split; [done|]; intros [?|(_ & ? & [= ->] & ?)]; congruence].
    destruct (proceed question w) as [e w'] eqn:E. right. split; [|by exists question]. right. by eauto.
  - left. split; [done|]. by intros [?|[? _]].
Qed.

(** C12: `resourcebundle delete` end to end, with any server and any identity. Nothing is
    deleted without the consent of the user. Otherwise the command fails and leaves the
    server as it was, or the server marked the named resource, and no other, as deleting,
    and success is reported exactly when the server reported it. *)
Theorem delete_spec svr ctx opid cmd id w :
  tables_wf w.(tables) ->
  let '(e, w') := bundle_runDelete (fun _ => send opid) (fun _ => call_server svr ctx) cmd id w in
  same_data w w' /\ (e.(exit_error) <> None \/ ~ agreed cmd) \/
  agreed cmd /\ exists r, deleting_done id w r w' /\ (e.(exit_error) = None <-> r = None).
Proof.
  intros Hw. unfold bundle_runDelete. destruct (GetBool cmd "yes") as [yes|] eqn:Ey; [|left; split; [done|by left]].
  destruct (clients cmd) as [[config c]|] eqn:Ec; [|left; split; [done|by left]]. rewrite bind_run.
  pose proof (GetResourceBundle_run (url_of c) opid id w (fun op => clients_url cmd config c op Ec) Hw) as Hg.
  destruct (RESTClient.GetResourceBundle _ _ id w) as [r w1]. destruct Hg as [Hd Hr].
  destruct r as [[b|]|]; [|left; split; [done|by left]..]. specialize (Hr b eq_refl). cbn [mbind option_bind].
  destruct (rb_ConsumerName b) as [consumer|]; [|left; split; [done|by left]].
  destruct (rb_Version b) as [v|]; [|left; split; [done|by left]]. cbn in Hr.
  match goal with |- context [confirm cmd ?q ?p w1] => pose proof (confirm_run cmd q p w1) as Hc; destruct (confirm cmd q p w1) as [e w'] end.
  destruct Hc as [[-> Hn]|(Hagree & shown & He)]; [left; split; [done|by right]|].
  unfold grpc_client in He. destruct (NewGRPCClient (Some config)) as [g|]; cbn [map_err] in He.
  2:{ injection He as -> ->. left. split; [done|by left]. }
  rewrite bind_run in He. pose proof (Delete_run svr ctx g.(sourceID) id consumer v w1 Hr) as Hx.
  destruct (GRPCClient.Delete _ _ _ _ _ w1) as [err w2].
  assert (w' = w2 /\ (exit_error e = None <-> err = None)) as [-> Herr] by (by destruct err; injection He as -> ->).
  destruct Hx as [[Hd2 Hne]|(res & w3 & Hid & Hd3 & (Hi & _) & Hok & ->)].
  - left. split; [by etrans|]. left. by rewrite Herr.
  - right. split; [done|]. assert (same_data w w3) as Hw3 by (by etrans).
    destruct (delete_handled res w3) as (r & Hdel & Hr2); [unfold wf_tables; by rewrite (proj1 Hw3)|by rewrite Hi|].
    exists r. rewrite Herr, Hok, Hr2. split; [|done]. rewrite <-Hi. by eapply deleting_done_same.
Qed.
End Commands.
