(* ===== verification/RestListFacts.v ===== *)
(** * Listing through the REST API

    The search walk is a renaming of allowed fields; the generic list returns one page of
    what its query selects, rows under deletion included; and the listing library (Pager.v),
    through the generated client (OpenapiClient.v), the routes and the middleware (Rest.v),
    ends with as many resources as the server holds, and with all of them when the database
    keeps to one order. *)

From S2P Require Import Prelude GoLib Errors Types Json Bundle Validation Gorm World Dao DaoFacts Locks Transactions Services ServiceFacts ListQuery GenericList Presenters SliceFilter Rest RestFacts Pager OpenapiClient JsonStruct Models ModelFacts.
Import api errors Fmt.

Open Scope Z_scope.

(** ** The search walk *)

(** Rewriting a property makes the tree no larger. *)
Lemma converted_size n n' :
  match hasProperty n with
  | None => None
  | Some true => propertiesNodeConverter n
  | Some false => Some n
  end = Some n' -> (node_size n' <= node_size n)%nat.
Proof.
  destruct (hasProperty n) as [[]|]; intros Hc; simplify_eq; [|done].
  unfold propertiesNodeConverter in Hc. destruct n as [f l r]. simpl in Hc.
  destruct l as [|l'| | |]; simplify_eq; [done| |done..].
  destruct l' as [f' [| | | |] r']; simpl in Hc; simplify_eq; simpl; lia.
Qed.

Lemma walk_nodes_ext (walk walk' : node -> result node walkError) l :
  (forall n, n ∈ l -> walk n = walk' n) -> walk_nodes walk l = walk_nodes walk' l.
Proof.
  induction l as [|n l IH]; intros Hw; [done|]. simpl. rewrite (Hw n) by set_solver. rewrite IH by set_solver. done.
Qed.

Lemma walk_nodes_fuel (walk : node -> result node walkError) l :
  (forall n, n ∈ l -> walk n <> Err OutOfFuel) -> walk_nodes walk l <> Err OutOfFuel.
Proof.
  induction l as [|n l IH]; intros Hw; [done|]. simpl. pose proof (Hw n ltac:(set_solver)).
  destruct (walk n) as [r|e]; [|congruence]. specialize (IH ltac:(set_solver)).
  destruct (walk_nodes walk l); [done|congruence].
Qed.

Lemma nodes_size n l : n ∈ l -> (node_size n <= operand_size (ONodes l))%nat.
Proof.
  induction 1 as [|n m l Hn IH]; simpl; [lia|]. simpl in IH. lia.
Qed.

(** One level of the walk, over what is done below it. *)
Definition walk_step (walk : node -> result node walkError) (n : node) (d : disallowed) : result node walkError :=
  match Func n with
  | IdentOp =>
      match Left n with
      | OString userFieldName =>
          match getField userFieldName d with
          | Err err => Err (Rejected err)
          | Ok field => Ok (Node IdentOp (OString field) ONil)
          end
      | _ => Err (Rejected (BadRequest "Identifier name must be a string" []))
      end
  | StringOp | NumberOp => Ok (Node (Func n) (Left n) ONil)
  | OtherOp _ =>
      match (match Left n with
             | ONil => Ok (Node (OtherOp "") ONil ONil)
             | ONode l => walk l
             | _ => Err Panic
             end) with
      | Err err => Err err
      | Ok l =>
          match Right n with
          | ONil => Ok (Node (Func n) (ONode l) ONil)
          | ONode v => match walk v with Err err => Err err | Ok r => Ok (Node (Func n) (ONode l) (ONode r)) end
          | ONodes v =>
              match walk_nodes walk v with Err err => Err err | Ok rr => Ok (Node (Func n) (ONode l) (ONodes rr)) end
          | _ => Err (Rejected (BadRequest "unsupported right hand side type in search query" []))
          end
      end
  end.

Lemma FieldNameWalk_S fuel n d :
  FieldNameWalk (S fuel) n d =
    match match hasProperty n with None => None | Some true => propertiesNodeConverter n | Some false => Some n end with
    | None => Err Panic
    | Some n => walk_step (fun m => FieldNameWalk fuel m d) n d
    end.
Proof. reflexivity. Qed.

(** A level only asks about smaller trees. *)
Lemma walk_step_run (walk walk' : node -> result node walkError) n d :
  (forall m, (node_size m < node_size n)%nat -> walk m = walk' m /\ walk m <> Err OutOfFuel) ->
  walk_step walk n d = walk_step walk' n d /\ walk_step walk n d <> Err OutOfFuel.
Proof.
  intros Hw. destruct n as [f l r]. unfold walk_step. cbn [Func Left Right].
  destruct f; [by destruct l; try case_match|done|done|]. simpl node_size in Hw.
  assert (forall m, node_size m <= operand_size l -> walk m = walk' m /\ walk m <> Err OutOfFuel)%nat as Hl
    by (intros; apply Hw; lia).
  assert (forall m, node_size m <= operand_size r -> walk m = walk' m /\ walk m <> Err OutOfFuel)%nat as Hr
    by (intros; apply Hw; lia). clear Hw.
  destruct l as [|l'| | |]; [|destruct (Hl l') as [<- Hl']; [simpl; lia|]; destruct (walk l') as [l''|]; [|by split; congruence]|done..];
    (destruct r as [|r'|rs| |]; [done| | |done..]).
  1, 3: destruct (Hr r') as [<- Hr']; [simpl; lia|]; destruct (walk r'); [done|by split; congruence].
  all: rewrite <-(walk_nodes_ext walk walk' rs) by (intros m Hin; apply Hr, nodes_size, Hin);
    pose proof (walk_nodes_fuel walk rs ltac:(intros m Hin; apply Hr, nodes_size, Hin));
    destruct (walk_nodes walk rs); [done|by split; congruence].
Qed.

Lemma FieldNameWalk_fueled fuel n d :
  (node_size n < fuel)%nat ->
  FieldNameWalk fuel n d = FieldNameWalk (S fuel) n d /\ FieldNameWalk fuel n d <> Err OutOfFuel.
Proof.
  revert n. induction fuel as [|fuel IH]; intros n Hn; [lia|]. rewrite (FieldNameWalk_S (S fuel)), FieldNameWalk_S.
  destruct (match hasProperty n with None => None | Some true => _ | Some false => _ end) as [n'|] eqn:Hc; [|done].
  apply converted_size in Hc. apply walk_step_run. intros m Hm. apply IH. lia.
Qed.

(** The check of a search tree ends: with the tree's size as fuel it never runs out, and
    more fuel gives the same result, so what treeWalkForSqlizer does with the result is what
    the recursive Go function does. *)
Theorem FieldNameWalk_terminates n d fuel :
  (node_size n < fuel)%nat ->
  FieldNameWalk fuel n d = FieldNameWalk (S (node_size n)) n d /\ FieldNameWalk fuel n d <> Err OutOfFuel.
Proof.
  intros Hf. split; [|by apply FieldNameWalk_fueled]. induction fuel as [|fuel IH]; [lia|].
  destruct (decide (fuel = node_size n)) as [->|]; [done|]. rewrite <-IH by lia. symmetry. apply FieldNameWalk_fueled. lia.
Qed.

(** ** One page of the selection *)

Section Page.
Context {Row : Type} `{model : Model Row} `{table : HasTable Row} `{qs : QueryStore Row} `{ql : !QueryStoreLaws Row} `{sl : SearchLibLaws} `{env : Env} (resourceType : string).

Definition no_joins (c : listContext) : Prop := c.(lc_joins) = None.

Lemma related_field_joins x c : no_joins c -> no_joins (related_field (Row := Row) resourceType x c).2.
Proof.
  intros Hc. unfold related_field. repeat (first [done | case_match | rewrite bind_run; cbn [gets]; rewrite ?Hc; cbn iota]).
Qed.

Lemma addJoins_none c q : no_joins c -> (addJoins (Row := Row) c q).2 = q.
Proof. unfold addJoins, no_joins. by intros ->. Qed.

(** A query without groups, joins and conditions. *)
Definition plain (q : Query) : Prop := q.(q_joins) = [] /\ q.(q_wheres) = [].

Lemma preload_clauses l q :
  let q' := foldl (fun q p => GenericDao.Preload p q) q l in q_groups q' = q_groups q /\ (plain q -> plain q').
Proof. cbv zeta. revert q. induction l as [|p l IH]; intros q; [done|]. simpl. destruct (IH (GenericDao.Preload p q)). auto. Qed.
Lemma orders_clauses l q :
  let q' := foldl (fun q p => GenericDao.OrderBy p q) q l in q_groups q' = q_groups q /\ (plain q -> plain q').
Proof. cbv zeta. revert q. induction l as [|p l IH]; intros q; [done|]. simpl. destruct (IH (GenericDao.OrderBy p q)). auto. Qed.

(** The joins of a context are never made, so no search groups; without a search nothing is
    added. *)
Lemma buildSearch_clauses args c q c' q' :
  no_joins c -> buildSearch (Row := Row) resourceType args c q = Ok (c', q') ->
  q_groups q' = q_groups q /\ (args.(ListQuery.Search) = "" -> q' = q).
Proof.
  intros Hc. unfold buildSearch. case_decide.
  { intros [= Hb]. pose proof (addJoins_none c q Hc) as Ha. rewrite Hb in Ha. simpl in Ha. by subst. }
  destruct (isJSONBSearch _); [destruct (parseSQL _) as [[sql values]|]; intros [=]; by subst|].
  destruct (ParseTSL _) as [tree|]; [|done]. unfold treeWalkForRelatedTables.
  pose proof (identWalk_keeps no_joins (related_field (Row := Row) resourceType) tree c related_field_joins Hc) as Hj1.
  destruct (identWalk (related_field _) tree c) as [[tree1|] c1]; [|done]. simpl in Hj1.
  unfold treeWalkForAddingTableName.
  pose proof (identWalk_keeps no_joins (table_field (Row := Row)) tree1 c1 ltac:(done) Hj1) as Hj2.
  destruct (identWalk table_field tree1 c1) as [[tree2|] c2]; [|done]. simpl in Hj2.
  destruct (treeWalkForSqlizer tree2) as [s|]; [|done].
  pose proof (addJoins_none c2 q Hj2) as Ha. destruct (addJoins c2 q) as [c3 q3]. simpl in Ha. subst q3.
  destruct s as [[sql values]|]; intros [=]; by subst.
Qed.

Definition trimmed (args : ListArguments) : ListArguments :=
  mkListArguments args.(ListQuery.Page) args.(ListQuery.Size) args.(Preloads) (Strings.Trim args.(ListQuery.Search))
    args.(ListQuery.OrderBy) args.(ListQuery.Fields).

Lemma build_run args args' q :
  build (Row := Row) resourceType args = Ok (args', q) ->
  args' = trimmed args /\ q_groups q = [] /\ (Strings.Trim args.(ListQuery.Search) = "" -> plain q).
Proof.
  unfold build, newListContext. case_decide; [done|]. cbn iota beta.
  destruct (buildPreload _ _ _) as [c q1] eqn:Hp. unfold buildPreload in Hp. injection Hp as <- <-.
  unfold buildOrderBy. set (q1 := foldl _ _ _).
  assert (q_groups q1 = [] /\ plain q1) as [Hg1 Hp1].
  { destruct (preload_clauses (Preloads (trimmed args)) GenericDao.GetInstanceDao) as [Hg Hpl]. split; [exact Hg|by apply Hpl]. }
  assert (forall q2, match buildSearch (Row := Row) resourceType (trimmed args)
             (mkListContext None [] (Preloads (trimmed args))) q2 with Err f => Err f | Ok (_, q) => Ok (trimmed args, q) end
             = Ok (args', q) -> q_groups q2 = [] -> plain q2 ->
             args' = trimmed args /\ q_groups q = [] /\ (Strings.Trim args.(ListQuery.Search) = "" -> plain q)) as Hs.
  { intros q2 Hb Hg Hpl. destruct (buildSearch _ _ _ q2) as [[c' q']|] eqn:E; [|done]. injection Hb as <- <-.
    apply buildSearch_clauses in E as [Hg' Hq']; [|done]. split_and!; [done|by rewrite Hg'|]. intros Ht. by rewrite Hq'. }
  destruct (_ =? 0)%nat; [intros Hb; by apply (Hs q1)|]. destruct (ArgsToOrderBy _ _) as [orders|]; [|done].
  intros Hb. destruct (orders_clauses orders q1) as [Hg Hpl]. apply (Hs _ Hb); [by rewrite Hg|by apply Hpl].
Qed.

Lemma count_selection now q t :
  q_groups q = [] ->
  countRows now (GenericDao.Unscoped (mkQuery q.(q_unscoped) q.(q_preloads) [] q.(q_joins) [] q.(q_wheres))) t =
    Z.of_nat (length (selection (GenericDao.Unscoped q) t)).
Proof.
  intros Hg. rewrite countRows_selection by done. destruct q as [u p o j g ws]. simpl in *. subst g.
  unfold GenericDao.Unscoped. cbn [q_preloads q_orders q_joins q_groups q_wheres].
  by rewrite (selection_clauses true p o j ws t), (selection_clauses true p [] j ws t).
Qed.

Lemma plain_selection q t :
  q_groups q = [] -> plain q -> selection (GenericDao.Unscoped q) t ≡ₚ (map_to_list (tget t)).*2.
Proof.
  destruct q as [u p o j g ws]. unfold plain, GenericDao.Unscoped. cbn. intros -> [-> ->].
  by rewrite selection_clauses, selection_all.
Qed.

(** One order is an order of the selection. *)
Lemma one_order_selection q t (rows : list Row) : one_order q t rows -> rows ≡ₚ selection q t.
Proof.
  intros Ho. set (k := Z.of_nat (S (length rows + length (selection q t)))).
  destruct (fetchRows_part 0 0 k q t) as (rows' & Hp & Hf); [lia|]. rewrite (Ho 0 0 k) in Hf by lia.
  injection Hf as Hf. change (Z.to_nat 0) with 0%nat in Hf. rewrite !drop_0 in Hf.
  pose proof (Permutation_length Hp). subst k. rewrite !take_ge in Hf by lia. by rewrite Hf.
Qed.

(** The steps a list takes, the first fault among them ending it. *)
Definition no_fault (w : World) : Prop := fault w.(tick) = None /\ fault (S w.(tick)) = None.

Lemma List_page_run args args' q w :
  build (Row := Row) resourceType args = Ok (args', q) -> no_fault w ->
  1 <= args.(ListQuery.Page) -> 0 <= args.(ListQuery.Size) ->
  (args.(ListQuery.Page) - 1) * args.(ListQuery.Size) < 2 ^ 63 -> args.(ListQuery.Page) < 2 ^ 63 ->
  exists rows w', rows ≡ₚ selection (GenericDao.Unscoped q) w.(tables) /\
    GenericList.List resourceType args w =
      (let page := slice rows args.(ListQuery.Page) args.(ListQuery.Size) in
       Ok (mkPagingMeta args.(ListQuery.Page) (Z.of_nat (length page)) (Z.of_nat (length rows)), page), w') /\
    same_data w w' /\
    (forall rows', one_order (GenericDao.Unscoped q) w.(tables) rows' ->
       slice rows args.(ListQuery.Page) args.(ListQuery.Size) = slice rows' args.(ListQuery.Page) args.(ListQuery.Size)).
Proof.
  intros Hb [Hf1 Hf2] Hp Hs Ho Hp2. cbv zeta. unfold GenericList.List. rewrite Hb.
  apply build_run in Hb as (-> & Hg & _). unfold loadList, GenericDao.Count, GenericDao.Fetch, step. rewrite !bind_run.
  cbn beta iota. rewrite Hf1. cbn [gets tables bump]. rewrite count_selection by done.
  cbn [ListQuery.Size ListQuery.Page trimmed]. destruct (Z.eqb_spec args.(ListQuery.Size) 0) as [Hz|Hz].
  { exists (selection (GenericDao.Unscoped q) w.(tables)). eexists. split; [done|]. unfold slice. rewrite Hz, !take_0.
    split; [reflexivity|]. split; [by apply bump_same|]. intros. by rewrite take_0. }
  rewrite bind_run, statement_run. cbn [tick tables bump]. rewrite Hf2. cbn iota.
  unfold Int.int64. rewrite (Int.wrap_id 64 (args.(ListQuery.Page) - 1)) by lia. rewrite Int.wrap_id by nia.
  edestruct (fetchRows_part (clock (S (tick w))) ((args.(ListQuery.Page) - 1) * args.(ListQuery.Size)) args.(ListQuery.Size)
    (GenericDao.Unscoped q) w.(tables)) as (rows & Hperm & Hfetch); [lia|]. rewrite Hfetch.
  exists rows. eexists. split; [done|]. rewrite <-(Permutation_length Hperm). split; [reflexivity|]. split; [done|].
  intros rows' Hone. rewrite (Hone _ _ args.(ListQuery.Size)) in Hfetch by lia. injection Hfetch as Hfetch.
  unfold slice. by rewrite Hfetch.
Qed.

(** C35: A list returns a page of the rows its query selects, those marked as deleted
    included, put into some order: from (page - 1) * size on, at most size of them, with
    their number and the number of all selected rows; without a search, that of all rows of
    the table. It changes nothing, and its offset does not overflow as long as it is below
    2^63. *)
Theorem List_returns_page args args' q w :
  build (Row := Row) resourceType args = Ok (args', q) -> no_fault w ->
  1 <= args.(ListQuery.Page) < 2 ^ 63 -> 0 <= args.(ListQuery.Size) ->
  (args.(ListQuery.Page) - 1) * args.(ListQuery.Size) < 2 ^ 63 ->
  exists rows w', rows ≡ₚ selection (GenericDao.Unscoped q) w.(tables) /\
    (Strings.Trim args.(ListQuery.Search) = "" -> rows ≡ₚ (map_to_list (tget w.(tables))).*2) /\
    GenericList.List resourceType args w =
      (let page := slice rows args.(ListQuery.Page) args.(ListQuery.Size) in
       Ok (mkPagingMeta args.(ListQuery.Page) (Z.of_nat (length page)) (Z.of_nat (length rows)), page), w') /\
    same_data w w'.
Proof.
  intros Hb Hf [Hp Hp2] Hs Ho. destruct (List_page_run args args' q w Hb Hf Hp Hs Ho Hp2) as (rows & w' & Hrows & Hl & Hd & _).
  exists rows, w'. split_and!; [done| |done|done]. intros Ht. apply build_run in Hb as (_ & Hg & Hplain).
  by rewrite Hrows, plain_selection by auto.
Qed.
End Page.

(** ** The error catalogue's range *)

Lemma items_between_in {A} (items : list A) low high :
  0 <= low -> low <= high <= Z.of_nat (length items) ->
  items_between items low high = Some (take (Z.to_nat (high - low)) (drop (Z.to_nat low) items)).
Proof.
  intros Hl Hh. unfold items_between. destruct (Z.leb_spec high low).
  - by replace (Z.to_nat (high - low)) with O by lia.
  - by rewrite (proj2 (Z.leb_le 0 low)), (proj2 (Z.leb_le high _)) by lia.
Qed.

Lemma items_between_all {A} (items : list A) : items_between items 0 (Z.of_nat (length items)) = Some items.
Proof. rewrite items_between_in by lia. by rewrite Z.sub_0_r, Nat2Z.id, firstn_all. Qed.

(** C38: The range of an in-memory list is always within it, for every page number of 64 bits
    and every size a request can have: no slice expression is out of range, not even when the
    offset overflows. The page asked for is returned when it ends before the end of the list;
    from the last page on, the whole list is. *)
Theorem determineListRange_spec {A} (items : list A) page size :
  - 2 ^ 63 <= page < 2 ^ 63 -> 0 <= size <= MAX_LIST_SIZE -> Z.of_nat (length items) + MAX_LIST_SIZE < 2 ^ 63 ->
  exists part, determineListRange items page size = Some (part, Z.of_nat (length items)) /\
    (exists before after, items = before ++ part ++ after) /\
    (1 <= page -> page * size < 2 ^ 63 ->
     part = if page * size <? Z.of_nat (length items) then slice items page size else items).
Proof.
  unfold MAX_LIST_SIZE, determineListRange. intros Hp Hs Hn.
  set (low := Int.int64 (Int.int64 (page - 1) * size)).
  assert (1 <= page -> page * size < 2 ^ 63 -> low = (page - 1) * size) as Hlow.
  { intros. unfold low, Int.int64. rewrite (Int.wrap_id 64 (page - 1)), Int.wrap_id by nia. done. }
  clearbody low. set (c := (low <? 0) || _ || _).
  assert (c = false -> 0 <= low /\ low + size < Z.of_nat (length items)) as Hc.
  { unfold c. intros [[Hl1%Z.ltb_ge Hl2%Z.leb_gt]%orb_false_iff Hh%Z.leb_gt]%orb_false_iff.
    unfold Int.int64 in Hh. rewrite Int.wrap_id in Hh by lia. lia. }
  assert (1 <= page -> page * size < 2 ^ 63 -> c = negb (page * size <? Z.of_nat (length items))) as Hc'.
  { intros H1 H2. specialize (Hlow H1 H2). subst low. unfold c, Int.int64. rewrite Int.wrap_id by nia.
    rewrite (proj2 (Z.ltb_ge _ 0)) by nia. cbn [orb].
    destruct (Z.leb_spec (Z.of_nat (length items)) ((page - 1) * size)),
      (Z.leb_spec (Z.of_nat (length items)) ((page - 1) * size + size)), (Z.ltb_spec (page * size) (Z.of_nat (length items)));
      try done; nia. }
  destruct c.
  - exists items. rewrite items_between_all. split_and!; [done|exists [], []; by rewrite app_nil_r|].
    intros H1 H2. specialize (Hc' H1 H2). by destruct (_ <? _).
  - destruct (Hc eq_refl) as [Hl Hh]. unfold Int.int64. rewrite Int.wrap_id by lia.
    rewrite items_between_in by lia. eexists. split_and!; [done| |].
    + eexists (take _ _), (drop _ _). rewrite take_drop. by rewrite take_drop.
    + intros H1 H2. specialize (Hc' H1 H2). specialize (Hlow H1 H2). destruct (_ <? _); [|done].
      unfold slice. rewrite Hlow. do 2 f_equal. lia.
Qed.

(** ** Field selection *)

Section Fields.
Context `{env : Env} `{tf : TimeFormat} `{ce : CloudEvents} `{sl : SearchLib} `{cs : QueryStore Consumer} `{rs : QueryStore Resource}.

Lemma collect_fields_id l acc b : (collect_fields l acc b).2 = false -> b = false \/ (collect_fields l acc b).1 <> [].
Proof.
  revert acc b. induction l as [|f l IH]; intros acc b; simpl; [by left|]. case_decide; [by apply IH|].
  intros Hf. right. clear IH Hf. generalize (if decide (Strings.Trim f = "id") then false else b).
  assert (acc ++ [Strings.Trim f] <> []) as Hne by (by destruct acc). revert Hne.
  generalize (acc ++ [Strings.Trim f]). clear. induction l as [|g l IH]; intros acc Hne c; simpl; [done|].
  case_decide; [by apply IH|]. apply IH. by destruct acc.
Qed.

(** Asking for fields always asks for some. *)
Lemma Fields_asked params : Strings.Trim (params "fields") <> "" -> (NewListArguments params).(ListQuery.Fields) <> [].
Proof.
  intros Hf. unfold NewListArguments. cbn [ListQuery.Fields]. rewrite decide_False by done.
  pose proof (collect_fields_id (Strings.Split (Strings.Trim (params "fields")) Strings.comma) [] true) as Hc.
  destruct (collect_fields _ _ _) as [l []]; [by destruct l|]. simpl in Hc. by destruct (Hc eq_refl).
Qed.

Lemma filtered_panics fields items : filtered fields items = Err Panicked.
Proof. done. Qed.

(** No list request that selects fields is ever answered with items: the handlers pass
    the items where SliceFilter expects the list struct, whose fields reflect then cannot
    find, so a request that is not refused ends in a panic of its handler. *)
Theorem list_fields_never_answered r w :
  Strings.Trim (r.(query) "fields") <> "" ->
  let bad a := a = HandlerPanics \/ exists err, a = handleError r err in
  bad (ConsumerHandler.List r w).1 /\ bad (ResourceBundleHandler.List r w).1.
Proof.
  intros Hf. apply Fields_asked in Hf. cbv zeta.
  unfold ConsumerHandler.List, ResourceBundleHandler.List, handleList, ListWithArgs. rewrite !bind_run. split.
  - destruct (GenericList.List _ _ w) as [[[paging l]|[err|]] w']; cbn [ret]; [|right; by eexists|by left].
    rewrite decide_True by done. by left.
  - destruct (GenericList.List _ _ w) as [[[paging l]|[err|]] w']; cbn [ret]; [|right; by eexists|by left].
    destruct (ResourceBundleHandler.present_all _) as [items|[err|]]; [|right; by eexists|by left].
    rewrite decide_True by done. by left.
Qed.
End Fields.

(** ** The listing library against the server *)

Section Composition.
Context `{env : Env} `{gl : GormLaws} `{ll : LockFactoryLaws} `{ce : CloudEvents} `{k8s : K8s} `{codec : BodyCodec}
        `{tf : TimeFormat} `{cfg : ResourceConfig} `{cs : QueryStore Consumer} `{rs : QueryStore Resource} `{rl : !QueryStoreLaws Resource}
        `{sl : SearchLibLaws} `{pgl : PgAdvisoryLaws} `{rb : SqlRollbackLaws} `{tj : TimeJSON} `{ccl : ClientCodecLaws}.

Lemma present_all_Forall2 l items :
  ResourceBundleHandler.present_all l = Ok items <->
  Forall2 (fun r i => ResourceBundleHandler.present r = Ok i) l items.
Proof.
  revert items. induction l as [|r l IH]; intros items; simpl.
  { split; [by intros [= <-]|]. by intros ->%Forall2_nil_inv_l. }
  split.
  - destruct (ResourceBundleHandler.present r) as [i|] eqn:Hr; [|done].
    destruct (ResourceBundleHandler.present_all l) as [js|] eqn:Hl; [|done]. intros [= <-].
    constructor; [done|]. by apply IH.
  - intros (i & js & Hr & Hl & ->)%Forall2_cons_inv_l. rewrite Hr. apply IH in Hl. by rewrite Hl.
Qed.

(** What the list handler makes of a row. *)
Definition shown (r : Resource) : result ResourceBundle failure :=
  ResourceBundleHandler.present (ResourceService.syncTimestampsFromResourceMeta r).
Definition shown_all (l : list Resource) : result (list ResourceBundle) failure :=
  ResourceBundleHandler.present_all (ResourceService.syncTimestampsFromResourceMeta <$> l).

Lemma shown_all_Forall2 l items : shown_all l = Ok items <-> Forall2 (fun r i => shown r = Ok i) l items.
Proof. unfold shown_all. rewrite present_all_Forall2. apply Forall2_fmap_l. Qed.

Lemma shown_slice l items p s : shown_all l = Ok items -> shown_all (slice l p s) = Ok (slice items p s).
Proof. rewrite !shown_all_Forall2. intros Hl. unfold slice. by apply Forall2_take, Forall2_drop. Qed.

Lemma shown_exists l : (forall r, r ∈ l -> exists i, shown r = Ok i) -> exists items, shown_all l = Ok items.
Proof.
  intros Hl. assert (exists items, Forall2 (fun r i => shown r = Ok i) l items) as [items Hi].
  { induction l as [|r l IH]; [by exists []|]. destruct (Hl r) as [i Hi]; [left|].
    destruct IH as [items Hit]; [intros; apply Hl; by right|]. exists (i :: items). by constructor. }
  exists items. by apply shown_all_Forall2.
Qed.

(** The arguments of a page request, read back from its query. *)
Lemma NewListArguments_page search p s :
  0 <= p <= Int.max_int64 -> 0 <= s <= 400 ->
  NewListArguments (values_get (list_query (Size s (Page p (Search search newListRequest))))) =
    mkListArguments p s [] (Strings.Trim search) [] [].
Proof.
  intros Hp Hs. unfold NewListArguments. cbn [list_query parameterAddToHeaderOrQuery add_opt int_param Size Page Search
    newListRequest lr_page lr_size lr_search lr_orderBy lr_fields].
  rewrite !add_value_form. cbn [values_get from_option id app String.eqb Ascii.eqb Bool.eqb].
  rewrite !Strconv.Trim_pretty by lia.
  rewrite !decide_False by (apply Strconv.pretty_not_empty; lia).
  change Strconv.ParseInt with Strconv.Atoi. rewrite !Strconv.Atoi_pretty by (unfold Int.max_int64 in *; lia).
  cbn [fst]. unfold MAX_LIST_SIZE. rewrite (proj2 (Z.ltb_ge 65500 s)), (proj2 (Z.ltb_ge s 0)) by lia. done.
Qed.

(** A server without faults, whose database has free connections, and a query for the
    search that selects presentable resources. *)
Variables (t : Tables) (search : string) (q : Query).
Notation selected := (selection (GenericDao.Unscoped q) t).
Hypothesis Hfault : forall n, fault n = None.
Hypothesis Hbegin : forall n s, is_ok (pgBegin n s).1 = true.
Hypothesis Hbuild : forall p s, exists args,
  build (Row := Resource) "Resource" (mkListArguments p s [] (Strings.Trim search) [] []) = Ok (args, q).
Hypothesis Hshown : forall r, r ∈ selected -> exists i, shown r = Ok i /\ bundle_ok i = true.
Hypothesis Hsmall : Z.of_nat (length selected) + 400 < 2 ^ 31.

Lemma newTransaction_ok w : is_ok (newTransaction w).1 = true.
Proof.
  unfold newTransaction, AdvisoryLockFactory.pg_call, step. rewrite bind_run. cbn beta.
  pose proof (Hbegin (tick w) (pg (locks w))) as Hb. destruct (pgBegin _ _) as [[x|] s]; [|done].
  rewrite bind_run. cbn beta iota. by rewrite Hfault.
Qed.

Lemma slice_map {A B} (f : A -> B) l p s : f <$> slice l p s = slice (f <$> l) p s.
Proof. unfold slice. by rewrite fmap_take, fmap_drop. Qed.

(** An item comes from a selected row. *)
Definition listed (i : ResourceBundle) : Prop := exists r, r ∈ selected /\ shown r = Ok i.

Lemma shown_listed rows items :
  rows ≡ₚ selected -> shown_all rows = Ok items -> Forall listed items /\ forallb bundle_ok items = true.
Proof.
  intros Hp Hs%shown_all_Forall2. assert (Forall (fun i => listed i /\ bundle_ok i = true) items) as Hi.
  { apply Forall_forall. intros i [n Hn]%list_elem_of_lookup. destruct (Forall2_lookup_r _ _ _ n i Hs Hn) as (r & Hr%list_elem_of_lookup_2 & Hri).
    rewrite Hp in Hr. destruct (Hshown r Hr) as (i' & Hi' & Hok). split; [by exists r|congruence]. }
  apply Forall_and_inv in Hi as [Hl Hok]. split; [done|]. apply forallb_forall. intros i Hi%list_elem_of_In.
  by apply (proj1 (Forall_forall _ _) Hok).
Qed.

(** The handler's answer to a page request: a part of the right size, of listed items; of the
    one order, when there is one. *)
Record part_of (p s : Z) (part : list ResourceBundle) : Prop := {
  part_length : Z.of_nat (length part) = Z.min s (Z.max 0 (Z.of_nat (length selected) - (p - 1) * s));
  part_listed : Forall listed part;
  part_writable : forallb bundle_ok part = true;
  part_ordered rows items : one_order (GenericDao.Unscoped q) t rows -> shown_all rows = Ok items -> part = slice items p s;
}.

Lemma List_reply r p s w :
  w.(tables) = t -> 1 <= p < 2 ^ 31 -> 0 < s <= 400 ->
  r.(query) = values_get (list_query (Size s (Page p (Search search newListRequest)))) ->
  exists part w', part_of p s part /\ w'.(tables) = t /\ ResourceBundleHandler.List r w =
    (Replied 200 (BundlesBody "ResourceBundleList" p (Z.of_nat (length part)) (Z.of_nat (length selected)) part), w').
Proof.
  intros Ht Hp Hs Hq. unfold ResourceBundleHandler.List, handleList, ListWithArgs. rewrite Hq.
  rewrite NewListArguments_page by (unfold Int.max_int64; lia). rewrite !bind_run.
  destruct (Hbuild p s) as [args Hb].
  destruct (List_page_run (Row := Resource) "Resource" _ args q w Hb) as (rows & w' & Hrows & Hl & [Hd _] & Hone);
    cbn [ListQuery.Page ListQuery.Size] in *; [by split|lia|lia|nia|lia|].
  rewrite Ht in Hrows, Hone. rewrite Hl. cbv zeta. cbn [ret].
  destruct (shown_exists rows) as [items Hi].
  { intros x Hx. rewrite Hrows in Hx. destruct (Hshown x Hx) as (i & Hi & _). by exists i. }
  destruct (shown_listed rows items Hrows Hi) as [Hlisted Hok]. pose proof (shown_slice _ _ p s Hi) as Hpart.
  unfold shown_all in Hpart. rewrite Hpart. rewrite decide_False by (intros Hx; by apply Hx).
  assert (length rows = length selected) as Hlen by (by apply Permutation_length).
  assert (length items = length selected) as Hli.
  { apply shown_all_Forall2, Forall2_length in Hi. congruence. }
  pose proof (slice_length items ltac:(lia) p s ltac:(lia) ltac:(lia)) as Hsl. rewrite Hli in Hsl.
  exists (slice items p s), w'. split.
  - split; [done| | |].
    + apply Forall_forall. intros i Hin. by apply (proj1 (Forall_forall _ _) Hlisted), (elem_of_slice i items p s).
    + apply forallb_forall. intros i Hin%list_elem_of_In. apply (proj1 (forallb_forall _ _) Hok), list_elem_of_In.
      by apply (elem_of_slice i items p s).
    + intros rows' items' Ho Hi'. pose proof (shown_slice _ _ p s Hi') as Hpart'. rewrite <-(Hone rows' Ho) in Hpart'.
      pose proof (shown_slice _ _ p s Hi) as Hpart2. congruence.
  - split; [by rewrite Hd|]. cbn [answer pm_Page pm_Size pm_Total]. rewrite Hlen.
    assert (length (slice rows p s) = length (slice items p s)) as ->.
    { unfold slice. by rewrite !length_take, !length_drop, Hli, Hlen. }
    rewrite (int32_id p), (int32_id (Z.of_nat (length (slice items p s)))), int32_id by lia. done.
Qed.

(** The answer the client decodes. *)
Lemma bundles_get_part ServerURL opid p s w :
  (forall op, is_ok (ServerURL op) = true) -> w.(tables) = t -> 1 <= p < 2 ^ 31 -> 0 < s <= 400 ->
  exists part w', part_of p s part /\ w'.(tables) = t /\ bundles_get ServerURL opid search p s w =
    (Ok (mkBundleList p (Z.of_nat (length part)) (Z.of_nat (length selected)) part), w').
Proof.
  intros Hurl Ht Hp Hs. unfold bundles_get, ApiMaestroV1ResourceBundlesGetExecute, execute. rewrite bind_run.
  specialize (Hurl "DefaultAPIService.ApiMaestroV1ResourceBundlesGet"). destruct (ServerURL _) as [u|]; [|done].
  rewrite bind_run. unfold send. rewrite bind_run. unfold serve_http. cbn [rq_method rq_path rq_query rq_body].
  set (r := mkRequest _ _ _ _).
  change (routes GET ["resource-bundles"] r) with (Some (ResourceBundleHandler.List r)). cbn iota. rewrite bind_run.
  pose proof (TransactionMiddleware_run (handleError r) (ResourceBundleHandler.List r) w) as Hm.
  pose proof (newTransaction_ok w) as Hn.
  destruct (TransactionMiddleware _ _ w) as [a w'].
  specialize (Hm (routes_txn GET ["resource-bundles"] r _ eq_refl)).
  destruct (newTransaction w).1; [|done]. destruct Hm as (x & _ & -> & ->).
  destruct (List_reply r p s (request_world x w)) as (part & w2 & Hpart & Ht2 & ->); [done..|].
  destruct Hpart as [Hlen Hl Hok Ho]. exists part. eexists. split; [by split|]. split; [|cbn; rewrite DecodeBundleList_body; [reflexivity|]]; [done|].
  unfold int32_ok. rewrite !bool_decide_true by (apply int32_id; lia). done.
Qed.

Lemma bundles_get_parts ServerURL opid :
  (forall op, is_ok (ServerURL op) = true) ->
  page_server (fun w : World => w.(tables) = t) listed (length selected) search (bundles_get ServerURL opid).
Proof.
  intros Hurl p s w Ht Hp Hs. destruct (bundles_get_part ServerURL opid p s w Hurl Ht Hp Hs) as (part & w' & [] & Ht' & Hg).
  by exists part, w'.
Qed.

Lemma bundles_get_ordered ServerURL opid rows items :
  (forall op, is_ok (ServerURL op) = true) -> one_order (GenericDao.Unscoped q) t rows -> shown_all rows = Ok items ->
  list_server (fun w : World => w.(tables) = t) items search (bundles_get ServerURL opid).
Proof.
  intros Hurl Ho Hi p s w Ht Hp Hs. destruct (bundles_get_part ServerURL opid p s w Hurl Ht Hp Hs) as (part & w' & Hpart & Ht' & Hg).
  exists w'. split; [done|]. rewrite Hg, (part_ordered _ _ _ Hpart rows items Ho Hi).
  apply shown_all_Forall2, Forall2_length in Hi. apply one_order_selection, Permutation_length in Ho. by rewrite <-Hi, Ho.
Qed.

(** C17: A client that lists without a limit, through the generated API client, the routes,
    the transaction middleware and the list handler, ends, after at most one request per 400
    resources and one more, and leaves the tables as they were. It gets as many items as its
    search selects on the server, rows marked as deleted included, and each item is one of
    these rows, presented. No page asks for an order; when the database keeps to one order
    of the rows all the same, the items are all the rows, each once and in that order. *)
Theorem rest_PageList_complete ServerURL opid fuel w :
  (forall op, is_ok (ServerURL op) = true) -> w.(tables) = t -> (length selected / 400 < fuel)%nat ->
  exists items w', w'.(tables) = t /\ PageList (bundles_get ServerURL opid) fuel search noOptions w = (Some (Ok (items, "")), w') /\
    length items = length selected /\ (forall i, i ∈ items -> exists r, r ∈ selected /\ shown r = Ok i) /\
    (forall rows, one_order (GenericDao.Unscoped q) t rows -> rows ≡ₚ selected /\ shown_all rows = Ok items).
Proof.
  intros Hurl Ht Hf.
  destruct (PageList_parts (bundles_get ServerURL opid) listed (length selected) (fun w => w.(tables) = t) search
              (bundles_get_parts ServerURL opid Hurl) Hsmall fuel w Ht Hf) as (items & w' & Ht' & Hl & Hn & Hrun).
  exists items, w'. split_and!; [done..|by apply Forall_forall|]. intros rows Ho. pose proof (one_order_selection _ _ _ Ho) as Hp.
  split; [done|]. destruct (shown_exists rows) as [items' Hi].
  { intros r Hr. rewrite Hp in Hr. destruct (Hshown r Hr) as (i & Hi & _). by exists i. }
  assert (length items' = length selected) as Hlen.
  { pose proof (Permutation_length Hp). apply shown_all_Forall2, Forall2_length in Hi. congruence. }
  destruct (PageList_from (bundles_get ServerURL opid) items' (fun w => w.(tables) = t) search
              (bundles_get_ordered ServerURL opid rows items' Hurl Ho Hi) ltac:(by rewrite Hlen) fuel noOptions 1 w Ht eq_refl ltac:(lia) eq_refl
              ltac:(by rewrite Hlen)) as (w2 & _ & Hrun2).
  rewrite Hrun in Hrun2. injection Hrun2 as -> _. exact Hi.
Qed.
End Composition.
