(* ===== verification/RestWitnesses.v ===== *)
(** * The REST theorems on a concrete deployment

    Concrete instances of the query store, the search libraries and the times, and the
    theorems at the sample database. *)

From S2P Require Import Prelude GoLib Errors Types Json Bundle Validation Gorm World Dao DaoFacts Locks Transactions Services Samples ServiceFacts ListQuery GenericList Presenters SliceFilter Rest RestFacts Pager OpenapiClient RestListFacts JsonStruct Models ModelFacts Wire WireFacts.
Import api errors.

Open Scope Z_scope.

(** ** Instances *)

(** A query selects the rows of the table, the live ones unless it is unscoped, in the order
    of the keys. *)
Definition memory_rows {Row} `{Model Row, HasTable Row} (q : Query) (t : Tables) : list Row :=
  filter (fun r => visible q.(q_unscoped) r = true) (map_to_list (tget t)).*2.
#[export] Instance memory_store {Row} `{Model Row, HasTable Row} : QueryStore Row := {
  selection := memory_rows;
  countRows _ q t := Z.of_nat (length (memory_rows q t));
  fetchRows _ o k q t := Ok (take (Z.to_nat k) (drop (Z.to_nat o) (memory_rows q t)));
  schemaTable := "rows";
  Association _ := None;
}.
Lemma filter_visible_true {Row} `{Model Row} (l : list Row) : filter (fun r => visible true r = true) l = l.
Proof. induction l as [|r l IH]; [done|]. rewrite filter_cons_True by done. by rewrite IH. Qed.
#[export] Instance memory_store_laws {Row} `{Model Row, HasTable Row} : QueryStoreLaws Row.
Proof.
  split; unfold selection, memory_store, memory_rows; cbn [q_unscoped]; try done.
  - intros t. by rewrite filter_visible_true.
  - intros. by rewrite filter_visible_true.
  - intros n o k q t Hk. by eexists.
Qed.
Lemma memory_one_order {Row} `{Model Row, HasTable Row} q t : one_order (Row := Row) q t (memory_rows q t).
Proof. by intros n o k Hk. Qed.

(** A search is one identifier, compared with a value. *)
#[export] Instance sample_search : SearchLib := {
  Singular s := s;
  Plural s := s +:+ "s";
  ParseTSL s := Ok (Node (OtherOp "=") (ONode (Node IdentOp (OString s) ONil)) (ONode (Node StringOp (OString "x") ONil)));
  identWalk S E f n :=
    match n with
    | Node o (ONode (Node IdentOp (OString s) r')) r =>
        let! x := f s in
        ret (match x with Ok s' => Ok (Node o (ONode (Node IdentOp (OString s') r')) r) | Err e => Err e end)
    | _ => ret (Ok n)
    end;
  sqlFilterWalk n := Ok (Ok ("true", []));
  parseSQL s := Ok (s, []);
}.
#[export] Instance sample_search_laws : SearchLibLaws.
Proof.
  split. intros S E P f n s Hf Hs. cbn. repeat case_match; try done. rewrite bind_run.
  match goal with |- context [f ?x s] => specialize (Hf x s Hs); destruct (f x s) as [[] ?] end; done.
Qed.

(** A time is written as its number of nanoseconds. *)
#[export] Instance sample_times : TimeJSON := {
  MarshalTime t := if decide (0 <= t < 2 ^ 63) then Ok (pretty t)
                   else Err "Time.MarshalJSON: year outside of range [0,9999]";
  UnmarshalTime s := match Strconv.Atoi s with (t, None) => Ok t | _ => Err "Time.UnmarshalJSON: no time" end;
}.
#[export] Instance sample_times_laws : TimeJSONLaws.
Proof.
  intros t s. cbn. case_decide as Ht; [|done]. intros [= <-]. rewrite Strconv.Atoi_pretty; [done|].
  unfold Int.max_int64. lia.
Qed.
#[export] Instance sample_syntax : JsonSyntax := fun _ => "unexpected end of JSON input".

#[export] Instance memory_rollback : SqlRollback := fun _ tx s => (None, end_tx tx s).
#[export] Instance memory_rollback_laws : SqlRollbackLaws.
Proof. by intros n tx s. Qed.

(** ** Requests *)

Definition request (body : string) (q : list (string * string)) : Request := mkRequest "op1" (Ok body) "" (values_get q).
Definition patch_x : Request := request (Json.Marshal (JObj [("labels", JObj [("label", JStr "x")])])) [].
Definition create_c2 : Request := request (Json.Marshal (JObj [("name", JStr "c2")])) [].
Definition rest_world : World := set_txn None sample_world.

Lemma rest_keeps_tables_wf_witness :
  let w' := (for_each (fun '(method, path, r) => serve_http method path r >> ret tt)
               [(DELETE, ["resource-bundles"; "r1"], request "" []); (PATCH, ["consumers"; "c1"], patch_x);
                (POST, ["consumers"], create_c2)] rest_world).2 in
  tables_wf w'.(tables) /\ w'.(txn) = None.
Proof. apply (rest_keeps_tables_wf); [apply sample_tables_wf|reflexivity]. Defined.


Lemma rest_patch_spec_witness :
  let '(a, w') := serve_http PATCH ["consumers"; "c1"] patch_x rest_world in
  failed_cleanly patch_x rest_world a w' \/
  exists rep, a = Some rep /\ consumer_patched patch_x "c1" rest_world rep w'.
Proof. apply (rest_patch_spec "c1" patch_x rest_world); [apply sample_tables_wf|discriminate]. Defined.

(** The patch goes through. *)
Example patch_answers :
  exists c, (serve_http PATCH ["consumers"; "c1"] patch_x rest_world).1 = Some (Replied 200 (ConsumerBody c)) /\
    c.(oc_Labels) = Some [("label", "x")] /\ c.(oc_Name) = Some "cluster1".
Proof. eexists. vm_compute. done. Qed.

Lemma rest_create_spec_witness :
  (exists c, (serve_http POST ["consumers"] create_c2 rest_world).1 = Some (Replied 201 (ConsumerBody c))) /\
  let '(a, w') := serve_http POST ["consumers"] create_c2 rest_world in
  failed_cleanly create_c2 rest_world a w' \/
  exists rep, a = Some rep /\ consumer_created create_c2 rest_world rep w'.
Proof. split; [eexists; vm_compute; reflexivity|]. apply (rest_create_spec create_c2 rest_world). Defined.

(** ** A fault on the way *)

(** Nothing fails but the step [k]. *)
Definition faulty (k : nat) : Env :=
  {| fault n := if decide (n = k) then Some "driver: bad connection" else None;
     clock n := Z.of_nat n + 1;
     newID n := String.append "id-" (pretty n) |}.

Definition delete_r1 (e : Env) : M World reply :=
  ResourceBundleHandler.Delete (env := e) (with_id "r1" (request "" [])).

(** The insertion of the Delete event fails: the answer is 500, the transaction was marked
    and is over, and the row is marked as deleting all the same, without an event. *)
Lemma TransactionMiddleware_spec_witness :
  let refuse := handleError (request "" []) in
  let '(a, w') := TransactionMiddleware (env := faulty 30) refuse (delete_r1 (faulty 30)) rest_world in
  (exists x, (x ∉ rest_world.(locks).(pg).(openTxs)) /\
     a = (delete_r1 (faulty 30) (request_world x rest_world)).1 /\
     same_data (delete_r1 (faulty 30) (request_world x rest_world)).2 w' /\
     w'.(txn) = None /\
     w'.(locks).(pg).(openTxs) = (delete_r1 (faulty 30) (request_world x rest_world)).2.(locks).(pg).(openTxs) ∖ {[x]}) /\
  (exists p, a = Replied 500 p) /\
  (exists r, w'.(tables).(resources) !! "r1" = Some r /\ (r : Resource).(DeletedAt).(Valid) = true) /\
  w'.(tables).(events) = rest_world.(tables).(events).
Proof.
  cbv zeta.
  pose proof (TransactionMiddleware_spec (env := faulty 30) (handleError (request "" [])) (delete_r1 (faulty 30)) rest_world
                (routes_txn (env := faulty 30) DELETE ["resource-bundles"; "r1"] (request "" []) _ eq_refl)) as Hm.
  destruct (TransactionMiddleware _ _ rest_world) as [a w'] eqn:E. split.
  { assert (is_ok (newTransaction (env := faulty 30) rest_world).1 = true) as Hok by (vm_compute; reflexivity).
    destruct (newTransaction rest_world).1; [exact Hm|discriminate Hok]. }
  vm_compute in E. injection E as <- <-. split; [by eexists|]. split; [|vm_compute; reflexivity].
  eexists. split; [vm_compute; reflexivity|reflexivity].
Defined.

Lemma newTransaction_leaks_witness :
  let '(a, w') := TransactionMiddleware (env := faulty 21) (handleError (request "" [])) (delete_r1 (faulty 21)) rest_world in
  a = handleError (request "" []) (GeneralError "" []) /\ (0%nat ∈ w'.(locks).(pg).(openTxs)) /\ w'.(txn) = rest_world.(txn).
Proof.
  eapply (newTransaction_leaks (env := faulty 21) rest_world 0 _ "driver: bad connection"); vm_compute; reflexivity.
Defined.

(** ** Lists *)

Definition sample_tree : node := Node (OtherOp "and") (ONode (Node IdentOp (OString "name") ONil)) ONil.

Lemma FieldNameWalk_terminates_witness :
  FieldNameWalk 9 sample_tree ∅ = FieldNameWalk 3 sample_tree ∅ /\ FieldNameWalk 9 sample_tree ∅ <> Err OutOfFuel.
Proof. apply (FieldNameWalk_terminates sample_tree ∅ 9). vm_compute. lia. Defined.

Definition page_args (page size : Z) : ListArguments := mkListArguments page size [] "" [] [].

Definition list_query : Query := mkQuery false [] [] [] [] [].

Lemma List_returns_page_witness :
  exists rows w', rows ≡ₚ (map_to_list rest_world.(tables).(resources)).*2 /\ length rows = 2%nat /\
    GenericList.List (Row := Resource) "Resource" (page_args 1 10) rest_world =
      (Ok (mkPagingMeta 1 2 2, slice rows 1 10), w') /\ same_data rest_world w'.
Proof.
  destruct (List_returns_page (Row := Resource) "Resource" (page_args 1 10) (page_args 1 10) list_query rest_world)
    as (rows & w' & _ & Hall & Hl & Hd); [reflexivity|split; reflexivity|cbn; lia|cbn; lia|cbn; lia|].
  specialize (Hall eq_refl). exists rows, w'. split; [exact Hall|].
  assert (length rows = 2%nat) as Hn by (rewrite (Permutation_length Hall); vm_compute; reflexivity).
  split; [exact Hn|]. split; [|exact Hd]. rewrite Hl. cbn [ListQuery.Page ListQuery.Size page_args].
  unfold slice. change (Z.to_nat ((1 - 1) * 10)) with 0%nat. rewrite drop_0, take_ge by (rewrite Hn; vm_compute; lia).
  by rewrite Hn.
Defined.

Lemma determineListRange_spec_witness :
  exists part, determineListRange [1; 2; 3; 4; 5] 2 2 = Some (part, 5) /\
    (exists before after, [1; 2; 3; 4; 5] = before ++ part ++ after) /\
    (1 <= 2 -> 2 * 2 < 2 ^ 63 -> part = [3; 4]).
Proof. apply (determineListRange_spec [1; 2; 3; 4; 5] 2 2); [lia|vm_compute; split; discriminate|vm_compute; reflexivity]. Defined.

Lemma list_fields_never_answered_witness :
  let r := request "" [("fields", "name")] in
  (ConsumerHandler.List r rest_world).1 = HandlerPanics /\
  let bad a := a = HandlerPanics \/ exists err, a = handleError r err in
  bad (ConsumerHandler.List r rest_world).1 /\ bad (ResourceBundleHandler.List r rest_world).1.
Proof.
  split; [vm_compute; reflexivity|]. apply (list_fields_never_answered (request "" [("fields", "name")]) rest_world).
  vm_compute. discriminate.
Defined.

(** What the sample server holds: a live resource and one marked as deleted. *)
Lemma rest_PageList_complete_witness :
  exists items w', w'.(tables) = sample_tables /\ length items = 2%nat /\
    PageList (bundles_get (fun _ => Ok "http://localhost:8000") "op1") 1 "" noOptions rest_world =
      (Some (Ok (items, "")), w') /\
    shown_all (memory_rows (GenericDao.Unscoped list_query) sample_tables) = Ok items.
Proof.
  destruct (rest_PageList_complete sample_tables "" list_query) with (ServerURL := fun _ : string => Ok (E := string) "http://localhost:8000")
    (opid := "op1") (fuel := 1%nat) (w := rest_world) as (items & w' & Ht & Hrun & Hlen & _ & Hone);
    [done|done|intros; by eexists| |vm_compute; reflexivity|done|done|vm_compute; lia|].
  - intros r Hr. assert (r ∈ [sample_resource; deleting_resource]) as Hr' by exact Hr.
    apply list_elem_of_In in Hr'. cbn [In] in Hr'. destruct Hr' as [<-|[<-|[]]];
      (eexists; split; [vm_compute; reflexivity|vm_compute; reflexivity]).
  - exists items, w'. split; [exact Ht|]. split; [rewrite Hlen; vm_compute; reflexivity|]. split; [exact Hrun|].
    apply (Hone _ (memory_one_order _ _)).
Defined.

(** ** The wire *)

Definition wire_consumer : OpenConsumer :=
  mkOpenConsumer (Some "c1") (Some "Consumer") None (Some "cluster1") (Some [("env", "a"); ("zone", "b")]) (Some 5) None.

Lemma wire_roundtrip_witness :
  consumer_ok wire_consumer = true /\ DecodeConsumer (ConsumerBody wire_consumer) = Ok (Some wire_consumer).
Proof.
  split; [vm_compute; reflexivity|].
  apply (proj1 wire_roundtrip wire_consumer). vm_compute. reflexivity.
Defined.

Lemma unknown_member_in_list_witness :
  dec (ResourceBundle_codec false) (JObj [("id", JStr "b1"); ("owner", JStr "x")]) = dec (ResourceBundle_codec false) (JObj [("id", JStr "b1")]) /\
  exists err, ResourceBundleList_UnmarshalJSON
    (JObj [("items", JArr [JObj [("id", JStr "b1"); ("owner", JStr "x")]]); ("kind", JStr "ResourceBundleList");
           ("page", JNum 1); ("size", JNum 1); ("total", JNum 1)]) = Err err.
Proof.
  apply (unknown_member_in_list "owner" (JStr "x") [("id", JStr "b1")] [] _ [JObj [("id", JStr "b1"); ("owner", JStr "x")]]).
  - vm_compute. reflexivity.
  - left.
  - left.
Defined.
