(* ===== verification/WatcherStore.v ===== *)
(** * pkg/client/cloudevents/grpcsource: the watcher store of a source client

    util.go, watch.go and watcherstore.go: works are listed and fetched through the REST
    API, and the events of works are handed to the watchers. The Kubernetes types and their
    JSON decoding, label selectors and client-go's FIFO are parameters ([WorkLib]). Watchers
    are objects shared by the store and their consumers, so they live in a heap; sending
    takes a read lock over all watchers and blocks on each channel, and is therefore a
    thread of its own, [sender], in a step relation over [state]. *)

From S2P Require Import Prelude GoLib Errors Types Json Bundle Presenters Pager Rest OpenapiClient.
Import api Fmt Strings.

Open Scope Z_scope.

(** ** Works *)

Record ObjectMeta := mkObjectMeta {
  om_Name : string;
  om_Namespace : string;
  om_UID : string;
  om_Labels : list (string * string);
  om_ResourceVersion : string;
  om_Generation : Z;
  (** annotations, finalizers, owner references and the rest, as JSON *)
  om_Rest : JSONMap;
}.

(** workv1.ManifestWork; the parts nothing here looks into are JSON. *)
Record ManifestWork := mkManifestWork {
  mw_ObjectMeta : ObjectMeta;
  mw_Raw : list string;
  mw_Delete : option JSONMap;
  mw_Configs : list JSONMap;
  (** the conditions by type, whether true, and the whole status *)
  mw_Conditions : list (string * bool);
  mw_Status : JSONMap;
}.

(** selection.Operator, of a requirement of a label selector *)
Inductive Operator := Equals | DoubleEquals | NotEquals | Exists | In_ | NotIn | OtherOperator (name : string).
Record Requirement := mkRequirement { rq_Key : string; rq_Operator : Operator; rq_Values : list string }.

Class WorkLib := {
  Selector : Type;
  Everything : Selector;
  ParseSelector : string -> result Selector string;
  (** the requirements, and whether the selector can select anything *)
  Requirements : Selector -> list Requirement * bool;
  Matches : Selector -> list (string * string) -> bool;
  (** unstructured.MarshalJSON *)
  marshal : JSONMap -> result string string;
  unmarshalMeta : string -> result ObjectMeta string;
  unmarshalDeleteOption : string -> result JSONMap string;
  unmarshalConfig : string -> result JSONMap string;
  (** conditions and resource status *)
  unmarshalStatus : JSONMap -> result (list (string * bool) * JSONMap) string;
  (** utils.UID(sourceID, resource, namespace, name) *)
  workUID : string -> string -> string -> string;
}.

(** How a conversion fails. *)
Inductive workError := WorkErr (msg : string) | NilPointer.

Section Util.
Context `{lib : WorkLib}.

Definition jsonbPrefix : string := "payload->'metadata'->'labels'".

Fixpoint map_result {A B E} (f : A -> result B E) (l : list A) : result (list B) E :=
  match l with
  | [] => Ok []
  | a :: l => match f a with
              | Err e => Err e
              | Ok b => match map_result f l with Err e => Err e | Ok bs => Ok (b :: bs) end
              end
  end.

(** marshal, then json.Unmarshal *)
Definition reread {A} (unmarshal : string -> result A string) (m : JSONMap) : result A workError :=
  match marshal m with
  | Err e => Err (WorkErr e)
  | Ok s => map_err WorkErr (unmarshal s)
  end.

Definition mlen (m : JSONMap) : nat := length (default [] m).

(** ToManifestWork; the version is a pointer the API may leave out. *)
Definition ToManifestWork (rb : ResourceBundle) : result ManifestWork workError :=
  match reread unmarshalMeta rb.(rb_Metadata) with
  | Err e => Err e
  | Ok m =>
      match rb.(rb_Version) with
      | None => Err NilPointer
      | Some version =>
          let m := mkObjectMeta m.(om_Name) m.(om_Namespace) m.(om_UID) m.(om_Labels) (Sprintf "%d" [GInt version]) version
                     m.(om_Rest) in
          match map_result (fun x => map_err WorkErr (marshal x)) (default [] rb.(rb_Manifests)) with
          | Err e => Err e
          | Ok manifests =>
              match (if (mlen rb.(rb_DeleteOption) =? 0)%nat then Ok None
                     else match reread unmarshalDeleteOption rb.(rb_DeleteOption) with Ok o => Ok (Some o) | Err e => Err e end) with
              | Err e => Err e
              | Ok option_ =>
                  match map_result (reread unmarshalConfig) (default [] rb.(rb_ManifestConfigs)) with
                  | Err e => Err e
                  | Ok configs =>
                      if (mlen rb.(rb_Status) =? 0)%nat then Ok (mkManifestWork m manifests option_ configs [] None)
                      else match unmarshalStatus rb.(rb_Status) with
                           | Err e => Err (WorkErr e)
                           | Ok (conditions, status) => Ok (mkManifestWork m manifests option_ configs conditions status)
                           end
                  end
              end
          end
      end
  end.

(** The loop over the requirements: equality, inequality and existence terms, and the
    In-lists, a map from the key. *)
Record terms := mkTerms {
  equalsLabels : list string;
  notEqualsLabels : list string;
  existsKeys : list string;
  inLabels : list (string * list string);
}.

(** Assignment to the map; the entries are in the order its iteration takes. *)
Definition assign (k : string) (v : list string) (m : list (string * list string)) : list (string * list string) :=
  filter (fun kv => kv.1 <> k) m ++ [(k, v)].

(** A double quote. *)
Definition quote : string := String (ascii_of_nat 34) "".

Definition add_requirement (t : terms) (r : Requirement) : result terms string :=
  let unequal v := Sprintf "%s->>'%s'<>'%s'" [GStr jsonbPrefix; GStr r.(rq_Key); GStr v] in
  match r.(rq_Operator) with
  | Equals | DoubleEquals =>
      match r.(rq_Values) with
      | [v] => Ok (mkTerms (t.(equalsLabels) ++ [quote +:+ r.(rq_Key) +:+ quote +:+ ":" +:+ quote +:+ v +:+ quote])
                     t.(notEqualsLabels) t.(existsKeys) t.(inLabels))
      | _ => Err "too many values in equals operation"
      end
  | NotEquals =>
      match r.(rq_Values) with
      | [v] => Ok (mkTerms t.(equalsLabels) (t.(notEqualsLabels) ++ [unequal v]) t.(existsKeys) t.(inLabels))
      | _ => Err "too many values in not equals operation"
      end
  | Exists =>
      Ok (mkTerms t.(equalsLabels) t.(notEqualsLabels)
            (t.(existsKeys) ++ [Sprintf "%s->>'%s'<>null" [GStr jsonbPrefix; GStr r.(rq_Key)]]) t.(inLabels))
  | In_ =>
      Ok (mkTerms t.(equalsLabels) t.(notEqualsLabels) t.(existsKeys)
            (assign r.(rq_Key) ((fun v => Sprintf "'%s'" [GStr v]) <$> r.(rq_Values)) t.(inLabels)))
  | NotIn => Ok (mkTerms t.(equalsLabels) (t.(notEqualsLabels) ++ (unequal <$> r.(rq_Values))) t.(existsKeys) t.(inLabels))
  | OtherOperator name => Err (Sprintf "unsupported operator %s" [GStr name])
  end.

Fixpoint add_requirements (t : terms) (l : list Requirement) : result terms string :=
  match l with
  | [] => Ok t
  | r :: l => match add_requirement t r with Err e => Err e | Ok t => add_requirements t l end
  end.

(** (selector, search, whether there is one) *)
Definition ToLabelSearch (opts : ListOptions) : result (Selector * string * bool) string :=
  if (String.length opts.(LabelSelector) =? 0)%nat then Ok (Everything, "", false)
  else match ParseSelector opts.(LabelSelector) with
       | Err err => Err (Sprintf "invalid labels selector %s: %v" [GStr (quote +:+ opts.(LabelSelector) +:+ quote); GStr err])
       | Ok labelSelector =>
           let '(requirements, selectable) := Requirements labelSelector in
           if negb selectable then Ok (Everything, "", false)
           else match add_requirements (mkTerms [] [] [] []) requirements with
                | Err err => Err err
                | Ok t =>
                    let labelSearch :=
                      (match t.(equalsLabels) with
                       | [] => []
                       | l => [Sprintf "%s@>'{%s}'" [GStr jsonbPrefix; GStr (Join l ",")]]
                       end)
                      ++ ((fun '(key, vals) => Sprintf "%s->>'%s'in(%s)" [GStr jsonbPrefix; GStr key; GStr (Join vals ",")])
                            <$> t.(inLabels))
                      ++ t.(notEqualsLabels) ++ t.(existsKeys) in
                    Ok (labelSelector, Join labelSearch " and ", true)
                end
       end.

(** metav1.NamespaceAll is the empty string. *)
Definition NamespaceAll : string := "".

Definition ToSyncSearch (sourceID : string) (namespaces : list string) : string :=
  if decide (NamespaceAll ∈ namespaces) then Sprintf "source='%s'" [GStr sourceID]
  else Sprintf "source='%s' and (%s)"
         [GStr sourceID; GStr (Join ((fun ns => Sprintf "consumer_name='%s'" [GStr ns]) <$> namespaces) " or ")].
End Util.

(** ** Watchers *)

Inductive WatchType := Modified | Deleted.
(** The object of an event; [None] is one of another type. *)
Record event := mkWatchEvent { ev_Type : WatchType; ev_Object : option ManifestWork }.

Section Store.
Context `{lib : WorkLib}.

(** done and result are open until Stop closes them; [got] is what was read from result,
    the latest first, each with the number of its send. *)
Record Watcher := mkWatcher {
  w_namespace : string;
  w_labelSelector : Selector;
  w_stopped : bool;
  w_done : bool;
  w_closed : bool;
  w_got : list (nat * event);
}.

Definition newWorkWatcher (namespace : string) (labelSelector : Selector) : Watcher :=
  mkWatcher namespace labelSelector false false false [].

Definition isStopped (w : Watcher) : bool := w.(w_stopped).

(** [None]: closing the result channel again panics. *)
Definition Stop (w : Watcher) : option Watcher :=
  if w.(w_done) then
    if w.(w_closed) then None
    else Some (mkWatcher w.(w_namespace) w.(w_labelSelector) w.(w_stopped) true true w.(w_got))
  else Some (mkWatcher w.(w_namespace) w.(w_labelSelector) true true w.(w_closed) w.(w_got)).

(** The filter of Receive. *)
Definition wants (w : Watcher) (evt : event) : bool :=
  match evt.(ev_Object) with
  | None => false
  | Some work =>
      let m := work.(mw_ObjectMeta) in
      (bool_decide (w.(w_namespace) = NamespaceAll) || bool_decide (w.(w_namespace) = m.(om_Namespace)))
      && Matches w.(w_labelSelector) m.(om_Labels)
  end.

(** Receive up to the send on the channel: whether it goes on to send. *)
Definition Receive (w : Watcher) (evt : event) : bool := negb (isStopped w) && wants w evt.

Definition read (n : nat) (evt : event) (w : Watcher) : Watcher :=
  mkWatcher w.(w_namespace) w.(w_labelSelector) w.(w_stopped) w.(w_done) w.(w_closed) ((n, evt) :: w.(w_got)).

(** ** The store *)

(** cache.FIFO keyed by the UID: one object per work, in the order first added. *)
Class Fifo := {
  queue : Type;
  q_empty : queue;
  q_Add : ManifestWork -> queue -> queue;
  q_Pop : queue -> option (ManifestWork * queue);
  q_list : queue -> list ManifestWork;
}.
Definition same_key (a b : ManifestWork) : bool :=
  bool_decide (a.(mw_ObjectMeta).(om_UID) = b.(mw_ObjectMeta).(om_UID)).
Class FifoLaws `{Fifo} : Prop := {
  q_list_empty : q_list q_empty = [];
  q_Add_list w q : q_list (q_Add w q) =
    if existsb (same_key w) (q_list q) then (fun x => if same_key w x then w else x) <$> q_list q else q_list q ++ [w];
  q_Pop_list q : match q_Pop q with
                 | None => q_list q = []
                 | Some (w, q') => q_list q = w :: q_list q'
                 end;
}.

Context `{fifo : Fifo}.

(** A thread in sendWatchEvent: its event, the watchers still to be served, and whether it
    is at the send on the first one's channel. It holds the read lock. *)
Record sender := mkSender { s_evt : event; s_todo : list nat; s_sending : bool }.

(** [log] remembers, for the statements, the event of each send and the watchers it was for. *)
Record state := mkState {
  heap : gmap nat Watcher;
  watchers : gmap string nat;
  workQueue : queue;
  senders : gmap nat sender;
  log : gmap nat (event * list nat);
  crashed : bool;
}.

Definition newRESTFulAPIWatcherStore : state := mkState ∅ ∅ q_empty ∅ ∅ false.

Definition set_watcher (i : nat) (w : Watcher) (s : state) : state :=
  mkState (<[i := w]> s.(heap)) s.(watchers) s.(workQueue) s.(senders) s.(log) s.(crashed).
Definition set_sender (n : nat) (x : sender) (s : state) : state :=
  mkState s.(heap) s.(watchers) s.(workQueue) (<[n := x]> s.(senders)) s.(log) s.(crashed).
Definition set_queue (q : queue) (s : state) : state :=
  mkState s.(heap) s.(watchers) q s.(senders) s.(log) s.(crashed).
Definition end_sender (n : nat) (s : state) : state :=
  mkState s.(heap) s.(watchers) s.(workQueue) (delete n s.(senders)) s.(log) s.(crashed).
Definition crash (s : state) : state := mkState s.(heap) s.(watchers) s.(workQueue) s.(senders) s.(log) true.

(** registerWatcher, under the write lock; [i] is the address a new watcher gets. *)
Definition registerWatcher (i : nat) (namespace : string) (labelSelector : Selector) (s : state) : nat * state :=
  match j ← s.(watchers) !! namespace; w ← s.(heap) !! j; if isStopped w then None else Some j with
  | Some j => (j, s)
  | None =>
      (i, mkState (<[i := newWorkWatcher namespace labelSelector]> s.(heap)) (<[namespace := i]> s.(watchers))
            s.(workQueue) s.(senders) s.(log) s.(crashed))
  end.

(** The event of HandleReceivedResource. *)
Definition ResourceDeleted : string := "Deleted".
Definition HandleReceivedResource (work : ManifestWork) : event :=
  mkWatchEvent (if existsb (fun c => bool_decide (c.1 = ResourceDeleted) && c.2) work.(mw_Conditions) then Deleted else Modified)
    (Some work).

(** sendWatchEvent begins: the watchers in the order the map's iteration takes. *)
Definition sendWatchEvent (n : nat) (evt : event) (order : list nat) (s : state) : state :=
  mkState s.(heap) s.(watchers) s.(workQueue) (<[n := mkSender evt order false]> s.(senders))
    (<[n := (evt, order)]> s.(log)) s.(crashed).

(** ** Steps *)

Inductive label :=
| LReceived (n : nat) (work : ManifestWork)   (** HandleReceivedResource is called *)
| LPop (n : nat)                              (** process takes a work off the queue *)
| LCheck (n i : nat)                          (** Receive decides whether to send *)
| LRead (n i : nat)                           (** the consumer of [i] reads the event of [n] *)
| LDone (n : nat)                             (** the read lock is given back *)
| LRegister (i : nat) (namespace : string) (sel : Selector)
| LStop (i : nat)
| LCrash (i : nat)                            (** Stop panics, or a send on a closed channel *)
| LAdd (work : ManifestWork).                 (** GetWatcher or Sync queue a work *)

(** [procs] are the numbers of the process goroutine's sends: it pops the next work only
    when its last send is over. A crash ends the program. *)
Inductive step (procs : gset nat) : label -> state -> state -> Prop :=
| StepReceived n work order s :
    s.(crashed) = false -> s.(log) !! n = None -> n ∉ procs -> order ≡ₚ (map_to_list s.(watchers)).*2 ->
    step procs (LReceived n work) s (sendWatchEvent n (HandleReceivedResource work) order s)
| StepPop n work q order s :
    s.(crashed) = false -> s.(log) !! n = None -> n ∈ procs -> (forall m x, s.(senders) !! m = Some x -> m ∉ procs) ->
    q_Pop s.(workQueue) = Some (work, q) -> order ≡ₚ (map_to_list s.(watchers)).*2 ->
    step procs (LPop n) s (sendWatchEvent n (mkWatchEvent Modified (Some work)) order (set_queue q s))
| StepSkip n i w evt todo s :
    s.(crashed) = false -> s.(senders) !! n = Some (mkSender evt (i :: todo) false) -> s.(heap) !! i = Some w ->
    Receive w evt = false ->
    step procs (LCheck n i) s (set_sender n (mkSender evt todo false) s)
| StepBlock n i w evt todo s :
    s.(crashed) = false -> s.(senders) !! n = Some (mkSender evt (i :: todo) false) -> s.(heap) !! i = Some w ->
    Receive w evt = true ->
    step procs (LCheck n i) s (set_sender n (mkSender evt (i :: todo) true) s)
| StepRead n i w evt todo s :
    s.(crashed) = false -> s.(senders) !! n = Some (mkSender evt (i :: todo) true) -> s.(heap) !! i = Some w ->
    w.(w_closed) = false ->
    step procs (LRead n i) s (set_sender n (mkSender evt todo false) (set_watcher i (read n evt w) s))
| StepDone n evt s :
    s.(crashed) = false -> s.(senders) !! n = Some (mkSender evt [] false) ->
    step procs (LDone n) s (end_sender n s)
| StepRegister i namespace sel s :
    s.(crashed) = false -> s.(senders) = ∅ -> s.(heap) !! i = None ->
    step procs (LRegister i namespace sel) s (registerWatcher i namespace sel s).2
| StepStop i w w' s :
    s.(crashed) = false -> s.(heap) !! i = Some w -> Stop w = Some w' ->
    step procs (LStop i) s (set_watcher i w' s)
| StepStopPanics i w s :
    s.(crashed) = false -> s.(heap) !! i = Some w -> Stop w = None ->
    step procs (LCrash i) s (crash s)
| StepSendPanics n i w evt todo s :
    s.(crashed) = false -> s.(senders) !! n = Some (mkSender evt (i :: todo) true) -> s.(heap) !! i = Some w ->
    w.(w_closed) = true ->
    step procs (LCrash i) s (crash s)
| StepAdd work s :
    s.(crashed) = false ->
    step procs (LAdd work) s (set_queue (q_Add work s.(workQueue)) s).

Inductive steps (procs : gset nat) : list label -> state -> state -> Prop :=
| StepsNil s : steps procs [] s s
| StepsCons l ls s1 s2 s3 : step procs l s1 s2 -> steps procs ls s2 s3 -> steps procs (l :: ls) s1 s3.

(** ** Operations that use the REST API *)

Section Api.
Context {St : Type}.
(** the list endpoint (bundles_get), and the get endpoint: the API client's methods *)
Variable ResourceBundlesGet : string -> Z -> Z -> M St (result (BundleList ResourceBundle) string).
Variable ResourceBundlesIdGet : string -> M St (outcome ResourceBundle).
Variable sourceID : string.

Definition on_api {A} (m : M St A) : M (St * state) A := fun '(st, s) => let '(a, st') := m st in (a, (st', s)).
Definition on_store {A} (m : M state A) : M (St * state) A := fun '(st, s) => let '(a, s') := m s in (a, (st, s')).

Definition searches (namespace labelSearch : string) (selectable : bool) : string :=
  Join ([Sprintf "source='%s'" [GStr sourceID]]
        ++ (if decide (namespace <> NamespaceAll) then [Sprintf "consumer_name='%s'" [GStr namespace]] else [])
        ++ (if selectable then [labelSearch] else [])) " and ".

(** The loop that converts and queues; the first failure ends it. *)
Fixpoint enqueue (rbs : list ResourceBundle) : M state (option workError) :=
  match rbs with
  | [] => ret None
  | rb :: rbs =>
      match ToManifestWork rb with
      | Err err => ret (Some err)
      | Ok work => modify (fun s => set_queue (q_Add work s.(workQueue)) s) >> enqueue rbs
      end
  end.

(** GetWatcher, the address of the watcher; [i] is where a new one would be, [fuel] that of
    the paging loop. *)
Definition GetWatcher (fuel i : nat) (namespace : string) (opts : ListOptions) :
  M (St * state) (option (result nat workError)) :=
  match ToLabelSearch opts with
  | Err err => ret (Some (Err (WorkErr err)))
  | Ok (labelSelector, labelSearch, selectable) =>
      let! rbs := on_api (PageList ResourceBundlesGet fuel (searches namespace labelSearch selectable) noOptions) in
      match rbs with
      | None => ret None
      | Some (Err err) => ret (Some (Err (WorkErr err)))
      | Some (Ok (rbs, _)) =>
          let! watcher := on_store (registerWatcher i namespace labelSelector) in
          let! err := on_store (enqueue rbs) in
          ret (Some (match err with Some err => Err err | None => Ok watcher end))
      end
  end.

(** (work, found); a missing bundle is no error. *)
Definition Get (namespace name : string) : M St (result (option ManifestWork) workError) :=
  let! o := ResourceBundlesIdGet (workUID sourceID namespace name) in
  ret (match o.(o_error) with
       | Some err =>
           match o.(o_response) with
           | Some resp => if resp.(StatusCode) =? 404 then Ok None
                          else Err (WorkErr (match err with inl e => e | inr e => e.(err_error) end))
           | None => Err (WorkErr (match err with inl e => e | inr e => e.(err_error) end))
           end
       | None =>
           match o.(o_value) with
           | None => Err NilPointer
           | Some rb => match ToManifestWork rb with Ok work => Ok (Some work) | Err err => Err err end
           end
       end).

(** The works and the continue token. *)
Definition List (fuel : nat) (namespace : string) (opts : ListOptions) :
  M St (option (result (list ManifestWork * string) workError)) :=
  match ToLabelSearch opts with
  | Err err => ret (Some (Err (WorkErr err)))
  | Ok (_, labelSearch, selectable) =>
      let! rbs := PageList ResourceBundlesGet fuel (searches namespace labelSearch selectable) opts in
      ret (match rbs with
           | None => None
           | Some (Err err) => Some (Err (WorkErr err))
           | Some (Ok (rbs, nextPage)) =>
               Some (match map_result ToManifestWork rbs with Ok works => Ok (works, nextPage) | Err err => Err err end)
           end)
  end.

Definition Sync (fuel : nat) : M (St * state) (option (option workError)) :=
  let! s := gets snd in
  if decide (s.(watchers) = ∅) then ret (Some None)
  else
    let! rbs := on_api (PageList ResourceBundlesGet fuel (ToSyncSearch sourceID (map_to_list s.(watchers)).*1) noOptions) in
    match rbs with
    | None => ret None
    | Some (Err err) => ret (Some (Some (WorkErr err)))
    | Some (Ok (rbs, _)) => let! err := on_store (enqueue rbs) in ret (Some err)
    end.
End Api.
End Store.
