(* ===== verification/WorkClient.v ===== *)
(** * pkg/client/cloudevents/grpcsource: the work client

    client.go and ToWorkPatch of util.go, and the methods of the watcher store that do
    nothing. The client of the sdk that sends works is the class [SourceWorkClient]: one
    object, whose namespace every caller of ManifestWorks shares. The JSON of a work and the
    library of merge patches are the class [PatchLib]. *)

From S2P Require Import Prelude GoLib Errors Types Json Bundle Presenters Pager Rest OpenapiClient WatcherStore.
Import api Fmt Strings.

Open Scope Z_scope.

(** ** util.go: ToWorkPatch *)

Class PatchLib := {
  (** json.Marshal of a ManifestWork *)
  marshalWork : ManifestWork -> result json string;
  CreateMergePatch : json -> json -> result json string;
  MergePatch : json -> json -> result json string;
}.
(** A patch converts the original document to the modified one. *)
Class PatchLaws `{PatchLib} : Prop :=
  CreateMergePatch_ok original modified patch :
    CreateMergePatch original modified = Ok patch -> MergePatch original patch = Ok modified.

Section Patch.
Context `{pl : PatchLib}.

(** Annotations, finalizers and owner references, among the other members of the metadata. *)
Definition patched_members : list string := ["annotations"; "finalizers"; "ownerReferences"].
Definition restrict (m : JSONMap) : JSONMap := base.filter (fun kv => kv.1 ∈ patched_members) <$> m.

(** A work that has only the labels, these members and the spec of another. *)
Definition patched_part (uid resourceVersion : string) (generation : Z) (w : ManifestWork) : ManifestWork :=
  mkManifestWork (mkObjectMeta "" "" uid w.(mw_ObjectMeta).(om_Labels) resourceVersion generation (restrict w.(mw_ObjectMeta).(om_Rest)))
    w.(mw_Raw) w.(mw_Delete) w.(mw_Configs) [] None.

Definition ToWorkPatch (existingWork newWork : ManifestWork) : result json string :=
  let meta := existingWork.(mw_ObjectMeta) in
  if decide (meta.(om_Generation) = 0) then Err "the generation of existing work is zero"
  else
    match marshalWork (patched_part "" "" 0 existingWork) with
    | Err err => Err err
    | Ok oldData =>
        match marshalWork (patched_part meta.(om_UID) meta.(om_ResourceVersion) meta.(om_Generation) newWork) with
        | Err err => Err err
        | Ok newData => CreateMergePatch oldData newData
        end
    end.

(** A patch that is made takes the labels, annotations, finalizers, owner references and the
    spec of the existing work to those of the new one and adds the identity and the
    generation of the existing one; nothing else of either work has a part in it. A work
    without a generation is refused. *)
Theorem work_patch_spec `{!PatchLaws} existing new patch :
  ToWorkPatch existing new = Ok patch ->
  existing.(mw_ObjectMeta).(om_Generation) <> 0 /\
  exists old_doc new_doc, marshalWork (patched_part "" "" 0 existing) = Ok old_doc /\ MergePatch old_doc patch = Ok new_doc /\
    marshalWork (patched_part existing.(mw_ObjectMeta).(om_UID) existing.(mw_ObjectMeta).(om_ResourceVersion)
                   existing.(mw_ObjectMeta).(om_Generation) new) = Ok new_doc.
Proof.
  unfold ToWorkPatch. case_decide as Hg; [done|]. destruct (marshalWork _) as [o|] eqn:Eo; [|done].
  destruct (marshalWork (patched_part _ _ _ new)) as [n|] eqn:En; [|done].
  intros Hp%CreateMergePatch_ok. split; [done|]. by exists o, n.
Qed.
End Patch.

(** ** client.go *)

Class SourceWorkClient := {
  (** the connection of the cloudevents client, by source id; [Err] of its constructor *)
  Connection : Type;
  NewCloudEventSourceClient : string -> result Connection string;
  (** the object of the sdk: its namespace is what its calls are sent with *)
  WorkClient : Type;
  NewManifestWorkSourceClient : string -> Connection -> WorkClient;
  SetNamespace : string -> WorkClient -> WorkClient;
  Namespace : WorkClient -> string;
}.
Class SourceWorkClientLaws `{SourceWorkClient} : Prop :=
  Namespace_set ns c : Namespace (SetNamespace ns c) = ns.

Section Client.
Context `{sw : SourceWorkClient} `{lib : WorkLib} `{ff : Fifo}.

(** The wrapper with its one client, and the store of watchers. *)
Record WorkV1ClientWrapper := mkWrapper { ManifestWorkClient : WorkClient; watcherStore : state }.

Definition NewMaestroGRPCSourceWorkClient (sourceID : string) : result WorkV1ClientWrapper string :=
  if decide (String.length sourceID = O) then Err "source id is required"
  else match NewCloudEventSourceClient sourceID with
       | Err err => Err err
       | Ok connection => Ok (mkWrapper (NewManifestWorkSourceClient sourceID connection) newRESTFulAPIWatcherStore)
       end.

(** A handle is the address of the one client, so what it does depends on the wrapper at the
    time of the call. *)
Inductive handle := TheClient.
Definition ManifestWorks (namespace : string) (c : WorkV1ClientWrapper) : handle * WorkV1ClientWrapper :=
  (TheClient, mkWrapper (SetNamespace namespace c.(ManifestWorkClient)) c.(watcherStore)).
(** The namespace a call on a handle is sent with. *)
Definition call_namespace (h : handle) (c : WorkV1ClientWrapper) : string := Namespace c.(ManifestWorkClient).

(** The store methods the client does not call. *)
Definition ListAll : result (list ManifestWork) string := Ok [].
Definition Store_Add (work : ManifestWork) (s : state) : option string * state := (None, s).
Definition Store_Update (work : ManifestWork) (s : state) : option string * state := (None, s).
Definition Store_Delete (work : ManifestWork) (s : state) : option string * state := (None, s).
Definition HasInitiated (s : state) : bool := true.

(** A handle for a namespace is good until the next one is asked for: then every handle
    works in the namespace of the last call. *)
Theorem last_namespace_wins `{!SourceWorkClientLaws} ns1 ns2 c :
  let '(h1, c1) := ManifestWorks ns1 c in
  let '(h2, c2) := ManifestWorks ns2 c1 in
  call_namespace h1 c1 = ns1 /\ call_namespace h1 c2 = ns2 /\ call_namespace h2 c2 = ns2.
Proof. unfold ManifestWorks, call_namespace. cbn [ManifestWorkClient]. split_and!; apply Namespace_set. Qed.

Theorem NewMaestroGRPCSourceWorkClient_spec sourceID :
  match NewMaestroGRPCSourceWorkClient sourceID with
  | Ok c => sourceID <> "" /\ (exists conn, NewCloudEventSourceClient sourceID = Ok conn) /\ c.(watcherStore) = newRESTFulAPIWatcherStore
  | Err err => sourceID = "" \/ NewCloudEventSourceClient sourceID = Err err
  end.
Proof.
  unfold NewMaestroGRPCSourceWorkClient. case_decide as Hl; [left; by destruct sourceID|].
  destruct (NewCloudEventSourceClient sourceID); [|by right]. split_and!; [by intros ->|eauto|done].
Qed.

(** The loop of the client: each signal of a reconnection lists the works again; the error
    is logged. *)
Section Reconnect.
Context {St : Type} (sourceID : string).
Variable ResourceBundlesGet : string -> Z -> Z -> M St (result (BundleList ResourceBundle) string).
Fixpoint reconnect_loop (fuel : nat) (signals : nat) : M (St * state) unit :=
  match signals with
  | O => ret tt
  | S signals => let! _ := Sync ResourceBundlesGet sourceID fuel in reconnect_loop fuel signals
  end.
End Reconnect.
End Client.

(** ** Instances *)

#[local] Instance whole_patches : PatchLib := {|
  marshalWork w := Ok (JObj [("uid", JStr w.(mw_ObjectMeta).(om_UID)); ("generation", JNum w.(mw_ObjectMeta).(om_Generation))]);
  CreateMergePatch o n := Ok n;
  MergePatch o p := Ok p;
|}.
#[local] Instance whole_patches_laws : PatchLaws.
Proof. by intros o n p [= <-]. Qed.
#[local] Instance cell_client : SourceWorkClient := {|
  Connection := unit;
  NewCloudEventSourceClient _ := Ok tt;
  WorkClient := string;
  NewManifestWorkSourceClient _ _ := "";
  SetNamespace ns _ := ns;
  Namespace ns := ns;
|}.
#[local] Instance cell_client_laws : SourceWorkClientLaws.
Proof. done. Qed.
