(* ===== verification/WatcherFacts.v ===== *)
(** * What the watcher store guarantees

    Over every interleaving of the sends, the consumers' reads and stops, registrations and
    the queue: a watcher gets only what it asked for, each send at most once, and a send
    that is over has reached every watcher that wants its event and was not stopped. And
    what it does not: a send nobody reads holds the read lock for good. *)

From S2P Require Import Prelude GoLib Errors Types Json Bundle Presenters Pager Rest OpenapiClient WatcherStore.
Import api Fmt Strings.

Open Scope Z_scope.

Section Delivery.
Context `{lib : WorkLib} `{fl : FifoLaws}.

(** Watchers keep their namespace and selector. *)
Definition same_filter (w w' : Watcher) : Prop :=
  w'.(w_namespace) = w.(w_namespace) /\ w'.(w_labelSelector) = w.(w_labelSelector).

Lemma same_filter_wants w w' evt : same_filter w w' -> wants w' evt = wants w evt.
Proof. intros [Hn Hl]. unfold wants. by rewrite Hn, Hl. Qed.

(** The watchers of the store are in the heap, each under its own namespace. *)
Definition registered (s : state) : Prop :=
  forall ns i, s.(watchers) !! ns = Some i -> exists w, s.(heap) !! i = Some w /\ w.(w_namespace) = ns.

(** A send was logged for distinct watchers of the heap; what it still has to serve is a
    rest of them, and it sends only to a watcher that wants the event. *)
Definition senders_ok (s : state) : Prop :=
  (forall n evt targets, s.(log) !! n = Some (evt, targets) -> NoDup targets /\ forall i, i ∈ targets -> is_Some (s.(heap) !! i)) /\
  (forall n x, s.(senders) !! n = Some x -> exists before,
     s.(log) !! n = Some (x.(s_evt), before ++ x.(s_todo)) /\
     (x.(s_sending) = true -> exists i todo w, x.(s_todo) = i :: todo /\ s.(heap) !! i = Some w /\ wants w x.(s_evt) = true)).

(** What a watcher got, it wanted, and its send has passed it; each send once. *)
Definition got_ok (s : state) : Prop :=
  forall i w, s.(heap) !! i = Some w ->
    NoDup w.(w_got).*1 /\
    forall n evt, (n, evt) ∈ w.(w_got) -> exists targets,
      s.(log) !! n = Some (evt, targets) /\ i ∈ targets /\ wants w evt = true /\
      forall x, s.(senders) !! n = Some x -> i ∉ x.(s_todo).

(** A watcher a send has passed got the event, unless it was stopped or did not want it. *)
Definition served (s : state) : Prop :=
  forall n evt targets i w, s.(log) !! n = Some (evt, targets) -> i ∈ targets -> s.(heap) !! i = Some w ->
    (exists x, s.(senders) !! n = Some x /\ i ∈ x.(s_todo)) \/
    (n, evt) ∈ w.(w_got) \/ wants w evt = false \/ w.(w_stopped) = true.

Record inv (s : state) : Prop := mkInv {
  inv_registered : registered s;
  inv_senders : senders_ok s;
  inv_got : got_ok s;
  inv_served : served s;
}.

Lemma inv_init : inv newRESTFulAPIWatcherStore.
Proof. split; repeat intro; try split; repeat intro; set_solver. Qed.

(** Only the heap, the watchers, the senders and the log matter. *)
Lemma inv_frame s s' :
  s'.(heap) = s.(heap) -> s'.(watchers) = s.(watchers) -> s'.(senders) = s.(senders) -> s'.(log) = s.(log) -> inv s -> inv s'.
Proof.
  intros Hh Hw Hs Hl [H1 H2 H3 H4]. unfold registered, senders_ok, got_ok, served in *.
  split; unfold registered, senders_ok, got_ok, served; by rewrite ?Hh, ?Hw, ?Hs, ?Hl.
Qed.

Lemma targets_nodup s order : registered s -> order ≡ₚ (map_to_list s.(watchers)).*2 -> NoDup order /\ forall i, i ∈ order -> is_Some (s.(heap) !! i).
Proof.
  intros Hr Ho. split.
  - rewrite Ho. apply NoDup_fmap_2_strong; [|apply NoDup_map_to_list].
    intros [ns i] [ns' i'] Hi Hi' He. simpl in He. subst i'.
    apply elem_of_map_to_list in Hi, Hi'. apply Hr in Hi as (w & Hw & <-). apply Hr in Hi' as (w' & Hw' & <-).
    by simplify_eq.
  - intros i Hi. rewrite Ho in Hi. apply list_elem_of_fmap in Hi as ([ns j] & -> & Hj%elem_of_map_to_list).
    apply Hr in Hj as (w & Hw & _). by exists w.
Qed.

Lemma inv_send n evt order s :
  s.(log) !! n = None -> order ≡ₚ (map_to_list s.(watchers)).*2 -> inv s -> inv (sendWatchEvent n evt order s).
Proof.
  intros Hn Ho [H1 [H2 H2'] H3 H4]. destruct (targets_nodup s order H1 Ho) as [Hnd Hin]. split; [exact H1|split|..].
  - intros m e t Hm. cbn in Hm. destruct (decide (m = n)) as [->|Hne].
    + rewrite lookup_insert_eq in Hm. injection Hm as <- <-. by split.
    + rewrite lookup_insert_ne in Hm by done. by eapply H2.
  - intros m x Hx. cbn in Hx |- *. destruct (decide (m = n)) as [->|Hne].
    + rewrite lookup_insert_eq in Hx. injection Hx as <-. exists []. by rewrite lookup_insert_eq.
    + rewrite lookup_insert_ne in Hx by done. rewrite lookup_insert_ne by done. by apply H2'.
  - intros i w Hw. destruct (H3 i w Hw) as [Hd Hg]. split; [exact Hd|]. intros m e Hm.
    destruct (Hg m e Hm) as (t & Ht & Hi & Hwt & Hs). exists t. cbn.
    rewrite !lookup_insert_ne by congruence. done.
  - intros m e t i w Hm Hi Hw. cbn in Hm, Hw |- *. destruct (decide (m = n)) as [->|Hne].
    + rewrite lookup_insert_eq in Hm. injection Hm as <- <-. left. eexists. rewrite lookup_insert_eq. by split.
    + rewrite lookup_insert_ne in Hm by done. rewrite lookup_insert_ne by done. by eapply H4.
Qed.

(** The sender [n] moves on: its rest shrinks by watchers that were passed rightly. *)
Lemma inv_advance n evt x' s :
  (exists x, s.(senders) !! n = Some x /\ x.(s_evt) = evt /\ x'.(s_evt) = evt /\
     (exists pre, x.(s_todo) = pre ++ x'.(s_todo) /\
        forall i w, i ∈ pre -> s.(heap) !! i = Some w ->
          (n, evt) ∈ w.(w_got) \/ wants w evt = false \/ w.(w_stopped) = true) /\
     (x'.(s_sending) = true -> exists i todo w, x'.(s_todo) = i :: todo /\ s.(heap) !! i = Some w /\ wants w evt = true)) ->
  registered s -> senders_ok s ->
  (forall i w, s.(heap) !! i = Some w -> NoDup w.(w_got).*1 /\
    forall m e, (m, e) ∈ w.(w_got) -> exists targets,
      s.(log) !! m = Some (e, targets) /\ i ∈ targets /\ wants w e = true /\
      forall x, s.(senders) !! m = Some x -> m = n /\ i ∉ x'.(s_todo) \/ i ∉ x.(s_todo)) ->
  served s -> inv (set_sender n x' s).
Proof.
  intros (x & Hx & <- & He & (pre & Hpre & Hpass) & Hsend) H1 [H2 H2'] H3 H4.
  destruct (H2' n x Hx) as (before & Hlog & _). split; [exact H1|split; [exact H2|]|..].
  - intros m y Hy. cbn in Hy. destruct (decide (m = n)) as [->|Hne].
    + rewrite lookup_insert_eq in Hy. injection Hy as <-. exists (before ++ pre).
      rewrite He. split; [|exact Hsend]. cbn. by rewrite Hlog, Hpre, app_assoc.
    + rewrite lookup_insert_ne in Hy by done. by apply H2'.
  - intros i w Hw. destruct (H3 i w Hw) as [Hd Hg]. split; [exact Hd|]. intros m e Hm.
    destruct (Hg m e Hm) as (t & Ht & Hi & Hwt & Hs). exists t. split_and!; [exact Ht|exact Hi|exact Hwt|].
    intros y Hy. cbn in Hy. destruct (decide (m = n)) as [->|Hne].
    + rewrite lookup_insert_eq in Hy. injection Hy as <-. destruct (Hs x Hx) as [[_ ?]|Hnot]; [done|].
      rewrite Hpre in Hnot. set_solver.
    + rewrite lookup_insert_ne in Hy by done. destruct (Hs y Hy) as [[-> _]|?]; done.
  - intros m e t i w Hm Hi Hw. cbn in Hm, Hw |- *. destruct (H4 m e t i w Hm Hi Hw) as [(y & Hy & Hiy)|?]; [|by right].
    destruct (decide (m = n)) as [->|Hne].
    + rewrite Hx in Hy. injection Hy as <-. rewrite Hpre in Hiy. apply elem_of_app in Hiy as [Hin|Hin].
      * right. rewrite Hlog in Hm. injection Hm as <- <-. by apply (Hpass i w).
      * left. exists x'. by rewrite lookup_insert_eq.
    + left. exists y. by rewrite lookup_insert_ne.
Qed.

Lemma got_weaken n x' s : got_ok s ->
  forall i w, s.(heap) !! i = Some w -> NoDup w.(w_got).*1 /\
    forall m e, (m, e) ∈ w.(w_got) -> exists targets,
      s.(log) !! m = Some (e, targets) /\ i ∈ targets /\ wants w e = true /\
      forall x, s.(senders) !! m = Some x -> m = n /\ i ∉ x'.(s_todo) \/ i ∉ x.(s_todo).
Proof.
  intros Hg i w Hw. destruct (Hg i w Hw) as [Hd Hm]. split; [done|]. intros m e He.
  destruct (Hm m e He) as (t & ? & ? & ? & Hx). exists t. split_and!; [done..|]. intros x Hs. right. by apply Hx.
Qed.

(** Receive lets the event pass, or goes on to send it. *)
Lemma inv_check n i w evt todo s :
  s.(senders) !! n = Some (mkSender evt (i :: todo) false) -> s.(heap) !! i = Some w -> inv s ->
  inv (set_sender n (if Receive w evt then mkSender evt (i :: todo) true else mkSender evt todo false) s).
Proof.
  intros Hs Hw [H1 H2 H3 H4]. apply (inv_advance n evt); [|done|done|by apply got_weaken|done].
  eexists. split; [exact Hs|]. unfold Receive, isStopped. destruct (w_stopped w) eqn:Hst; cbn [negb andb].
  - split_and!; [done|done| |done]. exists [i]. split; [done|]. intros j v ->%list_elem_of_singleton Hv.
    right; right. congruence.
  - destruct (wants w evt) eqn:Hwt; (split_and!; [done|done| |]).
    + exists []. split; [done|]. set_solver.
    + intros _. by exists i, todo, w.
    + exists [i]. split; [done|]. intros j v ->%list_elem_of_singleton Hv. right; left. congruence.
    + done.
Qed.

(** A watcher changes without forgetting what it got or being started again. *)
Definition grows (w w' : Watcher) : Prop :=
  same_filter w w' /\ (forall x, x ∈ w.(w_got) -> x ∈ w'.(w_got)) /\ (w.(w_stopped) = true -> w'.(w_stopped) = true).

Lemma set_watcher_lookup i w w' s j v :
  s.(heap) !! i = Some w -> grows w w' -> (set_watcher i w' s).(heap) !! j = Some v ->
  exists u, s.(heap) !! j = Some u /\ grows u v.
Proof.
  intros Hw Hg Hj. cbn in Hj. destruct (decide (j = i)) as [->|Hne].
  - rewrite lookup_insert_eq in Hj. injection Hj as <-. by exists w.
  - rewrite lookup_insert_ne in Hj by done. exists v. split; [done|]. by split_and!.
Qed.

Lemma set_watcher_exists i w w' s j u :
  s.(heap) !! i = Some w -> grows w w' -> s.(heap) !! j = Some u ->
  exists v, (set_watcher i w' s).(heap) !! j = Some v /\ same_filter u v.
Proof.
  intros Hw [Hg _] Hj. cbn. destruct (decide (j = i)) as [->|Hne].
  - rewrite lookup_insert_eq. exists w'. split; [done|]. congruence.
  - rewrite lookup_insert_ne by done. by exists u.
Qed.

Lemma set_watcher_ok i w w' s :
  s.(heap) !! i = Some w -> grows w w' -> registered s -> senders_ok s -> served s ->
  registered (set_watcher i w' s) /\ senders_ok (set_watcher i w' s) /\ served (set_watcher i w' s).
Proof.
  intros Hw Hg H1 [H2 H2'] H4. split; [|split; [split|]].
  - intros ns j Hj. destruct (H1 ns j Hj) as (u & Hu & Hn).
    destruct (set_watcher_exists i w w' s j u Hw Hg Hu) as (v & Hv & [Hf _]). exists v. split; [done|congruence].
  - intros n e t Ht. destruct (H2 n e t Ht) as [Hd Hin]. split; [done|]. intros j Hj. destruct (Hin j Hj) as [u Hu].
    destruct (set_watcher_exists i w w' s j u Hw Hg Hu) as (v & Hv & _). by exists v.
  - intros n x Hx. destruct (H2' n x Hx) as (b & Hl & Hsnd). exists b. split; [done|]. intros Hs.
    destruct (Hsnd Hs) as (j & todo & u & Ht & Hu & Hwt). 
    destruct (set_watcher_exists i w w' s j u Hw Hg Hu) as (v & Hv & Hf). exists j, todo, v.
    split_and!; [done|done|]. by rewrite (same_filter_wants u).
  - intros n e t j v Ht Hj Hv. destruct (set_watcher_lookup i w w' s j v Hw Hg Hv) as (u & Hu & Hf & Hgot & Hst).
    destruct (H4 n e t j u Ht Hj Hu) as [?|[?|[?|?]]]; [by left|right..]; [left|right; left|right; right]; auto.
    by rewrite (same_filter_wants u).
Qed.

Lemma inv_stop i w w' s : s.(heap) !! i = Some w -> Stop w = Some w' -> inv s -> inv (set_watcher i w' s).
Proof.
  intros Hw Hst [H1 H2 H3 H4].
  assert (grows w w' /\ w'.(w_got) = w.(w_got)) as [Hg He].
  { unfold Stop in Hst. repeat case_match; simplify_eq; by split_and!. }
  destruct (set_watcher_ok i w w' s Hw Hg H1 H2 H4) as (R1 & R2 & R4). split; [done|done| |done].
  intros j v Hv. assert (exists u, s.(heap) !! j = Some u /\ grows u v /\ v.(w_got) = u.(w_got)) as (u & Hu & [Hf _] & ->).
  { cbn in Hv. destruct (decide (j = i)) as [->|Hne].
    - rewrite lookup_insert_eq in Hv. injection Hv as <-. by exists w.
    - rewrite lookup_insert_ne in Hv by done. exists v. by split_and!. }
  destruct (H3 j u Hu) as [Hd Hm]. split; [done|]. intros n e Hne. destruct (Hm n e Hne) as (t & ? & ? & ? & ?).
  exists t. split_and!; [done|done| |done]. by rewrite (same_filter_wants u).
Qed.

Lemma inv_read n i w evt todo s :
  s.(senders) !! n = Some (mkSender evt (i :: todo) true) -> s.(heap) !! i = Some w -> inv s ->
  inv (set_sender n (mkSender evt todo false) (set_watcher i (read n evt w) s)).
Proof.
  intros Hs Hw [H1 H2 H3 H4].
  assert (grows w (read n evt w)) as Hg by (split_and!; [done|by intros x Hx; right|done]).
  destruct (set_watcher_ok i w _ s Hw Hg H1 H2 H4) as (R1 & R2 & R4).
  destruct H2 as [H2 H2']. destruct (H2' n _ Hs) as (before & Hlog & Hsnd). cbn [s_evt s_todo] in Hlog.
  destruct (Hsnd eq_refl) as (i' & todo' & w0 & [= <- <-] & Hw0 & Hwt). cbn [s_evt] in Hwt.
  rewrite Hw in Hw0. injection Hw0 as <-.
  destruct (H2 n _ _ Hlog) as [Hnd _]. apply NoDup_app in Hnd as (_ & _ & [Hni _]%NoDup_cons).
  apply (inv_advance n evt); [|done|done| |done].
  - eexists. split; [exact Hs|]. split_and!; [done|done| |done]. exists [i]. split; [done|].
    intros j v ->%list_elem_of_singleton Hv. cbn in Hv. rewrite lookup_insert_eq in Hv. injection Hv as <-. left. by left.
  - intros j v Hv. cbn in Hv. destruct (decide (j = i)) as [->|Hne].
    + rewrite lookup_insert_eq in Hv. injection Hv as <-. destruct (H3 i w Hw) as [Hd Hm]. split.
      * cbn. apply NoDup_cons. split; [|done]. intros ([m e] & -> & Hin)%list_elem_of_fmap. cbn in *.
        destruct (Hm m e Hin) as (t & _ & _ & _ & Hx). apply (Hx _ Hs). by left.
      * intros m e [[= -> ->]|Hin]%elem_of_cons.
        { exists (before ++ i :: todo). split_and!; [exact Hlog|set_solver|exact Hwt|]. intros x _. left. by split. }
        destruct (Hm m e Hin) as (t & ? & ? & ? & Hx). exists t. split_and!; [done..|]. intros x Hsx. right. by apply Hx.
    + rewrite lookup_insert_ne in Hv by done. by apply (got_weaken n (mkSender evt todo false) s H3).
Qed.

Lemma inv_end n evt s : s.(senders) !! n = Some (mkSender evt [] false) -> inv s -> inv (end_sender n s).
Proof.
  intros Hs [H1 [H2 H2'] H3 H4].
  assert (forall m x, (end_sender n s).(senders) !! m = Some x -> s.(senders) !! m = Some x) as Hsub.
  { intros m x Hx. cbn in Hx. by apply lookup_delete_Some in Hx as [_ ?]. }
  split; [exact H1|split; [exact H2|]|..].
  - intros m x Hx. by apply H2', Hsub.
  - intros i w Hw. destruct (H3 i w Hw) as [Hd Hm]. split; [exact Hd|]. intros m e He.
    destruct (Hm m e He) as (t & ? & ? & ? & Hx). exists t. split_and!; [done..|]. intros x Hy. by apply Hx, Hsub.
  - intros m e t i w Hm Hi Hw. destruct (H4 m e t i w Hm Hi Hw) as [(x & Hx & Hin)|?]; [|by right].
    left. exists x. split; [|done]. cbn. rewrite lookup_delete_ne; [done|]. intros ->. rewrite Hs in Hx.
    injection Hx as <-. set_solver.
Qed.

Lemma inv_register i ns sel s : s.(heap) !! i = None -> s.(senders) = ∅ -> inv s -> inv (registerWatcher i ns sel s).2.
Proof.
  intros Hi Hs Hinv. unfold registerWatcher.
  destruct (j ← watchers s !! ns; w ← heap s !! j; if isStopped w then None else Some j); [done|].
  destruct Hinv as [H1 [H2 H2'] H3 H4]. cbn [snd].
  assert (forall e t n, s.(log) !! n = Some (e, t) -> i ∉ t) as Hnew.
  { intros e t n Ht Hin. destruct (H2 n e t Ht) as [_ Hall]. destruct (Hall i Hin). congruence. }
  split; [|split|..].
  - intros m j Hj. cbn in Hj |- *. destruct (decide (m = ns)) as [->|Hne].
    + rewrite lookup_insert_eq in Hj. injection Hj as <-. eexists. by rewrite lookup_insert_eq.
    + rewrite lookup_insert_ne in Hj by done. destruct (H1 m j Hj) as (w & Hw & ?). exists w.
      rewrite lookup_insert_ne; [done|congruence].
  - intros n e t Ht. destruct (H2 n e t Ht) as [Hd Hall]. split; [done|]. intros j Hj. cbn.
    rewrite lookup_insert_ne; [by apply Hall|]. intros ->. by apply (Hnew e t n).
  - intros n x Hx. cbn in Hx. rewrite Hs in Hx. done.
  - intros j w Hw. cbn in Hw. destruct (decide (j = i)) as [->|Hne].
    + rewrite lookup_insert_eq in Hw. injection Hw as <-. split; [apply NoDup_nil_2|]. set_solver.
    + rewrite lookup_insert_ne in Hw by done. destruct (H3 j w Hw) as [Hd Hm]. by split.
  - intros n e t j w Ht Hj Hw. cbn in Ht, Hw. rewrite lookup_insert_ne in Hw; [by eapply H4|].
    intros ->. by apply (Hnew e t n).
Qed.

Lemma step_inv procs l s s' : step procs l s s' -> inv s -> inv s'.
Proof.
  intros Hst Hinv. destruct Hst.
  - by apply inv_send.
  - apply inv_send; [done|done|]. by apply (inv_frame s).
  - pose proof (inv_check n i w evt todo s) as Hc. rewrite H3 in Hc. by apply Hc.
  - pose proof (inv_check n i w evt todo s) as Hc. rewrite H3 in Hc. by apply Hc.
  - by apply inv_read.
  - by eapply inv_end.
  - by apply inv_register.
  - by eapply inv_stop.
  - by apply (inv_frame s).
  - by apply (inv_frame s).
  - by apply (inv_frame s).
Qed.

Lemma steps_inv procs ls s s' : steps procs ls s s' -> inv s -> inv s'.
Proof. induction 1; eauto using step_inv. Qed.

(** C18: Over every interleaving of sends, reads, stops, registrations and crashes, a watcher
    got an event only from a send that was for it and whose event its namespace and selector
    want, and each send at most once; and a send that has ended has reached every watcher it
    was for that wants the event, unless that watcher was stopped. *)
Theorem watchers_served procs ls s :
  steps procs ls newRESTFulAPIWatcherStore s ->
  forall i w, s.(heap) !! i = Some w ->
    NoDup w.(w_got).*1 /\
    (forall n evt, (n, evt) ∈ w.(w_got) ->
       exists targets, s.(log) !! n = Some (evt, targets) /\ i ∈ targets /\ wants w evt = true) /\
    (forall n evt targets, s.(log) !! n = Some (evt, targets) -> s.(senders) !! n = None -> i ∈ targets ->
       wants w evt = true -> isStopped w = false -> (n, evt) ∈ w.(w_got)).
Proof.
  intros Hs i w Hw. destruct (steps_inv _ _ _ _ Hs inv_init) as [_ _ H3 H4].
  destruct (H3 i w Hw) as [Hd Hm]. split_and!; [done| |].
  - intros n evt He. destruct (Hm n evt He) as (t & ? & ? & ? & _). by exists t.
  - intros n evt t Ht Hn Hi Hwt Hst. destruct (H4 n evt t i w Ht Hi Hw) as [(x & Hx & _)|[?|[?|?]]];
      [congruence|done|congruence|]. unfold isStopped in Hst. congruence.
Qed.

(** ** A send that nobody reads *)

Lemma blocked_step procs l s s' n i evt todo :
  step procs l s s' -> s.(senders) !! n = Some (mkSender evt (i :: todo) true) -> is_Some (s.(log) !! n) -> l <> LRead n i ->
  s'.(senders) !! n = Some (mkSender evt (i :: todo) true) /\ is_Some (s'.(log) !! n) /\ s'.(watchers) = s.(watchers).
Proof.
  intros Hst Hs [x Hl] Hr. inversion Hst as [m| m|m|m|m|m| | | | |]; subst; cbn; try (by rewrite Hs, Hl);
    try (exfalso; match goal with E : senders s = ∅ |- _ => rewrite E in Hs end; by apply lookup_empty_Some in Hs).
  all: assert (m <> n) by congruence; rewrite ?lookup_insert_ne, ?lookup_delete_ne by done; by rewrite Hs, Hl.
Qed.

(** Once Receive is at the send on a watcher's channel, only that watcher's consumer can
    let it go: as long as it does not read, whatever else happens short of a crash - the
    watcher being stopped included - the thread stays there with the read lock, and no
    watcher is ever registered again. *)
Theorem unread_send_blocks_store procs ls s s' n i evt todo :
  steps procs ls s s' -> s.(senders) !! n = Some (mkSender evt (i :: todo) true) -> is_Some (s.(log) !! n) ->
  (forall l, l ∈ ls -> l <> LRead n i) ->
  s'.(senders) !! n = Some (mkSender evt (i :: todo) true) /\ s'.(watchers) = s.(watchers) /\
  (forall j ns sel, LRegister j ns sel ∉ ls) /\ LDone n ∉ ls.
Proof.
  intros Hst. induction Hst as [s|l ls s1 s2 s3 H1 _ IH]; intros Hs Hl Hr; [split_and!; [done|done|set_solver..]|].
  destruct (blocked_step _ _ _ _ n i evt todo H1 Hs Hl) as (Hs2 & Hl2 & Hw2); [apply Hr; set_solver|].
  destruct IH as (Hs3 & Hw3 & Hreg & Hdone); [done|done|set_solver|]. split_and!; [done|congruence| |].
  - intros j ns sel [<-|?]%elem_of_cons; [|by eapply Hreg].
    inversion H1 as [| | | | | |? ? ? ? _ Hnone| | | |]; subst. by rewrite Hnone in Hs.
  - intros [<-|?]%elem_of_cons; [|done]. inversion H1; subst. congruence.
Qed.
End Delivery.

(** ** Getting a watcher *)

Section Watching.
Context `{lib : WorkLib} `{fl : FifoLaws} {St : Type}.
Variables (get : string -> Z -> Z -> M St (result (BundleList ResourceBundle) string)) (sourceID : string).

(** The queue after the conversions that succeeded. *)
Fixpoint queued (rbs : list ResourceBundle) (q : queue) : queue :=
  match rbs with
  | [] => q
  | rb :: rbs => match ToManifestWork rb with Ok work => queued rbs (q_Add work q) | Err _ => q end
  end.

Lemma enqueue_run rbs s :
  enqueue rbs s = (match map_result ToManifestWork rbs with Ok _ => None | Err e => Some e end,
                   set_queue (queued rbs s.(workQueue)) s).
Proof.
  revert s. induction rbs as [|rb rbs IH]; intros s; simpl; [by destruct s|].
  destruct (ToManifestWork rb) as [w|e]; [|by destruct s]. rewrite bind_run. cbn [modify]. rewrite IH. cbn.
  by destruct (map_result _ rbs).
Qed.

Definition uid (w : ManifestWork) : string := w.(mw_ObjectMeta).(om_UID).

(** Works with different identities are queued as they come. *)
Lemma queued_list rbs works q :
  map_result ToManifestWork rbs = Ok works -> NoDup (uid <$> (q_list q ++ works)) ->
  q_list (queued rbs q) = q_list q ++ works.
Proof.
  revert works q. induction rbs as [|rb rbs IH]; intros works q; simpl; [intros [= <-] _; by rewrite app_nil_r|].
  destruct (ToManifestWork rb) as [w|]; [|done]. destruct (map_result _ rbs) as [ws|]; [|done]. intros [= <-] Hnd.
  assert (q_list (q_Add w q) = q_list q ++ [w]) as Ha.
  { rewrite q_Add_list. destruct (existsb _ _) eqn:E; [|done]. exfalso.
    apply existsb_exists in E as (x & Hx%list_elem_of_In & Hk). unfold same_key in Hk. apply bool_decide_eq_true in Hk.
    rewrite fmap_app in Hnd. apply NoDup_app in Hnd as (_ & Hnd & _). apply (Hnd (uid x)); [by apply list_elem_of_fmap_2|].
    rewrite fmap_cons. unfold uid at 1. rewrite <-Hk. by left. }
  rewrite (IH ws) by (try done; by rewrite Ha, <-app_assoc). by rewrite Ha, <-app_assoc.
Qed.

Lemma registerWatcher_registers i ns sel s :
  (registerWatcher i ns sel s).2.(watchers) !! ns = Some (registerWatcher i ns sel s).1 /\
  (registerWatcher i ns sel s).2.(workQueue) = s.(workQueue).
Proof.
  unfold registerWatcher. destruct (watchers s !! ns) as [j|] eqn:E; cbn [mbind option_bind].
  - destruct (heap s !! j) as [w|]; cbn [mbind option_bind]; [destruct (isStopped w)|];
      cbn; rewrite ?lookup_insert_eq; by rewrite ?E.
  - cbn. by rewrite lookup_insert_eq.
Qed.

(** GetWatcher, when the listing goes through, registers the watcher of the namespace and
    queues every work the server lists for its search, in order, so that each will be sent to
    the watchers. When one of them cannot be converted the caller gets an error and no
    watcher, but the watcher stays registered. *)
Theorem GetWatcher_spec I items fuel i ns opts sel labelSearch selectable st s :
  ToLabelSearch opts = Ok (sel, labelSearch, selectable) ->
  list_server I items (searches sourceID ns labelSearch selectable) get -> I st ->
  Z.of_nat (length items) + 400 < 2 ^ 31 -> (length items / 400 < fuel)%nat ->
  exists st' r s', GetWatcher get sourceID fuel i ns opts (st, s) = (Some r, (st', s')) /\
    s'.(watchers) !! ns = Some (registerWatcher i ns sel s).1 /\
    match map_result ToManifestWork items with
    | Err e => r = Err e
    | Ok works => r = Ok (registerWatcher i ns sel s).1 /\
        (NoDup (uid <$> (q_list s.(workQueue) ++ works)) -> q_list s'.(workQueue) = q_list s.(workQueue) ++ works)
    end.
Proof.
  intros Hl Hsrv HI Hsm Hf. unfold GetWatcher. rewrite Hl, bind_run. unfold on_api.
  destruct (PageList_from get items I _ Hsrv Hsm fuel noOptions 1 st HI eq_refl ltac:(lia) eq_refl Hf) as (st' & _ & ->).
  change (Z.to_nat ((1 - 1) * 400)) with O. rewrite drop_0, bind_run. unfold on_store.
  pose proof (registerWatcher_registers i ns sel s) as [Hw Hq].
  destruct (registerWatcher i ns sel s) as [j s1]. cbn [fst snd] in *. rewrite bind_run, enqueue_run. cbn beta iota.
  eexists st', _, _. split; [reflexivity|]. split; [exact Hw|].
  destruct (map_result ToManifestWork items) as [works|e] eqn:Hm; [|done]. split; [done|]. intros Hnd.
  cbn. rewrite Hq. by apply queued_list.
Qed.

(** Asking for a watcher of a namespace that has one already gives that watcher, with the
    selector it was made with: the selector of the second caller is not applied. *)
Theorem second_watcher_keeps_selector i j ns sel s w :
  s.(watchers) !! ns = Some j -> s.(heap) !! j = Some w -> isStopped w = false ->
  registerWatcher i ns sel s = (j, s).
Proof. intros Hj Hw Hs. unfold registerWatcher. rewrite Hj. cbn. rewrite Hw. cbn. by rewrite Hs. Qed.
End Watching.

(** * The watcher store on a concrete deployment

    Selectors that match everything or one label, a queue that is a list, and works whose
    metadata is taken from the document's fields. *)

Import api.

Open Scope Z_scope.

Definition field (k : string) (m : JSONMap) : string := match jget k m with Some (JStr s) => s | _ => "" end.

(** A document is its name; the rest of a work is empty. *)
#[export] Instance sample_lib : WorkLib := {
  Selector := option (string * string);
  Everything := None;
  ParseSelector s := Ok (Some ("app", s));
  Requirements sel := match sel with Some (k, v) => ([mkRequirement k Equals [v]], true) | None => ([], true) end;
  Matches sel labels := match sel with Some kv => bool_decide (kv ∈ labels) | None => true end;
  marshal m := Ok (field "name" m);
  unmarshalMeta s := if decide (s = "") then Err "unexpected end of JSON input"
                     else Ok (mkObjectMeta s "cluster1" s [("app", s)] "" 0 None);
  unmarshalDeleteOption s := Ok None;
  unmarshalConfig s := Ok None;
  unmarshalStatus m := Ok ([], m);
  workUID source namespace name := name;
}.

#[export] Instance list_fifo : Fifo := {
  queue := list ManifestWork;
  q_empty := [];
  q_Add w q := if existsb (same_key w) q then (fun x => if same_key w x then w else x) <$> q else q ++ [w];
  q_Pop q := match q with [] => None | w :: q => Some (w, q) end;
  q_list q := q;
}.
#[export] Instance list_fifo_laws : FifoLaws.
Proof. split; [done|done|]. by intros []. Qed.

Definition any : Selector := Everything.
Definition app_b : @Selector sample_lib := Some ("app", "b").

Definition sample_bundle (name : string) : ResourceBundle :=
  mkResourceBundle (Some name) None None (Some name) (Some "cluster1") (Some 1) None None None
    (Some [("name", JStr name)]) None None None None.
Definition sample_work (name : string) : ManifestWork :=
  mkManifestWork (mkObjectMeta name "cluster1" name [("app", name)] "1" 1 None) [] None [] [] None.

(** ** A run: a watcher is registered, a work is sent to it and read *)

Definition registered_state : state := (registerWatcher 0 "cluster1" any newRESTFulAPIWatcherStore).2.
Definition sending_state : state :=
  set_sender 0 (mkSender (HandleReceivedResource (sample_work "a")) [0%nat] true)
    (sendWatchEvent 0 (HandleReceivedResource (sample_work "a")) [0%nat] registered_state).
Definition read_state : state :=
  set_sender 0 (mkSender (HandleReceivedResource (sample_work "a")) [] false)
    (set_watcher 0 (read 0 (HandleReceivedResource (sample_work "a")) (newWorkWatcher "cluster1" any)) sending_state).

Lemma steps_to_sending : steps ∅ [LRegister 0 "cluster1" any; LReceived 0 (sample_work "a"); LCheck 0 0]
  newRESTFulAPIWatcherStore sending_state.
Proof.
  eapply StepsCons; [by apply StepRegister|].
  eapply StepsCons; [apply (StepReceived _ 0 (sample_work "a") [0%nat]); [done|done|set_solver|vm_compute; reflexivity]|].
  eapply StepsCons; [by eapply StepBlock|apply StepsNil].
Qed.

Lemma watchers_served_witness :
  exists w, (end_sender 0 read_state).(heap) !! 0%nat = Some w /\
    NoDup w.(w_got).*1 /\
    (forall n evt, (n, evt) ∈ w.(w_got) ->
       exists targets, (end_sender 0 read_state).(log) !! n = Some (evt, targets) /\ 0%nat ∈ targets /\ wants w evt = true) /\
    (forall n evt targets, (end_sender 0 read_state).(log) !! n = Some (evt, targets) ->
       (end_sender 0 read_state).(senders) !! n = None -> 0%nat ∈ targets ->
       wants w evt = true -> isStopped w = false -> (n, evt) ∈ w.(w_got)).
Proof.
  eexists. split; [vm_compute; reflexivity|].
  eapply (watchers_served ∅ [LRegister 0 "cluster1" any; LReceived 0 (sample_work "a"); LCheck 0 0; LRead 0 0; LDone 0]
            (end_sender 0 read_state)); [|vm_compute; reflexivity].
  eapply StepsCons; [by apply StepRegister|].
  eapply StepsCons; [apply (StepReceived _ 0 (sample_work "a") [0%nat]); [done|done|set_solver|vm_compute; reflexivity]|].
  eapply StepsCons; [by eapply StepBlock|].
  eapply StepsCons; [by eapply StepRead|].
  eapply StepsCons; [by eapply StepDone|apply StepsNil].
Defined.

(** The consumer stops the watcher without reading, and a work is queued. *)
Definition stopped_state : state :=
  set_queue (q_Add (sample_work "b") sending_state.(workQueue))
    (set_watcher 0 (mkWatcher "cluster1" any true true false []) sending_state).

Lemma unread_send_blocks_store_witness :
  stopped_state.(senders) !! 0%nat = Some (mkSender (HandleReceivedResource (sample_work "a")) [0%nat] true) /\
  stopped_state.(watchers) = sending_state.(watchers) /\
  (forall j ns sel, LRegister j ns sel ∉ [LStop 0; LAdd (sample_work "b")]) /\ LDone 0 ∉ [LStop 0; LAdd (sample_work "b")].
Proof.
  apply (unread_send_blocks_store ∅ [LStop 0; LAdd (sample_work "b")] sending_state stopped_state 0 0
           (HandleReceivedResource (sample_work "a")) []);
    [|done|by eexists|intros l [->|[->|[]%elem_of_nil]%elem_of_cons]%elem_of_cons; discriminate].
  eapply StepsCons; [by eapply StepStop|]. eapply StepsCons; [by apply StepAdd|apply StepsNil].
Defined.

Definition works_server (search : string) (p s : Z) : M unit (result (BundleList ResourceBundle) string) :=
  serve_list [sample_bundle "a"; sample_bundle "b"] search p s.

Lemma GetWatcher_spec_witness :
  exists st' r s',
    GetWatcher works_server "source1" 1 0 "cluster1" noOptions (tt, newRESTFulAPIWatcherStore) = (Some r, (st', s')) /\
    s'.(watchers) !! "cluster1" = Some 0%nat /\ r = Ok 0%nat /\
    (NoDup (uid <$> [sample_work "a"; sample_work "b"]) -> q_list s'.(workQueue) = [sample_work "a"; sample_work "b"]).
Proof.
  destruct (GetWatcher_spec works_server "source1" (fun _ => True) [sample_bundle "a"; sample_bundle "b"] 1 0 "cluster1" noOptions
           any "" false tt newRESTFulAPIWatcherStore) as (st' & r & s' & Hg & Hw & Hr);
    [reflexivity|intros p s st _ _ _; by eexists|done|done|vm_compute; lia|].
  exists st', r, s'. split; [exact Hg|]. split; [exact Hw|].
  assert (map_result ToManifestWork [sample_bundle "a"; sample_bundle "b"] = Ok [sample_work "a"; sample_work "b"]) as Hm
    by (vm_compute; reflexivity).
  rewrite Hm in Hr. exact Hr.
Defined.

Lemma second_watcher_keeps_selector_witness :
  registerWatcher 1 "cluster1" app_b registered_state = (0%nat, registered_state).
Proof.
  eapply (second_watcher_keeps_selector 1 0 "cluster1" app_b registered_state);
    [vm_compute; reflexivity|vm_compute; reflexivity|reflexivity].
Defined.
