(* ===== verification/ServerWitnesses.v ===== *)
(** * The server theorems on a concrete deployment

    Events as JSON documents, a transport that accepts everything, a ring that places
    every key on its least member, and the small database of the controllers. *)

From S2P Require Import Prelude GoLib Sha256 Errors Types Json Bundle Validation Gorm World Dao DaoFacts Locks Services Samples ServiceFacts Controllers ControllerFacts ControllerWitnesses SourceClient SourceClientFacts Dispatcher DispatcherFacts Health EventServer EventServerFacts Deletion.
Import api SetQueue.

Open Scope Z_scope.

(** ** Instances *)

Definition put (k : string) (v : json) (e : JSONMap) : JSONMap := Some (oset k v (default [] e)).

#[export] Instance doc_ops : EventOps := {
  ManifestBundleEventDataType := "manifestbundles";
  ParseCloudEventsType s :=
    match Strings.Split s Strings.dot with
    | [d; sub; act] => Ok (mkCloudEventsType d sub act)
    | _ => Err "unsupported cloudevents type"
    end;
  TypeString t := t.(CloudEventsDataType) +:+ "." +:+ t.(SubResource) +:+ "." +:+ t.(Action);
  ceType e := match jget "type" e with Some (JStr s) => s | _ => "" end;
  SetSource s e := put "source" (JStr s) e;
  SetType s e := put "type" (JStr s) e;
  SetID s e := put "id" (JStr s) e;
  SetTime t e := put "time" (JNum t) e;
  SetExtension k v e := put k v e;
  ext_string s := JStr s;
  ext_int z := JNum z;
  ext_time t := JNum t;
  ext_show v := match v with JStr s => s | v => Json.Marshal v end;
  marshalWorkStatus l := Ok (Json.Marshal (JObj l));
  IsStatusConditionTrue l c := match oget "conditions" l with
                               | Some (JArr cs) => bool_decide (JStr c ∈ cs) | _ => false end;
  type_of _ := "interface {}";
}.

Lemma jget_put k v e k' : jget k' (put k v e) = if decide (k = k') then Some v else jget k' e.
Proof.
  unfold jget, put. cbn [mbind option_bind]. case_decide as Hk; [subst; apply oget_oset|].
  rewrite oget_oset_ne by done. by destruct e.
Qed.

Lemma ext_put k v e k' : k ∈ attributes -> ceExtensions (put k v e) k' = ceExtensions e k'.
Proof.
  intros Hk. cbn [ceExtensions ce]. rewrite jget_put. repeat case_decide; subst; done.
Qed.
Lemma type_put k v e : k <> "type" -> ceType (put k v e) = ceType e.
Proof. intros Hk. cbn [ceType doc_ops]. rewrite jget_put. by rewrite decide_False. Qed.

Lemma extension_no_attribute k : k ∈ extension_names -> k ∉ attributes.
Proof.
  intros Hk. assert (Forall (fun k => k ∉ attributes) extension_names) as Ha.
  { repeat constructor; by apply (bool_decide_unpack _); vm_compute. }
  by apply (proj1 (Forall_forall _ _) Ha).
Qed.

#[export] Instance doc_laws : EventOpsLaws.
Proof.
  split.
  - intros k v e k' Hk%extension_no_attribute. cbn [ceExtensions ce SetExtension doc_ops]. rewrite jget_put.
    repeat case_decide; subst; done.
  - intros. apply ext_put. do 2 right. left.
  - intros. apply ext_put. do 3 right. left.
  - intros. apply ext_put. right. left.
  - intros. apply ext_put. do 5 right. left.
  - intros t e. cbn [ceType SetType doc_ops]. by rewrite jget_put, decide_True.
  - intros k v e Hk%extension_no_attribute. apply type_put. intros ->. apply Hk. do 3 right. left.
  - intros. by apply type_put.
  - intros. by apply type_put.
  - done.
  - done.
Qed.

#[export] Instance accepting_source : CloudEventSource := {
  Publish _ _ := ret None;
  NewResyncEvent s t c hashes :=
    ret (Ok (Some [("clustername", JStr c); ("hashes", JArr ((fun h => JStr h.2) <$> hashes)); ("source", JStr s)]));
  Send _ := ret None;
  clientReady := ret true;
}.

#[export] Instance agents : AgentEventServer := {
  HandleEvent _ := ret None;
  Subscribers := ret {["cluster1"]};
  InternalError e := "Internal error occurred: " +:+ e;
  NotFoundError r n := r +:+ " " +:+ n +:+ " not found";
}.

#[export] Instance least_ring : Consistent := {
  Ring := gset string;
  newRing := ∅;
  GetMembers r := r;
  ringAdd m r := {[m]} ∪ r;
  ringRemove m r := r ∖ {[m]};
  LocateKey r _ := default "" (head (elements r));
}.
Lemma least_member (r : gset string) : r <> ∅ -> default "" (head (elements r)) ∈ r.
Proof.
  intros Hr. destruct (elements r) as [|x l] eqn:E.
  - by apply elements_empty_inv in E as ->%leibniz_equiv.
  - apply elem_of_elements. rewrite E. left.
Qed.
#[export] Instance least_ring_laws : ConsistentLaws.
Proof.
  split; cbn [GetMembers newRing ringAdd ringRemove LocateKey least_ring]; try done.
  - intros r k. apply least_member.
  - by intros r r' k ->.
Qed.

(** ** Codec *)

Definition spec_type : CloudEventsType := mkCloudEventsType "manifestbundles" "spec" "create_request".
Definition sent_event : CE :=
  match (Codec.Encode "maestro" spec_type sample_resource sample_world).1 with Ok e => e | Err _ => None end.
(** The agent's answer: a status event for the same resource. *)
Definition agent_reply : CE :=
  SetExtension ExtensionOriginalSource (JStr "maestro") (SetType "manifestbundles.status.update_request" sent_event).
Definition reply_status : JSONMap := match CloudEventToJSONMap agent_reply with Ok s => s | Err _ => None end.

Lemma sent_event_eq : Codec.Encode "maestro" spec_type sample_resource sample_world = (Ok sent_event, sample_world).
Proof. vm_compute. reflexivity. Qed.

Lemma Encode_spec_witness :
  exists res' evt0, Codec.resetPayloadMetadataNameWithResID sample_resource = Ok res' /\
    JSONMAPToCloudEvent res'.(Payload) = Ok evt0 /\ encoded spec_type sample_resource evt0 sent_event /\
    reads sample_world sample_world.
Proof. apply (Encode_spec "maestro" spec_type sample_resource sample_world sent_event sample_world sent_event_eq). Defined.

Lemma Encode_Decode_identity_witness :
  Codec.Decode "maestro" agent_reply =
    Ok (mkResource (newMeta "r1") 1 "" "cluster1" "" None reply_status "").
Proof.
  eapply (Encode_Decode_identity "maestro" spec_type sample_resource sample_world sent_event sample_world "maestro"
            agent_reply (mkCloudEventsType "manifestbundles" "status" "update_request") reply_status).
  - cbn. lia.
  - exact sent_event_eq.
  - intros k Hk. apply list_elem_of_In in Hk. cbn [In] in Hk.
    destruct Hk as [<-|[<-|[<-|[]]]]; vm_compute; reflexivity.
  - vm_compute. reflexivity.
  - reflexivity.
  - vm_compute. reflexivity.
  - vm_compute. reflexivity.
Defined.

(** ** Source client *)

Lemma no_fault n : fault n = None.
Proof. reflexivity. Qed.
Lemma controller_world_wf : wf_tables controller_world.
Proof. exact controller_tables_wf. Qed.

Lemma SourceClient_publishes_witness :
  SourceClientImpl.OnUpdate "r2" controller_world = (None, bump controller_world) /\
  SourceClientImpl.OnDelete "r2" controller_world
    = Publish (SourceClientImpl.specType "delete_request") (served deleting_resource) (bump controller_world).
Proof.
  pose proof (SourceClient_publishes "r2" controller_world controller_world_wf (no_fault _)) as H.
  assert (controller_world.(tables).(resources) !! "r2" = Some deleting_resource) as Hr by (vm_compute; reflexivity).
  rewrite Hr in H. cbn [SourceClientImpl.deleting deleting_resource] in H. split; apply H.
Defined.

Lemma resyncConsumer_covers_witness :
  exists objs : list Resource, (forall r, r ∈ objs <-> exists k row, controller_world.(tables).(resources) !! k = Some row /\
                                         row.(ConsumerName) = "cluster1" /\ r = load scanNull row).
Proof.
  destruct (resyncConsumer_covers "maestro" "cluster1" controller_world controller_world_wf (no_fault _)) as (objs & _ & H & _).
  exists objs. exact H.
Defined.

(** ** Dispatcher *)

Definition dispatcher_state : HashDispatcher.DState := HashDispatcher.NewHashDispatcher controller_world ∅.

Lemma sample_ready : ready_ids controller_world.(tables) = {["i1"]}.
Proof. vm_compute. reflexivity. Qed.
Lemma sample_ready_nonempty : ready_ids controller_world.(tables) <> ∅.
Proof. rewrite sample_ready. set_solver. Qed.
Lemma sample_live : live_consumer controller_world.(tables) "cluster1".
Proof. exists "c1", sample_consumer. split_and!; vm_compute; reflexivity. Qed.

Lemma check_spec_witness :
  HashDispatcher.Dispatch "cluster1" (HashDispatcher.check "i1" dispatcher_state).2 = true.
Proof.
  destruct (HashDispatcherFacts.check_spec "i1" dispatcher_state (no_fault _) (no_fault _) sample_ready_nonempty) as (_ & H & _).
  apply (H "cluster1" sample_live). vm_compute. reflexivity.
Defined.

Lemma check_owner_unique_witness :
  exists i, i ∈ ready_ids controller_world.(tables) /\
    forall j, HashDispatcher.Dispatch "cluster1" (HashDispatcher.check j dispatcher_state).2 = true <-> j = i.
Proof.
  apply (HashDispatcherFacts.check_owner_unique (fun _ => dispatcher_state) controller_world.(tables) "cluster1");
    [intros i; split_and!; reflexivity|exact sample_ready_nonempty|exact sample_live].
Defined.

Lemma processNextResync_no_loss_witness :
  (HashDispatcher.processNextResync (sc := SourceClientImpl.NewSourceClient "maestro") dispatcher_state).1 = false.
Proof.
  pose proof (HashDispatcherFacts.processNextResync_no_loss (sc := SourceClientImpl.NewSourceClient "maestro")
                dispatcher_state) as H.
  cbv zeta in H. assert ((qGet dispatcher_state.(HashDispatcher.workQueue)).1 = None) as Hq by (vm_compute; reflexivity).
  rewrite Hq in H. apply H.
Defined.

Lemma noop_resync_by_id_witness :
  SourceClientImpl.resyncConsumer "maestro" "c1" controller_world
    = SourceClientImpl.sendResyncBatch "maestro" "c1" [] 1 1 (bump controller_world).
Proof.
  destruct (noop_resync_by_id "maestro" controller_world (no_fault _)) as (cs & _ & _ & H).
  apply (H "c1" controller_world controller_world_wf (no_fault _)).
  intros k row Hk Hc. assert (map_Forall (fun _ (r : Resource) => r.(ConsumerName) <> "c1") controller_world.(tables).(resources)) as Hall.
  { repeat (apply map_Forall_insert_2; [done|]). apply map_Forall_empty. }
  exact (Hall k row Hk Hc).
Defined.

(** ** Health check *)

(** An instance that stopped beating and one that started; the interval is 0. *)
Definition quiet_instance : ServerInstance := mkServerInstance (live "i1" 1) 1 true.
Definition beating_instance : ServerInstance := mkServerInstance (live "i2" 1) 100000 false.
Definition health_world : World :=
  set_tables (tset {["i1" := quiet_instance; "i2" := beating_instance]} controller_tables) controller_world.

Lemma health_world_wf : wf_tables health_world.
Proof.
  apply tset_wf; [exact controller_tables_wf|]. repeat (apply map_Forall_insert_2; [done|]). apply map_Forall_empty.
Qed.

Lemma checkInstances_sound_witness :
  exists i', instances_of (HealthCheckServer.checkInstances 0 health_world).2 !! "i2" = Some i' /\
    justified 0 beating_instance i' health_world (HealthCheckServer.checkInstances 0 health_world).2.
Proof.
  destruct (checkInstances_sound 0 health_world health_world_wf) as [_ H]. apply H. vm_compute. reflexivity.
Defined.

Lemma checkInstances_complete_witness :
  (exists i', instances_of (HealthCheckServer.checkInstances_locked 0 health_world).2 !! "i2" = Some i' /\ i'.(Ready) = true) /\
  (exists i', instances_of (HealthCheckServer.checkInstances_locked 0 health_world).2 !! "i1" = Some i' /\ i'.(Ready) = false).
Proof.
  assert ((HealthCheckServer.checkInstances_locked 0 health_world).2.(tick) = 106)%nat as Ht by (vm_compute; reflexivity).
  split.
  - apply (checkInstances_complete 0 health_world "i2" beating_instance true health_world_wf no_fault);
      [vm_compute; reflexivity|reflexivity|].
    intros n Hn. rewrite Ht in Hn. change (Z.of_nat n + 1 + 0 < 100000). lia.
  - apply (checkInstances_complete 0 health_world "i1" quiet_instance false health_world_wf no_fault);
      [vm_compute; reflexivity|reflexivity|].
    intros n Hn. change (tick health_world) with 100%nat in Hn.
    change (1 < Z.of_nat n + 1 + 0). lia.
Defined.

Lemma pulse_spec_witness :
  pulsed "i2" health_world
    (HealthCheckServer.pulse "i2" false (Some (SourceClientImpl.NewSourceClient "maestro")) health_world).2.
Proof.
  apply (pulse_spec "i2" false (Some (SourceClientImpl.NewSourceClient "maestro")) health_world).
  - intros c [= <-] w. split; [reflexivity|]. unfold ticks. apply le_n.
  - exact health_world_wf.
Defined.

Lemma healthCheckHandler_spec_witness :
  (HealthCheckServer.healthCheckHandler "i1" false None health_world).1.1 = 200 <->
  false = false /\ exists i, instances_of health_world !! "i1" = Some i /\ visible false i = true /\ i.(Ready) = true.
Proof.
  pose proof (healthCheckHandler_spec "i1" false None health_world health_world_wf) as H.
  cbv [HealthCheckServer.cloudEventsNotReady ret] in H. apply H; reflexivity.
Defined.

(** ** Event servers *)

Definition log_client (id source : string) : EventBroadcaster.eventClient (list (string * Resource)) :=
  EventBroadcaster.mkEventClient source (fun res s => (Some "stream closed", (id, res) :: s)).
Definition sample_clients : gmap string (EventBroadcaster.eventClient (list (string * Resource))) :=
  {["a" := log_client "a" "source1"; "b" := log_client "b" "source2"]}.

Lemma deliver_exactly_witness :
  (EventBroadcaster.deliver (map_to_list sample_clients) sample_resource []).2
    ≡ₚ ((fun id => (id, sample_resource)) <$> recipients sample_clients sample_resource) ++ [].
Proof.
  apply (deliver_exactly sample_clients (map_to_list sample_clients) sample_resource []); [reflexivity|].
  repeat (apply map_Forall_insert_2; [intros res s; by eexists|]). apply map_Forall_empty.
Defined.

(** The status an agent sends once the resource is gone from the cluster. *)
Definition deleted_report : Resource :=
  set_Status (Some [("data", JObj [("conditions", JArr [JStr "Deleted"])]); ("id", JStr "s2"); ("sequenceid", JStr "1")])
    deleting_resource.

Lemma HandleStatusUpdate_spec_witness :
  status_outcome deleted_report controller_world (HandleStatusUpdate deleted_report controller_world).1
    (HandleStatusUpdate deleted_report controller_world).2.
Proof. apply (HandleStatusUpdate_spec deleted_report controller_world controller_world_wf). Defined.

Lemma HandleStatusUpdate_announces_delete_witness :
  exists k e, (HandleStatusUpdate deleted_report controller_world).2.(tables).(status_events) !! k = Some e /\
    e.(ResourceID) = "r2".
Proof.
  destruct (HandleStatusUpdate_announces_delete deleted_report controller_world "r2" deleting_resource controller_world_wf)
    as (_ & _ & k & e & _ & Hk & _ & He & _); [vm_compute; reflexivity|vm_compute; reflexivity|].
  exists k, e. split; [exact Hk|exact He].
Defined.

(** The whole deletion of a resource whose bundle carries no metadata, with the agent's
    last word on it. *)
Definition bare_resource : Resource :=
  mkResource (live "r3" 1) 1 "source1" "cluster1" "" (Some (filter (fun p => p.1 <> "metadata") (bundle ["a"]))) None "r3".
Definition bare_world : World := set_tables (tset {["r3" := bare_resource]} controller_tables) controller_world.
Definition gone_report : Resource := set_Status deleted_report.(Status) bare_resource.
Definition gone_status : JSONMap * list (string * json) :=
  match merge_status gone_report bare_resource with Ok p => p | Err _ => (None, []) end.

Lemma bare_world_wf : wf_tables bare_world.
Proof. destruct controller_world_wf. split; [by apply table_wf_singleton|done..]. Qed.
Lemma bare_world_ids n :
  bare_world.(tables).(events) !! newID n = None /\ bare_world.(tables).(status_events) !! newID n = None.
Proof. split; repeat (apply lookup_insert_None; split; [|intros Hk; discriminate Hk]); apply lookup_empty. Qed.

Lemma deletion_completes_witness :
  let '(_, w1) := ResourceService.MarkAsDeleting "r3" bare_world in
  exists eid, w1.(notified) = [("events", eid)] /\
  let '(_, w2) := handle_filtered (spec_handlers (es := mq_server "maestro" "i1")) eid w1 in
  let '(e3, w3) := HandleStatusUpdate gone_report w2 in e3 = None /\ w3.(tables).(resources) !! "r3" = None.
Proof.
  pose proof (deletion_completes "maestro" "i1" "r3" bare_resource gone_report bare_world bare_world_wf) as H.
  destruct (ResourceService.MarkAsDeleting "r3" bare_world) as [e1 w1].
  destruct H as (eid & now & w' & _ & Hn & Hh).
  - discriminate.
  - split; [exact no_fault|vm_compute; reflexivity|apply bare_world_ids].
  - apply bare_world_ids.
  - intros r w. exists w. split; [reflexivity|]. split; [split; reflexivity|apply Nat.le_refl].
  - vm_compute. reflexivity.
  - reflexivity.
  - reflexivity.
  - reflexivity.
  - intros now. exists gone_status.1, gone_status.2. split; [|vm_compute; reflexivity].
    change (merge_status gone_report bare_resource = Ok (gone_status.1, gone_status.2)). vm_compute. reflexivity.
  - exists eid. split; [exact Hn|].
    destruct (handle_filtered _ eid w1) as [handled w2]. destruct Hh as (_ & _ & _ & _ & Hs).
    destruct (HandleStatusUpdate gone_report w2) as [e3 w3]. destruct Hs as (Hok & Hgone & _).
    split; [exact Hok|]. rewrite Hgone. apply lookup_delete_eq.
Defined.

Lemma broadcastStatusEvent_spec_witness :
  (broadcastStatusEvent "i1" "s1" "r1" controller_world).2.(notified) = [].
Proof.
  pose proof (broadcastStatusEvent_spec "i1" "s1" "r1" controller_world controller_world_wf) as H.
  destruct (broadcastStatusEvent "i1" "s1" "r1" controller_world) as [res w']. apply H.
Defined.

Lemma PredicateEvent_spec_witness :
  exists subs w', Subscribers (bump (bump controller_world)) = (subs, w') /\
    GRPCBroker.PredicateEvent "e2" controller_world = (Ok (bool_decide ("cluster1" ∈ subs)), w').
Proof.
  pose proof (PredicateEvent_spec "e2" pending_event controller_world controller_world_wf no_fault) as H.
  assert (controller_world.(tables).(resources) !! "r1" = Some sample_resource) as Hr by (vm_compute; reflexivity).
  change (SourceID pending_event) with "r1" in H. rewrite Hr in H.
  apply H; [vm_compute; reflexivity|reflexivity].
Defined.

Definition finished_state : CState := mkCState controller_world ∅ {["e3"]}.
Lemma predicated_finished_requeued_witness :
  pending (processNextEvent ∅ (NewPredicatedEventFilter GRPCBroker.PredicateEvent) finished_state).2.(eventsQueue) = {["e3"]}.
Proof.
  apply (predicated_finished_requeued ∅ finished_state "e3" controller_world_wf (no_fault _));
    [vm_compute; reflexivity|].
  assert (events_of finished_state.(world) !! "e3" = Some finished_event) as He by (vm_compute; reflexivity).
  rewrite He. by eexists.
Defined.

(** An update event of r2 that is still pending when r2 is under deletion. *)
Definition late_event : Event := created_event "e4" 4 "Resources" "r2" UpdateEventType.
Definition late_world : World :=
  set_tables (tset {["e4" := late_event]} controller_tables) controller_world.
Lemma stale_event_retired_witness :
  (handle_filtered (spec_handlers (es := mq_server "maestro" "i1")) "e4" late_world).1 = Ok true.
Proof.
  destruct (stale_event_retired "maestro" "i1" "e4" late_event late_world) as (now & at_ & H).
  - apply tset_wf; [exact controller_tables_wf|]. by apply map_Forall_singleton.
  - exact no_fault.
  - vm_compute. reflexivity.
  - reflexivity.
  - reflexivity.
  - reflexivity.
  - assert (late_world.(tables).(resources) !! SourceID late_event = Some deleting_resource) as Hr by (vm_compute; reflexivity).
    rewrite Hr. split; [reflexivity|discriminate].
  - rewrite H. reflexivity.
Defined.
