(* ===== verification/MockClient.v ===== *)
(** * pkg/client/cloudevents/source_client_mock.go: the source client of the test environment

    SourceClientMock plays both the broker and an agent: it answers a created resource with
    a status and keeps the resources it has seen in a slice. OnDelete takes an element out
    of the slice while it ranges over it, so its loop runs on the backing array both share.
    The event builder, SetData, the snowflake node and the JSON of a condition are the class
    [MockEvents]. *)

From S2P Require Import Prelude GoLib Errors Types Json Bundle Validation Gorm World Dao DaoFacts Locks Services Samples SourceClient ServerWitnesses.
Import api errors Fmt.

Open Scope Z_scope.

Class MockEvents `{ce : CloudEvents} := {
  (** NewEventBuilder(source, type) with the resource id, the sequence id, the version, the
      cluster name and the original source, and NewEvent *)
  NewStatusEvent : string -> CloudEventsType -> string -> string -> Z -> string -> string -> M World CE;
  (** SetData(ApplicationJSON, status) *)
  SetStatusData : list (string * json) -> CE -> result CE string;
  (** sequenceGenerator.Generate().String() *)
  Generate : M World string;
  (** a metav1.Condition that is true, with its type and LastTransitionTime *)
  condition : string -> Time -> json;
}.
Arguments MockEvents ce : clear implicits.
Arguments MockEvents {ce}.

(** What a method comes back with: its error, or a panic of the runtime. *)
Inductive call := Returned (err : option string) | Panicked.

Record SourceClientMock := mkSourceClientMock { resources_ : list Resource; NotReady : bool }.
Definition agent : string := "mock-agent".
Definition NewSourceClientMock : SourceClientMock := mkSourceClientMock [] false.

Section Mock.
Context `{env : Env} `{gorm : Gorm} `{lf : LockFactory} `{eo : EventOps} `{me : !MockEvents} `{sf : Snowflake} `{tf : TimeFormat}.

Definition failed (what : string) (err : ServiceError) : call := Returned (Some (errorf ("failed to " +:+ what) (Error err))).
Definition failed_to (what err : string) : call := Returned (Some (errorf ("failed to " +:+ what) err)).

Definition in_world {A} (m : M World A) : M (World * SourceClientMock) A :=
  fun '(w, s) => let '(a, w) := m w in (a, (w, s)).
Definition set_resources (l : list Resource) : M (World * SourceClientMock) unit :=
  modify (fun '(w, s) => (w, mkSourceClientMock l s.(NotReady))).

(** ** OnCreate *)

(** The status event with its data, as the JSON map the resource keeps. *)
Definition encode_status (status : list (string * json)) (evt : CE) : result JSONMap call :=
  match SetStatusData status evt with
  | Err err => Err (failed_to "encode manifestwork status to a cloudevent" err)
  | Ok evt => map_err (failed_to "convert resource status cloudevent to jsonmap") (CloudEventToJSONMap evt)
  end.

Definition OnCreate (id : string) : M (World * SourceClientMock) call :=
  let! r := in_world (ResourceService.Get id) in
  match r with
  | Err serviceErr => ret (failed "get resource" serviceErr)
  | Ok resource =>
      let eventType := mkCloudEventsType ManifestBundleEventDataType SubResourceStatus "update_request" in
      let! sequence := in_world Generate in
      let! evt := in_world (NewStatusEvent agent eventType resource.(ID) sequence (Int.int64 resource.(Version)) resource.(ConsumerName) "maestro") in
      let! now := in_world time_now in
      match encode_status [("conditions", JArr [condition "Applied" now])] evt with
      | Err c => ret c
      | Ok status =>
          let! r := in_world (ResourceService.UpdateStatus (set_Status status resource)) in
          match r with
          | Err serviceErr => ret (failed "update resource status" serviceErr)
          | Ok (newResource, _) =>
              let! s := gets snd in
              set_resources (s.(resources_) ++ [newResource]) >> ret (Returned None)
          end
      end
  end.

(** ** OnUpdate *)

(** A ManifestBundleStatus with one more condition. *)
Definition add_condition (c : json) (status : list (string * json)) : list (string * json) :=
  match oget "conditions" status with
  | Some (JArr l) => oset "conditions" (JArr (l ++ [c])) status
  | _ => oset "conditions" (JArr [c]) status
  end.

(** The status an update gives the resource. *)
Definition updated_status (now : Time) (resource : Resource) : result JSONMap call :=
  match JSONMAPToCloudEvent resource.(Status) with
  | Err err => Err (failed_to "convert resource status to cloudevent" err)
  | Ok evt =>
      match DataAsManifestBundleStatus evt with
      | Err err => Err (failed_to "decode cloudevent payload as resource status" err)
      | Ok manifestBundleStatus => encode_status (add_condition (condition "Updated" now) manifestBundleStatus) evt
      end
  end.

(** The loop stops at the first resource with the id. *)
Definition OnUpdate (id : string) : M (World * SourceClientMock) call :=
  let! r := in_world (ResourceService.Get id) in
  match r with
  | Err serviceErr => ret (failed "get resource" serviceErr)
  | Ok resource =>
      let! s := gets snd in
      match list_find (fun r : Resource => r.(ID) = resource.(ID)) s.(resources_) with
      | None => ret (Returned (Some (Sprintf "failed to find resource %s" [GStr resource.(ID)])))
      | Some (i, _) =>
          let! now := in_world time_now in
          match updated_status now resource with
          | Err c => ret c
          | Ok status =>
              let! r := in_world (ResourceService.UpdateStatus (set_Status status resource)) in
              match r with
              | Err serviceErr => ret (failed "update resource status" serviceErr)
              | Ok (newResource, _) => set_resources (<[i := newResource]> s.(resources_)) >> ret (Returned None)
              end
          end
      end
  end.

(** ** OnDelete *)

(** [append(s[:i], s[i+1:]...)] on the array behind a slice of length [len]: the elements
    after the i-th move down, what lies beyond the last stays as it was. *)
Definition append_without (i len : nat) (array : list Resource) : list Resource :=
  take i array ++ drop (S i) (take len array) ++ drop (pred len) array.

(** The range reads the array by index, [todo] more elements from [i] on; the slice of the
    client has become [len] long. s[i+1:] panics when i+1 is past its end. *)
Fixpoint delete_loop (id : string) (todo i len : nat) (array : list Resource) : M World (call * list Resource) :=
  match todo, (array !! i : option Resource) with
  | S todo, Some r =>
      if decide (r.(ID) = id) then
        let! err := ResourceService.Delete id in
        match err with
        | Some err => ret (failed "delete resource" err, take len array)
        | None => if (len <? S i)%nat then ret (Panicked, take len array)
                  else delete_loop id todo (S i) (pred len) (append_without i len array)
        end
      else delete_loop id todo (S i) len array
  | _, _ => ret (Returned None, take len array)
  end.

Definition OnDelete (id : string) : M (World * SourceClientMock) call :=
  let! r := in_world (ResourceService.Get id) in
  match r with
  | Err serviceErr => ret (failed "get resource" serviceErr)
  | Ok resource =>
      let! s := gets snd in
      let n := length s.(resources_) in
      let! '(c, l) := in_world (delete_loop resource.(ID) n 0 n s.(resources_)) in
      set_resources l >> ret c
  end.

(** Subscribe and Resync do nothing. *)
Definition Resync (consumers : list string) : M (World * SourceClientMock) (option string) := ret None.
Definition IsReady (s : SourceClientMock) : bool := negb s.(NotReady).
End Mock.

(** ** Facts *)

Section Facts.
Context `{env : Env} `{gorm : Gorm} `{lf : LockFactory} `{eo : EventOps} `{me : !MockEvents} `{sf : Snowflake} `{tf : TimeFormat}.

Lemma delete_loop_skips id todo i len array w :
  (i + todo = length array)%nat -> Forall (fun r : Resource => r.(ID) <> id) (drop i array) ->
  delete_loop id todo i len array w = ((Returned None, take len array), w).
Proof.
  revert i. induction todo as [|todo IH]; intros i Hi Hd; [done|]. cbn [delete_loop].
  destruct (array !! i) as [r|] eqn:Ei; [|done]. rewrite (drop_S _ r) in Hd by done. apply Forall_cons in Hd as [Hr Hd].
  rewrite decide_False by done. apply IH; [lia|done].
Qed.

(** The loop passes the elements before the first with the id. *)
Lemma delete_loop_reaches id l (r : Resource) rest len w :
  Forall (fun r : Resource => r.(ID) <> id) l -> r.(ID) = id ->
  delete_loop id (length (l ++ r :: rest)) 0 len (l ++ r :: rest) w =
  delete_loop id (S (length rest)) (length l) len (l ++ r :: rest) w.
Proof.
  intros Hl Hr. assert (forall pre suf, l = pre ++ suf -> 
    delete_loop id (length (suf ++ r :: rest)) (length pre) len (l ++ r :: rest) w =
    delete_loop id (S (length rest)) (length l) len (l ++ r :: rest) w) as H; [|by apply (H [])].
  intros pre suf. revert pre. induction suf as [|x suf IH]; intros pre Hp.
  { rewrite app_nil_r in Hp. by subst. }
  cbn [length app delete_loop]. assert ((l ++ r :: rest) !! length pre = Some x) as ->.
  { rewrite Hp, <- app_assoc. by apply list_lookup_middle. }
  rewrite decide_False; [|subst l; apply Forall_app in Hl as [_ [Hx _]%Forall_cons]; done].
  replace (S (length pre)) with (length (pre ++ [x])) by (rewrite length_app; cbn; lia).
  apply IH. rewrite Hp, <- app_assoc. done.
Qed.

Lemma append_without_middle l (r : Resource) rest :
  append_without (length l) (length (l ++ r :: rest)) (l ++ r :: rest) = l ++ rest ++ drop (length l + length rest) (l ++ r :: rest).
Proof.
  unfold append_without. rewrite take_app_length, firstn_all.
  replace (drop (S (length l)) (l ++ r :: rest)) with rest by (rewrite drop_app_ge by lia; by replace (S (length l) - length l)%nat with 1%nat by lia).
  rewrite length_app. cbn. by replace (pred (length l + S (length rest))) with (length l + length rest)%nat by lia.
Qed.

(** One run of the loop over a slice in which the id is once. *)
Lemma delete_loop_once id l (r : Resource) rest w :
  Forall (fun r : Resource => r.(ID) <> id) l -> r.(ID) = id -> Forall (fun r : Resource => r.(ID) <> id) rest ->
  (ResourceService.Delete id w).1 = None ->
  delete_loop id (length (l ++ r :: rest)) 0 (length (l ++ r :: rest)) (l ++ r :: rest) w =
  ((Returned None, l ++ rest), (ResourceService.Delete id w).2).
Proof.
  intros Hl Hr Hrest Hd. rewrite delete_loop_reaches by done. cbn [delete_loop]. rewrite list_lookup_middle by done.
  rewrite decide_True by done. rewrite bind_run. destruct (ResourceService.Delete id w) as [? w1]. cbn in Hd. subst.
  rewrite (proj2 (Nat.ltb_ge _ _)) by (rewrite length_app; cbn; lia). rewrite append_without_middle.
  assert (length (drop (length l + length rest) (l ++ r :: rest)) = 1%nat) as Hlen by (rewrite length_drop, length_app; cbn; lia).
  rewrite delete_loop_skips.
  - do 2 f_equal. f_equal. rewrite length_app. cbn. replace (pred (length l + S (length rest))) with (length (l ++ rest)) by (rewrite length_app; lia).
    by rewrite app_assoc, take_app_length.
  - rewrite !length_app, Hlen. lia.
  - rewrite drop_app_ge by lia. destruct rest as [|x rest].
    + replace (S (length l) - length l)%nat with 1%nat by lia. cbn [app].
      by destruct (drop _ (l ++ [r])) as [|y [|z q]].
    + replace (S (length l) - length l)%nat with 1%nat by lia. cbn [app drop]. apply Forall_cons in Hrest as [Hx Hrest].
      apply Forall_app. split; [done|]. rewrite drop_app_ge by (cbn; lia).
      replace (length l + length (x :: rest) - length l)%nat with (S (length rest)) by (cbn; lia). cbn [drop].
      apply Forall_drop. by constructor.
Qed.

Lemma filter_keeps {A} (P : A -> Prop) `{!forall x, Decision (P x)} (l : list A) : Forall P l -> base.filter P l = l.
Proof. induction 1; [done|]. rewrite filter_cons_True by done. by f_equal. Qed.

Lemma OnDelete_run id w s resource w1 :
  ResourceService.Get id w = (Ok resource, w1) ->
  OnDelete id (w, s) =
  let n := length s.(resources_) in
  let '((c, l), w2) := delete_loop resource.(ID) n 0 n s.(resources_) w1 in (c, (w2, mkSourceClientMock l s.(NotReady))).
Proof.
  intros Hg. unfold OnDelete. rewrite bind_run. cbn [in_world]. rewrite Hg. rewrite bind_run. cbn.
  rewrite bind_run. cbn [in_world]. by destruct (delete_loop _ _ _ _ _ w1) as [[c l] w2].
Qed.

(** A client that has seen no resource twice deletes the one it is asked for, once, and
    forgets it, and it alone. *)
Theorem OnDelete_spec id w s resource w1 :
  ResourceService.Get id w = (Ok resource, w1) -> NoDup ((fun r : Resource => r.(ID)) <$> s.(resources_)) ->
  (ResourceService.Delete resource.(ID) w1).1 = None ->
  OnDelete id (w, s) =
  (Returned None,
   if decide (resource.(ID) ∈ (fun r : Resource => r.(ID)) <$> s.(resources_))
   then ((ResourceService.Delete resource.(ID) w1).2,
         mkSourceClientMock (base.filter (fun r : Resource => r.(ID) <> resource.(ID)) s.(resources_)) s.(NotReady))
   else (w1, s)).
Proof.
  intros Hg Hnd Hd. rewrite (OnDelete_run _ _ _ _ _ Hg). cbn zeta. case_decide as Hin.
  - apply list_elem_of_fmap in Hin as (r & Hid & (l & rest & Hs)%list_elem_of_split). rewrite Hs in Hnd |- *.
    rewrite fmap_app, fmap_cons in Hnd. apply NoDup_app in Hnd as (_ & Hl & [Hr _]%NoDup_cons).
    assert (Forall (fun r : Resource => r.(ID) <> resource.(ID)) l) as Hl'.
    { apply Forall_forall. intros x Hx Heq. apply (Hl x.(ID)); [by apply (list_elem_of_fmap_2 (fun r : Resource => r.(ID)))|].
      rewrite Heq, Hid. left. }
    assert (Forall (fun r : Resource => r.(ID) <> resource.(ID)) rest) as Hrest'.
    { apply Forall_forall. intros x Hx Heq. apply Hr. rewrite <- Hid, <- Heq.
      by apply (list_elem_of_fmap_2 (fun r : Resource => r.(ID))). }
    rewrite delete_loop_once by done. do 3 f_equal. rewrite filter_app, filter_cons_False by (by rewrite Hid; intros []).
    by rewrite !filter_keeps.
  - rewrite delete_loop_skips; [by rewrite firstn_all; destruct s|done|].
    rewrite drop_0. apply Forall_forall. intros x Hx Heq. apply Hin. rewrite <- Heq.
    by apply (list_elem_of_fmap_2 (fun r : Resource => r.(ID))).
Qed.

(** A resource that was created twice and seen last panics the client: the range goes on
    over the slice it removed an element from. *)
Theorem OnDelete_panics id w s resource w1 l r1 r2 :
  ResourceService.Get id w = (Ok resource, w1) -> s.(resources_) = l ++ [r1; r2] ->
  Forall (fun r : Resource => r.(ID) <> resource.(ID)) l -> r1.(ID) = resource.(ID) -> r2.(ID) = resource.(ID) ->
  let '(e1, w2) := ResourceService.Delete resource.(ID) w1 in
  let '(e2, w3) := ResourceService.Delete resource.(ID) w2 in
  e1 = None -> e2 = None -> (OnDelete id (w, s)).1 = Panicked.
Proof.
  intros Hg Hs Hl H1 H2. destruct (ResourceService.Delete _ w1) as [e1 w2] eqn:E1.
  destruct (ResourceService.Delete _ w2) as [e2 w3] eqn:E2. intros -> ->.
  rewrite (OnDelete_run _ _ _ _ _ Hg), Hs. cbn zeta. rewrite delete_loop_reaches by done.
  cbn [delete_loop length]. rewrite list_lookup_middle by done. rewrite decide_True by done. rewrite bind_run, E1.
  rewrite (proj2 (Nat.ltb_ge _ _)) by (rewrite length_app; cbn; lia). rewrite append_without_middle.
  assert ((l ++ [r2] ++ drop (length l + length [r2]) (l ++ [r1; r2])) !! S (length l) = Some r2) as ->.
  { rewrite drop_app_ge by lia. replace (length l + length [r2] - length l)%nat with 1%nat by (cbn; lia).
    rewrite lookup_app_r by lia. by replace (S (length l) - length l)%nat with 1%nat by lia. }
  rewrite decide_True by done. rewrite bind_run, E2.
  by rewrite (proj2 (Nat.ltb_lt _ _)) by (rewrite length_app; cbn; lia).
Qed.

(** OnUpdate sends the status on under the sequence id it has, so the service, which only
    takes newer ones, never stores it. The library reads the sequence id of an event back
    from the event's JSON, and SetData leaves it alone. *)
Theorem OnUpdate_never_newer now resource found status evt :
  JSONMAPToCloudEvent resource.(Status) = Ok evt ->
  (forall data evt', SetStatusData data evt = Ok evt' ->
     ceExtensions evt' ExtensionStatusUpdateSequenceID = ceExtensions evt ExtensionStatusUpdateSequenceID /\
     forall m, CloudEventToJSONMap evt' = Ok m -> exists evt'', JSONMAPToCloudEvent m = Ok evt'' /\
       ceExtensions evt'' ExtensionStatusUpdateSequenceID = ceExtensions evt' ExtensionStatusUpdateSequenceID) ->
  updated_status now resource = Ok status -> found.(Status) = resource.(Status) ->
  ResourceService.status_newer (set_Status status resource) found <> Ok true.
Proof.
  intros He Hset. unfold updated_status, encode_status. rewrite He.
  destruct (DataAsManifestBundleStatus evt) as [d|]; [|done]. destruct (SetStatusData _ evt) as [evt'|] eqn:Es; [|done].
  apply Hset in Es as [Hext Hback]. destruct (CloudEventToJSONMap evt') as [m|]; [|done]. cbn [map_err].
  intros [= <-] Hf. destruct (Hback m eq_refl) as (evt'' & Hm & Hext'').
  assert ((jlen found.(Status) =? 0)%nat = false) as Hlen.
  { rewrite Hf. unfold JSONMAPToCloudEvent in He. by destruct (jlen (Status resource) =? 0)%nat. }
  unfold ResourceService.status_newer. rewrite Hlen, Hf. unfold ResourceService.sequence_id. replace (Status (set_Status m resource)) with m by (by destruct resource).
  rewrite Hm, He, Hext'', Hext. destruct (ToString _) as [q|]; [|done].
  pose proof (fun Hq => proj1 (compareSequenceIDs_newer q q Hq)) as Hnew.
  destruct (decide (q = "")) as [->|Hq].
  - unfold compareSequenceIDs. rewrite decide_False by tauto. destruct (ParseString "") as [z|]; [|done].
    rewrite decide_False by tauto. rewrite decide_False by tauto. rewrite Z.ltb_irrefl. done.
  - destruct (compareSequenceIDs q q) as [[]|] eqn:Ec; [|done..]. destruct (Hnew Hq eq_refl) as (i & j & Hi & Hj & _ & Ht).
    rewrite Hi in Hj. injection Hj as ->. lia.
Qed.
End Facts.

(** ** A run *)

Module Run.
#[local] Instance doc_mock : MockEvents := {
  NewStatusEvent source type resourceID sequence version cluster original :=
    ret (SetExtension "resourceid" (JStr resourceID) (SetExtension ExtensionStatusUpdateSequenceID (JStr sequence)
          (SetExtension ExtensionResourceVersion (JNum version) (SetSource source (Some [])))));
  SetStatusData d e := Ok (put "data" (JObj d) e);
  Generate := let! n := step in ret (pretty (Z.of_nat n + 1));
  condition t now := JObj [("type", JStr t); ("status", JStr "True")];
}.
Definition two_calls (f g : string -> M (World * SourceClientMock) call) (s : World * SourceClientMock) : call * nat :=
  let '(_, s) := f "r1" s in let '(c, (w, s)) := g "r1" s in (c, length s.(resources_)).

(** Create and delete; create twice and delete: the second deletion panics. *)
Example create_then_delete : two_calls OnCreate OnDelete (sample_world, NewSourceClientMock) = (Returned None, 0%nat).
Proof. by vm_compute. Qed.
Example create_twice_then_delete :
  two_calls OnCreate OnDelete (OnCreate "r1" (sample_world, NewSourceClientMock)).2 = (Panicked, 1%nat).
Proof. by vm_compute. Qed.
Example update_known : two_calls OnCreate OnUpdate (sample_world, NewSourceClientMock) = (Returned None, 1%nat).
Proof. by vm_compute. Qed.
End Run.
