(* ===== verification/GrpcWitnesses.v ===== *)
(** * The theorems of the gRPC service on a concrete deployment

    A review API that knows one token and lets its user publish for one source, requests
    as JSON documents, and the small database of the controllers. *)

From S2P Require Import Prelude GoLib Sha256 Errors Types Json Bundle Validation Gorm World Dao DaoFacts Locks Services Samples ServiceFacts Auth Controllers ControllerWitnesses SourceClient SourceClientFacts EventServer GrpcServer GrpcServerFacts ServerWitnesses.
Import api errors.

Open Scope Z_scope.

#[export] Instance doc_source_events : SourceEvents := {
  PBEvent := JSONMap;
  ToEvent e := Ok e;
  WritePBMessage e := Ok e;
  ceSource e := match jget "source" e with Some (JStr s) => s | _ => "" end;
  ToTime v := match v with JNum t => Ok t | _ => Err "cannot convert to time" end;
  DecodeStatusResyncRequest e :=
    match jget "data" e with
    | Some (JObj l) => Ok ((fun '(k, v) => (k, match v with JStr h => h | _ => "" end)) <$> l)
    | _ => Ok []
    end;
  SetStatusData status spec e := Ok (put "data" (JObj status) e);
}.

#[export] Instance sample_kube : KubeClient := {
  TokenReviews_Create _ token := Ok (if decide (token = "t1") then Some ("alice", ["devs"]) else None);
  SubjectAccessReviews_Create _ spec :=
    Ok (bool_decide (spec.(Path) = "/sources/source2" /\ spec.(User) = "alice"));
}.
#[export] Instance sample_files : TLSFiles := {
  LoadX509KeyPair _ _ := Ok tt;
  SystemCertPool := Ok tt;
  ReadFile f := Ok f;
  AppendCertsFromPEM _ := true;
}.

Definition token_config : GRPCServerConfig := mkGRPCServerConfig "tls.crt" "tls.key" "token" "" false.
Definition token_server : GRPCServer := mkGRPCServer false (Some "token") false false.
Definition token_context : Context := mkContext None (Some {["authorization" := ["Bearer t1"]]}) None.

(** source2 asks to delete r1, which source1 created. *)
Definition foreign_event : CE :=
  Some [("clustername", JStr "cluster1"); ("resourceid", JStr "r1"); ("resourceversion", JNum 0);
        ("source", JStr "source2"); ("type", JStr "manifestbundles.spec.delete_request")].
Definition foreign_delete : PBEvent := foreign_event.

Lemma token_server_eq : NewGRPCServer token_config = Ok token_server.
Proof. vm_compute. reflexivity. Qed.

Lemma serve_Publish_guarded_witness :
  exists user groups n, authenticated "token" token_context user groups /\
    SubjectAccessReviews_Create n (mkSubjectAccessReviewSpec "/sources/source2" "pub" user groups) = Ok true.
Proof.
  destruct (serve_Publish_guarded token_config token_server token_context foreign_delete controller_world token_server_eq)
    as [_ H].
  destruct H as (evt & user & groups & n & [= <-] & Ha & Hs).
  - discriminate.
  - intros [[_ Hn] _]. vm_compute in Hn. discriminate Hn.
  - exists user, groups, n. split; [exact Ha|exact Hs].
Defined.

Definition unversioned_update : Resource := set_Version 0 update_request.

Lemma update_without_version_witness :
  (handle_spec "update_request" unversioned_update controller_world).1 = succeeded /\
  exists r, update_done (set_Version 1 unversioned_update) (bump controller_world) r
              (handle_spec "update_request" unversioned_update controller_world).2.
Proof.
  split; [vm_compute; reflexivity|].
  destruct (update_without_version unversioned_update sample_resource controller_world controller_world_wf (no_fault _))
    as [_ (r & H & _)]; [reflexivity|vm_compute; reflexivity|]. exists r. exact H.
Defined.

Definition alice : Context := mkContext None None (Some ("alice", ["devs"])).
Definition foreign_resource : Resource :=
  match decodeResourceSpec foreign_event with Ok r => r | Err _ => sample_resource end.

Lemma delete_ignores_owner_witness :
  (Publish token_server alice foreign_delete controller_world).1 = succeeded /\
  exists now ok, wrote controller_world (soft_delete_resource now "r1" controller_tables) "r1" DeleteEventType
                   (Publish token_server alice foreign_delete controller_world).2 ok.
Proof.
  split; [vm_compute; reflexivity|].
  destruct (delete_ignores_owner token_server alice foreign_delete foreign_event
              (mkCloudEventsType "manifestbundles" "spec" "delete_request") foreign_resource sample_resource
              "alice" ["devs"] controller_world controller_world_wf) as (now & ok & H & _);
    [reflexivity|reflexivity|reflexivity|vm_compute; reflexivity|vm_compute; reflexivity|reflexivity
    |vm_compute; reflexivity|vm_compute; discriminate|vm_compute; reflexivity|vm_compute; discriminate|reflexivity|].
  exists now, ok. exact H.
Defined.

(** source1 has an outdated hash of r1 and does not list r2. *)
Definition resync_request : CE :=
  Some [("data", JObj [("r1", JStr "old")]); ("source", JStr "source1")].

Lemma respondResync_exact_witness :
  exists sent, respondResyncStatusRequest resync_request controller_world =
    (None, set_broadcasts (rev sent ++ []) (bump controller_world)) /\
    (load scanNull sample_resource : Resource) ∈ sent.
Proof.
  destruct (respondResync_exact resync_request controller_world controller_world_wf (no_fault _)) as (sent & H & _ & Hin).
  exists sent. split; [exact H|]. apply Hin. split.
  - exists "r1", sample_resource. split_and!; vm_compute; reflexivity.
  - right. exists "old". eexists. split; [exists [], []; split; [reflexivity|apply not_elem_of_nil]|].
    split; [apply HashOfNothing; reflexivity|]. intros He. apply (f_equal String.length) in He. vm_compute in He. discriminate He.
Defined.

Definition pass (r : Resource) : result JSONMap string := Ok r.(Status).
Definition one_waiting : Subscription.State JSONMap :=
  Subscription.mkState true false [None] [] None Subscription.Looping true [] [None] None.
Lemma one_waiting_reachable : Subscription.reachable false pass one_waiting.
Proof. apply rtc_once. apply (Subscription.Handle pass false [] [] None _ _ [] [] None sample_resource None); [reflexivity|]. apply le_n_S, Nat.le_0_l. Qed.

Lemma subscription_delivers_in_order_witness : subscription_ok false pass one_waiting.
Proof. apply subscription_delivers_in_order. exact one_waiting_reachable. Defined.

Lemma subscription_send_error_lost_witness :
  exists s', Subscription.reachable false pass s' /\ s'.(Subscription.returned) = Some None.
Proof.
  destruct (subscription_send_error_lost false pass one_waiting "transport is closing" one_waiting_reachable)
    as (s' & Hr & _ & Hn); [reflexivity|reflexivity|discriminate|]. exists s'. split; [exact Hr|exact Hn].
Defined.
