(* ===== verification/CliWitnesses.v ===== *)
(** * The theorems of the command line clients on a concrete deployment

    The flags of a command given on the command line, the sample database behind both
    servers, and events as JSON documents. *)

From S2P Require Import Prelude GoLib Sha256 Errors Types Json Bundle Validation Gorm World Dao DaoFacts Locks Transactions Services Samples ServiceFacts Auth Controllers ControllerWitnesses SourceClient SourceClientFacts EventServer GrpcServer GrpcServerFacts ListQuery GenericList Presenters SliceFilter Rest RestFacts Pager JsonStruct GoMap Models ModelFacts Configuration CliConfig CliOutput OpenapiClient Wire Cli CliFacts CliPublishFacts RestWitnesses ServerWitnesses GrpcWitnesses.
Import api errors.

Open Scope Z_scope.

(** ** Instances *)

#[export] Instance seconds : Durations := fun s =>
  match Strconv.Atoi (Strings.TrimSpaceRight s) with (n, None) => Ok (n * 1000000000) | _ => Err "time: invalid duration" end.
#[export] Instance dials : GrpcDial := fun _ => Ok tt.
#[export] Instance wall_clock : ClockFormat := pretty.
#[export] Instance key_order : MapOrder := id.

#[export] Instance doc_spec_events : SpecEvents := {
  NewEvent := Some [];
  SetDataContentType t e := put "datacontenttype" (JStr t) e;
  SetSpecData d e :=
    let e := put "data" (JObj d) e in
    if map_ok e && Json.exact (JObj d) then Ok e else Err "json: unsupported value";
}.

Lemma source_put k v e : k <> "source" -> ceSource (put k v e) = ceSource e.
Proof. intros Hk. cbn [ceSource doc_source_events]. rewrite jget_put. by rewrite decide_False. Qed.

Lemma oget_In k v (l : list (string * json)) : oget k l = Some v -> In (k, v) l.
Proof. induction l as [|[k' v'] l IH]; cbn; [done|]. case_decide; [intros [= ->]; left; congruence|right; auto]. Qed.

#[export] Instance doc_spec_laws : SpecEventsLaws.
Proof.
  split.
  - intros k. cbn [ceExtensions ce NewEvent doc_spec_events]. by case_decide.
  - intros. apply ext_put. vm_compute. set_solver.
  - intros. by apply type_put.
  - intros s e. cbn [ceSource doc_source_events SetSource doc_ops]. by rewrite jget_put, decide_True.
  - intros. by apply source_put.
  - intros. by apply source_put.
  - intros k v e Hk%extension_no_attribute. apply source_put. intros ->. apply Hk. do 2 right. left.
  - intros d e e'. cbn [SetSpecData doc_spec_events]. destruct (_ && _); intros [= <-]. split_and!; [|by apply type_put|by apply source_put]. intros k. apply ext_put. vm_compute. set_solver.
  - intros e pb [= <-]. by exists e.
  - intros d e e' m. cbn [SetSpecData doc_spec_events].
    destruct (map_ok (put "data" (JObj d) e)) eqn:Hok; [|done]. destruct (Json.exact (JObj d)) eqn:Hx; [|done]. intros [= <-].
    unfold put in Hok. cbn [map_ok opt_ok] in Hok. apply andb_prop in Hok as [Hw Hxe].
    assert (document (put "data" (JObj d) e) = Ok (put "data" (JObj d) e)) as ->.
    { unfold document, put. cbn [ceMarshal ce jsonMapUnmarshal DocumentEvents.doc]. by rewrite Json.UnmarshalMap_Marshal. }
    intros [= <-]. split_and!.
    + rewrite jget_put, decide_True by done. symmetry. apply reread_exact; [|done]. cbn [Json.json_wf] in Hw. apply andb_prop in Hw as [_ Hw].
      apply (proj1 (forallb_forall _ _) Hw ("data", JObj d)). apply oget_In. apply oget_oset.
    + intros k s Hk Hs. rewrite jget_put. cbn [ceExtensions ce] in Hs. apply extension_no_attribute in Hk.
      rewrite decide_False in Hs by done. rewrite decide_False; [done|]. intros <-. apply Hk. vm_compute. set_solver.
    + intros k Hk Hs. rewrite jget_put. cbn [ceExtensions ce] in Hs. apply extension_no_attribute in Hk.
      rewrite decide_False in Hs by done. rewrite decide_False; [done|]. intros <-. apply Hk. vm_compute. set_solver.
  - intros a Ha. assert (Forall (fun a => let t := mkCloudEventsType "manifestbundles" "spec" a in
                           ParseCloudEventsType (TypeString t) = Ok t) ["create_request"; "update_request"; "delete_request"]) as Hf.
    { repeat constructor. }
    exact (proj1 (Forall_forall _ _) Hf a Ha).
Qed.

(** ** A command *)

(** The settings given on the command line; the others have their defaults. *)
Definition command (settings : list (string * string)) (slices : list (string * list string)) (yes : bool) : Command :=
  mkCommand
    (fun flag => Ok (match get flag settings with Some v => v | None => default "" (flag_default "maestro" flag) end))
    (fun flag => Ok (if decide (flag = "yes") then yes else false))
    (fun _ => Ok 1)
    (fun _ => Ok 30000000000)
    (fun flag => Ok (default [] (get flag slices)))
    (fun flag => bool_decide (is_Some (get flag settings)))
    (fun _ => "")
    (Err "EOF").

Definition token_command : Command :=
  command [("grpc-ca-file", "ca.crt"); ("grpc-token-file", "t1 ")] [] true.
Definition token_client : GRPCClient := mkGRPCClient "127.0.0.1:30090" (TLS12 "ca.crt" None) (Some "t1") "maestro".

Lemma clients_as_configured_witness :
  exists cfg, LoadConfigFromFlags token_command = Ok cfg /\ NewGRPCClient (Some cfg) = Ok token_client /\
    exists ca token cert key, chosen token_command FlagGRPCCAFile EnvGRPCCAFile ca /\
      authorized_by (mkGRPCConfig "127.0.0.1:30090" ca token cert key "maestro") token_client.
Proof.
  eexists. split; [vm_compute; reflexivity|]. split; [vm_compute; reflexivity|].
  destruct (clients_as_configured token_command (mkConfig (mkRESTConfig "https://127.0.0.1:30080" false 30000000000)
              (mkGRPCConfig "127.0.0.1:30090" "ca.crt" "t1 " "" "" "maestro"))) as [_ H]; [vm_compute; reflexivity|].
  destruct (H token_client) as (ca & token & cert & key & _ & _ & _ & Hca & _ & _ & _ & Ha); [vm_compute; reflexivity|].
  exists ca, token, cert, key. split; [exact Hca|exact Ha].
Defined.

(** c1 has no labels; it gets two, of which one is removed again. *)
Definition update_command : Command :=
  command [("output", "json")] [("label", ["a=1"; "b=2"; "a=3"]); ("remove-label", ["b"])] true.

Lemma sample_writable : consumers_writable rest_world.
Proof.
  intros k row Hrow.
  assert (map_Forall (fun _ row => consumer_ok (PresentConsumer row) = true) rest_world.(tables).(consumers)) as Hf.
  { apply (bool_decide_unpack _). vm_compute. exact I. }
  exact (Hf k row Hrow).
Qed.

Lemma consumer_update_spec_witness :
  (exists row, (consumer_runUpdate (fun _ => send "op1") update_command "c1" rest_world).2.(tables).(consumers) !! "c1" = Some row /\
     (row : Consumer).(Labels) = Some [("a", "3")]) /\
  exists (row : Consumer) labels, rest_world.(tables).(consumers) !! "c1" = Some row /\
    relabelled "c1" labels rest_world (consumer_runUpdate (fun _ => send "op1") update_command "c1" rest_world).2 /\
    get "a" labels = Some "3" /\ get "b" labels = None.
Proof.
  split; [eexists; split; vm_compute; reflexivity|].
  pose proof (consumer_update_spec "op1" update_command "c1" rest_world) as H.
  destruct (consumer_runUpdate (fun _ => send "op1") update_command "c1" rest_world) as [e w'] eqn:E.
  destruct H as [[_ He]|(row & labels & Hrow & Hr & _ & Hg)]; [apply sample_tables_wf|split; [discriminate|reflexivity]|apply sample_writable| |].
  - exfalso. apply He. change e with (e, w').1. rewrite <-E. vm_compute. reflexivity.
  - exists row, labels. split; [exact Hrow|]. split; [exact Hr|]. split; rewrite Hg; reflexivity.
Defined.

(** A manifest for r1, which is stored with version 1, and a server without TLS. *)
Definition manifest (version : Z) : string :=
  Json.Marshal (JObj [("consumer_name", JStr "cluster1"); ("id", JStr "r1");
    ("manifests", JArr [JObj [("apiVersion", JStr "v1"); ("kind", JStr "ConfigMap");
       ("metadata", JObj [("name", JStr "b"); ("namespace", JStr "default")])]]); ("version", JNum version)]).
(** The contents of a file of the sample file system are its name. *)
Definition apply_command (version : Z) : Command := command [("file", manifest version)] [] true.
Definition open_server : GRPCServer := mkGRPCServer true None false false.
Definition anyone : Context := mkContext None None None.
Definition applied (version : Z) : exit * World :=
  bundle_runApply (fun _ => send "op1") (fun _ => call_server open_server anyone) (apply_command version) rest_world.

(** An outdated manifest is refused; the current one makes version 2. *)
Lemma apply_spec_witness :
  (applied 7).1.(exit_error) <> None /\ (applied 7).2.(tables) = rest_world.(tables) /\
  (exists row, (applied 1).2.(tables).(resources) !! "r1" = Some row /\ (row : Resource).(Version) = 2) /\
  exists row : Resource, rest_world.(tables).(resources) !! "r1" = Some row /\ row.(Version) = 1 /\
    IsZero row.(DeletedAt).(NTime) = true.
Proof.
  split; [vm_compute; discriminate|]. split; [vm_compute; reflexivity|].
  split; [eexists; split; vm_compute; reflexivity|].
  pose proof (apply_spec open_server anyone "op1" (apply_command 1) rest_world sample_tables_wf) as H.
  change (bundle_runApply _ _ (apply_command 1) rest_world) with (applied 1) in H.
  assert (Some (applied 1).1.(exit_error) = Some None) as E by (vm_compute; reflexivity).
  destruct (applied 1) as [e w']. cbn [fst] in E. injection E as E.
  destruct H as [[_ He]|(file & data & b & config & g & action & res & w1 & Hf & Hd & Hb & _ & _ & _ & _ & _ & _ & _ & _ & _ & _ & H)].
  - exfalso. exact (He E).
  - vm_compute in Hf. injection Hf as <-. cbn in Hd. injection Hd as <-. vm_compute in Hb. injection Hb as <-.
    apply (H E "r1" 1); [reflexivity|reflexivity|discriminate].
Defined.

Lemma delete_spec_witness :
  exists r, deleting_done "r1" rest_world r
    (bundle_runDelete (fun _ => send "op1") (fun _ => call_server open_server anyone) (apply_command 1) "r1" rest_world).2 /\ r = None.
Proof.
  pose proof (delete_spec open_server anyone "op1" (apply_command 1) "r1" rest_world sample_tables_wf) as H.
  assert (Some (bundle_runDelete (fun _ => send "op1") (fun _ => call_server open_server anyone) (apply_command 1) "r1" rest_world).1.(exit_error)
          = Some None) as E by (vm_compute; reflexivity).
  destruct (bundle_runDelete _ _ (apply_command 1) "r1" rest_world) as [e w']. cbn [fst snd] in *. injection E as E.
  destruct H as [[_ [He|Hn]]|(_ & r & Hr & Hok)].
  - exfalso. exact (He E).
  - exfalso. apply Hn. left. reflexivity.
  - exists r. split; [exact Hr|]. apply Hok. exact E.
Defined.

(** Without consent nothing happens. *)
Example delete_cancelled :
  (bundle_runDelete (fun _ => send "op1") (fun _ => call_server open_server anyone)
     (mkCommand (fun f => Ok (default "" (flag_default "maestro" f))) (fun _ => Ok false) (fun _ => Ok 1) (fun _ => Ok 1) (fun _ => Ok [])
        (fun _ => false) (fun _ => "") (Ok ("No" +:+ nl))) "r1" rest_world).2.(tables) = rest_world.(tables).
Proof. vm_compute. reflexivity. Qed.

(** The tables the commands print. *)
Example list_is_aligned :
  (PrintConsumerList [wire_consumer]).(stdout) =
    "ID   NAME       LABELS         CREATED" +:+ nl +:+ "c1   cluster1   env=a,zone=b   5" +:+ nl.
Proof. vm_compute. reflexivity. Qed.
