(* ===== verification/MetricsWitnesses.v ===== *)
(** * The theorems of the middleware and the metrics on a concrete deployment

    A registry that keeps the names in use, a client that takes no compression, and requests
    to the sample database. *)

From S2P Require Import Prelude GoLib Sha256 Errors Types Json Bundle Validation Gorm World Collectors Dao DaoFacts Locks Transactions Services Samples ServiceFacts Auth Controllers ControllerWitnesses SourceClient SourceClientFacts EventServer GrpcServer GrpcMetrics GrpcServerFacts ListQuery GenericList Presenters SliceFilter Rest Pager JsonStruct GoMap Models OpenapiClient Wire Middleware MiddlewareFacts RestWitnesses ServerWitnesses GrpcWitnesses.
Import api errors.

Open Scope Z_scope.

#[export] Instance name_registry : Prometheus.
Proof.
  refine {| Registry := gset string; names r := r;
            Register c r := if decide (fqName c ∈ r) then Err "duplicate metrics collector registration attempted"
                            else Ok ({[fqName c]} ∪ r) |}.
  intros c r _ Hf. exists ({[fqName c]} ∪ r). by rewrite decide_False.
Defined.

(** A process that links the controllers and the database, on a registry that has the
    collectors of the Go runtime. *)
Lemma metrics_registered_witness :
  exists r', MustRegister_all (concat [controllers_init; RegisterAdvisoryLockMetrics]) ({["go_goroutines"]} : gset string) = Some r' /\
    names r' = list_to_set (fqName <$> concat [controllers_init; RegisterAdvisoryLockMetrics]) ∪ {["go_goroutines"]}.
Proof.
  assert (Hdec : Forall (fun c => fqName c <> "go_goroutines") (concat inits)).
  { repeat (constructor; [discriminate|]). constructor. }
  refine (proj1 (metrics_registered [controllers_init; RegisterAdvisoryLockMetrics]
    [event_init; RegisterResourceMetrics; undelivered_detector_init; stale_delete_detector_init; grpcsource_init;
     middleware_init; RegisterGRPCMetrics] {["go_goroutines"]} _ _)).
  - exact (Permutation_middle [RegisterAdvisoryLockMetrics; event_init; RegisterResourceMetrics]
      [undelivered_detector_init; stale_delete_detector_init; grpcsource_init; middleware_init; RegisterGRPCMetrics] controllers_init).
  - intros c Hc Hin. rewrite Forall_forall in Hdec. apply (Hdec c Hc). exact (proj1 (elem_of_singleton _ _) Hin).
Defined.

(** ** A request through the server *)

#[export] Instance no_compression : CompressHandler.
Proof. refine {| compress _ l := l |}; [done|]. intros r bs. by exists bs. Defined.

Definition get_c1 : HttpRequest :=
  mkHttpRequest GET "/api/maestro/v1/consumers/c1/" "/api/maestro/v1/consumers/c1/" "10.0.0.1:4711"
    [("X-Operation-Id", ["op-7"])] (Ok "") (fun _ => "") None None.

Lemma serve_request_spec_witness :
  exists run s, serve_request "{}" false "1ms" get_c1 = Some run /\ (run rest_world).1 = s /\
    final_status s.(writer) = 200 /\
    Sampled (mkSample server.requestCountMetric ["GET"; "/api/maestro/v1/consumers/-"; "200"] Inc) ∈ s.(effects).
Proof.
  destruct (serve_request_spec "{}" false "1ms" get_c1 rest_world "/api/maestro/v1/consumers/{id}" _ eq_refl)
    as (run & s & Hrun & Hs & Hw & Hp & _ & _ & _ & He).
  - intros c Hc. vm_compute in Hc. repeat (apply elem_of_cons in Hc as [Hc|Hc]; [try discriminate Hc|]);
      [injection Hc as ->; discriminate|by apply elem_of_nil in Hc].
  - exists run, s. split; [exact Hrun|]. split; [by rewrite Hs|].
    assert (Hf : final_status s.(writer) = 200) by (rewrite Hw; vm_compute; reflexivity).
    split; [exact Hf|]. rewrite He, Hf. apply elem_of_cons. right. apply elem_of_cons. by left.
Defined.

(** The id of the client's header is the one the handlers see. *)
Example request_id : (operation_id get_c1 rest_world).1 = "op-7".
Proof. reflexivity. Qed.

(** The metadata handler sets no status: the metrics count 200, the log line has none. *)
Example metadata_unlogged :
  (run ← serve_request "{}" false "1ms" (set_path "/api/maestro/v1" get_c1); last (effects ((run rest_world).1))) =
  Some (Logged 2 (Json.Marshal (JObj [("elapsed", JStr "1ms")]))).
Proof. vm_compute. reflexivity. Qed.

(** ** Calls of the gRPC server *)

#[export] Instance sample_status : GrpcStatus := fun _ => Unknown.

Lemma metered_Publish_spec_witness :
  (metered_Publish "/io.cloudevents.v1.CloudEventService/Publish" token_server token_context foreign_delete controller_world).1.2 =
    [mkSample server.grpcCalledCountMetric ["Publish"; "source2"] Inc;
     mkSample server.grpcMessageReceivedCountMetric ["Publish"; "source2"] Inc;
     mkSample server.grpcMessageSentCountMetric ["Publish"; "source2"] Inc;
     mkSample server.grpcProcessedCountMetric ["Publish"; "source2"; "OK"] Inc;
     mkSample server.grpcProcessedDurationMetric ["Publish"; "source2"] Observe].
Proof.
  assert (Hn : ~ In Strings.slash (String.list_ascii_of_string "io.cloudevents.v1.CloudEventService"))
    by (vm_compute; intuition discriminate).
  pose proof (metered_Publish_spec "io.cloudevents.v1.CloudEventService" token_server token_context foreign_delete controller_world Hn) as H.
  change (full_method "io.cloudevents.v1.CloudEventService" "Publish") with "/io.cloudevents.v1.CloudEventService/Publish" in H.
  destruct (metered_Publish _ _ _ _ _) as [[resp recorded] w'] eqn:E. destruct H as (_ & Hresp & Hrec). cbn [fst snd].
  rewrite Hrec. assert (resp = succeeded) as -> by (vm_compute in E; injection E; intros; by subst). reflexivity.
Defined.

Definition two_sent : M World (list stream_call * rpc) := ret ([RecvMsg (Some "source1") None; SendMsg None; SendMsg (Some "EOF")], Returns None).
Lemma metered_Subscribe_spec_witness :
  newMetricsStreamInterceptor true false (full_method "s" "Subscribe") two_sent controller_world =
    ((succeeded, [mkSample server.grpcCalledCountMetric ["Subscribe"; "source1"] Inc;
                  mkSample server.grpcMessageReceivedCountMetric ["Subscribe"; "source1"] Inc;
                  mkSample server.grpcMessageSentCountMetric ["Subscribe"; "source1"] Inc;
                  mkSample server.grpcMessageSentCountMetric ["Subscribe"; "source1"] Inc;
                  mkSample server.grpcProcessedCountMetric ["Subscribe"; "source1"; "OK"] Inc]), controller_world).
Proof.
  refine (proj2 (metered_Subscribe_spec "s" two_sent controller_world "source1" None [None; Some "EOF"] succeeded controller_world _ eq_refl)).
  vm_compute. intuition discriminate.
Defined.
